(* ===== verification/_CoqProject ===== *)
-Q . S2P
Prelude.v
Util.v
Text.v
Buf.v
BufSpec.v
Checksum.v
Timer.v
Netif.v
Ip.v
Icmp.v
Udp.v
Reassembler.v
Arrival.v
TcpOptions.v
Tcp.v
Stack.v
TcpSpec.v
TcpData.v
TcpConn.v
TcpControl.v
TcpOpen.v
TcpSegments.v
TcpListen.v
TcpTransition.v
StackSpec.v
Transfer.v
Connect.v
Teardown.v
BufKeeps.v
NetKeeps.v
TcpKeeps.v
TimerRound.v
TcpInv.v
Reach.v
LockOrder.v
Locks.v
Apps.v
BufProps.v
UtilProps.v
TextProps.v
TestHost.v
TestStack.v
TimerProps.v
NetProps.v
TcpProps.v
TcpConnProps.v
StackProps.v
ConnectProps.v
MessageProps.v
TeardownProps.v
LockProps.v
AppProps.v
TestKit.v
UtilTests.v
BufTests.v
TcpTests.v
TimerTests.v
UnitTests.v
