(* ===== verification/Prelude.v ===== *)
(** * A verification of the Rust network stack

    The program is a TCP/IP stack that runs in user space on a TUN device.
    A packet is read from the device into a chain of fixed-size fragments
    (buf.rs), its IP header is checked and removed (ip.rs), and it is handed to
    ICMP, UDP or TCP (icmp.rs, udp.rs, tcp.rs).  Output goes the other way: a
    protocol puts its header in front of the data, IP another one, and the
    interface (netif.rs) gives the fragments to the device.  Timers run on a
    thread of their own (timer.rs), packets are received on another (lib.rs),
    and applications call the sockets of UDP and TCP from theirs.

    ** How the code is modelled

    Every function of the code is a computation [ST S A := S → outcome (A * S)]
    over the statics [S] of its file; an [outcome] is a value ([Ok]), a panic, a
    call of exit(), or a model that was not given enough turns ([OutOfFuel]).
    Integers are [Z] with the operations of their type written out: the
    checked ones panic, as in the build the unit tests run, the wrapping_ ones
    reduce modulo 2^w, casts truncate.  Slices are [list Z]; indexing and
    slicing out of range panic.  A file that calls another reaches its statics
    through a lens (class [Lens], [zoom]).  Sockets, which the code shares
    by reference count, are indices into a table; [lock] reads the guard of a
    socket out of the table and [unlock] writes it back, and no operation locks
    a socket while it holds its guard.  An operation that waits
    returns at that point and has a second definition for being woken.

    ** The files

    - Prelude: this header; outcomes, [ST] and its notation, record update,
      lenses, integer operations, slices; the judgements [returns] and
      [runs m s Q] ([m] returns normally from [s] and its result satisfies
      [Q]) with their rules and the tactics [run] and [call].
    - Util, Text, Checksum: src/src/stack/util.rs (Text: what is printed, and
      the check of UTF-8).  Buf: buf.rs, BufSpec: what its
      operations do, in terms of the bytes of a buffer ([contents]), the
      invariant the unit tests check ([buf_ok]) and the ledger of fragments
      ([pool_ok]).
    - Timer: timer.rs.  Netif: netif.rs.  Ip: ip.rs, with the transport
      protocols as the class [Transport].  Icmp: icmp.rs.  Udp: udp.rs.
      Each of these holds the definitions and then their specifications.
    - Reassembler, TcpOptions, Tcp: tcp.rs.  [tcp_input] is split as the code
      is laid out: [decode_header], [input_no_socket], and [input_socket] with
      its phases [segment_arrives], [receive_data], [acknowledge_data],
      [process_ack], [update_window] and [state_transition].  TcpSpec, TcpData,
      TcpConn, TcpControl, TcpOpen, TcpSegments, TcpListen and TcpTransition
      specify them: the invariant of all sockets is [tcp_ok] in TcpSpec.
      TimerRound: what the closures of the timers do to the list of timers.
      Arrival says what the reassembler makes of a stream's segments, in
      whatever order and however often they arrive.
    - Stack: lib.rs, one turn of each thread over the statics of all files;
      StackSpec: what a turn of the receive thread does with a frame; Transfer:
      the frames of one host's tcp_write at another host; Connect: the segments
      of the handshake at the two hosts, and when two sockets lead to each
      other ([leads_to], [synchronised]); Teardown: the segments and timers
      that end a connection.
    - BufKeeps, NetKeeps, TcpKeeps, TcpInv, Reach: safety.  [keeps m s Q] says
      that if [m] returns from [s] then [Q] holds (a panic, a wait or an exit
      end the run); each file has the operations of its layer keep the
      layer's invariant for any arguments and packets, and Reach puts them
      together: the program as a transition system ([reachable]) in which
      applications, threads and the clock take turns.
    - LockOrder: threads, mutexes and condition variables, and a discipline
      under which threads cannot block each other; Locks: which mutexes every
      function takes, gives back and waits with, in the order of the code, as
      programs of LockOrder.
    - Apps: src/src/test_apps, the four applications as the steps of their
      threads.
    - TestHost, TestStack: concrete devices, clock, random generator, sockets
      and hosts, on which the theorems are applied.
    - BufProps, UtilProps, TextProps, TimerProps, NetProps, TcpProps,
      TcpConnProps, StackProps, ConnectProps, MessageProps, TeardownProps,
      LockProps, AppProps: the theorems.
    - TestKit, UtilTests, BufTests, TcpTests, TimerTests: the unit tests of the
      code, as programs of the model; UnitTests evaluates them.

    ** What the theorems show

    - ConnectProps, two hosts: tcp_open on one and a listening socket on the
      other exchange three segments, after which the sockets of both are open,
      each leads to the other, and the waiting threads are woken.
    - MessageProps, two hosts: over such a connection what one application
      writes, if it fits into the window, is what the other reads.
    - TeardownProps, two hosts: when both applications close such a connection
      both sockets reach CLOSED, the second only through a reset, and nothing
      that was received is lost.
    - StackProps, whole hosts: what tcp_write sends on one host is what tcp_read
      finds on another, through every layer and in any order of arrival; the
      same of datagrams; a segment is read back by tcp_input as tcp_output was
      given it; a ping is answered, and what nobody wants is dropped, with
      nothing else changed; and in every reachable state of a host no fragment
      is lost, no reference dangles, and every number has its machine type.  (The Drop of a
      fragment, which panics, is therefore never reached while buffers are
      returned to the pool: the ledger [pool_ok] always balances.)
    - LockProps: however the steps of any number of threads interleave, no
      mutex is held twice, a thread that waits on a condition variable holds
      none, and no threads block each other for ever; with one of the drops
      that the code marks as needed left out, they can.
    - AppProps: what a peer sees of the echo server and of the web server,
      what the upload sends and how it ends, and what the download prints.
    - TcpProps, the flow of data: segments in any order extend the receive
      queue by the peer's stream without gap or repetition, reading takes it
      from the front, writing sends the data in order, inside the window, and
      keeps what is not acknowledged, acknowledgements remove exactly what they
      cover; options are read back.
    - TcpConnProps, connections: opening, both sides of the handshake, the
      transitions a valid segment can cause, with or without data, closing,
      resets, refusal, listening, and the response timer.
    - BufProps: a buffer is a byte string under every sequence of operations
      and no fragment is lost.  UtilProps: the checksum is the one's
      complement sum of RFC 1071, comparison of sequence numbers orders any
      window of less than 2^31.  TimerProps: a round of the
      timer thread runs the closure of each expired timer once, in order.
      NetProps: IP, ICMP and UDP input and output.  TextProps: the text of an
      address is the text of no other one.
    - UnitTests: the model passes the unit tests of the code, run one after
      another on one pool; the tests of util.rs, buf.rs and tcp.rs that return
      leave no fragment outside the pool.
    - Inputs that make the code panic or loop are theorems as well: in TcpProps
      an option of length 0 and a segment size of 0, which a SYN without that
      option sets; in TcpConnProps a lost handshake, an acknowledgement of
      what was never sent, a FIN in FIN-WAIT-2 and one with the highest
      sequence number; in NetProps bad lengths; in BufProps misuse, and the
      metrics report once its counters have wrapped around.

    ** Bounds and fuel

    Loops that are structural on the data need no fuel.  The carry loop of the
    checksum, the scan of the timer list, the search for a port, the loop of
    tcp_write and that of parse_options are given a number of turns; each has
    a theorem or a lemma that the number the code's caller passes is enough
    (or, for an option of length 0, that none is).  The safety theorem holds
    for any number of turns.  Buffers are
    assumed to have even fragments but for the last ([even_layout]) where a
    checksum is concerned: the code's packets do, and its result is wrong for
    others (UtilProps, [buffer_checksum_odd_fragment]).

    ** Not modelled

    The device (tun.c), the clock and the random generator are parameters:
    the classes [Tun] and [Random], with hypotheses in [TunOk] and [RandomOk]
    (a system call returns a count in range, a random number is in the range
    of its type).  The clock does not advance within one operation.  In
    the states of the stack, threads are interleaved at whole operations and at
    the points where one waits; that the mutexes allow this is not derived from
    them: they are modelled on their own, in Locks, with the data left out.
    Sockets
    are never dropped from the table, so neither the closing of a socket with
    its last reference nor its reuse appears.  Messages about the progress of
    the stack and of the applications are left out (what they print of
    addresses and of received data is in Text and Apps), and waiting for a key
    or sleeping only lets time pass.  What unwinding after a panic does to the
    statics is not modelled: a panic ends the run.  The benchmarks, which
    measure time, and the build and test scripts are left out. *)

From stdpp Require Export prelude.
From Stdlib Require Export ZArith Lia.

Local Open Scope Z_scope.

Declare Scope netstack_scope.
Delimit Scope netstack_scope with net.
Open Scope netstack_scope.

(** * Outcomes

    What a piece of Rust code does when it is run to completion. *)

Inductive outcome (A : Type) : Type :=
| Ok (a : A)
| Panic
| Exit
| OutOfFuel.

Arguments Ok {A} _.
Arguments Panic {A}.
Arguments Exit {A}.
Arguments OutOfFuel {A}.

#[export] Instance outcome_ret : MRet outcome := @Ok.
#[export] Instance outcome_bind : MBind outcome := λ A B k m,
  match m with
  | Ok a => k a
  | Panic => Panic
  | Exit => Exit
  | OutOfFuel => OutOfFuel
  end.

(** [returns m Q]: [m] returns normally and its result satisfies [Q]. *)
Definition returns {A : Type} (m : outcome A) (Q : A → Prop) : Prop :=
  match m with
  | Ok a => Q a
  | _ => False
  end.

(** [assert!(b)]. *)
Definition rust_assert (b : bool) : outcome unit := if b then Ok tt else Panic.

(** [Option::unwrap]. *)
Definition unwrap {A : Type} (o : option A) : outcome A :=
  match o with
  | Some a => Ok a
  | None => Panic
  end.

(** * Stateful code

    A computation over a state [S] that returns an [A], panics, exits the
    process or runs out of the iterations a loop was given. *)

Definition ST (S A : Type) : Type := S → outcome (A * S).

#[export] Instance st_ret {S : Type} : MRet (ST S) := λ A a s, Ok (a, s).
#[export] Instance st_bind {S : Type} : MBind (ST S) := λ A B k m s,
  match m s with
  | Ok (a, s') => k a s'
  | Panic => Panic
  | Exit => Exit
  | OutOfFuel => OutOfFuel
  end.

Definition lift {S A : Type} (m : outcome A) : ST S A := λ s,
  match m with
  | Ok a => Ok (a, s)
  | Panic => Panic
  | Exit => Exit
  | OutOfFuel => OutOfFuel
  end.

Definition panic {S A : Type} : ST S A := λ _, Panic.
Definition out_of_fuel {S A : Type} : ST S A := λ _, OutOfFuel.
Definition exit_process {S A : Type} : ST S A := λ _, Exit.
Definition fetch {S : Type} : ST S S := λ s, Ok (s, s).
Definition fetches {S A : Type} (f : S → A) : ST S A := λ s, Ok (f s, s).
Definition modify {S : Type} (f : S → S) : ST S unit := λ s, Ok (tt, f s).

(** [runs m s Q]: started in [s], [m] returns, and the result and the final
    state satisfy [Q] (total correctness: no panic, no missing fuel). *)
Definition runs {S A : Type} (m : ST S A) (s : S) (Q : A → S → Prop) : Prop :=
  returns (m s) (λ r, Q r.1 r.2).

(** ** States inside larger states

    A component keeps its own state type; a client whose state contains it
    runs the component's code through the lens. *)
Class Lens (S T : Type) : Type := {
  view : S → T;
  update : T → S → S;
  view_update : ∀ t s, view (update t s) = t;
  update_view : ∀ s, update (view s) s = s;
  update_update : ∀ t t' s, update t (update t' s) = update t s;
}.

Definition zoom {S T A : Type} `{!Lens S T} (m : ST T A) : ST S A := λ s,
  match m (view s) with
  | Ok (a, t) => Ok (a, update t s)
  | Panic => Panic
  | Exit => Exit
  | OutOfFuel => OutOfFuel
  end.

#[export, program] Instance lens_refl {S : Type} : Lens S S := {|
  view s := s;
  update t _ := t;
|}.
Solve All Obligations with reflexivity.

#[program] Definition lens_comp {S T U : Type} `{!Lens S T} `{!Lens T U} : Lens S U := {|
  view s := view (T := U) (view (T := T) s);
  update u s := update (T := T) (update (T := U) u (view (T := T) s)) s;
|}.
Next Obligation. intros; cbv beta; by rewrite !view_update. Qed.
Next Obligation. intros; cbv beta; by rewrite !update_view. Qed.
Next Obligation. intros; cbv beta; by rewrite view_update, !update_update. Qed.

(** ** Record updates

    [r <| f := v |>] is the assignment [r.f = v].  A record type declares its
    eta-expansion; the setter of a field is computed from it. *)
Class Eta (R : Type) : Type := eta : R → R.
Class Setter {R E : Type} (get : R → E) : Type := set_field : (E → E) → R → R.
Arguments set_field {R E} get {_} f r : assert.

Ltac build_setter :=
  lazymatch goal with
  | |- @Setter ?R ?E ?get =>
      let f := fresh "f" in let r := fresh "r" in intros f r;
      let inst := constr:(_ : Eta R) in
      let inst := eval red in inst in
      let body := eval cbv beta in (inst r) in
      let F := eval pattern (get r) in body in
      lazymatch F with
      | ?G (get r) => let b := eval cbv beta in (G (f (get r))) in exact b
      end
  end.
#[export] Hint Extern 0 (Setter _) => build_setter : typeclass_instances.

Notation "r '<|' f ':=' v '|>'" := (set_field f (λ _, v) r)
  (at level 1, left associativity, f at level 0, v at level 99,
   format "r  <| f  :=  v |>") : netstack_scope.
Notation "r '<|' f '::=' g '|>'" := (set_field f g r)
  (at level 1, left associativity, f at level 0, g at level 99,
   format "r  <| f  ::=  g |>") : netstack_scope.

(** * Machine integers

    An unsigned integer of [w] bits is a [Z] in [0, 2^w).  The plain Rust
    operators are checked (the debug profile panics on overflow), the
    [wrapping_*] methods and [as] casts reduce modulo [2^w]. *)

Abbreviation u8_size := 256.
Abbreviation u16_size := 65536.
Abbreviation u32_size := 4294967296.
Abbreviation u64_size := 18446744073709551616.
Abbreviation usize_size := u64_size.
Abbreviation usize_max := 18446744073709551615.

Definition checked_add (size a b : Z) : outcome Z :=
  if a + b <? size then Ok (a + b) else Panic.
Definition checked_sub (a b : Z) : outcome Z :=
  if b <=? a then Ok (a - b) else Panic.
Definition wrapping_add (size a b : Z) : Z := (a + b) mod size.
Definition wrapping_sub (size a b : Z) : Z := (a - b) mod size.
Definition truncate (size a : Z) : Z := a mod size.

(** [x as i32] for an unsigned [x]. *)
Definition as_i32 (x : Z) : Z :=
  let r := x mod u32_size in if r <? 2147483648 then r else r - u32_size.

Abbreviation u16_add := (checked_add u16_size).
Abbreviation u32_add := (checked_add u32_size).
Abbreviation u64_add := (checked_add u64_size).
Abbreviation usize_add := (checked_add usize_size).
Abbreviation u32_wrapping_add := (wrapping_add u32_size).
Abbreviation u32_wrapping_sub := (wrapping_sub u32_size).

Definition in_range (size a : Z) : Prop := 0 ≤ a < size.
Abbreviation is_u8 := (in_range u8_size).
Abbreviation is_u16 := (in_range u16_size).
Abbreviation is_u32 := (in_range u32_size).

(** * Slices *)

Definition zlen {A : Type} (l : list A) : Z := Z.of_nat (length l).

Arguments zlen : simpl never.

(** A byte string: every element is a [u8]. *)
Definition bytes_ok (l : list Z) : Prop := Forall is_u8 l.

(** [l[i]] *)
Definition index {A : Type} (l : list A) (i : Z) : outcome A :=
  if (0 <=? i) && (i <? zlen l) then unwrap (l !! Z.to_nat i) else Panic.

(** [l[i] = v] *)
Definition store {A : Type} (l : list A) (i : Z) (v : A) : outcome (list A) :=
  if (0 <=? i) && (i <? zlen l) then Ok (<[Z.to_nat i := v]> l) else Panic.

(** The elements of [l] at the indices from [a] to [b] (excluded). *)
Definition sub {A : Type} (l : list A) (a b : Z) : list A :=
  take (Z.to_nat (b - a)) (drop (Z.to_nat a) l).

(** [&l[a..b]] *)
Definition slice {A : Type} (l : list A) (a b : Z) : outcome (list A) :=
  if (0 <=? a) && (a <=? b) && (b <=? zlen l) then Ok (sub l a b) else Panic.

(** The list [l] with the elements from index [a] on overwritten by [src]. *)
Definition overwrite {A : Type} (l : list A) (a : Z) (src : list A) : list A :=
  take (Z.to_nat a) l ++ src ++ drop (Z.to_nat a + length src) l.

(** A function that writes through [&mut l[a..b]]. *)
Definition with_slice {A : Type} (l : list A) (a b : Z)
    (f : list A → outcome (list A)) : outcome (list A) :=
  sub ← slice l a b; sub' ← f sub; Ok (overwrite l a sub').

(** [dst.copy_from_slice(src)]: panics when the lengths differ. *)
Definition copy_from_slice {A : Type} (dst src : list A) : outcome (list A) :=
  if zlen dst =? zlen src then Ok src else Panic.

(** [src[i] = v] for a whole range: [slice::fill]. *)
Definition fill {A : Type} (dst : list A) (v : A) : outcome (list A) :=
  Ok (replicate (length dst) v).

(** The [n] zero bytes of a freshly allocated header or array. *)
Definition zeros (n : Z) : list Z := replicate (Z.to_nat n) 0.
Arguments zeros : simpl never.

Notation "m '//' s '⇓' a s' ',' Q" := (runs m s (λ a s', Q))
  (at level 70, s at next level, a name, s' name, Q at level 200,
   format "m  //  s  ⇓  a  s' ,  Q") : netstack_scope.
(** * Reasoning about outcomes and stateful code *)

(** [keeps m s Q]: if [m] returns, its result satisfies [Q].  It says nothing
    about runs that panic, and is used for what no run can break. *)
Definition keeps {S A : Type} (m : ST S A) (s : S) (Q : A → S → Prop) : Prop :=
  ∀ a s', m s = Ok (a, s') → Q a s'.

Section Programs.
Context {S T : Type}.

Lemma returns_Ok {A} (m : outcome A) (Q : A → Prop) :
  returns m Q ↔ ∃ a, m = Ok a ∧ Q a.
Proof. destruct m; naive_solver. Qed.

Lemma returns_mono {A} (m : outcome A) (P Q : A → Prop) :
  returns m P → (∀ a, P a → Q a) → returns m Q.
Proof. destruct m; naive_solver. Qed.

Lemma returns_bind {A B} (m : outcome A) (k : A → outcome B) (Q : B → Prop) :
  returns (m ≫= k) Q ↔ returns m (λ a, returns (k a) Q).
Proof. by destruct m. Qed.

Lemma rust_assert_true b : b = true → rust_assert b = Ok tt.
Proof. by intros ->. Qed.

Lemma rust_assert_false b : b = false → rust_assert b = Panic.
Proof. by intros ->. Qed.

Lemma unwrap_Ok {A} (o : option A) a : unwrap o = Ok a → o = Some a.
Proof. destruct o; [|done]. intros E. by injection E as ->. Qed.

Lemma runs_eq {A} (m : ST S A) s a s' (Q : A → S → Prop) :
  m s = Ok (a, s') → Q a s' → runs m s Q.
Proof. unfold runs. by intros ->. Qed.

Lemma runs_result {A} (m : ST S A) s (Q : A → S → Prop) a s' :
  runs m s Q → m s = Ok (a, s') → Q a s'.
Proof. unfold runs. intros H E. by rewrite E in H. Qed.

Lemma runs_Ok {A} (m : ST S A) s (Q : A → S → Prop) :
  runs m s Q ↔ ∃ a s', m s = Ok (a, s') ∧ Q a s'.
Proof.
  unfold runs. rewrite returns_Ok. split.
  - intros [[a s'] ?]; eauto.
  - intros (a & s' & ?). by exists (a, s').
Qed.

Lemma runs_mono {A} (m : ST S A) s (P Q : A → S → Prop) :
  runs m s P → (∀ a s', P a s' → Q a s') → runs m s Q.
Proof. intros H HPQ. eapply returns_mono; [exact H|]. intros [a s']; apply HPQ. Qed.

Lemma runs_and {A} (m : ST S A) s (P Q : A → S → Prop) :
  runs m s P → runs m s Q → runs m s (λ a s', P a s' ∧ Q a s').
Proof. unfold runs. destruct (m s) as [[]| | |]; naive_solver. Qed.

Lemma runs_ret {A} (a : A) (s : S) (Q : A → S → Prop) : runs (mret a) s Q ↔ Q a s.
Proof. done. Qed.

Lemma runs_bind {A B} (m : ST S A) (k : A → ST S B) s (Q : B → S → Prop) :
  runs (m ≫= k) s Q ↔ runs m s (λ a s', runs (k a) s' Q).
Proof. unfold runs, mbind, st_bind. by destruct (m s) as [[]| | |]. Qed.

Lemma runs_lift {A} (m : outcome A) (s : S) (Q : A → S → Prop) :
  runs (lift m) s Q ↔ returns m (λ a, Q a s).
Proof. unfold runs, lift. by destruct m. Qed.

Lemma runs_fetch (s : S) (Q : S → S → Prop) : runs fetch s Q ↔ Q s s.
Proof. done. Qed.

Lemma runs_fetches {A} (f : S → A) (s : S) (Q : A → S → Prop) :
  runs (fetches f) s Q ↔ Q (f s) s.
Proof. done. Qed.

Lemma runs_modify (f : S → S) (s : S) (Q : unit → S → Prop) :
  runs (modify f) s Q ↔ Q tt (f s).
Proof. done. Qed.

Lemma runs_zoom `{!Lens S T} {A} (m : ST T A) (s : S) (Q : A → S → Prop) :
  runs (zoom m) s Q ↔ runs m (view s) (λ a t, Q a (update t s)).
Proof. unfold runs, zoom. by destruct (m (view s)) as [[]| | |]. Qed.

(** Running sequences of commands that fail. *)
Lemma bind_Ok {A B} (m : ST S A) (k : A → ST S B) s a s' :
  m s = Ok (a, s') → (m ≫= k) s = k a s'.
Proof. unfold mbind, st_bind. by intros ->. Qed.

Lemma bind_Panic {A B} (m : ST S A) (k : A → ST S B) s :
  m s = Panic → (m ≫= k) s = Panic.
Proof. unfold mbind, st_bind. by intros ->. Qed.

(** Commands after a prefix that only reads. *)
Lemma fetches_bind {A B} (f : S → A) (k : A → ST S B) s : (fetches f ≫= k) s = k (f s) s.
Proof. done. Qed.

Lemma lift_Ok {A} (m : outcome A) (s : S) a : m = Ok a → lift m s = Ok (a, s).
Proof. by intros ->. Qed.

Lemma lift_Panic {A} (m : outcome A) (s : S) : m = Panic → lift m s = Panic.
Proof. by intros ->. Qed.

Lemma keeps_runs {A} (m : ST S A) s (Q : A → S → Prop) : runs m s Q → keeps m s Q.
Proof. intros H a s'. by apply runs_result. Qed.

Lemma keeps_mono {A} (m : ST S A) s (P Q : A → S → Prop) :
  keeps m s P → (∀ a s', P a s' → Q a s') → keeps m s Q.
Proof. unfold keeps. eauto. Qed.

Lemma keeps_ret {A} (a : A) (s : S) (Q : A → S → Prop) : Q a s → keeps (mret a) s Q.
Proof. intros H a' s' E. by injection E as <- <-. Qed.

Lemma keeps_bind {A B} (m : ST S A) (k : A → ST S B) s (Q : B → S → Prop) :
  keeps m s (λ a s', keeps (k a) s' Q) → keeps (m ≫= k) s Q.
Proof.
  unfold keeps, mbind, st_bind. intros H b s'. destruct (m s) as [[a s1]| | |]; try done. by apply H.
Qed.

Lemma keeps_lift {A} (o : outcome A) (s : S) (Q : A → S → Prop) :
  (∀ a, o = Ok a → Q a s) → keeps (lift o) s Q.
Proof. unfold keeps, lift. intros H a s' E. destruct o; try done. injection E as <- <-. by apply H. Qed.

Lemma keeps_fetches {A} (f : S → A) (s : S) (Q : A → S → Prop) : Q (f s) s → keeps (fetches f) s Q.
Proof. intros H a s' E. by injection E as <- <-. Qed.

Lemma keeps_fetch (s : S) (Q : S → S → Prop) : Q s s → keeps fetch s Q.
Proof. intros H a s' E. by injection E as <- <-. Qed.

Lemma keeps_modify (f : S → S) (s : S) (Q : unit → S → Prop) : Q tt (f s) → keeps (modify f) s Q.
Proof. intros H a s' E. by injection E as <- <-. Qed.

Lemma keeps_zoom `{!Lens S T} {A} (m : ST T A) (s : S) (Q : A → S → Prop) :
  keeps m (view s) (λ a t, Q a (update t s)) → keeps (zoom m) s Q.
Proof.
  unfold keeps, zoom. intros H a s'. destruct (m (view s)) as [[b t]| | |]; try done.
  intros E. injection E as <- <-. by apply H.
Qed.

Lemma keeps_Panic {A} (m : ST S A) s (Q : A → S → Prop) : m s = Panic → keeps m s Q.
Proof. intros E a s'. by rewrite E. Qed.

Lemma keeps_Exit {A} (m : ST S A) s (Q : A → S → Prop) : m s = Exit → keeps m s Q.
Proof. intros E a s'. by rewrite E. Qed.

Lemma keeps_OutOfFuel {A} (m : ST S A) s (Q : A → S → Prop) : m s = OutOfFuel → keeps m s Q.
Proof. intros E a s'. by rewrite E. Qed.

Lemma outcome_bind_Ok {A B} (o : outcome A) (k : A → outcome B) b :
  (o ≫= k) = Ok b → ∃ a, o = Ok a ∧ k a = Ok b.
Proof. destruct o; try done. by exists a. Qed.

End Programs.

(** * Machine integers *)

Section Integers.

Lemma checked_add_Ok size a b : a + b < size → checked_add size a b = Ok (a + b).
Proof. unfold checked_add. by intros ->%Z.ltb_lt. Qed.

Lemma checked_add_Panic size a b : size ≤ a + b → checked_add size a b = Panic.
Proof. unfold checked_add. by intros ->%Z.ltb_ge. Qed.

Lemma checked_sub_Ok a b : b ≤ a → checked_sub a b = Ok (a - b).
Proof. unfold checked_sub. by intros ->%Z.leb_le. Qed.

Lemma checked_sub_Panic a b : a < b → checked_sub a b = Panic.
Proof. unfold checked_sub. by intros ->%Z.leb_gt. Qed.

Lemma wrapping_add_range size a b : 0 < size → in_range size (wrapping_add size a b).
Proof. apply Z.mod_pos_bound. Qed.

Lemma wrapping_sub_range size a b : 0 < size → in_range size (wrapping_sub size a b).
Proof. apply Z.mod_pos_bound. Qed.

Lemma truncate_range size a : 0 < size → in_range size (truncate size a).
Proof. apply Z.mod_pos_bound. Qed.

Lemma truncate_id size a : in_range size a → truncate size a = a.
Proof. apply Z.mod_small. Qed.

Lemma as_i32_small x : 0 ≤ x < 2147483648 → as_i32 x = x.
Proof.
  intros Hx. unfold as_i32. rewrite Z.mod_small by lia.
  by rewrite (proj2 (Z.ltb_lt _ _)) by lia.
Qed.

(** Wrapping addition composes: offsets into a 2^w ring may be added in any order. *)
Lemma wrapping_add_add size a b c :
  wrapping_add size (wrapping_add size a b) c = wrapping_add size a (b + c).
Proof. unfold wrapping_add. rewrite Zplus_mod_idemp_l. f_equal; lia. Qed.

Lemma wrapping_add_0 size a : in_range size a → wrapping_add size a 0 = a.
Proof. unfold wrapping_add. rewrite Z.add_0_r. apply Z.mod_small. Qed.

Lemma wrapping_sub_add size a b :
  in_range size b → wrapping_sub size (wrapping_add size a b) a = b.
Proof.
  intros Hb. unfold wrapping_sub, wrapping_add.
  rewrite Zminus_mod_idemp_l. replace (a + b - a) with b by lia. by apply Z.mod_small.
Qed.

Lemma wrapping_add_sub size a b :
  in_range size b → wrapping_add size a (wrapping_sub size b a) = b.
Proof.
  intros Hb. unfold wrapping_sub, wrapping_add.
  rewrite Zplus_mod_idemp_r. replace (a + (b - a)) with b by lia. by apply Z.mod_small.
Qed.

End Integers.

(** * Slices *)

Section Slices.
Context {A : Type}.
Implicit Types l : list A.

Lemma zlen_nonneg l : 0 ≤ zlen l.
Proof. unfold zlen. lia. Qed.

Lemma zlen_nil : zlen (@nil A) = 0.
Proof. done. Qed.

Lemma zlen_cons x l : zlen (x :: l) = 1 + zlen l.
Proof. unfold zlen. simpl. lia. Qed.

Lemma zlen_app l k : zlen (l ++ k) = zlen l + zlen k.
Proof. unfold zlen. rewrite length_app. lia. Qed.

Lemma zlen_take n l : zlen (take n l) = Z.min (Z.of_nat n) (zlen l).
Proof. unfold zlen. rewrite length_take. lia. Qed.

Lemma zlen_drop n l : zlen (drop n l) = Z.max 0 (zlen l - Z.of_nat n).
Proof. unfold zlen. rewrite length_drop. lia. Qed.

Lemma zlen_insert i x l : zlen (<[i:=x]> l) = zlen l.
Proof. unfold zlen. by rewrite length_insert. Qed.

Lemma zlen_replicate n (x : A) : zlen (replicate n x) = Z.of_nat n.
Proof. unfold zlen. by rewrite length_replicate. Qed.

Lemma zlen_0_nil l : zlen l = 0 → l = [].
Proof. destruct l; [done|]. rewrite zlen_cons. pose proof (zlen_nonneg l). lia. Qed.

Lemma zlen_overwrite l a src :
  0 ≤ a → a + zlen src ≤ zlen l → zlen (overwrite l a src) = zlen l.
Proof. unfold overwrite. rewrite !zlen_app, zlen_take, zlen_drop. unfold zlen. lia. Qed.

Lemma slice_Ok l a b :
  0 ≤ a ≤ b → b ≤ zlen l →
  slice l a b = Ok (sub l a b).
Proof.
  intros [Ha Hab] Hb. unfold slice.
  by rewrite !(proj2 (Z.leb_le _ _)) by lia.
Qed.

Lemma slice_Panic l a b : (a < 0 ∨ b < a ∨ zlen l < b) → slice l a b = Panic.
Proof.
  intros H. unfold slice.
  destruct (Z.leb_spec 0 a), (Z.leb_spec a b), (Z.leb_spec b (zlen l)); simpl; try done; lia.
Qed.

Lemma slice_all l : slice l 0 (zlen l) = Ok l.
Proof.
  pose proof (zlen_nonneg l). rewrite slice_Ok by lia. f_equal. unfold sub.
  rewrite drop_0. apply take_ge. unfold zlen. lia.
Qed.

Lemma slice_app_l l k a b :
  b ≤ zlen l → slice (l ++ k) a b = slice l a b.
Proof.
  intros Hb. unfold slice. pose proof (zlen_nonneg k). rewrite zlen_app.
  destruct (Z.leb_spec 0 a), (Z.leb_spec a b); simpl; try done.
  rewrite !(proj2 (Z.leb_le _ _)) by lia. f_equal. unfold sub.
  rewrite drop_app_le by (unfold zlen in *; lia).
  apply take_app_le. rewrite length_drop. unfold zlen in *; lia.
Qed.

Lemma index_app_l l k i : i < zlen l → index (l ++ k) i = index l i.
Proof.
  intros Hi. unfold index. rewrite zlen_app. pose proof (zlen_nonneg k).
  destruct (Z.leb_spec 0 i); simpl; [|done].
  rewrite !(proj2 (Z.ltb_lt _ _)) by lia.
  rewrite lookup_app_l; [done|]. unfold zlen in *; lia.
Qed.

Lemma index_Ok l i : 0 ≤ i < zlen l → ∃ x, index l i = Ok x ∧ l !! Z.to_nat i = Some x.
Proof.
  intros Hi. unfold index.
  rewrite (proj2 (Z.leb_le _ _)), (proj2 (Z.ltb_lt _ _)) by lia. simpl.
  destruct (lookup_lt_is_Some_2 l (Z.to_nat i)) as [x ->]; [unfold zlen in *; lia|]. eauto.
Qed.

Lemma index_Panic l i : zlen l ≤ i → index l i = Panic.
Proof.
  intros Hi. unfold index. rewrite (proj2 (Z.ltb_ge i (zlen l))) by lia.
  by rewrite andb_false_r.
Qed.

Lemma store_app_l l k i v :
  i < zlen l → store (l ++ k) i v = (x ← store l i v; Ok (x ++ k)).
Proof.
  intros Hi. unfold store. rewrite zlen_app. pose proof (zlen_nonneg k).
  destruct (Z.leb_spec 0 i); simpl; [|done].
  rewrite !(proj2 (Z.ltb_lt _ _)) by lia. simpl.
  rewrite insert_app_l; [done|]. unfold zlen in *; lia.
Qed.

Lemma overwrite_app_l l k a src :
  0 ≤ a → a + zlen src ≤ zlen l → overwrite (l ++ k) a src = overwrite l a src ++ k.
Proof.
  intros Ha Hl. unfold overwrite.
  rewrite take_app_le, drop_app_le by (unfold zlen in *; lia).
  by rewrite <-!app_assoc.
Qed.

(** Overwriting a slice only needs the part of the list it lies in. *)
Lemma with_slice_app_l l k a b f :
  b ≤ zlen l →
  (∀ s, zlen s = b - a → returns (f s) (λ s', zlen s' = zlen s)) →
  with_slice (l ++ k) a b f = (x ← with_slice l a b f; Ok (x ++ k)).
Proof.
  intros Hb Hf. unfold with_slice. rewrite slice_app_l by done.
  destruct (decide (0 ≤ a ≤ b)) as [Hab|Hab].
  - rewrite slice_Ok by lia. cbn [mbind outcome_bind].
    set (s := sub _ _ _). assert (zlen s = b - a) as Hs.
    { unfold s, sub. rewrite zlen_take, zlen_drop. lia. }
    specialize (Hf s Hs). destruct (f s) as [s'| | |]; try done. simpl in Hf |- *.
    rewrite overwrite_app_l by lia. done.
  - by rewrite slice_Panic by lia.
Qed.

Lemma with_slice_Ok l a b f s' :
  0 ≤ a ≤ b → b ≤ zlen l → f (sub l a b) = Ok s' →
  with_slice l a b f = Ok (overwrite l a s').
Proof. intros ?? Hf. unfold with_slice. rewrite slice_Ok by lia. cbn. by rewrite Hf. Qed.

(** Writing in the middle of a list whose parts are known. *)
Lemma with_slice_split (pre mid mid' post : list A) a b f :
  zlen pre = a → zlen mid = b - a → f mid = Ok mid' → zlen mid' = zlen mid →
  with_slice (pre ++ mid ++ post) a b f = Ok (pre ++ mid' ++ post).
Proof.
  intros Ha Hb Hf Hm. pose proof (zlen_nonneg pre). pose proof (zlen_nonneg mid).
  pose proof (zlen_nonneg post). rewrite (with_slice_Ok _ _ _ _ mid').
  - f_equal. unfold overwrite.
    rewrite take_app_length' by (unfold zlen in *; lia). do 2 f_equal.
    rewrite app_assoc, drop_app_length'; [done|]. rewrite length_app. unfold zlen in *. lia.
  - lia.
  - rewrite !zlen_app. lia.
  - unfold sub. rewrite drop_app_length' by (unfold zlen in *; lia).
    rewrite take_app_length' by (unfold zlen in *; lia). done.
Qed.

Lemma store_split (pre post : list A) x i v :
  zlen pre = i → store (pre ++ x :: post) i v = Ok (pre ++ v :: post).
Proof.
  intros Hi. unfold store. pose proof (zlen_nonneg pre). pose proof (zlen_nonneg post).
  rewrite (proj2 (Z.leb_le _ _)), (proj2 (Z.ltb_lt _ _)) by (rewrite ?zlen_app, ?zlen_cons; lia).
  simpl. f_equal. rewrite insert_app_r_alt by (unfold zlen in *; lia).
  replace (Z.to_nat i - length pre)%nat with O by (unfold zlen in *; lia). done.
Qed.

Lemma index_split (pre post : list A) x i :
  zlen pre = i → index (pre ++ x :: post) i = Ok x.
Proof.
  intros Hi. unfold index. pose proof (zlen_nonneg pre). pose proof (zlen_nonneg post).
  rewrite (proj2 (Z.leb_le _ _)), (proj2 (Z.ltb_lt _ _)) by (rewrite ?zlen_app, ?zlen_cons; lia).
  simpl. rewrite list_lookup_middle; [done|]. unfold zlen in *; lia.
Qed.

Lemma slice_split (pre mid post : list A) a b :
  zlen pre = a → zlen mid = b - a → slice (pre ++ mid ++ post) a b = Ok mid.
Proof.
  intros Ha Hb. pose proof (zlen_nonneg pre). pose proof (zlen_nonneg mid).
  pose proof (zlen_nonneg post).
  rewrite slice_Ok by (rewrite ?zlen_app; lia). f_equal. unfold sub.
  rewrite drop_app_length' by (unfold zlen in *; lia).
  rewrite take_app_length' by (unfold zlen in *; lia). done.
Qed.

Lemma zlen_sub l a b : 0 ≤ a ≤ b → b ≤ zlen l → zlen (sub l a b) = b - a.
Proof. intros. unfold sub. rewrite zlen_take, zlen_drop. lia. Qed.

Lemma sub_empty l a : sub l a a = [].
Proof. unfold sub. by rewrite Z.sub_diag. Qed.

Lemma sub_all l : sub l 0 (zlen l) = l.
Proof. unfold sub. rewrite drop_0. apply take_ge. unfold zlen. lia. Qed.

Lemma sub_split l a b c :
  0 ≤ a ≤ b → b ≤ c → sub l a c = sub l a b ++ sub l b c.
Proof.
  intros. unfold sub. replace (Z.to_nat (c - a)) with (Z.to_nat (b - a) + Z.to_nat (c - b))%nat by lia.
  rewrite <-(take_take_drop (drop (Z.to_nat a) l)), drop_drop.
  do 3 f_equal. lia.
Qed.

Lemma sub_sub l a b c d :
  0 ≤ a → 0 ≤ c ≤ d → d ≤ b - a → sub (sub l a b) c d = sub l (a + c) (a + d).
Proof.
  intros. unfold sub. rewrite skipn_firstn_comm, take_take, drop_drop.
  f_equal; [lia|]. f_equal. lia.
Qed.

Lemma drop_sub l n a b :
  0 ≤ n → 0 ≤ a → a + n ≤ b → drop (Z.to_nat n) (sub l a b) = sub l (a + n) b.
Proof.
  intros. unfold sub. rewrite skipn_firstn_comm, drop_drop.
  f_equal; [lia|]. f_equal. lia.
Qed.

Lemma sub_overwrite_before l a src x y :
  0 ≤ x ≤ y → y ≤ a → a ≤ zlen l → sub (overwrite l a src) x y = sub l x y.
Proof.
  intros. unfold sub, overwrite.
  rewrite drop_app_le by (rewrite length_take; unfold zlen in *; lia).
  rewrite take_app_le by (rewrite length_drop, length_take; unfold zlen in *; lia).
  rewrite skipn_firstn_comm, take_take. f_equal. lia.
Qed.

Lemma sub_overwrite_at l a src :
  0 ≤ a → a ≤ zlen l → sub (overwrite l a src) a (a + zlen src) = src.
Proof.
  intros. unfold sub, overwrite.
  rewrite drop_app_length' by (rewrite length_take; unfold zlen in *; lia).
  rewrite take_app_length' by (unfold zlen in *; lia). done.
Qed.

Lemma sub_overwrite_after l a src x y :
  0 ≤ a → a + zlen src ≤ x → a + zlen src ≤ zlen l → sub (overwrite l a src) x y = sub l x y.
Proof.
  intros. unfold sub, overwrite. f_equal. rewrite app_assoc.
  rewrite drop_app_ge by (rewrite length_app, length_take; unfold zlen in *; lia).
  rewrite drop_drop. f_equal. rewrite length_app, length_take. unfold zlen in *. lia.
Qed.

Lemma copy_from_slice_Ok (dst src : list A) :
  zlen dst = zlen src → copy_from_slice dst src = Ok src.
Proof. unfold copy_from_slice. by intros ->%Z.eqb_eq. Qed.

End Slices.

Lemma zlen_map {A B} (f : A → B) l : zlen (map f l) = zlen l.
Proof. unfold zlen. by rewrite length_map. Qed.

Lemma zlen_zeros n : 0 ≤ n → zlen (zeros n) = n.
Proof. intros. unfold zeros. rewrite zlen_replicate. lia. Qed.

Lemma bytes_ok_zeros n : bytes_ok (zeros n).
Proof. apply Forall_replicate. by split. Qed.

Lemma bytes_ok_app l k : bytes_ok (l ++ k) ↔ bytes_ok l ∧ bytes_ok k.
Proof. apply Forall_app. Qed.

Lemma bytes_ok_take n l : bytes_ok l → bytes_ok (take n l).
Proof. apply Forall_take. Qed.

Lemma bytes_ok_drop n l : bytes_ok l → bytes_ok (drop n l).
Proof. apply Forall_drop. Qed.

Lemma bytes_ok_sub l a b : bytes_ok l → bytes_ok (sub l a b).
Proof. intros. by apply bytes_ok_take, bytes_ok_drop. Qed.

Lemma bytes_ok_overwrite l a src :
  bytes_ok l → bytes_ok src → bytes_ok (overwrite l a src).
Proof.
  intros. unfold overwrite. rewrite !bytes_ok_app. split_and!;
    auto using bytes_ok_take, bytes_ok_drop.
Qed.

(** * Automation *)

Create HintDb netstack discriminated.
#[export] Hint Resolve bytes_ok_sub bytes_ok_take bytes_ok_drop bytes_ok_overwrite bytes_ok_zeros : netstack.
#[export] Hint Resolve wrapping_add_range wrapping_sub_range truncate_range : netstack.
#[export] Hint Extern 3 (_ < _) => lia : netstack.
#[export] Hint Extern 3 (_ ≤ _) => lia : netstack.

Create Rewrite HintDb zlen.
#[export] Hint Rewrite @zlen_cons @zlen_app @zlen_take @zlen_drop
  @zlen_insert @zlen_replicate @zlen_map : zlen.

(** Arithmetic about lengths. *)
Ltac zlen_nil_simpl :=
  repeat match goal with
  | H : context [@zlen ?A nil] |- _ => change (@zlen A nil) with 0 in H
  | |- context [@zlen ?A nil] => change (@zlen A nil) with 0
  end.
Ltac zlen_simpl := autorewrite with zlen in *; zlen_nil_simpl.
Ltac zlen_solve :=
  zlen_simpl;
  repeat match goal with
  | l : list _ |- _ =>
      lazymatch goal with
      | _ : 0 ≤ zlen l |- _ => fail
      | _ => pose proof (zlen_nonneg l)
      end
  end;
  unfold in_range, zlen in *; lia.

(** Byte strings with literal elements. *)
Ltac bytes_solve :=
  rewrite ?bytes_ok_app; repeat match goal with |- _ ∧ _ => split end; unfold bytes_ok in *;
  repeat (apply Forall_cons_iff; split; [first [done | assumption | split; done | apply truncate_range; lia]|]);
  first [done | assumption | idtac].

(** One step of a symbolic run: the program logic rule for the command in head
    position; checked arithmetic is discharged by [lia]. *)
Ltac run_step :=
  lazymatch goal with
  | |- runs (_ ≫= _) _ _ => apply runs_bind
  | |- runs (mret _) _ _ => apply runs_ret
  | |- runs (lift _) _ _ => apply runs_lift
  | |- runs fetch _ _ => apply runs_fetch
  | |- runs (fetches _) _ _ => apply runs_fetches
  | |- runs (modify _) _ _ => apply runs_modify
  | |- runs (zoom _) _ _ => apply runs_zoom
  | |- returns (_ ≫= _) _ => apply returns_bind
  | |- returns (Ok _) _ => red
  | |- returns (mret _) _ => red
  | |- returns (checked_add _ _ _) _ => rewrite checked_add_Ok by (lia || zlen_solve); red
  | |- returns (checked_sub _ _) _ => rewrite checked_sub_Ok by (lia || zlen_solve); red
  end; cbv beta.
Ltac run := repeat run_step.

(** Header fields: reads and writes at literal offsets of a list whose first
    elements are given.  [tac] shows what the write does to the field. *)
Ltac seg_write tac :=
  match goal with
  | |- context [with_slice ?l ?a ?b ?f] =>
      let n := eval vm_compute in (Z.to_nat a) in
      let m := eval vm_compute in (Z.to_nat (b - a)) in
      let pre := eval lazy beta iota delta [firstn] in (firstn n l) in
      let rest := eval lazy beta iota delta [skipn] in (skipn n l) in
      let mid := eval lazy beta iota delta [firstn] in (firstn m rest) in
      let post := eval lazy beta iota delta [skipn] in (skipn m rest) in
      change (with_slice l a b f) with (with_slice (pre ++ mid ++ post) a b f);
      erewrite (with_slice_split pre mid _ post a b f);
        [|reflexivity|reflexivity|tac|reflexivity]
  end; cbn [mbind outcome_bind app].
Ltac seg_store :=
  match goal with
  | |- context [store ?l ?i ?v] =>
      let n := eval vm_compute in (Z.to_nat i) in
      let pre := eval lazy beta iota delta [firstn] in (firstn n l) in
      let rest := eval lazy beta iota delta [skipn] in (skipn n l) in
      lazymatch rest with
      | ?x :: ?post =>
          change (store l i v) with (store (pre ++ x :: post) i v);
          rewrite (store_split pre post x i v) by reflexivity
      end
  end; cbn [mbind outcome_bind app].
Ltac seg_index :=
  match goal with
  | |- context [index ?l ?i] =>
      let n := eval vm_compute in (Z.to_nat i) in
      let pre := eval lazy beta iota delta [firstn] in (firstn n l) in
      let rest := eval lazy beta iota delta [skipn] in (skipn n l) in
      lazymatch rest with
      | ?x :: ?post =>
          change (index l i) with (index (pre ++ x :: post) i);
          rewrite (index_split pre post x i) by reflexivity
      end
  end; cbn [mbind outcome_bind app].
Ltac seg_slice :=
  match goal with
  | |- context [slice ?l ?a ?b] =>
      let n := eval vm_compute in (Z.to_nat a) in
      let m := eval vm_compute in (Z.to_nat (b - a)) in
      let pre := eval lazy beta iota delta [firstn] in (firstn n l) in
      let rest := eval lazy beta iota delta [skipn] in (skipn n l) in
      let mid := eval lazy beta iota delta [firstn] in (firstn m rest) in
      let post := eval lazy beta iota delta [skipn] in (skipn m rest) in
      change (slice l a b) with (slice (pre ++ mid ++ post) a b);
      rewrite (slice_split pre mid post a b) by reflexivity
  end; cbn [mbind outcome_bind app].

(** Use the specification [spec] of the command in head position; the side
    conditions of the specification come first, then the continuation. *)
Tactic Notation "call" uconstr(spec) :=
  eapply runs_mono; [eapply spec | cbv beta].

(** The same for [keeps]. *)
Ltac keep_step :=
  lazymatch goal with
  | |- keeps (_ ≫= _) _ _ => apply keeps_bind
  | |- keeps (mret _) _ _ => apply keeps_ret
  | |- keeps (lift _) _ _ => let a := fresh "a" in let E := fresh "E" in apply keeps_lift; intros a E
  | |- keeps (fetches _) _ _ => apply keeps_fetches
  | |- keeps fetch _ _ => apply keeps_fetch
  | |- keeps (modify _) _ _ => apply keeps_modify
  | |- keeps (zoom _) _ _ => apply keeps_zoom
  | |- keeps panic _ _ => by apply keeps_Panic
  | |- keeps exit_process _ _ => by apply keeps_Exit
  | |- keeps out_of_fuel _ _ => by apply keeps_OutOfFuel
  end; cbv beta.
Ltac keep := repeat keep_step.

Tactic Notation "follow" uconstr(spec) :=
  eapply keeps_mono; [eapply spec | cbv beta].
