(* ===== verification/Util.v ===== *)
(** * util.rs: addresses, byte order, sequence numbers, checksums of slices, counters

    The parts of src/src/stack/util.rs that do not depend on packet buffers.
    (The checksums of whole packets are in the file Checksum.) *)

From S2P Require Import Prelude.
From stdpp Require Import countable.
Local Open Scope Z_scope.

(** * Internet addresses *)

Inductive IPAddr : Type :=
| V4 (addr : list Z)
| V6 (addr : list Z).

#[export] Instance IPAddr_eq_dec : EqDecision IPAddr.
Proof. solve_decision. Defined.

Definition IPAddr_encode (a : IPAddr) : list Z + list Z :=
  match a with V4 l => inl l | V6 l => inr l end.
Definition IPAddr_decode (s : list Z + list Z) : IPAddr :=
  match s with inl l => V4 l | inr l => V6 l end.

#[export, program] Instance IPAddr_countable : Countable IPAddr :=
  inj_countable' IPAddr_encode IPAddr_decode _.
Next Obligation. by intros []. Qed.

(** The arrays [u8; 4] and [u8; 16] have the lengths their types say. *)
Definition IPAddr_ok (a : IPAddr) : Prop :=
  match a with
  | V4 l => zlen l = 4 ∧ bytes_ok l
  | V6 l => zlen l = 16 ∧ bytes_ok l
  end.

Definition is_v4 (a : IPAddr) : bool :=
  match a with V4 _ => true | V6 _ => false end.

Definition IPAddr_new : IPAddr := V4 [0; 0; 0; 0].

Definition IPAddr_new_v4 (addr : list Z) : outcome IPAddr :=
  if zlen addr =? 4 then Ok (V4 addr) else Panic.

Definition IPAddr_new_v6 (addr : list Z) : outcome IPAddr :=
  if zlen addr =? 16 then Ok (V6 addr) else Panic.

Definition IPAddr_new_from (addr : list Z) : outcome IPAddr :=
  if zlen addr =? 4 then IPAddr_new_v4 addr
  else if zlen addr =? 16 then IPAddr_new_v6 addr
  else Panic.

(** [copy_to(&self, buffer)]: the new contents of [buffer]. *)
Definition IPAddr_copy_to (self : IPAddr) (buffer : list Z) : outcome (list Z) :=
  match self with
  | V4 addr => copy_from_slice buffer addr
  | V6 addr => copy_from_slice buffer addr
  end.

(** The bytes of an address. *)
Definition IPAddr_octets (a : IPAddr) : list Z :=
  match a with V4 l => l | V6 l => l end.

(** * Byte order *)

Definition get_be16 (buffer : list Z) : outcome Z :=
  b0 ← index buffer 0; b1 ← index buffer 1;
  Ok (Z.lor (Z.shiftl b0 8) b1).

Definition get_be32 (buffer : list Z) : outcome Z :=
  b0 ← index buffer 0; b1 ← index buffer 1;
  b2 ← index buffer 2; b3 ← index buffer 3;
  Ok (Z.lor (Z.lor (Z.lor (Z.shiftl b0 24) (Z.shiftl b1 16)) (Z.shiftl b2 8)) b3).

Definition set_be16 (value : Z) (buffer : list Z) : outcome (list Z) :=
  buffer ← store buffer 0 (Z.land (Z.shiftr value 8) 0xff);
  store buffer 1 (Z.land value 0xff).

Definition set_be32 (value : Z) (buffer : list Z) : outcome (list Z) :=
  buffer ← store buffer 0 (Z.land (Z.shiftr value 24) 0xff);
  buffer ← store buffer 1 (Z.land (Z.shiftr value 16) 0xff);
  buffer ← store buffer 2 (Z.land (Z.shiftr value 8) 0xff);
  store buffer 3 (Z.land value 0xff).

(** [u16::from_be_bytes] of the Rust standard library. *)
Definition u16_from_be_bytes (hi lo : Z) : Z := 256 * hi + lo.

(** The big-endian bytes of a 16- and a 32-bit value. *)
Definition be16 (v : Z) : list Z := [v / 256; v mod 256].
Definition be32 (v : Z) : list Z :=
  [v / 16777216; v / 65536 mod 256; v / 256 mod 256; v mod 256].

(** * Sequence numbers *)

Definition seq_gt (val1 val2 : Z) : bool :=
  let diff := u32_wrapping_sub val1 val2 in
  (diff <? 0x80000000) && negb (diff =? 0).

Definition seq_lt (val1 val2 : Z) : bool := seq_gt val2 val1.
Definition seq_le (val1 val2 : Z) : bool := negb (seq_gt val1 val2).
Definition seq_ge (val1 val2 : Z) : bool := negb (seq_gt val2 val1).

Definition wrapping_max (val1 val2 : Z) : Z :=
  if seq_gt val1 val2 then val1 else val2.

(** * The one's complement sum of a slice (RFC 1071) *)

(** [while i < slice.len() - 1 { ... }]: the sum of the 16-bit words and the
    index reached. *)
Fixpoint ones_comp_words (fuel : nat) (slice : list Z) (checksum i : Z) : outcome (Z * Z) :=
  match fuel with
  | O => OutOfFuel
  | S fuel =>
      last ← checked_sub (zlen slice) 1;
      if i <? last then
        hi ← index slice i;
        lo ← index slice (i + 1);
        checksum ← u32_add checksum (u16_from_be_bytes hi lo);
        ones_comp_words fuel slice checksum (i + 2)
      else Ok (checksum, i)
  end.

(** [while checksum > 0xffff { ... }] *)
Fixpoint fold_carries (fuel : nat) (checksum : Z) : outcome Z :=
  match fuel with
  | O => OutOfFuel
  | S fuel =>
      if 0xffff <? checksum then
        checksum ← u32_add (Z.land checksum 0xffff) (Z.shiftr checksum 16);
        fold_carries fuel checksum
      else Ok checksum
  end.

Definition compute_ones_comp (in_checksum : Z) (slice : list Z) : outcome Z :=
  '(checksum, i) ← ones_comp_words (S (length slice)) slice in_checksum 0;
  checksum ← (if i <? zlen slice
              then b ← index slice i; u32_add checksum (Z.shiftl b 8)
              else Ok checksum);
  checksum ← fold_carries 4 checksum;
  Ok (truncate u16_size checksum).

Definition compute_checksum (slice : list Z) : outcome Z :=
  sum ← compute_ones_comp 0 slice; Ok (Z.lxor 0xffff sum).

(** * Performance counters *)

(** [PerfCounter(AtomicU32)]: [fetch_add] wraps around. *)
Definition PerfCounter : Type := Z.
Definition PerfCounter_new : PerfCounter := 0.
Definition PerfCounter_add (self : PerfCounter) (value : Z) : PerfCounter :=
  u32_wrapping_add self value.
Definition PerfCounter_inc (self : PerfCounter) : PerfCounter := u32_wrapping_add self 1.

Record Metrics : Type := {
  packets_received : PerfCounter;
  packets_sent : PerfCounter;
  packets_retransmitted : PerfCounter;
  buffers_allocated : PerfCounter;
  buffers_freed : PerfCounter;
  buffers_created : PerfCounter;
}.

Definition METRICS_new : Metrics := {|
  packets_received := PerfCounter_new;
  packets_sent := PerfCounter_new;
  packets_retransmitted := PerfCounter_new;
  buffers_allocated := PerfCounter_new;
  buffers_freed := PerfCounter_new;
  buffers_created := PerfCounter_new;
|}.

#[export] Instance eta_Metrics : Eta Metrics := λ m,
  Build_Metrics (packets_received m) (packets_sent m) (packets_retransmitted m)
    (buffers_allocated m) (buffers_freed m) (buffers_created m).

(** * Lemmas: bit operations and byte order *)

Lemma land_255 v : Z.land v 255 = v mod 256.
Proof. exact (Z.land_ones v 8 ltac:(lia)). Qed.

Lemma land_65535 v : Z.land v 65535 = v mod 65536.
Proof. exact (Z.land_ones v 16 ltac:(lia)). Qed.

Lemma shiftr_pow v n : 0 ≤ n → Z.shiftr v n = v / 2 ^ n.
Proof. apply Z.shiftr_div_pow2. Qed.

(** Or-ing bytes into disjoint positions is addition. *)
Lemma lor_shiftl_add a b n :
  0 ≤ n → 0 ≤ b < 2 ^ n → Z.lor (Z.shiftl a n) b = a * 2 ^ n + b.
Proof.
  intros Hn Hb. rewrite <-Z.shiftl_mul_pow2 by lia. symmetry.
  apply Z.add_nocarry_lor, Z.bits_inj'. intros i Hi.
  rewrite Z.land_spec, Z.bits_0, Z.shiftl_spec by lia.
  destruct (decide (i < n)).
  - by rewrite Z.testbit_neg_r by lia.
  - rewrite <-(Z.mod_small b (2 ^ n)) by lia.
    rewrite Z.mod_pow2_bits_high by lia. apply andb_false_r.
Qed.

Lemma lor_shiftl_shiftl a b n m :
  0 ≤ n → 0 ≤ m → Z.lor (Z.shiftl a (n + m)) (Z.shiftl b m) = Z.shiftl (Z.lor (Z.shiftl a n) b) m.
Proof. intros. by rewrite Z.shiftl_lor, Z.shiftl_shiftl by lia. Qed.

Lemma get_be16_cons b0 b1 l :
  is_u8 b0 → is_u8 b1 → get_be16 (b0 :: b1 :: l) = Ok (256 * b0 + b1).
Proof.
  intros H0 H1. unfold get_be16, index. zlen_simpl.
  pose proof (zlen_nonneg l).
  rewrite !(proj2 (Z.ltb_lt _ _)) by lia. simpl. f_equal.
  rewrite lor_shiftl_add by (unfold in_range in *; lia). lia.
Qed.

Lemma get_be32_cons b0 b1 b2 b3 l :
  is_u8 b0 → is_u8 b1 → is_u8 b2 → is_u8 b3 →
  get_be32 (b0 :: b1 :: b2 :: b3 :: l) =
    Ok (16777216 * b0 + 65536 * b1 + 256 * b2 + b3).
Proof.
  intros H0 H1 H2 H3. unfold get_be32, index. zlen_simpl.
  pose proof (zlen_nonneg l).
  rewrite !(proj2 (Z.ltb_lt _ _)) by lia. simpl. f_equal.
  unfold in_range in *.
  pose proof (lor_shiftl_shiftl b0 b1 8 16 ltac:(lia) ltac:(lia)) as E1.
  pose proof (lor_shiftl_shiftl (Z.lor (Z.shiftl b0 8) b1) b2 8 8 ltac:(lia) ltac:(lia)) as E2.
  change (8 + 16) with 24 in E1. change (8 + 8) with 16 in E2. rewrite E1, E2.
  rewrite !lor_shiftl_add by lia. lia.
Qed.

Lemma be16_bytes v : is_u16 v → bytes_ok (be16 v).
Proof.
  intros. repeat constructor; unfold in_range in *;
    try (apply Z.mod_pos_bound; lia).
  - apply Z.div_pos; lia.
  - apply Z.div_lt_upper_bound; lia.
Qed.

Lemma be32_bytes v : is_u32 v → bytes_ok (be32 v).
Proof.
  intros. repeat constructor; unfold in_range in *;
    try (apply Z.mod_pos_bound; lia).
  - apply Z.div_pos; lia.
  - apply Z.div_lt_upper_bound; lia.
Qed.

Lemma be16_value v : 256 * (v / 256) + v mod 256 = v.
Proof. symmetry. apply Z.div_mod. lia. Qed.

Lemma be32_value v :
  16777216 * (v / 16777216) + 65536 * (v / 65536 mod 256) + 256 * (v / 256 mod 256) + v mod 256 = v.
Proof.
  pose proof (Z.div_mod v 256 ltac:(lia)).
  pose proof (Z.div_mod (v / 256) 256 ltac:(lia)) as H1.
  pose proof (Z.div_mod (v / 65536) 256 ltac:(lia)) as H2.
  rewrite Z.div_div in H1, H2 by lia.
  change (256 * 256) with 65536 in H1. change (65536 * 256) with 16777216 in H2. lia.
Qed.

Lemma set_be16_cons v a b l :
  is_u16 v → set_be16 v (a :: b :: l) = Ok (be16 v ++ l).
Proof.
  intros Hv. unfold set_be16, store. zlen_simpl. pose proof (zlen_nonneg l).
  rewrite (proj2 (Z.ltb_lt _ _)) by lia. simpl. zlen_simpl.
  rewrite (proj2 (Z.ltb_lt _ _)) by lia. simpl. unfold be16.
  rewrite !land_255, shiftr_pow by lia.
  change (2 ^ 8) with 256. rewrite (Z.mod_small (v / 256)); [done|].
  unfold in_range in Hv. split; [apply Z.div_pos|apply Z.div_lt_upper_bound]; lia.
Qed.

Lemma set_be32_cons v a b c d l :
  is_u32 v → set_be32 v (a :: b :: c :: d :: l) = Ok (be32 v ++ l).
Proof.
  intros Hv. unfold set_be32, store. zlen_simpl. pose proof (zlen_nonneg l).
  repeat (rewrite (proj2 (Z.ltb_lt _ _)) by lia; simpl; zlen_simpl).
  unfold be32. rewrite !land_255, !shiftr_pow by lia.
  change (2 ^ 24) with 16777216. change (2 ^ 16) with 65536. change (2 ^ 8) with 256.
  rewrite (Z.mod_small (v / 16777216)); [done|].
  unfold in_range in Hv. split; [apply Z.div_pos|apply Z.div_lt_upper_bound]; lia.
Qed.

Lemma set_be16_field v a b : is_u16 v → set_be16 v [a; b] = Ok [v / 256; v mod 256].
Proof. exact (set_be16_cons v a b []). Qed.

Lemma set_be32_field v a b c d :
  is_u32 v → set_be32 v [a; b; c; d] =
    Ok [v / 16777216; v / 65536 mod 256; v / 256 mod 256; v mod 256].
Proof. exact (set_be32_cons v a b c d []). Qed.

Lemma get_be16_be16 v l : is_u16 v → get_be16 (be16 v ++ l) = Ok v.
Proof.
  intros Hv. pose proof (be16_bytes v Hv) as Hb. unfold bytes_ok, be16 in Hb.
  rewrite !Forall_cons_iff in Hb. destruct_and!. simpl. rewrite get_be16_cons by done. by rewrite be16_value.
Qed.

Lemma get_be32_be32 v l : is_u32 v → get_be32 (be32 v ++ l) = Ok v.
Proof.
  intros Hv. pose proof (be32_bytes v Hv) as Hb. unfold bytes_ok, be32 in Hb.
  rewrite !Forall_cons_iff in Hb. destruct_and!. simpl. rewrite get_be32_cons by done. by rewrite be32_value.
Qed.

(** * Lemmas: sequence numbers *)

Lemma seq_gt_spec a b :
  seq_gt a b = true ↔ 0 < (a - b) mod u32_size < 2147483648.
Proof.
  unfold seq_gt, u32_wrapping_sub, wrapping_sub.
  pose proof (Z.mod_pos_bound (a - b) u32_size ltac:(lia)).
  rewrite andb_true_iff, negb_true_iff, Z.ltb_lt, Z.eqb_neq. lia.
Qed.

Lemma sub_mod_opp a b :
  (b - a) mod u32_size = 0 ∧ (a - b) mod u32_size = 0 ∨
  (b - a) mod u32_size + (a - b) mod u32_size = u32_size.
Proof.
  pose proof (Z.mod_pos_bound (b - a) u32_size ltac:(lia)).
  pose proof (Z.mod_pos_bound (a - b) u32_size ltac:(lia)).
  pose proof (Z.div_mod (b - a) u32_size ltac:(lia)).
  pose proof (Z.div_mod (a - b) u32_size ltac:(lia)).
  assert ((b - a) / u32_size + (a - b) / u32_size = 0 ∨
          (b - a) / u32_size + (a - b) / u32_size = -1) by lia.
  lia.
Qed.

Lemma seq_gt_asym a b : seq_gt a b = true → seq_gt b a = false.
Proof.
  intros H%seq_gt_spec. apply not_true_iff_false. intros H'%seq_gt_spec.
  destruct (sub_mod_opp a b); lia.
Qed.

Lemma seq_gt_irrefl a : seq_gt a a = false.
Proof. apply not_true_iff_false. rewrite seq_gt_spec, Z.sub_diag, Z.mod_0_l; lia. Qed.

Lemma seq_gt_add a d :
  0 < d < 2147483648 → seq_gt (u32_wrapping_add a d) a = true.
Proof.
  intros Hd. apply seq_gt_spec. unfold wrapping_add.
  rewrite Zminus_mod_idemp_l. replace (a + d - a) with d by lia.
  rewrite Z.mod_small by lia. lia.
Qed.

(** * Lemmas: one's complement arithmetic

    [ones_fold n] is the 16-bit value that adding the carries back into [n]
    arrives at: 0 for 0, and otherwise the representative of [n] modulo 65535
    in 1..65535. *)

Definition ones_fold (n : Z) : Z := if n =? 0 then 0 else (n - 1) mod 65535 + 1.

(** The sum of the big-endian 16-bit words of a byte string, an odd last byte
    being the high half of a word. *)
Fixpoint word_sum (l : list Z) : Z :=
  match l with
  | hi :: lo :: r => 256 * hi + lo + word_sum r
  | [b] => 256 * b
  | [] => 0
  end.

(** Induction over a byte string two bytes at a time. *)
Lemma word_ind (P : list Z → Prop) :
  P [] → (∀ b, P [b]) → (∀ hi lo l, P l → P (hi :: lo :: l)) → ∀ l, P l.
Proof.
  intros H0 H1 H2. fix IH 1. intros [|hi [|lo l]]; [done..|].
  apply H2, IH.
Qed.

Lemma word_sum_bounds l :
  bytes_ok l → 0 ≤ word_sum l ∧ 2 * word_sum l ≤ 65535 * (zlen l + 1).
Proof.
  unfold bytes_ok. induction l as [|b|hi lo l IH] using word_ind; intros H; cbn [word_sum].
  - change (zlen (@nil Z)) with 0. lia.
  - rewrite Forall_cons_iff in H. unfold in_range in H. zlen_simpl. lia.
  - rewrite !Forall_cons_iff in H. destruct H as (Hhi & Hlo & Hl).
    specialize (IH Hl). unfold in_range in *. zlen_simpl. lia.
Qed.

Lemma word_sum_app l k :
  Z.Even (zlen l) → word_sum (l ++ k) = word_sum l + word_sum k.
Proof.
  induction l as [|b|hi lo l IH] using word_ind; intros Hl; simpl.
  - done.
  - destruct Hl as [n Hn]. zlen_simpl. lia.
  - rewrite IH; [lia|]. destruct Hl as [n Hn]. exists (n - 1). zlen_simpl. lia.
Qed.

Lemma ones_fold_range n : 0 ≤ n → is_u16 (ones_fold n).
Proof.
  intros. unfold ones_fold, in_range. destruct (Z.eqb_spec n 0); [lia|].
  pose proof (Z.mod_pos_bound (n - 1) 65535 ltac:(lia)). lia.
Qed.

Lemma ones_fold_small n : is_u16 n → ones_fold n = n.
Proof.
  unfold in_range, ones_fold. intros. destruct (Z.eqb_spec n 0); [lia|].
  rewrite Z.mod_small; lia.
Qed.

Lemma ones_fold_congr n m :
  0 < n → 0 < m → (n - m) mod 65535 = 0 → ones_fold n = ones_fold m.
Proof.
  intros Hn Hm Hd. unfold ones_fold.
  destruct (Z.eqb_spec n 0), (Z.eqb_spec m 0); try lia. f_equal.
  replace (n - 1) with (m - 1 + (n - m)) by lia.
  by rewrite Zplus_mod, Hd, Z.add_0_r, Zmod_mod.
Qed.

Lemma ones_fold_mod n : 0 ≤ n → ∃ q, n = ones_fold n + 65535 * q ∧ 0 ≤ q.
Proof.
  intros Hn. unfold ones_fold. destruct (Z.eqb_spec n 0); [by exists 0|].
  exists ((n - 1) / 65535). pose proof (Z.div_mod (n - 1) 65535 ltac:(lia)).
  split; [lia|]. apply Z.div_pos; lia.
Qed.

Lemma ones_fold_pos n : 0 < n → 0 < ones_fold n.
Proof.
  intros. unfold ones_fold. destruct (Z.eqb_spec n 0); [lia|].
  pose proof (Z.mod_pos_bound (n - 1) 65535 ltac:(lia)). lia.
Qed.

(** Partial sums may be folded at any point. *)
Lemma ones_fold_add a b :
  0 ≤ a → 0 ≤ b → ones_fold (ones_fold a + b) = ones_fold (a + b).
Proof.
  intros Ha Hb. destruct (decide (a = 0)) as [->|]; [done|].
  pose proof (ones_fold_pos a ltac:(lia)). apply ones_fold_congr; [lia..|].
  destruct (ones_fold_mod a Ha) as (q & Hq & _).
  replace (ones_fold a + b - (a + b)) with (- q * 65535) by lia.
  apply Z_mod_mult.
Qed.

Lemma ones_fold_step n :
  65535 < n → ones_fold (n mod 65536 + n / 65536) = ones_fold n.
Proof.
  intros Hn. pose proof (Z.div_mod n 65536 ltac:(lia)).
  pose proof (Z.mod_pos_bound n 65536 ltac:(lia)).
  assert (1 ≤ n / 65536) by (apply Z.div_le_lower_bound; lia).
  apply ones_fold_congr; [lia..|].
  replace (n mod 65536 + n / 65536 - n) with (- (n / 65536) * 65535) by lia.
  apply Z_mod_mult.
Qed.

(** The complement of a 16-bit value. *)
Lemma lxor_ffff s : is_u16 s → Z.lxor s 0xffff = 65535 - s.
Proof.
  intros Hs. assert (s + Z.lxor s 65535 = Z.lxor s (Z.lxor s 65535)) as E.
  { apply Z.add_nocarry_lxor, Z.bits_inj'. intros i Hi.
    rewrite Z.land_spec, Z.lxor_spec, Z.bits_0.
    destruct (decide (i < 16)).
    - change 65535 with (Z.ones 16). rewrite Z.ones_spec_low by lia. by destruct (Z.testbit s i).
    - unfold in_range in Hs. rewrite <-(Z.mod_small s (2 ^ 16)) by lia.
      by rewrite Z.mod_pow2_bits_high by lia. }
  rewrite <-Z.lxor_assoc, Z.lxor_nilpotent, Z.lxor_0_l in E. lia.
Qed.

Lemma lxor_ffff_l s : is_u16 s → Z.lxor 0xffff s = 65535 - s.
Proof. rewrite Z.lxor_comm. apply lxor_ffff. Qed.

(** Adding the complement of a folded sum to the sum gives 0xffff. *)
Lemma ones_fold_complement n : 0 ≤ n → ones_fold (n + (65535 - ones_fold n)) = 65535.
Proof.
  intros Hn. pose proof (ones_fold_range n Hn) as Hr. unfold in_range in Hr.
  destruct (ones_fold_mod n Hn) as (q & Hq & ?).
  rewrite (ones_fold_congr _ 65535) by
    (try (replace (n + _ - _) with (q * 65535) by lia; apply Z_mod_mult); lia).
  done.
Qed.

Lemma fold_carries_spec x :
  in_range u32_size x → fold_carries 4 x = Ok (ones_fold x).
Proof.
  intros Hx. unfold in_range in Hx.
  assert (∀ y, 0 ≤ y ≤ 65535 → ∀ n, fold_carries (S n) y = Ok (ones_fold y)) as Hbase.
  { intros y Hy n. simpl. rewrite (proj2 (Z.ltb_ge _ _)) by lia.
    by rewrite ones_fold_small by (unfold in_range; lia). }
  assert (∀ y n, 0 ≤ y < u32_size → 65535 < y →
    fold_carries (S n) y = fold_carries n (y mod 65536 + y / 65536)) as Hstep.
  { intros y n Hy ?. cbn [fold_carries]. rewrite (proj2 (Z.ltb_lt _ _)) by lia.
    rewrite land_65535, shiftr_pow by lia. change (2 ^ 16) with 65536.
    pose proof (Z.mod_pos_bound y 65536 ltac:(lia)).
    assert (y / 65536 < 65536) by (apply Z.div_lt_upper_bound; lia).
    by rewrite checked_add_Ok by lia. }
  assert (∀ y b n, 65535 < y ≤ 65536 * b → 0 ≤ b ≤ 65536 → y < u32_size →
    (∀ z, 0 < z ≤ 65535 + b → fold_carries n z = Ok (ones_fold z)) →
    fold_carries (S n) y = Ok (ones_fold y)) as Hred.
  { intros y b n Hy Hb Hy' Hz. rewrite Hstep by lia.
    pose proof (Z.mod_pos_bound y 65536 ltac:(lia)).
    assert (y / 65536 ≤ b) by (apply Z.div_le_upper_bound; lia).
    assert (1 ≤ y / 65536) by (apply Z.div_le_lower_bound; lia).
    rewrite Hz by lia. by rewrite ones_fold_step by lia. }
  destruct (decide (x ≤ 65535)); [apply Hbase; lia|].
  apply (Hred x 65536); [lia..|]. intros y Hy.
  destruct (decide (y ≤ 65535)); [apply Hbase; lia|].
  apply (Hred y 2); [lia..|]. intros z Hz.
  destruct (decide (z ≤ 65535)); [apply Hbase; lia|].
  destruct (decide (z = 65536)) as [->|]; [done|].
  assert (z = 65537) as -> by lia. done.
Qed.

(** The accumulation loop, on the part of the slice that is still to be read. *)
Lemma ones_comp_words_spec fuel pre rest c :
  (length rest < fuel)%nat → bytes_ok rest → pre ++ rest ≠ [] → 0 ≤ c →
  c + word_sum rest < u32_size →
  ('(checksum, i) ← ones_comp_words fuel (pre ++ rest) c (zlen pre);
   (if i <? zlen (pre ++ rest)
    then b ← index (pre ++ rest) i; u32_add checksum (Z.shiftl b 8)
    else Ok checksum)) = Ok (c + word_sum rest).
Proof.
  revert pre rest c. induction fuel as [|fuel IH]; intros pre rest c Hf Hb Hne Hc Hs; [lia|].
  pose proof (zlen_nonneg pre).
  assert (1 ≤ zlen (pre ++ rest)).
  { destruct (pre ++ rest); [done|]. zlen_solve. }
  cbn [ones_comp_words]. rewrite checked_sub_Ok by lia. cbn [mbind outcome_bind].
  destruct rest as [|hi [|lo rest]].
  - rewrite (proj2 (Z.ltb_ge _ _)) by zlen_solve. cbn [mbind outcome_bind].
    rewrite (proj2 (Z.ltb_ge _ _)) by zlen_solve. simpl. f_equal. lia.
  - rewrite (proj2 (Z.ltb_ge _ _)) by zlen_solve. cbn [mbind outcome_bind].
    rewrite (proj2 (Z.ltb_lt _ _)) by zlen_solve.
    destruct (index_Ok (pre ++ [hi]) (zlen pre)) as (b & -> & Hl); [zlen_solve|].
    unfold zlen in Hl. rewrite Nat2Z.id, list_lookup_middle in Hl by done.
    inversion Hl; subst b. cbn [mbind outcome_bind].
    rewrite Z.shiftl_mul_pow2 by lia. change (2 ^ 8) with 256. cbn [word_sum] in *.
    rewrite checked_add_Ok by lia. f_equal. lia.
  - unfold bytes_ok in Hb. rewrite !Forall_cons_iff in Hb. destruct Hb as (Hhi & Hlo & Hb).
    unfold in_range in *. pose proof (word_sum_bounds rest Hb).
    rewrite (proj2 (Z.ltb_lt _ _)) by zlen_solve.
    destruct (index_Ok (pre ++ hi :: lo :: rest) (zlen pre)) as (b & -> & Hl); [zlen_solve|].
    unfold zlen in Hl. rewrite Nat2Z.id, list_lookup_middle in Hl by done.
    inversion Hl; subst b. cbn [mbind outcome_bind].
    destruct (index_Ok (pre ++ hi :: lo :: rest) (zlen pre + 1)) as (b & -> & Hl'); [zlen_solve|].
    rewrite lookup_app_r in Hl' by (unfold zlen; lia).
    replace (Z.to_nat (zlen pre + 1) - length pre)%nat with 1%nat in Hl' by (unfold zlen; lia).
    inversion Hl'; subst b. cbn [mbind outcome_bind]. cbn [word_sum] in Hs |- *.
    unfold u16_from_be_bytes. rewrite checked_add_Ok by lia. cbn [mbind outcome_bind].
    replace (zlen pre + 2) with (zlen (pre ++ [hi; lo])) by zlen_solve.
    replace (pre ++ hi :: lo :: rest) with ((pre ++ [hi; lo]) ++ rest) by (by rewrite <-app_assoc).
    rewrite IH; [f_equal; lia|simpl in *; lia|done| |lia..].
    intros E. apply (f_equal length) in E. rewrite !length_app in E. simpl in E. lia.
Qed.

Lemma compute_ones_comp_spec c l :
  l ≠ [] → bytes_ok l → is_u16 c → zlen l ≤ 131068 →
  compute_ones_comp c l = Ok (ones_fold (c + word_sum l)).
Proof.
  intros Hne Hb Hc Hl. unfold in_range in Hc.
  pose proof (word_sum_bounds l Hb).
  pose proof (ones_comp_words_spec (S (length l)) [] l c ltac:(lia) Hb Hne ltac:(lia) ltac:(lia)) as E.
  simpl app in E. rewrite zlen_nil in E. unfold compute_ones_comp.
  destruct (ones_comp_words _ l c 0) as [[s i]| | |]; try done.
  cbn [mbind outcome_bind] in E |- *. rewrite E. cbn [mbind outcome_bind].
  rewrite fold_carries_spec by (unfold in_range; lia). cbn [mbind outcome_bind].
  by rewrite truncate_id by (apply ones_fold_range; lia).
Qed.

(** An empty slice makes [slice.len() - 1] overflow. *)
Lemma compute_ones_comp_nil c : compute_ones_comp c [] = Panic.
Proof. done. Qed.

(** * Lemmas: addresses *)

Lemma IPAddr_new_ok : IPAddr_ok IPAddr_new.
Proof. split; [done|]. bytes_solve. Qed.

Lemma IPAddr_octets_ok a : IPAddr_ok a → bytes_ok (IPAddr_octets a).
Proof. by destruct a; intros []. Qed.

Lemma zlen_octets a : IPAddr_ok a → zlen (IPAddr_octets a) = if is_v4 a then 4 else 16.
Proof. by destruct a; intros []. Qed.

Lemma IPAddr_copy_to_Ok a buf :
  zlen buf = zlen (IPAddr_octets a) → IPAddr_copy_to a buf = Ok (IPAddr_octets a).
Proof. destruct a; apply copy_from_slice_Ok. Qed.

Lemma IPAddr_new_from_octets a : IPAddr_ok a → IPAddr_new_from (IPAddr_octets a) = Ok a.
Proof.
  unfold IPAddr_new_from, IPAddr_new_v4, IPAddr_new_v6.
  destruct a as [l|l]; intros [Hl _]; simpl; by rewrite Hl.
Qed.
