(* ===== verification/Text.v ===== *)
(** * Text: what the program prints and what it parses as text

    The Display of an address and print_binary (util.rs), as the strings they
    write, and the two parts of the standard library that the test applications
    use on text: the octets of a string and the check of UTF-8. *)

From S2P Require Import Prelude Util.
From stdpp Require Import strings pretty.
Local Open Scope Z_scope.

(** * Formatting *)

(** [{:x}] of a number below 16. *)
Definition hex_digit (n : Z) : string :=
  String (Ascii.ascii_of_nat (Z.to_nat (if n <? 10 then 48 + n else 87 + n))) "".

(** [{:02x}] *)
Definition hex_byte (n : Z) : string := hex_digit (n / 16) +:+ hex_digit (n mod 16).

(** [{}] of an octet. *)
Definition dec_byte (n : Z) : string := pretty n.

(** [for i in 0..8 { ... }], the indices [l] being left. *)
Fixpoint fmt_groups (addr : list Z) (l : list Z) : outcome string :=
  match l with
  | [] => Ok ""
  | i :: l =>
      group ← slice addr (i * 2) (i * 2 + 2);
      hi ← index addr (i * 2);
      lo ← index addr (i * 2 + 1);
      rest ← fmt_groups addr l;
      Ok ((if negb (i =? 0) then ":" else "") +:+
          (if bool_decide (group = [0; 0]) then "" else hex_byte hi +:+ hex_byte lo) +:+ rest)
  end.

Definition IPAddr_fmt (self : IPAddr) : outcome string :=
  match self with
  | V4 addr =>
      a ← index addr 0; b ← index addr 1; c ← index addr 2; d ← index addr 3;
      Ok (dec_byte a +:+ "." +:+ dec_byte b +:+ "." +:+ dec_byte c +:+ "." +:+ dec_byte d)
  | V6 addr => fmt_groups addr (seqZ 0 8)
  end.

Definition newline : string := String (Ascii.ascii_of_nat 10) "".

(** The loop of print_binary, at index [i]. *)
Fixpoint print_bytes (i : Z) (buffer : list Z) : string :=
  match buffer with
  | [] => ""
  | byte :: buffer =>
      hex_byte byte +:+ " " +:+ (if i mod 16 =? 15 then newline else "") +:+ print_bytes (i + 1) buffer
  end.

Definition print_binary (buffer : list Z) : string := print_bytes 0 buffer +:+ newline.

(** * Octets *)

(** [s.as_bytes()], for a string of ASCII characters. *)
Fixpoint as_bytes (s : string) : list Z :=
  match s with
  | "" => []
  | String c s => Z.of_nat (Ascii.nat_of_ascii c) :: as_bytes s
  end%string.

Definition in_span (lo hi b : Z) : bool := (lo <=? b) && (b <=? hi).

(** The second octet that may follow the first of a sequence of three, or of
    four: no surrogates, no overlong forms and nothing above U+10FFFF. *)
Definition three_lead (b0 b1 : Z) : bool :=
  ((b0 =? 0xe0) && in_span 0xa0 0xbf b1) || (in_span 0xe1 0xec b0 && in_span 0x80 0xbf b1) ||
  ((b0 =? 0xed) && in_span 0x80 0x9f b1) || (in_span 0xee 0xef b0 && in_span 0x80 0xbf b1).
Definition four_lead (b0 b1 : Z) : bool :=
  ((b0 =? 0xf0) && in_span 0x90 0xbf b1) || (in_span 0xf1 0xf3 b0 && in_span 0x80 0xbf b1) ||
  ((b0 =? 0xf4) && in_span 0x80 0x8f b1).

(** [std::str::from_utf8(bytes).is_ok()] *)
Fixpoint from_utf8_ok (bytes : list Z) : bool :=
  match bytes with
  | [] => true
  | b0 :: l1 =>
      if b0 <? 0x80 then from_utf8_ok l1
      else match l1 with
      | [] => false
      | b1 :: l2 =>
          if in_span 0xc2 0xdf b0 && in_span 0x80 0xbf b1 then from_utf8_ok l2
          else match l2 with
          | [] => false
          | b2 :: l3 =>
              if three_lead b0 b1 && in_span 0x80 0xbf b2 then from_utf8_ok l3
              else match l3 with
              | [] => false
              | b3 :: l4 => four_lead b0 b1 && in_span 0x80 0xbf b2 && in_span 0x80 0xbf b3 &&
                            from_utf8_ok l4
              end
          end
      end
  end.

(** * Lemmas *)

Lemma as_bytes_ok s : bytes_ok (as_bytes s).
Proof.
  induction s as [|c s IH]; cbn; constructor; [|done].
  pose proof (Ascii.nat_ascii_bounded c). unfold in_range. lia.
Qed.

Lemma zlen_as_bytes s : zlen (as_bytes s) = Z.of_nat (String.length s).
Proof. induction s as [|c s IH]; [done|]. cbn [as_bytes String.length]. rewrite zlen_cons, IH. lia. Qed.

Lemma as_bytes_app s t : as_bytes (s +:+ t) = as_bytes s ++ as_bytes t.
Proof. induction s as [|c s IH]; [done|]. exact (f_equal _ IH). Qed.

(** ASCII text is UTF-8, and so is text followed by text. *)
Lemma from_utf8_ascii l : Forall (λ b, b < 128) l → from_utf8_ok l = true.
Proof. induction 1 as [|b l Hb _ IH]; [done|]. cbn. by rewrite (proj2 (Z.ltb_lt _ _)). Qed.

(** A sequence that is cut short is not. *)
Lemma from_utf8_cut b0 : in_range 256 b0 → 128 ≤ b0 → from_utf8_ok [b0] = false.
Proof. intros _ Hb. cbn. by rewrite (proj2 (Z.ltb_ge _ _)). Qed.
