(* ===== verification/Buf.v ===== *)
(** * buf.rs: packet buffers and the fragment pool

    The data and the operations of src/src/stack/buf.rs.  A [FragPointer],
    which owns the rest of its chain, is the list of the fragments of the
    chain; the pool's free list is such a list too.  Operations that take the
    pool's lock are computations over [BufState], which holds the pool and the
    global counters.  The facts about them are in the file BufSpec. *)

From S2P Require Import Prelude Util.
Local Open Scope Z_scope.

Abbreviation FRAGMENT_SIZE := 512.
Abbreviation POOL_GROW_SIZE := 16.

(** * Data *)

Record BufferFragment : Type := {
  range_start : Z;
  range_end : Z;
  data : list Z;
}.

#[export] Instance eta_BufferFragment : Eta BufferFragment := λ f,
  Build_BufferFragment (range_start f) (range_end f) (data f).

Definition BufferFragment_new : BufferFragment :=
  {| range_start := 0; range_end := 0; data := zeros FRAGMENT_SIZE |}.

(** [self.range.len()]: 0 for a range whose end is before its start. *)
Definition BufferFragment_len (self : BufferFragment) : Z :=
  Z.max 0 (range_end self - range_start self).

Record NetBuffer : Type := {
  fragments : list BufferFragment;
  buf_length : Z;
}.

#[export] Instance eta_NetBuffer : Eta NetBuffer := λ b,
  Build_NetBuffer (fragments b) (buf_length b).

Record BufferIterator : Type := {
  current_frag : list BufferFragment;
  remaining : Z;
}.

(** The pool (a free list) and the global counters. *)
Record BufState : Type := {
  free_list : list BufferFragment;
  METRICS : Metrics;
}.

#[export] Instance eta_BufState : Eta BufState := λ s,
  Build_BufState (free_list s) (METRICS s).

Definition FragmentPool_new (m : Metrics) : BufState :=
  {| free_list := []; METRICS := m |}.

Definition buffer_count_to_memory (count : Z) : outcome Z :=
  if count * FRAGMENT_SIZE <? u32_size then Ok (count * FRAGMENT_SIZE) else Panic.

(** * The fragment pool *)

Definition grow : ST BufState unit :=
  modify (λ s, s <| free_list ::= Nat.iter (Z.to_nat POOL_GROW_SIZE) (cons BufferFragment_new) |>);;
  modify (λ s, s <| METRICS ::=
    λ m, m <| buffers_created ::= λ c, PerfCounter_add c POOL_GROW_SIZE |> |>).

Definition alloc : ST BufState BufferFragment :=
  free ← fetches free_list;
  (match free with [] => grow | _ :: _ => mret tt end : ST BufState unit);;
  modify (λ s, s <| METRICS ::= λ m, m <| buffers_allocated ::= PerfCounter_inc |> |>);;
  free ← fetches free_list;
  '(new_frag, next) ← lift (unwrap (match free with [] => None | f :: r => Some (f, r) end));
  modify (λ s, s <| free_list := next |>);;
  mret (new_frag <| range_start := 0 |> <| range_end := 0 |>).

Definition free (fragment : BufferFragment) : ST BufState unit :=
  modify (λ s, s <| METRICS ::= λ m, m <| buffers_freed ::= PerfCounter_inc |> |>);;
  modify (λ s, s <| free_list ::= cons fragment |>).

(** Return a whole chain to the pool, first fragment first. *)
Fixpoint free_chain (frags : list BufferFragment) : ST BufState unit :=
  match frags with
  | [] => mret tt
  | frag :: next => free frag;; free_chain next
  end.

(** [impl Drop for NetBuffer]. *)
Definition drop_buffer (self : NetBuffer) : ST BufState unit := free_chain (fragments self).

(** * Buffers *)

Definition NetBuffer_new : NetBuffer := {| fragments := []; buf_length := 0 |}.

Fixpoint prealloc_loop (fuel : nat) (frags : list BufferFragment) (to_add : Z)
    : ST BufState (list BufferFragment) :=
  match fuel with
  | O => out_of_fuel
  | S fuel =>
      if 0 <? to_add then
        new_frag ← alloc;
        let frag_size := Z.min to_add FRAGMENT_SIZE in
        let new_frag := new_frag <| range_start := 0 |> <| range_end := frag_size |> in
        to_add ← lift (checked_sub to_add frag_size);
        prealloc_loop fuel (new_frag :: frags) to_add
      else mret frags
  end.

Definition new_prealloc (length : Z) : ST BufState NetBuffer :=
  frags ← prealloc_loop (S (Z.to_nat length)) [] length;
  mret {| fragments := frags; buf_length := length |}.

Definition NetBuffer_len (self : NetBuffer) : Z := buf_length self.
Definition is_empty (self : NetBuffer) : bool := buf_length self =? 0.

Definition iter (self : NetBuffer) (length : Z) : BufferIterator :=
  {| current_frag := fragments self; remaining := length |}.

(** [Iterator::next]: the slice yielded and the advanced iterator. *)
Definition BufferIterator_next (self : BufferIterator)
    : outcome (option (list Z) * BufferIterator) :=
  match current_frag self with
  | [] => Ok (None, self)
  | frag :: next =>
      if remaining self =? 0 then Ok (None, self) else
      let slice_length := Z.min (BufferFragment_len frag) (remaining self) in
      rust_assert (slice_length <=? remaining self);;
      let start_offs := range_start frag in
      sl ← slice (data frag) start_offs (start_offs + slice_length);
      rem ← checked_sub (remaining self) slice_length;
      Ok (Some sl, {| current_frag := next; remaining := rem |})
  end.

(** [for slice in iter { ... }]: all the slices the iterator yields. *)
Fixpoint collect (fuel : nat) (it : BufferIterator) : outcome (list (list Z)) :=
  match fuel with
  | O => OutOfFuel
  | S fuel =>
      '(o, it) ← BufferIterator_next it;
      match o with
      | None => Ok []
      | Some sl => rest ← collect fuel it; Ok (sl :: rest)
      end
  end.

Definition slices (it : BufferIterator) : outcome (list (list Z)) :=
  collect (S (length (current_frag it))) it.

Definition header (self : NetBuffer) : outcome (list Z) :=
  match fragments self with
  | [] => Panic
  | head_frag :: _ => slice (data head_frag) (range_start head_frag) (range_end head_frag)
  end.

(** [header_mut]: [f] is what the caller does with the mutable slice. *)
Definition header_mut (self : NetBuffer) (f : list Z → outcome (list Z)) : outcome NetBuffer :=
  match fragments self with
  | [] => Panic
  | head_frag :: next =>
      data' ← with_slice (data head_frag) (range_start head_frag) (range_end head_frag) f;
      Ok (self <| fragments := head_frag <| data := data' |> :: next |>)
  end.

(** Make the range of the first fragment start [size] octets earlier, or
    prepend a fragment whose range is its last [size] octets. *)
Definition reserve_header (size : Z) (frags : list BufferFragment)
    : ST BufState (list BufferFragment) :=
  let prepend : ST BufState (list BufferFragment) :=
    new_head_frag ← alloc;
    mret (new_head_frag <| range_start := FRAGMENT_SIZE - size |>
            <| range_end := FRAGMENT_SIZE |> :: frags) in
  match frags with
  | [] => prepend
  | frag :: next =>
      if range_start frag <? size then prepend
      else
        start ← lift (checked_sub (range_start frag) size);
        mret (frag <| range_start := start |> :: next)
  end.

Definition alloc_header (size : Z) (self : NetBuffer) : ST BufState NetBuffer :=
  lift (rust_assert (size <=? FRAGMENT_SIZE));;
  frags ← reserve_header size (fragments self);
  match frags with
  | [] => panic
  | frag :: next =>
      data' ← lift (with_slice (data frag) (range_start frag) (range_start frag + size)
                      (λ s, fill s 0));
      len ← lift (usize_add (buf_length self) size);
      mret {| fragments := frag <| data := data' |> :: next; buf_length := len |}
  end.

(** The loop of [trim_head]: frees the fragments that are removed whole and
    returns the rest of the chain and the octets still to remove. *)
Fixpoint trim_head_loop (frags : list BufferFragment) (remaining : Z)
    : ST BufState (list BufferFragment * Z) :=
  if 0 <? remaining then
    match frags with
    | [] => panic
    | frag :: next =>
        let frag_len := BufferFragment_len frag in
        if remaining <? frag_len then mret (frags, remaining)
        else
          remaining ← lift (checked_sub remaining frag_len);
          free frag;;
          trim_head_loop next remaining
    end
  else mret (frags, remaining).

Definition trim_head (size : Z) (self : NetBuffer) : ST BufState NetBuffer :=
  lift (rust_assert (size <=? NetBuffer_len self));;
  '(frags, remaining) ← trim_head_loop (fragments self) size;
  frags ← (if 0 <? remaining then
             match frags with
             | [] => panic
             | frag :: next => mret (frag <| range_start ::= Z.add remaining |> :: next)
             end
           else mret frags : ST BufState (list BufferFragment));
  len ← lift (checked_sub (buf_length self) size);
  lift (rust_assert (match frags with [] => len =? 0 | _ :: _ => true end));;
  mret {| fragments := frags; buf_length := len |}.

(** The fragments before the one that is cut, that one, the ones after it, and
    the octets to keep in it. *)
Fixpoint trim_tail_walk (frags : list BufferFragment) (remaining : Z)
    : outcome (list BufferFragment * BufferFragment * list BufferFragment * Z) :=
  match frags with
  | [] => Panic
  | frag :: next =>
      let length := BufferFragment_len frag in
      if remaining <=? length then Ok ([], frag, next, remaining)
      else
        remaining ← checked_sub remaining length;
        '(pre, last_frag, post, remaining) ← trim_tail_walk next remaining;
        Ok (frag :: pre, last_frag, post, remaining)
  end.

Definition trim_tail (size : Z) (self : NetBuffer) : ST BufState NetBuffer :=
  lift (rust_assert (size <=? NetBuffer_len self));;
  if size =? NetBuffer_len self then
    free_chain (fragments self);;
    mret {| fragments := []; buf_length := 0 |}
  else
    len ← lift (checked_sub (buf_length self) size);
    '(pre, partial, post, remaining) ← lift (trim_tail_walk (fragments self) len);
    let partial :=
      if remaining <? BufferFragment_len partial
      then partial <| range_end := range_start partial + remaining |> else partial in
    free_chain post;;
    mret {| fragments := pre ++ [partial]; buf_length := len |}.

(** Walk to the end of a non-empty chain: what comes before, the last fragment. *)
Fixpoint walk_last (frag : BufferFragment) (next : list BufferFragment)
    : list BufferFragment * BufferFragment :=
  match next with
  | [] => ([], frag)
  | frag' :: next' => let '(pre, last) := walk_last frag' next' in (frag :: pre, last)
  end.

Fixpoint append_loop (fuel : nat) (pre : list BufferFragment) (frag : BufferFragment)
    (src : list Z) (data_offset : Z) : ST BufState (list BufferFragment) :=
  match fuel with
  | O => out_of_fuel
  | S fuel =>
      if data_offset <? zlen src then
        avail ← lift (checked_sub FRAGMENT_SIZE (range_end frag));
        left ← lift (checked_sub (zlen src) data_offset);
        let copy_len := Z.min avail left in
        bytes ← lift (slice src data_offset (data_offset + copy_len));
        data' ← lift (with_slice (data frag) (range_end frag) (range_end frag + copy_len)
                        (λ dst, copy_from_slice dst bytes));
        let frag := frag <| data := data' |> <| range_end := range_end frag + copy_len |> in
        let data_offset := data_offset + copy_len in
        if data_offset <? zlen src then
          new_frag ← alloc;
          append_loop fuel (pre ++ [frag]) new_frag src data_offset
        else append_loop fuel pre frag src data_offset
      else mret (pre ++ [frag])
  end.

Definition append_from_slice (src : list Z) (self : NetBuffer) : ST BufState NetBuffer :=
  if zlen src =? 0 then mret self
  else
    '(pre, last_frag) ← (match fragments self with
                         | [] => new_frag ← alloc; mret ([], new_frag)
                         | frag :: next => mret (walk_last frag next)
                         end : ST BufState (list BufferFragment * BufferFragment));
    frags ← append_loop (S (S (length src))) pre last_frag src 0;
    len ← lift (usize_add (buf_length self) (zlen src));
    mret {| fragments := frags; buf_length := len |}.

(** The loop of [copy_to_slice]: the iterator, the octets copied and the
    destination after the loop. *)
Fixpoint copy_loop (fuel : nat) (it : BufferIterator) (copied total_to_copy : Z)
    (dest : list Z) : outcome (BufferIterator * Z * list Z) :=
  match fuel with
  | O => OutOfFuel
  | S fuel =>
      if copied <? total_to_copy then
        '(o, it) ← BufferIterator_next it;
        sl ← unwrap o;
        let copy_len := Z.min (zlen sl) (total_to_copy - copied) in
        src ← slice sl 0 copy_len;
        dest ← with_slice dest copied (copied + copy_len) (λ dst, copy_from_slice dst src);
        copy_loop fuel it (copied + copy_len) total_to_copy dest
      else Ok (it, copied, dest)
  end.

Definition copy_to_slice (self : NetBuffer) (dest : list Z) : outcome (Z * list Z) :=
  let total_to_copy := Z.min (zlen dest) (buf_length self) in
  '(it, copied, dest') ← copy_loop (S (length (fragments self))) (iter self usize_max)
                           0 total_to_copy dest;
  rust_assert ((copied =? buf_length self) || (copied =? zlen dest));;
  '(o, _) ← BufferIterator_next it;
  rust_assert (negb (copied =? NetBuffer_len self) ||
               match o with None => true | Some _ => false end);;
  Ok (copied, dest').

Fixpoint append_from_iter (fuel : nat) (it : BufferIterator) (self : NetBuffer)
    : ST BufState NetBuffer :=
  match fuel with
  | O => out_of_fuel
  | S fuel =>
      '(o, it) ← lift (BufferIterator_next it);
      match o with
      | None => mret self
      | Some frag => self ← append_from_slice frag self; append_from_iter fuel it self
      end
  end.

Definition append_from_buffer (other : NetBuffer) (length : Z) (self : NetBuffer)
    : ST BufState NetBuffer :=
  append_from_iter (S (List.length (fragments other))) (iter other length) self.

Definition append_buffer (other self : NetBuffer) : outcome NetBuffer :=
  len ← usize_add (buf_length self) (buf_length other);
  match fragments self with
  | [] => Ok {| fragments := fragments other; buf_length := len |}
  | frag :: next =>
      let '(pre, last_frag) := walk_last frag next in
      Ok {| fragments := (pre ++ [last_frag]) ++ fragments other; buf_length := len |}
  end.

(** * Metrics report (util.rs, [print_metrics]): the numbers it prints *)

Definition print_metrics (m : Metrics) : outcome (list Z) :=
  current_buf_inuse ← checked_sub (buffers_allocated m) (buffers_freed m);
  current_memory ← buffer_count_to_memory current_buf_inuse;
  total_buffer_memory ← buffer_count_to_memory (buffers_created m);
  Ok [packets_received m; packets_sent m; packets_retransmitted m;
      buffers_allocated m; buffers_freed m; buffers_created m;
      current_memory / 1024; total_buffer_memory / 1024].
