(* ===== verification/BufSpec.v ===== *)
(** * buf.rs: what the buffer operations do

    The abstraction of a packet buffer is its byte string ([contents]); the
    invariant [buf_ok] is the one the unit tests of buf.rs check with
    [validate_buffer].  Every operation is specified by its effect on the byte
    string, preserves the invariant, and keeps the fragment ledger
    ([pool_ok]): the pool's counters say how many fragments are outside the
    pool, so no operation loses or duplicates a fragment. *)

From S2P Require Import Prelude Util Buf.
Local Open Scope Z_scope.

(** * Definitions *)

(** A fragment's storage, whoever owns it. *)
Definition frag_shape (f : BufferFragment) : Prop :=
  zlen (data f) = FRAGMENT_SIZE ∧ bytes_ok (data f).

(** A fragment of a buffer: a non-empty range inside the storage. *)
Definition frag_ok (f : BufferFragment) : Prop :=
  frag_shape f ∧ 0 ≤ range_start f < range_end f ∧ range_end f ≤ FRAGMENT_SIZE.

Definition frag_bytes (f : BufferFragment) : list Z :=
  sub (data f) (range_start f) (range_end f).

Definition chain_bytes (frags : list BufferFragment) : list Z :=
  concat (map frag_bytes frags).
Arguments chain_bytes : simpl never.

(** The byte string a buffer stands for. *)
Definition contents (b : NetBuffer) : list Z := chain_bytes (fragments b).

Definition buf_ok (b : NetBuffer) : Prop :=
  Forall frag_ok (fragments b) ∧ buf_length b = zlen (contents b).

(** The check the unit tests run on every buffer they make. *)
Fixpoint validate_chain (frags : list BufferFragment) (actual_length : Z) : option Z :=
  match frags with
  | [] => Some actual_length
  | frag :: next =>
      if (range_start frag <? range_end frag) && (range_end frag <=? FRAGMENT_SIZE)
      then validate_chain next (actual_length + (range_end frag - range_start frag))
      else None
  end.

Definition validate_buffer (buf : NetBuffer) : bool :=
  match validate_chain (fragments buf) 0 with
  | Some actual_length => actual_length =? NetBuffer_len buf
  | None => false
  end.

Definition nfrags (b : NetBuffer) : Z := zlen (fragments b).

(** Equality of counters that wrap around. *)
Definition congr (a b : Z) : Prop := ∃ q, a = b + q * u32_size.

(** The counters are of 32 bits. *)
Definition metrics_ok (m : Metrics) : Prop :=
  is_u32 (buffers_allocated m) ∧ is_u32 (buffers_freed m) ∧ is_u32 (buffers_created m) ∧
  is_u32 (packets_received m) ∧ is_u32 (packets_sent m) ∧ is_u32 (packets_retransmitted m).

(** The pool's free fragments have their storage, and the counters agree that
    [n] fragments are outside the pool. *)
Record pool_ok (s : BufState) (n : Z) : Prop := {
  pool_frags : Forall frag_shape (free_list s);
  pool_out : congr (buffers_allocated (METRICS s) - buffers_freed (METRICS s)) n;
  pool_created : congr (buffers_created (METRICS s)) (n + zlen (free_list s));
  pool_counters : metrics_ok (METRICS s);
}.

(** Every fragment but the last holds an even number of bytes, so that 16-bit
    words do not straddle fragments. *)
Fixpoint even_chain (frags : list BufferFragment) : Prop :=
  match frags with
  | [] => True
  | [f] => True
  | f :: next => Z.Even (BufferFragment_len f) ∧ even_chain next
  end.
Definition even_layout (b : NetBuffer) : Prop := even_chain (fragments b).

(** * Fragments and chains *)

Lemma frag_ok_len f : frag_ok f → BufferFragment_len f = range_end f - range_start f.
Proof. intros (_ & ? & ?). unfold BufferFragment_len. lia. Qed.

Lemma zlen_frag_bytes f : frag_ok f → zlen (frag_bytes f) = BufferFragment_len f.
Proof.
  intros Hf. rewrite (frag_ok_len f Hf). destruct Hf as ([Hd _] & ? & ?).
  apply zlen_sub; lia.
Qed.

Lemma frag_bytes_ok f : frag_ok f → bytes_ok (frag_bytes f).
Proof. intros ([_ ?] & _). by apply bytes_ok_sub. Qed.

Lemma frag_len_pos f : frag_ok f → 0 < BufferFragment_len f.
Proof. intros Hf. rewrite frag_ok_len by done. destruct Hf as (_ & ? & ?). lia. Qed.

Lemma slice_frag f : frag_ok f → slice (data f) (range_start f) (range_end f) = Ok (frag_bytes f).
Proof. intros ([Hd _] & ? & ?). by rewrite slice_Ok by lia. Qed.

Lemma chain_bytes_cons f l : chain_bytes (f :: l) = frag_bytes f ++ chain_bytes l.
Proof. done. Qed.

Lemma chain_bytes_app l k : chain_bytes (l ++ k) = chain_bytes l ++ chain_bytes k.
Proof. unfold chain_bytes. by rewrite map_app, concat_app. Qed.

Lemma chain_bytes_ok l : Forall frag_ok l → bytes_ok (chain_bytes l).
Proof.
  induction 1; [constructor|]. rewrite chain_bytes_cons, bytes_ok_app.
  auto using frag_bytes_ok.
Qed.

Lemma contents_ok b : buf_ok b → bytes_ok (contents b).
Proof. intros []. by apply chain_bytes_ok. Qed.

Lemma chain_nonempty f l : Forall frag_ok (f :: l) → 0 < zlen (chain_bytes (f :: l)).
Proof.
  intros [Hf _]%Forall_cons_iff. rewrite chain_bytes_cons, zlen_app, zlen_frag_bytes by done.
  pose proof (frag_len_pos f Hf). pose proof (zlen_nonneg (chain_bytes l)). lia.
Qed.

Lemma frag_ok_shape f : frag_ok f → frag_shape f.
Proof. by intros []. Qed.

Lemma chain_shape l : Forall frag_ok l → Forall frag_shape l.
Proof. intros H. eapply Forall_impl; [exact H|apply frag_ok_shape]. Qed.

Lemma buf_ok_new : buf_ok NetBuffer_new.
Proof. by split; [constructor|]. Qed.

Lemma buf_ok_len b : buf_ok b → NetBuffer_len b = zlen (contents b).
Proof. by intros []. Qed.

Lemma is_empty_spec b : buf_ok b → is_empty b = true ↔ contents b = [].
Proof.
  intros [_ Hl]. unfold is_empty. rewrite Z.eqb_eq, Hl. split; [apply zlen_0_nil|by intros ->].
Qed.

Lemma validate_chain_spec l n :
  Forall frag_ok l → validate_chain l n = Some (n + zlen (chain_bytes l)).
Proof.
  intros Hl. revert n. induction Hl as [|f l Hf Hl IH]; intros n; simpl.
  - unfold chain_bytes. simpl. rewrite zlen_nil. f_equal. lia.
  - pose proof (frag_ok_len f Hf). pose proof (zlen_frag_bytes f Hf).
    rewrite (proj2 (Z.ltb_lt _ _)), (proj2 (Z.leb_le _ _)) by (destruct Hf as (_ & ? & ?); lia).
    simpl. rewrite IH. f_equal. rewrite chain_bytes_cons, zlen_app. lia.
Qed.

(** The invariant is what the unit tests check. *)
Lemma buf_ok_validate b : buf_ok b → validate_buffer b = true.
Proof.
  intros [Hf Hl]. unfold validate_buffer. rewrite validate_chain_spec by done.
  unfold NetBuffer_len. apply Z.eqb_eq. done.
Qed.

(** * The pool *)

Lemma congr_add c n : congr (PerfCounter_add c n) (c + n).
Proof.
  exists (- ((c + n) / u32_size)). unfold PerfCounter_add, wrapping_add.
  pose proof (Z.div_mod (c + n) u32_size ltac:(lia)). lia.
Qed.

Lemma PerfCounter_add_range c n : is_u32 (PerfCounter_add c n).
Proof. by apply wrapping_add_range. Qed.

Lemma pool_ok_ext s n m : pool_ok s n → n = m → pool_ok s m.
Proof. by intros ? <-. Qed.

Lemma pool_ok_grow s n :
  pool_ok s n → runs grow s (λ _ s', pool_ok s' n ∧ free_list s' ≠ []).
Proof.
  intros [Hf Ho Hc Hr]. unfold grow. run. split; [|done].
  assert (frag_shape BufferFragment_new) as Hnew by (split; [done|apply bytes_ok_zeros]).
  split; simpl; [by repeat constructor|done| |split_and!; try apply Hr; apply PerfCounter_add_range].
  destruct (congr_add (buffers_created (METRICS s)) 16) as [q Hq], Hc as [q' Hq'].
  exists (q + q'). rewrite Hq, Hq'. zlen_simpl. lia.
Qed.

Lemma PerfCounter_inc_range c : is_u32 (PerfCounter_inc c).
Proof. apply PerfCounter_add_range. Qed.

Lemma metrics_inc m : metrics_ok m →
  metrics_ok (m <| packets_received ::= PerfCounter_inc |>) ∧
  metrics_ok (m <| packets_sent ::= PerfCounter_inc |>) ∧
  metrics_ok (m <| packets_retransmitted ::= PerfCounter_inc |>).
Proof.
  intros (? & ? & ? & ? & ? & ?). split_and!; split_and!; cbn; try done; apply PerfCounter_inc_range.
Qed.

Lemma alloc_runs s n :
  pool_ok s n →
  runs alloc s (λ f s', frag_shape f ∧ range_start f = 0 ∧ range_end f = 0 ∧ pool_ok s' (n + 1)).
Proof.
  intros Hs. unfold alloc. run.
  apply (runs_mono _ _ (λ _ s', pool_ok s' n ∧ free_list s' ≠ [])).
  { destruct (free_list s) eqn:E; [by apply pool_ok_grow|].
    run. split; [done|]. by rewrite E. }
  clear s Hs. intros _ s [[Hf Ho Hc Hr] Hne]. run.
  unfold set_field. simpl. destruct (free_list s) as [|f r] eqn:E; [done|]. simpl. run. simpl.
  rewrite Forall_cons_iff in Hf. destruct Hf as [Hf Hr'].
  split_and!; [apply Hf|done..|].
  split; simpl; [done| | |split_and!; try apply Hr; apply PerfCounter_add_range].
  - destruct (congr_add (buffers_allocated (METRICS s)) 1) as [q Hq], Ho as [q' Hq'].
    exists (q + q'). unfold PerfCounter_inc, PerfCounter_add in *. lia.
  - destruct Hc as [q Hq]. exists q. rewrite Hq. zlen_simpl. lia.
Qed.

Lemma free_runs s n f :
  pool_ok s n → frag_shape f → runs (free f) s (λ _ s', pool_ok s' (n - 1)).
Proof.
  intros [Hf Ho Hc Hr] Hshape. unfold free. run.
  split; simpl; [by constructor| | |split_and!; try apply Hr; apply PerfCounter_add_range].
  - destruct (congr_add (buffers_freed (METRICS s)) 1) as [q Hq], Ho as [q' Hq'].
    exists (q' - q). unfold PerfCounter_inc, PerfCounter_add in *. lia.
  - destruct Hc as [q Hq]. exists q. rewrite Hq. zlen_simpl. lia.
Qed.

Lemma free_chain_runs s n l :
  pool_ok s n → Forall frag_shape l →
  runs (free_chain l) s (λ _ s', pool_ok s' (n - zlen l)).
Proof.
  intros Hs Hl. revert s n Hs. induction Hl as [|f l Hf Hl IH]; intros s n Hs; simpl.
  - run. eapply pool_ok_ext; [done|]. rewrite zlen_nil. lia.
  - run. call free_runs; [done..|]. intros _ s' Hs'.
    call IH; [done|]. intros _ s'' Hs''.
    eapply pool_ok_ext; [done|]. zlen_simpl. lia.
Qed.

Lemma drop_buffer_runs s k b :
  buf_ok b → pool_ok s (nfrags b + k) → runs (drop_buffer b) s (λ _ s', pool_ok s' k).
Proof.
  intros [Hb _] Hs. call free_chain_runs; [eauto using chain_shape..|].
  intros _ s' Hs'. eapply pool_ok_ext; [done|]. unfold nfrags. lia.
Qed.

(** * Iteration *)

Lemma next_nil n : BufferIterator_next {| current_frag := []; remaining := n |} =
  Ok (None, {| current_frag := []; remaining := n |}).
Proof. done. Qed.

Lemma next_zero frags : BufferIterator_next {| current_frag := frags; remaining := 0 |} =
  Ok (None, {| current_frag := frags; remaining := 0 |}).
Proof. by destruct frags. Qed.

Lemma next_cons f next n :
  frag_ok f → 0 < n →
  BufferIterator_next {| current_frag := f :: next; remaining := n |} =
    Ok (Some (take (Z.to_nat n) (frag_bytes f)),
        {| current_frag := next; remaining := n - Z.min (BufferFragment_len f) n |}).
Proof.
  intros Hf Hn. unfold BufferIterator_next. simpl.
  rewrite (proj2 (Z.eqb_neq _ _)) by lia. pose proof (frag_len_pos f Hf).
  unfold rust_assert. rewrite (proj2 (Z.leb_le _ _)) by lia. cbn [mbind outcome_bind].
  pose proof (frag_ok_len f Hf). destruct Hf as ([Hd _] & ? & ?).
  rewrite slice_Ok by lia. cbn [mbind outcome_bind]. rewrite checked_sub_Ok by lia.
  cbn [mbind outcome_bind]. do 3 f_equal. unfold frag_bytes, sub.
  rewrite take_take. f_equal. lia.
Qed.

Lemma next_total frags n :
  Forall frag_ok frags → 0 ≤ n →
  ∃ r, BufferIterator_next {| current_frag := frags; remaining := n |} = Ok r.
Proof.
  intros Hf Hn. destruct (decide (n = 0)) as [->|]; [rewrite next_zero; eauto|].
  destruct frags as [|f next]; [rewrite next_nil; eauto|].
  rewrite Forall_cons_iff in Hf. rewrite next_cons by naive_solver lia. eauto.
Qed.

(** The iterator yields the first [n] bytes of the buffer, in non-empty slices. *)
Lemma collect_spec fuel frags n :
  Forall frag_ok frags → 0 ≤ n → (length frags < fuel)%nat →
  ∃ sls, collect fuel {| current_frag := frags; remaining := n |} = Ok sls ∧
    concat sls = take (Z.to_nat n) (chain_bytes frags) ∧ Forall (λ sl, sl ≠ []) sls.
Proof.
  intros Hfr. revert fuel n.
  induction Hfr as [|f frags Hf Hfr IH]; intros fuel n Hn Hfuel;
    (destruct fuel as [|fuel]; [simpl in *; lia|]); cbn [collect].
  - rewrite next_nil. simpl. exists []. split_and!; [done| |constructor].
    unfold chain_bytes. simpl. by rewrite take_nil.
  - destruct (decide (n = 0)) as [->|].
    { rewrite next_zero. simpl. by exists []. }
    rewrite next_cons by (done || lia). cbn [mbind outcome_bind].
    pose proof (frag_len_pos f Hf). pose proof (zlen_frag_bytes f Hf) as Hlen.
    destruct (IH fuel (n - Z.min (BufferFragment_len f) n) ltac:(lia) ltac:(simpl in *; lia))
      as (sls & -> & Hc & Hne).
    eexists. split_and!; [done| |].
    + cbn [concat]. rewrite Hc, chain_bytes_cons, take_app. f_equal. f_equal.
      unfold zlen in Hlen. lia.
    + constructor; [|done]. intros Hnil. apply (f_equal zlen) in Hnil.
      rewrite zlen_take, (@zlen_nil Z) in Hnil. lia.
Qed.

(** Without a limit it yields the fragments. *)
Lemma collect_all fuel frags n :
  Forall frag_ok frags → zlen (chain_bytes frags) ≤ n → (length frags < fuel)%nat →
  collect fuel {| current_frag := frags; remaining := n |} = Ok (map frag_bytes frags).
Proof.
  intros Hfr. revert fuel n.
  induction Hfr as [|f frags Hf Hfr IH]; intros fuel n Hn Hfuel;
    (destruct fuel as [|fuel]; [simpl in *; lia|]); cbn [collect].
  - by rewrite next_nil.
  - rewrite chain_bytes_cons, zlen_app, zlen_frag_bytes in Hn by done.
    pose proof (frag_len_pos f Hf). pose proof (zlen_nonneg (chain_bytes frags)).
    pose proof (zlen_frag_bytes f Hf).
    rewrite next_cons by (done || lia). cbn [mbind outcome_bind].
    rewrite IH by (simpl in *; lia). cbn [mbind outcome_bind map].
    rewrite take_ge; [done|]. unfold zlen in *. lia.
Qed.

Lemma slices_all b n :
  buf_ok b → zlen (contents b) ≤ n → slices (iter b n) = Ok (map frag_bytes (fragments b)).
Proof. intros [Hb _] Hn. apply collect_all; [done..|simpl; lia]. Qed.

(** * Headers *)

Lemma header_cons f next b :
  fragments b = f :: next → frag_ok f → header b = Ok (frag_bytes f).
Proof. unfold header. intros -> Hf. by apply slice_frag. Qed.

Lemma header_prefix b :
  buf_ok b → contents b ≠ [] →
  ∃ h rest, header b = Ok h ∧ contents b = h ++ rest ∧ h ≠ [].
Proof.
  intros [Hb _] Hne. unfold contents in *. destruct (fragments b) as [|f next] eqn:E; [done|].
  rewrite Forall_cons_iff in Hb. destruct Hb as [Hf _].
  exists (frag_bytes f), (chain_bytes next). split_and!; [by eapply header_cons|done|].
  intros Hnil. apply (f_equal zlen) in Hnil. rewrite zlen_frag_bytes, (@zlen_nil Z) in Hnil by done.
  pose proof (frag_len_pos f Hf). lia.
Qed.

(** Writing through the header slice replaces the bytes of the first fragment. *)
Lemma header_mut_spec b h h' rest f :
  buf_ok b → header b = Ok h → contents b = h ++ rest →
  f h = Ok h' → zlen h' = zlen h → bytes_ok h' →
  ∃ b', header_mut b f = Ok b' ∧ buf_ok b' ∧ contents b' = h' ++ rest ∧
    header b' = Ok h' ∧ nfrags b' = nfrags b ∧ (even_layout b → even_layout b').
Proof.
  intros [Hb Hl] Hh Hc Hf Hlen Hok. unfold header_mut, header in *.
  destruct (fragments b) as [|fr next] eqn:E; [done|].
  rewrite Forall_cons_iff in Hb. destruct Hb as [Hfr Hnext].
  rewrite slice_frag in Hh by done. inversion Hh; subst h.
  assert (chain_bytes next = rest) as Hrest.
  { unfold contents in Hc. rewrite E, chain_bytes_cons in Hc. by apply app_inv_head in Hc. }
  pose proof (zlen_frag_bytes fr Hfr) as Hzl. pose proof (frag_ok_len fr Hfr) as Hfl.
  assert (Hfr' := Hfr). destruct Hfr' as ([Hd Hdok] & ? & ?).
  rewrite (with_slice_Ok _ _ _ _ h') by (done || lia). cbn [mbind outcome_bind].
  set (fr' := fr <| data := _ |>).
  assert (frag_bytes fr' = h') as Hbytes.
  { unfold frag_bytes, fr', set_field. simpl.
    replace (range_end fr) with (range_start fr + zlen h') by lia.
    apply sub_overwrite_at; lia. }
  assert (frag_ok fr') as Hok'.
  { split; [|done]. split; [|by apply bytes_ok_overwrite].
    unfold fr', set_field. simpl. rewrite zlen_overwrite; lia. }
  eexists. split; [done|]. unfold buf_ok, contents, nfrags, even_layout. simpl. rewrite E.
  split_and!.
  - by constructor.
  - rewrite Hl. unfold contents. rewrite E, !chain_bytes_cons, !zlen_app, Hbytes. lia.
  - by rewrite chain_bytes_cons, Hbytes, Hrest.
  - etransitivity; [exact (slice_frag fr' Hok')|by rewrite Hbytes].
  - by rewrite !zlen_cons.
  - destruct next; [done|]. intros [? ?]. split; [|done].
    by rewrite <-zlen_frag_bytes, Hbytes, Hlen, Hzl by done.
Qed.

(** A caller that only rewrites the first bytes of the header. *)
Lemma header_mut_prefix b h h' k rest f :
  buf_ok b → header b = Ok (h ++ k) → contents b = h ++ rest →
  f (h ++ k) = Ok (h' ++ k) → zlen h' = zlen h → bytes_ok h' →
  ∃ b', header_mut b f = Ok b' ∧ buf_ok b' ∧ contents b' = h' ++ rest ∧
    header b' = Ok (h' ++ k) ∧ nfrags b' = nfrags b ∧ (even_layout b → even_layout b').
Proof.
  intros Hb Hh Hc Hf Hlen Hok.
  assert (∃ r, contents b = (h ++ k) ++ r) as [r Hr].
  { unfold header in Hh. unfold contents. destruct Hb as [Hb _].
    destruct (fragments b) as [|fr next]; [done|].
    rewrite Forall_cons_iff in Hb. destruct Hb as [Hfr Hnext].
    rewrite slice_frag in Hh by done. inversion Hh as [E].
    exists (chain_bytes next). by rewrite chain_bytes_cons, E. }
  assert (rest = k ++ r) as ->.
  { rewrite Hr, <-app_assoc in Hc. by apply app_inv_head in Hc. }
  assert (bytes_ok k).
  { pose proof (contents_ok b Hb) as Hcb. rewrite Hc, !bytes_ok_app in Hcb. naive_solver. }
  destruct (header_mut_spec b (h ++ k) (h' ++ k) r f) as (b' & ? & ? & Hc' & ? & ? & ?);
    [done..| |by apply bytes_ok_app|].
  { rewrite !zlen_app. lia. }
  exists b'. split_and!; [done..| |done|done|done]. by rewrite Hc', <-app_assoc.
Qed.

Lemma even_chain_cons f l :
  (l = [] ∨ Z.Even (BufferFragment_len f)) → even_chain l → even_chain (f :: l).
Proof. intros H Hl. destruct l; [done|]. destruct H; [done|]. by split. Qed.

Lemma reserve_header_runs s k size frags :
  Forall frag_ok frags → 0 < size ≤ FRAGMENT_SIZE → pool_ok s (zlen frags + k) →
  runs (reserve_header size frags) s (λ frags' s', ∃ frag next junk old,
    frags' = frag :: next ∧ Forall frag_ok frags' ∧
    frag_bytes frag = junk ++ old ∧ zlen junk = size ∧ chain_bytes frags = old ++ chain_bytes next ∧
    zlen frags ≤ zlen frags' ≤ zlen frags + 1 ∧
    (Z.Even size → even_chain frags → even_chain frags') ∧ pool_ok s' (zlen frags' + k)).
Proof.
  intros Hf Hsize Hs. unfold reserve_header.
  assert (∀ frag f, frag_shape f → frag = f <| range_start := FRAGMENT_SIZE - size |>
            <| range_end := FRAGMENT_SIZE |> → frag_ok frag) as Hok.
  { intros frag f [Hd Hdb] ->. split; [split; done|]. simpl. lia. }
  assert (runs (new_head_frag ← alloc;
       mret (new_head_frag <| range_start := FRAGMENT_SIZE - size |>
            <| range_end := FRAGMENT_SIZE |> :: frags)) s (λ frags' s', ∃ frag next junk old,
    frags' = frag :: next ∧ Forall frag_ok frags' ∧
    frag_bytes frag = junk ++ old ∧ zlen junk = size ∧ chain_bytes frags = old ++ chain_bytes next ∧
    zlen frags ≤ zlen frags' ≤ zlen frags + 1 ∧
    (Z.Even size → even_chain frags → even_chain frags') ∧ pool_ok s' (zlen frags' + k))) as Hpre.
  { run. call alloc_runs; [done|]. intros f s' (Hd & _ & _ & Hs'). run.
    set (frag := f <| range_start := _ |> <| range_end := _ |>).
    specialize (Hok frag f Hd eq_refl). pose proof (frag_ok_len frag Hok) as Hlen. simpl in Hlen.
    exists frag, frags, (frag_bytes frag), []. rewrite app_nil_r. split_and!.
    - done.
    - by constructor.
    - done.
    - rewrite zlen_frag_bytes by done. lia.
    - done.
    - zlen_simpl. lia.
    - zlen_simpl. lia.
    - intros [m Hm] ?. apply even_chain_cons; [|done]. right. exists m. lia.
    - eapply pool_ok_ext; [done|]. zlen_simpl. lia. }
  destruct frags as [|f next]; [done|].
  destruct (Z.ltb_spec (range_start f) size); [done|]. clear Hpre Hok.
  run. set (frag := f <| range_start := _ |>).
  rewrite Forall_cons_iff in Hf. destruct Hf as [Hf Hnext].
  pose proof (frag_ok_len f Hf) as Hlen. destruct Hf as ([Hd Hdb] & ? & ?).
  assert (frag_ok frag) as Hok by (split; [done|simpl; lia]).
  pose proof (frag_ok_len frag Hok) as Hlen'. simpl in Hlen'.
  exists frag, next, (sub (data f) (range_start f - size) (range_start f)), (frag_bytes f). split_and!.
  - done.
  - by constructor.
  - unfold frag_bytes. simpl. apply sub_split; lia.
  - rewrite zlen_sub; lia.
  - done.
  - zlen_simpl. lia.
  - zlen_simpl. lia.
  - intros [m Hm] He. destruct next as [|g next]; [done|]. destruct He as [[q Hq] He].
    apply even_chain_cons; [|done]. right. exists (q + m). lia.
  - eapply pool_ok_ext; [done|]. zlen_simpl. lia.
Qed.

(** [alloc_header] puts [size] zero bytes in front, contiguous in the header
    slice, whether or not the first fragment has room for them. *)
Lemma alloc_header_runs s k size b :
  buf_ok b → 0 < size ≤ FRAGMENT_SIZE → zlen (contents b) + size < usize_size →
  pool_ok s (nfrags b + k) →
  runs (alloc_header size b) s (λ b' s', buf_ok b' ∧ contents b' = zeros size ++ contents b ∧
    (∃ r, header b' = Ok (zeros size ++ r)) ∧ nfrags b ≤ nfrags b' ≤ nfrags b + 1 ∧
    (Z.Even size → even_layout b → even_layout b') ∧ pool_ok s' (nfrags b' + k)).
Proof.
  intros [Hb Hl] Hsize Hmax Hs. unfold alloc_header. run.
  unfold rust_assert. rewrite (proj2 (Z.leb_le _ _)) by lia. run.
  call reserve_header_runs; [done..|].
  intros _ s' (f & next & junk & old & -> & Hok & Hf & Hj & Hc & Hn & He & Hs').
  rewrite Forall_cons_iff in Hok. destruct Hok as [Hfok Hnext].
  pose proof (zlen_frag_bytes f Hfok) as Hzl. pose proof (frag_ok_len f Hfok) as Hfl.
  rewrite Hf, zlen_app in Hzl. pose proof (zlen_nonneg old).
  assert (Hfok' := Hfok). destruct Hfok' as ([Hd Hdb] & ? & ?).
  assert (zlen (zeros size) = size) as Hz by (apply zlen_zeros; lia).
  run. rewrite (with_slice_Ok _ _ _ _ (zeros size)); [|lia..|].
  2: { unfold fill, zeros. do 2 f_equal. rewrite <-(Nat2Z.id (length _)). f_equal.
       fold (zlen (sub (data f) (range_start f) (range_start f + size))). rewrite zlen_sub; lia. }
  run. rewrite Hl. run.
  set (f' := f <| data := _ |>).
  assert (frag_bytes f' = zeros size ++ old) as Hbytes.
  { unfold frag_bytes, f'. simpl.
    rewrite (sub_split _ _ (range_start f + zlen (zeros size))) by lia.
    rewrite sub_overwrite_at, sub_overwrite_after by lia. f_equal.
    unfold frag_bytes in Hf. rewrite (sub_split _ _ (range_start f + size)) in Hf by lia.
    rewrite Hz. apply app_inj_1 in Hf; [naive_solver|].
    apply Nat2Z.inj. fold (zlen junk). rewrite Hj.
    fold (zlen (sub (data f) (range_start f) (range_start f + size))). rewrite zlen_sub; lia. }
  assert (frag_ok f') as Hok'.
  { split; [|done]. split; [|apply bytes_ok_overwrite; auto with netstack].
    simpl. rewrite zlen_overwrite; lia. }
  assert (BufferFragment_len f' = BufferFragment_len f) by done.
  unfold buf_ok, contents, nfrags, even_layout in *. simpl. rewrite Hc.
  split_and!; try done.
  - by constructor.
  - rewrite !chain_bytes_cons, Hbytes, !zlen_app. lia.
  - by rewrite chain_bytes_cons, Hbytes, <-app_assoc.
  - exists old. etransitivity; [exact (slice_frag f' Hok')|by rewrite Hbytes].
  - zlen_simpl. lia.
  - zlen_simpl. lia.
Qed.

(** Requests the assertion refuses. *)
Lemma alloc_header_too_large s size b : FRAGMENT_SIZE < size → alloc_header size b s = Panic.
Proof.
  intros. unfold alloc_header. apply bind_Panic, lift_Panic. unfold rust_assert.
  by rewrite (proj2 (Z.leb_gt _ _)) by lia.
Qed.

(** * Trimming *)

Lemma trim_head_loop_runs s k frags n :
  Forall frag_ok frags → 0 ≤ n ≤ zlen (chain_bytes frags) → pool_ok s (zlen frags + k) →
  runs (trim_head_loop frags n) s (λ r s', Forall frag_ok r.1 ∧ 0 ≤ r.2 ∧
    drop (Z.to_nat n) (chain_bytes frags) = drop (Z.to_nat r.2) (chain_bytes r.1) ∧
    (r.2 = 0 ∨ ∃ f next, r.1 = f :: next ∧ r.2 < BufferFragment_len f) ∧
    (∃ pre, frags = pre ++ r.1) ∧
    (Z.Even n → even_chain frags → r.1 = [] ∨ Z.Even r.2) ∧ pool_ok s' (zlen r.1 + k)).
Proof.
  intros Hfr. revert s n. induction Hfr as [|f frags Hf Hfr IH]; intros s n Hn Hs;
    cbn [trim_head_loop].
  - unfold chain_bytes in Hn. simpl in Hn. rewrite (@zlen_nil Z) in Hn.
    rewrite (proj2 (Z.ltb_ge _ _)) by lia. run. simpl.
    replace n with 0 by lia. split_and!; [constructor|done..|by left|by exists []|by left|done].
  - destruct (Z.ltb_spec 0 n).
    2: { run. simpl. replace n with 0 by lia.
         split_and!; [by constructor|done..|by left|by exists []|by right|done]. }
    pose proof (zlen_frag_bytes f Hf) as Hzl. pose proof (frag_len_pos f Hf).
    rewrite chain_bytes_cons, zlen_app in Hn.
    destruct (Z.ltb_spec n (BufferFragment_len f)).
    + run. simpl. split_and!; [by constructor|lia|done|right; eauto|by exists []|by right|done].
    + run. call free_runs; [done|by apply frag_ok_shape|]. intros _ s' Hs'.
      call IH; [lia| |].
      { eapply pool_ok_ext; [done|]. zlen_simpl. lia. }
      intros [r m] s'' (Hr & Hm & Hd & Hor & (pre & Hpre) & He & Hs''). simpl in *.
      split_and!; [done..| |done| | |done].
      * rewrite <-Hd, chain_bytes_cons, drop_app_ge by (unfold zlen in *; lia).
        f_equal. unfold zlen in *. lia.
      * exists (f :: pre). by rewrite Hpre.
      * intros [q Hq] Hev. destruct frags as [|g frags].
        { left. symmetry in Hpre. by apply app_eq_nil in Hpre as [_ ?]. }
        destruct Hev as [[q' Hq'] Hev]. apply He; [|done]. exists (q - q'). lia.
Qed.

Lemma even_chain_suffix pre l : even_chain (pre ++ l) → even_chain l.
Proof.
  induction pre as [|f pre IH]; [done|]. simpl. destruct (pre ++ l) eqn:E.
  - intros _. apply app_eq_nil in E as [_ ->]. done.
  - intros [_ H]. by apply IH.
Qed.

(** [trim_head] drops bytes at the front and gives the emptied fragments back. *)
Lemma trim_head_runs s k size b :
  buf_ok b → 0 ≤ size ≤ zlen (contents b) → pool_ok s (nfrags b + k) →
  runs (trim_head size b) s (λ b' s', buf_ok b' ∧
    contents b' = drop (Z.to_nat size) (contents b) ∧ nfrags b' ≤ nfrags b ∧
    (Z.Even size → even_layout b → even_layout b') ∧ pool_ok s' (nfrags b' + k)).
Proof.
  intros [Hb Hl] Hsize Hs. unfold trim_head. run.
  unfold NetBuffer_len. rewrite rust_assert_true by (apply Z.leb_le; lia). run.
  call trim_head_loop_runs; [done..|].
  intros [frags n] s' (Hfr & Hn & Hd & Hor & (pre & Hpre) & He & Hs'). simpl in *. run.
  assert (Hdl : zlen (contents b) - size = zlen (chain_bytes frags) - n).
  { apply (f_equal zlen) in Hd. rewrite !zlen_drop in Hd. fold (contents b) in Hd.
    assert (n ≤ zlen (chain_bytes frags)); [|lia].
    destruct Hor as [->|(f & next & -> & ?)]; [apply zlen_nonneg|].
    rewrite Forall_cons_iff in Hfr. rewrite chain_bytes_cons, zlen_app, zlen_frag_bytes by naive_solver.
    pose proof (zlen_nonneg (chain_bytes next)). lia. }
  apply (runs_mono _ _ (λ frags' s'', s'' = s' ∧ Forall frag_ok frags' ∧
    chain_bytes frags' = drop (Z.to_nat n) (chain_bytes frags) ∧ zlen frags' = zlen frags ∧
    (frags = [] ∨ Z.Even n → even_chain frags → even_chain frags'))).
  { destruct (Z.ltb_spec 0 n).
    - destruct Hor as [?|(f & next & -> & Hlt)]; [lia|]. run.
      rewrite Forall_cons_iff in Hfr. destruct Hfr as [Hf Hnext].
      pose proof (frag_ok_len f Hf) as Hlen. pose proof (zlen_frag_bytes f Hf).
      assert (Hf' := Hf). destruct Hf' as ([? ?] & ? & ?). split_and!; [done| |..].
      + constructor; [|done]. split; [done|]. simpl. lia.
      + rewrite !chain_bytes_cons, drop_app_le by (unfold zlen in *; lia). f_equal.
        unfold frag_bytes. simpl. rewrite drop_sub by lia. f_equal. lia.
      + by rewrite !zlen_cons.
      + intros [?|[m Hm]] Hev; [done|]. destruct next; [done|].
        destruct Hev as [[q Hq] Hev]. split; [|done].
        exists (q - m). unfold BufferFragment_len in *. simpl. lia.
    - run. replace n with 0 by lia. done. }
  intros frags' _ (-> & Hok & Hc & Hz & He'). rewrite Hl. run.
  assert (contents b = chain_bytes pre ++ chain_bytes frags) as Hcb.
  { unfold contents. by rewrite Hpre, chain_bytes_app. }
  assert (zlen (chain_bytes frags') = zlen (contents b) - size) as Hlen'.
  { rewrite Hc, zlen_drop. pose proof (zlen_nonneg (contents b)). lia. }
  rewrite rust_assert_true.
  2: { destruct frags'; [|done]. unfold chain_bytes in Hlen'. simpl in Hlen'.
       rewrite (@zlen_nil Z) in Hlen'. by apply Z.eqb_eq. }
  run. unfold buf_ok, nfrags, even_layout, contents in *. simpl.
  split_and!; [done|lia|by rewrite Hc, Hd| | |].
  - rewrite Hz, Hpre, zlen_app. pose proof (zlen_nonneg pre). lia.
  - intros Hev Hchain. apply He'; [by apply He|].
    rewrite Hpre in Hchain. by eapply even_chain_suffix.
  - by rewrite Hz.
Qed.

(** Trimming part of the first fragment leaves the rest of it. *)
Lemma trim_head_header s size b h r :
  buf_ok b → header b = Ok (h ++ r) → zlen h = size → r ≠ [] →
  runs (trim_head size b) s (λ b' _, header b' = Ok r).
Proof.
  intros [Hb Hl] Hh Hsz Hr. unfold header in Hh. unfold contents in Hl.
  destruct (fragments b) as [|f next] eqn:E; [done|].
  rewrite Forall_cons_iff in Hb. destruct Hb as [Hf Hnext].
  rewrite slice_frag in Hh by done. injection Hh as Hh.
  pose proof (zlen_frag_bytes f Hf) as Hz. pose proof (frag_ok_len f Hf) as Hfl.
  rewrite Hh in Hz. rewrite zlen_app in Hz. pose proof (zlen_nonneg h).
  assert (0 < zlen r) by (destruct r; [done|zlen_solve]).
  rewrite chain_bytes_cons, zlen_app, Hh, zlen_app in Hl. pose proof (zlen_nonneg (chain_bytes next)).
  unfold trim_head. run. unfold NetBuffer_len. rewrite rust_assert_true by (apply Z.leb_le; lia). run.
  rewrite E. cbn [trim_head_loop].
  assert (Hgoal : slice (data f) (range_start f + size) (range_end f) = Ok r).
  { destruct Hf as ([Hd _] & ? & ?).
    rewrite slice_Ok by lia. f_equal.
    rewrite <-drop_sub by lia. unfold frag_bytes in Hh. rewrite Hh.
    rewrite drop_app_ge by (unfold zlen in *; lia).
    replace (Z.to_nat size - length h)%nat with O by (unfold zlen in *; lia). apply drop_0. }
  destruct (Z.ltb_spec 0 size) as [Hpos|]; [rewrite (proj2 (Z.ltb_lt size _)) by lia|]; run; cbn.
  - rewrite (proj2 (Z.ltb_lt 0 size)) by done. run.
    rewrite rust_assert_true by done. run. cbn. by rewrite Z.add_comm.
  - rewrite (proj2 (Z.ltb_ge 0 size)) by lia. run.
    rewrite rust_assert_true by done. run. cbn.
    replace size with 0 in Hgoal by lia. by rewrite Z.add_0_r in Hgoal.
Qed.

Lemma trim_head_too_much s size b : NetBuffer_len b < size → trim_head size b s = Panic.
Proof.
  intros. unfold trim_head. apply bind_Panic, lift_Panic, rust_assert_false.
  by apply Z.leb_gt.
Qed.

Lemma trim_tail_walk_spec frags n :
  Forall frag_ok frags → 0 < n ≤ zlen (chain_bytes frags) →
  ∃ pre f post m, trim_tail_walk frags n = Ok (pre, f, post, m) ∧
    frags = pre ++ f :: post ∧ 0 < m ≤ BufferFragment_len f ∧ n = zlen (chain_bytes pre) + m.
Proof.
  intros Hfr. revert n. induction Hfr as [|f frags Hf Hfr IH]; intros n Hn; cbn [trim_tail_walk].
  { unfold chain_bytes in Hn. simpl in Hn. zlen_solve. }
  pose proof (zlen_frag_bytes f Hf) as Hzl. rewrite chain_bytes_cons, zlen_app in Hn.
  destruct (Z.leb_spec n (BufferFragment_len f)).
  { exists [], f, frags, n. split_and!; [done..|lia|lia|]. unfold chain_bytes. simpl. zlen_solve. }
  rewrite checked_sub_Ok by lia. cbn [mbind outcome_bind].
  destruct (IH (n - BufferFragment_len f) ltac:(lia)) as (pre & g & post & m & -> & -> & ? & ?).
  exists (f :: pre), g, post, m. split_and!; [done..|lia|lia|].
  rewrite chain_bytes_cons, zlen_app. lia.
Qed.

Lemma even_chain_prefix pre f post f' :
  even_chain (pre ++ f :: post) → even_chain (pre ++ [f']).
Proof.
  induction pre as [|g pre IH]; [done|]. intros H.
  change (even_chain (g :: (pre ++ f :: post))) in H.
  change (even_chain (g :: (pre ++ [f']))).
  apply even_chain_cons.
  - right. destruct pre; apply H.
  - apply IH. destruct pre; apply H.
Qed.

(** The header of a buffer of full fragments. *)
Lemma header_full b :
  buf_ok b → contents b ≠ [] → Forall (λ n, n = FRAGMENT_SIZE) (map BufferFragment_len (fragments b)) →
  ∃ h, header b = Ok h ∧ h = take 512 (contents b) ∧ zlen h = FRAGMENT_SIZE.
Proof.
  intros [Hb _] Hne Hfull. unfold contents, header in *. destruct (fragments b) as [|f next]; [done|].
  rewrite Forall_cons_iff in Hb. destruct Hb as [Hf _].
  cbn [map] in Hfull. rewrite Forall_cons_iff in Hfull. destruct Hfull as [Hlen _].
  pose proof (zlen_frag_bytes f Hf). exists (frag_bytes f). split_and!; [by apply slice_frag| |lia].
  rewrite chain_bytes_cons, take_app_length'; [done|]. unfold zlen in *. lia.
Qed.

(** [trim_tail] keeps a prefix and gives the fragments after it back. *)
Lemma trim_tail_runs s k size b :
  buf_ok b → 0 ≤ size ≤ zlen (contents b) → pool_ok s (nfrags b + k) →
  runs (trim_tail size b) s (λ b' s', buf_ok b' ∧
    contents b' = take (Z.to_nat (zlen (contents b) - size)) (contents b) ∧
    nfrags b' ≤ nfrags b ∧
    (even_layout b → even_layout b') ∧
    (∀ h, header b = Ok h → size < zlen (contents b) →
      header b' = Ok (take (Z.to_nat (zlen (contents b) - size)) h)) ∧
    pool_ok s' (nfrags b' + k)).
Proof.
  intros [Hb Hl] Hsize Hs. unfold trim_tail. run.
  unfold NetBuffer_len. rewrite rust_assert_true by (apply Z.leb_le; lia). run.
  destruct (Z.eqb_spec size (buf_length b)).
  { run. call free_chain_runs; [done|by apply chain_shape|]. intros _ s' Hs'. run.
    split_and!; [apply buf_ok_new| |apply zlen_nonneg|done|lia|].
    - by replace (Z.to_nat _) with O by lia.
    - eapply pool_ok_ext; [done|]. unfold nfrags. simpl. zlen_solve. }
  run. unfold contents in *.
  destruct (trim_tail_walk_spec (fragments b) (buf_length b - size)) as
    (pre & f & post & m & -> & Hfr & Hm & Hsum); [done|lia|].
  run. set (partial := if m <? _ then _ else _).
  unfold nfrags, even_layout in *. rewrite Hfr in *.
  rewrite Forall_app, Forall_cons_iff in Hb. destruct Hb as (Hpre & Hf & Hpost).
  call free_chain_runs; [done|by apply chain_shape|]. intros _ s' Hs'. run.
  pose proof (zlen_frag_bytes f Hf) as Hzl. pose proof (frag_ok_len f Hf) as Hfl.
  assert (Hf' := Hf). destruct Hf' as ([Hd Hdb] & ? & ?).
  assert (frag_ok partial ∧ frag_bytes partial = take (Z.to_nat m) (frag_bytes f)) as [Hok Hby].
  { unfold partial. destruct (Z.ltb_spec m (BufferFragment_len f)).
    - split; [split; [done|simpl; lia]|]. unfold frag_bytes, sub. simpl. rewrite take_take.
      f_equal. lia.
    - split; [done|]. rewrite take_ge; [done|]. unfold zlen in *. lia. }
  assert (chain_bytes (pre ++ [partial]) =
    take (Z.to_nat (buf_length b - size)) (chain_bytes (pre ++ f :: post))) as Hc.
  { rewrite !chain_bytes_app, !chain_bytes_cons, Hsum, Hby.
    rewrite take_app_ge by (unfold zlen; lia). f_equal.
    replace (Z.to_nat (zlen (chain_bytes pre) + m) - length (chain_bytes pre))%nat
      with (Z.to_nat m) by (unfold zlen; lia).
    rewrite take_app_le by (unfold zlen in *; lia). unfold chain_bytes. simpl. apply app_nil_r. }
  unfold buf_ok, contents, nfrags, even_layout. simpl. split_and!.
  - apply Forall_app. split; [done|by constructor].
  - rewrite Hc, zlen_take. lia.
  - by rewrite Hc, Hl.
  - zlen_simpl. pose proof (zlen_nonneg post). lia.
  - apply even_chain_prefix.
  - intros h Hh _. replace (zlen _ - size) with (zlen (chain_bytes pre) + m) by lia.
    unfold header in *. rewrite Hfr in Hh. destruct pre as [|f0 pre].
    + cbn in Hh |- *. rewrite slice_frag in Hh |- * by done. rewrite Hby. do 2 f_equal.
      by injection Hh as <-.
    + rewrite Forall_cons_iff in Hpre. destruct Hpre as [Hf0 _].
      cbn in Hh |- *. rewrite slice_frag in Hh |- * by done. injection Hh as <-.
      rewrite take_ge; [done|]. rewrite chain_bytes_cons, zlen_app.
      pose proof (zlen_nonneg (chain_bytes pre)). unfold zlen in *. lia.
  - eapply pool_ok_ext; [done|]. zlen_simpl. lia.
Qed.

Lemma trim_tail_too_much s size b : NetBuffer_len b < size → trim_tail size b s = Panic.
Proof.
  intros. unfold trim_tail. apply bind_Panic, lift_Panic, rust_assert_false.
  by apply Z.leb_gt.
Qed.

(** * Preallocation *)

Lemma prealloc_loop_runs fuel s k frags n :
  Forall frag_ok frags → 0 ≤ n → (Z.to_nat n < fuel)%nat → pool_ok s (zlen frags + k) →
  runs (prealloc_loop fuel frags n) s (λ l s', Forall frag_ok l ∧
    zlen (chain_bytes l) = n + zlen (chain_bytes frags) ∧
    zlen l = zlen frags + (n + 511) / FRAGMENT_SIZE ∧
    ((FRAGMENT_SIZE | n) → Forall (λ f, BufferFragment_len f = FRAGMENT_SIZE) frags →
     Forall (λ f, BufferFragment_len f = FRAGMENT_SIZE) l) ∧
    pool_ok s' (zlen l + k)).
Proof.
  revert s frags n. induction fuel as [|fuel IH]; intros s frags n Hf Hn Hfuel Hs; [lia|].
  cbn [prealloc_loop]. destruct (Z.ltb_spec 0 n).
  2: { run. replace n with 0 by lia. change ((0 + 511) / FRAGMENT_SIZE) with 0.
       split_and!; [done|lia|lia|done|done]. }
  run. call alloc_runs; [done|]. intros f s' ([Hd Hdb] & _ & _ & Hs'). run.
  set (f' := f <| range_start := _ |> <| range_end := _ |>).
  assert (frag_ok f') as Hok by (split; [done|simpl; lia]).
  assert (BufferFragment_len f' = Z.min n FRAGMENT_SIZE) as Hlen.
  { rewrite frag_ok_len by done. simpl. lia. }
  call IH; [by constructor|lia|lia| |].
  { eapply pool_ok_ext; [done|]. zlen_simpl. lia. }
  intros l s'' (? & Hz & Hz' & He & ?). split_and!; [done| | | |done].
  - rewrite Hz, chain_bytes_cons, zlen_app, zlen_frag_bytes by done. lia.
  - rewrite Hz'. zlen_simpl. destruct (decide (n ≤ FRAGMENT_SIZE)).
    + replace (n - Z.min n 512) with 0 by lia. change ((0 + 511) / FRAGMENT_SIZE) with 0.
      assert ((n + 511) / 512 = 1); [|lia]. symmetry. apply Z.div_unique with (n - 1); lia.
    + replace (n - Z.min n 512 + 511) with (n + 511 + (-1) * 512) by lia.
      rewrite Z.div_add by lia. lia.
  - intros [q Hq] Hev. apply He.
    + exists (q - 1). lia.
    + constructor; [|done]. rewrite Hlen. assert (q ≠ 0) by lia. lia.
Qed.

Lemma Forall_even_chain l :
  Forall (λ f, Z.Even (BufferFragment_len f)) l → even_chain l.
Proof. induction 1; [done|]. apply even_chain_cons; auto. Qed.

Lemma new_prealloc_runs s k n :
  0 ≤ n → pool_ok s k →
  runs (new_prealloc n) s (λ b s', buf_ok b ∧ zlen (contents b) = n ∧
    nfrags b = (n + 511) / FRAGMENT_SIZE ∧
    ((FRAGMENT_SIZE | n) → Forall (λ f, BufferFragment_len f = FRAGMENT_SIZE) (fragments b)) ∧
    pool_ok s' (nfrags b + k)).
Proof.
  intros Hn Hs. unfold new_prealloc. run.
  call (prealloc_loop_runs _ _ k); [constructor|done|lia| |].
  { eapply pool_ok_ext; [done|]. zlen_solve. }
  intros l s' (Hl & Hz & Hz' & He & Hs'). run.
  unfold buf_ok, contents, nfrags. simpl.
  change (zlen (chain_bytes [])) with 0 in Hz. change (zlen (@nil BufferFragment)) with 0 in Hz'.
  split_and!; [done|lia|lia|lia| |done].
  intros. by apply He.
Qed.

(** * Appending *)

(** The layout [append_from_slice] builds: every fragment starts at the
    beginning of its storage, and all but the last are full. *)
Definition frag_full (f : BufferFragment) : Prop :=
  range_start f = 0 ∧ range_end f = FRAGMENT_SIZE.

Definition dense (b : NetBuffer) : Prop :=
  fragments b = [] ∨
  ∃ pre last, fragments b = pre ++ [last] ∧ Forall frag_full pre ∧ range_start last = 0.

Lemma dense_new : dense NetBuffer_new.
Proof. by left. Qed.

Lemma dense_even b : dense b → even_layout b.
Proof.
  unfold even_layout. intros [->|(pre & last & -> & Hpre & _)]; [done|].
  induction Hpre as [|f pre [Hs He] _ IH]; [done|]. simpl app.
  apply even_chain_cons; [|done]. right. unfold BufferFragment_len. rewrite Hs, He. by exists 256.
Qed.

Lemma chain_bytes_full pre :
  Forall frag_ok pre → Forall frag_full pre → zlen (chain_bytes pre) = FRAGMENT_SIZE * zlen pre.
Proof.
  induction 1 as [|f pre Hf Hpre IH]; [done|]. rewrite Forall_cons_iff. intros [[Hs He] Hfull].
  rewrite chain_bytes_cons, zlen_app, zlen_frag_bytes, IH, zlen_cons by done.
  rewrite frag_ok_len by done. lia.
Qed.

(** A dense buffer uses as few fragments as its bytes need. *)
Lemma dense_nfrags b : buf_ok b → dense b → nfrags b ≤ (zlen (contents b) + 511) / FRAGMENT_SIZE.
Proof.
  intros [Hb _] Hd. unfold nfrags, contents.
  destruct Hd as [->|(pre & last & E & Hpre & _)]; [done|]. rewrite E in *.
  rewrite Forall_app, Forall_cons_iff in Hb. destruct Hb as (Hok & Hlast & _).
  rewrite chain_bytes_app, chain_bytes_cons, !zlen_app, chain_bytes_full, zlen_frag_bytes by done.
  pose proof (frag_len_pos last Hlast). apply Z.div_le_lower_bound; [lia|].
  pose proof (zlen_nonneg (chain_bytes [])). zlen_simpl. lia.
Qed.

Lemma walk_last_spec f next pre last :
  walk_last f next = (pre, last) → f :: next = pre ++ [last].
Proof.
  revert f pre last. induction next as [|g next IH]; intros f pre last; simpl.
  - by intros [= <- <-].
  - destruct (walk_last g next) as [pre' last'] eqn:E. intros [= <- <-].
    by rewrite (IH _ _ _ E).
Qed.

(** Writing behind the range of a fragment and extending the range. *)
Lemma frag_extend f bytes :
  frag_shape f → 0 ≤ range_start f ≤ range_end f → bytes_ok bytes →
  range_end f + zlen bytes ≤ FRAGMENT_SIZE →
  let f' := f <| data := overwrite (data f) (range_end f) bytes |>
              <| range_end := range_end f + zlen bytes |> in
  frag_shape f' ∧ frag_bytes f' = frag_bytes f ++ bytes.
Proof.
  intros [Hd Hdb] Hr Hb He f'. pose proof (zlen_nonneg bytes). split.
  - split; [|by apply bytes_ok_overwrite]. simpl. rewrite zlen_overwrite; lia.
  - unfold frag_bytes, f'. simpl. rewrite (sub_split _ _ (range_end f)) by lia.
    rewrite sub_overwrite_before, sub_overwrite_at by lia. done.
Qed.

Lemma append_loop_runs fuel s k pre f src off :
  Forall frag_ok pre → frag_shape f → 0 ≤ range_start f ≤ range_end f →
  range_end f ≤ FRAGMENT_SIZE → bytes_ok src → 0 ≤ off ≤ zlen src →
  (range_start f < range_end f ∨ range_end f < FRAGMENT_SIZE ∧ off < zlen src) →
  (if decide (off = zlen src) then 0 else
     zlen src - off + (if decide (range_end f = FRAGMENT_SIZE) then 1 else 0)) < Z.of_nat fuel →
  pool_ok s (zlen pre + 1 + k) →
  runs (append_loop fuel pre f src off) s (λ l s', Forall frag_ok l ∧
    chain_bytes l = chain_bytes pre ++ frag_bytes f ++ drop (Z.to_nat off) src ∧
    (Forall frag_full pre → range_start f = 0 →
     ∃ pre' last, l = pre' ++ [last] ∧ Forall frag_full pre' ∧ range_start last = 0) ∧
    pool_ok s' (zlen l + k)).
Proof.
  revert s pre f off. induction fuel as [|fuel IH];
    intros s pre f off Hpre Hf Hr He Hsrc Hoff Hne Hfuel Hs; [repeat case_decide; lia|].
  cbn [append_loop]. destruct (Z.ltb_spec off (zlen src)).
  2: { run. split_and!.
       - apply Forall_app. split; [done|]. constructor; [|done]. split; [done|lia].
       - rewrite chain_bytes_app, drop_ge, app_nil_r by (unfold zlen in *; lia).
         unfold chain_bytes at 2. simpl. by rewrite app_nil_r.
       - eauto.
       - eapply pool_ok_ext; [done|]. zlen_solve. }
  rewrite decide_False in Hfuel by lia. run.
  set (n := Z.min _ _). assert (0 ≤ n ≤ zlen src - off) by lia.
  rewrite slice_Ok by lia. run.
  set (bytes := sub src off (off + n)).
  assert (zlen bytes = n) as Hbl by (unfold bytes; rewrite zlen_sub; lia).
  destruct Hf as [Hd Hdb]. assert (frag_shape f) as Hf by done.
  rewrite (with_slice_Ok _ _ _ _ bytes); [|lia|lia|].
  2: { apply copy_from_slice_Ok. rewrite zlen_sub; lia. }
  run. destruct (frag_extend f bytes) as [Hf' Hby]; [done|lia|by apply bytes_ok_sub|lia|].
  rewrite Hbl in Hf', Hby. set (f' := f <| data := _ |> <| range_end := _ |>) in *.
  assert (drop (Z.to_nat off) src = bytes ++ drop (Z.to_nat (off + n)) src) as Hdrop.
  { unfold bytes, sub. replace (off + n - off) with n by lia.
    rewrite <-(take_drop (Z.to_nat n) (drop (Z.to_nat off) src)) at 1. f_equal.
    rewrite drop_drop. f_equal. lia. }
  destruct (Z.ltb_spec (off + n) (zlen src)).
  - run. call alloc_runs; [done|]. intros g s' (Hg & Hg0 & Hg1 & Hs').
    assert (range_end f' = FRAGMENT_SIZE) as Hfull by (simpl; lia).
    assert (frag_ok f') as Hok by (split; [done|simpl in *; lia]).
    call IH.
    + apply Forall_app. split; [done|]. by constructor.
    + done.
    + lia.
    + lia.
    + done.
    + lia.
    + lia.
    + rewrite decide_False, decide_False by lia.
      case_decide; lia.
    + eapply pool_ok_ext; [done|]. zlen_simpl. zlen_solve.
    + intros l s'' (? & Hc & Hdense & ?). split_and!; [done| | |done].
      * assert (frag_bytes g = []) as Hgn by (unfold frag_bytes; by rewrite Hg0, Hg1, sub_empty).
        rewrite Hc, chain_bytes_app, chain_bytes_cons, Hby, Hdrop, Hgn.
        unfold chain_bytes. simpl. by rewrite app_nil_r, <-!app_assoc.
      * intros Hfp Hf0. apply Hdense; [|done]. apply Forall_app. split; [done|].
        constructor; [|done]. by split.
  - call IH.
    + done.
    + done.
    + simpl. lia.
    + simpl. lia.
    + done.
    + lia.
    + left. simpl. lia.
    + rewrite decide_True by lia. case_decide; lia.
    + done.
    + intros l s'' (? & Hc & Hdense & ?). split_and!; [done| |done|done].
      rewrite Hc, Hby, Hdrop. by rewrite <-!app_assoc.
Qed.

Lemma append_from_slice_runs s k src b :
  buf_ok b → bytes_ok src → zlen (contents b) + zlen src < usize_size →
  pool_ok s (nfrags b + k) →
  runs (append_from_slice src b) s (λ b' s', buf_ok b' ∧ contents b' = contents b ++ src ∧
    (dense b → dense b') ∧ pool_ok s' (nfrags b' + k)).
Proof.
  intros [Hb Hl] Hsrc Hmax Hs. unfold append_from_slice. pose proof (zlen_nonneg src).
  destruct (Z.eqb_spec (zlen src) 0) as [Hz|Hz].
  { run. apply zlen_0_nil in Hz. subst src. rewrite app_nil_r. done. }
  run. unfold nfrags, contents, dense in *.
  apply (runs_mono _ _ (λ r s', Forall frag_ok r.1 ∧ frag_shape r.2 ∧
    0 ≤ range_start r.2 ≤ range_end r.2 ∧ range_end r.2 ≤ FRAGMENT_SIZE ∧
    (range_start r.2 < range_end r.2 ∨ range_end r.2 < FRAGMENT_SIZE ∧ 0 < zlen src) ∧
    chain_bytes (fragments b) = chain_bytes r.1 ++ frag_bytes r.2 ∧
    (dense b → Forall frag_full r.1 ∧ range_start r.2 = 0) ∧
    pool_ok s' (zlen r.1 + 1 + k))).
  { destruct (fragments b) as [|f next] eqn:E.
    - run. call alloc_runs; [done|]. intros f s' (Hf & H0 & H1 & Hs'). run. simpl.
      rewrite H0, H1. split_and!; [constructor|done|lia..| | |]; [|by split; [constructor|]|].
      + unfold frag_bytes. by rewrite H0, H1, sub_empty.
      + eapply pool_ok_ext; [done|]. zlen_solve.
    - run. destruct (walk_last f next) as [pre last] eqn:Ew. simpl.
      apply walk_last_spec in Ew. rewrite Ew in *.
      rewrite Forall_app, Forall_cons_iff in Hb. destruct Hb as (Hpre & Hlast & _).
      assert (Hlast' := Hlast). destruct Hlast' as (? & ? & ?). split_and!; [done|done|lia..| | |].
      + rewrite chain_bytes_app. unfold chain_bytes. simpl. by rewrite app_nil_r.
      + unfold dense. rewrite E. intros [Hnil|(pre' & last' & Heq & ? & ?)].
        { by destruct pre. }
        by apply app_inj_tail in Heq as [-> ->].
      + eapply pool_ok_ext; [done|]. zlen_solve. }
  intros [pre f] s' (Hpre & Hf & Hr & He & Hne & Hc & Hd & Hs'). cbn [fst snd] in *.
  run. call append_loop_runs; [done..|lia|lia| |done|].
  { case_decide; [lia|]. case_decide; unfold zlen; lia. }
  intros l s'' (Hok & Hcl & Hdl & Hs''). run. rewrite Hl.
  run. unfold buf_ok, contents. simpl.
  assert (chain_bytes l = chain_bytes (fragments b) ++ src) as ->.
  { by rewrite Hcl, Hc, drop_0, app_assoc. }
  split_and!; [done|by rewrite zlen_app|done| |done].
  intros [? ?]%Hd. right. by apply Hdl.
Qed.

(** * Copying out, and between buffers *)

Lemma copy_loop_spec fuel frags n copied total dest bytes :
  Forall frag_ok frags → zlen (chain_bytes frags) ≤ n → n ≤ usize_max →
  0 ≤ copied ≤ total → total ≤ zlen dest → (length frags < fuel)%nat →
  zlen bytes = copied → take (Z.to_nat copied) dest = bytes →
  total - copied ≤ zlen (chain_bytes frags) →
  ∃ frags' n', copy_loop fuel {| current_frag := frags; remaining := n |} copied total dest =
    Ok ({| current_frag := frags'; remaining := n' |}, total,
        bytes ++ take (Z.to_nat (total - copied)) (chain_bytes frags) ++ drop (Z.to_nat total) dest) ∧
    Forall frag_ok frags' ∧ 0 ≤ n' ∧ (total - copied = zlen (chain_bytes frags) → frags' = []).
Proof.
  intros Hfr. revert fuel n copied dest bytes.
  induction Hfr as [|f frags Hf Hfr IH]; intros fuel n copied dest bytes Hn Hmax Hc Ht Hfuel Hbl Hby Htot;
    (destruct fuel as [|fuel]; [simpl in *; lia|]); cbn [copy_loop].
  - change (zlen (chain_bytes [])) with 0 in *. rewrite (proj2 (Z.ltb_ge _ _)) by lia.
    exists [], n. assert (copied = total) as -> by lia. rewrite Z.sub_diag. simpl.
    split_and!; [|constructor|lia|done]. rewrite <-Hby. by rewrite take_drop.
  - rewrite chain_bytes_cons, zlen_app in *. pose proof (zlen_frag_bytes f Hf) as Hzl.
    pose proof (frag_len_pos f Hf). pose proof (zlen_nonneg (chain_bytes frags)).
    destruct (Z.ltb_spec copied total).
    2: { exists (f :: frags), n. assert (copied = total) as -> by lia. rewrite Z.sub_diag. simpl.
         split_and!; [|by constructor|lia|lia]. rewrite <-Hby. by rewrite take_drop. }
    rewrite next_cons by (done || lia). cbn [mbind outcome_bind unwrap].
    rewrite take_ge by (unfold zlen in *; lia).
    set (m := Z.min (zlen (frag_bytes f)) (total - copied)).
    rewrite slice_Ok by lia. cbn [mbind outcome_bind].
    set (src := sub (frag_bytes f) 0 m).
    assert (zlen src = m) as Hsl by (unfold src; rewrite zlen_sub; lia).
    rewrite (with_slice_Ok _ _ _ _ src); [|lia|lia|].
    2: { apply copy_from_slice_Ok. rewrite zlen_sub; lia. }
    cbn [mbind outcome_bind].
    assert (overwrite dest copied src = (bytes ++ src) ++ drop (Z.to_nat (copied + m)) dest) as Ho.
    { unfold overwrite. rewrite Hby, <-app_assoc. do 3 f_equal. unfold zlen in *. lia. }
    destruct (IH fuel (n - Z.min (BufferFragment_len f) n) (copied + m) (overwrite dest copied src)
      (bytes ++ src)) as (frags' & n' & -> & Hok' & Hn' & Hend); try lia.
    + rewrite zlen_overwrite; lia.
    + simpl in *. lia.
    + rewrite zlen_app. lia.
    + rewrite Ho, take_app_length'; [done|]. rewrite length_app. unfold zlen in *. lia.
    + exists frags', n'. split_and!; [|done|done|intros; apply Hend; lia]. do 2 f_equal.
      rewrite Ho, drop_app_ge by (rewrite length_app; unfold zlen in *; lia).
      rewrite drop_drop. rewrite <-app_assoc. f_equal.
      rewrite take_app, <-app_assoc. f_equal; [|f_equal].
      * unfold src, sub. rewrite drop_0. destruct (decide (total - copied ≤ BufferFragment_len f)).
        -- f_equal. lia.
        -- rewrite !take_ge by (unfold zlen in *; lia). done.
      * f_equal. unfold zlen in *. lia.
      * f_equal. rewrite length_app. unfold zlen in *. lia.
Qed.

(** [copy_to_slice] fills the destination with the front of the buffer. *)
Lemma copy_to_slice_spec b dest :
  buf_ok b → zlen (contents b) ≤ usize_max →
  let n := Z.min (zlen dest) (zlen (contents b)) in
  copy_to_slice b dest =
    Ok (n, take (Z.to_nat n) (contents b) ++ drop (Z.to_nat n) dest).
Proof.
  intros [Hb Hl] Hmax n. unfold copy_to_slice, iter. rewrite Hl. cbv zeta. fold n.
  pose proof (zlen_nonneg dest). pose proof (zlen_nonneg (contents b)).
  destruct (copy_loop_spec (S (length (fragments b))) (fragments b) usize_max 0 n dest [])
    as (frags' & n' & -> & Hok' & Hn' & Hend); try done; try (unfold contents in *; lia).
  cbn [mbind outcome_bind]. fold (contents b). rewrite Z.sub_0_r.
  rewrite rust_assert_true.
  2: { apply orb_true_iff. rewrite !Z.eqb_eq. lia. }
  cbn [mbind outcome_bind]. unfold NetBuffer_len. rewrite Hl.
  destruct (decide (n = zlen (contents b))) as [E|E].
  - rewrite Hend by (unfold contents in *; lia). rewrite next_nil. cbn [mbind outcome_bind].
    by rewrite rust_assert_true by apply orb_true_r.
  - destruct (next_total frags' n' Hok' Hn') as ([o it] & ->). cbn [mbind outcome_bind].
    rewrite rust_assert_true; [done|]. by rewrite (proj2 (Z.eqb_neq _ _)) by done.
Qed.

Lemma append_from_iter_runs fuel s k frags n b :
  Forall frag_ok frags → 0 ≤ n → (length frags < fuel)%nat → buf_ok b →
  zlen (contents b) + zlen (chain_bytes frags) < usize_size → pool_ok s (nfrags b + k) →
  runs (append_from_iter fuel {| current_frag := frags; remaining := n |} b) s (λ b' s',
    buf_ok b' ∧ contents b' = contents b ++ take (Z.to_nat n) (chain_bytes frags) ∧
    (dense b → dense b') ∧ pool_ok s' (nfrags b' + k)).
Proof.
  intros Hfr. revert fuel s n b.
  induction Hfr as [|f frags Hf Hfr IH]; intros fuel s n b Hn Hfuel Hb Hmax Hs;
    (destruct fuel as [|fuel]; [simpl in *; lia|]); cbn [append_from_iter]; run.
  - rewrite next_nil. run. change (chain_bytes []) with (@nil Z).
    by rewrite take_nil, app_nil_r.
  - destruct (decide (n = 0)) as [->|].
    { rewrite next_zero. run. by rewrite take_0, app_nil_r. }
    rewrite chain_bytes_cons, zlen_app in *. pose proof (zlen_frag_bytes f Hf) as Hzl.
    pose proof (frag_len_pos f Hf). pose proof (zlen_nonneg (chain_bytes frags)).
    rewrite next_cons by (done || lia). run.
    call append_from_slice_runs; [done|by apply bytes_ok_take, frag_bytes_ok| |done|].
    { rewrite zlen_take. lia. }
    intros b' s' (Hb' & Hc' & Hd' & Hs'). call IH; [lia|simpl in *; lia|done| |done|].
    { rewrite Hc', zlen_app, zlen_take. lia. }
    intros b'' s'' (? & Hc'' & ? & ?). split_and!; [done| |auto|done].
    rewrite Hc'', Hc', <-app_assoc, take_app. do 2 f_equal. f_equal. unfold zlen in *. lia.
Qed.

(** [append_from_buffer] copies the first [n] bytes of another buffer. *)
Lemma append_from_buffer_runs s k other n b :
  buf_ok other → 0 ≤ n → buf_ok b →
  zlen (contents b) + zlen (contents other) < usize_size → pool_ok s (nfrags b + k) →
  runs (append_from_buffer other n b) s (λ b' s',
    buf_ok b' ∧ contents b' = contents b ++ take (Z.to_nat n) (contents other) ∧
    (dense b → dense b') ∧ pool_ok s' (nfrags b' + k)).
Proof. intros [Ho _] ????. apply append_from_iter_runs; [done..|lia|done|done|done]. Qed.

(** [append_buffer] moves the other buffer's fragments; nothing is copied or allocated. *)
Lemma append_buffer_spec other b :
  buf_ok b → buf_ok other → zlen (contents b) + zlen (contents other) < usize_size →
  ∃ b', append_buffer other b = Ok b' ∧ buf_ok b' ∧
    contents b' = contents b ++ contents other ∧ nfrags b' = nfrags b + nfrags other.
Proof.
  intros [Hb Hl] [Ho Hlo] Hmax. unfold append_buffer. rewrite Hl, Hlo.
  rewrite checked_add_Ok by lia. cbn [mbind outcome_bind].
  unfold contents, nfrags, buf_ok in *.
  destruct (fragments b) as [|f next] eqn:E.
  - eexists. split_and!; [done|done| |done|done]. unfold contents, chain_bytes. simpl. zlen_solve.
  - destruct (walk_last f next) as [pre last] eqn:Ew. apply walk_last_spec in Ew.
    rewrite <-Ew. eexists. split; [done|]. simpl.
    change (f :: next ++ fragments other) with ((f :: next) ++ fragments other).
    unfold contents. simpl.
    change (f :: next ++ fragments other) with ((f :: next) ++ fragments other).
    rewrite chain_bytes_app, !zlen_app. split_and!; [|done..].
    by apply Forall_app.
Qed.

(** ** A buffer made of a slice *)

Lemma append_new_runs s k src :
  bytes_ok src → zlen src < usize_size → pool_ok s k →
  runs (append_from_slice src NetBuffer_new) s (λ b s', buf_ok b ∧ contents b = src ∧ dense b ∧
    nfrags b ≤ (zlen src + 511) / FRAGMENT_SIZE ∧ pool_ok s' (nfrags b + k)).
Proof.
  intros Hb Hlen Hp. call append_from_slice_runs; [exact buf_ok_new|done|done| |].
  { change (nfrags NetBuffer_new) with 0. by rewrite Z.add_0_l. }
  intros b s' (Hb' & Hc & Hd & Hp'). specialize (Hd dense_new).
  change (contents NetBuffer_new) with (@nil Z) in Hc. cbn [app] in Hc.
  split_and!; try done. rewrite <-Hc. by apply dense_nfrags.
Qed.

(** Every fragment holds at most 512 octets. *)
Lemma contents_le_nfrags b : buf_ok b → zlen (contents b) ≤ FRAGMENT_SIZE * nfrags b.
Proof.
  intros [Hf _]. unfold contents, nfrags. induction Hf as [|f l Hf _ IH]; [done|].
  rewrite chain_bytes_cons. zlen_simpl. pose proof (zlen_frag_bytes f Hf).
  pose proof (frag_ok_len f Hf). destruct Hf as (_ & ? & ?). lia.
Qed.
