(* ===== verification/Checksum.v ===== *)
(** * util.rs: checksums of whole packets

    The checksum of a packet buffer, which is summed fragment by fragment, and
    of the TCP/UDP/ICMPv6 pseudo header. *)

From S2P Require Import Prelude Util Buf BufSpec.
Local Open Scope Z_scope.

(** * Definitions *)

(** [for frag in slices { sum = compute_ones_comp(sum, frag); }] *)
Fixpoint ones_comp_slices (sum : Z) (frags : list (list Z)) : outcome Z :=
  match frags with
  | [] => Ok sum
  | frag :: rest => sum ← compute_ones_comp sum frag; ones_comp_slices sum rest
  end.

Definition compute_buffer_ones_comp (initial_sum : Z) (buffer : NetBuffer) : outcome Z :=
  frags ← slices (iter buffer usize_max);
  ones_comp_slices initial_sum frags.

Definition compute_pseudo_header_checksum (source_ip dest_ip : IPAddr) (length protocol : Z)
    : outcome Z :=
  match dest_ip with
  | V4 _ =>
      pseudo_header ← with_slice (zeros 12) 0 4 (IPAddr_copy_to source_ip);
      pseudo_header ← with_slice pseudo_header 4 8 (IPAddr_copy_to dest_ip);
      pseudo_header ← store pseudo_header 9 protocol;
      pseudo_header ← with_slice pseudo_header 10 12 (set_be16 (truncate u16_size length));
      compute_ones_comp 0 pseudo_header
  | V6 _ =>
      pseudo_header ← with_slice (zeros 40) 0 16 (IPAddr_copy_to source_ip);
      pseudo_header ← with_slice pseudo_header 16 32 (IPAddr_copy_to dest_ip);
      pseudo_header ← with_slice pseudo_header 32 36 (set_be32 (truncate u32_size length));
      pseudo_header ← store pseudo_header 39 protocol;
      compute_ones_comp 0 pseudo_header
  end.

(** The pseudo header as the RFCs lay it out. *)
Definition pseudo_header_bytes (source_ip dest_ip : IPAddr) (length protocol : Z) : list Z :=
  IPAddr_octets source_ip ++ IPAddr_octets dest_ip ++
  match dest_ip with
  | V4 _ => [0; protocol] ++ be16 (truncate u16_size length)
  | V6 _ => be32 (truncate u32_size length) ++ [0; 0; 0; protocol]
  end.

(** * Lemmas *)

Lemma ones_comp_slices_spec frags c :
  Forall frag_ok frags → even_chain frags → is_u16 c →
  ones_comp_slices c (map frag_bytes frags) = Ok (ones_fold (c + word_sum (chain_bytes frags))).
Proof.
  intros Hf. revert c. induction Hf as [|f frags Hf Hfr IH]; intros c He Hc.
  { simpl. rewrite Z.add_0_r. by rewrite ones_fold_small. }
  pose proof (zlen_frag_bytes f Hf) as Hzl. pose proof (frag_ok_len f Hf) as Hlen.
  pose proof (frag_len_pos f Hf). pose proof (frag_bytes_ok f Hf) as Hb.
  pose proof (word_sum_bounds _ Hb). unfold in_range in Hc.
  cbn [map ones_comp_slices].
  rewrite compute_ones_comp_spec; [|..].
  2: { intros E. rewrite E in Hzl. change (zlen (@nil Z)) with 0 in Hzl. lia. }
  2, 3: done.
  2: { destruct Hf as (_ & ? & ?). lia. }
  cbn [mbind outcome_bind]. rewrite chain_bytes_cons.
  destruct frags as [|g frags].
  { change (chain_bytes []) with (@nil Z). rewrite app_nil_r. done. }
  destruct He as [He1 He]. pose proof (word_sum_bounds _ (chain_bytes_ok _ Hfr)).
  rewrite IH by (done || apply ones_fold_range; lia).
  rewrite word_sum_app by (by rewrite Hzl).
  rewrite ones_fold_add by lia. do 2 f_equal. lia.
Qed.

(** Summing fragment by fragment gives the one's complement sum of the bytes,
    provided that words do not straddle fragments. *)
Lemma compute_buffer_ones_comp_spec b c :
  buf_ok b → even_layout b → is_u16 c → zlen (contents b) ≤ usize_max →
  compute_buffer_ones_comp c b = Ok (ones_fold (c + word_sum (contents b))).
Proof.
  intros Hb He Hc Hmax. unfold compute_buffer_ones_comp.
  rewrite slices_all by done. cbn [mbind outcome_bind].
  destruct Hb. by apply ones_comp_slices_spec.
Qed.

Lemma zlen_4 (l : list Z) : zlen l = 4 → ∃ a b c d, l = [a; b; c; d].
Proof.
  intros H. do 4 (destruct l as [|? l]; [zlen_simpl; lia|]).
  destruct l; [eauto|]. zlen_solve.
Qed.

Lemma zlen_16 (l : list Z) :
  zlen l = 16 → ∃ a0 a1 a2 a3 a4 a5 a6 a7 a8 a9 a10 a11 a12 a13 a14 a15,
    l = [a0; a1; a2; a3; a4; a5; a6; a7; a8; a9; a10; a11; a12; a13; a14; a15].
Proof.
  intros H. do 16 (destruct l as [|? l]; [zlen_simpl; lia|]).
  destruct l; [|zlen_solve]. by do 16 eexists.
Qed.

Lemma pseudo_header_bytes_ok src dst len proto :
  IPAddr_ok src → IPAddr_ok dst → is_u8 proto → bytes_ok (pseudo_header_bytes src dst len proto).
Proof.
  intros Hs Hd Hp. unfold pseudo_header_bytes. rewrite !bytes_ok_app.
  split_and!; [by apply IPAddr_octets_ok..|]. destruct dst; rewrite bytes_ok_app; split.
  - bytes_solve.
  - apply be16_bytes, truncate_range. lia.
  - apply be32_bytes, truncate_range. lia.
  - bytes_solve.
Qed.

Lemma compute_pseudo_header_checksum_spec src dst len proto :
  IPAddr_ok src → IPAddr_ok dst → is_v4 src = is_v4 dst → is_u8 proto →
  compute_pseudo_header_checksum src dst len proto =
    Ok (ones_fold (word_sum (pseudo_header_bytes src dst len proto))).
Proof.
  intros Hs Hd Hv Hp. pose proof (pseudo_header_bytes_ok src dst len proto Hs Hd Hp) as Hok.
  assert (compute_pseudo_header_checksum src dst len proto =
    compute_ones_comp 0 (pseudo_header_bytes src dst len proto)) as ->.
  { destruct src as [s|s], dst as [d|d]; try done; destruct Hs as [Hs _], Hd as [Hd _].
    - apply zlen_4 in Hs as (?&?&?&?&->). apply zlen_4 in Hd as (?&?&?&?&->).
      unfold compute_pseudo_header_checksum.
      change (zeros 12) with [0; 0; 0; 0; 0; 0; 0; 0; 0; 0; 0; 0].
      seg_write ltac:(reflexivity). seg_write ltac:(reflexivity). seg_store.
      seg_write ltac:(apply set_be16_field, truncate_range; lia). done.
    - apply zlen_16 in Hs as (?&?&?&?&?&?&?&?&?&?&?&?&?&?&?&?&->).
      apply zlen_16 in Hd as (?&?&?&?&?&?&?&?&?&?&?&?&?&?&?&?&->).
      unfold compute_pseudo_header_checksum.
      change (zeros 40) with [0; 0; 0; 0; 0; 0; 0; 0; 0; 0; 0; 0; 0; 0; 0; 0; 0; 0; 0; 0;
        0; 0; 0; 0; 0; 0; 0; 0; 0; 0; 0; 0; 0; 0; 0; 0; 0; 0; 0; 0].
      seg_write ltac:(reflexivity). seg_write ltac:(reflexivity).
      seg_write ltac:(apply set_be32_field, truncate_range; lia). seg_store. done. }
  assert (zlen (pseudo_header_bytes src dst len proto) ≤ 40 ∧
          0 < zlen (pseudo_header_bytes src dst len proto)) as [? ?].
  { unfold pseudo_header_bytes. rewrite !zlen_app, !zlen_octets by done.
    rewrite Hv. destruct dst; simpl; unfold be16, be32; zlen_simpl; lia. }
  rewrite compute_ones_comp_spec; [done| |done|by split|lia].
  intros E. rewrite E in *. change (zlen (@nil Z)) with 0 in *. lia.
Qed.

(** The two addresses must be of the same version. *)
Lemma compute_pseudo_header_checksum_mixed src dst len proto :
  IPAddr_ok src → is_v4 src = true → is_v4 dst = false →
  compute_pseudo_header_checksum src dst len proto = Panic.
Proof.
  destruct src as [s|s], dst as [d|d]; try done. intros [Hs _] _ _.
  unfold compute_pseudo_header_checksum, with_slice.
  change (slice (zeros 40) 0 16) with (Ok (zeros 16)). cbn [mbind outcome_bind IPAddr_copy_to].
  unfold copy_from_slice. by rewrite Hs.
Qed.

(** ** Sums with a field that is filled in later

    A checksum field that is zero contributes nothing; writing the complement
    of the sum there makes the whole sum 0xffff. *)

Lemma word_sum_field pre v post :
  Z.Even (zlen pre) →
  word_sum (pre ++ be16 v ++ post) = v + word_sum (pre ++ [0; 0] ++ post).
Proof.
  intros He. rewrite (word_sum_app pre (be16 v ++ post)), (word_sum_app pre ([0; 0] ++ post)) by done.
  unfold be16. cbn [word_sum app]. pose proof (be16_value v). lia.
Qed.

Lemma checksum_closes c pre post s :
  Z.Even (zlen pre) → 0 ≤ c → bytes_ok (pre ++ [0; 0] ++ post) →
  s = ones_fold (c + word_sum (pre ++ [0; 0] ++ post)) →
  ones_fold (c + word_sum (pre ++ be16 (Z.lxor s 0xffff) ++ post)) = 0xffff.
Proof.
  intros He Hc Hb ->. pose proof (word_sum_bounds _ Hb).
  rewrite word_sum_field, lxor_ffff by (done || apply ones_fold_range; lia).
  set (n := c + word_sum (pre ++ [0; 0] ++ post)).
  replace (c + (_ + _)) with (n + (65535 - ones_fold n)) by (unfold n; lia).
  apply ones_fold_complement. lia.
Qed.
