(* ===== verification/Timer.v ===== *)
(** * timer.rs: the list of pending timers

    The closures a timer runs are values of a type [C]; the code that sets a
    timer says what its closures do (a function [run] from [C] to stateful
    code).  The list is scanned in order, and the mutex is released while a
    closure runs, so a closure may set and cancel timers itself. *)

From S2P Require Import Prelude.
Local Open Scope Z_scope.

Abbreviation TIMER_INTERVAL := 50.

(** * Data *)

Record Timer (C : Type) : Type := {
  absolute_timeout_ms : Z;
  closure : option C;
  id : Z;
}.
Arguments absolute_timeout_ms {C} _.
Arguments closure {C} _.
Arguments id {C} _.

(** The statics of the file, and the milliseconds the system clock shows. *)
Record TimerState (C : Type) : Type := {
  PENDING_TIMERS : list (Timer C);
  NEXT_TIMER_ID : Z;
  current_time_ms : Z;
}.
Arguments PENDING_TIMERS {C} _.
Arguments NEXT_TIMER_ID {C} _.
Arguments current_time_ms {C} _.

#[export] Instance eta_TimerState {C} : Eta (TimerState C) := λ s,
  Build_TimerState C (PENDING_TIMERS s) (NEXT_TIMER_ID s) (current_time_ms s).

Definition TimerState_init {C : Type} (now : Z) : TimerState C :=
  {| PENDING_TIMERS := []; NEXT_TIMER_ID := 1; current_time_ms := now |}.

(** [Vec::swap_remove]: the last element takes the place of the removed one. *)
Definition swap_remove {A : Type} (l : list A) (i : nat) : list A :=
  match last l with
  | Some x => take (length l - 1) (<[i := x]> l)
  | None => []
  end.

(** * Operations *)

Section Operations.
Context {C : Type}.

Definition set_timer (timeout_ms : Z) (c : C) : ST (TimerState C) Z :=
  next ← fetches NEXT_TIMER_ID;
  modify (λ s, s <| NEXT_TIMER_ID := u32_wrapping_add next 1 |>);;
  let timer_id := Z.land next 0x7fffffff in
  now ← fetches current_time_ms;
  timeout ← lift (u64_add now timeout_ms);
  modify (λ s, s <| PENDING_TIMERS ::= λ l,
    l ++ [{| absolute_timeout_ms := timeout; closure := Some c; id := timer_id |}] |>);;
  mret timer_id.

(** [for i in 0..list.len()]: the first index whose timer has the id. *)
Fixpoint find_timer (l : list (Timer C)) (timer_id : Z) : option nat :=
  match l with
  | [] => None
  | timer :: l => if id timer =? timer_id then Some O else S <$> find_timer l timer_id
  end.

Definition cancel_timer (timer_id : Z) : ST (TimerState C) bool :=
  list ← fetches PENDING_TIMERS;
  match find_timer list timer_id with
  | Some i => modify (λ s, s <| PENDING_TIMERS := swap_remove list i |>);; mret true
  | None => mret false
  end.

(** One round of the timer thread: the scan of the list, index by index, from
    a state [T] of which the timers are a part. *)
Context {T : Type} `{!Lens T (TimerState C)} (run : C → ST T unit).

Fixpoint tick_loop (fuel : nat) (now : Z) (i : nat) : ST T unit :=
  match fuel with
  | O => out_of_fuel
  | S fuel =>
      list ← fetches (λ s, PENDING_TIMERS (view s));
      match list !! i with
      | None => mret tt
      | Some timer =>
          if absolute_timeout_ms timer <=? now then
            zoom (modify (λ s : TimerState C, s <| PENDING_TIMERS := delete i list |>));;
            c ← lift (unwrap (closure timer));
            run c;;
            tick_loop fuel now i
          else tick_loop fuel now (S i)
      end
  end.

Definition tick (fuel : nat) : ST T unit :=
  now ← fetches (λ s, current_time_ms (view s));
  tick_loop fuel now O.

End Operations.

(** * Lemmas *)

Section Lemmas.
Context {C : Type}.
Implicit Types (s : TimerState C) (t : Timer C).
Abbreviation timer_ids := (map (@id C)).

Lemma land_31 n : Z.land n 0x7fffffff = n mod 2147483648.
Proof. apply (Z.land_ones n 31). lia. Qed.

(** Every pending timer can be told apart by its id, and ids are positive:
    holds as long as the id counter has not wrapped past 31 bits. *)
Record timers_ok s : Prop := {
  timers_nodup : NoDup (timer_ids (PENDING_TIMERS s));
  timers_ids : Forall (λ t, 0 < id t < NEXT_TIMER_ID s) (PENDING_TIMERS s);
  timers_closures : Forall (λ t, is_Some (closure t)) (PENDING_TIMERS s);
  timers_next : 0 < NEXT_TIMER_ID s ≤ 2147483648;
}.

Lemma timers_ok_init now : timers_ok (TimerState_init now).
Proof. split; simpl; [constructor..|lia]. Qed.

Lemma set_timer_runs s timeout c :
  current_time_ms s + timeout < u64_size →
  runs (set_timer timeout c) s (λ timer_id s',
    0 ≤ timer_id < 2147483648 ∧ timer_id = Z.land (NEXT_TIMER_ID s) 0x7fffffff ∧
    s' = s <| NEXT_TIMER_ID := u32_wrapping_add (NEXT_TIMER_ID s) 1 |>
           <| PENDING_TIMERS := PENDING_TIMERS s ++
                [{| absolute_timeout_ms := current_time_ms s + timeout;
                    closure := Some c; id := timer_id |}] |>).
Proof.
  intros Hlt. unfold set_timer. run. cbn. rewrite checked_add_Ok by lia. cbn.
  split; [|done]. rewrite land_31. apply Z.mod_pos_bound. lia.
Qed.

Lemma set_timer_ok s timeout c :
  timers_ok s → NEXT_TIMER_ID s < 2147483648 → current_time_ms s + timeout < u64_size →
  runs (set_timer timeout c) s (λ timer_id s', timers_ok s' ∧ timer_id = NEXT_TIMER_ID s).
Proof.
  intros [Hnd Hids Hcl Hn] Hlt Ht. call set_timer_runs; [done|].
  intros timer_id s' (_ & Hid & ->).
  assert (timer_id = NEXT_TIMER_ID s) as ->.
  { rewrite Hid, land_31. apply Z.mod_small. lia. }
  split; [|done]. clear Hid.
  assert (u32_wrapping_add (NEXT_TIMER_ID s) 1 = NEXT_TIMER_ID s + 1) as Hw.
  { apply Z.mod_small. lia. }
  split; cbn; rewrite ?Hw; [..|lia].
  - rewrite map_app. apply NoDup_app. split_and!; [done| |repeat constructor; set_solver].
    intros i Hi Hi'. cbn in Hi'. apply list_elem_of_singleton in Hi' as ->.
    apply list_elem_of_fmap in Hi as (t & Heq & Hin).
    rewrite Forall_forall in Hids. specialize (Hids t Hin). lia.
  - apply Forall_app. split; [|repeat constructor; cbn; lia].
    eapply Forall_impl; [exact Hids|]. cbn. lia.
  - apply Forall_app. split; [done|]. repeat constructor; cbn; eauto.
Qed.

Lemma find_timer_Some l timer_id i :
  find_timer l timer_id = Some i →
  ∃ pre t post, l = pre ++ t :: post ∧ length pre = i ∧ id t = timer_id ∧
    Forall (λ t, id t ≠ timer_id) pre.
Proof.
  revert i. induction l as [|t l IH]; intros i H; [done|].
  simpl in H. destruct (Z.eqb_spec (id t) timer_id) as [He|He].
  - simplify_eq. exists [], t, l. eauto.
  - destruct (find_timer l timer_id) as [j|]; [|done]. simplify_eq/=.
    destruct (IH j eq_refl) as (pre & t' & post & -> & <- & ? & ?).
    exists (t :: pre), t', post. eauto.
Qed.

Lemma find_timer_None l timer_id :
  find_timer l timer_id = None ↔ timer_id ∉ timer_ids l.
Proof.
  induction l as [|t l IH]; simpl; [split; [intros _; apply not_elem_of_nil|done]|].
  rewrite not_elem_of_cons. destruct (Z.eqb_spec (id t) timer_id) as [He|He].
  - split; [done|]. naive_solver.
  - rewrite fmap_None, IH. naive_solver.
Qed.

Lemma swap_remove_perm {A} (pre : list A) x post :
  swap_remove (pre ++ x :: post) (length pre) ≡ₚ pre ++ post.
Proof.
  unfold swap_remove. destruct post as [|y post] using rev_ind.
  - rewrite last_snoc, insert_app_r_alt, Nat.sub_diag by lia. cbn.
    rewrite take_app_length' by (rewrite length_app; cbn; lia). by rewrite app_nil_r.
  - clear IHpost. rewrite app_comm_cons, app_assoc, last_snoc.
    rewrite insert_app_l by (rewrite length_app; cbn; lia).
    rewrite insert_app_r_alt, Nat.sub_diag by lia. cbn.
    rewrite take_app_length' by (rewrite !length_app; cbn; rewrite ?length_app; cbn; lia).
    by rewrite (Permutation_app_comm post [y]).
Qed.

Lemma swap_remove_last {A} (pre : list A) x : swap_remove (pre ++ [x]) (length pre) = pre.
Proof.
  unfold swap_remove. rewrite last_snoc, insert_app_r_alt, Nat.sub_diag by lia. cbn.
  apply take_app_length'. rewrite length_app. cbn. lia.
Qed.

(** The timers of a permutation of the list, and of a part of it, are as good. *)
Lemma timers_ok_sub s l :
  timers_ok s → (∃ t, PENDING_TIMERS s ≡ₚ t :: l) → timers_ok (s <| PENDING_TIMERS := l |>).
Proof.
  intros [Hnd Hids Hcl Hn] [t Hp].
  rewrite Hp in Hids, Hcl. pose proof (Permutation_map (@id C) Hp) as Hp'. rewrite Hp' in Hnd.
  apply Forall_cons_iff in Hids as [_ ?]. apply Forall_cons_iff in Hcl as [_ ?].
  apply NoDup_cons in Hnd as [_ ?]. by split.
Qed.

Lemma cancel_timer_runs s timer_id :
  runs (cancel_timer timer_id) s (λ b s',
    if b then ∃ t, id t = timer_id ∧ PENDING_TIMERS s ≡ₚ t :: PENDING_TIMERS s' ∧
                   s' = s <| PENDING_TIMERS := PENDING_TIMERS s' |>
    else timer_id ∉ timer_ids (PENDING_TIMERS s) ∧ s' = s).
Proof.
  unfold cancel_timer. run. destruct (find_timer _ _) as [i|] eqn:Hf; run.
  - apply find_timer_Some in Hf as (pre & t & post & Hl & <- & Hid & _).
    exists t. split; [done|]. split; [|by destruct s].
    cbn. rewrite Hl, swap_remove_perm. apply Permutation_sym, Permutation_middle.
  - by rewrite <-find_timer_None.
Qed.

Lemma cancel_timer_ok s timer_id :
  timers_ok s →
  runs (cancel_timer timer_id) s (λ b s', timers_ok s' ∧
    b = bool_decide (timer_id ∈ timer_ids (PENDING_TIMERS s)) ∧
    timer_id ∉ timer_ids (PENDING_TIMERS s')).
Proof.
  intros Hok. call cancel_timer_runs. intros [] s' H.
  - destruct H as (t & Hid & Hp & Hs).
    assert (timers_ok s') as Hok' by (rewrite Hs; eapply timers_ok_sub; eauto).
    split; [done|]. destruct Hok as [Hnd _ _ _].
    pose proof (Permutation_map (@id C) Hp) as Hp'. rewrite Hp' in Hnd.
    split; [|by apply NoDup_cons in Hnd as [? _]; rewrite <-Hid].
    symmetry. apply bool_decide_eq_true. rewrite Hp'. cbn. rewrite Hid. constructor.
  - destruct H as [Hn ->]. split; [done|]. split; [|done].
    symmetry. by apply bool_decide_eq_false.
Qed.

End Lemmas.

(** ** The scan *)

Section Scan.
Context {C T : Type} `{!Lens T (TimerState C)} (run : C → ST T unit).

Abbreviation pending s := (PENDING_TIMERS (view s)).

Definition expired (now : Z) (t : Timer C) : bool := absolute_timeout_ms t <=? now.

Definition expired_count (now : Z) (l : list (Timer C)) : nat :=
  length (filter (expired now) l).

Lemma expired_count_delete now (l : list (Timer C)) i t :
  l !! i = Some t → expired now t = true →
  expired_count now l = S (expired_count now (delete i l)).
Proof.
  intros Hl Ht. apply delete_Permutation in Hl. unfold expired_count.
  rewrite Hl at 1. rewrite filter_cons_True by (by rewrite Ht). done.
Qed.

(** The scan ends if no closure makes a timer that has already expired. *)
Lemma tick_loop_terminates now (I : T → Prop) :
  (∀ t s i, I s → pending s !! i = Some t → expired now t = true →
    ∃ c, closure t = Some c ∧
    runs (run c) (update ((view s) <| PENDING_TIMERS := delete i (pending s) |>) s) (λ _ s',
      I s' ∧ (expired_count now (pending s') ≤ expired_count now (delete i (pending s)))%nat)) →
  ∀ s i, I s → ∃ n, ∀ fuel, (n ≤ fuel)%nat → runs (tick_loop run fuel now i) s (λ _ s', I s').
Proof.
  intros Hrun s. remember (expired_count now (pending s)) as e eqn:He. revert s He.
  induction (lt_wf e) as [e _ IHe]. intros s ->.
  enough (∀ k i, I s → (length (pending s) - i = k)%nat →
    ∃ n, ∀ fuel, (n ≤ fuel)%nat → runs (tick_loop run fuel now i) s (λ _ s', I s')) as H.
  { intros i HI. by eapply H. }
  induction k as [k IHk] using lt_wf_ind. intros i HI Hk.
  destruct (pending s !! i) as [t|] eqn:Ht.
  2: { exists 1%nat. intros [|fuel] ?; [lia|]. simpl. run. by rewrite Ht. }
  pose proof (lookup_lt_Some _ _ _ Ht). destruct (expired now t) eqn:Hexp.
  - destruct (Hrun t s i HI Ht Hexp) as (c & Hc & Hr).
    apply runs_Ok in Hr as ([] & s' & Hr & HI' & Hle).
    pose proof (expired_count_delete _ _ _ _ Ht Hexp) as Hcnt.
    destruct (IHe (expired_count now (pending s')) ltac:(lia) s' eq_refl i HI') as [n Hn].
    exists (S n). intros [|fuel] ?; [lia|]. simpl. run. rewrite Ht.
    change (absolute_timeout_ms t <=? now) with (expired now t).
    rewrite Hexp. run. cbn. rewrite Hc. cbn. run. eapply runs_eq; [exact Hr|].
    apply Hn. lia.
  - destruct (IHk (length (pending s) - S i)%nat ltac:(lia) (S i) HI eq_refl) as [n Hn].
    exists (S n). intros [|fuel] ?; [lia|]. simpl. run. rewrite Ht.
    change (absolute_timeout_ms t <=? now) with (expired now t).
    rewrite Hexp. apply Hn. lia.
Qed.

(** What removing a timer and running its closure keep, the scan keeps. *)
Lemma tick_loop_keeps (I : T → Prop) :
  (∀ s i, I s → I (update ((view s) <| PENDING_TIMERS := delete i (pending s) |>) s)) →
  (∀ c s, I s → keeps (run c) s (λ _ s', I s')) →
  ∀ fuel now i s, I s → keeps (tick_loop run fuel now i) s (λ _ s', I s').
Proof.
  intros Hdel Hrun fuel now. induction fuel as [|fuel IH]; intros i s Hs; cbn [tick_loop]; keep.
  destruct (pending s !! i) as [t|]; [|by keep]. destruct (_ <=? _); [|by apply IH].
  keep. follow Hrun; [by apply Hdel|]. intros _ s' Hs'. by apply IH.
Qed.

(** The closures of the timers [l] are run one after another, each once: a timer
    is taken out of the list, wherever it is by then, and its closure run. *)
Inductive fired : list (Timer C) → T → T → Prop :=
  | fired_nil s : fired [] s s
  | fired_cons t c l i s s1 s2 :
      pending s !! i = Some t → closure t = Some c →
      run c (update ((view s) <| PENDING_TIMERS := delete i (pending s) |>) s) = Ok (tt, s1) →
      fired l s1 s2 → fired (t :: l) s s2.

Section Round.
Context (now : Z) (I : T → Prop).

(** While [I] holds, the closure of an expired timer returns, keeps [I] and
    does no more to the list than to add timers that have not expired. *)
Hypothesis fires : ∀ s i t, I s → pending s !! i = Some t → expired now t = true →
  ∃ c, closure t = Some c ∧
  runs (run c) (update ((view s) <| PENDING_TIMERS := delete i (pending s) |>) s) (λ _ s',
    I s' ∧ ∃ new, pending s' = delete i (pending s) ++ new ∧
                  Forall (λ t, expired now t = false) new).

(** Timers that have not expired are passed over. *)
Lemma tick_loop_skips s kept extra :
  pending s = kept ++ extra → Forall (λ t, expired now t = false) extra →
  ∃ n, ∀ fuel, (n ≤ fuel)%nat → runs (tick_loop run fuel now (length kept)) s (λ _ s', s' = s).
Proof.
  intros Hl Hex. revert kept Hl. induction Hex as [|t extra Ht Hex IH]; intros kept Hl.
  - exists 1%nat. intros [|fuel] ?; [lia|]. simpl. run.
    by rewrite Hl, app_nil_r, lookup_ge_None_2 by lia.
  - destruct (IH (kept ++ [t])) as [n Hn]; [by rewrite <-app_assoc|].
    exists (S n). intros [|fuel] ?; [lia|]. simpl. run.
    rewrite Hl, list_lookup_middle by done.
    change (absolute_timeout_ms t <=? now) with (expired now t). rewrite Ht.
    rewrite length_app, Nat.add_1_r in Hn. apply Hn. lia.
Qed.

(** The scan from the index [length kept] on: [rest] has not been looked at,
    [extra] was added since the scan began. *)
Lemma tick_loop_runs rest : ∀ s kept extra,
  I s → pending s = kept ++ rest ++ extra → Forall (λ t, expired now t = false) extra →
  ∃ n, ∀ fuel, (n ≤ fuel)%nat → runs (tick_loop run fuel now (length kept)) s (λ _ s', ∃ new,
    I s' ∧ fired (filter (expired now) rest) s s' ∧
    pending s' = kept ++ filter (λ t, expired now t = false) rest ++ extra ++ new ∧
    Forall (λ t, expired now t = false) new).
Proof.
  induction rest as [|t rest IH]; intros s kept extra HI Hl Hex.
  { destruct (tick_loop_skips s kept extra Hl Hex) as [n Hn]. exists n. intros fuel Hf.
    eapply runs_mono; [by apply Hn|]. cbv beta. intros _ s' ->. exists [].
    split; [done|]. split; [constructor|]. by rewrite Hl, app_nil_r. }
  assert (pending s !! length kept = Some t) as Ht by (rewrite Hl; by apply list_lookup_middle).
  destruct (expired now t) eqn:He.
  - rewrite filter_cons_True by (by rewrite He).
    rewrite (filter_cons_False (λ t, expired now t = false)) by (by rewrite He).
    destruct (fires s _ t HI Ht He) as (c & Hc & Hr).
    apply runs_Ok in Hr as ([] & s' & Hr & HI' & new & Hnew & Hnf).
    assert (delete (length kept) (pending s) = kept ++ rest ++ extra) as Hdel
      by (rewrite Hl; apply delete_middle).
    destruct (IH s' kept (extra ++ new)) as [n Hn]; [done| |by apply Forall_app|].
    { by rewrite Hnew, Hdel, <-!app_assoc. }
    exists (S n). intros [|fuel] ?; [lia|]. simpl. run. rewrite Ht.
    change (absolute_timeout_ms t <=? now) with (expired now t). rewrite He. run. cbn.
    rewrite Hc. cbn. run. eapply runs_eq; [exact Hr|].
    eapply runs_mono; [apply Hn; lia|]. cbv beta. intros _ s'' (new' & HI'' & Hfi & Hp & Hnf').
    exists (new ++ new'). split; [done|]. split; [by econstructor|].
    split; [by rewrite Hp, <-!app_assoc|by apply Forall_app].
  - rewrite filter_cons_False by (rewrite He; by intros []).
    rewrite (filter_cons_True (λ t, expired now t = false)) by done.
    destruct (IH s (kept ++ [t]) extra) as [n Hn]; [done|by rewrite <-app_assoc|done|].
    exists (S n). intros [|fuel] ?; [lia|]. simpl. run. rewrite Ht.
    change (absolute_timeout_ms t <=? now) with (expired now t). rewrite He.
    rewrite length_app, Nat.add_1_r in Hn. eapply runs_mono; [apply Hn; lia|]. cbv beta.
    intros _ s' (new & HI' & Hfi & Hp & Hnf). exists new. by rewrite Hp, <-app_assoc.
Qed.

End Round.

End Scan.
