(* ===== verification/Netif.v ===== *)
(** * netif.rs: the TUN interface

    Packets enter and leave as vectors of slices that point into the fragments
    of a packet buffer.  The system calls behind [tun_send] and [tun_recv] are
    the operations of the class [Tun]; [wire] records the frames written. *)

From S2P Require Import Prelude Util Buf BufSpec.
Local Open Scope Z_scope.

Abbreviation MAX_VECS := 8.
Abbreviation MRU := 2048.

(** * The interface to the host

    [tun_send history vecs]: the result of [writev] on the slices [vecs], after
    the frames [history] were written.
    [tun_recv n len]: the result of [readv] for the [n]-th packet into vectors
    of [len] octets in all, and the octets it stores there. *)
Class Tun : Type := {
  tun_send : list (list Z) → list (list Z) → Z;
  tun_recv : nat → Z → Z * list Z;
}.

(** What the code relies on: the writes succeed, and a read stores as many
    octets as it says, no more than there is room for. *)
Class TunOk `{!Tun} : Prop := {
  tun_send_ok : ∀ history vecs, 0 < tun_send history vecs;
  tun_recv_ok : ∀ n len, 0 < len →
    0 < (tun_recv n len).1 ≤ len ∧ zlen (tun_recv n len).2 = (tun_recv n len).1 ∧
    bytes_ok (tun_recv n len).2;
}.

(** * State *)

Record NetState : Type := {
  bufs : BufState;
  LOCAL_IPV4 : IPAddr;
  LOCAL_IPV6 : IPAddr;
  wire : list (list Z);
  frames_received : nat;
}.

#[export] Instance eta_NetState : Eta NetState := λ s,
  Build_NetState (bufs s) (LOCAL_IPV4 s) (LOCAL_IPV6 s) (wire s) (frames_received s).

#[export, program] Instance net_bufs : Lens NetState BufState := {|
  view := bufs;
  update b s := s <| bufs := b |>;
|}.
Next Obligation. done. Qed.
Next Obligation. by intros []. Qed.
Next Obligation. done. Qed.

Definition NetState_init : NetState := {|
  bufs := FragmentPool_new METRICS_new;
  LOCAL_IPV4 := IPAddr_new;
  LOCAL_IPV6 := IPAddr_new;
  wire := [];
  frames_received := O;
|}.

(** * Operations *)

Section Operations.
Context `{!Tun}.

Definition init : ST NetState unit :=
  v4 ← lift (IPAddr_new_from [10; 0; 0; 2]);
  modify (λ s, s <| LOCAL_IPV4 := v4 |>);;
  v6 ← lift (IPAddr_new_from [0xfe; 0x80; 0; 0; 0; 0; 0; 0; 0; 0; 0; 0; 0; 0; 0; 0x2]);
  modify (λ s, s <| LOCAL_IPV6 := v6 |>).

(** The loop over the slices; an [IOVec] is the slice it points to. *)
Fixpoint to_iovec_loop (slices : list (list Z)) (vec : list (list Z)) (vec_count : Z)
    : outcome (list (list Z) * Z) :=
  match slices with
  | [] => Ok (vec, vec_count)
  | slice :: rest =>
      vec ← store vec vec_count slice;
      to_iovec_loop rest vec (vec_count + 1)
  end.

Definition to_iovec (packet : NetBuffer) (vec : list (list Z)) : outcome (list (list Z) * Z) :=
  frags ← slices (iter packet usize_max);
  to_iovec_loop frags vec 0.

Definition empty_iovec : list (list Z) := replicate (Z.to_nat MAX_VECS) [].

(** [readv]: the octets received fill the ranges of the fragments in order. *)
Fixpoint scatter (frags : list BufferFragment) (bytes : list Z) : list BufferFragment :=
  match frags with
  | [] => []
  | frag :: next =>
      let n := Z.to_nat (BufferFragment_len frag) in
      frag <| data ::= λ d, overwrite d (range_start frag) (take n bytes) |>
        :: scatter next (drop n bytes)
  end.

Definition recv_packet : ST NetState NetBuffer :=
  packet ← zoom (new_prealloc MRU);
  '(iovec, num_vecs) ← lift (to_iovec packet empty_iovec);
  n ← fetches frames_received;
  let '(result, bytes) := tun_recv n (zlen (concat (take (Z.to_nat num_vecs) iovec))) in
  if result <=? 0 then exit_process
  else
    let packet := packet <| fragments ::= λ frags, scatter frags bytes |> in
    modify (λ s, s <| frames_received ::= S |>);;
    excess ← lift (checked_sub (NetBuffer_len packet) result);
    packet ← zoom (trim_tail excess packet);
    modify (λ s, s <| bufs ::= λ b, b <| METRICS ::=
      λ m, m <| packets_received ::= PerfCounter_inc |> |> |>);;
    mret packet.

Definition send_packet (packet : NetBuffer) : ST NetState unit :=
  '(iovec, num_vecs) ← lift (to_iovec packet empty_iovec);
  let vecs := take (Z.to_nat num_vecs) iovec in
  history ← fetches wire;
  let result := tun_send history vecs in
  if result <=? 0 then exit_process
  else
    modify (λ s, s <| wire ::= λ w, w ++ [concat vecs] |>);;
    modify (λ s, s <| bufs ::= λ b, b <| METRICS ::=
      λ m, m <| packets_sent ::= PerfCounter_inc |> |> |>);;
    zoom (drop_buffer packet).

Definition get_ipaddr : ST NetState (IPAddr * IPAddr) :=
  fetches (λ s, (LOCAL_IPV4 s, LOCAL_IPV6 s)).

End Operations.

(** * Lemmas *)

(** The state of a running interface: its addresses are set, and [k] fragments
    are in use elsewhere. *)
Record net_ok (s : NetState) (k : Z) : Prop := {
  net_pool : pool_ok (bufs s) k;
  net_v4 : IPAddr_ok (LOCAL_IPV4 s) ∧ is_v4 (LOCAL_IPV4 s) = true;
  net_v6 : IPAddr_ok (LOCAL_IPV6 s) ∧ is_v4 (LOCAL_IPV6 s) = false;
}.

(** Between two states, exactly the frames [l] were written. *)
Record sent (s s' : NetState) (l : list (list Z)) : Prop := {
  sent_wire : wire s' = wire s ++ l;
  sent_v4 : LOCAL_IPV4 s' = LOCAL_IPV4 s;
  sent_v6 : LOCAL_IPV6 s' = LOCAL_IPV6 s;
  sent_received : frames_received s' = frames_received s;
}.

Lemma sent_nil s b : sent s (s <| bufs := b |>) [].
Proof. split; try done. by rewrite app_nil_r. Qed.

Lemma sent_refl s : sent s s [].
Proof. split; try done. by rewrite app_nil_r. Qed.

Lemma sent_trans s s' s'' l l' : sent s s' l → sent s' s'' l' → sent s s'' (l ++ l').
Proof. intros [] []. split; try congruence. rewrite app_assoc. congruence. Qed.

Lemma net_ok_bufs s b k k' :
  net_ok s k → pool_ok b k' → net_ok (s <| bufs := b |>) k'.
Proof. intros []. by split. Qed.

Lemma net_ok_sent s s' l k k' : net_ok s k → sent s s' l → pool_ok (bufs s') k' → net_ok s' k'.
Proof. intros [? ? ?] [? H4 H6 ?] ?. split; [done|by rewrite H4|by rewrite H6]. Qed.

Lemma pool_ok_packets_sent b k :
  pool_ok b k → pool_ok (b <| METRICS ::= λ m, m <| packets_sent ::= PerfCounter_inc |> |>) k.
Proof. intros [? ? ? Hm]. split; try done. by destruct (metrics_inc _ Hm) as (? & ? & ?). Qed.

Lemma pool_ok_packets_received b k :
  pool_ok b k → pool_ok (b <| METRICS ::= λ m, m <| packets_received ::= PerfCounter_inc |> |>) k.
Proof. intros [? ? ? Hm]. split; try done. by destruct (metrics_inc _ Hm) as (? & ? & ?). Qed.

Section Lemmas.
Context `{!Tun}.

Lemma to_iovec_loop_spec sls done_ rest :
  zlen sls ≤ zlen rest →
  to_iovec_loop sls (done_ ++ rest) (zlen done_) =
    Ok (done_ ++ sls ++ drop (length sls) rest, zlen done_ + zlen sls).
Proof.
  revert done_ rest. induction sls as [|sl sls IH]; intros done_ rest Hlen.
  { change (zlen (@nil (list Z))) with 0. simpl. by rewrite Z.add_0_r. }
  destruct rest as [|x rest]; [zlen_solve|]. simpl.
  rewrite store_split by done. cbn [mbind outcome_bind].
  replace (done_ ++ sl :: rest) with ((done_ ++ [sl]) ++ rest) by (by rewrite <-app_assoc).
  replace (zlen done_ + 1) with (zlen (done_ ++ [sl])) by zlen_solve.
  rewrite IH by zlen_solve. rewrite <-app_assoc. simpl. do 2 f_equal. zlen_solve.
Qed.

Lemma to_iovec_loop_Panic sls vec n :
  0 ≤ n ≤ zlen vec → zlen vec < n + zlen sls → to_iovec_loop sls vec n = Panic.
Proof.
  revert vec n. induction sls as [|sl sls IH]; intros vec n Hn Hlen; [zlen_solve|].
  simpl. unfold store. rewrite (proj2 (Z.leb_le 0 n)) by lia. simpl.
  destruct (Z.ltb_spec n (zlen vec)); [|done]. simpl. apply IH; zlen_solve.
Qed.

Lemma to_iovec_spec b :
  buf_ok b → zlen (contents b) ≤ usize_max → nfrags b ≤ MAX_VECS →
  ∃ vec, to_iovec b empty_iovec = Ok (vec, nfrags b) ∧
    take (Z.to_nat (nfrags b)) vec = map frag_bytes (fragments b).
Proof.
  intros Hb Hmax Hn. unfold to_iovec. rewrite slices_all by done. cbn [mbind outcome_bind].
  pose proof (to_iovec_loop_spec (map frag_bytes (fragments b)) [] empty_iovec) as Hl.
  cbn [app] in Hl. change (zlen (@nil (list Z))) with 0 in Hl. rewrite Hl.
  - eexists. unfold nfrags. rewrite zlen_map. split; [done|].
    apply take_app_length'. rewrite length_map. unfold zlen. lia.
  - rewrite zlen_map. exact Hn.
Qed.

Lemma to_iovec_too_many b :
  buf_ok b → zlen (contents b) ≤ usize_max → MAX_VECS < nfrags b →
  to_iovec b empty_iovec = Panic.
Proof.
  intros Hb Hmax Hn. unfold to_iovec. rewrite slices_all by done. cbn [mbind outcome_bind].
  change (zlen empty_iovec) with MAX_VECS. apply to_iovec_loop_Panic.
  - change (zlen empty_iovec) with 8. lia.
  - change (zlen empty_iovec) with 8. rewrite zlen_map. exact Hn.
Qed.

Lemma send_packet_runs `{!TunOk} s k b :
  buf_ok b → zlen (contents b) ≤ usize_max → nfrags b ≤ MAX_VECS → net_ok s (nfrags b + k) →
  runs (send_packet b) s (λ _ s', sent s s' [contents b] ∧ net_ok s' k).
Proof.
  intros Hb Hmax Hn Hs. unfold send_packet. run.
  destruct (to_iovec_spec b Hb Hmax Hn) as (vec & -> & Hvec). cbn [returns].
  run. rewrite Hvec.
  pose proof (tun_send_ok (wire s) (map frag_bytes (fragments b))).
  rewrite (proj2 (Z.leb_gt _ _)) by lia. run. cbn.
  call drop_buffer_runs; [done|by apply pool_ok_packets_sent, Hs|].
  intros _ p Hp. split; [by split|]. destruct Hs. by split.
Qed.

Lemma send_packet_too_many s b :
  buf_ok b → zlen (contents b) ≤ usize_max → MAX_VECS < nfrags b → send_packet b s = Panic.
Proof.
  intros. unfold send_packet. apply bind_Panic, lift_Panic. by apply to_iovec_too_many.
Qed.

(** A write error ends the process: the packet is never reported as sent. *)
Lemma send_packet_Exit s b :
  buf_ok b → zlen (contents b) ≤ usize_max → nfrags b ≤ MAX_VECS →
  tun_send (wire s) (map frag_bytes (fragments b)) ≤ 0 → send_packet b s = Exit.
Proof.
  intros Hb Hmax Hn Hres. unfold send_packet.
  destruct (to_iovec_spec b Hb Hmax Hn) as (vec & Hv & Hvec).
  erewrite bind_Ok by (apply lift_Ok, Hv). cbn. unfold fetches, mbind, st_bind. rewrite Hvec.
  by rewrite (proj2 (Z.leb_le _ _)).
Qed.

(** *** Receiving *)

Lemma scatter_spec frags bytes :
  Forall frag_ok frags → bytes_ok bytes → zlen bytes ≤ zlen (chain_bytes frags) →
  Forall frag_ok (scatter frags bytes) ∧
  map BufferFragment_len (scatter frags bytes) = map BufferFragment_len frags ∧
  chain_bytes (scatter frags bytes) = bytes ++ drop (length bytes) (chain_bytes frags).
Proof.
  intros Hf. revert bytes. induction Hf as [|f frags Hf Hfr IH]; intros bytes Hb Hlen.
  { change (chain_bytes []) with (@nil Z) in *. destruct bytes; [done|zlen_solve]. }
  pose proof (zlen_frag_bytes f Hf) as Hzl. pose proof (frag_ok_len f Hf) as Hfl.
  pose proof (frag_len_pos f Hf). rewrite chain_bytes_cons in Hlen. simpl.
  set (n := Z.to_nat (BufferFragment_len f)).
  destruct (IH (drop n bytes)) as (Hok & Hlens & Hbytes).
  { by apply bytes_ok_drop. }
  { zlen_simpl. pose proof (zlen_nonneg (chain_bytes frags)). lia. }
  destruct Hf as ((Hd & Hdb) & Hr & He).
  assert (zlen (take n bytes) ≤ BufferFragment_len f) as Htl by (zlen_simpl; lia).
  split_and!.
  - constructor; [|done]. repeat split; cbn; try lia.
    + rewrite zlen_overwrite; lia.
    + apply bytes_ok_overwrite; [done|]. by apply bytes_ok_take.
  - f_equal. exact Hlens.
  - rewrite !chain_bytes_cons, Hbytes. unfold frag_bytes at 1. cbn.
    rewrite (sub_split _ _ (range_start f + zlen (take n bytes))) by (zlen_solve).
    rewrite sub_overwrite_at by lia. rewrite sub_overwrite_after by lia.
    destruct (decide (length bytes ≤ n)%nat) as [Hle|Hgt].
    + rewrite take_ge, !drop_ge by lia. cbn [app].
      replace (length (@nil Z)) with O by done. rewrite drop_0.
      rewrite drop_app_le by (unfold zlen in *; lia).
      rewrite <-app_assoc. do 2 f_equal. unfold frag_bytes.
      symmetry. etrans; [|apply (drop_sub _ (zlen bytes)); zlen_solve].
      f_equal. unfold zlen. lia.
    + assert (zlen (take n bytes) = BufferFragment_len f) as -> by zlen_solve.
      replace (range_start f + BufferFragment_len f) with (range_end f) by lia.
      rewrite sub_empty, app_nil_r, app_assoc, take_drop.
      rewrite drop_app_ge by (unfold zlen in *; lia). do 2 f_equal.
      rewrite length_drop. unfold zlen in *. lia.
Qed.

Lemma even_chain_lens l l' :
  map BufferFragment_len l = map BufferFragment_len l' → even_chain l → even_chain l'.
Proof.
  revert l'. induction l as [|f l IH]; intros [|f' l'] Hm He; simplify_eq/=; [done|].
  destruct l as [|g l], l' as [|g' l']; simplify_eq/=; [done|].
  destruct He as [He1 He]. split; [congruence|].
  apply (IH (g' :: l')); [simpl; congruence|done].
Qed.

Lemma recv_packet_runs `{!TunOk} s k :
  net_ok s k →
  runs recv_packet s (λ b s',
    buf_ok b ∧ even_layout b ∧ contents b = (tun_recv (frames_received s) MRU).2 ∧
    header b = Ok (take 512 (contents b)) ∧ 0 < zlen (contents b) ≤ MRU ∧ nfrags b ≤ 4 ∧
    wire s' = wire s ∧ frames_received s' = S (frames_received s) ∧
    LOCAL_IPV4 s' = LOCAL_IPV4 s ∧ LOCAL_IPV6 s' = LOCAL_IPV6 s ∧ net_ok s' (nfrags b + k)).
Proof.
  intros Hs. unfold recv_packet. run. call new_prealloc_runs; [lia|apply Hs|].
  intros b p (Hb & Hlen & Hn & Hfull & Hp). run. specialize (Hfull ltac:(by exists 4)).
  change ((2048 + 511) / 512) with 4 in Hn.
  destruct (to_iovec_spec b Hb) as (vec & -> & Hvec); [lia..|]. cbn [returns]. run.
  rewrite Hvec. change (concat (map frag_bytes (fragments b))) with (contents b).
  rewrite Hlen. cbn [frames_received set_field].
  pose proof (tun_recv_ok (frames_received s) 2048 ltac:(lia)) as (Hres & Hzb & Hbo).
  cbn. destruct (tun_recv (frames_received s) 2048) as [result bytes]. cbn [fst snd] in *.
  rewrite (proj2 (Z.leb_gt _ _)) by lia. run. rewrite buf_ok_len, Hlen by done.
  rewrite checked_sub_Ok by lia. cbn [returns]. run.
  assert (Forall frag_ok (fragments b)) as Hf by apply Hb.
  destruct (scatter_spec (fragments b) bytes) as (Hsf & Hsl & Hsb);
    [done|done|change (chain_bytes (fragments b)) with (contents b); lia|].
  set (b1 := b <| fragments ::= λ frags, scatter frags bytes |>).
  change (chain_bytes (fragments b)) with (contents b) in Hsb.
  assert (zlen (contents b1) = 2048) as Hb1l.
  { change (contents b1) with (chain_bytes (scatter (fragments b) bytes)). rewrite Hsb. zlen_solve. }
  assert (buf_ok b1) as Hb1. { split; [done|]. cbn. destruct Hb. lia. }
  assert (nfrags b1 = nfrags b) as Hb1n.
  { unfold nfrags. rewrite <-(zlen_map BufferFragment_len), <-(zlen_map BufferFragment_len (fragments b)).
    f_equal. exact Hsl. }
  call trim_tail_runs; [done|lia|rewrite Hb1n; exact Hp|].
  intros b2 p2 (Hb2 & Hc & Hn2 & He2 & Hh2 & Hp2). run.
  assert (contents b2 = bytes) as Hcb.
  { rewrite Hc, Hb1l. change (contents b1) with (chain_bytes (scatter (fragments b) bytes)).
    rewrite Hsb. apply take_app_length'. unfold zlen in *. lia. }
  split_and!; try done.
  - apply He2. eapply even_chain_lens; [symmetry; exact Hsl|]. apply Forall_even_chain.
    eapply Forall_impl; [exact Hfull|]. cbn. intros f ->. by exists 256.
  - destruct (header_full b1) as (h & Hh & Hch & Hzh); [done|by intros E; rewrite E in Hb1l| |].
    { change (fragments b1) with (scatter (fragments b) bytes). rewrite Hsl. by apply Forall_map. }
    rewrite (Hh2 h Hh) by lia. by rewrite Hc, take_take, (Nat.min_comm 512), <-take_take, <-Hch.
  - rewrite Hcb. lia.
  - rewrite Hcb. lia.
  - lia.
  - destruct Hs. split; [|done|done]. cbn. by apply pool_ok_packets_received.
Qed.

Lemma init_runs s k :
  pool_ok (bufs s) k →
  runs init s (λ _ s', net_ok s' k ∧ LOCAL_IPV4 s' = V4 [10; 0; 0; 2] ∧
    LOCAL_IPV6 s' = V6 [0xfe; 0x80; 0; 0; 0; 0; 0; 0; 0; 0; 0; 0; 0; 0; 0; 0x2] ∧
    bufs s' = bufs s ∧ wire s' = wire s).
Proof.
  intros Hp. unfold init, runs, mbind, st_bind, lift, modify. cbn.
  split_and!; try done. split; [done|..]; (split; [|done]); (split; [done|]); bytes_solve.
Qed.

Lemma init_runs_init :
  runs init NetState_init (λ _ s', net_ok s' 0).
Proof.
  call (init_runs _ 0); [|by intros _ s' []].
  split; cbn; [constructor|by exists 0|by exists 0|done].
Qed.

End Lemmas.
