(* ===== verification/Ip.v ===== *)
(** * ip.rs: the Internet Protocol

    Output prepends a header to a packet and hands it to the interface.  Input
    checks and removes the header and hands the packet to one of the transport
    protocols, which are known here only by the class [Transport]. *)

From S2P Require Import Prelude Util Buf BufSpec Checksum Netif.
Local Open Scope Z_scope.

Abbreviation PROTO_ICMPV4 := 1.
Abbreviation PROTO_ICMPV6 := 58.
Abbreviation PROTO_TCP := 6.
Abbreviation PROTO_UDP := 17.
Abbreviation IPV4_BASE_HEADER_LEN := 20.
Abbreviation IPV6_HEADER_LEN := 40.
Abbreviation DEFAULT_TTL := 64.

(** * State *)

Record IpState : Type := {
  netif : NetState;
  NEXT_PACKET_ID : Z;
}.

#[export] Instance eta_IpState : Eta IpState := λ s,
  Build_IpState (netif s) (NEXT_PACKET_ID s).

#[export, program] Instance ip_netif : Lens IpState NetState := {|
  view := netif;
  update n s := s <| netif := n |>;
|}.
Next Obligation. done. Qed.
Next Obligation. by intros []. Qed.
Next Obligation. done. Qed.

#[export] Instance ip_bufs : Lens IpState BufState := lens_comp.

(** * Output *)

Section Output.
Context `{!Tun}.

(** The header fields ip_output_v4 stores into the slice [header]. *)
Definition write_ipv4_header (packet_length packet_id protocol : Z) (source_addr dest_addr : IPAddr)
    (header : list Z) : outcome (list Z) :=
  header ← store header 0 0x45;
  header ← with_slice header 2 4 (set_be16 packet_length);
  header ← with_slice header 4 6 (set_be16 packet_id);
  header ← store header 8 DEFAULT_TTL;
  header ← store header 9 protocol;
  header ← with_slice header 12 16 (IPAddr_copy_to source_addr);
  header ← with_slice header 16 20 (IPAddr_copy_to dest_addr);
  base ← slice header 0 IPV4_BASE_HEADER_LEN;
  checksum ← compute_checksum base;
  with_slice header 10 12 (set_be16 checksum).

Definition ip_output_v4 (packet : NetBuffer) (protocol : Z) (dest_addr : IPAddr) : ST IpState unit :=
  packet ← zoom (alloc_header IPV4_BASE_HEADER_LEN packet);
  let packet_length := truncate u16_size (NetBuffer_len packet) in
  packet_id ← fetches NEXT_PACKET_ID;
  modify (λ s, s <| NEXT_PACKET_ID := wrapping_add u16_size packet_id 1 |>);;
  addrs ← zoom get_ipaddr;
  packet ← lift (header_mut packet
             (write_ipv4_header packet_length packet_id protocol addrs.1 dest_addr));
  zoom (send_packet packet).

Definition write_ipv6_header (payload_length protocol : Z) (source_addr dest_addr : IPAddr)
    (header : list Z) : outcome (list Z) :=
  header ← store header 0 0x60;
  header ← with_slice header 4 6 (set_be16 payload_length);
  header ← store header 6 protocol;
  header ← store header 7 DEFAULT_TTL;
  header ← with_slice header 8 24 (IPAddr_copy_to source_addr);
  with_slice header 24 40 (IPAddr_copy_to dest_addr).

Definition ip_output_v6 (packet : NetBuffer) (protocol : Z) (dest_addr : IPAddr) : ST IpState unit :=
  let payload_length := truncate u16_size (NetBuffer_len packet) in
  packet ← zoom (alloc_header IPV6_HEADER_LEN packet);
  addrs ← zoom get_ipaddr;
  packet ← lift (header_mut packet
             (write_ipv6_header payload_length protocol addrs.2 dest_addr));
  zoom (send_packet packet).

Definition ip_output (packet : NetBuffer) (protocol : Z) (dest_addr : IPAddr) : ST IpState unit :=
  match dest_addr with
  | V4 _ => ip_output_v4 packet protocol dest_addr
  | V6 _ => ip_output_v6 packet protocol dest_addr
  end.

End Output.

(** * Input *)

(** What the transport protocols offer to the IP layer. *)
Class Transport (S : Type) : Type := {
  transport_icmp_v4 : NetBuffer → IPAddr → ST S unit;
  transport_icmp_v6 : NetBuffer → IPAddr → ST S unit;
  transport_tcp : NetBuffer → IPAddr → ST S unit;
  transport_udp : NetBuffer → IPAddr → ST S unit;
}.

Section Input.
Context {S : Type} `{!Lens S BufState} `{!Transport S}.

Definition ip_input_common (packet : NetBuffer) (protocol : Z) (source_addr : IPAddr) : ST S unit :=
  if protocol =? PROTO_ICMPV4 then transport_icmp_v4 packet source_addr
  else if protocol =? PROTO_ICMPV6 then transport_icmp_v6 packet source_addr
  else if protocol =? PROTO_TCP then transport_tcp packet source_addr
  else if protocol =? PROTO_UDP then transport_udp packet source_addr
  else zoom (drop_buffer packet).

Definition ip_input_v4 (packet : NetBuffer) : ST S unit :=
  hdr ← lift (header packet);
  first ← lift (index hdr 0);
  let header_len := Z.land first 0xf * 4 in
  checked ← lift (slice hdr 0 header_len);
  checksum ← lift (compute_checksum checked);
  if negb (checksum =? 0) then zoom (drop_buffer packet)
  else
    frag_field ← lift (slice hdr 6 8);
    fragment ← lift (get_be16 frag_field);
    if negb (Z.land fragment 0x3fff =? 0) then zoom (drop_buffer packet)
    else
      protocol ← lift (index hdr 9);
      source ← lift (slice hdr 12 16);
      source_addr ← lift (IPAddr_new_from source);
      packet ← zoom (trim_head header_len packet);
      ip_input_common packet protocol source_addr.

Definition ip_input_v6 (packet : NetBuffer) : ST S unit :=
  hdr ← lift (header packet);
  protocol ← lift (index hdr 6);
  source ← lift (slice hdr 8 24);
  source_addr ← lift (IPAddr_new_from source);
  packet ← zoom (trim_head IPV6_HEADER_LEN packet);
  ip_input_common packet protocol source_addr.

Definition ip_input (packet : NetBuffer) : ST S unit :=
  hdr ← lift (header packet);
  first ← lift (index hdr 0);
  let version := Z.shiftr first 4 in
  if version =? 4 then ip_input_v4 packet
  else if version =? 6 then ip_input_v6 packet
  else zoom (drop_buffer packet).

End Input.

(** * Headers as bytes *)

Definition ipv4_header (packet_length packet_id protocol checksum : Z)
    (source_addr dest_addr : IPAddr) : list Z :=
  [0x45; 0] ++ be16 packet_length ++ be16 packet_id ++ [0; 0; DEFAULT_TTL; protocol] ++
  be16 checksum ++ IPAddr_octets source_addr ++ IPAddr_octets dest_addr.

(** The checksum that makes the header's sum 0xffff. *)
Definition ipv4_checksum (packet_length packet_id protocol : Z) (source_addr dest_addr : IPAddr) : Z :=
  Z.lxor (ones_fold (word_sum
    (ipv4_header packet_length packet_id protocol 0 source_addr dest_addr))) 0xffff.

Definition ipv6_header (payload_length protocol : Z) (source_addr dest_addr : IPAddr) : list Z :=
  [0x60; 0; 0; 0] ++ be16 payload_length ++ [protocol; DEFAULT_TTL] ++
  IPAddr_octets source_addr ++ IPAddr_octets dest_addr.

(** What ip_output puts on the wire in front of a payload of [len] octets. *)
Definition ip_header (s : IpState) (len protocol : Z) (dest_addr : IPAddr) : list Z :=
  match dest_addr with
  | V4 _ =>
      let total := truncate u16_size (len + IPV4_BASE_HEADER_LEN) in
      ipv4_header total (NEXT_PACKET_ID s) protocol
        (ipv4_checksum total (NEXT_PACKET_ID s) protocol (LOCAL_IPV4 (netif s)) dest_addr)
        (LOCAL_IPV4 (netif s)) dest_addr
  | V6 _ => ipv6_header (truncate u16_size len) protocol (LOCAL_IPV6 (netif s)) dest_addr
  end.

(** * Lemmas: output *)

Definition ip_ok (s : IpState) (k : Z) : Prop :=
  net_ok (netif s) k ∧ is_u16 (NEXT_PACKET_ID s).

Lemma V4_octets a : IPAddr_ok a → is_v4 a = true → ∃ x y z w, a = V4 [x; y; z; w].
Proof. destruct a as [l|l]; [|done]. intros [Hl _] _. apply zlen_4 in Hl as (?&?&?&?&->). eauto. Qed.

Lemma V6_octets a : IPAddr_ok a → is_v4 a = false → ∃ l, a = V6 l ∧ zlen l = 16.
Proof. destruct a as [l|l]; [done|]. intros [Hl _] _. eauto. Qed.

Lemma ipv4_header_bytes_ok len id proto ck src dst :
  is_u16 len → is_u16 id → is_u8 proto → is_u16 ck → IPAddr_ok src → IPAddr_ok dst →
  bytes_ok (ipv4_header len id proto ck src dst).
Proof.
  intros. unfold ipv4_header. rewrite !bytes_ok_app.
  split_and!; auto using be16_bytes, IPAddr_octets_ok; bytes_solve.
Qed.

Lemma ipv6_header_bytes_ok len proto src dst :
  is_u16 len → is_u8 proto → IPAddr_ok src → IPAddr_ok dst →
  bytes_ok (ipv6_header len proto src dst).
Proof.
  intros. unfold ipv6_header. rewrite !bytes_ok_app.
  split_and!; auto using be16_bytes, IPAddr_octets_ok; bytes_solve.
Qed.

Lemma zlen_ipv4_header len id proto ck src dst :
  IPAddr_ok src → IPAddr_ok dst → is_v4 src = true → is_v4 dst = true →
  zlen (ipv4_header len id proto ck src dst) = 20.
Proof. intros ?? Hs Hd. unfold ipv4_header, be16. zlen_simpl. by rewrite !zlen_octets, Hs, Hd. Qed.

Lemma zlen_ipv6_header len proto src dst :
  IPAddr_ok src → IPAddr_ok dst → is_v4 src = false → is_v4 dst = false →
  zlen (ipv6_header len proto src dst) = 40.
Proof. intros ?? Hs Hd. unfold ipv6_header, be16. zlen_simpl. by rewrite !zlen_octets, Hs, Hd. Qed.

(** The sum over a header whose checksum field is zero. *)
Lemma compute_checksum_ipv4 len id proto src dst :
  is_u16 len → is_u16 id → is_u8 proto → IPAddr_ok src → IPAddr_ok dst →
  is_v4 src = true → is_v4 dst = true →
  compute_checksum (ipv4_header len id proto 0 src dst) = Ok (ipv4_checksum len id proto src dst).
Proof.
  intros Hl Hi Hp Hs Hd Hvs Hvd. unfold compute_checksum.
  pose proof (zlen_ipv4_header len id proto 0 src dst Hs Hd Hvs Hvd) as Hz.
  rewrite compute_ones_comp_spec; [| |by apply ipv4_header_bytes_ok|by split|lia].
  - cbn [mbind outcome_bind]. by rewrite Z.lxor_comm, Z.add_0_l.
  - intros E. rewrite E in Hz. done.
Qed.

Lemma ipv4_checksum_range len id proto src dst :
  is_u16 len → is_u16 id → is_u8 proto → IPAddr_ok src → IPAddr_ok dst →
  is_u16 (ipv4_checksum len id proto src dst).
Proof.
  intros. unfold ipv4_checksum.
  pose proof (word_sum_bounds _ (ipv4_header_bytes_ok len id proto 0 src dst ltac:(done) ltac:(done)
    ltac:(done) ltac:(done) ltac:(done) ltac:(done))).
  pose proof (ones_fold_range (word_sum (ipv4_header len id proto 0 src dst)) ltac:(lia)) as Hr.
  rewrite lxor_ffff by done. unfold in_range in *. lia.
Qed.

(** The receiver's check of a header sent by this stack. *)
Lemma ipv4_header_checks len id proto src dst :
  is_u16 len → is_u16 id → is_u8 proto → IPAddr_ok src → IPAddr_ok dst →
  is_v4 src = true → is_v4 dst = true →
  compute_checksum (ipv4_header len id proto (ipv4_checksum len id proto src dst) src dst) = Ok 0.
Proof.
  intros Hl Hi Hp Hs Hd Hvs Hvd. unfold compute_checksum.
  pose proof (ipv4_checksum_range len id proto src dst Hl Hi Hp Hs Hd) as Hck.
  set (ck := ipv4_checksum _ _ _ _ _) in *.
  pose proof (zlen_ipv4_header len id proto ck src dst Hs Hd Hvs Hvd) as Hz.
  rewrite compute_ones_comp_spec; [| |by apply ipv4_header_bytes_ok|by split|lia].
  2: { intros E. rewrite E in Hz. done. }
  cbn [mbind outcome_bind]. do 2 f_equal.
  assert (∀ c, ipv4_header len id proto c src dst =
    ([0x45; 0] ++ be16 len ++ be16 id ++ [0; 0; DEFAULT_TTL; proto]) ++ be16 c ++
    (IPAddr_octets src ++ IPAddr_octets dst)) as Hsplit.
  { intros c. unfold ipv4_header. by rewrite <-!app_assoc. }
  rewrite Hsplit, Z.lxor_comm. change 65535 with 0xffff. unfold ck, ipv4_checksum.
  rewrite (checksum_closes 0 _ _ (ones_fold (word_sum (ipv4_header len id proto 0 src dst))));
    [done|by exists 5|lia| |by rewrite Hsplit].
  change [0; 0] with (be16 0). rewrite <-Hsplit. by apply ipv4_header_bytes_ok.
Qed.

Lemma write_ipv4_header_spec len id proto src dst k :
  is_u16 len → is_u16 id → is_u8 proto → IPAddr_ok src → IPAddr_ok dst →
  is_v4 src = true → is_v4 dst = true →
  write_ipv4_header len id proto src dst (zeros 20 ++ k) =
    Ok (ipv4_header len id proto (ipv4_checksum len id proto src dst) src dst ++ k).
Proof.
  intros Hl Hi Hp Hs Hd Hvs Hvd.
  pose proof (compute_checksum_ipv4 len id proto src dst Hl Hi Hp Hs Hd Hvs Hvd) as Hc.
  pose proof (ipv4_checksum_range len id proto src dst Hl Hi Hp Hs Hd) as Hck.
  set (ck := ipv4_checksum _ _ _ _ _) in *.
  apply V4_octets in Hs as (?&?&?&?&->); [|done]. apply V4_octets in Hd as (?&?&?&?&->); [|done].
  unfold write_ipv4_header. change (zeros 20 ++ k) with
    (0 :: 0 :: 0 :: 0 :: 0 :: 0 :: 0 :: 0 :: 0 :: 0 :: 0 :: 0 :: 0 :: 0 :: 0 :: 0 :: 0 :: 0 :: 0 :: 0 :: k).
  seg_store. seg_write ltac:(by apply set_be16_field). seg_write ltac:(by apply set_be16_field).
  seg_store. seg_store. seg_write ltac:(reflexivity). seg_write ltac:(reflexivity). seg_slice.
  unfold ipv4_header, be16 in Hc |- *. cbn [app IPAddr_octets] in Hc |- *.
  change (0 / 256) with 0 in Hc. change (0 mod 256) with 0 in Hc. rewrite Hc.
  cbn [mbind outcome_bind]. seg_write ltac:(by apply set_be16_field). done.
Qed.

Lemma write_ipv6_header_spec len proto src dst k :
  is_u16 len → IPAddr_ok src → IPAddr_ok dst → is_v4 src = false → is_v4 dst = false →
  write_ipv6_header len proto src dst (zeros 40 ++ k) = Ok (ipv6_header len proto src dst ++ k).
Proof.
  intros Hl Hs Hd Hvs Hvd.
  apply V6_octets in Hs as (ls & -> & Hls); [|done]. apply V6_octets in Hd as (ld & -> & Hld); [|done].
  apply zlen_16 in Hls as (?&?&?&?&?&?&?&?&?&?&?&?&?&?&?&?&->).
  apply zlen_16 in Hld as (?&?&?&?&?&?&?&?&?&?&?&?&?&?&?&?&->).
  unfold write_ipv6_header. change (zeros 40 ++ k) with
    (0 :: 0 :: 0 :: 0 :: 0 :: 0 :: 0 :: 0 :: 0 :: 0 :: 0 :: 0 :: 0 :: 0 :: 0 :: 0 :: 0 :: 0 :: 0 :: 0 ::
     0 :: 0 :: 0 :: 0 :: 0 :: 0 :: 0 :: 0 :: 0 :: 0 :: 0 :: 0 :: 0 :: 0 :: 0 :: 0 :: 0 :: 0 :: 0 :: 0 :: k).
  seg_store. seg_write ltac:(by apply set_be16_field). seg_store. seg_store.
  seg_write ltac:(reflexivity). seg_write ltac:(reflexivity). done.
Qed.

Lemma ip_output_runs `{!Tun, !TunOk} s k b proto dst :
  buf_ok b → zlen (contents b) + 40 < usize_size → nfrags b < MAX_VECS → is_u8 proto →
  IPAddr_ok dst → ip_ok s (nfrags b + k) →
  runs (ip_output b proto dst) s (λ _ s',
    sent (netif s) (netif s') [ip_header s (zlen (contents b)) proto dst ++ contents b] ∧
    NEXT_PACKET_ID s' = (if is_v4 dst then wrapping_add u16_size (NEXT_PACKET_ID s) 1
                         else NEXT_PACKET_ID s) ∧
    ip_ok s' k).
Proof.
  intros Hb Hlen Hn Hp Hd [Hs Hid]. pose proof Hs as [Hpool [Hs4 Hv4] [Hs6 Hv6]].
  unfold ip_output. destruct dst as [d|d]; unfold ip_output_v4, ip_output_v6; run.
  - call alloc_header_runs; [done|lia|lia|exact Hpool|].
    intros b' p (Hb' & Hc & (r & Hh) & Hn' & _ & Hp'). run. cbn.
    rewrite buf_ok_len by done. rewrite Hc, zlen_app, zlen_zeros by lia.
    assert (is_u16 (truncate u16_size (20 + zlen (contents b)))) as Htr by (apply truncate_range; lia).
    destruct (header_mut_prefix b' (zeros 20)
      (ipv4_header (truncate u16_size (20 + zlen (contents b))) (NEXT_PACKET_ID s) proto
        (ipv4_checksum (truncate u16_size (20 + zlen (contents b))) (NEXT_PACKET_ID s) proto
           (LOCAL_IPV4 (netif s)) (V4 d)) (LOCAL_IPV4 (netif s)) (V4 d)) r (contents b)
      (write_ipv4_header (truncate u16_size (20 + zlen (contents b))) (NEXT_PACKET_ID s) proto
        (LOCAL_IPV4 (netif s)) (V4 d))) as (b2 & -> & Hb2 & Hc2 & _ & Hn2 & _).
    { done. } { done. } { done. } { by apply write_ipv4_header_spec. }
    { by rewrite zlen_ipv4_header, zlen_zeros. }
    { apply ipv4_header_bytes_ok; try done. by apply ipv4_checksum_range. }
    cbn [returns]. run. cbn.
    call send_packet_runs; [done| |lia| |].
    + rewrite Hc2, zlen_app, zlen_ipv4_header by done. lia.
    + rewrite Hn2. by eapply net_ok_bufs.
    + intros _ n [Hsent Hn3]. cbn. split_and!; [|done|].
      * rewrite Hc2 in Hsent. unfold ip_header.
        replace (zlen (contents b) + 20) with (20 + zlen (contents b)) by lia.
        by destruct Hsent; split.
      * split; [done|]. apply wrapping_add_range. lia.
  - call alloc_header_runs; [done|lia|lia|exact Hpool|].
    intros b' p (Hb' & Hc & (r & Hh) & Hn' & _ & Hp'). run. cbn.
    rewrite buf_ok_len by done.
    assert (is_u16 (truncate u16_size (zlen (contents b)))) as Htr by (apply truncate_range; lia).
    destruct (header_mut_prefix b' (zeros 40)
      (ipv6_header (truncate u16_size (zlen (contents b))) proto (LOCAL_IPV6 (netif s)) (V6 d))
      r (contents b)
      (write_ipv6_header (truncate u16_size (zlen (contents b))) proto
        (LOCAL_IPV6 (netif s)) (V6 d))) as (b2 & -> & Hb2 & Hc2 & _ & Hn2 & _).
    { done. } { done. } { done. } { by apply write_ipv6_header_spec. }
    { by rewrite zlen_ipv6_header, zlen_zeros. }
    { by apply ipv6_header_bytes_ok. }
    cbn [returns]. run. cbn.
    call send_packet_runs; [done| |lia| |].
    + rewrite Hc2, zlen_app, zlen_ipv6_header by done. lia.
    + rewrite Hn2. by eapply net_ok_bufs.
    + intros _ n [Hsent Hn3]. cbn. split_and!; [|done|done].
      rewrite Hc2 in Hsent. unfold ip_header. by destruct Hsent; split.
Qed.

(** * Lemmas: input *)

(** The header fields of a received packet: [ihl] words, of which the first
    five are given and the rest is in [options]. *)
Definition ipv4_fields (ihl tos total packet_id fragment ttl protocol checksum : Z)
    (source_addr dest_addr options : list Z) : list Z :=
  [0x40 + ihl; tos] ++ be16 total ++ be16 packet_id ++ be16 fragment ++ [ttl; protocol] ++
  be16 checksum ++ source_addr ++ dest_addr ++ options.

Definition ipv6_fields (class label0 label1 label2 len0 len1 next_header hop_limit : Z)
    (source_addr dest_addr : list Z) : list Z :=
  [0x60 + class; label0; label1; label2; len0; len1; next_header; hop_limit] ++
  source_addr ++ dest_addr.

Lemma ipv4_header_fields len id proto ck s d :
  ipv4_header len id proto ck (V4 s) (V4 d) = ipv4_fields 5 0 len id 0 64 proto ck s d [].
Proof. unfold ipv4_header, ipv4_fields. by rewrite app_nil_r. Qed.

Lemma shiftr_4_of_5 (x : Z) : 0 ≤ x < 16 → Z.shiftr (0x40 + x) 4 = 4 ∧ Z.land (0x40 + x) 0xf = x.
Proof.
  intros Hx. rewrite Z.shiftr_div_pow2 by lia. change 0xf with (Z.ones 4).
  rewrite Z.land_ones by lia. change (2 ^ 4) with 16. split.
  - symmetry. apply (Z.div_unique_pos _ _ _ x); lia.
  - symmetry. apply (Z.mod_unique_pos _ _ 4); lia.
Qed.

Lemma shiftr_4_of_6 (x : Z) : 0 ≤ x < 16 → Z.shiftr (0x60 + x) 4 = 6.
Proof.
  intros Hx. rewrite Z.shiftr_div_pow2 by lia. change (2 ^ 4) with 16.
  symmetry. apply (Z.div_unique_pos _ _ _ x); lia.
Qed.

Lemma drop_app_zlen {A} (l k : list A) n : zlen l = n → drop (Z.to_nat n) (l ++ k) = k.
Proof. intros <-. apply drop_app_length'. unfold zlen. lia. Qed.

Section InputLemmas.
Context {S : Type} `{!Lens S BufState} `{!Transport S}.

(** [s'] differs from [s] by pool operations only, and [k] fragments remain in use. *)
Definition pool_change (s : S) (k : Z) (s' : S) : Prop :=
  ∃ p, s' = update p s ∧ pool_ok p k.

(** What a handler is given after the header is removed. *)
Definition delivers (b : NetBuffer) (k : Z) (h' rest : list Z) (s : S)
    (handler : NetBuffer → ST S unit) (Q : unit → S → Prop) : Prop :=
  ∀ b' p, buf_ok b' → contents b' = h' ++ rest → (h' ≠ [] → header b' = Ok h') →
    (even_layout b → even_layout b') → nfrags b' ≤ nfrags b → pool_ok p (nfrags b' + k) → runs (handler b') (update p s) Q.

Lemma drop_packet_runs s k b :
  buf_ok b → pool_ok (view s) (nfrags b + k) →
  runs (zoom (drop_buffer b)) s (λ _ s', pool_change s k s').
Proof. intros Hb Hp. run. call drop_buffer_runs; [done|done|]. intros _ p ?. by exists p. Qed.

(** Removing a header of even length. *)
Lemma strip_runs s k b hdr h' rest n handler Q :
  buf_ok b → header b = Ok (hdr ++ h') → contents b = (hdr ++ h') ++ rest → zlen hdr = n → Z.Even n →
  pool_ok (view s) (nfrags b + k) →
  delivers b k h' rest s handler Q →
  runs (packet ← zoom (trim_head n b); handler packet) s Q.
Proof.
  intros Hb Hh Hc Hn He Hp Hd. run. pose proof (zlen_nonneg hdr).
  assert (runs (trim_head n b) (view s) (λ b' _, h' ≠ [] → header b' = Ok h')) as Hhd.
  { destruct (decide (h' = [])) as [->|Hne].
    - eapply runs_mono; [by eapply (trim_head_runs _ k); [|rewrite Hc; zlen_solve|]|done].
    - eapply runs_mono; [by eapply trim_head_header|auto]. }
  pose proof (trim_head_runs (view s) k n b Hb ltac:(rewrite Hc; zlen_solve) Hp) as Hrun.
  eapply runs_mono; [exact (runs_and _ _ _ _ Hrun Hhd)|].
  intros b' p [(Hb' & Hc' & Hn' & He' & Hp') Hh']. apply Hd; auto.
  by rewrite Hc', Hc, <-app_assoc, drop_app_zlen.
Qed.

Lemma ip_input_v4_runs s k b ihl tos total id frag ttl proto ck src dst opts h' rest Q :
  let hdr := ipv4_fields ihl tos total id frag ttl proto ck src dst opts in
  buf_ok b → header b = Ok (hdr ++ h') → contents b = (hdr ++ h') ++ rest →
  5 ≤ ihl < 16 → zlen src = 4 → zlen dst = 4 → zlen hdr = ihl * 4 → is_u16 frag →
  compute_checksum hdr = Ok 0 → Z.land frag 0x3fff = 0 →
  pool_ok (view s) (nfrags b + k) →
  delivers b k h' rest s (λ b', ip_input_common b' proto (V4 src)) Q →
  runs (ip_input b) s Q.
Proof.
  intros hdr Hb Hh Hc Hihl Hs Hd Hz Hfrag Hck Hf Hp Hdel.
  apply zlen_4 in Hs as (?&?&?&?&->). apply zlen_4 in Hd as (?&?&?&?&->).
  destruct (shiftr_4_of_5 ihl ltac:(lia)) as [Hsh Hland].
  unfold ip_input, ip_input_v4. rewrite Hh. run.
  change (index (hdr ++ h') 0) with (@Ok Z (0x40 + ihl)). run.
  rewrite Hsh. cbn [Z.eqb Pos.eqb]. run.
  change (index (hdr ++ h') 0) with (@Ok Z (0x40 + ihl)). run. rewrite Hland.
  change (hdr ++ h') with ([] ++ hdr ++ h') at 1.
  rewrite slice_split by (done || by rewrite Z.sub_0_r). run. rewrite Hck. run.
  cbn [Z.eqb negb].
  change (slice (hdr ++ h') 6 8) with (slice ([0x40 + ihl; tos; total / 256; total mod 256;
    id / 256; id mod 256] ++ be16 frag ++ drop 8 (hdr ++ h')) 6 8).
  rewrite slice_split by done. run. rewrite <-(app_nil_r (be16 frag)), get_be16_be16 by done. run.
  rewrite Hf. cbn [Z.eqb negb].
  change (index (hdr ++ h') 9) with (index ([0x40 + ihl; tos; total / 256; total mod 256;
    id / 256; id mod 256; frag / 256; frag mod 256; ttl] ++ proto :: drop 10 (hdr ++ h')) 9).
  rewrite index_split by done. run.
  change (slice (hdr ++ h') 12 16) with (slice ([0x40 + ihl; tos; total / 256; total mod 256;
    id / 256; id mod 256; frag / 256; frag mod 256; ttl; proto; ck / 256; ck mod 256] ++
    [x; x0; x1; x2] ++ drop 16 (hdr ++ h')) 12 16).
  rewrite slice_split by done. run. cbn.
  eapply strip_runs; [done|exact Hh|exact Hc|exact Hz| |done|exact Hdel].
  exists (ihl * 2). lia.
Qed.

Lemma ip_input_v6_runs s k b class l0 l1 l2 n0 n1 proto hop src dst h' rest Q :
  let hdr := ipv6_fields class l0 l1 l2 n0 n1 proto hop src dst in
  buf_ok b → header b = Ok (hdr ++ h') → contents b = (hdr ++ h') ++ rest →
  0 ≤ class < 16 → zlen src = 16 → zlen dst = 16 →
  pool_ok (view s) (nfrags b + k) →
  delivers b k h' rest s (λ b', ip_input_common b' proto (V6 src)) Q →
  runs (ip_input b) s Q.
Proof.
  intros hdr Hb Hh Hc Hcl Hs Hd Hp Hdel.
  unfold ip_input, ip_input_v6. rewrite Hh. run.
  change (index (hdr ++ h') 0) with (@Ok Z (0x60 + class)). run.
  rewrite shiftr_4_of_6 by done. cbn [Z.eqb Pos.eqb]. run.
  change (index (hdr ++ h') 6) with
    (index ([0x60 + class; l0; l1; l2; n0; n1] ++ proto :: drop 7 (hdr ++ h')) 6).
  rewrite index_split by done. run.
  assert (hdr ++ h' = [0x60 + class; l0; l1; l2; n0; n1; proto; hop] ++ src ++ dst ++ h') as Hx.
  { unfold hdr, ipv6_fields. by rewrite <-!app_assoc. }
  rewrite Hx, slice_split by done. run.
  unfold IPAddr_new_from. rewrite Hs. cbn [Z.eqb Pos.eqb]. unfold IPAddr_new_v6. rewrite Hs. run. cbn.
  eapply strip_runs; [done|exact Hh|exact Hc| |by exists 20|done|exact Hdel].
  unfold hdr, ipv6_fields. zlen_simpl. lia.
Qed.

(** The reasons for which a packet is dropped. *)
Lemma ip_input_v4_bad_checksum s k b ihl hdr h' c :
  buf_ok b → header b = Ok ((0x40 + ihl :: hdr) ++ h') →
  0 ≤ ihl < 16 → zlen (0x40 + ihl :: hdr) = ihl * 4 →
  compute_checksum (0x40 + ihl :: hdr) = Ok c → c ≠ 0 → pool_ok (view s) (nfrags b + k) →
  runs (ip_input b) s (λ _ s', pool_change s k s').
Proof.
  intros Hb Hh Hihl Hz Hck Hc Hp. destruct (shiftr_4_of_5 ihl Hihl) as [Hsh Hland].
  set (l := 0x40 + ihl :: hdr) in *.
  unfold ip_input, ip_input_v4. rewrite Hh. run.
  change (index (l ++ h') 0) with (@Ok Z (0x40 + ihl)). run. rewrite Hsh. cbn [Z.eqb Pos.eqb]. run.
  change (index (l ++ h') 0) with (@Ok Z (0x40 + ihl)). run. rewrite Hland.
  change (l ++ h') with ([] ++ l ++ h') at 1.
  rewrite slice_split by (done || by rewrite Z.sub_0_r). run. rewrite Hck. run.
  rewrite (proj2 (Z.eqb_neq c 0)) by done. by apply drop_packet_runs.
Qed.

Lemma ip_input_v4_fragment s k b ihl tos total id frag rest' h' :
  let hdr := [0x40 + ihl; tos] ++ be16 total ++ be16 id ++ be16 frag ++ rest' in
  buf_ok b → header b = Ok (hdr ++ h') →
  0 ≤ ihl < 16 → zlen hdr = ihl * 4 → is_u16 frag →
  compute_checksum hdr = Ok 0 → Z.land frag 0x3fff ≠ 0 → pool_ok (view s) (nfrags b + k) →
  runs (ip_input b) s (λ _ s', pool_change s k s').
Proof.
  intros hdr Hb Hh Hihl Hz Hfr Hck Hf Hp. destruct (shiftr_4_of_5 ihl Hihl) as [Hsh Hland].
  unfold ip_input, ip_input_v4. rewrite Hh. run.
  change (index (hdr ++ h') 0) with (@Ok Z (0x40 + ihl)). run. rewrite Hsh. cbn [Z.eqb Pos.eqb]. run.
  change (index (hdr ++ h') 0) with (@Ok Z (0x40 + ihl)). run. rewrite Hland.
  change (hdr ++ h') with ([] ++ hdr ++ h') at 1.
  rewrite slice_split by (done || by rewrite Z.sub_0_r). run. rewrite Hck. run.
  cbn [Z.eqb negb].
  change (slice (hdr ++ h') 6 8) with (slice ([0x40 + ihl; tos; total / 256; total mod 256;
    id / 256; id mod 256] ++ be16 frag ++ drop 8 (hdr ++ h')) 6 8).
  rewrite slice_split by done. run. rewrite <-(app_nil_r (be16 frag)), get_be16_be16 by done. run.
  rewrite (proj2 (Z.eqb_neq _ 0)) by done. by apply drop_packet_runs.
Qed.

Lemma ip_input_bad_version s k b first hdr :
  buf_ok b → header b = Ok (first :: hdr) →
  Z.shiftr first 4 ≠ 4 → Z.shiftr first 4 ≠ 6 → pool_ok (view s) (nfrags b + k) →
  runs (ip_input b) s (λ _ s', pool_change s k s').
Proof.
  intros Hb Hh H4 H6 Hp. unfold ip_input. rewrite Hh. run.
  change (index (first :: hdr) 0) with (@Ok Z first). run.
  rewrite !(proj2 (Z.eqb_neq _ _)) by done. by apply drop_packet_runs.
Qed.

Lemma ip_input_common_unknown s k b proto src :
  buf_ok b → proto ≠ 1 → proto ≠ 58 → proto ≠ 6 → proto ≠ 17 → pool_ok (view s) (nfrags b + k) →
  runs (ip_input_common b proto src) s (λ _ s', pool_change s k s').
Proof.
  intros Hb H1 H2 H3 H4 Hp. unfold ip_input_common.
  rewrite !(proj2 (Z.eqb_neq proto _)) by done. by apply drop_packet_runs.
Qed.

(** The length field of the header is trusted: a header length that is zero or
    goes past the first fragment stops the receive thread. *)
Lemma ip_input_v4_bad_ihl s b ihl hdr :
  header b = Ok (0x40 + ihl :: hdr) → 0 ≤ ihl < 16 →
  ihl = 0 ∨ zlen (0x40 + ihl :: hdr) < ihl * 4 → ip_input b s = Panic.
Proof.
  intros Hh Hihl Hbad. destruct (shiftr_4_of_5 ihl Hihl) as [Hsh Hland].
  unfold ip_input, ip_input_v4. rewrite Hh.
  erewrite bind_Ok by (by apply lift_Ok). erewrite bind_Ok by (by apply lift_Ok).
  rewrite Hsh. cbn [Z.eqb Pos.eqb].
  erewrite bind_Ok by (by apply lift_Ok). erewrite bind_Ok by (by apply lift_Ok).
  rewrite Hland. destruct Hbad as [->|Hbad].
  - change (slice (0x40 + 0 :: hdr) 0 (0 * 4)) with (slice ([] ++ [] ++ (0x40 + 0 :: hdr)) 0 0).
    rewrite slice_split by done. erewrite bind_Ok by (by apply lift_Ok).
    apply bind_Panic, lift_Panic. unfold compute_checksum. by rewrite compute_ones_comp_nil.
  - apply bind_Panic, lift_Panic, slice_Panic. lia.
Qed.

(** Input undoes output: a frame that another host's ip_output wrote is given
    to the handler of its protocol, with that host's address as the source. *)
Lemma ip_input_of_output s k b s0 k0 proto dst h' rest Q :
  let hdr := ip_header s0 (zlen (h' ++ rest)) proto dst in
  ip_ok s0 k0 → IPAddr_ok dst → is_u8 proto →
  buf_ok b → header b = Ok (hdr ++ h') → contents b = (hdr ++ h') ++ rest →
  pool_ok (view s) (nfrags b + k) →
  delivers b k h' rest s (λ b', ip_input_common b' proto
    (if is_v4 dst then LOCAL_IPV4 (netif s0) else LOCAL_IPV6 (netif s0))) Q →
  runs (ip_input b) s Q.
Proof.
  intros hdr [[_ [Hs4 Hv4] [Hs6 Hv6]] Hid] Hd Hpr Hb Hh Hc Hp Hdel. destruct dst as [d|d].
  - assert (is_u16 (truncate u16_size (zlen (h' ++ rest) + 20))) as Htr by (apply truncate_range; lia).
    pose proof (ipv4_header_checks _ _ _ _ _ Htr Hid Hpr Hs4 Hd Hv4 eq_refl) as Hck.
    unfold hdr, ip_header in Hh, Hc. cbv zeta in Hh, Hc.
    destruct (LOCAL_IPV4 (netif s0)) as [l|l]; [|done].
    cbn [is_v4] in Hdel. rewrite ipv4_header_fields in Hh, Hc, Hck.
    destruct Hs4, Hd.
    eapply ip_input_v4_runs; [done|exact Hh|exact Hc|lia|done|done| |by split|exact Hck|done|done|done].
    rewrite <-ipv4_header_fields. by apply zlen_ipv4_header.
  - destruct (V6_octets _ Hs6 Hv6) as (l & Hl & Hzl). unfold hdr, ip_header in *.
    rewrite Hl in *. cbn [is_v4] in Hdel.
    destruct Hd.
    by eapply (ip_input_v6_runs s k b 0 0 0 0 _ _ proto 64 l d); [|exact Hh|exact Hc|lia|..].
Qed.

End InputLemmas.
