(* ===== verification/Icmp.v ===== *)
(** * icmp.rs: answering pings

    Both protocol versions check the sum of the whole message and answer an
    echo request with a reply that carries the same data. *)

From S2P Require Import Prelude Util Buf BufSpec Checksum Netif Ip.
Local Open Scope Z_scope.

Abbreviation ICMPV4_ECHO_REQUEST := 8.
Abbreviation ICMPV4_ECHO_REPLY := 0.
Abbreviation ICMPV6_ECHO_REQUEST := 128.
Abbreviation ICMPV6_ECHO_REPLY := 129.
Abbreviation ICMP_HEADER_LEN := 4.

(** * Operations *)

Section Operations.
Context `{!Tun}.

Definition icmp_output_v4 (packet : NetBuffer) (packet_type : Z) (dest_addr : IPAddr)
    : ST IpState unit :=
  packet ← zoom (alloc_header ICMP_HEADER_LEN packet);
  packet ← lift (header_mut packet (λ header, store header 0 packet_type));
  sum ← lift (compute_buffer_ones_comp 0 packet);
  let checksum := Z.lxor sum 0xffff in
  packet ← lift (header_mut packet (λ header, with_slice header 2 4 (set_be16 checksum)));
  ip_output packet PROTO_ICMPV4 dest_addr.

Definition icmp_output_v6 (packet : NetBuffer) (packet_type : Z) (dest_addr : IPAddr)
    : ST IpState unit :=
  packet ← zoom (alloc_header ICMP_HEADER_LEN packet);
  packet ← lift (header_mut packet (λ header, store header 0 packet_type));
  addrs ← zoom get_ipaddr;
  ph_checksum ← lift (compute_pseudo_header_checksum addrs.2 dest_addr
                        (NetBuffer_len packet) PROTO_ICMPV6);
  sum ← lift (compute_buffer_ones_comp ph_checksum packet);
  let checksum := Z.lxor sum 0xffff in
  packet ← lift (header_mut packet (λ header, with_slice header 2 4 (set_be16 checksum)));
  ip_output packet PROTO_ICMPV6 dest_addr.

Definition icmp_input_v4 (packet : NetBuffer) (source_ip : IPAddr) : ST IpState unit :=
  hdr ← lift (header packet);
  sum ← lift (compute_buffer_ones_comp 0 packet);
  if negb (Z.lxor sum 0xffff =? 0) then zoom (drop_buffer packet)
  else
    packet_type ← lift (index hdr 0);
    packet ← zoom (trim_head ICMP_HEADER_LEN packet);
    if packet_type =? ICMPV4_ECHO_REQUEST then
      response ← zoom (append_from_buffer packet usize_max NetBuffer_new);
      icmp_output_v4 response ICMPV4_ECHO_REPLY source_ip;;
      zoom (drop_buffer packet)
    else zoom (drop_buffer packet).

Definition icmp_input_v6 (packet : NetBuffer) (source_ip : IPAddr) : ST IpState unit :=
  addrs ← zoom get_ipaddr;
  ph_checksum ← lift (compute_pseudo_header_checksum source_ip addrs.2
                        (NetBuffer_len packet) PROTO_ICMPV6);
  hdr ← lift (header packet);
  sum ← lift (compute_buffer_ones_comp ph_checksum packet);
  if negb (Z.lxor sum 0xffff =? 0) then zoom (drop_buffer packet)
  else
    packet_type ← lift (index hdr 0);
    packet ← zoom (trim_head ICMP_HEADER_LEN packet);
    if packet_type =? ICMPV6_ECHO_REQUEST then
      response ← zoom (append_from_buffer packet usize_max NetBuffer_new);
      icmp_output_v6 response ICMPV6_ECHO_REPLY source_ip;;
      zoom (drop_buffer packet)
    else zoom (drop_buffer packet).

End Operations.

(** * Messages as bytes *)

(** A message whose checksum, over initial sum [c], is correct. *)
Definition icmp_message (c packet_type : Z) (payload : list Z) : list Z :=
  [packet_type; 0] ++
  be16 (Z.lxor (ones_fold (c + word_sum ([packet_type; 0; 0; 0] ++ payload))) 0xffff) ++ payload.

(** The initial sum of an ICMPv6 message of [len] octets. *)
Definition icmpv6_sum (source_ip dest_ip : IPAddr) (len : Z) : Z :=
  ones_fold (word_sum (pseudo_header_bytes source_ip dest_ip len PROTO_ICMPV6)).

(** * Lemmas *)

Lemma icmp_message_checks c ty payload :
  0 ≤ c → is_u8 ty → bytes_ok payload →
  ones_fold (c + word_sum (icmp_message c ty payload)) = 0xffff.
Proof.
  intros Hc Hty Hp. unfold icmp_message.
  eapply (checksum_closes c [ty; 0] payload); [by exists 1|done| |done].
  bytes_solve.
Qed.

Section Lemmas.
Context `{!Tun, !TunOk}.

(** Writing type and checksum into four zero octets in front of a payload. *)
Lemma icmp_fill b ty c payload r :
  buf_ok b → even_layout b → contents b = zeros 4 ++ payload → header b = Ok (zeros 4 ++ r) →
  zlen payload ≤ 65536 → is_u8 ty → is_u16 c →
  ∃ b1 b2, header_mut b (λ h, store h 0 ty) = Ok b1 ∧ buf_ok b1 ∧
    NetBuffer_len b1 = 4 + zlen payload ∧
    compute_buffer_ones_comp c b1 = Ok (ones_fold (c + word_sum ([ty; 0; 0; 0] ++ payload))) ∧
    header_mut b1 (λ h, with_slice h 2 4 (set_be16
      (Z.lxor (ones_fold (c + word_sum ([ty; 0; 0; 0] ++ payload))) 0xffff))) = Ok b2 ∧
    buf_ok b2 ∧ contents b2 = icmp_message c ty payload ∧ nfrags b2 = nfrags b.
Proof.
  intros Hb He Hc Hh Hlen Hty Hcu. pose proof (contents_ok b Hb) as Hbo. rewrite Hc in Hbo.
  apply bytes_ok_app in Hbo as [_ Hpo].
  assert (bytes_ok ([ty; 0; 0; 0] ++ payload)) as Hm.
  { bytes_solve. }
  destruct (header_mut_prefix b (zeros 4) [ty; 0; 0; 0] r payload (λ h, store h 0 ty))
    as (b1 & E1 & Hb1 & Hc1 & Hh1 & Hn1 & He1); try done.
  { bytes_solve. }
  pose proof (word_sum_bounds _ Hm).
  pose proof (ones_fold_range (c + word_sum ([ty; 0; 0; 0] ++ payload))
    ltac:(unfold in_range in Hcu; lia)) as Hof.
  assert (is_u16 (Z.lxor (ones_fold (c + word_sum ([ty; 0; 0; 0] ++ payload))) 0xffff)) as Hck.
  { rewrite lxor_ffff by done. unfold in_range in *. lia. }
  set (ck := Z.lxor _ _) in *.
  destruct (header_mut_prefix b1 [ty; 0; 0; 0] ([ty; 0] ++ be16 ck) r payload
    (λ h, with_slice h 2 4 (set_be16 ck))) as (b2 & E2 & Hb2 & Hc2 & _ & Hn2 & _); try done.
  { cbn [app]. seg_write ltac:(by apply set_be16_field). done. }
  { apply bytes_ok_app. split; [bytes_solve|by apply be16_bytes]. }
  exists b1, b2. split_and!; try done.
  - rewrite buf_ok_len, Hc1 by done. zlen_simpl. lia.
  - rewrite compute_buffer_ones_comp_spec, Hc1; auto. rewrite Hc1. zlen_simpl. lia.
  - congruence.
Qed.

Lemma icmp_output_v4_runs s k b ty dst :
  buf_ok b → even_layout b → zlen (contents b) ≤ 65536 → nfrags b + 2 ≤ MAX_VECS → is_u8 ty →
  IPAddr_ok dst → ip_ok s (nfrags b + k) →
  runs (icmp_output_v4 b ty dst) s (λ _ s',
    sent (netif s) (netif s') [ip_header s (4 + zlen (contents b)) PROTO_ICMPV4 dst ++
                               icmp_message 0 ty (contents b)] ∧ ip_ok s' k).
Proof.
  intros Hb He Hlen Hn Hty Hd [[Hpool ? ?] Hid]. unfold icmp_output_v4. run.
  call alloc_header_runs; [done|lia|lia|exact Hpool|].
  intros b' p (Hb' & Hc & (r & Hh) & Hn' & He' & Hp'). run.
  destruct (icmp_fill b' ty 0 (contents b) r) as (b1 & b2 & -> & Hb1 & Hl1 & Hs1 & E2 & Hb2 & Hc2 & Hn2);
    [done|by apply He'; [exists 2|]|done|done|done|done|by split|].
  cbn [returns]. run. rewrite Hs1. run. rewrite E2. run.
  assert (zlen (contents b2) = 4 + zlen (contents b)) as Hz.
  { rewrite Hc2. unfold icmp_message, be16. zlen_simpl. lia. }
  call ip_output_runs; [done|lia|lia|done|done|split; [|done]|].
  - rewrite Hn2. by split.
  - intros _ s' (Hsent & _ & Hok). split; [|done]. rewrite Hz, Hc2 in Hsent. by destruct Hsent.
Qed.

Lemma icmp_output_v6_runs s k b ty dst :
  buf_ok b → even_layout b → zlen (contents b) ≤ 65536 → nfrags b + 2 ≤ MAX_VECS → is_u8 ty →
  IPAddr_ok dst → is_v4 dst = false → ip_ok s (nfrags b + k) →
  runs (icmp_output_v6 b ty dst) s (λ _ s',
    sent (netif s) (netif s') [ip_header s (4 + zlen (contents b)) PROTO_ICMPV6 dst ++
      icmp_message (icmpv6_sum (LOCAL_IPV6 (netif s)) dst (4 + zlen (contents b))) ty (contents b)] ∧
    ip_ok s' k).
Proof.
  intros Hb He Hlen Hn Hty Hd Hvd [[Hpool ? [H6 Hv6]] Hid]. unfold icmp_output_v6, get_ipaddr. run.
  call alloc_header_runs; [done|lia|lia|exact Hpool|].
  intros b' p (Hb' & Hc & (r & Hh) & Hn' & He' & Hp'). run.
  set (c := icmpv6_sum (LOCAL_IPV6 (netif s)) dst (4 + zlen (contents b))).
  assert (is_u8 PROTO_ICMPV6) as Hpr by done.
  assert (is_u16 c) as Hcu.
  { apply ones_fold_range, word_sum_bounds. by apply pseudo_header_bytes_ok. }
  destruct (icmp_fill b' ty c (contents b) r) as (b1 & b2 & -> & Hb1 & Hl1 & Hs1 & E2 & Hb2 & Hc2 & Hn2);
    [done|by apply He'; [exists 2|]|done|done|done|done|done|].
  cbn [returns]. run. rewrite Hl1. cbn [view update ip_bufs ip_netif lens_comp netif set_field fst snd].
  change (LOCAL_IPV6 _) with (LOCAL_IPV6 (netif s)).
  rewrite compute_pseudo_header_checksum_spec by (done || by rewrite Hv6, Hvd). run. fold c. change (ones_fold (word_sum (pseudo_header_bytes _ _ _ _))) with c.
  rewrite Hs1. run. rewrite E2. run.
  assert (zlen (contents b2) = 4 + zlen (contents b)) as Hz.
  { rewrite Hc2. unfold icmp_message, be16. zlen_simpl. lia. }
  call ip_output_runs; [done|lia|lia|done|done|split; [|done]|].
  - rewrite Hn2. by split.
  - intros _ s' (Hsent & _ & Hok). split; [|done]. rewrite Hz, Hc2 in Hsent. by destruct Hsent.
Qed.

(** The part of input that both versions share: a request is answered, anything
    else is dropped. *)
Definition echo (output : NetBuffer → ST IpState unit) (packet_type request : Z) (packet : NetBuffer)
    : ST IpState unit :=
  packet ← zoom (trim_head ICMP_HEADER_LEN packet);
  if packet_type =? request then
    response ← zoom (append_from_buffer packet usize_max NetBuffer_new);
    output response;;
    zoom (drop_buffer packet)
  else zoom (drop_buffer packet).

Lemma echo_runs output ty req reply s k b hdr payload :
  buf_ok b → contents b = hdr ++ payload → zlen hdr = 4 → zlen (contents b) ≤ MRU →
  ip_ok s (nfrags b + k) →
  (∀ b' p k', buf_ok b' → even_layout b' → contents b' = payload → nfrags b' + 2 ≤ MAX_VECS →
     ip_ok (update p s) (nfrags b' + k') →
     runs (output b') (update p s) (λ _ s',
       sent (netif s) (netif s') [reply] ∧ ip_ok s' k')) →
  runs (echo output ty req b) s (λ _ s',
    sent (netif s) (netif s') (if ty =? req then [reply] else []) ∧ ip_ok s' k).
Proof.
  intros Hb Hc Hz Hlen [Hnet Hid] Hout. pose proof (net_pool _ _ Hnet) as Hpool.
  unfold echo. run. call trim_head_runs; [done|rewrite Hc; zlen_solve|exact Hpool|].
  intros b1 p1 (Hb1 & Hc1 & Hn1 & _ & Hp1).
  assert (contents b1 = payload) as Hp by (by rewrite Hc1, Hc, drop_app_zlen).
  rewrite Hc, zlen_app in Hlen. destruct (ty =? req); run; cbn.
  - call append_from_buffer_runs; [exact Hb1|lia|exact buf_ok_new| | |].
    { rewrite Hp. change (contents NetBuffer_new) with (@nil Z). zlen_solve. }
    { change (nfrags NetBuffer_new) with 0. rewrite Z.add_0_l. exact Hp1. }
    intros b2 p2 (Hb2 & Hc2 & Hd2 & Hp2). run. cbn.
    rewrite Hp in Hc2. change (contents NetBuffer_new) with (@nil Z) in Hc2.
    rewrite app_nil_l, take_ge in Hc2 by (unfold zlen in *; lia).
    specialize (Hd2 dense_new). pose proof (dense_nfrags b2 Hb2 Hd2) as Hn2. rewrite Hc2 in Hn2.
    pose proof (Z.div_lt_upper_bound (zlen payload + 511) 512 5 ltac:(lia) ltac:(lia)).
    call (Hout b2 p2 (nfrags b1 + k)); [done|by apply dense_even|done|lia| |].
    { split; [|done]. by eapply (net_ok_bufs (netif s)). }
    intros _ s3 [Hsent [Hnet3 Hid3]]. run.
    call drop_buffer_runs; [done|apply Hnet3|]. intros _ p4 Hp4. split.
    + rewrite <-(app_nil_r [reply]). eapply sent_trans; [exact Hsent|]. apply sent_nil.
    + split; [|done]. by eapply net_ok_bufs.
  - call drop_buffer_runs; [done|exact Hp1|]. intros _ p2 Hp2. split; [apply (sent_nil (netif s))|].
    split; [|done]. by eapply (net_ok_bufs (netif s)).
Qed.

(** [checksum != 0]: the sum of the message is not 0xffff. *)
Lemma lxor_ffff_0 x : is_u16 x → (Z.lxor x 0xffff =? 0) = (x =? 0xffff).
Proof.
  intros Hx. rewrite lxor_ffff by done. unfold in_range in Hx.
  destruct (Z.eqb_spec (65535 - x) 0), (Z.eqb_spec x 0xffff); lia.
Qed.

Lemma buffer_sum_range b c : buf_ok b → is_u16 c → is_u16 (ones_fold (c + word_sum (contents b))).
Proof.
  intros Hb Hc. pose proof (word_sum_bounds _ (contents_ok b Hb)). unfold in_range in Hc.
  apply ones_fold_range. lia.
Qed.

Lemma icmp_input_v4_runs s k b src ty code c0 c1 payload r :
  let valid := ones_fold (word_sum (contents b)) =? 0xffff in
  buf_ok b → even_layout b → contents b = [ty; code; c0; c1] ++ payload →
  header b = Ok ([ty; code; c0; c1] ++ r) → zlen (contents b) ≤ MRU → IPAddr_ok src →
  ip_ok s (nfrags b + k) →
  runs (icmp_input_v4 b src) s (λ _ s', sent (netif s) (netif s')
    (if valid && (ty =? ICMPV4_ECHO_REQUEST)
     then [ip_header s (4 + zlen payload) PROTO_ICMPV4 src ++
           icmp_message 0 ICMPV4_ECHO_REPLY payload] else []) ∧ ip_ok s' k).
Proof.
  intros valid Hb He Hc Hh Hlen Hsrc Hok. pose proof Hok as [Hnet Hid].
  unfold icmp_input_v4. rewrite Hh. run.
  rewrite compute_buffer_ones_comp_spec by (done || lia). run. rewrite Z.add_0_l.
  rewrite lxor_ffff_0 by (by apply (buffer_sum_range b 0)). fold valid.
  destruct valid; cbn [negb andb].
  - change (index ([ty; code; c0; c1] ++ r) 0) with (@Ok Z ty). do 3 run_step.
    pose proof (echo_runs (λ r, icmp_output_v4 r ICMPV4_ECHO_REPLY src) ty ICMPV4_ECHO_REQUEST
      (ip_header s (4 + zlen payload) PROTO_ICMPV4 src ++ icmp_message 0 ICMPV4_ECHO_REPLY payload)
      s k b [ty; code; c0; c1] payload) as Hecho.
    apply Hecho; try done. intros b' p k' Hb' He' Hc' Hn' Hok'. rewrite <-Hc'.
    assert (zlen (contents b') ≤ 65536) by (rewrite Hc'; rewrite Hc in Hlen; zlen_solve).
    call icmp_output_v4_runs; try done. intros _ s' [Hs ?]. split; [|done]. by destruct Hs.
  - run. call drop_buffer_runs; [done|apply Hnet|]. intros _ p Hp. split; [apply (sent_nil (netif s))|].
    split; [|done]. by eapply (net_ok_bufs (netif s)).
Qed.

Lemma icmp_input_v6_runs s k b src ty code c0 c1 payload r :
  let valid := ones_fold (icmpv6_sum src (LOCAL_IPV6 (netif s)) (zlen (contents b)) +
                          word_sum (contents b)) =? 0xffff in
  buf_ok b → even_layout b → contents b = [ty; code; c0; c1] ++ payload →
  header b = Ok ([ty; code; c0; c1] ++ r) → zlen (contents b) ≤ MRU → IPAddr_ok src →
  is_v4 src = false → ip_ok s (nfrags b + k) →
  runs (icmp_input_v6 b src) s (λ _ s', sent (netif s) (netif s')
    (if valid && (ty =? ICMPV6_ECHO_REQUEST)
     then [ip_header s (4 + zlen payload) PROTO_ICMPV6 src ++
           icmp_message (icmpv6_sum (LOCAL_IPV6 (netif s)) src (4 + zlen payload))
             ICMPV6_ECHO_REPLY payload] else []) ∧ ip_ok s' k).
Proof.
  intros valid Hb He Hc Hh Hlen Hsrc Hv Hok. pose proof Hok as [[Hpool H4 [H6 Hv6]] Hid].
  assert (is_u8 PROTO_ICMPV6) as Hpr by done.
  assert (is_u16 (icmpv6_sum src (LOCAL_IPV6 (netif s)) (zlen (contents b)))) as Hcu.
  { apply ones_fold_range, word_sum_bounds. by apply pseudo_header_bytes_ok. }
  unfold icmp_input_v6, get_ipaddr. run. change (view s) with (netif s). cbn [fst snd].
  change (update (netif s) s) with (s <| netif := netif s |>).
  assert (s <| netif := netif s |> = s) as -> by (by destruct s).
  rewrite buf_ok_len by done.
  rewrite compute_pseudo_header_checksum_spec by (done || by rewrite Hv6, Hv). run. rewrite Hh. run.
  change (ones_fold (word_sum (pseudo_header_bytes _ _ _ _))) with
    (icmpv6_sum src (LOCAL_IPV6 (netif s)) (zlen (contents b))).
  rewrite compute_buffer_ones_comp_spec by (done || lia). run.
  rewrite lxor_ffff_0 by (by apply buffer_sum_range). fold valid.
  destruct valid; cbn [negb andb].
  - change (index ([ty; code; c0; c1] ++ r) 0) with (@Ok Z ty). do 3 run_step.
    pose proof (echo_runs (λ r, icmp_output_v6 r ICMPV6_ECHO_REPLY src) ty ICMPV6_ECHO_REQUEST
      (ip_header s (4 + zlen payload) PROTO_ICMPV6 src ++
       icmp_message (icmpv6_sum (LOCAL_IPV6 (netif s)) src (4 + zlen payload))
         ICMPV6_ECHO_REPLY payload)
      s k b [ty; code; c0; c1] payload) as Hecho.
    apply Hecho; try done. intros b' p k' Hb' He' Hc' Hn' Hok'. rewrite <-Hc'.
    assert (zlen (contents b') ≤ 65536) by (rewrite Hc'; rewrite Hc in Hlen; zlen_solve).
    call icmp_output_v6_runs; try done. intros _ s' [Hs ?]. split; [|done]. by destruct Hs.
  - run. call drop_buffer_runs; [done|exact Hpool|]. intros _ p Hp. split; [apply (sent_nil (netif s))|].
    split; [|done]. eapply (net_ok_bufs (netif s)); [|done]. by destruct Hok.
Qed.

End Lemmas.

(** The version of the source address is not checked: an ICMPv6 message in an
    IPv4 packet stops the receive thread. *)
Lemma icmp_input_v6_from_v4 `{!Tun} s k b src :
  ip_ok s k → IPAddr_ok src → is_v4 src = true → icmp_input_v6 b src s = Panic.
Proof.
  intros [[_ _ [_ Hv6]] _] Hs Hv. unfold icmp_input_v6, get_ipaddr.
  unfold mbind, st_bind, zoom, fetches, lift. cbn [view ip_netif snd].
  by rewrite compute_pseudo_header_checksum_mixed.
Qed.
