(* ===== verification/Udp.v ===== *)
(** * udp.rs: the User Datagram Protocol

    A socket is a queue of received packets.  A [SocketReference] is the index
    of the socket in the list of all sockets; the mutex of a socket is held
    for the whole of an operation, so each operation is one step. *)

From S2P Require Import Prelude Util Buf BufSpec Checksum Netif Ip.
From stdpp Require Import gmap.
Local Open Scope Z_scope.

Abbreviation UDP_HEADER_LEN := 8.

Abbreviation SocketReference := nat.

(** * State *)

Record UDPSocketState : Type := {
  receive_queue : list (IPAddr * Z * NetBuffer);
  port : Z;
}.

#[export] Instance eta_UDPSocketState : Eta UDPSocketState := λ s,
  Build_UDPSocketState (receive_queue s) (port s).

Definition UDPSocketState_new (port : Z) : UDPSocketState :=
  {| receive_queue := []; port := port |}.

(** The port map, all sockets ever opened, and the condition variables that
    were notified, in order. *)
Record UdpState : Type := {
  ip : IpState;
  PORT_MAP : gmap Z SocketReference;
  sockets : list UDPSocketState;
  notified : list SocketReference;
}.

#[export] Instance eta_UdpState : Eta UdpState := λ s,
  Build_UdpState (ip s) (PORT_MAP s) (sockets s) (notified s).

#[export, program] Instance udp_ip : Lens UdpState IpState := {|
  view := ip;
  update i s := s <| ip := i |>;
|}.
Next Obligation. done. Qed.
Next Obligation. by intros []. Qed.
Next Obligation. done. Qed.

#[export] Instance udp_bufs : Lens UdpState BufState := lens_comp.

(** * Operations *)

Section Operations.
Context `{!Tun}.

Definition lock (socket_ref : SocketReference) : ST UdpState UDPSocketState :=
  s ← fetch;
  lift (unwrap (sockets s !! socket_ref)).

Definition put (socket_ref : SocketReference) (st : UDPSocketState) : ST UdpState unit :=
  modify (λ s, s <| sockets ::= λ l, <[socket_ref := st]> l |>).

(** [Err("Port already in use")] is [None]. *)
Definition udp_open (port : Z) : ST UdpState (option SocketReference) :=
  port_map ← fetches PORT_MAP;
  match port_map !! port with
  | Some _ => mret None
  | None =>
      socks ← fetches sockets;
      let socket_ref := length socks in
      modify (λ s, s <| sockets := socks ++ [UDPSocketState_new port] |>);;
      modify (λ s, s <| PORT_MAP := <[port := socket_ref]> port_map |>);;
      mret (Some socket_ref)
  end.

(** One turn of the loop of udp_recv; [None]: the caller waits for the socket
    to be notified and tries again.  Otherwise the result, the octets in the
    caller's slice, and the source address and port. *)
Definition udp_recv (socket_ref : SocketReference) (data : list Z)
    : ST UdpState (option (Z * list Z * IPAddr * Z)) :=
  guard ← lock socket_ref;
  match receive_queue guard with
  | [] => mret None
  | (source_addr, source_port, buf) :: rest =>
      put socket_ref (guard <| receive_queue := rest |>);;
      let len := NetBuffer_len buf in
      let copy_len := Z.min len (zlen data) in
      data ← lift (with_slice data 0 copy_len
                     (λ dest, '(_, dest) ← copy_to_slice buf dest; Ok dest));
      zoom (drop_buffer buf);;
      mret (Some (as_i32 copy_len, data, source_addr, source_port))
  end.

Definition udp_output (packet : NetBuffer) (dest_ip : IPAddr) (source_port dest_port : Z)
    : ST UdpState unit :=
  packet ← zoom (alloc_header UDP_HEADER_LEN packet);
  let length := truncate u16_size (NetBuffer_len packet) in
  packet ← lift (header_mut packet (λ header,
    header ← with_slice header 0 2 (set_be16 source_port);
    header ← with_slice header 2 4 (set_be16 dest_port);
    with_slice header 4 6 (set_be16 length)));
  addrs ← fetches (λ s, (LOCAL_IPV4 (netif (ip s)), LOCAL_IPV6 (netif (ip s))));
  ph_checksum ← lift (compute_pseudo_header_checksum
    (match dest_ip with V4 _ => addrs.1 | V6 _ => addrs.2 end) dest_ip length PROTO_UDP);
  sum ← lift (compute_buffer_ones_comp ph_checksum packet);
  let checksum := Z.lxor sum 0xffff in
  packet ← lift (header_mut packet (λ header, with_slice header 6 8 (set_be16 checksum)));
  zoom (ip_output packet PROTO_UDP dest_ip).

Definition udp_send (socket_ref : SocketReference) (dest_addr : IPAddr) (dest_port : Z)
    (data : list Z) : ST UdpState unit :=
  guard ← lock socket_ref;
  packet ← zoom (append_from_slice data NetBuffer_new);
  udp_output packet dest_addr (port guard) dest_port.

Definition udp_input (packet : NetBuffer) (source_addr : IPAddr) : ST UdpState unit :=
  hdr ← lift (header packet);
  source ← lift (slice hdr 0 2);
  source_port ← lift (get_be16 source);
  dest ← lift (slice hdr 2 4);
  dest_port ← lift (get_be16 dest);
  packet ← zoom (trim_head UDP_HEADER_LEN packet);
  port_map ← fetches PORT_MAP;
  match port_map !! dest_port with
  | None => zoom (drop_buffer packet)
  | Some socket =>
      guard ← lock socket;
      put socket (guard <| receive_queue ::= λ q, q ++ [(source_addr, source_port, packet)] |>);;
      modify (λ s, s <| notified ::= λ l, l ++ [socket] |>)
  end.

End Operations.

(** * Datagrams as bytes *)

Definition udp_header (source_port dest_port length checksum : Z) : list Z :=
  be16 source_port ++ be16 dest_port ++ be16 length ++ be16 checksum.

(** The initial sum: the pseudo header of a datagram of [length] octets. *)
Definition udp_sum (source_ip dest_ip : IPAddr) (length : Z) : Z :=
  ones_fold (word_sum (pseudo_header_bytes source_ip dest_ip length PROTO_UDP)).

Definition udp_checksum (c source_port dest_port length : Z) (payload : list Z) : Z :=
  Z.lxor (ones_fold (c + word_sum (udp_header source_port dest_port length 0 ++ payload))) 0xffff.

(** The datagram with the checksum that makes the sum 0xffff. *)
Definition udp_datagram (c source_port dest_port length : Z) (payload : list Z) : list Z :=
  udp_header source_port dest_port length (udp_checksum c source_port dest_port length payload) ++
  payload.

(** * Invariant *)

Definition entry_frags (e : IPAddr * Z * NetBuffer) : Z := nfrags e.2.

Definition sum_Z (l : list Z) : Z := foldr Z.add 0 l.

(** The fragments in the receive queues. *)
Definition queue_frags (q : list (IPAddr * Z * NetBuffer)) : Z := sum_Z (map entry_frags q).
Definition queued (l : list UDPSocketState) : Z :=
  sum_Z (map (λ st, queue_frags (receive_queue st)) l).

(** The bound is that of a packet that was received. *)
Definition entry_ok (e : IPAddr * Z * NetBuffer) : Prop :=
  IPAddr_ok e.1.1 ∧ is_u16 e.1.2 ∧ buf_ok e.2 ∧ zlen (contents e.2) ≤ MRU.

Definition socket_ok (st : UDPSocketState) : Prop :=
  is_u16 (port st) ∧ Forall entry_ok (receive_queue st).

(** Sockets and ports correspond, and every fragment that is not in the pool is
    in a receive queue or is one of [k] others. *)
Record udp_ok (s : UdpState) (k : Z) : Prop := {
  udp_net : ip_ok (ip s) (queued (sockets s) + k);
  udp_sockets : Forall socket_ok (sockets s);
  udp_ports : ∀ p h, PORT_MAP s !! p = Some h ↔ port <$> sockets s !! h = Some p;
}.

(** * Lemmas *)

Lemma sum_Z_app l k : sum_Z (l ++ k) = sum_Z l + sum_Z k.
Proof. induction l as [|x l IH]; simpl; [done|]. rewrite IH. lia. Qed.

Lemma queue_frags_app q q' : queue_frags (q ++ q') = queue_frags q + queue_frags q'.
Proof. unfold queue_frags. by rewrite map_app, sum_Z_app. Qed.

Lemma queued_insert l h st st' :
  l !! h = Some st →
  queued (<[h := st']> l) =
    queued l - queue_frags (receive_queue st) + queue_frags (receive_queue st').
Proof.
  intros Hl. apply take_drop_middle in Hl as Hm. assert (h < length l)%nat as Hlt.
  { by eapply lookup_lt_Some. }
  rewrite insert_take_drop by done. rewrite <-Hm at 3. unfold queued.
  rewrite !map_app, !sum_Z_app. simpl. lia.
Qed.

Lemma udp_header_bytes_ok sp dp len ck :
  is_u16 sp → is_u16 dp → is_u16 len → is_u16 ck → bytes_ok (udp_header sp dp len ck).
Proof. intros. unfold udp_header. rewrite !bytes_ok_app. auto using be16_bytes. Qed.

Lemma udp_checksum_range c sp dp len payload :
  0 ≤ c → is_u16 sp → is_u16 dp → is_u16 len → bytes_ok payload →
  is_u16 (udp_checksum c sp dp len payload).
Proof.
  intros Hc Hs Hd Hl Hp. unfold udp_checksum.
  assert (bytes_ok (udp_header sp dp len 0 ++ payload)) as Hb.
  { apply bytes_ok_app. split; [by apply udp_header_bytes_ok|done]. }
  pose proof (word_sum_bounds _ Hb).
  pose proof (ones_fold_range (c + word_sum (udp_header sp dp len 0 ++ payload)) ltac:(lia)) as Hr.
  rewrite lxor_ffff by done. unfold in_range in *. lia.
Qed.

Lemma udp_datagram_checks c sp dp len payload :
  0 ≤ c → is_u16 sp → is_u16 dp → is_u16 len → bytes_ok payload →
  ones_fold (c + word_sum (udp_datagram c sp dp len payload)) = 0xffff.
Proof.
  intros Hc Hs Hd Hl Hp. unfold udp_datagram, udp_header. rewrite <-!app_assoc.
  rewrite (app_assoc (be16 dp)), (app_assoc (be16 sp)).
  eapply (checksum_closes c (be16 sp ++ be16 dp ++ be16 len) payload); [by exists 3|done| |].
  - rewrite !bytes_ok_app. split_and!; auto using be16_bytes. bytes_solve.
  - by rewrite <-!app_assoc.
Qed.

(** ** Operations *)

Definition local_addr (s : NetState) (dest_ip : IPAddr) : IPAddr :=
  match dest_ip with V4 _ => LOCAL_IPV4 s | V6 _ => LOCAL_IPV6 s end.

(** The frame that carries a payload from a local port to a remote one. *)
Definition udp_frame (s : IpState) (dest_ip : IPAddr) (source_port dest_port : Z)
    (payload : list Z) : list Z :=
  let length := truncate u16_size (8 + zlen payload) in
  ip_header s (8 + zlen payload) PROTO_UDP dest_ip ++
  udp_datagram (udp_sum (local_addr (netif s) dest_ip) dest_ip length)
    source_port dest_port length payload.

Section Lemmas.
Context `{!Tun}.

Lemma socket_lock_runs h s st (Q : UDPSocketState → UdpState → Prop) :
  sockets s !! h = Some st → Q st s → runs (lock h) s Q.
Proof. intros Hl HQ. unfold lock. run. by rewrite Hl. Qed.

Lemma udp_open_runs s k p :
  udp_ok s k → is_u16 p →
  runs (udp_open p) s (λ r s', udp_ok s' k ∧
    match r with
    | Some h => PORT_MAP s !! p = None ∧ h = length (sockets s) ∧
        s' = s <| sockets := sockets s ++ [UDPSocketState_new p] |>
               <| PORT_MAP := <[p := h]> (PORT_MAP s) |>
    | None => is_Some (PORT_MAP s !! p) ∧ s' = s
    end).
Proof.
  intros Hok Hp. pose proof Hok as [Hnet Hs Hpm]. unfold udp_open. run.
  destruct (PORT_MAP s !! p) as [h|] eqn:Hl; run; [by eauto|].
  split; [|done]. split; cbn.
  - unfold queued. rewrite map_app, sum_Z_app. simpl.
    change (queue_frags []) with 0. by rewrite Z.add_0_r.
  - apply Forall_app. split; [done|]. constructor; [|constructor]. by split; cbn.
  - intros q h. destruct (decide (p = q)) as [->|Hne].
    + rewrite lookup_insert_eq. split.
      * intros [= <-]. by rewrite list_lookup_middle.
      * intros Hq. f_equal. destruct (decide (h < length (sockets s))%nat).
        -- rewrite lookup_app_l in Hq by done. apply Hpm in Hq. congruence.
        -- rewrite lookup_app_r in Hq by lia. destruct (h - length (sockets s))%nat eqn:E; [lia|done].
    + rewrite lookup_insert_ne, Hpm by done. destruct (decide (h < length (sockets s))%nat).
      * by rewrite lookup_app_l.
      * rewrite lookup_app_r, (lookup_ge_None_2 (sockets s)) by lia.
        destruct (h - length (sockets s))%nat; cbn; naive_solver.
Qed.

(** Replacing a socket's queue, the number of fragments in use being the same. *)
Lemma udp_ok_put s k0 k h st q n l :
  udp_ok s k0 → sockets s !! h = Some st → Forall entry_ok q →
  ip_ok n (queued (<[h := st <| receive_queue := q |>]> (sockets s)) + k) →
  udp_ok (s <| ip := n |>
    <| sockets ::= λ l, <[h := st <| receive_queue := q |>]> l |> <| notified := l |>) k.
Proof.
  intros [_ Hs Hpm] Hl Hq Hn. split; cbn; [done|..].
  - apply Forall_insert; [done|]. split; [|done]. by destruct (Forall_lookup_1 _ _ _ _ Hs Hl).
  - intros p h'. rewrite Hpm. destruct (decide (h = h')) as [<-|Hne].
    + rewrite list_lookup_insert_eq by (by eapply lookup_lt_Some). by rewrite Hl.
    + by rewrite list_lookup_insert_ne.
Qed.

Lemma udp_output_runs `{!TunOk} s k b dst sp dp :
  let i := ip s in
  buf_ok b → even_layout b → zlen (contents b) ≤ 65536 → nfrags b + 2 ≤ MAX_VECS →
  is_u16 sp → is_u16 dp → IPAddr_ok dst → ip_ok i (nfrags b + k) →
  runs (udp_output b dst sp dp) s (λ _ s', ∃ i', s' = s <| ip := i' |> ∧ ip_ok i' k ∧
    sent (netif i) (netif i') [udp_frame i dst sp dp (contents b)]).
Proof.
  intros i Hb He Hlen Hn Hsp Hdp Hd Hok. pose proof Hok as [[Hpool [H4 Hv4] [H6 Hv6]] Hid].
  unfold udp_output. run. call alloc_header_runs; [done|lia|lia|exact Hpool|].
  intros b' p (Hb' & Hc & (r & Hh) & Hn' & He' & Hp'). run.
  rewrite buf_ok_len, Hc by done. rewrite zlen_app, zlen_zeros by lia.
  set (len := truncate u16_size (8 + zlen (contents b))).
  assert (is_u16 len) as Hlu by (apply truncate_range; lia).
  pose proof (contents_ok b Hb) as Hbo. assert (is_u8 PROTO_UDP) as Hpr by done.
  assert (is_u16 0) as Hzero by done.
  destruct (header_mut_prefix b' (zeros 8) (udp_header sp dp len 0) r (contents b) (λ header,
    header ← with_slice header 0 2 (set_be16 sp);
    header ← with_slice header 2 4 (set_be16 dp);
    with_slice header 4 6 (set_be16 len))) as (b1 & -> & Hb1 & Hc1 & Hh1 & Hn1 & He1); try done.
  { change (zeros 8 ++ r) with (0 :: 0 :: 0 :: 0 :: 0 :: 0 :: 0 :: 0 :: r).
    seg_write ltac:(by apply set_be16_field). seg_write ltac:(by apply set_be16_field).
    seg_write ltac:(by apply set_be16_field). done. }
  { by apply udp_header_bytes_ok. }
  run. set (c := udp_sum (local_addr (netif i) dst) dst len).
  assert (IPAddr_ok (local_addr (netif i) dst) ∧ is_v4 (local_addr (netif i) dst) = is_v4 dst)
    as [Hlo Hlv] by (by destruct dst).
  assert (is_u16 c) as Hcu.
  { apply ones_fold_range, word_sum_bounds. by apply pseudo_header_bytes_ok. }
  change (match dst with V4 _ => _ | V6 _ => _ end) with (local_addr (netif i) dst).
  rewrite compute_pseudo_header_checksum_spec by done. run.
  change (ones_fold (word_sum (pseudo_header_bytes _ _ _ _))) with c.
  rewrite compute_buffer_ones_comp_spec, Hc1; [|done|by apply He1, He'; [exists 4|]|done|].
  2: { rewrite Hc1. unfold udp_header, be16. zlen_simpl. lia. }
  run. change (Z.lxor _ _) with (udp_checksum c sp dp len (contents b)).
  pose proof (udp_checksum_range c sp dp len (contents b) ltac:(apply Hcu) Hsp Hdp Hlu Hbo) as Hck.
  set (ck := udp_checksum _ _ _ _ _) in *.
  destruct (header_mut_prefix b1 (udp_header sp dp len 0) (udp_header sp dp len ck) r (contents b)
    (λ h, with_slice h 6 8 (set_be16 ck))) as (b2 & -> & Hb2 & Hc2 & _ & Hn2 & _); try done.
  { unfold udp_header, be16. cbn [app]. seg_write ltac:(by apply set_be16_field). done. }
  { by apply udp_header_bytes_ok. }
  run. assert (zlen (contents b2) = 8 + zlen (contents b)) as Hz.
  { rewrite Hc2. unfold udp_header, be16. zlen_simpl. lia. }
  call ip_output_runs; [done|lia|lia|done|done|split; [|done]|].
  - rewrite Hn2, Hn1. by eapply net_ok_bufs; [apply Hok|].
  - intros _ i' (Hsent & _ & Hok'). exists i'. split; [done|]. split; [done|].
    rewrite Hz, Hc2 in Hsent. by destruct Hsent.
Qed.

Lemma udp_send_runs `{!TunOk} s k h st dst dp data :
  udp_ok s k → sockets s !! h = Some st → is_u16 dp → IPAddr_ok dst → bytes_ok data →
  zlen data ≤ 3072 →
  runs (udp_send h dst dp data) s (λ _ s', udp_ok s' k ∧
    sent (netif (ip s)) (netif (ip s')) [udp_frame (ip s) dst (port st) dp data] ∧
    sockets s' = sockets s ∧ PORT_MAP s' = PORT_MAP s ∧ notified s' = notified s).
Proof.
  intros [[Hnet Hid] Hs Hpm] Hl Hdp Hd Hb Hlen. unfold udp_send.
  apply runs_bind. eapply socket_lock_runs; [exact Hl|]. run.
  call append_new_runs; [done|lia|apply Hnet|].
  intros b p (Hb' & Hc & Hdn & Hn & Hp').
  pose proof (Z.div_lt_upper_bound (zlen data + 511) 512 7 ltac:(lia) ltac:(lia)).
  pose proof (Forall_lookup_1 _ _ _ _ Hs Hl) as [Hport _].
  call udp_output_runs; [done|by apply dense_even|rewrite Hc; lia|lia|done|done|done| |].
  { split; [|exact Hid]. by eapply (net_ok_bufs (netif (ip s))). }
  intros _ s' (i' & -> & Hok' & Hsent). split_and!; [by split| |done..].
  rewrite Hc in Hsent. by destruct Hsent.
Qed.

Lemma udp_input_runs s k b src sp dp len ck payload r :
  buf_ok b → contents b = udp_header sp dp len ck ++ payload →
  header b = Ok (udp_header sp dp len ck ++ r) → zlen (contents b) ≤ MRU →
  is_u16 sp → is_u16 dp → IPAddr_ok src → udp_ok s (nfrags b + k) →
  runs (udp_input b src) s (λ _ s', udp_ok s' k ∧ PORT_MAP s' = PORT_MAP s ∧
    sent (netif (ip s)) (netif (ip s')) [] ∧
    match PORT_MAP s !! dp with
    | None => sockets s' = sockets s ∧ notified s' = notified s
    | Some h => ∃ st b', sockets s !! h = Some st ∧ contents b' = payload ∧
        sockets s' = <[h := st <| receive_queue ::= λ q, q ++ [(src, sp, b')] |>]> (sockets s) ∧
        notified s' = notified s ++ [h]
    end).
Proof.
  intros Hb Hc Hh Hlen Hsp Hdp Hsrc Hok. pose proof Hok as [[Hnet Hid] Hs Hpm].
  assert (zlen (udp_header sp dp len ck) = 8) as Hz by done.
  unfold udp_input. run. rewrite Hh. run.
  change (udp_header sp dp len ck ++ r) with
    ([] ++ be16 sp ++ be16 dp ++ be16 len ++ be16 ck ++ r).
  rewrite slice_split by done. run. rewrite <-(app_nil_r (be16 sp)), get_be16_be16 by done. run.
  change ([] ++ (be16 sp ++ []) ++ be16 dp ++ be16 len ++ be16 ck ++ r) with
    (be16 sp ++ be16 dp ++ (be16 len ++ be16 ck ++ r)).
  rewrite slice_split by done. run. rewrite <-(app_nil_r (be16 dp)), get_be16_be16 by done. run.
  call trim_head_runs; [done|rewrite Hc; zlen_solve| |].
  { eapply pool_ok_ext; [apply Hnet|].
    instantiate (1 := queued (sockets s) + k). lia. }
  intros b' p (Hb' & Hc' & Hn' & _ & Hp'). run.
  assert (contents b' = payload) as Hpl by (by rewrite Hc', Hc, drop_app_zlen).
  cbn [PORT_MAP view update udp_bufs udp_ip ip_bufs lens_comp set_field].
  destruct (PORT_MAP s !! dp) as [h|] eqn:Hl.
  - apply Hpm in Hl as Hst. destruct (sockets s !! h) as [st|] eqn:Hs'; [|done].
    apply runs_bind. eapply socket_lock_runs; [exact Hs'|]. unfold put. run.
    split_and!; [|done|by split; rewrite ?app_nil_r|by exists st, b'].
    eapply (udp_ok_put _ _ k h st (receive_queue st ++ [(src, sp, b')])
      ((ip s) <| netif := (netif (ip s)) <| bufs := p |> |>) _ Hok Hs').
    + apply Forall_app. split; [by destruct (Forall_lookup_1 _ _ _ _ Hs Hs')|].
      constructor; [|done]. split_and!; try done. cbn. rewrite Hpl.
      rewrite Hc in Hlen. zlen_solve.
    + rewrite (queued_insert _ _ st) by done. cbn [receive_queue set_field].
      rewrite queue_frags_app. split; [|done].
      eapply net_ok_bufs; [exact Hnet|]. eapply pool_ok_ext; [exact Hp'|].
      change (queue_frags [(src, sp, b')]) with (nfrags b' + 0). lia.
  - run. call drop_buffer_runs; [done|exact Hp'|]. intros _ p' Hpp.
    split_and!; [|done|by split; cbn; rewrite ?app_nil_r|done..].
    split; [|done..]. split; [|done]. by eapply (net_ok_bufs (netif (ip s))).
Qed.

Lemma udp_recv_wait s h st data :
  sockets s !! h = Some st → receive_queue st = [] →
  runs (udp_recv h data) s (λ r s', r = None ∧ s' = s).
Proof.
  intros Hl Hq. unfold udp_recv. apply runs_bind. eapply socket_lock_runs; [exact Hl|].
  rewrite Hq. by run.
Qed.

Lemma udp_recv_runs s k h st data src sp b rest :
  udp_ok s k → sockets s !! h = Some st → receive_queue st = (src, sp, b) :: rest →
  let n := Z.min (zlen (contents b)) (zlen data) in
  runs (udp_recv h data) s (λ r s',
    r = Some (n, take (Z.to_nat n) (contents b) ++ drop (Z.to_nat n) data, src, sp) ∧
    udp_ok s' k ∧ sockets s' = <[h := st <| receive_queue := rest |>]> (sockets s) ∧
    PORT_MAP s' = PORT_MAP s ∧ notified s' = notified s ∧
    sent (netif (ip s)) (netif (ip s')) []).
Proof.
  intros Hok Hl Hq n. pose proof Hok as [[Hnet Hid] Hs Hpm].
  destruct (Forall_lookup_1 _ _ _ _ Hs Hl) as [Hport Hents]. rewrite Hq in Hents.
  apply Forall_cons_iff in Hents as [(Hsrc & Hsp & Hb & Hlen) Hrest]. cbn in Hsrc, Hsp, Hb, Hlen.
  unfold udp_recv. apply runs_bind. eapply socket_lock_runs; [exact Hl|]. rewrite Hq. unfold put. run.
  rewrite buf_ok_len by done. fold n.
  pose proof (zlen_nonneg (contents b)). pose proof (zlen_nonneg data).
  assert (0 ≤ n ≤ zlen data ∧ n ≤ zlen (contents b)) as [Hn1 Hn2] by lia.
  erewrite with_slice_Ok; [|lia|lia|].
  2: { rewrite copy_to_slice_spec by (done || lia). rewrite zlen_sub by lia.
       replace (Z.min (n - 0) (zlen (contents b))) with n by lia. cbn [mbind outcome_bind].
       rewrite (drop_ge (sub data 0 n)) by (unfold sub; rewrite length_take; lia).
       by rewrite app_nil_r. }
  run. assert (queued (sockets s) = nfrags b +
    queued (<[h := st <| receive_queue := rest |>]> (sockets s))) as Hqd.
  { rewrite (queued_insert _ _ st) by done. cbn [receive_queue set_field]. rewrite Hq.
    change (queue_frags ((src, sp, b) :: rest)) with (nfrags b + queue_frags rest). lia. }
  call drop_buffer_runs; [done| |].
  { eapply pool_ok_ext; [apply Hnet|]. rewrite Hqd, <-Z.add_assoc. reflexivity. }
  intros _ p Hp. run. split_and!; [| |done..|by split; cbn; rewrite ?app_nil_r].
  - rewrite as_i32_small by lia. do 4 f_equal. unfold overwrite. change (Z.to_nat 0) with O.
    rewrite take_0, app_nil_l. f_equal. f_equal. rewrite length_take. unfold zlen in *. lia.
  - split; cbn.
    + split; [|done]. by eapply net_ok_bufs.
    + apply Forall_insert; [done|]. by split.
    + intros q h'. rewrite Hpm. destruct (decide (h = h')) as [<-|Hne].
      * rewrite list_lookup_insert_eq by (by eapply lookup_lt_Some). by rewrite Hl.
      * by rewrite list_lookup_insert_ne.
Qed.

(** A datagram that is shorter than its header. *)
Lemma udp_input_short s b src h :
  buf_ok b → header b = Ok h → bytes_ok h → 4 ≤ zlen h → zlen (contents b) < UDP_HEADER_LEN →
  udp_input b src s = Panic.
Proof.
  intros Hb Hh Hho H4 Hlen.
  destruct h as [|b0 [|b1 [|b2 [|b3 h]]]]; [zlen_solve..|].
  unfold bytes_ok in Hho. rewrite !Forall_cons_iff in Hho. destruct_and! Hho.
  unfold udp_input. rewrite Hh. erewrite bind_Ok by by apply lift_Ok.
  change (slice (b0 :: b1 :: b2 :: b3 :: h) 0 2) with
    (slice ([] ++ [b0; b1] ++ (b2 :: b3 :: h)) 0 2).
  rewrite slice_split by done. erewrite bind_Ok by by apply lift_Ok.
  erewrite bind_Ok by (apply lift_Ok; by apply get_be16_cons).
  change (slice (b0 :: b1 :: b2 :: b3 :: h) 2 4) with (slice ([b0; b1] ++ [b2; b3] ++ h) 2 4).
  rewrite slice_split by done. erewrite bind_Ok by by apply lift_Ok.
  erewrite bind_Ok by (apply lift_Ok; by apply get_be16_cons).
  apply bind_Panic. unfold zoom. rewrite trim_head_too_much; [done|].
  by rewrite buf_ok_len.
Qed.

End Lemmas.
