(* ===== verification/Reassembler.v ===== *)
(** * tcp.rs: the reassembler

    Segments that arrive in order are passed on together with those that wait
    for them; the others are kept in a list. *)

From S2P Require Import Prelude Util Buf BufSpec.
Local Open Scope Z_scope.

(** * Operations *)

Record TCPReassembler : Type := {
  next_sequence : Z;
  out_of_order : list (Z * NetBuffer);
}.

#[export] Instance eta_TCPReassembler : Eta TCPReassembler := λ r,
  Build_TCPReassembler (next_sequence r) (out_of_order r).

Definition TCPReassembler_new : TCPReassembler := {| next_sequence := 0; out_of_order := [] |}.

Definition set_next_expect (seq_num : Z) (self : TCPReassembler) : TCPReassembler :=
  self <| next_sequence := seq_num |>.

Definition get_next_expect (self : TCPReassembler) : Z := next_sequence self.

(** [seq.wrapping_add(packet.len() as u32)] *)
Definition advance (seq : Z) (packet : NetBuffer) : Z :=
  u32_wrapping_add seq (truncate u32_size (NetBuffer_len packet)).

(** [while i < self.out_of_order.len() { ... }]: the state and the packet. *)
Fixpoint reassemble_loop (fuel : nat) (seq_num : Z) (i : nat) (self : TCPReassembler)
    (packet : NetBuffer) : ST BufState (TCPReassembler * NetBuffer) :=
  match fuel with
  | O => out_of_fuel
  | S fuel =>
      match out_of_order self !! i with
      | None => mret (self, packet)
      | Some (seq, ooo_packet) =>
          if seq_gt seq_num seq then
            drop_buffer ooo_packet;;
            reassemble_loop fuel seq_num i (self <| out_of_order ::= delete i |>) packet
          else if seq =? next_sequence self then
            let self := self <| out_of_order ::= delete i |>
                             <| next_sequence := advance (next_sequence self) ooo_packet |> in
            packet ← lift (append_buffer ooo_packet packet);
            reassemble_loop fuel seq_num 0 self packet
          else reassemble_loop fuel seq_num (S i) self packet
      end
  end.

Definition add_packet (packet : NetBuffer) (seq_num : Z) (self : TCPReassembler)
    : ST BufState (TCPReassembler * option NetBuffer) :=
  if seq_num =? next_sequence self then
    let self := self <| next_sequence := advance (next_sequence self) packet |> in
    let n := S (length (out_of_order self)) in
    '(self, packet) ← reassemble_loop (n * n) seq_num 0 self packet;
    mret (self, Some packet)
  else mret (self <| out_of_order ::= λ l, l ++ [(seq_num, packet)] |>, None).

(** * Invariant *)

(** The fragments held. *)
Definition ooo_frags (l : list (Z * NetBuffer)) : Z :=
  foldr (λ e n, nfrags e.2 + n) 0 l.

(** [bytes] are those of the stream from offset [off] on. *)
Definition at_offset (stream : Z → Z) (off : Z) (bytes : list Z) : Prop :=
  bytes = map stream (seqZ off (zlen bytes)).

(** A stored segment belongs to the stream, at an offset less than half the
    sequence space away from [base]. *)
Definition segment_ok (stream : Z → Z) (base : Z) (e : Z * NetBuffer) : Prop :=
  buf_ok e.2 ∧ ∃ off, e.1 = off mod u32_size ∧ at_offset stream off (contents e.2) ∧
    base - 2147483648 < off ∧ off + zlen (contents e.2) < base + 2147483648.

(** Everything before offset [next] of the stream has been passed on. *)
Record reassembler_ok (stream : Z → Z) (next : Z) (r : TCPReassembler) : Prop := {
  reasm_next : next_sequence r = next mod u32_size;
  reasm_ooo : Forall (segment_ok stream next) (out_of_order r);
}.

(** * Lemmas *)

Lemma at_offset_app stream off l k :
  at_offset stream off l → at_offset stream (off + zlen l) k → at_offset stream off (l ++ k).
Proof.
  unfold at_offset. intros Hl Hk. rewrite zlen_app, seqZ_app, map_app by apply zlen_nonneg.
  by rewrite <-Hl, <-Hk.
Qed.

Lemma at_offset_split stream off l n :
  at_offset stream off l → 0 ≤ n ≤ zlen l →
  at_offset stream off (take (Z.to_nat n) l) ∧ at_offset stream (off + n) (drop (Z.to_nat n) l).
Proof.
  intros Hl Hn. unfold at_offset in *. rewrite zlen_take, zlen_drop, Z2Nat.id by lia.
  rewrite Z.min_l, Z.max_r by lia. assert (zlen l = n + (zlen l - n)) as E by lia.
  rewrite E, seqZ_app, map_app in Hl by lia.
  assert (length (map stream (seqZ off n)) = Z.to_nat n) as Hlen
    by (by rewrite length_map, length_seqZ).
  rewrite Hl at 1 2. by rewrite <-Hlen, take_app_length, drop_app_length.
Qed.

Lemma at_offset_eq stream off l l' :
  at_offset stream off l → at_offset stream off l' → zlen l = zlen l' → l = l'.
Proof. unfold at_offset. intros Hl Hl' Hz. etrans; [exact Hl|]. by rewrite Hz. Qed.

Lemma at_offset_prefix stream off l l' :
  at_offset stream off l → at_offset stream off l' → zlen l ≤ zlen l' → l `prefix_of` l'.
Proof.
  intros Hl Hl' Hz. pose proof (zlen_nonneg l).
  destruct (at_offset_split stream off l' (zlen l) Hl' ltac:(lia)) as [H1 _].
  exists (drop (Z.to_nat (zlen l)) l'). rewrite <-(take_drop (Z.to_nat (zlen l)) l') at 1. f_equal.
  apply (at_offset_eq stream off); [done|done|]. rewrite zlen_take. lia.
Qed.

Lemma ooo_frags_delete l i e :
  l !! i = Some e → ooo_frags l = nfrags e.2 + ooo_frags (delete i l).
Proof.
  revert i. induction l as [|x l IH]; intros [|i] H; simplify_eq/=; [done|].
  rewrite (IH i H). lia.
Qed.

Lemma ooo_frags_app l k : ooo_frags (l ++ k) = ooo_frags l + ooo_frags k.
Proof. induction l as [|x l IH]; simpl; [done|]. rewrite IH. lia. Qed.

Lemma advance_mod off b :
  buf_ok b → advance (off mod u32_size) b = (off + zlen (contents b)) mod u32_size.
Proof.
  intros Hb. unfold advance, wrapping_add, truncate. rewrite buf_ok_len by done.
  by rewrite <-Zplus_mod.
Qed.

(** Equal sequence numbers of offsets less than 2^32 apart. *)
Lemma seq_eq_offset a b :
  a mod u32_size = b mod u32_size → -u32_size < a - b < u32_size → a = b.
Proof.
  intros Hm Hd. pose proof (Z.div_mod a u32_size ltac:(lia)).
  pose proof (Z.div_mod b u32_size ltac:(lia)). nia.
Qed.


Lemma take_delete {A} (l : list A) i : take i (delete i l) = take i l.
Proof.
  rewrite delete_take_drop. destruct (decide (i ≤ length l)%nat).
  - apply take_app_length'. rewrite length_take. lia.
  - rewrite (drop_ge l) by lia. rewrite app_nil_r. by rewrite take_take, Nat.min_id.
Qed.

(** Sequence numbers of offsets less than half the space apart. *)
Lemma seq_gt_offset a b :
  -2147483648 < a - b < 2147483648 → seq_gt (a mod u32_size) (b mod u32_size) = (b <? a).
Proof.
  intros Hd. apply eq_true_iff_eq. rewrite seq_gt_spec, Z.ltb_lt, <-Zminus_mod.
  destruct (decide (b <= a)).
  - rewrite Z.mod_small by lia. lia.
  - rewrite <-(Z.mod_add _ 1), Z.mod_small by lia. lia.
Qed.

(** A stored segment that the loop leaves alone. *)
Definition kept (seq_num next_seq : Z) (e : Z * NetBuffer) : Prop :=
  seq_gt seq_num e.1 = false ∧ e.1 ≠ next_seq.

(** The segment [e] is still in the list [l], or it starts before [base] (and may
    have been dropped, whatever it holds), or it ends before [next]. *)
Definition accounted (base next : Z) (l : list (Z * NetBuffer)) (e : Z * NetBuffer) : Prop :=
  e ∈ l ∨ ∀ off, e.1 = off mod u32_size → base - 2147483648 < off < base + 2147483648 →
    off < base ∨ off + zlen (contents e.2) ≤ next.

(** How a segment at [off] changes the list of kept segments from [l] to [l']
    and the next octet expected from [next] to [next']. *)
Record reassembled (off : Z) (b : NetBuffer) (next next' : Z) (l l' : list (Z * NetBuffer)) : Prop := {
  rsm_sub : l' ⊆ (off mod u32_size, b) :: l;
  rsm_accounted : ∀ e, e ∈ (off mod u32_size, b) :: l → accounted next next' l' e;
  rsm_end : next' = next ∨ ∃ e, e ∈ (off mod u32_size, b) :: l ∧
    e.1 = (next' - zlen (contents e.2)) mod u32_size;
  rsm_fresh : Forall (λ e, e.1 ≠ next mod u32_size) l → Forall (λ e, e.1 ≠ next' mod u32_size) l';
}.

Lemma delete_lookup_elem {A} (l : list A) i x e :
  l !! i = Some x → e ∈ l → e = x ∨ e ∈ delete i l.
Proof.
  intros Hx He. rewrite (delete_Permutation _ _ _ Hx) in He. by apply elem_of_cons in He.
Qed.

(** The loop passes on a longer part of the stream: [base] is the offset of the
    packet, [next] the one after it. *)
Lemma reassemble_loop_runs stream base k fuel s next i r b :
  Forall (segment_ok stream base) (out_of_order r) →
  next_sequence r = next mod u32_size →
  buf_ok b → at_offset stream base (contents b) → next = base + zlen (contents b) →
  next < base + 2147483648 →
  Forall (kept (base mod u32_size) (next_sequence r)) (take i (out_of_order r)) →
  (∃ n, length (out_of_order r) ≤ n ∧
    length (out_of_order r) * S n + (length (out_of_order r) - i) < fuel)%nat →
  pool_ok s (nfrags b + ooo_frags (out_of_order r) + k) →
  runs (reassemble_loop fuel (base mod u32_size) i r b) s (λ p s', ∃ next',
    Forall (segment_ok stream base) (out_of_order p.1) ∧
    next_sequence p.1 = next' mod u32_size ∧
    buf_ok p.2 ∧ at_offset stream base (contents p.2) ∧ next' = base + zlen (contents p.2) ∧
    next ≤ next' < base + 2147483648 ∧
    Forall (kept (base mod u32_size) (next_sequence p.1)) (out_of_order p.1) ∧
    sublist (out_of_order p.1) (out_of_order r) ∧
    (∀ e, e ∈ out_of_order r → accounted base next' (out_of_order p.1) e) ∧
    (next' = next ∨ ∃ e, e ∈ out_of_order r ∧ e.1 = (next' - zlen (contents e.2)) mod u32_size) ∧
    pool_ok s' (nfrags p.2 + ooo_frags (out_of_order p.1) + k)).
Proof.
  revert s next i r b. induction fuel as [|fuel IH]; intros s next i r b Hooo Hnx Hb Hat Hn Hlt Hkept
    (n & Hle & Hfuel) Hp; [lia|].
  simpl. destruct (out_of_order r !! i) as [[seq p]|] eqn:Hi.
  2: { run. exists next. apply lookup_ge_None in Hi. rewrite take_ge in Hkept by lia.
       split_and!; try done; try lia; by left. }
  pose proof (lookup_lt_Some _ _ _ Hi) as Hlen.
  pose proof (Forall_lookup_1 _ _ _ _ Hooo Hi) as (Hpb & off & Hoff & Hpat & Hlo & Hhi).
  cbn [fst snd] in Hpb, Hoff, Hpat, Hlo, Hhi. pose proof (ooo_frags_delete _ _ _ Hi) as Hfr.
  cbn [fst snd] in Hfr. pose proof (zlen_nonneg (contents p)). pose proof (zlen_nonneg (contents b)).
  assert (length (delete i (out_of_order r)) = (length (out_of_order r) - 1)%nat) as Hdl.
  { apply length_delete. by rewrite Hi. }
  assert (length (out_of_order r) * S n =
    S n + (length (out_of_order r) - 1) * S n)%nat as Hmul by nia.
  destruct (seq_gt (base mod u32_size) seq) eqn:Hgt; [|destruct (Z.eqb_spec seq (next_sequence r)) as [Heq|Hne]].
  - run. call (drop_buffer_runs _ (nfrags b + ooo_frags (delete i (out_of_order r)) + k)); [done| |].
    { eapply pool_ok_ext; [exact Hp|]. lia. }
    intros _ s' Hp'.
    call (IH s' next i (r <| out_of_order ::= delete i |>)); try done.
    + by apply Forall_delete.
    + cbn. by rewrite take_delete.
    + exists n. cbn. rewrite Hdl. lia.
    + intros [r' b'] s2 (next' & H1 & H2 & H3 & H4 & H5 & H6 & H7 & H8 & Hacc & Hend & H9).
      exists next'. split_and!; try done; try lia; [etrans; [exact H8|]; cbn; apply sublist_delete| |].
      2: { destruct Hend as [?|(e & He & ?)]; [by left|right]. exists e. split; [|done].
           eapply elem_of_sublist; [exact He|apply sublist_delete]. }
      intros e He. destruct (delete_lookup_elem _ _ _ _ Hi He) as [->|?]; [|by apply Hacc].
      right. intros o Ho Hor. left. cbn in Ho. rewrite Ho, seq_gt_offset in Hgt by lia.
      by apply Z.ltb_lt.
  - assert (off = next) as ->.
    { apply seq_eq_offset; [|lia]. by rewrite <-Hoff, Heq, Hnx. }
    destruct (append_buffer_spec p b) as (b' & Eb & Hb' & Hcb & Hnb); [done|done|lia|].
    run. rewrite Eb. run.
    assert (at_offset stream base (contents b')) as Hat'.
    { rewrite Hcb. apply at_offset_app; [done|]. by rewrite <-Hn. }
    call (IH s (next + zlen (contents p)) 0%nat); try done.
    + by apply Forall_delete.
    + cbn. rewrite Hnx. by apply advance_mod.
    + rewrite Hcb, zlen_app. lia.
    + exists n. cbn. rewrite Hdl. lia.
    + eapply pool_ok_ext; [exact Hp|]. cbn [out_of_order]. unfold set_field. cbn [out_of_order]. lia.
    + intros [r' b2] s2 (next' & H1 & H2 & H3 & H4 & H5 & H6 & H7 & H8 & Hacc & Hend & H9).
      exists next'. split_and!; try done; try lia; [etrans; [exact H8|]; cbn; apply sublist_delete| |].
      2: { right. destruct Hend as [->|(e & He & ?)]; [exists (seq, p)|exists e; split; [|done]].
           - cbn. split; [by eapply list_elem_of_lookup_2|]. rewrite Heq, Hnx. f_equal. lia.
           - eapply elem_of_sublist; [exact He|apply sublist_delete]. }
      intros e He. destruct (delete_lookup_elem _ _ _ _ Hi He) as [->|?]; [|by apply Hacc].
      right. intros o Ho Hor. right. cbn in Ho |- *.
      assert (o = next) as -> by (apply seq_eq_offset; [congruence|lia]). lia.
  - call (IH s next (S i) r); try done.
    + rewrite (take_S_r _ _ _ Hi). apply Forall_app. split; [done|].
      constructor; [|constructor]. by split.
    + exists n. lia.
Qed.

(** What [add_packet] promises: [o] is what it returns for a packet, [r'] the
    state after it. *)
Lemma add_packet_runs stream next s k r b off :
  reassembler_ok stream next r → buf_ok b → at_offset stream off (contents b) →
  next - 2147483648 < off → off + zlen (contents b) < next + 2147483648 →
  pool_ok s (nfrags b + ooo_frags (out_of_order r) + k) →
  runs (add_packet b (off mod u32_size) r) s (λ p s', ∃ next',
    reassembler_ok stream next' p.1 ∧ next ≤ next' < next + 2147483648 ∧
    reassembled off b next next' (out_of_order r) (out_of_order p.1) ∧
    match p.2 with
    | Some b' => off = next ∧ buf_ok b' ∧ at_offset stream next (contents b') ∧
        next' = next + zlen (contents b') ∧
        zlen (contents b) ≤ zlen (contents b') ∧
        Forall (λ e, e.1 ≠ next' mod u32_size) (out_of_order p.1) ∧
        pool_ok s' (nfrags b' + ooo_frags (out_of_order p.1) + k)
    | None => off ≠ next ∧ next' = next ∧
        out_of_order p.1 = out_of_order r ++ [(off mod u32_size, b)] ∧
        pool_ok s' (ooo_frags (out_of_order p.1) + k)
    end).
Proof.
  intros [Hnx Hooo] Hb Hat Hlo Hhi Hp. unfold add_packet. rewrite Hnx.
  destruct (Z.eqb_spec (off mod u32_size) (next mod u32_size)) as [Heq|Hne].
  - pose proof (zlen_nonneg (contents b)).
    assert (off = next) as -> by (apply seq_eq_offset; [done|lia]).
    run. call (reassemble_loop_runs stream next k _ s (next + zlen (contents b))); try done.
    + by apply advance_mod.
    + exists (length (out_of_order r)). cbn. nia.
    + intros [r' b'] s' (next' & H1 & H2 & H3 & H4 & H5 & H6 & H7 & H8 & Hacc & Hend & H9).
      run. cbn [fst snd] in *. exists next'. split; [|split; [lia|split]].
      * split; [done|]. apply Forall_forall. intros e He.
        rewrite Forall_forall in H1, H7. destruct (H1 e He) as (Hb1 & o & Ho & Hato & Hl & Hh).
        destruct (H7 e He) as [Hgt _]. pose proof (zlen_nonneg (contents e.2)).
        rewrite Ho, seq_gt_offset in Hgt by lia. apply Z.ltb_ge in Hgt.
        split; [done|]. exists o. split_and!; [done|done|lia|lia].
      * split.
        -- intros e He. apply elem_of_cons. right. by eapply elem_of_sublist.
        -- intros e [->|He]%elem_of_cons; [|by apply Hacc].
           right. cbn. intros o Ho Hor. right.
           assert (o = next) as -> by (apply seq_eq_offset; [done|lia]). lia.
        -- right. destruct Hend as [->|(e & He & ?)]; [|exists e; by rewrite elem_of_cons; auto].
           exists (next mod u32_size, b). cbn. split; [by left|]. f_equal. lia.
        -- intros _. rewrite <-H2. eapply Forall_impl; [exact H7|]. by intros e [_ ?].
      * split_and!; try done; [lia|]. rewrite <-H2. eapply Forall_impl; [exact H7|].
        by intros e [_ ?].
  - run. exists next. split; [|split; [lia|split]].
    + split; [done|]. apply Forall_app. split; [done|]. constructor; [|constructor].
      split; [done|]. exists off. split_and!; try done; lia.
    + split; cbn.
      * intros e. rewrite elem_of_app, list_elem_of_singleton, elem_of_cons. tauto.
      * intros e He. left. rewrite elem_of_app, list_elem_of_singleton.
        apply elem_of_cons in He as [?|?]; auto.
      * by left.
      * intros Hf. apply Forall_app. split; [done|]. by constructor.
    + split_and!; [by intros ->|done|done|]. cbn. rewrite ooo_frags_app. cbn.
      eapply pool_ok_ext; [exact Hp|]. lia.
Qed.
