(* ===== verification/Arrival.v ===== *)
(** * tcp.rs: the segments of a stream that have arrived

    The sender cuts a stretch of its stream into segments; they arrive in any
    order, some of them more than once.  What the reassembler keeps and passes
    on after each arrival, and that after the last one nothing is missing. *)

From S2P Require Import Prelude Util Buf BufSpec Reassembler.
Local Open Scope Z_scope.

(** A segment: the offset of its first octet in the stream, and its octets. *)
Abbreviation segment := (Z * list Z)%type.

(** The segments cover the stream from [off] to [last], one after the other. *)
Fixpoint consecutive (stream : Z → Z) (off : Z) (segs : list segment) (last : Z) : Prop :=
  match segs with
  | [] => off = last
  | (o, p) :: segs => o = off ∧ p ≠ [] ∧ at_offset stream off p ∧
      consecutive stream (off + zlen p) segs last
  end.

(** The kept segment [e] is the segment [x]. *)
Definition holds (e : Z * NetBuffer) (x : segment) : Prop :=
  e.1 = x.1 mod u32_size ∧ contents e.2 = x.2.

Lemma zlen_pos {A} (l : list A) : l ≠ [] → 0 < zlen l.
Proof. destruct l; [done|]. intros _. zlen_solve. Qed.

Lemma consecutive_le stream off segs last : consecutive stream off segs last → off ≤ last.
Proof.
  revert off. induction segs as [|[o p] segs IH]; intros off; cbn; [lia|].
  intros (-> & Hp & _ & H). apply IH in H. pose proof (zlen_nonneg p). lia.
Qed.

Lemma consecutive_at stream off segs last o p :
  consecutive stream off segs last → (o, p) ∈ segs →
  off ≤ o ∧ o + zlen p ≤ last ∧ p ≠ [] ∧ at_offset stream o p.
Proof.
  revert off. induction segs as [|[o' p'] segs IH]; intros off H Hin; [by apply elem_of_nil in Hin|].
  destruct H as (-> & Hp & Hat & H). apply elem_of_cons in Hin as [E|Hin].
  - injection E as -> ->. apply consecutive_le in H. split_and!; [lia|lia|done|done].
  - destruct (IH _ H Hin) as (? & ? & ? & ?). pose proof (zlen_nonneg p'). split_and!; [lia|lia|done|done].
Qed.

(** Segments do not overlap: one that starts before the end of another ends
    before it. *)
Lemma consecutive_disjoint stream off segs last o p o' p' :
  consecutive stream off segs last → (o, p) ∈ segs → (o', p') ∈ segs →
  o' < o + zlen p → o' + zlen p' ≤ o + zlen p.
Proof.
  revert off. induction segs as [|[a q] segs IH]; intros off H Hin Hin' Hlt; [by apply elem_of_nil in Hin|].
  destruct H as (-> & Hq & Hat & H). pose proof (zlen_nonneg q).
  apply elem_of_cons in Hin as [E|Hin]; apply elem_of_cons in Hin' as [E'|Hin'].
  - injection E as -> ->. injection E' as -> ->. lia.
  - injection E as -> ->. destruct (consecutive_at _ _ _ _ _ _ H Hin') as (? & _). lia.
  - injection E' as -> ->. destruct (consecutive_at _ _ _ _ _ _ H Hin) as (? & _).
    pose proof (zlen_nonneg p). lia.
  - by eapply IH.
Qed.

(** Every octet is in a segment. *)
Lemma consecutive_cover stream off segs last x :
  consecutive stream off segs last → off ≤ x < last →
  ∃ o p, (o, p) ∈ segs ∧ o ≤ x < o + zlen p.
Proof.
  revert off. induction segs as [|[a q] segs IH]; intros off H Hx; [cbn in H; lia|].
  destruct H as (-> & Hq & Hat & H). destruct (decide (x < off + zlen q)).
  - exists off, q. split; [by left|lia].
  - destruct (IH _ H ltac:(lia)) as (o & p & Hin & ?). exists o, p. split; [by right|done].
Qed.

Section Arrival.
Context (stream : Z → Z) (start last : Z) (segs : list segment).
Context (Hsegs : consecutive stream start segs last) (Hsize : last - start < 2147483648).

(** The segments [arrived] have arrived, the octets before [next] have been
    passed on, and the segments [l] are kept. *)
Record arrival (arrived : list segment) (next : Z) (l : list (Z * NetBuffer)) : Prop := {
  arr_sub : arrived ⊆ segs;
  arr_kept : ∀ e, e ∈ l → ∃ x, x ∈ segs ∧ holds e x;
  arr_all : ∀ x, x ∈ arrived → x.1 + zlen x.2 ≤ next ∨ ∃ e, e ∈ l ∧ holds e x;
  arr_next : next = start ∨ ∃ x, x ∈ segs ∧ next = x.1 + zlen x.2;
  arr_fresh : Forall (λ e, e.1 ≠ next mod u32_size) l;
}.

Lemma arrival_start : arrival [] start [].
Proof.
  split; [by intros x Hx%elem_of_nil| |by intros x Hx%elem_of_nil|by left|done].
  by intros e He%elem_of_nil.
Qed.

Lemma arrival_bounds arrived next l : arrival arrived next l → start ≤ next ≤ last.
Proof.
  intros [_ _ _ Hn _]. pose proof (consecutive_le _ _ _ _ Hsegs).
  destruct Hn as [->|([o p] & Hin & ->)]; [lia|].
  destruct (consecutive_at _ _ _ _ _ _ Hsegs Hin) as (? & ? & _). cbn. pose proof (zlen_nonneg p). lia.
Qed.

(** A segment that starts before the next octet expected ends before it. *)
Lemma arrival_boundary arrived next l o p :
  arrival arrived next l → (o, p) ∈ segs → o < next → o + zlen p ≤ next.
Proof.
  intros [_ _ _ Hn _] Hin Hlt. destruct (consecutive_at _ _ _ _ _ _ Hsegs Hin) as (? & _).
  destruct Hn as [->|([o' p'] & Hin' & ->)]; [lia|].
  exact (consecutive_disjoint _ _ _ _ _ _ _ _ Hsegs Hin' Hin Hlt).
Qed.

Lemma arrival_step arrived next l next' l' off b p :
  arrival arrived next l → (off, p) ∈ segs → contents b = p →
  next ≤ next' < next + 2147483648 → reassembled off b next next' l l' →
  arrival ((off, p) :: arrived) next' l'.
Proof.
  intros Harr Hin Hc Hnext [Hsub Hacc Hend Hfr].
  pose proof (arrival_bounds _ _ _ Harr) as Hb.
  assert (∀ e, e ∈ (off mod u32_size, b) :: l → ∃ x, x ∈ segs ∧ holds e x) as Hkept.
  { intros e [->|He]%elem_of_cons; [by exists (off, p)|by eapply arr_kept]. }
  assert (∀ e x, e ∈ (off mod u32_size, b) :: l → x ∈ segs → holds e x →
    x.1 + zlen x.2 ≤ next' ∨ ∃ e, e ∈ l' ∧ holds e x) as Hall.
  { intros e [o q] He Hx [H1 H2]. cbn in *. destruct (consecutive_at _ _ _ _ _ _ Hsegs Hx) as (? & ? & _).
    pose proof (zlen_nonneg q). destruct (Hacc e He) as [?|Ho]; [right; by exists e|left].
    destruct (Ho o H1 ltac:(lia)) as [Hlt|?]; [|by rewrite H2 in *].
    pose proof (arrival_boundary _ _ _ _ _ Harr Hx Hlt). lia. }
  split.
  - intros x [->|Hx]%elem_of_cons; [done|by eapply arr_sub].
  - intros e He. by apply Hkept, Hsub.
  - intros x [->|Hx]%elem_of_cons; [eapply Hall; [by left|done|done]|].
    destruct (arr_all _ _ _ Harr x Hx) as [?|(e & He & Hh)]; [left; lia|].
    eapply Hall; [right; exact He|by eapply arr_sub|exact Hh].
  - destruct Hend as [->|(e & He & E)]; [apply Harr|right].
    destruct (Hkept e He) as ([o q] & Hx & H1 & H2). exists (o, q). split; [done|].
    cbn in *. destruct (consecutive_at _ _ _ _ _ _ Hsegs Hx) as (? & ? & _). pose proof (zlen_nonneg q).
    rewrite H1, H2 in E. apply seq_eq_offset in E; lia.
  - apply Hfr, Harr.
Qed.

(** Once all segments have arrived, everything has been passed on. *)
Lemma arrival_complete arrived next l :
  arrival arrived next l → segs ⊆ arrived → next = last.
Proof.
  intros Harr Hsub. pose proof (arrival_bounds _ _ _ Harr) as Hb.
  destruct (decide (next = last)) as [|Hne]; [done|exfalso].
  destruct (consecutive_cover _ _ _ _ next Hsegs ltac:(lia)) as (o & p & Hin & Ho).
  destruct (arr_all _ _ _ Harr (o, p) (Hsub _ Hin)) as [?|(e & He & H1 & _)]; cbn in *; [lia|].
  destruct (decide (o = next)) as [->|].
  - pose proof (arr_fresh _ _ _ Harr) as Hf. rewrite Forall_forall in Hf. by apply (Hf e He).
  - pose proof (arrival_boundary _ _ _ _ _ Harr Hin ltac:(lia)). lia.
Qed.

End Arrival.
