(* ===== verification/TcpOptions.v ===== *)
(** * tcp.rs: the options of a TCP header

    The only option the code looks at is the maximum segment size. *)

From S2P Require Import Prelude Util.
Local Open Scope Z_scope.

(** * Operations *)

Record TCPHeaderOptions : Type := { max_segment_size : Z }.

(** [while opt_offset < header.len() { ... }] *)
Fixpoint parse_loop (fuel : nat) (header : list Z) (opt_offset : Z) (options : TCPHeaderOptions)
    : outcome TCPHeaderOptions :=
  match fuel with
  | O => OutOfFuel
  | S fuel =>
      if opt_offset <? zlen header then
        option_type ← index header opt_offset;
        if option_type =? 0 then Ok options
        else if option_type =? 1 then parse_loop fuel header (opt_offset + 1) options
        else
          option_length ← index header (opt_offset + 1);
          if option_type =? 0 then Ok options
          else
            options ← (if option_type =? 2 then
                         field ← slice header (opt_offset + 2) (opt_offset + 4);
                         mss ← get_be16 field;
                         Ok {| max_segment_size := mss |}
                       else Ok options);
            parse_loop fuel header (opt_offset + option_length) options
      else Ok options
  end.

(** Each turn but those on an option of length 0 moves on: as many turns as
    there are octets are enough for all others. *)
Definition parse_options (header : list Z) : outcome TCPHeaderOptions :=
  parse_loop (S (length header)) header 0 {| max_segment_size := 0 |}.

(** * Options as bytes *)

Inductive tcp_option : Type :=
| Nop
| MaxSegmentSize (mss : Z)
| OtherOption (kind : Z) (payload : list Z).

Definition encode_option (o : tcp_option) : list Z :=
  match o with
  | Nop => [1]
  | MaxSegmentSize mss => [2; 4] ++ be16 mss
  | OtherOption kind payload => [kind; 2 + zlen payload] ++ payload
  end.

Definition encode_options (l : list tcp_option) : list Z := concat (map encode_option l).

Definition option_ok (o : tcp_option) : Prop :=
  match o with
  | Nop => True
  | MaxSegmentSize mss => is_u16 mss
  | OtherOption kind payload => 2 < kind < 256
  end.

(** The maximum segment size in force after the options, [mss] before. *)
Definition last_mss (mss : Z) (l : list tcp_option) : Z :=
  foldl (λ m o, match o with MaxSegmentSize v => v | _ => m end) mss l.

(** The end of the options: nothing, or an end-of-list octet and anything. *)
Definition padding_ok (l : list Z) : Prop := l = [] ∨ ∃ rest, l = 0 :: rest.

(** * Lemmas *)

Lemma parse_loop_end fuel pre pad m :
  padding_ok pad →
  parse_loop (S fuel) (pre ++ pad) (zlen pre) {| max_segment_size := m |} =
    Ok {| max_segment_size := m |}.
Proof.
  intros [->|[rest ->]]; cbn [parse_loop].
  - by rewrite app_nil_r, (proj2 (Z.ltb_ge _ _)) by lia.
  - rewrite (proj2 (Z.ltb_lt _ _)) by zlen_solve. by rewrite (index_split pre _ _ (zlen pre)).
Qed.

Lemma parse_loop_step fuel pre o rest m :
  option_ok o →
  parse_loop (S fuel) (pre ++ encode_option o ++ rest) (zlen pre) {| max_segment_size := m |} =
    parse_loop fuel ((pre ++ encode_option o) ++ rest) (zlen (pre ++ encode_option o))
      {| max_segment_size := last_mss m [o] |}.
Proof.
  intros Ho. rewrite <-app_assoc, zlen_app. cbn [parse_loop].
  rewrite (proj2 (Z.ltb_lt _ _)).
  2: { rewrite !zlen_app. pose proof (zlen_nonneg rest).
       destruct o as [|v|kind payload]; cbn [encode_option]; zlen_solve. }
  destruct o as [|v|kind payload]; cbn [encode_option option_ok] in Ho |- *.
  - cbn [app]. by rewrite (index_split pre _ _ (zlen pre)).
  - cbn [app]. rewrite (index_split pre _ _ (zlen pre)) by done. cbn [mbind outcome_bind Z.eqb Pos.eqb].
    replace (pre ++ 2 :: 4 :: be16 v ++ rest) with ((pre ++ [2]) ++ 4 :: be16 v ++ rest) at 1
      by (by rewrite <-app_assoc).
    rewrite index_split by zlen_solve. cbn [mbind outcome_bind].
    replace (pre ++ 2 :: 4 :: be16 v ++ rest) with ((pre ++ [2; 4]) ++ be16 v ++ rest) at 1
      by (by rewrite <-app_assoc).
    rewrite slice_split by (zlen_simpl; unfold be16; zlen_simpl; lia). cbn [mbind outcome_bind].
    rewrite <-(app_nil_r (be16 v)) at 1. rewrite get_be16_be16 by done. done.
  - cbn [app]. rewrite (index_split pre _ _ (zlen pre)) by done. cbn [mbind outcome_bind].
    rewrite !(proj2 (Z.eqb_neq kind _)) by lia.
    replace (pre ++ kind :: 2 + zlen payload :: payload ++ rest) with
      ((pre ++ [kind]) ++ (2 + zlen payload) :: payload ++ rest) at 1 by (by rewrite <-app_assoc).
    rewrite index_split by zlen_solve. cbn [mbind outcome_bind]. f_equal. zlen_simpl. lia.
Qed.

Lemma parse_loop_options fuel pre l pad m :
  Forall option_ok l → padding_ok pad → (length l < fuel)%nat →
  parse_loop fuel (pre ++ encode_options l ++ pad) (zlen pre) {| max_segment_size := m |} =
    Ok {| max_segment_size := last_mss m l |}.
Proof.
  intros Hl Hpad. revert fuel pre m. induction Hl as [|o l Ho Hl IH]; intros [|fuel] pre m Hf;
    cbn [length] in Hf; try lia.
  - by apply parse_loop_end.
  - change (encode_options (o :: l)) with (encode_option o ++ encode_options l).
    rewrite <-app_assoc, parse_loop_step by done. by rewrite IH by lia.
Qed.

Lemma encode_options_length l : (length l ≤ length (encode_options l))%nat.
Proof.
  induction l as [|o l IH]; [done|].
  change (encode_options (o :: l)) with (encode_option o ++ encode_options l).
  rewrite length_app. cbn [length]. destruct o; cbn; lia.
Qed.

(** An option whose length octet is 0 is read again and again. *)
Lemma parse_loop_diverges fuel pre kind rest m :
  2 < kind → parse_loop fuel (pre ++ kind :: 0 :: rest) (zlen pre) {| max_segment_size := m |} = OutOfFuel.
Proof.
  intros Hk. induction fuel as [|fuel IH]; [done|]. cbn [parse_loop].
  rewrite (proj2 (Z.ltb_lt _ _)) by zlen_solve.
  rewrite (index_split pre _ _ (zlen pre)) by done. cbn [mbind outcome_bind].
  rewrite !(proj2 (Z.eqb_neq kind _)) by lia.
  replace (pre ++ kind :: 0 :: rest) with ((pre ++ [kind]) ++ 0 :: rest) at 1
    by (by rewrite <-app_assoc).
  rewrite index_split by zlen_solve. cbn [mbind outcome_bind]. by rewrite Z.add_0_r.
Qed.
