(* ===== verification/Tcp.v ===== *)
(** * tcp.rs: connections

    The socket table, the connection state machine and its timers.  A
    [SocketReference] (an [Arc]) is an index into the list of all sockets.  An
    operation locks a socket for as long as it works on it: it takes the
    socket's state out with [lock], passes it on as the value [guard], and
    puts it back with [unlock].  An operation that would wait for the socket's
    condition variable returns instead and is resumed by its next step. *)

From S2P Require Import Prelude Util Buf BufSpec Checksum Timer Netif Ip Reassembler TcpOptions.
From stdpp Require Import gmap strings.
Local Open Scope Z_scope.

Abbreviation EPHEMERAL_PORT_BASE := 49152.
Abbreviation RETRANSMIT_INTERVAL := 1000.
Abbreviation MAX_ACK_DELAY := 500.
Abbreviation MAX_DELAYED_ACKS := 5.
Abbreviation RESPONSE_TIMEOUT := 3000.
Abbreviation TIME_WAIT_TIMEOUT := 5000.
Abbreviation DEFAULT_TCP_MSS := 536.
Abbreviation MAX_RECEIVE_WINDOW := 0xffff.
Abbreviation MAX_RETRIES := 5.
Abbreviation FLAG_FIN := 1.
Abbreviation FLAG_SYN := 2.
Abbreviation FLAG_RST := 4.
Abbreviation FLAG_PSH := 8.
Abbreviation FLAG_ACK := 16.
Abbreviation TCP_HEADER_LEN := 20.

(** * Data *)

Inductive TCPState : Type :=
| Closed | SynSent | Established | CloseWait | LastAck | FinWait1 | FinWait2
| Closing | TimeWait | Listen | SynReceived.

#[export] Instance TCPState_eq_dec : EqDecision TCPState.
Proof. solve_decision. Defined.

Abbreviation SocketReference := nat.

Record TCPSocketState : Type := {
  remote_ip : IPAddr;
  remote_port : Z;
  local_port : Z;
  state : TCPState;
  receive_next_seq : Z;
  receive_queue : NetBuffer;
  reassembler : TCPReassembler;
  delayed_ack_timer_id : Z;
  num_delayed_acks : Z;
  send_unacked : Z;
  send_next_seq : Z;
  send_window : Z;
  send_last_win_seq : Z;
  send_last_win_ack : Z;
  send_mss : Z;
  retransmit_queue : NetBuffer;
  retransmit_timer_id : Z;
  response_timer_id : Z;
  request_retry_count : Z;
  socket_queue : list SocketReference;
}.

#[export] Instance eta_TCPSocketState : Eta TCPSocketState := λ g,
  Build_TCPSocketState (remote_ip g) (remote_port g) (local_port g) (state g)
    (receive_next_seq g) (receive_queue g) (reassembler g) (delayed_ack_timer_id g)
    (num_delayed_acks g) (send_unacked g) (send_next_seq g) (send_window g)
    (send_last_win_seq g) (send_last_win_ack g) (send_mss g) (retransmit_queue g)
    (retransmit_timer_id g) (response_timer_id g) (request_retry_count g) (socket_queue g).

Record TCPSendParams : Type := {
  source_port : Z;
  dest_ip : IPAddr;
  dest_port : Z;
  seq_num : Z;
  ack_num : Z;
  flags : Z;
  window : Z;
  options : list Z;
}.

Abbreviation SocketKey := (IPAddr * Z * Z)%type.

(** What the closures given to [set_timer] do. *)
Inductive TimerAction : Type :=
| Retransmit (socket_ref : SocketReference)
| DelayedAck (socket_ref : SocketReference)
| ResponseTimeout (socket_ref : SocketReference)
| TimeWaitTimeout (socket_ref : SocketReference).

(** The random numbers the program draws: the [n]-th of each size. *)
Class Random : Type := {
  random_u16 : nat → Z;
  random_u32 : nat → Z;
}.

Class RandomOk `{!Random} : Prop := {
  random_u16_ok : ∀ n, is_u16 (random_u16 n);
  random_u32_ok : ∀ n, is_u32 (random_u32 n);
}.

Record TcpState : Type := {
  ip : IpState;
  PORT_MAP : gmap SocketKey SocketReference;
  sockets : list TCPSocketState;
  timers : TimerState TimerAction;
  notified : list SocketReference;
  random_drawn : nat;
}.

#[export] Instance eta_TcpState : Eta TcpState := λ s,
  Build_TcpState (ip s) (PORT_MAP s) (sockets s) (timers s) (notified s) (random_drawn s).

#[export, program] Instance tcp_ip : Lens TcpState IpState := {|
  view := ip;
  update i s := s <| ip := i |>;
|}.
Next Obligation. done. Qed.
Next Obligation. by intros []. Qed.
Next Obligation. done. Qed.

#[export] Instance tcp_bufs : Lens TcpState BufState := lens_comp.

#[export, program] Instance tcp_timers : Lens TcpState (TimerState TimerAction) := {|
  view := timers;
  update t s := s <| timers := t |>;
|}.
Next Obligation. done. Qed.
Next Obligation. by intros []. Qed.
Next Obligation. done. Qed.

Definition has_flag (flags flag : Z) : bool := negb (Z.land flags flag =? 0).

(** * Segments *)

Section Operations.
Context `{!Tun, !Random}.

Definition flags_to_str (flags : Z) : string :=
  String.append (if has_flag flags FLAG_FIN then "F" else "")
  (String.append (if has_flag flags FLAG_SYN then "S" else "")
  (String.append (if has_flag flags FLAG_RST then "R" else "")
  (String.append (if has_flag flags FLAG_PSH then "P" else "")
                 (if has_flag flags FLAG_ACK then "A" else "")))).

(** The header fields tcp_output stores; the checksum comes later. *)
Definition write_tcp_header (params : TCPSendParams) (header_length : Z) (header : list Z)
    : outcome (list Z) :=
  header ← with_slice header 0 2 (set_be16 (source_port params));
  header ← with_slice header 2 4 (set_be16 (dest_port params));
  header ← with_slice header 4 8 (set_be32 (seq_num params));
  header ← with_slice header 8 12 (set_be32 (ack_num params));
  header ← store header 12 (truncate u8_size (Z.shiftl (header_length / 4) 4));
  header ← store header 13 (flags params);
  header ← with_slice header 14 16 (set_be16 (window params));
  if negb (zlen (options params) =? 0)
  then with_slice header 20 (20 + zlen (options params)) (λ dst, copy_from_slice dst (options params))
  else Ok header.

Definition tcp_output (packet : NetBuffer) (params : TCPSendParams) : ST IpState unit :=
  lift (rust_assert (zlen (options params) mod 4 =? 0));;
  let header_length := TCP_HEADER_LEN + zlen (options params) in
  packet ← zoom (alloc_header header_length packet);
  let packet_length := truncate u16_size (NetBuffer_len packet) in
  packet ← lift (header_mut packet (write_tcp_header params header_length));
  addrs ← zoom get_ipaddr;
  ph_checksum ← lift (compute_pseudo_header_checksum
    (match dest_ip params with V4 _ => addrs.1 | V6 _ => addrs.2 end)
    (dest_ip params) packet_length PROTO_TCP);
  sum ← lift (compute_buffer_ones_comp ph_checksum packet);
  let checksum := Z.lxor sum 0xffff in
  packet ← lift (header_mut packet (λ header, with_slice header 16 18 (set_be16 checksum)));
  ip_output packet PROTO_TCP (dest_ip params).

Definition validate_checksum (packet : NetBuffer) (source_ip : IPAddr) : ST IpState bool :=
  addrs ← zoom get_ipaddr;
  let dest_ip := match source_ip with V4 _ => addrs.1 | V6 _ => addrs.2 end in
  ph_checksum ← lift (compute_pseudo_header_checksum source_ip dest_ip
                        (NetBuffer_len packet) PROTO_TCP);
  sum ← lift (compute_buffer_ones_comp ph_checksum packet);
  mret (Z.lxor sum 0xffff =? 0).

(** * The state of one socket *)

Definition TCPSocketState_new (remote_ip : IPAddr) (remote_port local_port : Z)
    : ST TcpState TCPSocketState :=
  n ← fetches random_drawn;
  modify (λ s, s <| random_drawn := S n |>);;
  mret {|
    remote_ip := remote_ip;
    remote_port := remote_port;
    local_port := local_port;
    state := Closed;
    receive_next_seq := 0;
    receive_queue := NetBuffer_new;
    reassembler := TCPReassembler_new;
    delayed_ack_timer_id := -1;
    num_delayed_acks := 0;
    send_unacked := 0;
    send_next_seq := random_u32 n;
    send_window := 0;
    send_last_win_seq := 0;
    send_last_win_ack := 0;
    send_mss := DEFAULT_TCP_MSS;
    retransmit_queue := NetBuffer_new;
    retransmit_timer_id := -1;
    response_timer_id := -1;
    request_retry_count := 0;
    socket_queue := [];
  |}.

Definition set_state (new_state : TCPState) (self : TCPSocketState) : TCPSocketState :=
  self <| state := new_state |> <| request_retry_count := 0 |>.

Definition is_established (self : TCPSocketState) : bool :=
  negb (bool_decide (state self = Closed ∨ state self = SynSent ∨ state self = TimeWait)).

Definition is_state (self : TCPSocketState) (st : TCPState) : bool := bool_decide (state self = st).

(** A received FIN is acknowledged once all data before it has been. *)
Definition acks_fin (self : TCPSocketState) : bool :=
  (is_state self FinWait1 || is_state self FinWait2 || is_state self Closing ||
   is_state self CloseWait) &&
  (receive_next_seq self =? get_next_expect (reassembler self)).

Definition send_packet (self : TCPSocketState) (packet : NetBuffer) (flags : Z) : ST TcpState unit :=
  receive_window ← lift (checked_sub MAX_RECEIVE_WINDOW
                           (truncate u16_size (NetBuffer_len (receive_queue self))));
  ack_seq ← lift (u32_add (get_next_expect (reassembler self)) (if acks_fin self then 1 else 0));
  let options := if has_flag flags FLAG_SYN then [2; 4; 0x5; 0xdc] else [] in
  zoom (tcp_output packet {|
    source_port := local_port self;
    dest_ip := remote_ip self;
    dest_port := remote_port self;
    seq_num := send_next_seq self;
    ack_num := ack_seq;
    flags := flags;
    window := receive_window;
    options := options;
  |}).

(** * Sockets and the port map *)

Definition lock (socket_ref : SocketReference) : ST TcpState TCPSocketState :=
  socks ← fetches sockets;
  lift (unwrap (socks !! socket_ref)).

Definition unlock (socket_ref : SocketReference) (guard : TCPSocketState) : ST TcpState unit :=
  modify (λ s, s <| sockets ::= λ l, <[socket_ref := guard]> l |>).

(** [Arc::new] *)
Definition new_socket (st : TCPSocketState) : ST TcpState SocketReference :=
  socks ← fetches sockets;
  modify (λ s, s <| sockets := socks ++ [st] |>);;
  mret (length socks).

Definition notify_all (socket_ref : SocketReference) : ST TcpState unit :=
  modify (λ s, s <| notified ::= λ l, l ++ [socket_ref] |>).

Definition port_map_insert (key : SocketKey) (socket_ref : SocketReference) : ST TcpState unit :=
  modify (λ s, s <| PORT_MAP ::= λ m, <[key := socket_ref]> m |>).

Definition port_map_remove (key : SocketKey) : ST TcpState unit :=
  modify (λ s, s <| PORT_MAP ::= delete key |>).

(** [loop { ... }] with [fuel] draws. *)
Fixpoint find_ephemeral_port (fuel : nat) (remote_ip : IPAddr) (remote_port : Z) : ST TcpState Z :=
  match fuel with
  | O => out_of_fuel
  | S fuel =>
      n ← fetches random_drawn;
      modify (λ s, s <| random_drawn := S n |>);;
      let RANGE := 0xffff - EPHEMERAL_PORT_BASE in
      let port := EPHEMERAL_PORT_BASE + random_u16 n mod RANGE in
      port_map ← fetches PORT_MAP;
      match port_map !! (remote_ip, remote_port, port) with
      | None => mret port
      | Some _ => find_ephemeral_port fuel remote_ip remote_port
      end
  end.

(** * Timers *)

Definition cancel_pending (timer_id : Z) : ST TcpState unit :=
  zoom (cancel_timer timer_id);; mret tt.

Definition set_response_timer (guard : TCPSocketState) (socket_ref : SocketReference)
    : ST TcpState TCPSocketState :=
  (if negb (response_timer_id guard =? -1) then cancel_pending (response_timer_id guard) else mret tt);;
  timer_id ← zoom (set_timer RESPONSE_TIMEOUT (ResponseTimeout socket_ref));
  mret (guard <| response_timer_id := timer_id |>).

Definition retransmit (socket_ref : SocketReference) : ST TcpState unit :=
  guard ← lock socket_ref;
  if is_state guard Closed then mret tt
  else
    zoom (modify (λ b : BufState, b <| METRICS ::=
      λ m, m <| packets_retransmitted ::= PerfCounter_inc |> |>));;
    if negb (is_empty (retransmit_queue guard)) then
      packet ← zoom (append_from_buffer (retransmit_queue guard) (send_mss guard) NetBuffer_new);
      send_packet guard packet (Z.lor FLAG_ACK FLAG_PSH);;
      timer_id ← zoom (set_timer RETRANSMIT_INTERVAL (Retransmit socket_ref));
      unlock socket_ref (guard <| retransmit_timer_id := timer_id |>)
    else mret tt.

(** The closure of the delayed acknowledgement timer. *)
Definition delayed_ack (socket_ref : SocketReference) : ST TcpState unit :=
  guard ← lock socket_ref;
  if is_state guard Closed then mret tt
  else
    send_packet guard NetBuffer_new FLAG_ACK;;
    unlock socket_ref (guard <| delayed_ack_timer_id := -1 |> <| num_delayed_acks := 0 |>).

(** [match guard.state { ... }] of response_timeout. *)
Definition resend_request (guard : TCPSocketState) (socket_ref : SocketReference)
    : ST TcpState TCPSocketState :=
  match state guard with
  | Closed | Established => mret guard
  | SynSent =>
      send_packet guard NetBuffer_new FLAG_SYN;;
      set_response_timer guard socket_ref
  | FinWait1 | LastAck =>
      send_packet guard NetBuffer_new FLAG_FIN;;
      set_response_timer guard socket_ref
  | Closing | CloseWait =>
      send_packet guard NetBuffer_new FLAG_ACK;;
      set_response_timer guard socket_ref
  | _ => panic
  end.

Definition response_timeout (socket_ref : SocketReference) : ST TcpState unit :=
  guard ← lock socket_ref;
  if MAX_RETRIES <=? request_retry_count guard then
    unlock socket_ref (set_state Closed guard);;
    notify_all socket_ref
  else
    guard ← resend_request guard socket_ref;
    guard ← set_response_timer guard socket_ref;
    unlock socket_ref guard.

Definition time_wait_timeout (socket_ref : SocketReference) : ST TcpState unit :=
  guard ← lock socket_ref;
  let guard := set_state Closed guard in
  unlock socket_ref guard;;
  port_map_remove (remote_ip guard, remote_port guard, local_port guard).

Definition run_timer (action : TimerAction) : ST TcpState unit :=
  match action with
  | Retransmit socket_ref => retransmit socket_ref
  | DelayedAck socket_ref => delayed_ack socket_ref
  | ResponseTimeout socket_ref => response_timeout socket_ref
  | TimeWaitTimeout socket_ref => time_wait_timeout socket_ref
  end.

(** * The interface to applications *)

(** tcp_open up to the first wait; [fuel] bounds the draws of a port. *)
Definition tcp_open (fuel : nat) (remote_ip : IPAddr) (remote_port : Z)
    : ST TcpState SocketReference :=
  local_port ← find_ephemeral_port fuel remote_ip remote_port;
  st ← TCPSocketState_new remote_ip remote_port local_port;
  socket_ref ← new_socket st;
  port_map_insert (remote_ip, remote_port, local_port) socket_ref;;
  guard ← lock socket_ref;
  let guard := set_state SynSent guard in
  send_packet guard NetBuffer_new FLAG_SYN;;
  guard ← set_response_timer guard socket_ref;
  unlock socket_ref guard;;
  mret socket_ref.

Inductive open_result : Type :=
| Connected
| ConnectionFailed
| StillWaiting.

(** One turn of the waiting loop of tcp_open, after the thread was woken. *)
Definition tcp_open_wake (socket_ref : SocketReference) : ST TcpState open_result :=
  guard ← lock socket_ref;
  mret (if is_state guard Closed then ConnectionFailed
        else if is_state guard Established then Connected else StillWaiting).

Definition tcp_close (socket_ref : SocketReference) : ST TcpState unit :=
  guard ← lock socket_ref;
  match state guard with
  | Listen =>
      unlock socket_ref (set_state Closed guard);;
      port_map_remove (IPAddr_new, 0, local_port guard)
  | Established =>
      send_packet guard NetBuffer_new (Z.lor FLAG_FIN FLAG_ACK);;
      guard ← set_response_timer guard socket_ref;
      unlock socket_ref (set_state FinWait1 guard)
  | CloseWait =>
      send_packet guard NetBuffer_new (Z.lor FLAG_FIN FLAG_ACK);;
      guard ← set_response_timer guard socket_ref;
      unlock socket_ref (set_state LastAck guard)
  | _ => mret tt
  end.

(** One turn of the loop of tcp_read: the result and the caller's slice;
    [None]: wait and try again. *)
Definition tcp_read (socket_ref : SocketReference) (data : list Z)
    : ST TcpState (option (Z * list Z)) :=
  guard ← lock socket_ref;
  if negb (is_state guard Established) && is_empty (receive_queue guard) then
    mret (Some (-1, data))
  else if negb (is_empty (receive_queue guard)) then
    '(got, data) ← lift (copy_to_slice (receive_queue guard) data);
    queue ← zoom (trim_head got (receive_queue guard));
    unlock socket_ref (guard <| receive_queue := queue |>);;
    mret (Some (as_i32 got, data))
  else mret None.

(** How tcp_write stops: with a result, or waiting for the window to open with
    the octets from [offset] on still to be sent. *)
Inductive write_result : Type :=
| Wrote (result : Z)
| WaitWindow (offset : Z).

(** One segment of tcp_write. *)
Definition write_segment (socket_ref : SocketReference) (guard : TCPSocketState) (packet_slice : list Z)
    : ST TcpState TCPSocketState :=
  packet ← zoom (append_from_slice packet_slice NetBuffer_new);
  send_packet guard packet (Z.lor FLAG_ACK FLAG_PSH);;
  let guard := guard <| send_next_seq ::= λ n,
    u32_wrapping_add n (truncate u32_size (zlen packet_slice)) |> in
  queue ← zoom (append_from_slice packet_slice (retransmit_queue guard));
  let guard := guard <| retransmit_queue := queue |> in
  if retransmit_timer_id guard =? -1 then
    timer_id ← zoom (set_timer RETRANSMIT_INTERVAL (Retransmit socket_ref));
    mret (guard <| retransmit_timer_id := timer_id |>)
  else mret guard.

Fixpoint write_loop (fuel : nat) (socket_ref : SocketReference) (guard : TCPSocketState)
    (data : list Z) (offset : Z) : ST TcpState (TCPSocketState * write_result) :=
  match fuel with
  | O => out_of_fuel
  | S fuel =>
      if offset <? zlen data then
        let packet_length := Z.min (zlen data - offset) (send_mss guard) in
        let max_segment := u32_wrapping_add (send_unacked guard) (send_window guard) in
        if seq_gt (u32_wrapping_add (send_next_seq guard) (truncate u32_size packet_length))
             max_segment
        then mret (guard, WaitWindow offset)
        else
          packet_slice ← lift (slice data offset (offset + packet_length));
          guard ← write_segment socket_ref guard packet_slice;
          write_loop fuel socket_ref guard data (offset + packet_length)
      else
        lift (rust_assert (offset =? zlen data));;
        mret (guard, Wrote (as_i32 (zlen data)))
  end.

(** tcp_write ([woken] is false), or its continuation at [offset] after the
    thread was woken.  A segment has at least one octet: [length data] turns
    are enough. *)
Definition tcp_write (woken : bool) (socket_ref : SocketReference) (data : list Z) (offset : Z)
    : ST TcpState write_result :=
  guard ← lock socket_ref;
  if is_state guard Closed then mret (Wrote (if woken then as_i32 offset else -1))
  else
    '(guard, result) ← write_loop (S (length data)) socket_ref guard data offset;
    unlock socket_ref guard;;
    mret result.

(** [Err("Port already in use")] is [None]. *)
Definition tcp_listen (port : Z) : ST TcpState (option SocketReference) :=
  st ← TCPSocketState_new IPAddr_new 0 port;
  socket_ref ← new_socket (set_state Listen st);
  port_map ← fetches PORT_MAP;
  match port_map !! (IPAddr_new, 0, port) with
  | Some _ => mret None
  | None => port_map_insert (IPAddr_new, 0, port) socket_ref;; mret (Some socket_ref)
  end.

(** [None]: wait for a connection. *)
Definition tcp_accept (socket_ref : SocketReference) : ST TcpState (option SocketReference) :=
  guard ← lock socket_ref;
  match socket_queue guard with
  | [] => mret None
  | new_socket :: rest =>
      unlock socket_ref (guard <| socket_queue := rest |>);;
      mret (Some new_socket)
  end.

(** * Segments that arrive *)

Definition handle_new_connection (listen_socket_ref : SocketReference) (source_ip : IPAddr)
    (source_port dest_port seq_num ack_num remote_window_size max_segment_size : Z)
    : ST TcpState SocketReference :=
  st ← TCPSocketState_new source_ip source_port dest_port;
  new_socket_ref ← new_socket st;
  guard ← lock new_socket_ref;
  let guard := guard <| remote_ip := source_ip |> <| remote_port := source_port |> in
  let guard := set_state SynReceived guard in
  let guard := guard <| send_mss := max_segment_size |>
                     <| receive_next_seq := u32_wrapping_add seq_num 1 |>
                     <| reassembler ::= set_next_expect (u32_wrapping_add seq_num 1) |> in
  send_packet guard NetBuffer_new (Z.lor FLAG_SYN FLAG_ACK);;
  let guard := guard <| send_unacked := seq_num |>
                     <| send_last_win_ack := ack_num |>
                     <| send_last_win_seq := seq_num |>
                     <| send_window := remote_window_size |> in
  guard ← set_response_timer guard new_socket_ref;
  unlock new_socket_ref guard;;
  guard ← lock listen_socket_ref;
  lift (rust_assert (is_state guard Listen));;
  unlock listen_socket_ref (guard <| socket_queue ::= λ q, q ++ [new_socket_ref] |>);;
  notify_all listen_socket_ref;;
  mret new_socket_ref.

(** The acknowledgement that received data calls for. *)
Definition acknowledge_data (socket_ref : SocketReference) (guard : TCPSocketState) (flags : Z)
    : ST TcpState TCPSocketState :=
  if is_state guard Established then
    acks ← lift (u32_add (num_delayed_acks guard) 1);
    let guard := guard <| num_delayed_acks := acks |> in
    if (MAX_DELAYED_ACKS <=? acks) || has_flag flags FLAG_FIN then
      let guard := guard <| num_delayed_acks := 0 |> in
      guard ← (if negb (delayed_ack_timer_id guard =? -1)
               then cancel_pending (delayed_ack_timer_id guard);;
                    mret (guard <| delayed_ack_timer_id := -1 |>)
               else mret guard : ST TcpState TCPSocketState);
      send_packet guard NetBuffer_new FLAG_ACK;;
      mret guard
    else if delayed_ack_timer_id guard =? -1 then
      timer_id ← zoom (set_timer MAX_ACK_DELAY (DelayedAck socket_ref));
      mret (guard <| delayed_ack_timer_id := timer_id |>)
    else mret guard
  else
    guard ← (if negb (delayed_ack_timer_id guard =? -1)
             then cancel_pending (delayed_ack_timer_id guard);;
                  mret (guard <| delayed_ack_timer_id := -1 |>)
             else mret guard : ST TcpState TCPSocketState);
    send_packet guard NetBuffer_new FLAG_ACK;;
    mret guard.

(** [if let Some(socketdata) = got { ... }] *)
Definition queue_data (socket_ref : SocketReference) (guard : TCPSocketState) (got : option NetBuffer)
    : ST TcpState TCPSocketState :=
  match got with
  | Some socketdata =>
      queue ← lift (append_buffer socketdata (receive_queue guard));
      notify_all socket_ref;;
      mret (guard <| receive_queue := queue |>)
  | None => mret guard
  end.

(** [if !packet.is_empty() { ... }] *)
Definition receive_data (socket_ref : SocketReference) (guard : TCPSocketState) (packet : NetBuffer)
    (seq_num flags : Z) : ST TcpState TCPSocketState :=
  let guard := guard <| receive_next_seq ::= λ r,
    wrapping_max r (u32_wrapping_add seq_num (truncate u32_size (NetBuffer_len packet))) |> in
  '(reasm, got) ← zoom (add_packet packet seq_num (reassembler guard));
  guard ← queue_data socket_ref (guard <| reassembler := reasm |>) got;
  acknowledge_data socket_ref guard flags.

(** [if (flags & FLAG_ACK) != 0 && guard.is_established() { ... }]: first the
    octets that are acknowledged, then the window. *)
Definition process_ack (guard : TCPSocketState) (ack_num : Z) : ST TcpState TCPSocketState :=
  if seq_lt (send_unacked guard) ack_num && seq_le ack_num (send_next_seq guard) then
    let trim := u32_wrapping_sub ack_num (send_unacked guard) in
    queue ← zoom (trim_head trim (retransmit_queue guard));
    let guard := guard <| retransmit_queue := queue |> in
    guard ← (if is_empty queue
             then cancel_pending (retransmit_timer_id guard);;
                  mret (guard <| retransmit_timer_id := -1 |>)
             else mret guard : ST TcpState TCPSocketState);
    mret (guard <| send_unacked := ack_num |>)
  else mret guard.

Definition update_window (socket_ref : SocketReference) (guard : TCPSocketState)
    (seq_num ack_num remote_window_size : Z) : ST TcpState TCPSocketState :=
  if seq_le (send_unacked guard) ack_num && seq_le ack_num (send_next_seq guard) &&
     (seq_lt (send_last_win_seq guard) seq_num ||
      ((send_last_win_seq guard =? seq_num) && seq_le (send_last_win_ack guard) ack_num))
  then
    notify_all socket_ref;;
    mret (guard <| send_window := remote_window_size |> <| send_last_win_seq := seq_num |>
                <| send_last_win_ack := ack_num |>)
  else mret guard.

(** [match guard.state { ... }] *)
Definition state_transition (socket_ref : SocketReference) (guard : TCPSocketState)
    (flags seq_num ack_num remote_window_size : Z) : ST TcpState TCPSocketState :=
  let ack := has_flag flags FLAG_ACK in
  let fin := has_flag flags FLAG_FIN in
  let enter_time_wait (guard : TCPSocketState) : ST TcpState TCPSocketState :=
    let guard := set_state TimeWait guard in
    zoom (set_timer TIME_WAIT_TIMEOUT (TimeWaitTimeout socket_ref));;
    mret guard in
  match state guard with
  | SynSent =>
      if ack then
        let guard := (set_state Established guard)
                       <| receive_next_seq := u32_wrapping_add seq_num 1 |>
                       <| reassembler ::= set_next_expect (u32_wrapping_add seq_num 1) |>
                       <| send_window := remote_window_size |>
                       <| send_last_win_seq := seq_num |>
                       <| send_last_win_ack := ack_num |>
                       <| send_unacked := ack_num |>
                       <| send_next_seq ::= λ n, u32_wrapping_add n 1 |> in
        send_packet guard NetBuffer_new FLAG_ACK;;
        guard ← set_response_timer guard socket_ref;
        notify_all socket_ref;;
        mret guard
      else mret guard
  | SynReceived =>
      if ack then
        mret ((set_state Established guard)
                <| send_next_seq ::= λ n, u32_wrapping_add n 1 |>
                <| send_unacked := ack_num |>)
      else mret guard
  | Established =>
      if fin then
        notify_all socket_ref;;
        mret (set_state CloseWait guard)
      else mret guard
  | LastAck => mret (if ack then set_state Closed guard else guard)
  | FinWait1 =>
      if ack && fin && (ack_num =? u32_wrapping_add (send_next_seq guard) 1) then
        enter_time_wait guard
      else if fin then
        let guard := set_state Closing guard in
        send_packet guard NetBuffer_new FLAG_ACK;;
        set_response_timer guard socket_ref
      else mret (if ack && (ack_num =? u32_wrapping_add (send_next_seq guard) 1)
                 then set_state FinWait2 guard else guard)
  | FinWait2 =>
      if fin then
        send_packet guard NetBuffer_new FLAG_ACK;;
        guard ← set_response_timer guard socket_ref;
        enter_time_wait guard
      else mret guard
  | Closing => if ack then enter_time_wait guard else mret guard
  | _ => mret guard
  end.

(** The fields tcp_input reads from the first fragment of a segment. *)
Record TCPHeader : Type := {
  h_source_port : Z;
  h_dest_port : Z;
  h_seq_num : Z;
  h_ack_num : Z;
  h_header_length : Z;
  h_window : Z;
  h_flags : Z;
}.

Definition decode_header (header : list Z) : outcome TCPHeader :=
  field ← slice header 0 2; source_port ← get_be16 field;
  field ← slice header 2 4; dest_port ← get_be16 field;
  field ← slice header 4 8; seq_num ← get_be32 field;
  field ← slice header 8 12; ack_num ← get_be32 field;
  offset ← index header 12;
  field ← slice header 14 16; remote_window_size ← get_be16 field;
  flags ← index header 13;
  Ok {|
    h_source_port := source_port;
    h_dest_port := dest_port;
    h_seq_num := seq_num;
    h_ack_num := ack_num;
    h_header_length := Z.shiftr offset 4 * 4;
    h_window := remote_window_size;
    h_flags := flags;
  |}.

(** A segment for no connection: it opens one with a listening socket, or is
    answered with a reset.  The packet is dropped at the end. *)
Definition input_no_socket (packet : NetBuffer) (source_ip : IPAddr) (h : TCPHeader)
    (options : TCPHeaderOptions) : ST TcpState unit :=
  port_map ← fetches PORT_MAP;
  (match port_map !! (IPAddr_new, 0, h_dest_port h), has_flag (h_flags h) FLAG_SYN with
   | Some listen_socket, true =>
       new_socket ← handle_new_connection listen_socket source_ip (h_source_port h)
         (h_dest_port h) (h_seq_num h) (h_ack_num h) (h_window h) (max_segment_size options);
       port_map_insert (source_ip, h_source_port h, h_dest_port h) new_socket
   | _, _ =>
       ack ← lift (u32_add (h_seq_num h) 1);
       zoom (tcp_output NetBuffer_new {|
         source_port := h_dest_port h;
         dest_ip := source_ip;
         dest_port := h_source_port h;
         seq_num := 1;
         ack_num := ack;
         flags := Z.lor FLAG_RST FLAG_ACK;
         window := 0;
         options := [];
       |})
   end : ST TcpState unit);;
  zoom (drop_buffer packet).

(** What every segment for a connection does first: it may carry a segment
    size, and it stops the response timer. *)
Definition segment_arrives (guard : TCPSocketState) (options : TCPHeaderOptions)
    : ST TcpState TCPSocketState :=
  let guard := if negb (max_segment_size options =? 0)
               then guard <| send_mss := max_segment_size options |> else guard in
  if negb (response_timer_id guard =? -1)
  then cancel_pending (response_timer_id guard);;
       mret (guard <| response_timer_id := -1 |>)
  else mret guard.

(** A segment for the connection [socket_ref]. *)
Definition input_socket (socket_ref : SocketReference) (packet : NetBuffer) (h : TCPHeader)
    (options : TCPHeaderOptions) : ST TcpState unit :=
  guard ← lock socket_ref;
  guard ← segment_arrives guard options;
  if has_flag (h_flags h) FLAG_RST then
    unlock socket_ref (set_state Closed guard);;
    notify_all socket_ref;;
    zoom (drop_buffer packet)
  else
    guard ← (if negb (is_empty packet)
             then receive_data socket_ref guard packet (h_seq_num h) (h_flags h)
             else mret guard : ST TcpState TCPSocketState);
    guard ← (if has_flag (h_flags h) FLAG_ACK && is_established guard
             then guard ← process_ack guard (h_ack_num h);
                  update_window socket_ref guard (h_seq_num h) (h_ack_num h) (h_window h)
             else mret guard : ST TcpState TCPSocketState);
    guard ← state_transition socket_ref guard (h_flags h) (h_seq_num h) (h_ack_num h) (h_window h);
    unlock socket_ref guard;;
    if is_empty packet then zoom (drop_buffer packet) else mret tt.

Definition tcp_input (packet : NetBuffer) (source_ip : IPAddr) : ST TcpState unit :=
  valid ← zoom (validate_checksum packet source_ip);
  if negb valid then zoom (drop_buffer packet)
  else
    let packet_length := NetBuffer_len packet in
    hdr ← lift (header packet);
    h ← lift (decode_header hdr);
    lift (checked_sub packet_length (h_header_length h));;
    opts ← lift (slice hdr TCP_HEADER_LEN (h_header_length h));
    options ← lift (parse_options opts);
    packet ← zoom (trim_head (h_header_length h) packet);
    port_map ← fetches PORT_MAP;
    match port_map !! (source_ip, h_source_port h, h_dest_port h) with
    | None => input_no_socket packet source_ip h options
    | Some socket_ref => input_socket socket_ref packet h options
    end.

End Operations.
