(* ===== verification/Stack.v ===== *)
(** * lib.rs: the whole stack

    The state of the program, the transport protocols as the IP layer calls
    them, and one turn of each of the two threads: the one that receives
    packets and the one that runs timers. *)

From S2P Require Import Prelude Util Buf BufSpec Timer Netif Ip Icmp.
From S2P Require Udp Tcp.
From stdpp Require Import gmap.
#[local] Existing Instance Tcp.tcp_timers.
Local Open Scope Z_scope.

(** * State *)

(** The statics of all files: those of the network interface and the IP layer,
    which the transport protocols share, and those of each protocol. *)
Record StackState : Type := {
  ip : IpState;
  udp_port_map : gmap Z nat;
  udp_sockets : list Udp.UDPSocketState;
  udp_notified : list nat;
  tcp_port_map : gmap (IPAddr * Z * Z) nat;
  tcp_sockets : list Tcp.TCPSocketState;
  tcp_timers : TimerState Tcp.TimerAction;
  tcp_notified : list nat;
  random_drawn : nat;
}.

#[export] Instance eta_StackState : Eta StackState := λ s,
  Build_StackState (ip s) (udp_port_map s) (udp_sockets s) (udp_notified s) (tcp_port_map s)
    (tcp_sockets s) (tcp_timers s) (tcp_notified s) (random_drawn s).

#[export, program] Instance stack_ip : Lens StackState IpState := {|
  view := ip;
  update i s := s <| ip := i |>;
|}.
Next Obligation. done. Qed.
Next Obligation. by intros []. Qed.
Next Obligation. done. Qed.

#[export] Instance stack_bufs : Lens StackState BufState := lens_comp.

#[export, program] Instance stack_udp : Lens StackState Udp.UdpState := {|
  view s := {| Udp.ip := ip s; Udp.PORT_MAP := udp_port_map s; Udp.sockets := udp_sockets s;
               Udp.notified := udp_notified s |};
  update u s := s <| ip := Udp.ip u |> <| udp_port_map := Udp.PORT_MAP u |>
                  <| udp_sockets := Udp.sockets u |> <| udp_notified := Udp.notified u |>;
|}.
Next Obligation. by intros [] ?. Qed.
Next Obligation. by intros []. Qed.
Next Obligation. done. Qed.

#[export, program] Instance stack_tcp : Lens StackState Tcp.TcpState := {|
  view s := {| Tcp.ip := ip s; Tcp.PORT_MAP := tcp_port_map s; Tcp.sockets := tcp_sockets s;
               Tcp.timers := tcp_timers s; Tcp.notified := tcp_notified s;
               Tcp.random_drawn := random_drawn s |};
  update t s := s <| ip := Tcp.ip t |> <| tcp_port_map := Tcp.PORT_MAP t |>
                  <| tcp_sockets := Tcp.sockets t |> <| tcp_timers := Tcp.timers t |>
                  <| tcp_notified := Tcp.notified t |> <| random_drawn := Tcp.random_drawn t |>;
|}.
Next Obligation. by intros [] ?. Qed.
Next Obligation. by intros []. Qed.
Next Obligation. done. Qed.

(** The program before anything runs, at the time [now]. *)
Definition StackState_init (now : Z) : StackState := {|
  ip := {| netif := NetState_init; NEXT_PACKET_ID := 0 |};
  udp_port_map := ∅;
  udp_sockets := [];
  udp_notified := [];
  tcp_port_map := ∅;
  tcp_sockets := [];
  tcp_timers := TimerState_init now;
  tcp_notified := [];
  random_drawn := O;
|}.

(** * The threads *)

Section Threads.
Context `{!Tun, !Tcp.Random}.

#[export] Instance stack_transport : Transport StackState := {|
  transport_icmp_v4 packet source_addr := zoom (icmp_input_v4 packet source_addr);
  transport_icmp_v6 packet source_addr := zoom (icmp_input_v6 packet source_addr);
  transport_tcp packet source_addr := zoom (Tcp.tcp_input packet source_addr);
  transport_udp packet source_addr := zoom (Udp.udp_input packet source_addr);
|}.

#[export] Instance stack_net : Lens StackState NetState := lens_comp.

(** [netif::init()]; the threads are the two steps below. *)
Definition init_netstack : ST StackState unit := zoom init.

(** One turn of the loop of packet_receive_thread. *)
Definition packet_receive_step : ST StackState unit :=
  packet ← zoom recv_packet;
  ip_input packet.

(** [n] turns of it. *)
Fixpoint packet_receive_thread (n : nat) : ST StackState unit :=
  match n with
  | O => mret tt
  | S n => packet_receive_step;; packet_receive_thread n
  end.

(** One turn of the loop of the timer thread. *)
Definition timer_step (fuel : nat) : ST StackState unit := zoom (tick Tcp.run_timer fuel).

End Threads.
