(* ===== verification/TcpSpec.v ===== *)
(** * tcp.rs: what its operations do

    Segments as bytes, the invariant of a socket and of the socket table, and
    the specifications of the operations on them. *)

From S2P Require Import Prelude Util Buf BufSpec Checksum Timer Netif Ip Reassembler TcpOptions Tcp.
From stdpp Require Import gmap.
Local Open Scope Z_scope.

(** * Segments as bytes *)

Definition data_offset (options : list Z) : Z := (20 + zlen options) / 4 * 16.

Definition tcp_header (p : TCPSendParams) (checksum : Z) : list Z :=
  be16 (source_port p) ++ be16 (dest_port p) ++ be32 (seq_num p) ++ be32 (ack_num p) ++
  [data_offset (options p); flags p] ++ be16 (window p) ++ be16 checksum ++ [0; 0] ++ options p.

Definition tcp_sum (source_ip dest_ip : IPAddr) (length : Z) : Z :=
  ones_fold (word_sum (pseudo_header_bytes source_ip dest_ip length PROTO_TCP)).

Definition tcp_checksum (c : Z) (p : TCPSendParams) (payload : list Z) : Z :=
  Z.lxor (ones_fold (c + word_sum (tcp_header p 0 ++ payload))) 0xffff.

(** The segment with the checksum that makes the sum 0xffff. *)
Definition tcp_segment (c : Z) (p : TCPSendParams) (payload : list Z) : list Z :=
  tcp_header p (tcp_checksum c p payload) ++ payload.

Definition local_addr (s : NetState) (dest_ip : IPAddr) : IPAddr :=
  match dest_ip with V4 _ => LOCAL_IPV4 s | V6 _ => LOCAL_IPV6 s end.

(** The frame of a segment, sent in the state [s]. *)
Definition tcp_frame (s : IpState) (p : TCPSendParams) (payload : list Z) : list Z :=
  let len := 20 + zlen (options p) + zlen payload in
  ip_header s len PROTO_TCP (dest_ip p) ++
  tcp_segment (tcp_sum (local_addr (netif s) (dest_ip p)) (dest_ip p) (truncate u16_size len))
    p payload.

(** [f] is a frame of the segment, with whatever packet id. *)
Definition is_frame (n : NetState) (p : TCPSendParams) (payload f : list Z) : Prop :=
  ∃ packet_id, is_u16 packet_id ∧ f = tcp_frame {| netif := n; NEXT_PACKET_ID := packet_id |} p payload.

Lemma tcp_frame_is_frame s k p payload :
  ip_ok s k → is_frame (netif s) p payload (tcp_frame s p payload).
Proof. intros [_ ?]. exists (NEXT_PACKET_ID s). by destruct s. Qed.

Lemma tcp_frame_ext (i j : IpState) p l :
  LOCAL_IPV4 (netif i) = LOCAL_IPV4 (netif j) → LOCAL_IPV6 (netif i) = LOCAL_IPV6 (netif j) →
  NEXT_PACKET_ID i = NEXT_PACKET_ID j → tcp_frame i p l = tcp_frame j p l.
Proof.
  intros H4 H6 Hid. unfold tcp_frame, ip_header, local_addr. by rewrite H4, H6, Hid.
Qed.

Lemma is_frame_sent n n' l p payload f :
  sent n n' l → is_frame n' p payload f → is_frame n p payload f.
Proof. intros [? ? ? ?] (i & ? & ->). exists i. split; [done|]. by apply tcp_frame_ext. Qed.

Record params_ok (p : TCPSendParams) : Prop := {
  p_source : is_u16 (source_port p);
  p_dest : is_u16 (dest_port p);
  p_seq : is_u32 (seq_num p);
  p_ack : is_u32 (ack_num p);
  p_flags : is_u8 (flags p);
  p_window : is_u16 (window p);
  p_options : bytes_ok (options p) ∧ zlen (options p) mod 4 = 0 ∧ zlen (options p) ≤ 40;
  p_ip : IPAddr_ok (dest_ip p);
}.

Lemma zlen_tcp_header p ck : zlen (tcp_header p ck) = 20 + zlen (options p).
Proof. unfold tcp_header, be16, be32. zlen_simpl. lia. Qed.

Lemma tcp_header_options p ck : ∃ fixed, zlen fixed = 20 ∧ tcp_header p ck = fixed ++ options p.
Proof.
  eexists (be16 (source_port p) ++ be16 (dest_port p) ++ be32 (seq_num p) ++ be32 (ack_num p) ++
    [data_offset (options p); flags p] ++ be16 (window p) ++ be16 ck ++ [0; 0]).
  split; [done|]. unfold tcp_header. by rewrite <-!app_assoc.
Qed.

Lemma data_offset_range o : zlen o mod 4 = 0 → zlen o ≤ 40 → is_u8 (data_offset o) ∧
  Z.shiftr (data_offset o) 4 * 4 = 20 + zlen o ∧
  truncate u8_size (Z.shiftl ((20 + zlen o) / 4) 4) = data_offset o.
Proof.
  intros Hm Hl. pose proof (zlen_nonneg o). pose proof (Z.div_mod (zlen o) 4 ltac:(lia)) as Hdm.
  rewrite Hm in Hdm. unfold data_offset.
  replace (20 + zlen o) with ((5 + zlen o / 4) * 4) by lia. rewrite Z.div_mul by lia.
  rewrite Z.shiftr_div_pow2, Z.shiftl_mul_pow2 by lia. change (2 ^ 4) with 16.
  rewrite Z.div_mul by lia. assert (0 ≤ zlen o / 4) by (apply Z.div_pos; lia).
  split_and!; [unfold in_range; lia|lia|]. apply truncate_id. unfold in_range. lia.
Qed.

Lemma tcp_header_bytes_ok p ck : params_ok p → is_u16 ck → bytes_ok (tcp_header p ck).
Proof.
  intros [? ? ? ? ? ? (? & Hm & Hl) ?] ?. destruct (data_offset_range _ Hm Hl) as (? & _).
  unfold tcp_header. rewrite !bytes_ok_app.
  split_and!; auto using be16_bytes, be32_bytes; bytes_solve.
Qed.

Lemma tcp_checksum_range c p payload :
  0 ≤ c → params_ok p → bytes_ok payload → is_u16 (tcp_checksum c p payload).
Proof.
  intros Hc Hp Hb. unfold tcp_checksum.
  assert (bytes_ok (tcp_header p 0 ++ payload)) as Hbo.
  { apply bytes_ok_app. split; [by apply tcp_header_bytes_ok|done]. }
  pose proof (word_sum_bounds _ Hbo).
  pose proof (ones_fold_range (c + word_sum (tcp_header p 0 ++ payload)) ltac:(lia)) as Hr.
  rewrite lxor_ffff by done. unfold in_range in *. lia.
Qed.

Lemma tcp_segment_checks c p payload :
  0 ≤ c → params_ok p → bytes_ok payload →
  ones_fold (c + word_sum (tcp_segment c p payload)) = 0xffff.
Proof.
  intros Hc Hp Hb. unfold tcp_segment.
  set (pre := be16 (source_port p) ++ be16 (dest_port p) ++ be32 (seq_num p) ++ be32 (ack_num p) ++
    [data_offset (options p); flags p] ++ be16 (window p)).
  assert (∀ ck, tcp_header p ck ++ payload = pre ++ be16 ck ++ ([0; 0] ++ options p ++ payload)) as Hs.
  { intros ck. unfold tcp_header, pre. by rewrite <-!app_assoc. }
  rewrite Hs. eapply (checksum_closes c pre); [by exists 8|done| |].
  - change [0; 0] with (be16 0) at 1. rewrite <-Hs. apply bytes_ok_app.
    split; [by apply tcp_header_bytes_ok|done].
  - unfold tcp_checksum. by rewrite Hs.
Qed.

Lemma zeros_app n m : 0 ≤ n → 0 ≤ m → zeros (n + m) = zeros n ++ zeros m.
Proof. intros. unfold zeros. by rewrite Z2Nat.inj_add, replicate_add by lia. Qed.

Lemma write_tcp_header_spec p k :
  params_ok p →
  write_tcp_header p (20 + zlen (options p)) (zeros (20 + zlen (options p)) ++ k) =
    Ok (tcp_header p 0 ++ k).
Proof.
  intros Hp. destruct (p_options p Hp) as (Hb & Hm & Hl). destruct Hp.
  destruct (data_offset_range _ Hm Hl) as (_ & _ & Hoff). pose proof (zlen_nonneg (options p)).
  rewrite zeros_app, <-app_assoc by lia. set (k' := zeros (zlen (options p)) ++ k).
  unfold write_tcp_header. rewrite Hoff.
  change (zeros 20 ++ k') with (0 :: 0 :: 0 :: 0 :: 0 :: 0 :: 0 :: 0 :: 0 :: 0 :: 0 :: 0 :: 0 ::
    0 :: 0 :: 0 :: 0 :: 0 :: 0 :: 0 :: k').
  seg_write ltac:(by apply set_be16_field). seg_write ltac:(by apply set_be16_field).
  seg_write ltac:(by apply set_be32_field). seg_write ltac:(by apply set_be32_field).
  seg_store. seg_store. seg_write ltac:(by apply set_be16_field).
  unfold tcp_header, be16, be32. cbn [app]. change (0 / 256) with 0. change (0 mod 256) with 0.
  destruct (Z.eqb_spec (zlen (options p)) 0) as [Hz|Hz]; cbn [negb].
  - apply zlen_0_nil in Hz as Hn. unfold k'. rewrite Hz, Hn. done.
  - match goal with |- with_slice (?a :: ?b :: ?c :: ?d :: ?e :: ?f :: ?g :: ?h :: ?i :: ?j :: ?l ::
      ?m :: ?n :: ?o :: ?q :: ?r :: ?t :: ?u :: ?v :: ?w :: k') _ _ _ = _ =>
      change (a :: b :: c :: d :: e :: f :: g :: h :: i :: j :: l :: m :: n :: o :: q :: r :: t ::
        u :: v :: w :: k') with ([a; b; c; d; e; f; g; h; i; j; l; m; n; o; q; r; t; u; v; w] ++
        zeros (zlen (options p)) ++ k);
      rewrite (with_slice_split _ _ (options p))
    end.
    + by rewrite <-!app_comm_cons.
    + done.
    + rewrite zlen_zeros by lia. lia.
    + apply copy_from_slice_Ok. by rewrite zlen_zeros by lia.
    + by rewrite zlen_zeros by lia.
Qed.

Lemma local_addr_ok s k a :
  ip_ok s k → IPAddr_ok (local_addr (netif s) a) ∧ is_v4 a = is_v4 (local_addr (netif s) a).
Proof. intros [[_ [? ?] [? ?]] _]. by destruct a. Qed.

Lemma tcp_sum_range src dst len :
  IPAddr_ok src → IPAddr_ok dst → is_v4 src = is_v4 dst → is_u16 (tcp_sum src dst len).
Proof.
  intros. apply ones_fold_range, word_sum_bounds. by apply pseudo_header_bytes_ok.
Qed.

Section Output.
Context `{!Tun}.

Lemma tcp_output_runs `{!TunOk} s k b p :
  buf_ok b → even_layout b → zlen (contents b) ≤ 65000 → nfrags b + 2 ≤ MAX_VECS →
  params_ok p → ip_ok s (nfrags b + k) →
  runs (tcp_output b p) s (λ _ s',
    sent (netif s) (netif s') [tcp_frame s p (contents b)] ∧ ip_ok s' k).
Proof.
  intros Hb He Hlen Hn Hp Hok. pose proof Hok as [[Hpool [H4 Hv4] [H6 Hv6]] Hid].
  destruct (p_options p Hp) as (Hob & Hom & Hol). pose proof (p_ip p Hp) as Hd.
  pose proof (zlen_nonneg (options p)). pose proof (contents_ok b Hb) as Hbo.
  assert (Z.Even (20 + zlen (options p))) as Hev.
  { exists (10 + 2 * (zlen (options p) / 4)). pose proof (Z.div_mod (zlen (options p)) 4). lia. }
  unfold tcp_output, get_ipaddr. run. rewrite Hom. cbn [Z.eqb rust_assert]. run.
  call alloc_header_runs; [done|lia|lia|exact Hpool|].
  intros b' pl (Hb' & Hc & (r & Hh) & Hn' & He' & Hp'). run.
  rewrite buf_ok_len, Hc by done. rewrite zlen_app, zlen_zeros by lia.
  set (total := 20 + zlen (options p) + zlen (contents b)).
  set (len := truncate u16_size total).
  destruct (header_mut_prefix b' (zeros (20 + zlen (options p))) (tcp_header p 0) r (contents b)
    (write_tcp_header p (20 + zlen (options p)))) as (b1 & -> & Hb1 & Hc1 & Hh1 & Hn1 & He1); try done.
  { by apply write_tcp_header_spec. }
  { rewrite zlen_tcp_header, zlen_zeros; lia. }
  { by apply tcp_header_bytes_ok. }
  run. cbn [fst snd].
  set (c := tcp_sum (local_addr (netif s) (dest_ip p)) (dest_ip p) len).
  assert (IPAddr_ok (local_addr (netif s) (dest_ip p)) ∧
    is_v4 (local_addr (netif s) (dest_ip p)) = is_v4 (dest_ip p)) as [Hlo Hlv]
    by (by destruct (dest_ip p)).
  assert (is_u8 PROTO_TCP) as Hpr by done.
  assert (is_u16 c) as Hcu.
  { apply ones_fold_range, word_sum_bounds. by apply pseudo_header_bytes_ok. }
  change (match dest_ip p with V4 _ => _ | V6 _ => _ end) with (local_addr (netif s) (dest_ip p)).
  rewrite compute_pseudo_header_checksum_spec by done. run.
  change (ones_fold (word_sum (pseudo_header_bytes _ _ _ _))) with c.
  rewrite compute_buffer_ones_comp_spec, Hc1; [|done|by apply He1, He'|done|].
  2: { rewrite Hc1, zlen_app, zlen_tcp_header. lia. }
  run. change (Z.lxor _ _) with (tcp_checksum c p (contents b)).
  pose proof (tcp_checksum_range c p (contents b) ltac:(apply Hcu) Hp Hbo) as Hck.
  set (ck := tcp_checksum _ _ _) in *.
  destruct (header_mut_prefix b1 (tcp_header p 0) (tcp_header p ck) r (contents b)
    (λ h, with_slice h 16 18 (set_be16 ck))) as (b2 & -> & Hb2 & Hc2 & _ & Hn2 & _); try done.
  { unfold tcp_header, be16, be32. cbn [app]. seg_write ltac:(by apply set_be16_field). done. }
  { by apply tcp_header_bytes_ok. }
  run. assert (zlen (contents b2) = total) as Hz.
  { rewrite Hc2, zlen_app, zlen_tcp_header. unfold total. lia. }
  call ip_output_runs; [done|unfold total in *; lia|lia|done|done|split; [|done]|].
  - rewrite Hn2, Hn1. by eapply (net_ok_bufs (netif s)); [apply Hok|].
  - intros _ s' (Hsent & _ & Hok'). split; [|done]. rewrite Hz, Hc2 in Hsent. by destruct Hsent.
Qed.

(** The check of the receiver. *)
Lemma validate_checksum_runs s k b src :
  buf_ok b → even_layout b → zlen (contents b) ≤ 65536 → IPAddr_ok src → ip_ok s k →
  runs (validate_checksum b src) s (λ v s', s' = s ∧
    v = (ones_fold (tcp_sum src (local_addr (netif s) src) (zlen (contents b)) +
                    word_sum (contents b)) =? 0xffff)).
Proof.
  intros Hb He Hlen Hs [[Hpool [H4 Hv4] [H6 Hv6]] Hid]. unfold validate_checksum, get_ipaddr. run.
  change (update (view s) s) with (s <| netif := netif s |>).
  assert (s <| netif := netif s |> = s) as -> by (by destruct s). cbn [fst snd].
  assert (IPAddr_ok (local_addr (netif s) src) ∧ is_v4 src = is_v4 (local_addr (netif s) src))
    as [Hlo Hlv] by (by destruct src).
  change (match src with V4 _ => _ | V6 _ => _ end) with (local_addr (netif s) src).
  assert (is_u8 PROTO_TCP) as Hpr by done.
  rewrite buf_ok_len, compute_pseudo_header_checksum_spec by done. run.
  set (c := ones_fold (word_sum (pseudo_header_bytes _ _ _ _))).
  assert (is_u16 c) as Hcu.
  { apply ones_fold_range, word_sum_bounds. by apply pseudo_header_bytes_ok. }
  rewrite compute_buffer_ones_comp_spec by (done || lia). run. split; [done|].
  change (tcp_sum _ _ _) with c.
  pose proof (word_sum_bounds _ (contents_ok b Hb)). unfold in_range in Hcu.
  pose proof (ones_fold_range (c + word_sum (contents b)) ltac:(lia)) as Hr.
  rewrite lxor_ffff by done. unfold in_range in Hr.
  destruct (Z.eqb_spec (ones_fold (c + word_sum (contents b))) 0xffff); apply Z.eqb_eq || apply Z.eqb_neq; lia.
Qed.

End Output.

(** * Received segments *)

(** The header of a segment [p], as the receiver reads it. *)
Definition header_of (p : TCPSendParams) : TCPHeader := {|
  h_source_port := source_port p;
  h_dest_port := dest_port p;
  h_seq_num := seq_num p;
  h_ack_num := ack_num p;
  h_header_length := 20 + zlen (options p);
  h_window := window p;
  h_flags := flags p;
|}.

Lemma get_be16_two v : is_u16 v → get_be16 [v / 256; v mod 256] = Ok v.
Proof. exact (get_be16_be16 v []). Qed.

Lemma get_be32_four v :
  is_u32 v → get_be32 [v / 16777216; v / 65536 mod 256; v / 256 mod 256; v mod 256] = Ok v.
Proof. exact (get_be32_be32 v []). Qed.

Lemma decode_header_spec p ck rest :
  params_ok p → decode_header (tcp_header p ck ++ rest) = Ok (header_of p).
Proof.
  intros Hp. destruct (p_options p Hp) as (Hb & Hm & Hl). destruct Hp.
  destruct (data_offset_range _ Hm Hl) as (_ & Hoff & _).
  unfold decode_header, tcp_header, be16, be32. cbn [app].
  do 5 seg_slice. do 2 seg_index.
  rewrite (get_be16_two (source_port p)) by done. cbn [mbind outcome_bind].
  rewrite (get_be16_two (dest_port p)) by done. cbn [mbind outcome_bind].
  rewrite (get_be32_four (seq_num p)) by done. cbn [mbind outcome_bind].
  rewrite (get_be32_four (ack_num p)) by done. cbn [mbind outcome_bind].
  rewrite (get_be16_two (window p)) by done. cbn [mbind outcome_bind].
  by rewrite Hoff.
Qed.

(** ** Flags *)

Lemma has_flag_true_land f g : has_flag f g = true ↔ Z.land f g ≠ 0.
Proof. unfold has_flag. rewrite negb_true_iff, Z.eqb_neq. done. Qed.

(** * The invariant of a socket *)

(** The fragments a socket holds. *)
Definition socket_frags (g : TCPSocketState) : Z :=
  nfrags (receive_queue g) + nfrags (retransmit_queue g) + ooo_frags (out_of_order (reassembler g)).

Definition sum_Z (l : list Z) : Z := foldr Z.add 0 l.
Definition sockets_frags (l : list TCPSocketState) : Z := sum_Z (map socket_frags l).

(** The queues are well-formed, the numbers are in range, and the retransmit
    queue holds exactly the octets from SND.UNA to SND.NXT. *)
Record socket_wf (g : TCPSocketState) : Prop := {
  wf_receive : buf_ok (receive_queue g);
  wf_retransmit : buf_ok (retransmit_queue g);
  wf_ooo : Forall (λ e, buf_ok e.2) (out_of_order (reassembler g));
  wf_addr : IPAddr_ok (remote_ip g) ∧ is_u16 (remote_port g) ∧ is_u16 (local_port g);
  wf_seq : is_u32 (send_next_seq g) ∧ is_u32 (send_unacked g) ∧
           is_u32 (get_next_expect (reassembler g));
}.

(** SND.NXT - SND.UNA, less than half the sequence space, is what may still
    have to be retransmitted. *)
Definition in_flight (g : TCPSocketState) : Prop :=
  u32_wrapping_sub (send_next_seq g) (send_unacked g) = zlen (contents (retransmit_queue g)) ∧
  zlen (contents (retransmit_queue g)) < 2147483648.

(** The segment [send_packet] sends. *)
Definition send_params (g : TCPSocketState) (fl : Z) : TCPSendParams := {|
  source_port := local_port g;
  dest_ip := remote_ip g;
  dest_port := remote_port g;
  seq_num := send_next_seq g;
  ack_num := get_next_expect (reassembler g) + (if acks_fin g then 1 else 0);
  flags := fl;
  window := 0xffff - truncate u16_size (NetBuffer_len (receive_queue g));
  options := if has_flag fl FLAG_SYN then [2; 4; 0x5; 0xdc] else [];
|}.

(** A socket can send: the acknowledgement number does not overflow. *)
Definition can_send (g : TCPSocketState) : Prop :=
  get_next_expect (reassembler g) + (if acks_fin g then 1 else 0) < u32_size.

Lemma send_params_ok g fl : socket_wf g → can_send g → is_u8 fl → params_ok (send_params g fl).
Proof.
  intros [_ _ _ (? & ? & ?) (? & ? & Hr)] Hc Hf. unfold can_send in Hc.
  split; cbn; try done.
  - destruct Hr. unfold in_range. destruct (acks_fin g); lia.
  - pose proof (truncate_range u16_size (NetBuffer_len (receive_queue g)) ltac:(lia)) as Ht.
    unfold in_range in *. lia.
  - destruct (has_flag fl FLAG_SYN); (split_and!; [bytes_solve|by vm_compute|by vm_compute]).
Qed.

Lemma set_state_wf st g : socket_wf g → socket_wf (set_state st g).
Proof. intros []. by split. Qed.

Lemma response_timer_wf g t : socket_wf g → socket_wf (g <| response_timer_id := t |>).
Proof. intros []. by split. Qed.

(** * The program's state *)

(** [k] fragments are in use outside the pool and the sockets. *)
Record tcp_ok (s : TcpState) (k : Z) : Prop := {
  tcp_net : ip_ok (ip s) (sockets_frags (sockets s) + k);
  tcp_sockets : Forall socket_wf (sockets s);
  tcp_clock : 0 ≤ current_time_ms (timers s) < 9223372036854775808;
}.

(** ** Sockets as they are made *)

Definition fresh_socket (remote_ip : IPAddr) (remote_port local_port iss : Z) : TCPSocketState := {|
  remote_ip := remote_ip; remote_port := remote_port; local_port := local_port;
  state := Closed; receive_next_seq := 0; receive_queue := NetBuffer_new;
  reassembler := TCPReassembler_new; delayed_ack_timer_id := -1; num_delayed_acks := 0;
  send_unacked := 0; send_next_seq := iss; send_window := 0; send_last_win_seq := 0;
  send_last_win_ack := 0; send_mss := DEFAULT_TCP_MSS; retransmit_queue := NetBuffer_new;
  retransmit_timer_id := -1; response_timer_id := -1; request_retry_count := 0;
  socket_queue := []; |}.

Lemma fresh_socket_wf a rp lp iss :
  IPAddr_ok a → is_u16 rp → is_u16 lp → is_u32 iss → socket_wf (fresh_socket a rp lp iss).
Proof. intros. split; try exact buf_ok_new; done. Qed.

Lemma TCPSocketState_new_eq `{!Random} a rp lp s :
  TCPSocketState_new a rp lp s =
    Ok (fresh_socket a rp lp (random_u32 (random_drawn s)),
        s <| random_drawn := S (random_drawn s) |>).
Proof. done. Qed.

Lemma sockets_frags_app l g : sockets_frags (l ++ [g]) = sockets_frags l + socket_frags g.
Proof.
  unfold sockets_frags, sum_Z. rewrite map_app, foldr_app.
  induction l as [|x l IH]; cbn in *; lia.
Qed.

(** A new socket without fragments leaves everything well-formed. *)
Lemma new_socket_ok s k g :
  tcp_ok s k → socket_wf g → socket_frags g = 0 →
  tcp_ok (s <| sockets := sockets s ++ [g] |>) k.
Proof.
  intros [Hn Hs Hc] Hg H0. split; [|apply Forall_app; split; [done|by constructor]|done].
  change (ip_ok (ip s) (sockets_frags (sockets s ++ [g]) + k)).
  by rewrite sockets_frags_app, H0, Z.add_0_r.
Qed.

Lemma new_socket_eq st s :
  new_socket st s = Ok (length (sockets s), s <| sockets := sockets s ++ [st] |>).
Proof. done. Qed.

(** ** One socket taken out of the table *)

Lemma sockets_frags_insert l (h : nat) g g' :
  l !! h = Some g → sockets_frags (<[h:=g']> l) = sockets_frags l - socket_frags g + socket_frags g'.
Proof.
  revert h. unfold sockets_frags.
  induction l as [|x l IH]; intros [|h] H; simplify_eq/=; [lia|]. rewrite (IH h) by done. lia.
Qed.

(** The fragments in use besides those of the socket [g]. *)
Definition others (s : TcpState) (k : Z) (g : TCPSocketState) : Z :=
  sockets_frags (sockets s) - socket_frags g + k.

Lemma locked_ok s k h g :
  tcp_ok s k → sockets s !! h = Some g → socket_wf g ∧ ip_ok (ip s) (socket_frags g + others s k g).
Proof.
  intros [Hn Hs Hc] Hg. split; [by eapply Forall_lookup_1|]. unfold others.
  by replace (socket_frags g + _) with (sockets_frags (sockets s) + k) by lia.
Qed.

Lemma unlocked_ok s s' k k' h g g' :
  tcp_ok s k → sockets s !! h = Some g → sockets s' = sockets s →
  current_time_ms (timers s') = current_time_ms (timers s) → socket_wf g' →
  ip_ok (ip s') (socket_frags g' + others s k' g) →
  tcp_ok (s' <| sockets ::= λ l, <[h:=g']> l |>) k'.
Proof.
  intros [Hn Hs Hc] Hg Hs' Hc' Hwf Hip. split.
  - change (ip_ok (ip s') (sockets_frags (<[h:=g']> (sockets s')) + k')). rewrite Hs', (sockets_frags_insert _ _ _ _ Hg). unfold others in Hip.
    by replace (sockets_frags (sockets s) - socket_frags g + socket_frags g' + k')
      with (socket_frags g' + (sockets_frags (sockets s) - socket_frags g + k')) by lia.
  - change (Forall socket_wf (<[h:=g']> (sockets s'))). rewrite Hs'. by apply Forall_insert.
  - change (0 ≤ current_time_ms (timers s') < 9223372036854775808). by rewrite Hc'.
Qed.

Lemma lock_eq s h g : sockets s !! h = Some g → lock h s = Ok (g, s).
Proof. unfold lock, mbind, st_bind, fetches, lift. by intros ->. Qed.

(** What a run that locks [h] first does, from what it does to the socket. *)
Lemma lock_runs {A} s h g (m : TCPSocketState → ST TcpState A) Q :
  sockets s !! h = Some g → runs (m g) s Q → runs (lock h ≫= m) s Q.
Proof. intros Hg Hm. apply runs_bind. eapply runs_eq; [by apply lock_eq|done]. Qed.

Section Send.
Context `{!Tun, !Random}.

(** Between two states of a run that works on a socket it has locked, only the
    IP layer, the timers and the notifications change. *)
Record locked_step (s s' : TcpState) (frames : list (list Z)) : Prop := {
  step_ports : PORT_MAP s' = PORT_MAP s;
  step_sockets : sockets s' = sockets s;
  step_random : random_drawn s' = random_drawn s;
  step_clock : current_time_ms (timers s') = current_time_ms (timers s);
  step_notified : notified s `prefix_of` notified s';
  step_sent : sent (netif (ip s)) (netif (ip s')) frames;
}.

Lemma locked_refl s : locked_step s s [].
Proof. split; try done. apply sent_refl. Qed.

Lemma locked_bufs s (p : BufState) : locked_step s (update p s) [].
Proof. split; try done. apply sent_nil. Qed.

Lemma locked_trans s s' s'' l l' :
  locked_step s s' l → locked_step s' s'' l' → locked_step s s'' (l ++ l').
Proof. intros [] []. split; try congruence; [by etrans|by eapply sent_trans]. Qed.

Lemma socket_send_runs `{!TunOk} s k g b fl :
  socket_wf g → can_send g → is_u8 fl →
  buf_ok b → even_layout b → zlen (contents b) ≤ 65000 → nfrags b + 2 ≤ MAX_VECS →
  ip_ok (ip s) (nfrags b + k) →
  runs (send_packet g b fl) s (λ _ s', ∃ i', s' = s <| ip := i' |> ∧ ip_ok i' k ∧
    locked_step s s' [tcp_frame (ip s) (send_params g fl) (contents b)]).
Proof.
  intros Hg Hc Hf Hb He Hlen Hn Hok. pose proof (send_params_ok g fl Hg Hc Hf) as Hp.
  pose proof (truncate_range u16_size (NetBuffer_len (receive_queue g)) ltac:(lia)) as Ht.
  unfold in_range in Ht. unfold send_packet. run.
  rewrite checked_add_Ok by exact Hc. run.
  change {| source_port := _ |} with (send_params g fl).
  call tcp_output_runs; [done|done|done|done|done|exact Hok|].
  intros _ i' [Hs Hi]. exists i'. split; [done|]. split; [done|]. by split.
Qed.

(** A segment without data. *)
Lemma send_empty_runs `{!TunOk} s k g fl :
  socket_wf g → can_send g → is_u8 fl → ip_ok (ip s) k →
  runs (send_packet g NetBuffer_new fl) s (λ _ s', ∃ i', s' = s <| ip := i' |> ∧ ip_ok i' k ∧
    locked_step s s' [tcp_frame (ip s) (send_params g fl) []]).
Proof.
  intros Hg Hc Hf Hok.
  by apply (socket_send_runs s k g NetBuffer_new fl).
Qed.

Lemma cancel_pending_runs s timer_id :
  runs (cancel_pending timer_id) s (λ _ s', ∃ t, s' = s <| timers := t |> ∧ locked_step s s' []).
Proof.
  unfold cancel_pending. run. call cancel_timer_runs. intros b t Ht. run. exists t. split; [done|].
  split; try done; [|apply sent_refl]. destruct b; [|by destruct Ht as [_ ->]].
  by destruct Ht as (? & _ & _ & ->).
Qed.

Lemma set_tcp_timer_runs s timeout action :
  0 ≤ current_time_ms (timers s) < 9223372036854775808 → 0 ≤ timeout < u32_size →
  runs (zoom (set_timer timeout action)) s (λ timer_id s', 0 ≤ timer_id < 2147483648 ∧
    ∃ t, s' = s <| timers := t |> ∧ locked_step s s' [] ∧
    PENDING_TIMERS t = PENDING_TIMERS (timers s) ++
      [{| absolute_timeout_ms := current_time_ms (timers s) + timeout; closure := Some action;
          id := timer_id |}]).
Proof.
  intros Hc Ht. run. call set_timer_runs; [cbn; lia|]. intros i t (Hi & _ & ->).
  split; [done|]. eexists. split; [done|]. split; [|done]. split; try done. apply sent_refl.
Qed.

(** A timer of the list. *)
Definition pending_last (s : TcpState) (delay : Z) (action : TimerAction) (timer_id : Z) : Prop :=
  ∃ l, PENDING_TIMERS (timers s) = l ++
    [{| absolute_timeout_ms := current_time_ms (timers s) + delay; closure := Some action;
        id := timer_id |}].

Lemma set_response_timer_runs s g h :
  0 ≤ current_time_ms (timers s) < 9223372036854775808 →
  runs (set_response_timer g h) s (λ g' s', ∃ timer_id t, s' = s <| timers := t |> ∧
    g' = g <| response_timer_id := timer_id |> ∧ 0 ≤ timer_id ∧ locked_step s s' [] ∧
    pending_last s' RESPONSE_TIMEOUT (ResponseTimeout h) timer_id).
Proof.
  intros Hc. unfold set_response_timer. apply runs_bind.
  assert (runs (if negb (response_timer_id g =? -1) then cancel_pending (response_timer_id g) else mret tt) s
    (λ _ s', ∃ t, s' = s <| timers := t |> ∧ locked_step s s' [])) as Hcancel.
  { destruct (negb _); [apply cancel_pending_runs|]. run. exists (timers s). split; [by destruct s|].
    apply locked_refl. }
  eapply runs_mono; [exact Hcancel|]. cbv beta. intros _ s1 (t1 & -> & Hl1). apply runs_bind.
  call set_tcp_timer_runs; [by rewrite (step_clock _ _ _ Hl1)|done|].
  intros i s2 (Hi & t2 & -> & Hl2 & Hp). run. exists i, t2. split_and!; [done|done|lia| |].
  - exact (locked_trans _ _ _ _ _ Hl1 Hl2).
  - eexists. cbn. rewrite Hp. f_equal. f_equal. f_equal. f_equal.
    symmetry. apply (step_clock _ _ _ Hl2).
Qed.

(** A request that is repeated until it is answered: a segment without data,
    and the timer for its answer. *)
Lemma request_runs `{!TunOk} {A} s k g fl h (m : TCPSocketState → ST TcpState A) Q :
  socket_wf g → can_send g → is_u8 fl →
  0 ≤ current_time_ms (timers s) < 9223372036854775808 → ip_ok (ip s) k →
  (∀ timer_id f s', 0 ≤ timer_id → locked_step s s' [f] →
    is_frame (netif (ip s)) (send_params g fl) [] f → ip_ok (ip s') k →
    notified s' = notified s →
    pending_last s' RESPONSE_TIMEOUT (ResponseTimeout h) timer_id →
    runs (m (g <| response_timer_id := timer_id |>)) s' Q) →
  runs (send_packet g NetBuffer_new fl;; g' ← set_response_timer g h; m g') s Q.
Proof.
  intros Hwf Hcs Hfl Hc Hok Hm. apply runs_bind. call send_empty_runs; [done..|].
  intros _ s1 (i & -> & Hi & Hl1). apply runs_bind.
  call set_response_timer_runs; [done|]. intros g' s2 (tid & t & -> & -> & Ht & Hl2 & Hp).
  eapply Hm; [done|exact (locked_trans _ _ _ _ _ Hl1 Hl2)|by eapply (tcp_frame_is_frame (ip s))|done..].
Qed.

(** ** Acknowledgements *)

(** The octets that an acknowledgement number newly acknowledges. *)
Definition newly_acked (g : TCPSocketState) (ack : Z) : Z :=
  if seq_lt (send_unacked g) ack && seq_le ack (send_next_seq g)
  then u32_wrapping_sub ack (send_unacked g) else 0.

Lemma newly_acked_bounds g ack :
  in_flight g → 0 ≤ newly_acked g ack ≤ zlen (contents (retransmit_queue g)).
Proof.
  intros [Hfl Hlt]. unfold newly_acked. pose proof (zlen_nonneg (contents (retransmit_queue g))).
  destruct (seq_lt _ _ && seq_le _ _) eqn:E; [|lia].
  apply andb_true_iff in E as [E1 E2]. unfold seq_lt in E1. unfold seq_le in E2.
  apply seq_gt_spec in E1. apply negb_true_iff, not_true_iff_false in E2.
  rewrite seq_gt_spec in E2. unfold wrapping_sub in *.
  set (d := (ack - send_unacked g) mod u32_size) in *.
  set (L := zlen (contents (retransmit_queue g))) in *.
  split; [lia|]. destruct (decide (d ≤ L)); [done|exfalso]. apply E2.
  replace (ack - send_next_seq g) with
    ((ack - send_unacked g) - (send_next_seq g - send_unacked g)) by lia.
  rewrite Zminus_mod, Hfl. fold d. rewrite Z.mod_small by lia. lia.
Qed.

Lemma process_ack_runs s k g ack :
  socket_wf g → in_flight g → is_u32 ack → ip_ok (ip s) (nfrags (retransmit_queue g) + k) →
  runs (process_ack g ack) s (λ g' s', locked_step s s' [] ∧
    ip_ok (ip s') (nfrags (retransmit_queue g') + k) ∧ socket_wf g' ∧ in_flight g' ∧
    contents (retransmit_queue g') =
      drop (Z.to_nat (newly_acked g ack)) (contents (retransmit_queue g)) ∧
    send_unacked g' = u32_wrapping_add (send_unacked g) (newly_acked g ack) ∧
    (∃ q timer_id una, g' = g <| retransmit_queue := q |> <| retransmit_timer_id := timer_id |>
                              <| send_unacked := una |>) ∧
    (0 < newly_acked g ack → contents (retransmit_queue g') = [] → retransmit_timer_id g' = -1)).
Proof.
  intros Hwf Hfl Hack Hok. pose proof (newly_acked_bounds g ack Hfl) as Hbd.
  pose proof Hwf as [? Hrt ? ? (Hn & Hu & ?)]. pose proof Hfl as [Hf1 Hf2].
  unfold process_ack, newly_acked in *.
  destruct (seq_lt (send_unacked g) ack && seq_le ack (send_next_seq g)).
  2: { run. change (Z.to_nat 0) with O. rewrite drop_0, wrapping_add_0 by done.
       split_and!; try done; [apply locked_refl|].
       exists (retransmit_queue g), (retransmit_timer_id g), (send_unacked g). by destruct g. }
  set (d := u32_wrapping_sub ack (send_unacked g)) in *. run.
  call trim_head_runs; [done|exact Hbd|apply Hok|].
  intros q p (Hq & Hc & Hnf & _ & Hp). run.
  assert (ip_ok (ip (update p s)) (nfrags q + k)) as Hok'.
  { destruct Hok as [Hnet ?]. split; [|done]. by eapply net_ok_bufs. }
  assert (locked_step s (update p s) []) as Hl1 by (split; try done; apply sent_nil).
  assert (u32_wrapping_add (send_unacked g) d = ack) as Hd by (by apply wrapping_add_sub).
  assert (u32_wrapping_sub (send_next_seq g) ack = zlen (contents q)) as Hnx.
  { rewrite Hc. rewrite zlen_drop, Z2Nat.id, <-Hf1 by lia. unfold wrapping_sub in *.
    replace (send_next_seq g - ack) with
      ((send_next_seq g - send_unacked g) - (ack - send_unacked g)) by lia.
    rewrite Zminus_mod. unfold d in *. rewrite Hf1 in *. rewrite Z.mod_small by lia. lia. }
  assert (zlen (contents q) < 2147483648) as Hq2.
  { rewrite Hc, zlen_drop. lia. }
  destruct (is_empty q) eqn:Eq.
  - apply runs_bind. call cancel_pending_runs. intros _ s2 (t & -> & Hl2). run.
    split_and!; [exact (locked_trans _ _ _ _ _ Hl1 Hl2)|exact Hok'|by split|by split|done|done| |done].
    exists q, (-1), ack. by destruct g.
  - run. split_and!; [exact Hl1|exact Hok'|by split|by split|done|done| |].
    + exists q, (retransmit_timer_id g), ack. by destruct g.
    + intros _ Hc0. exfalso. by rewrite (proj2 (is_empty_spec q Hq) Hc0) in Eq.
Qed.

End Send.
