(* ===== verification/TcpData.v ===== *)
(** * tcp.rs: sending and receiving data

    Specifications of tcp_write, tcp_read, the retransmission timer and the
    receive path of a connection. *)

From S2P Require Import Prelude Util Buf BufSpec Checksum Timer Netif Ip Reassembler TcpOptions Tcp TcpSpec.
From stdpp Require Import gmap.
Local Open Scope Z_scope.

(** * Writing *)

(** [f] is the frame that carries [chunk] at sequence number [seq], with
    whatever packet id. *)
Definition frame_carries (n : NetState) (g : TCPSocketState) (seq : Z) (chunk f : list Z) : Prop :=
  is_frame n (send_params (g <| send_next_seq := seq |>) (Z.lor FLAG_ACK FLAG_PSH)) chunk f.

(** The frames carry the chunks one after the other from [seq] on. *)
Fixpoint segments_sent (n : NetState) (g : TCPSocketState) (seq : Z) (chunks frames : list (list Z))
    : Prop :=
  match chunks, frames with
  | [], [] => True
  | c :: chunks, f :: frames =>
      frame_carries n g seq c f ∧ segments_sent n g (u32_wrapping_add seq (zlen c)) chunks frames
  | _, _ => False
  end.

(** The segment that ends at [seq] lies in the peer's window. *)
Definition in_window (g : TCPSocketState) (seq : Z) : Prop :=
  seq_gt seq (u32_wrapping_add (send_unacked g) (send_window g)) = false.

(** [chunks], sent from [seq] on, are the first of [rest] octets cut into
    segments: each is as long as the segment size and the rest allow and lies in
    the peer's window. *)
Fixpoint segmented (g : TCPSocketState) (seq rest : Z) (chunks : list (list Z)) : Prop :=
  match chunks with
  | [] => True
  | c :: chunks =>
      let seq' := u32_wrapping_add seq (zlen c) in
      0 < zlen c ∧ zlen c = Z.min rest (send_mss g) ∧ in_window g seq' ∧
      segmented g seq' (rest - zlen c) chunks
  end.

Lemma segmented_sizes g seq rest chunks :
  segmented g seq rest chunks → Forall (λ c, 0 < zlen c ≤ send_mss g) chunks.
Proof.
  revert seq rest. induction chunks as [|c chunks IH]; intros seq rest; [done|].
  intros (? & ? & _ & ?). constructor; [lia|by eapply IH].
Qed.

(** What tcp_write changes in a socket. *)
Definition written (g g' : TCPSocketState) : Prop :=
  ∃ seq q timer_id, g' = g <| send_next_seq := seq |> <| retransmit_queue := q |>
                           <| retransmit_timer_id := timer_id |>.

Lemma written_refl g : written g g.
Proof. exists (send_next_seq g), (retransmit_queue g), (retransmit_timer_id g). by destruct g. Qed.

Lemma written_trans g g' g'' : written g g' → written g' g'' → written g g''.
Proof. intros (? & ? & ? & ->) (a & b & c & ->). by exists a, b, c. Qed.

Lemma segmented_written g g' seq rest chunks :
  written g g' → segmented g' seq rest chunks → segmented g seq rest chunks.
Proof.
  intros (sq & q & t & ->). revert seq rest. induction chunks as [|c chunks IH]; intros seq rest; [done|].
  intros (? & ? & ? & ?). split_and!; try done. by apply IH.
Qed.

Lemma written_wf g g' :
  socket_wf g → written g g' → buf_ok (retransmit_queue g') → is_u32 (send_next_seq g') →
  socket_wf g'.
Proof.
  intros [? ? ? ? (? & ? & ?)] (seq & q & t & ->) Hq Hs. by split.
Qed.

Lemma written_can_send g g' : written g g' → can_send g → can_send g'.
Proof. by intros (? & ? & ? & ->). Qed.

Section Data.
Context `{!Tun, !TunOk, !Random}.

Lemma write_segment_runs s k h g chunk :
  socket_wf g → can_send g → in_flight g → bytes_ok chunk → zlen chunk ≤ 2560 →
  zlen (contents (retransmit_queue g)) + zlen chunk < 2147483648 →
  0 ≤ current_time_ms (timers s) < 9223372036854775808 →
  ip_ok (ip s) (nfrags (retransmit_queue g) + k) →
  runs (write_segment h g chunk) s (λ g' s',
    written g g' ∧ socket_wf g' ∧ in_flight g' ∧
    send_next_seq g' = u32_wrapping_add (send_next_seq g) (zlen chunk) ∧
    contents (retransmit_queue g') = contents (retransmit_queue g) ++ chunk ∧
    retransmit_timer_id g' ≠ -1 ∧
    ip_ok (ip s') (nfrags (retransmit_queue g') + k) ∧
    ∃ f, locked_step s s' [f] ∧ frame_carries (netif (ip s)) g (send_next_seq g) chunk f).
Proof.
  intros Hwf Hcs [Hf1 Hf2] Hb Hlen Htot Hclk Hok.
  pose proof Hwf as [? Hrt ? ? (Hn & Hu & ?)]. pose proof (zlen_nonneg chunk).
  pose proof (zlen_nonneg (contents (retransmit_queue g))).
  unfold write_segment. run. call append_new_runs; [done|lia|apply Hok|].
  intros b p (Hbb & Hc & Hd & Hnf & Hp). apply runs_bind.
  pose proof (Z.div_lt_upper_bound (zlen chunk + 511) 512 6 ltac:(lia) ltac:(lia)).
  call (socket_send_runs (update p s) (nfrags (retransmit_queue g) + k)); try done.
  { by apply dense_even. } { rewrite Hc. lia. } { lia. }
  { destruct Hok as [Hnet Hid]. split; [|exact Hid]. by eapply (net_ok_bufs (netif (ip s))). }
  intros _ s1 (i1 & -> & Hok1 & Hl1). run.
  change (retransmit_queue (set_field send_next_seq _ g)) with (retransmit_queue g).
  call append_from_slice_runs; [exact Hrt|done|lia|apply Hok1|].
  intros q p2 (Hq & Hcq & _ & Hp2). run.
  set (g2 := g <| send_next_seq ::= λ n, u32_wrapping_add n (truncate u32_size (zlen chunk)) |>
               <| retransmit_queue := q |>).
  assert (send_next_seq g2 = u32_wrapping_add (send_next_seq g) (zlen chunk)) as Hsn.
  { unfold g2. cbn. by rewrite truncate_id by (unfold in_range; lia). }
  assert (is_u32 (send_next_seq g2)) as Hsnr by (rewrite Hsn; apply wrapping_add_range; lia).
  assert (written g g2) as Hwr.
  { exists (send_next_seq g2), q, (retransmit_timer_id g). unfold g2. by destruct g. }
  assert (in_flight g2) as Hfl2.
  { split; change (retransmit_queue g2) with q; rewrite Hcq, zlen_app; [|lia].
    rewrite Hsn. unfold wrapping_sub, wrapping_add in *. rewrite Zminus_mod_idemp_l.
    replace (send_next_seq g + zlen chunk - send_unacked g2) with
      ((send_next_seq g - send_unacked g) + zlen chunk) by (unfold g2; cbn; lia).
    rewrite <-Zplus_mod_idemp_l, Hf1, Z.mod_small; lia. }
  assert (socket_wf g2) as Hwf2 by (by eapply written_wf).
  set (s2 := update p2 (update p s <| ip := i1 |>)).
  assert (locked_step s s2 [tcp_frame (ip (update p s)) (send_params g (Z.lor FLAG_ACK FLAG_PSH)) (contents b)])
    as Hl2.
  { destruct Hl1 as [? ? ? ? ? [? ? ? ?]]. by split. }
  assert (ip_ok (ip s2) (nfrags q + k)) as Hok2.
  { destruct Hok1 as [Hnet1 ?]. split; [|done]. by eapply (net_ok_bufs (netif i1)). }
  assert (frame_carries (netif (ip s)) g (send_next_seq g) chunk
    (tcp_frame (ip (update p s)) (send_params g (Z.lor FLAG_ACK FLAG_PSH)) (contents b))) as Hfc.
  { exists (NEXT_PACKET_ID (ip s)). rewrite Hc. split; [by destruct Hok|].
    assert (g <| send_next_seq := send_next_seq g |> = g) as -> by (by destruct g).
    by apply tcp_frame_ext. }
  change (retransmit_timer_id g2) with (retransmit_timer_id g).
  destruct (Z.eqb_spec (retransmit_timer_id g) (-1)) as [Ht|Ht].
  - apply runs_bind. call set_tcp_timer_runs; [exact Hclk|done|].
    intros i s3 (Hi & t & -> & Hl3 & _). run. split_and!; try done.
    + eapply written_trans; [exact Hwr|].
      exists (send_next_seq g2), (retransmit_queue g2), i. by destruct g2.
    + cbn. lia.
    + eexists. split; [exact (locked_trans _ _ _ _ _ Hl2 Hl3)|exact Hfc].
  - run. split_and!; try done. by eexists.
Qed.
Lemma segments_sent_ext n n' g g' seq chunks frames :
  LOCAL_IPV4 n' = LOCAL_IPV4 n → LOCAL_IPV6 n' = LOCAL_IPV6 n → written g g' →
  segments_sent n' g' seq chunks frames → segments_sent n g seq chunks frames.
Proof.
  intros H4 H6 Hw. revert seq frames.
  induction chunks as [|c chunks IH]; intros seq [|f frames]; simpl; try done.
  intros [(id & ? & ->) Hs]. split; [|by apply IH]. exists id. split; [done|]. destruct Hw as (a & q & t & ->).
  by apply tcp_frame_ext.
Qed.

(** The window is closed for the next segment of the octets from [o] on. *)
Definition window_closed (g : TCPSocketState) (data : list Z) (o : Z) : Prop :=
  seq_gt (u32_wrapping_add (send_next_seq g) (Z.min (zlen data - o) (send_mss g)))
         (u32_wrapping_add (send_unacked g) (send_window g)) = true.

(** What a call has sent of the octets from [offset] on, and how it stopped. *)
Definition wrote (s s' : TcpState) (g g' : TCPSocketState) (data : list Z) (offset : Z)
    (r : write_result) : Prop :=
  ∃ chunks frames offset', offset ≤ offset' ≤ zlen data ∧
    concat chunks = sub data offset offset' ∧
    segmented g (send_next_seq g) (zlen data - offset) chunks ∧
    locked_step s s' frames ∧
    segments_sent (netif (ip s)) g (send_next_seq g) chunks frames ∧
    contents (retransmit_queue g') = contents (retransmit_queue g) ++ sub data offset offset' ∧
    send_next_seq g' = u32_wrapping_add (send_next_seq g) (offset' - offset) ∧
    (offset < offset' ∨ retransmit_timer_id g ≠ -1 → retransmit_timer_id g' ≠ -1) ∧
    match r with
    | Wrote n => offset' = zlen data ∧ n = as_i32 (zlen data)
    | WaitWindow o => o = offset' ∧ o < zlen data ∧ window_closed g' data o
    end.

Lemma write_loop_runs fuel s k h g data offset :
  socket_wf g → can_send g → in_flight g → bytes_ok data → 1 ≤ send_mss g ≤ 2560 →
  0 ≤ offset ≤ zlen data → zlen data < 2147483648 →
  zlen (contents (retransmit_queue g)) + (zlen data - offset) < 2147483648 →
  0 ≤ current_time_ms (timers s) < 9223372036854775808 →
  ip_ok (ip s) (nfrags (retransmit_queue g) + k) → zlen data - offset < Z.of_nat fuel →
  runs (write_loop fuel h g data offset) s (λ r s', written g r.1 ∧ socket_wf r.1 ∧
    in_flight r.1 ∧ ip_ok (ip s') (nfrags (retransmit_queue r.1) + k) ∧
    wrote s s' g r.1 data offset r.2).
Proof.
  revert s g offset. induction fuel as [|fuel IH];
    intros s g offset Hwf Hcs Hfl Hb Hmss Ho Hdl Htot Hclk Hok Hfuel; [lia|].
  assert (∀ o, o = offset → ∀ r, (match r with
      | Wrote n => o = zlen data ∧ n = as_i32 (zlen data)
      | WaitWindow o' => o' = o ∧ o' < zlen data ∧ window_closed g data o' end) →
      wrote s s g g data offset r) as Hstop.
  { intros o -> r Hr. exists [], [], offset. rewrite sub_empty, app_nil_r, Z.sub_diag.
    rewrite wrapping_add_0 by apply Hwf.
    split_and!; try done; try lia. apply locked_refl. }
  simpl. destruct (Z.ltb_spec offset (zlen data)) as [Hlt|Hge].
  2: { assert (offset = zlen data) as -> by lia. rewrite Z.eqb_refl. run. simpl.
       split_and!; try done; [apply written_refl|]. by eapply Hstop. }
  set (len := Z.min (zlen data - offset) (send_mss g)).
  assert (1 ≤ len ≤ 2560 ∧ len ≤ zlen data - offset) as [Hlen1 Hlen2] by lia.
  rewrite (truncate_id u32_size len) by (unfold in_range; lia).
  destruct (seq_gt _ _) eqn:Hw.
  { run. split_and!; try done; [apply written_refl|]. eapply Hstop; [done|]. by split_and!. }
  run. rewrite slice_Ok by lia. run.
  assert (zlen (sub data offset (offset + len)) = len) as Hzs by (rewrite zlen_sub; lia).
  call (write_segment_runs s k); try done.
  { by apply bytes_ok_sub. } { lia. } { lia. }
  intros g1 s1 (Hw1 & Hwf1 & Hfl1 & Hsn1 & Hrt1 & Ht1 & Hok1 & f & Hl1 & Hf1).
  assert (send_mss g1 = send_mss g ∧ send_window g1 = send_window g) as [Hm1 Hwin1]
    by (by destruct Hw1 as (? & ? & ? & ->)).
  call (IH s1 g1 (offset + len)); try done; try lia.
  { by eapply written_can_send. } { rewrite Hrt1, zlen_app. lia. }
  { by rewrite (step_clock _ _ _ Hl1). }
  intros [g2 r] s2 (Hw2 & Hwf2 & Hfl2 & Hok2 & chunks & frames & o' & Ho' & Hcc & Hch & Hl2 &
    Hss & Hrt2 & Hsn2 & Ht2 & Hr). cbn [fst snd] in *.
  split_and!; try done; [by eapply written_trans|].
  exists (sub data offset (offset + len) :: chunks), (f :: frames), o'. split_and!; try done; try lia.
  - simpl. rewrite Hcc. symmetry. apply sub_split; lia.
  - cbn [segmented]. rewrite Hzs. split; [lia|]. split; [done|]. split; [done|].
    rewrite <-Hzs, <-Hsn1, Hzs, <-Z.sub_add_distr. by eapply segmented_written.
  - exact (locked_trans _ _ _ _ _ Hl1 Hl2).
  - simpl. split; [done|]. rewrite Hzs, <-Hzs, <-Hsn1. destruct Hl1 as [? ? ? ? ? [? ? ? ?]].
    by eapply segments_sent_ext.
  - rewrite Hrt2, Hrt1, <-app_assoc. f_equal. symmetry. apply sub_split; lia.
  - rewrite Hsn2, Hsn1, Hzs, wrapping_add_add. f_equal. lia.
Qed.

(** With a segment size of 0 the loop sends empty segments and gets nowhere. *)
Lemma write_loop_stuck fuel s k h g data offset :
  socket_wf g → can_send g → in_flight g → send_mss g = 0 → 0 ≤ offset < zlen data →
  seq_gt (send_next_seq g) (u32_wrapping_add (send_unacked g) (send_window g)) = false →
  0 ≤ current_time_ms (timers s) < 9223372036854775808 →
  ip_ok (ip s) (nfrags (retransmit_queue g) + k) →
  write_loop fuel h g data offset s = OutOfFuel.
Proof.
  revert s g. induction fuel as [|fuel IH]; intros s g Hwf Hcs Hfl Hmss Ho Hwin Hclk Hok; [done|].
  pose proof Hwf as [_ _ _ _ (Hn & _ & _)]. pose proof Hfl as [_ Hfl2].
  cbn [write_loop]. rewrite (proj2 (Z.ltb_lt _ _)) by lia. rewrite Hmss, Z.min_r by lia.
  change (truncate u32_size 0) with 0. rewrite wrapping_add_0, Hwin, Z.add_0_r by done.
  assert (slice data offset offset = Ok []) as -> by (rewrite slice_Ok by lia; by rewrite sub_empty).
  rewrite (bind_Ok _ _ s [] s) by done.
  assert (runs (write_segment h g []) s (λ g1 s1, written g g1 ∧ socket_wf g1 ∧ in_flight g1 ∧
    send_next_seq g1 = send_next_seq g ∧ ip_ok (ip s1) (nfrags (retransmit_queue g1) + k) ∧
    current_time_ms (timers s1) = current_time_ms (timers s))) as Hr.
  { call (write_segment_runs s k h g []); try done; [constructor|change (zlen []) with 0; lia|].
    intros g1 s1 (Hw & Hwf1 & Hfl1 & Hseq & _ & _ & Hok1 & f & Hl & _).
    change (zlen []) with 0 in Hseq. rewrite wrapping_add_0 in Hseq by done.
    split_and!; try done. by apply Hl. }
  apply runs_Ok in Hr as (g1 & s1 & E & Hw & Hwf1 & Hfl1 & Hseq & Hok1 & Hclk1).
  rewrite (bind_Ok _ _ _ _ _ E). apply IH; try done; try (by eapply written_can_send); try (by rewrite Hclk1).
  - by destruct Hw as (? & ? & ? & ->).
  - rewrite Hseq. by destruct Hw as (? & ? & ? & ->).
Qed.

(** ** tcp_write

    The state [s'] is left with the socket [g'] put back. *)

Definition put_back (s' : TcpState) (h : SocketReference) (g' : TCPSocketState) : TcpState :=
  s' <| sockets ::= λ l, <[h:=g']> l |>.

Lemma written_fields g g' :
  written g g' → receive_queue g' = receive_queue g ∧ reassembler g' = reassembler g.
Proof. by intros (? & ? & ? & ->). Qed.

Lemma tcp_write_runs woken s k h g data offset :
  tcp_ok s k → sockets s !! h = Some g → state g ≠ Closed →
  can_send g → in_flight g → bytes_ok data → 1 ≤ send_mss g ≤ 2560 →
  0 ≤ offset ≤ zlen data → zlen data < 2147483648 →
  zlen (contents (retransmit_queue g)) + (zlen data - offset) < 2147483648 →
  runs (tcp_write woken h data offset) s (λ r s', ∃ s1 g', s' = put_back s1 h g' ∧
    tcp_ok s' k ∧ written g g' ∧ in_flight g' ∧ wrote s s1 g g' data offset r).
Proof.
  intros Hok Hg Hst Hcs Hfl Hb Hmss Ho Hdl Htot.
  destruct (locked_ok _ _ _ _ Hok Hg) as [Hwf Hip]. unfold tcp_write.
  eapply lock_runs; [exact Hg|]. unfold is_state. rewrite bool_decide_eq_false_2 by done.
  apply runs_bind.
  call (write_loop_runs _ s (nfrags (receive_queue g) + ooo_frags (out_of_order (reassembler g)) +
    others s k g)); try done.
  { apply Hok. }
  { unfold socket_frags in Hip. by replace (nfrags (retransmit_queue g) + _) with
      (nfrags (receive_queue g) + nfrags (retransmit_queue g) +
       ooo_frags (out_of_order (reassembler g)) + others s k g) by lia. }
  { unfold zlen in *. lia. }
  intros [g' r] s1 (Hw & Hwf' & Hfl' & Hok' & Hwr). cbn [fst snd] in *. run.
  exists s1, g'. destruct Hwr as (chunks & frames & o' & Ho' & Hcc & Hch & Hl & Hwr).
  split_and!; try done.
  - eapply unlocked_ok;
      [exact Hok|exact Hg|exact (step_sockets _ _ _ Hl)|exact (step_clock _ _ _ Hl)|exact Hwf'|].
    destruct (written_fields _ _ Hw) as [Hrq Hra]. unfold socket_frags. rewrite Hrq, Hra.
    by replace (nfrags (receive_queue g) + nfrags (retransmit_queue g') + _ + _) with
      (nfrags (retransmit_queue g') + (nfrags (receive_queue g) +
        ooo_frags (out_of_order (reassembler g)) + others s k g)) by lia.
  - by exists chunks, frames, o'.
Qed.

Lemma tcp_write_closed woken s h g data offset :
  sockets s !! h = Some g → state g = Closed →
  tcp_write woken h data offset s = Ok (Wrote (if woken then as_i32 offset else -1), s).
Proof.
  intros Hg Hst. unfold tcp_write. rewrite (bind_Ok _ _ _ g s) by (by apply lock_eq).
  unfold is_state. by rewrite bool_decide_eq_true_2.
Qed.

(** ** tcp_read *)

Lemma tcp_read_runs s k h g data :
  tcp_ok s k → sockets s !! h = Some g → contents (receive_queue g) ≠ [] → zlen (contents (receive_queue g)) ≤ usize_max →
  runs (tcp_read h data) s (λ r s', ∃ (p : BufState) q,
    s' = put_back (update p s) h (g <| receive_queue := q |>) ∧ tcp_ok s' k ∧
    (let n := Z.min (zlen data) (zlen (contents (receive_queue g))) in
     r = Some (as_i32 n, take (Z.to_nat n) (contents (receive_queue g)) ++ drop (Z.to_nat n) data) ∧
     contents q = drop (Z.to_nat n) (contents (receive_queue g)))).
Proof.
  intros Hok Hg Hne Hmax. destruct (locked_ok _ _ _ _ Hok Hg) as [Hwf Hip].
  pose proof Hwf as [Hrq ? ? ? ?]. unfold tcp_read. eapply lock_runs; [exact Hg|].
  assert (is_empty (receive_queue g) = false) as ->.
  { apply not_true_iff_false. by rewrite is_empty_spec. }
  rewrite andb_false_r. cbn [negb]. run.
  set (n := Z.min (zlen data) (zlen (contents (receive_queue g)))).
  pose proof (zlen_nonneg data). pose proof (zlen_nonneg (contents (receive_queue g))).
  rewrite copy_to_slice_spec by done. fold n. run. cbv beta iota zeta.
  run. call (trim_head_runs _ (socket_frags g - nfrags (receive_queue g) + others s k g)); [done|lia| |].
  { replace (nfrags (receive_queue g) + _) with (socket_frags g + others s k g) by lia. apply Hip. }
  intros q p (Hq & Hc & _ & _ & Hp). run.
  exists p, q. split_and!.
  - done.
  - eapply (unlocked_ok s (update p s)); [exact Hok|exact Hg|done|done|by destruct Hwf|].
    destruct Hip as [Hnet Hid]. split; [|done]. eapply (net_ok_bufs (netif (ip s))); [done|].
    by replace (socket_frags _ + _) with
      (nfrags q + (socket_frags g - nfrags (receive_queue g) + others s k g))
      by (unfold socket_frags; cbn; lia).
  - done.
  - exact Hc.
Qed.

(** ** The retransmission timer *)

Lemma pool_ok_retransmitted b k :
  pool_ok b k → pool_ok (b <| METRICS ::= λ m, m <| packets_retransmitted ::= PerfCounter_inc |> |>) k.
Proof. intros [? ? ? Hm]. split; try done. by destruct (metrics_inc _ Hm) as (? & ? & ?). Qed.

(** The first octets of a queue, in a new buffer. *)
Lemma copy_head_runs s k b n :
  buf_ok b → 0 ≤ n → zlen (contents b) < usize_size → pool_ok s k →
  runs (append_from_buffer b n NetBuffer_new) s (λ b' s', buf_ok b' ∧ dense b' ∧
    contents b' = take (Z.to_nat n) (contents b) ∧
    nfrags b' ≤ (Z.min n (zlen (contents b)) + 511) / 512 ∧ pool_ok s' (nfrags b' + k)).
Proof.
  intros Hb Hn Hlen Hp. call append_from_buffer_runs; [done|done|exact buf_ok_new|done|exact Hp|].
  intros b' s' (Hb' & Hc & Hd & Hp'). specialize (Hd dense_new).
  change (contents NetBuffer_new) with (@nil Z) in Hc. cbn [app] in Hc.
  split_and!; try done. replace (Z.min n _) with (zlen (contents b')); [by apply dense_nfrags|].
  rewrite Hc, zlen_take. lia.
Qed.

Lemma retransmit_runs s k h g :
  tcp_ok s k → sockets s !! h = Some g → state g ≠ Closed → can_send g →
  contents (retransmit_queue g) ≠ [] → zlen (contents (retransmit_queue g)) < usize_size →
  0 ≤ send_mss g ≤ 2560 →
  runs (retransmit h) s (λ _ s', ∃ s1 timer_id, 0 ≤ timer_id ∧ tcp_ok s' k ∧
    s' = put_back s1 h (g <| retransmit_timer_id := timer_id |>) ∧
    locked_step s s1 [tcp_frame (ip s) (send_params g (Z.lor FLAG_ACK FLAG_PSH))
      (take (Z.to_nat (send_mss g)) (contents (retransmit_queue g)))] ∧
    PENDING_TIMERS (timers s1) = PENDING_TIMERS (timers s) ++
      [{| absolute_timeout_ms := current_time_ms (timers s) + RETRANSMIT_INTERVAL;
          closure := Some (Retransmit h); id := timer_id |}]).
Proof.
  intros Hok Hg Hst Hcs Hne Hlen Hmss. destruct (locked_ok _ _ _ _ Hok Hg) as [Hwf [Hnet Hid]].
  pose proof Hwf as [? Hrt ? ? ?]. unfold retransmit. eapply lock_runs; [exact Hg|].
  unfold is_state. rewrite bool_decide_eq_false_2 by done.
  assert (is_empty (retransmit_queue g) = false) as ->.
  { apply not_true_iff_false. by rewrite is_empty_spec. }
  run. cbn [negb]. run.
  pose proof (zlen_nonneg (contents (retransmit_queue g))).
  call (copy_head_runs _ (socket_frags g + others s k g)); [done|lia|done| |].
  { apply (pool_ok_retransmitted (bufs (netif (ip s)))). apply Hnet. }
  intros b p (Hb & Hd & Hc & Hn & Hp). run. rewrite update_update.
  pose proof (Z.div_lt_upper_bound (Z.min (send_mss g) (zlen (contents (retransmit_queue g))) + 511)
    512 6 ltac:(lia) ltac:(lia)).
  call (socket_send_runs (update p s) (socket_frags g + others s k g)); try done.
  { by apply dense_even. } { rewrite Hc, zlen_take. lia. } { lia. }
  { split; [|exact Hid]. by eapply (net_ok_bufs (netif (ip s))). }
  intros _ s1 (i1 & -> & Hok1 & Hl1). apply runs_bind.
  call set_tcp_timer_runs; [apply Hok|done|]. intros i s2 (Hi & t & -> & Hl2 & Ht). run.
  rewrite Hc in Hl1. eexists _, i. split_and!; [lia| |done| |exact Ht].
  - eapply (unlocked_ok s ((update p s) <| ip := i1 |> <| timers := t |>) k k h g);
      [exact Hok|exact Hg|done|exact (step_clock _ _ _ Hl2)|by destruct Hwf|exact Hok1].
  - exact (locked_trans _ _ _ _ _ (locked_bufs s p) (locked_trans _ _ _ _ _ Hl1 Hl2)).
Qed.

End Data.
