(* ===== verification/TcpConn.v ===== *)
(** * tcp.rs: receiving data

    Specifications of tcp_input and its phases for a segment that carries data
    on an open connection. *)

From S2P Require Import Prelude Util Buf BufSpec Checksum Timer Netif Ip Reassembler TcpOptions Tcp TcpSpec TcpData.
From stdpp Require Import gmap.
Local Open Scope Z_scope.

(** * Receiving data *)

(** The peer's octets [stream], numbered from its initial sequence number:
    those before [start] have been read by the application, those from [start]
    to [next] wait in the receive queue. *)
Record receiving (stream : Z → Z) (start next : Z) (g : TCPSocketState) : Prop := {
  recv_reasm : reassembler_ok stream next (reassembler g);
  recv_queue : at_offset stream start (contents (receive_queue g));
  recv_next : next = start + zlen (contents (receive_queue g));
}.

(** What received data changes in a socket. *)
Definition received (g g' : TCPSocketState) : Prop :=
  ∃ rn ra rq n t, g' = g <| receive_next_seq := rn |> <| reassembler := ra |>
    <| receive_queue := rq |> <| num_delayed_acks := n |> <| delayed_ack_timer_id := t |>.

Lemma received_wf g g' :
  socket_wf g → received g g' → buf_ok (receive_queue g') →
  Forall (λ e, buf_ok e.2) (out_of_order (reassembler g')) →
  is_u32 (get_next_expect (reassembler g')) → socket_wf g'.
Proof. intros [? ? ? ? (? & ? & ?)] (? & ? & ? & ? & ? & ->) ???. by split. Qed.

Lemma received_in_flight g g' : in_flight g → received g g' → in_flight g'.
Proof. intros H (? & ? & ? & ? & ? & ->). exact H. Qed.

Lemma segment_ok_bufs stream base l :
  Forall (segment_ok stream base) l → Forall (λ e, buf_ok e.2) l.
Proof. intros H. eapply Forall_impl; [exact H|]. by intros e [? _]. Qed.

(** The fragments a socket holds besides those to be retransmitted. *)
Definition receive_frags (g : TCPSocketState) : Z :=
  nfrags (receive_queue g) + ooo_frags (out_of_order (reassembler g)).

Section Conn.
Context `{!Tun, !TunOk, !Random}.

Lemma locked_notify s h : locked_step s (s <| notified ::= λ l, l ++ [h] |>) [].
Proof. split; try done; [by apply prefix_app_r|apply sent_refl]. Qed.

(** Cancelling the timer a field names, when it names one. *)
Lemma cancel_unset_runs s (g1 g2 : TCPSocketState) timer_id :
  runs (if negb (timer_id =? -1) then cancel_pending timer_id;; mret g1 else mret g2) s
    (λ g' s', ∃ t, s' = s <| timers := t |> ∧ locked_step s s' [] ∧
      g' = if timer_id =? -1 then g2 else g1).
Proof.
  destruct (timer_id =? -1); cbn [negb].
  - run. exists (timers s). split_and!; [by destruct s|apply locked_refl|done].
  - apply runs_bind. call cancel_pending_runs. intros _ s1 (t & -> & Hl). run. by exists t.
Qed.

Lemma can_send_established g : socket_wf g → state g = Established → can_send g.
Proof.
  intros [_ _ _ _ (_ & _ & Hn)] Hst. unfold can_send, acks_fin, is_state. rewrite Hst.
  rewrite !bool_decide_eq_false_2 by done. cbn. destruct Hn. lia.
Qed.

(** The acknowledgement goes out at once with every fifth segment and with a
    FIN; otherwise a timer is pending that sends it. *)
Lemma acknowledge_data_runs s k h g fl :
  socket_wf g → state g = Established → 0 ≤ num_delayed_acks g < 0x7fffffff →
  0 ≤ current_time_ms (timers s) < 9223372036854775808 → ip_ok (ip s) k →
  runs (acknowledge_data h g fl) s (λ g' s', ∃ n t frames,
    g' = g <| num_delayed_acks := n |> <| delayed_ack_timer_id := t |> ∧
    locked_step s s' frames ∧ ip_ok (ip s') k ∧ notified s' = notified s ∧
    if (MAX_DELAYED_ACKS <=? num_delayed_acks g + 1) || has_flag fl FLAG_FIN
    then n = 0 ∧ t = -1 ∧ ∃ f, frames = [f] ∧ is_frame (netif (ip s)) (send_params g FLAG_ACK) [] f
    else n = num_delayed_acks g + 1 ∧ t ≠ -1 ∧ frames = [] ∧
      (delayed_ack_timer_id g = -1 → PENDING_TIMERS (timers s') = PENDING_TIMERS (timers s) ++
        [{| absolute_timeout_ms := current_time_ms (timers s) + MAX_ACK_DELAY;
            closure := Some (DelayedAck h); id := t |}])).
Proof.
  intros Hwf Hst Hn Hclk Hok. unfold acknowledge_data, is_state.
  rewrite bool_decide_eq_true_2 by done. run.
  change (num_delayed_acks (set_field num_delayed_acks _ g)) with (num_delayed_acks g + 1).
  change (delayed_ack_timer_id (set_field num_delayed_acks _ g)) with (delayed_ack_timer_id g).
  destruct (_ || _).
  - apply runs_bind.
    call (cancel_unset_runs s _ _ (delayed_ack_timer_id g)). intros g1 s1 (t & -> & Hl1 & Hg1).
    assert (g1 = g <| num_delayed_acks := 0 |> <| delayed_ack_timer_id := -1 |>) as ->.
    { subst g1. destruct (Z.eqb_spec (delayed_ack_timer_id g) (-1)) as [Ht|Ht]; [|done].
      rewrite <-Ht. by destruct g. }
    apply runs_bind. call send_empty_runs; [by destruct Hwf|by apply (can_send_established g)|done|exact Hok|].
    intros _ s2 (i & -> & Hi & Hl2). run. eexists 0, (-1), _.
    split_and!; [done|exact (locked_trans _ _ _ _ _ Hl1 Hl2)|done..|].
    eexists. split; [done|]. by eapply (tcp_frame_is_frame (ip s)).
  - destruct (Z.eqb_spec (delayed_ack_timer_id g) (-1)) as [Ht|Ht].
    + apply runs_bind. call set_tcp_timer_runs; [exact Hclk|done|].
      intros i s1 (Hi & t & -> & Hl & Hp). run. eexists _, i, []. split_and!; try done. lia.
    + run. eexists _, (delayed_ack_timer_id g), [].
      split_and!; try done; apply locked_refl.
Qed.

(** What [queue_data] does with what the reassembler has passed on. *)
Lemma queue_data_runs s k h g got stream start next next' :
  buf_ok (receive_queue g) → reassembler_ok stream next' (reassembler g) →
  at_offset stream start (contents (receive_queue g)) →
  next = start + zlen (contents (receive_queue g)) →
  next ≤ next' < next + 2147483648 → zlen (contents (receive_queue g)) < 0x7fffffff →
  match got with
  | Some b => buf_ok b ∧ at_offset stream next (contents b) ∧ next' = next + zlen (contents b)
  | None => next' = next
  end →
  ip_ok (ip s) (from_option nfrags 0 got + (receive_frags g + k)) →
  runs (queue_data h g got) s (λ g' s', ∃ q, g' = g <| receive_queue := q |> ∧ buf_ok q ∧
    receiving stream start next' g' ∧
    notified s' = notified s ++ match got with Some _ => [h] | None => [] end ∧ timers s' = timers s ∧
    locked_step s s' [] ∧ ip_ok (ip s') (receive_frags g' + k)).
Proof.
  intros Hbq Hra Hat Hnx Hnx' Hlen Hgot Hip. unfold queue_data. destruct got as [b|]; cbn in Hip.
  - destruct Hgot as (Hb & Hat' & Hn').
    destruct (append_buffer_spec b (receive_queue g)) as (q & Hq & Hbq' & Hcq & Hnq); [done|done|lia|].
    run. rewrite Hq. run. unfold notify_all. run. exists q. split_and!; try done.
    + split; [done| |]; cbn; rewrite Hcq; [apply at_offset_app; [done|by rewrite <-Hnx]|].
      rewrite zlen_app. lia.
    + apply (locked_notify s h).
    + unfold receive_frags in *. cbn. rewrite Hnq. by replace (nfrags (receive_queue g) + nfrags b + _ + k)
        with (nfrags b + (nfrags (receive_queue g) + ooo_frags (out_of_order (reassembler g)) + k)) by lia.
  - subst next'. run. exists (receive_queue g).
    split_and!; try done; [by destruct g|by rewrite app_nil_r|apply locked_refl].
Qed.

(** What the receive path has made of the socket [g] when it comes to the
    acknowledgement: the stream is in the queue up to [next']. *)
Record data_queued (s s' : TcpState) (k : Z) (h : SocketReference) (g g' : TCPSocketState) (b : NetBuffer)
    (stream : Z → Z) (start next next' off : Z) : Prop := {
  dq_received : received g g';
  dq_wf : socket_wf g';
  dq_receiving : receiving stream start next' g';
  dq_next : if decide (off = next) then off + zlen (contents b) ≤ next' else next' = next;
  dq_bounds : next ≤ next' < next + 2147483648;
  dq_reassembled : reassembled off b next next' (out_of_order (reassembler g)) (out_of_order (reassembler g'));
  dq_acks : num_delayed_acks g' = num_delayed_acks g;
  dq_notified : notified s' = notified s ++ (if decide (off = next) then [h] else []);
  dq_step : locked_step s s' [];
  dq_ip : ip_ok (ip s') (receive_frags g' + k);
}.

Lemma receive_queue_runs s k h g b fl stream start next off Q :
  socket_wf g → receiving stream start next g → zlen (contents (receive_queue g)) < 0x7fffffff →
  buf_ok b → at_offset stream off (contents b) →
  next - 2147483648 < off → off + zlen (contents b) < next + 2147483648 →
  ip_ok (ip s) (nfrags b + (receive_frags g + k)) →
  (∀ next' g' s', data_queued s s' k h g g' b stream start next next' off →
     runs (acknowledge_data h g' fl) s' Q) →
  runs (receive_data h g b (off mod u32_size) fl) s Q.
Proof.
  intros Hwf [Hra Hrq Hnx] Hlen Hb Hat Hlo Hhi Hok HQ. unfold receive_data.
  set (g1 := g <| receive_next_seq ::= _ |>). cbv zeta.
  apply runs_bind. apply runs_zoom.
  change (reassembler g1) with (reassembler g).
  call (add_packet_runs stream next _ (nfrags (receive_queue g) + k)); try done.
  { eapply pool_ok_ext; [apply Hok|]. unfold receive_frags. lia. }
  intros [ra got] p (next' & Hra' & Hnext & Hreasm & Hgot). cbn [fst snd] in *. apply runs_bind.
  set (s1 := update p s). set (g1' := g1 <| reassembler := ra |>).
  assert (pool_ok p (from_option nfrags 0 got + (receive_frags g1' + k))) as Hp.
  { destruct got as [b'|]; destruct_and! Hgot; (eapply pool_ok_ext; [eassumption|]);
      unfold receive_frags; cbn; lia. }
  call (queue_data_runs s1 k h g1' got stream start next next'); try done.
  { apply Hwf. }
  { destruct got; by destruct_and! Hgot. }
  { destruct Hok as [Hnet Hid]. split; [|exact Hid]. by eapply (net_ok_bufs (netif (ip s))). }
  intros g2 s2 (q & -> & Hbq & Hrec & Hnot & _ & Hl2 & Hip2). set (g2 := g1' <| receive_queue := q |>) in *.
  assert (received g g2) as Hrcv.
  { eexists _, ra, q, (num_delayed_acks g), (delayed_ack_timer_id g). by destruct g. }
  assert ((if decide (off = next) then off + zlen (contents b) ≤ next' else next' = next) ∧
    match got with Some _ => [h] | None => [] end = (if decide (off = next) then [h] else [])) as [Hdec Hgh].
  { destruct got; destruct_and! Hgot; [rewrite !decide_True by done|rewrite !decide_False by done];
      (split; [lia|done]). }
  apply (HQ next'). split; try done.
  - eapply received_wf; [done|done|done|eapply segment_ok_bufs, Hra'|].
    unfold get_next_expect. cbn. destruct Hra' as [-> _]. apply Z.mod_pos_bound. lia.
  - by rewrite Hnot, Hgh.
  - exact (locked_trans _ _ _ _ _ (locked_bufs s p) Hl2).
Qed.

Lemma receive_data_runs s k h g b fl stream start next off :
  socket_wf g → state g = Established → receiving stream start next g →
  0 ≤ num_delayed_acks g < 0x7fffffff → zlen (contents (receive_queue g)) < 0x7fffffff →
  buf_ok b → at_offset stream off (contents b) →
  next - 2147483648 < off → off + zlen (contents b) < next + 2147483648 →
  0 ≤ current_time_ms (timers s) < 9223372036854775808 →
  ip_ok (ip s) (nfrags b + (receive_frags g + k)) →
  runs (receive_data h g b (off mod u32_size) fl) s (λ g' s', ∃ next' frames,
    received g g' ∧ socket_wf g' ∧ receiving stream start next' g' ∧
    (if decide (off = next) then off + zlen (contents b) ≤ next' else next' = next) ∧
    next ≤ next' < next + 2147483648 ∧
    reassembled off b next next' (out_of_order (reassembler g)) (out_of_order (reassembler g')) ∧
    notified s' = notified s ++ (if decide (off = next) then [h] else []) ∧
    locked_step s s' frames ∧ ip_ok (ip s') (receive_frags g' + k) ∧
    if (MAX_DELAYED_ACKS <=? num_delayed_acks g + 1) || has_flag fl FLAG_FIN
    then num_delayed_acks g' = 0 ∧
      ∃ f, frames = [f] ∧ is_frame (netif (ip s)) (send_params g' FLAG_ACK) [] f
    else num_delayed_acks g' = num_delayed_acks g + 1 ∧ delayed_ack_timer_id g' ≠ -1 ∧ frames = []).
Proof.
  intros Hwf Hst Hrec Hn Hlen Hb Hat Hlo Hhi Hclk Hok.
  apply (receive_queue_runs s k h g b fl stream start next off); try done.
  intros next' g2 s2 [Hrcv Hwf2 Hrec2 Hdec Hnext Hre Hna Hnot Hl Hip2].
  assert (state g2 = Established) as Hst2 by (by destruct Hrcv as (? & ? & ? & ? & ? & ->)).
  call (acknowledge_data_runs s2 (receive_frags g2 + k) h g2); try done.
  { by rewrite Hna. } { by rewrite (step_clock _ _ _ Hl). }
  intros g' s' (n & t & frames & -> & Hl' & Hip' & Hnot' & Hack). rewrite Hna in Hack.
  exists next', frames. split_and!; try done; try apply Hnext.
  - destruct Hrcv as (rn & ra' & rq & n' & t' & E). exists rn, ra', rq, n, t. by rewrite E.
  - by destruct Hwf2.
  - by destruct Hrec2.
  - by rewrite Hnot'.
  - exact (locked_trans _ _ _ _ _ Hl Hl').
  - destruct (_ || _).
    + destruct Hack as (-> & -> & f & -> & Hf). split; [done|]. exists f. split; [done|].
      eapply is_frame_sent; [apply Hl|exact Hf].
    + by destruct Hack as (-> & Ht & -> & _).
Qed.

(** ** The send window *)

(** Whether a segment updates the window: it acknowledges nothing that is
    unsent, and is not older than the last one that did. *)
Definition updates_window (g : TCPSocketState) (seq ack : Z) : bool :=
  seq_le (send_unacked g) ack && seq_le ack (send_next_seq g) &&
  (seq_lt (send_last_win_seq g) seq ||
   ((send_last_win_seq g =? seq) && seq_le (send_last_win_ack g) ack)).

Definition window_updated (g : TCPSocketState) (seq ack w : Z) : TCPSocketState :=
  if updates_window g seq ack
  then g <| send_window := w |> <| send_last_win_seq := seq |> <| send_last_win_ack := ack |>
  else g.

Lemma update_window_runs s k h g seq ack w :
  ip_ok (ip s) k →
  runs (update_window h g seq ack w) s (λ g' s', g' = window_updated g seq ack w ∧
    locked_step s s' [] ∧ ip_ok (ip s') k ∧
    notified s' = notified s ++ (if updates_window g seq ack then [h] else [])).
Proof.
  intros Hok. unfold update_window, window_updated. fold (updates_window g seq ack).
  destruct (updates_window g seq ack).
  - unfold notify_all. run. split_and!; try done. apply locked_notify.
  - run. rewrite app_nil_r. split_and!; try done. apply locked_refl.
Qed.

Lemma window_updated_wf g seq ack w : socket_wf g → socket_wf (window_updated g seq ack w).
Proof. intros []. unfold window_updated. destruct (updates_window _ _ _); by split. Qed.

(** What an acknowledgement changes in a socket. *)
Definition acked (g g' : TCPSocketState) : Prop :=
  ∃ q t una w ws wa, g' = g <| retransmit_queue := q |> <| retransmit_timer_id := t |>
    <| send_unacked := una |> <| send_window := w |> <| send_last_win_seq := ws |>
    <| send_last_win_ack := wa |>.

Lemma handle_ack_runs s k h g ack seq w :
  socket_wf g → in_flight g → is_u32 ack → ip_ok (ip s) (nfrags (retransmit_queue g) + k) →
  runs (g' ← process_ack g ack; update_window h g' seq ack w) s (λ g' s',
    acked g g' ∧ locked_step s s' [] ∧ ip_ok (ip s') (nfrags (retransmit_queue g') + k) ∧
    socket_wf g' ∧ in_flight g' ∧
    contents (retransmit_queue g') =
      drop (Z.to_nat (newly_acked g ack)) (contents (retransmit_queue g)) ∧
    send_unacked g' = u32_wrapping_add (send_unacked g) (newly_acked g ack)).
Proof.
  intros Hwf Hfl Hack Hok. apply runs_bind. call process_ack_runs; [done..|].
  intros g1 s1 (Hl1 & Hip1 & Hwf1 & Hfl1 & Hq & Hu & (q & t & una & Hg1) & _).
  call update_window_runs; [exact Hip1|]. intros g' s' (-> & Hl2 & Hip2 & _).
  assert (∃ w' ws wa, window_updated g1 seq ack w = g1 <| send_window := w' |>
    <| send_last_win_seq := ws |> <| send_last_win_ack := wa |>) as (w' & ws & wa & Hw).
  { unfold window_updated. destruct (updates_window g1 seq ack); [by exists w, seq, ack|].
    exists (send_window g1), (send_last_win_seq g1), (send_last_win_ack g1). by destruct g1. }
  assert (socket_wf (window_updated g1 seq ack w)) as Hwf2 by (by apply window_updated_wf).
  rewrite Hw in *. split_and!; try done.
  - exists q, t, una, w', ws, wa. by rewrite Hg1.
  - exact (locked_trans _ _ _ _ _ Hl1 Hl2).
Qed.

Lemma segment_arrives_runs s g opts :
  runs (segment_arrives g opts) s (λ g' s', ∃ m t, s' = s <| timers := t |> ∧
    g' = g <| send_mss := m |> <| response_timer_id := -1 |> ∧ locked_step s s' [] ∧
    m = if max_segment_size opts =? 0 then send_mss g else max_segment_size opts).
Proof.
  unfold segment_arrives. cbv zeta. set (g1 := if negb (max_segment_size opts =? 0) then _ else g).
  set (m := if max_segment_size opts =? 0 then send_mss g else max_segment_size opts).
  assert (g1 = g <| send_mss := m |>) as Hm.
  { unfold g1, m. destruct (max_segment_size opts =? 0); cbn [negb]; [|done]. by destruct g. }
  call (cancel_unset_runs s _ _ (response_timer_id g1)). intros g2 s2 (t & -> & Hl & Hg2).
  exists m, t. split_and!; try done. rewrite Hg2, Hm.
  change (response_timer_id (set_field send_mss _ g)) with (response_timer_id g).
  destruct (Z.eqb_spec (response_timer_id g) (-1)) as [E|]; [|done]. rewrite <-E. by destruct g.
Qed.

(** ** A data segment for an open connection *)


(** A connection over which data flows. *)
Definition open_connection (stream : Z → Z) (start next : Z) (g : TCPSocketState) : Prop :=
  state g = Established ∧ in_flight g ∧ receiving stream start next g.

(** What a segment that carries the octets of [b], from offset [off] on, and
    acknowledges [ack] does to an open connection. *)
Record data_received (stream : Z → Z) (start next next' off : Z) (b : NetBuffer) (ack : Z)
    (g g' : TCPSocketState) : Prop := {
  dr_open : open_connection stream start next' g';
  dr_next : if decide (off = next) then off + zlen (contents b) ≤ next' else next' = next;
  dr_bounds : next ≤ next' < next + 2147483648;
  dr_reassembled :
    reassembled off b next next' (out_of_order (reassembler g)) (out_of_order (reassembler g'));
  dr_acks : 0 ≤ num_delayed_acks g' < 0x7fffffff;
  dr_queue : contents (retransmit_queue g') =
    drop (Z.to_nat (newly_acked g ack)) (contents (retransmit_queue g));
  dr_unacked : send_unacked g' = u32_wrapping_add (send_unacked g) (newly_acked g ack);
  dr_seq : send_next_seq g' = send_next_seq g;
}.

Lemma input_socket_data_runs s k h g b hd opts stream start next off :
  tcp_ok s (nfrags b + k) → sockets s !! h = Some g → state g = Established → in_flight g →
  receiving stream start next g → 0 ≤ num_delayed_acks g < 0x7fffffff →
  zlen (contents (receive_queue g)) < 0x7fffffff →
  buf_ok b → contents b ≠ [] → at_offset stream off (contents b) →
  next - 2147483648 < off → off + zlen (contents b) < next + 2147483648 →
  h_seq_num hd = off mod u32_size → is_u32 (h_ack_num hd) →
  has_flag (h_flags hd) FLAG_ACK = true → has_flag (h_flags hd) FLAG_RST = false →
  has_flag (h_flags hd) FLAG_FIN = false →
  runs (input_socket h b hd opts) s (λ _ s', ∃ s1 g' next' frames,
    s' = put_back s1 h g' ∧ tcp_ok s' k ∧ locked_step s s1 frames ∧
    data_received stream start next next' off b (h_ack_num hd) g g' ∧ (off = next → h ∈ notified s1)).
Proof.
  intros Hok Hg Hst Hfl Hrec Hn Hlen Hb Hne Hat Hlo Hhi Hseq Hack HA HR HF.
  destruct (locked_ok _ _ _ _ Hok Hg) as [Hwf Hip].
  unfold input_socket. eapply lock_runs; [exact Hg|]. apply runs_bind.
  call segment_arrives_runs. intros g' s' (m & t & -> & -> & Hl2 & _).
  set (g2 := g <| send_mss := m |> <| response_timer_id := -1 |>) in *.
  assert (socket_wf g2) as Hwf2 by (by destruct Hwf).
  assert (receiving stream start next g2) as Hrec2 by (by destruct Hrec).
  rewrite HR. assert (is_empty b = false) as ->.
  { apply not_true_iff_false. by rewrite is_empty_spec. }
  cbn [negb]. rewrite Hseq. apply runs_bind.
  set (k' := nfrags (retransmit_queue g) + others s k g).
  assert (nfrags b + (receive_frags g2 + k') = socket_frags g + others s (nfrags b + k) g) as Hk'.
  { unfold k', receive_frags, socket_frags, others. cbn. lia. }
  call (receive_data_runs (s <| timers := t |>) k' h g2); try done.
  { rewrite (step_clock _ _ _ Hl2). apply Hok. } { by rewrite Hk'. }
  intros g3 s3 (next' & frames & Hrcv & Hwf3 & Hrec3 & Hnext & Hbnd & Hre3 & Hnot & Hl3 & Hip3 & Hda).
  destruct Hrcv as (rn & ra & rq & n & td & E).
  assert (state g3 = Established) as Hst3 by (by rewrite E).
  rewrite HA. unfold is_established. rewrite Hst3, bool_decide_eq_false_2 by (by intros [?|[?|?]]). cbn [negb andb].
  apply runs_bind. call (handle_ack_runs s3 (receive_frags g3 + others s k g)); try done.
  { by rewrite E. }
  { assert (retransmit_queue g3 = retransmit_queue g) as -> by (by rewrite E).
    by replace (nfrags _ + _) with (receive_frags g3 + k') by lia. }
  intros g4 s4 ((q & tr & una & w & ws & wa & E4) & Hl4 & Hip4 & Hwf4 & Hfl4 & Hq4 & Hu4).
  assert (state g4 = Established) as Hst4 by (by rewrite E4).
  unfold state_transition. rewrite Hst4, HF. unfold unlock. run.
  pose proof (locked_trans _ _ _ _ _ Hl2 (locked_trans _ _ _ _ _ Hl3 Hl4)) as Hl.
  cbn [app] in Hl. rewrite app_nil_r in Hl.
  exists s4, g4, next', frames. split_and!; try done.
  - eapply (unlocked_ok s s4); [exact Hok|exact Hg|apply Hl|apply Hl|exact Hwf4|].
    assert (receive_frags g4 = receive_frags g3) as Hrf by (by rewrite E4).
    unfold socket_frags, receive_frags in *.
    by replace (nfrags (receive_queue g4) + _ + _ + _) with (nfrags (retransmit_queue g4) +
      (nfrags (receive_queue g3) + ooo_frags (out_of_order (reassembler g3)) + others s k g)) by lia.
  - split; try done.
    + split; [done|]. split; [done|]. rewrite E4. by destruct Hrec3.
    + by rewrite E4.
    + assert (num_delayed_acks g4 = num_delayed_acks g3) as -> by (by rewrite E4).
      change (num_delayed_acks g2) with (num_delayed_acks g) in Hda.
      destruct (Z.leb_spec MAX_DELAYED_ACKS (num_delayed_acks g + 1)); rewrite ?HF in Hda;
        cbn [orb] in Hda; destruct Hda as [-> _]; lia.
    + by rewrite Hq4, E.
    + by rewrite Hu4, E.
    + by rewrite E4, E.
  - intros Hoff. destruct (step_notified _ _ _ Hl4) as [l Hp]. rewrite Hp, Hnot, decide_True by done.
    set_solver.
Qed.

(** ** A segment from its first octet on *)

(** [b] holds the segment [p] with [payload], as [src] sent it to this host. *)
Record segment_buffer (s : TcpState) (b : NetBuffer) (src : IPAddr) (p : TCPSendParams)
    (opts : list tcp_option) (payload : list Z) : Prop := {
  seg_buf : buf_ok b ∧ even_layout b;
  seg_contents : contents b = tcp_segment
    (tcp_sum src (local_addr (netif (ip s)) src) (20 + zlen (options p) + zlen payload)) p payload;
  seg_header : ∃ ck r, header b = Ok (tcp_header p ck ++ r);
  seg_params : params_ok p ∧ IPAddr_ok src ∧ bytes_ok payload;
  seg_options : ∃ pad, options p = encode_options opts ++ pad ∧ padding_ok pad ∧ Forall option_ok opts;
  seg_length : zlen (contents b) ≤ 65535;
}.

Lemma parse_options_encoded opts pad :
  Forall option_ok opts → padding_ok pad →
  parse_options (encode_options opts ++ pad) = Ok {| max_segment_size := last_mss 0 opts |}.
Proof.
  intros Ho Hp. unfold parse_options.
  apply (parse_loop_options _ [] opts pad 0); [done|done|].
  pose proof (encode_options_length opts). rewrite length_app. lia.
Qed.

(** A valid segment is handed, without its header, to the connection it is
    for. *)
Lemma tcp_input_runs s k b src p opts payload Q :
  segment_buffer s b src p opts payload → ip_ok (ip s) (nfrags b + k) →
  let o := {| max_segment_size := last_mss 0 opts |} in
  (∀ b' (q : BufState), buf_ok b' → contents b' = payload → pool_ok q (nfrags b' + k) →
    runs (match PORT_MAP s !! (src, source_port p, dest_port p) with
          | None => input_no_socket b' src (header_of p) o
          | Some h => input_socket h b' (header_of p) o
          end) (update q s) Q) →
  runs (tcp_input b src) s Q.
Proof.
  intros [[Hb He] Hc (ck & r & Hh) (Hp & Hsrc & Hpl) (pad & Ho & Hpad & Hoo) Hlen] Hok o Hk.
  set (len := 20 + zlen (options p) + zlen payload) in *.
  assert (zlen (contents b) = len) as Hz.
  { rewrite Hc. unfold tcp_segment. rewrite zlen_app, zlen_tcp_header. unfold len. lia. }
  pose proof (zlen_nonneg payload). pose proof (zlen_nonneg (options p)).
  unfold tcp_input. apply runs_bind. apply runs_zoom.
  call validate_checksum_runs; [done|done|lia|done|exact Hok|].
  intros v i [-> ->]. rewrite update_view.
  destruct (local_addr_ok _ _ src Hok) as [Hlo Hlv].
  pose proof (tcp_sum_range src _ len Hsrc Hlo Hlv) as Hsum.
  rewrite Hz, Hc, tcp_segment_checks; [|apply Hsum|done|done].
  change (0xffff =? 0xffff) with true. cbn [negb]. run. rewrite Hh. run.
  rewrite decode_header_spec by done. run.
  change (h_header_length (header_of p)) with (20 + zlen (options p)).
  rewrite buf_ok_len, Hz by done. run.
  assert (slice (tcp_header p ck ++ r) 20 (20 + zlen (options p)) = Ok (options p)) as ->.
  { destruct (tcp_header_options p ck) as (fixed & Hf & ->). rewrite <-app_assoc.
    apply slice_split; lia. }
  run. rewrite Ho at 1. rewrite parse_options_encoded by done. run.
  call trim_head_runs; [done|lia|apply Hok|]. intros b' q (Hb' & Hc' & _ & _ & Hq).
  apply Hk; [done| |done]. rewrite Hc', Hc. unfold tcp_segment. apply drop_app_zlen.
  apply zlen_tcp_header.
Qed.

End Conn.
