(* ===== verification/TcpControl.v ===== *)
(** * tcp.rs: the connection state machine

    Specifications of the transitions segments cause, of the end of TIME-WAIT
    being scheduled, and of the response timer. *)

From S2P Require Import Prelude Util Buf BufSpec Checksum Timer Netif Ip Reassembler TcpOptions Tcp TcpSpec TcpData TcpConn.
From stdpp Require Import gmap.
Local Open Scope Z_scope.

(** * The states of a connection *)

(** What a segment does to the state: [ack] and [fin] are its flags, and
    [fin_acked] says that it acknowledges this side's FIN. *)
Definition next_state (st : TCPState) (ack fin fin_acked : bool) : TCPState :=
  match st with
  | SynSent | SynReceived => if ack then Established else st
  | Established => if fin then CloseWait else st
  | LastAck => if ack then Closed else st
  | FinWait1 => if ack && fin && fin_acked then TimeWait
                else if fin then Closing
                else if ack && fin_acked then FinWait2 else st
  | FinWait2 => if fin then TimeWait else st
  | Closing => if ack then TimeWait else st
  | _ => st
  end.

(** The edges of the connection state diagram (RFC 9293, figure 5) that an
    arriving segment takes; [rst] says that it is a reset, which closes the
    connection in any state. *)
Inductive segment_edge : bool → TCPState → TCPState → Prop :=
| edge_syn_sent : segment_edge false SynSent Established
| edge_syn_received : segment_edge false SynReceived Established
| edge_established : segment_edge false Established CloseWait
| edge_last_ack : segment_edge false LastAck Closed
| edge_fin_wait_1_ack : segment_edge false FinWait1 FinWait2
| edge_fin_wait_1_fin : segment_edge false FinWait1 Closing
| edge_fin_wait_1_both : segment_edge false FinWait1 TimeWait
| edge_fin_wait_2 : segment_edge false FinWait2 TimeWait
| edge_closing : segment_edge false Closing TimeWait
| edge_reset st : segment_edge true st Closed.

(** What a segment does to the state of its connection. *)
Definition segment_state (st : TCPState) (rst ack fin fin_acked : bool) : TCPState :=
  if rst then Closed else next_state st ack fin fin_acked.

Lemma segment_state_edge st rst ack fin fin_acked :
  segment_state st rst ack fin fin_acked = st ∨
  segment_edge rst st (segment_state st rst ack fin fin_acked).
Proof.
  destruct rst; [right; constructor|].
  destruct st, ack, fin, fin_acked; cbn; (by left) || (right; constructor).
Qed.

(** The states in which a FIN of the peer may be acknowledged: the
    acknowledgement number is then one more than that of the next octet. *)
Definition acks_peer_fin (st : TCPState) : bool :=
  bool_decide (st = FinWait1 ∨ st = FinWait2 ∨ st = Closing ∨ st = CloseWait).

(** The transitions that send an acknowledgement themselves. *)
Definition sends_ack (st st' : TCPState) : bool :=
  bool_decide (st = SynSent ∧ st' = Established ∨ st = FinWait1 ∧ st' = Closing ∨
               st = FinWait2 ∧ st' = TimeWait).

(** What a transition leaves alone. *)
Definition same_queues (g g' : TCPSocketState) : Prop :=
  receive_queue g' = receive_queue g ∧ retransmit_queue g' = retransmit_queue g ∧
  out_of_order (reassembler g') = out_of_order (reassembler g).

Section Control.
Context `{!Tun, !TunOk, !Random}.

(** The fields a request needs, in any state. *)
Lemma can_send_next g : get_next_expect (reassembler g) + 1 < u32_size → can_send g.
Proof. unfold can_send. destruct (acks_fin g); lia. Qed.

Lemma can_send_room g :
  socket_wf g → (acks_peer_fin (state g) = true → get_next_expect (reassembler g) + 1 < u32_size) →
  can_send g.
Proof.
  intros Hwf Hroom. destruct (acks_peer_fin (state g)) eqn:E; [by apply can_send_next, Hroom|].
  destruct Hwf as [_ _ _ _ (_ & _ & [? ?])]. unfold can_send.
  assert (acks_fin g = false) as ->; [|lia]. unfold acks_fin, is_state. unfold acks_peer_fin in E.
  apply bool_decide_eq_false in E. rewrite !bool_decide_eq_false_2 by tauto. done.
Qed.

(** The outcome of a transition. *)
Definition transition_result (s : TcpState) (k : Z) (h : SocketReference) (g : TCPSocketState)
    (st' : TCPState) (g' : TCPSocketState) (s' : TcpState) : Prop :=
  ∃ frames, state g' = st' ∧ socket_wf g' ∧ same_queues g g' ∧ locked_step s s' frames ∧
    ip_ok (ip s') k ∧
    (if sends_ack (state g) st'
     then ∃ f sender, frames = [f] ∧ is_frame (netif (ip s)) (send_params sender FLAG_ACK) [] f ∧
            (sender = g ∨ send_params sender FLAG_ACK = send_params g' FLAG_ACK)
     else frames = []) ∧
    (state g ≠ TimeWait → st' = TimeWait → ∃ timer_id,
       pending_last s' TIME_WAIT_TIMEOUT (TimeWaitTimeout h) timer_id).

(** A transition that sends nothing. *)
Lemma transition_quiet s s' k h g g' st' :
  st' = state g' → socket_wf g' → same_queues g g' → ip_ok (ip s') k →
  sends_ack (state g) (state g') = false → (state g = TimeWait ∨ state g' ≠ TimeWait) →
  locked_step s s' [] → runs (mret g') s' (transition_result s k h g st').
Proof.
  intros -> Hwf Hq Hok Hs Ht Hl. run. exists []. rewrite Hs. split_and!; try done. by destruct Ht.
Qed.

(** Entering TIME-WAIT starts its timer. *)
Lemma enter_time_wait_runs s s0 k h g0 g frames :
  socket_wf g → 0 ≤ current_time_ms (timers s) < 9223372036854775808 → ip_ok (ip s) k →
  locked_step s0 s frames → same_queues g0 g →
  (if sends_ack (state g0) TimeWait
   then ∃ f, frames = [f] ∧ is_frame (netif (ip s0)) (send_params g0 FLAG_ACK) [] f
   else frames = []) →
  runs (zoom (set_timer TIME_WAIT_TIMEOUT (TimeWaitTimeout h));; mret (set_state TimeWait g)) s
    (λ g' s', transition_result s0 k h g0 TimeWait g' s').
Proof.
  intros Hwf Hclk Hok Hl Hq Hf. apply runs_bind. call set_tcp_timer_runs; [done|done|].
  intros i s' (Hi & t & -> & Hl' & Hp). run. exists frames.
  split_and!; try done; [by apply set_state_wf| | |].
  - rewrite <-(app_nil_r frames). exact (locked_trans _ _ _ _ _ Hl Hl').
  - destruct (sends_ack _ _); [|done]. destruct Hf as (f & -> & Hf). exists f, g0.
    split_and!; [done|done|by left].
  - intros _ _. exists i. eexists. cbn. rewrite Hp. do 4 f_equal. symmetry. apply (step_clock _ _ _ Hl').
Qed.

(** A transition that sends an acknowledgement. *)
Lemma transition_request s k h g sender m Q :
  socket_wf sender → can_send sender →
  0 ≤ current_time_ms (timers s) < 9223372036854775808 → ip_ok (ip s) k →
  (∀ timer_id f s', locked_step s s' [f] →
    is_frame (netif (ip s)) (send_params sender FLAG_ACK) [] f → ip_ok (ip s') k →
    0 ≤ current_time_ms (timers s') < 9223372036854775808 →
    runs (m (sender <| response_timer_id := timer_id |>)) s' (transition_result s k h g Q)) →
  runs (send_packet sender NetBuffer_new FLAG_ACK;; g' ← set_response_timer sender h; m g') s
    (transition_result s k h g Q).
Proof.
  intros Hwf Hcs Hclk Hok Hm. apply (request_runs s k); try done.
  intros tid f s' _ Hl Hf Hok' _ _. apply (Hm tid f); try done. by rewrite (step_clock _ _ _ Hl).
Qed.

(** The socket when its SYN has been answered. *)
Definition syn_answered (g : TCPSocketState) (seq ack w : Z) : TCPSocketState :=
  (set_state Established g)
    <| receive_next_seq := u32_wrapping_add seq 1 |>
    <| reassembler ::= set_next_expect (u32_wrapping_add seq 1) |>
    <| send_window := w |> <| send_last_win_seq := seq |> <| send_last_win_ack := ack |>
    <| send_unacked := ack |> <| send_next_seq ::= λ n, u32_wrapping_add n 1 |>.

Lemma syn_answered_wf g seq ack w :
  socket_wf g → is_u32 ack → socket_wf (syn_answered g seq ack w).
Proof.
  intros [? ? ? ? (? & ? & ?)] ?. split; try done. split_and!; [|done|]; apply wrapping_add_range; lia.
Qed.

Lemma syn_answered_runs s k h g seq ack w :
  socket_wf g → is_u32 ack → state g = SynSent →
  0 ≤ current_time_ms (timers s) < 9223372036854775808 → ip_ok (ip s) k →
  runs (send_packet (syn_answered g seq ack w) NetBuffer_new FLAG_ACK;;
        g' ← set_response_timer (syn_answered g seq ack w) h; notify_all h;; mret g') s
    (transition_result s k h g Established).
Proof.
  intros Hwf Hack Hst Hclk Hok. pose proof (syn_answered_wf g seq ack w Hwf Hack) as Hwf'.
  apply transition_request; [done|by apply can_send_established|done|done|].
  intros tid f s' Hl Hf Hok' _. unfold notify_all. run. exists [f]. rewrite Hst.
  split_and!; try done; [by apply response_timer_wf|exact (locked_trans _ _ _ _ _ Hl (locked_notify s' h))|].
  exists f, (syn_answered g seq ack w). split_and!; [done|done|by right].
Qed.

Lemma closing_runs s k h g :
  socket_wf g → get_next_expect (reassembler g) + 1 < u32_size → state g = FinWait1 →
  0 ≤ current_time_ms (timers s) < 9223372036854775808 → ip_ok (ip s) k →
  runs (send_packet (set_state Closing g) NetBuffer_new FLAG_ACK;;
        set_response_timer (set_state Closing g) h) s (transition_result s k h g Closing).
Proof.
  intros Hwf Hcs Hst Hclk Hok. apply runs_bind.
  pose proof (set_state_wf Closing g Hwf) as Hwf'.
  call send_empty_runs; [done|by apply can_send_next|done|exact Hok|].
  intros _ s1 (i & -> & Hok1 & Hl1). call set_response_timer_runs; [done|].
  intros g' s' (tid & t & -> & -> & _ & Hl2 & _). eexists. rewrite Hst.
  split_and!; [done|by apply response_timer_wf|done|exact (locked_trans _ _ _ _ _ Hl1 Hl2)|exact Hok1| |done].
  eexists _, (set_state Closing g). split_and!; [done| |by right].
  by eapply (tcp_frame_is_frame (ip s)).
Qed.

Lemma fin_wait_2_runs s k h g :
  socket_wf g → get_next_expect (reassembler g) + 1 < u32_size → state g = FinWait2 →
  0 ≤ current_time_ms (timers s) < 9223372036854775808 → ip_ok (ip s) k →
  runs (send_packet g NetBuffer_new FLAG_ACK;;
        g' ← set_response_timer g h;
        zoom (set_timer TIME_WAIT_TIMEOUT (TimeWaitTimeout h));; mret (set_state TimeWait g')) s
    (transition_result s k h g TimeWait).
Proof.
  intros Hwf Hcs Hst Hclk Hok.
  apply transition_request; [done|by apply can_send_next|done|done|].
  intros tid f s' Hl Hf Hok' Hclk'.
  apply (enter_time_wait_runs s' s k h g _ [f]); try done; [by apply response_timer_wf|].
  rewrite Hst. by exists f.
Qed.

Lemma state_transition_runs s k h g fl seq ack w :
  socket_wf g → (acks_peer_fin (state g) = true → get_next_expect (reassembler g) + 1 < u32_size) →
  is_u32 ack → 0 ≤ current_time_ms (timers s) < 9223372036854775808 → ip_ok (ip s) k →
  runs (state_transition h g fl seq ack w) s (transition_result s k h g
    (next_state (state g) (has_flag fl FLAG_ACK) (has_flag fl FLAG_FIN)
      (ack =? u32_wrapping_add (send_next_seq g) 1))).
Proof.
  intros Hwf Hcs Hack Hclk Hok. pose proof Hwf as [? ? ? ? (? & ? & ?)].
  assert (∀ st, socket_wf (set_state st g)) as Hset by (intros; by apply set_state_wf).
  assert (∀ st' g', st' = state g' → socket_wf g' → same_queues g g' →
    sends_ack (state g) (state g') = false → (state g = TimeWait ∨ state g' ≠ TimeWait) →
    runs (mret g') s (transition_result s k h g st')) as Hquiet.
  { intros. by apply transition_quiet; try done; apply locked_refl. }
  assert (sends_ack (state g) TimeWait = false →
    runs (zoom (set_timer TIME_WAIT_TIMEOUT (TimeWaitTimeout h));; mret (set_state TimeWait g)) s
      (transition_result s k h g TimeWait)) as Htw.
  { intros E. apply (enter_time_wait_runs s s k h g g []); try done; [apply locked_refl|by rewrite E]. }
  assert (state g = Established → runs (notify_all h;; mret (set_state CloseWait g)) s
    (transition_result s k h g CloseWait)) as Hcw.
  { intros E. unfold notify_all. apply runs_bind. run.
    apply transition_quiet; rewrite ?E; try done; [by right|apply locked_notify]. }
  assert (state g = SynReceived → runs (mret ((set_state Established g)
    <| send_next_seq ::= λ n, u32_wrapping_add n 1 |> <| send_unacked := ack |>)) s
    (transition_result s k h g Established)) as Hsr.
  { intros E. apply Hquiet; rewrite ?E; try done; [|by right].
    split; try done. split_and!; [apply wrapping_add_range; lia|done|done]. }
  unfold state_transition. destruct (state g) eqn:Hst; cbn [next_state];
    destruct (has_flag fl FLAG_ACK) eqn:HA, (has_flag fl FLAG_FIN) eqn:HF,
      (ack =? u32_wrapping_add (send_next_seq g) 1) eqn:Hfa; cbn [andb];
    lazymatch goal with
    | |- runs (zoom _ ≫= _) _ _ => by apply Htw
    | |- runs (notify_all _ ≫= _) _ _ => by apply Hcw
    | |- runs (send_packet (set_state Closing g) _ _ ≫= _) _ _ =>
        exact (closing_runs s k h g Hwf (Hcs eq_refl) Hst Hclk Hok)
    | |- runs (send_packet g _ _ ≫= _) _ _ => exact (fin_wait_2_runs s k h g Hwf (Hcs eq_refl) Hst Hclk Hok)
    | |- runs (send_packet _ _ _ ≫= _) _ _ =>
        exact (syn_answered_runs s k h g seq ack w Hwf Hack Hst Hclk Hok)
    | |- runs (mret g) _ _ => apply Hquiet; rewrite ?Hst; first [done | by left | by right | by repeat split]
    | |- runs (mret (set_state _ g)) _ _ =>
        apply Hquiet; rewrite ?Hst; first [apply Hset | done | by right | by repeat split]
    | |- _ => by apply Hsr
    end.
Qed.

(** ** The response timer *)

(** The request that is repeated in each state. *)
Definition response_flags (st : TCPState) : option Z :=
  match st with
  | SynSent => Some FLAG_SYN
  | FinWait1 | LastAck => Some FLAG_FIN
  | Closing | CloseWait => Some FLAG_ACK
  | _ => None
  end.

(** The states in which no timer should be running. *)
Definition unexpected_timeout (st : TCPState) : Prop :=
  st = SynReceived ∨ st = FinWait2 ∨ st = TimeWait ∨ st = Listen.

Lemma response_timeout_panics s h g :
  sockets s !! h = Some g → request_retry_count g < MAX_RETRIES → unexpected_timeout (state g) →
  response_timeout h s = Panic.
Proof.
  intros Hg Hr Hst. unfold response_timeout. rewrite (bind_Ok _ _ _ g s) by (by apply lock_eq).
  rewrite (proj2 (Z.leb_gt _ _)) by lia.
  apply bind_Panic. unfold resend_request. by destruct Hst as [E|[E|[E|E]]]; rewrite E.
Qed.

Lemma response_timer_socket_ok s s1 k h g timer_id :
  tcp_ok s k → sockets s !! h = Some g → sockets s1 = sockets s →
  current_time_ms (timers s1) = current_time_ms (timers s) →
  ip_ok (ip s1) (socket_frags g + others s k g) →
  tcp_ok (put_back s1 h (g <| response_timer_id := timer_id |>)) k.
Proof.
  intros Hok Hg Hs Hc Hip. eapply (unlocked_ok s s1); try done.
  apply response_timer_wf. apply (locked_ok _ _ _ _ Hok Hg).
Qed.

(** What repeating the request in the state [g] does. *)
Definition request_sent (s s' : TcpState) (k : Z) (g g' : TCPSocketState) : Prop :=
  ∃ timer_id frames, g' = g <| response_timer_id := timer_id |> ∧ locked_step s s' frames ∧
    ip_ok (ip s') k ∧
    match response_flags (state g) with
    | Some fl => ∃ f, frames = [f] ∧ is_frame (netif (ip s)) (send_params g fl) [] f
    | None => frames = []
    end.

Lemma resend_request_runs s k h g :
  socket_wf g → can_send g → ¬ unexpected_timeout (state g) →
  0 ≤ current_time_ms (timers s) < 9223372036854775808 → ip_ok (ip s) k →
  runs (resend_request g h) s (λ g' s', request_sent s s' k g g').
Proof.
  intros Hwf Hcs Hst Hclk Hip.
  assert (response_flags (state g) = None → runs (mret g) s (λ g' s', request_sent s s' k g g')) as Hquiet.
  { intros E. run. exists (response_timer_id g), []. rewrite E.
    split_and!; [by destruct g|apply locked_refl|done..]. }
  assert (∀ fl, is_u8 fl → response_flags (state g) = Some fl →
    runs (send_packet g NetBuffer_new fl;; set_response_timer g h) s
      (λ g' s', request_sent s s' k g g')) as Hreq.
  { intros fl Hfl E. apply runs_bind. call send_empty_runs; [done..|exact Hip|].
    intros _ s1 (i & -> & Hip1 & Hl1). call set_response_timer_runs; [done|].
    intros g' s2 (tid & t & -> & -> & _ & Hl2 & _). eexists tid, _. rewrite E.
    split_and!; [done|exact (locked_trans _ _ _ _ _ Hl1 Hl2)|exact Hip1|].
    eexists. split; [done|]. by eapply (tcp_frame_is_frame (ip s)). }
  unfold unexpected_timeout, resend_request in *.
  destruct (state g); try (exfalso; tauto); (by apply Hquiet) || (by apply Hreq).
Qed.

(** The request is sent once more and its timer started again; the number of
    retries stays what it is. *)
Lemma response_timeout_runs s k h g :
  tcp_ok s k → sockets s !! h = Some g → request_retry_count g < MAX_RETRIES →
  ¬ unexpected_timeout (state g) → can_send g →
  runs (response_timeout h) s (λ _ s', ∃ s1 timer_id frames,
    s' = put_back s1 h (g <| response_timer_id := timer_id |>) ∧ tcp_ok s' k ∧
    locked_step s s1 frames ∧ pending_last s1 RESPONSE_TIMEOUT (ResponseTimeout h) timer_id ∧
    match response_flags (state g) with
    | Some fl => ∃ f, frames = [f] ∧ is_frame (netif (ip s)) (send_params g fl) [] f
    | None => frames = []
    end).
Proof.
  intros Hok Hg Hr Hst Hcs. destruct (locked_ok _ _ _ _ Hok Hg) as [Hwf Hip].
  pose proof (tcp_clock _ _ Hok) as Hclk.
  unfold response_timeout. eapply lock_runs; [exact Hg|].
  rewrite (proj2 (Z.leb_gt _ _)) by lia. apply runs_bind.
  call resend_request_runs; [done..|exact Hip|].
  intros g1 s1 (tid & frames & -> & Hl1 & Hip1 & Hf). apply runs_bind.
  call set_response_timer_runs; [by rewrite (step_clock _ _ _ Hl1)|].
  intros g2 s2 (tid2 & t & -> & -> & _ & Hl2 & Hp). unfold unlock. run.
  pose proof (locked_trans _ _ _ _ _ Hl1 Hl2) as Hl. rewrite app_nil_r in Hl.
  eexists (s1 <| timers := t |>), tid2, frames. split_and!; [done| |done..].
  exact (response_timer_socket_ok s _ k h g tid2 Hok Hg (step_sockets _ _ _ Hl)
    (step_clock _ _ _ Hl) Hip1).
Qed.

End Control.
