(* ===== verification/TcpOpen.v ===== *)
(** * tcp.rs: opening connections

    Specifications of tcp_open and of the connection a SYN makes for a
    listener. *)

From S2P Require Import Prelude Util Buf BufSpec Checksum Timer Netif Ip Reassembler TcpOptions Tcp TcpSpec TcpData TcpConn TcpControl.
From stdpp Require Import gmap.
Local Open Scope Z_scope.

Lemma insert_last {A} (l : list A) x y : <[length l := y]> (l ++ [x]) = l ++ [y].
Proof. rewrite <-(Nat.add_0_r (length l)) at 1. by rewrite insert_app_r. Qed.

Section Open.
Context `{!Tun, !TunOk, !Random, !RandomOk}.

(** * Local ports *)

(** The port that the [n]-th random number stands for. *)
Definition ephemeral_port (n : nat) : Z := EPHEMERAL_PORT_BASE + random_u16 n mod 16383.

Lemma ephemeral_port_range n : EPHEMERAL_PORT_BASE ≤ ephemeral_port n < 0xffff.
Proof. unfold ephemeral_port. pose proof (Z.mod_pos_bound (random_u16 n) 16383). lia. Qed.

(** The first free port drawn is taken. *)
Lemma find_ephemeral_port_eq fuel n s a rp :
  (n < fuel)%nat →
  (∀ m, (m < n)%nat → is_Some (PORT_MAP s !! (a, rp, ephemeral_port (random_drawn s + m)))) →
  PORT_MAP s !! (a, rp, ephemeral_port (random_drawn s + n)) = None →
  find_ephemeral_port fuel a rp s =
    Ok (ephemeral_port (random_drawn s + n), s <| random_drawn := S (random_drawn s + n) |>).
Proof.
  revert n s. induction fuel as [|fuel IH]; intros n s Hn Htaken Hfree; [lia|].
  cbn [find_ephemeral_port]. unfold mbind, st_bind, fetches, modify. cbn -[Z.add Z.modulo Nat.add].
  change (49152 + random_u16 (random_drawn s) mod (65535 - 49152)) with (ephemeral_port (random_drawn s)).
  destruct n as [|n].
  - rewrite Nat.add_0_r in *. by rewrite Hfree.
  - destruct (Htaken O ltac:(lia)) as [x Hx]. rewrite Nat.add_0_r in Hx. rewrite Hx.
    rewrite (IH n); cbn -[Nat.add]; try lia.
    + by rewrite <-!Nat.add_succ_comm.
    + intros m Hm. rewrite Nat.add_succ_comm. apply Htaken. lia.
    + by rewrite Nat.add_succ_comm.
Qed.

(** * The active side *)

(** The socket of a connection that is being opened. *)
Definition opening_socket (a : IPAddr) (rp lp iss : Z) : TCPSocketState :=
  set_state SynSent (fresh_socket a rp lp iss).

Lemma tcp_open_runs fuel n s k a rp :
  tcp_ok s k → IPAddr_ok a → is_u16 rp → (n < fuel)%nat →
  (∀ m, (m < n)%nat → is_Some (PORT_MAP s !! (a, rp, ephemeral_port (random_drawn s + m)))) →
  PORT_MAP s !! (a, rp, ephemeral_port (random_drawn s + n)) = None →
  let lp := ephemeral_port (random_drawn s + n) in
  let g := opening_socket a rp lp (random_u32 (S (random_drawn s + n))) in
  runs (tcp_open fuel a rp) s (λ h s', h = length (sockets s) ∧ tcp_ok s' k ∧
    ∃ timer_id f, sockets s' = sockets s ++ [g <| response_timer_id := timer_id |>] ∧
      PORT_MAP s' = <[(a, rp, lp) := h]> (PORT_MAP s) ∧
      sent (netif (ip s)) (netif (ip s')) [f] ∧ is_frame (netif (ip s)) (send_params g FLAG_SYN) [] f ∧
      pending_last s' RESPONSE_TIMEOUT (ResponseTimeout h) timer_id).
Proof.
  intros Hok Ha Hrp Hn Htaken Hfree lp g. pose proof (ephemeral_port_range (random_drawn s + n)) as Hlp.
  unfold tcp_open. apply runs_bind.
  eapply runs_eq; [by apply (find_ephemeral_port_eq fuel n)|]. fold lp in Hlp |- *.
  apply runs_bind. eapply runs_eq; [apply TCPSocketState_new_eq|].
  apply runs_bind. eapply runs_eq; [apply new_socket_eq|].
  set (fresh := fresh_socket a rp lp _).
  assert (socket_wf fresh) as Hfw.
  { apply fresh_socket_wf; [done|done|unfold in_range; lia|apply random_u32_ok]. }
  set (h := length (sockets s)).
  set (s1 := s <| random_drawn := S (S (random_drawn s + n)) |> <| sockets := sockets s ++ [fresh] |>
    <| PORT_MAP := <[(a, rp, lp) := h]> (PORT_MAP s) |>).
  unfold port_map_insert. apply runs_bind. apply runs_modify.
  change (set_field PORT_MAP _ _) with s1.
  assert (tcp_ok s1 k) as Hok1.
  { destruct (new_socket_ok s k fresh Hok Hfw eq_refl). by split. }
  assert (sockets s1 !! h = Some fresh) as Hh by (by apply list_lookup_middle).
  destruct (locked_ok _ _ _ _ Hok1 Hh) as [_ Hip1].
  eapply lock_runs; [exact Hh|]. cbv zeta. change (set_state SynSent fresh) with g.
  change (length (sockets (set_field random_drawn _ _))) with h.
  apply (request_runs s1 (socket_frags fresh + others s1 k fresh)); [by destruct Hfw|done|done|apply Hok1|exact Hip1|].
  intros tid f s' _ Hl Hf Hip' _ Hp. unfold unlock. run.
  assert (<[h:=g <| response_timer_id := tid |>]> (sockets s') =
    sockets s ++ [g <| response_timer_id := tid |>]) as Hsk.
  { rewrite (step_sockets _ _ _ Hl). apply insert_last. }
  split; [done|]. split.
  - eapply (unlocked_ok s1 s' k k h fresh); [done|done|apply Hl|apply Hl|by destruct Hfw|exact Hip'].
  - exists tid, f. split_and!; [exact Hsk|exact (step_ports _ _ _ Hl)|exact (step_sent _ _ _ Hl)|exact Hf|exact Hp].
Qed.

(** * The passive side *)

(** The socket of a connection that a SYN asks for. *)
Definition accepted_socket (src : IPAddr) (sp dp iss seq ack w mss : Z) : TCPSocketState :=
  (set_state SynReceived (fresh_socket src sp dp iss)) <| send_mss := mss |>
    <| receive_next_seq := u32_wrapping_add seq 1 |>
    <| reassembler ::= set_next_expect (u32_wrapping_add seq 1) |>
    <| send_unacked := seq |> <| send_last_win_ack := ack |> <| send_last_win_seq := seq |>
    <| send_window := w |>.

Lemma accepted_socket_wf src sp dp iss seq ack w mss :
  IPAddr_ok src → is_u16 sp → is_u16 dp → is_u32 iss → is_u32 seq →
  socket_wf (accepted_socket src sp dp iss seq ack w mss).
Proof.
  intros Hs Hsp Hdp Hi Hq. destruct (fresh_socket_wf src sp dp iss Hs Hsp Hdp Hi).
  split; try done. split_and!; [done|done|]. apply wrapping_add_range. lia.
Qed.

Lemma handle_new_connection_runs s k lh lg src sp dp seq ack w mss :
  tcp_ok s k → sockets s !! lh = Some lg → state lg = Listen →
  IPAddr_ok src → is_u16 sp → is_u16 dp → is_u32 seq →
  let g := accepted_socket src sp dp (random_u32 (random_drawn s)) seq ack w mss in
  runs (handle_new_connection lh src sp dp seq ack w mss) s (λ h s', h = length (sockets s) ∧
    tcp_ok s' k ∧ ∃ timer_id f,
      sockets s' = <[lh := lg <| socket_queue ::= λ q, q ++ [h] |>]>
        (sockets s ++ [g <| response_timer_id := timer_id |>]) ∧
      PORT_MAP s' = PORT_MAP s ∧ notified s' = notified s ++ [lh] ∧
      sent (netif (ip s)) (netif (ip s')) [f] ∧
      is_frame (netif (ip s)) (send_params g (Z.lor FLAG_SYN FLAG_ACK)) [] f ∧
      pending_last s' RESPONSE_TIMEOUT (ResponseTimeout h) timer_id).
Proof.
  intros Hok Hlg Hlst Hsrc Hsp Hdp Hseq g. set (iss := random_u32 (random_drawn s)) in *.
  pose proof (accepted_socket_wf src sp dp iss seq ack w mss Hsrc Hsp Hdp (random_u32_ok _) Hseq) as Hgw.
  fold g in Hgw. unfold handle_new_connection. apply runs_bind.
  eapply runs_eq; [apply TCPSocketState_new_eq|]. apply runs_bind. eapply runs_eq; [apply new_socket_eq|].
  set (fresh := fresh_socket src sp dp _). set (h := length (sockets s)).
  set (s1 := s <| random_drawn := S (random_drawn s) |> <| sockets := sockets s ++ [fresh] |>).
  change (set_field sockets _ _) with s1. change (length (sockets (set_field random_drawn _ _))) with h.
  assert (socket_wf fresh) as Hfw by (by apply fresh_socket_wf, random_u32_ok).
  assert (tcp_ok s1 k) as Hok1 by (destruct (new_socket_ok s k fresh Hok Hfw eq_refl); by split).
  assert (sockets s1 !! h = Some fresh) as Hh by (by apply list_lookup_middle).
  destruct (locked_ok _ _ _ _ Hok1 Hh) as [_ Hip1]. eapply lock_runs; [exact Hh|]. cbv zeta.
  set (g0 := set_field reassembler _ _).
  assert (socket_wf g0) as Hg0 by (destruct Hgw as [? ? ? ? (? & ? & ?)]; by split).
  assert (can_send g0) as Hcs.
  { pose proof (wrapping_add_range u32_size seq 1 ltac:(lia)) as Hr. destruct Hr.
    change (u32_wrapping_add seq 1 + 0 < u32_size). lia. }
  apply runs_bind. call (send_empty_runs s1 (socket_frags fresh + others s1 k fresh)); try done.
  intros _ s2 (i & -> & Hip2 & Hl2). change (set_field send_window _ _) with g. apply runs_bind.
  call set_response_timer_runs; [apply Hok1|]. intros g1 s3 (tid & t & -> & -> & _ & Hl3 & Hp).
  unfold unlock at 1. apply runs_bind, runs_modify.
  set (s4 := set_field sockets _ _). set (g1 := g <| response_timer_id := tid |>) in *.
  pose proof (locked_trans _ _ _ _ _ Hl2 Hl3) as Hl.
  assert (tcp_ok s4 k) as Hok4.
  { eapply (unlocked_ok s1 _ k k h fresh); [done|done|apply Hl|apply Hl|by apply response_timer_wf|exact Hip2]. }
  assert (sockets s4 = sockets s ++ [g1]) as Hs4 by apply insert_last.
  assert (sockets s4 !! lh = Some lg) as Hlg4.
  { rewrite Hs4. by apply lookup_app_l_Some. }
  eapply lock_runs; [exact Hlg4|]. unfold is_state. rewrite bool_decide_eq_true_2 by done.
  unfold unlock, notify_all. run. split; [done|]. split.
  - destruct (locked_ok _ _ _ _ Hok4 Hlg4) as [Hlw Hlip].
    pose proof (unlocked_ok s4 s4 k k lh lg (lg <| socket_queue ::= λ q, q ++ [h] |>) Hok4 Hlg4
      eq_refl eq_refl) as Hok5.
    destruct Hok5; [by destruct Hlw|exact Hlip|by split].
  - eexists tid, _. split_and!; [|done|done|apply Hl| |exact Hp].
    + exact (f_equal <[lh := lg <| socket_queue ::= λ q, q ++ [h] |>]> Hs4).
    + by eapply (tcp_frame_is_frame (ip s)).
Qed.

End Open.
