(* ===== verification/TcpSegments.v ===== *)
(** * tcp.rs: segments without data

    What tcp_input does with the segments that open and close a connection. *)

From S2P Require Import Prelude Util Buf BufSpec Checksum Timer Netif Ip Reassembler TcpOptions Tcp TcpSpec TcpData TcpConn TcpControl TcpOpen.
From stdpp Require Import gmap.
Local Open Scope Z_scope.

(** An operation that works on the socket [h] alone leaves it as [g'] and
    sends [frames]. *)
Record socket_step (s s' : TcpState) (h : SocketReference) (g' : TCPSocketState)
    (frames : list (list Z)) : Prop := {
  ss_sockets : sockets s' = <[h := g']> (sockets s);
  ss_ports : PORT_MAP s' = PORT_MAP s;
  ss_random : random_drawn s' = random_drawn s;
  ss_sent : sent (netif (ip s)) (netif (ip s')) frames;
}.

Lemma socket_step_after `{!Tun} s s1 s' h g' frames :
  locked_step s s1 [] → socket_step s1 s' h g' frames → socket_step s s' h g' frames.
Proof.
  intros [Hp1 Hs1 Hr1 _ _ Hn1] [Hs Hp Hr Hn]. split; [by rewrite Hs, Hs1|congruence..|].
  exact (sent_trans _ _ _ _ _ Hn1 Hn).
Qed.

(** The segment size in use after a segment with these options. *)
Definition agreed_mss (g : TCPSocketState) (opts : TCPHeaderOptions) : Z :=
  if max_segment_size opts =? 0 then send_mss g else max_segment_size opts.

(** The socket after the first steps of every segment, and after its
    acknowledgement number has been looked at. *)
Definition after_ack (g g1 : TCPSocketState) (ack : Z) (opts : TCPHeaderOptions) : Prop :=
  ∃ m, let g0 := g <| send_mss := m |> <| response_timer_id := -1 |> in
    m = agreed_mss g opts ∧ acked g0 g1 ∧ (in_flight g → in_flight g1) ∧
    (is_established g = false ∨ seq_le ack (send_next_seq g) = false → g1 = g0).

(** What names a socket, and the numbers of its next octets. *)
Definition same_numbers (g g' : TCPSocketState) : Prop :=
  (remote_ip g' = remote_ip g ∧ remote_port g' = remote_port g ∧ local_port g' = local_port g) ∧
  receive_next_seq g' = receive_next_seq g ∧ send_next_seq g' = send_next_seq g ∧
  reassembler g' = reassembler g ∧ receive_queue g' = receive_queue g.

Lemma after_ack_same g g1 ack opts :
  after_ack g g1 ack opts → same_numbers g g1 ∧ state g1 = state g.
Proof. intros (m & _ & (q & t & una & w & ws & wa & E) & _). by rewrite E. Qed.

Section Segments.
Context `{!Tun, !TunOk, !Random, !RandomOk}.

Lemma acked_refl g : acked g g.
Proof.
  exists (retransmit_queue g), (retransmit_timer_id g), (send_unacked g), (send_window g),
    (send_last_win_seq g), (send_last_win_ack g). by destruct g.
Qed.

(** The end of input_socket. *)
Lemma finish_runs s0 s k h g g' b frames :
  tcp_ok s0 (nfrags b + k) → sockets s0 !! h = Some g → locked_step s0 s frames → socket_wf g' →
  buf_ok b → ip_ok (ip s) (socket_frags g' + others s0 (nfrags b + k) g) →
  runs (unlock h g';; zoom (drop_buffer b)) s (λ _ s',
    socket_step s0 s' h g' frames ∧ tcp_ok s' k ∧ notified s' = notified s ∧ timers s' = timers s).
Proof.
  intros Hok Hg Hl Hwf Hb Hip. unfold unlock. run.
  set (s1 := put_back s h g'). change (set_field sockets _ s) with s1.
  pose proof (unlocked_ok s0 s (nfrags b + k) (nfrags b + k) h g g' Hok Hg (step_sockets _ _ _ Hl)
    (step_clock _ _ _ Hl) Hwf Hip) as Hok1. change (tcp_ok s1 (nfrags b + k)) in Hok1.
  destruct Hok1 as [[Hnet Hid] Hs Hclk].
  call (drop_buffer_runs _ (sockets_frags (sockets s1) + k)); [done| |].
  { eapply pool_ok_ext; [apply Hnet|]. lia. }
  intros _ p Hp. destruct Hl as [Hpm Hsk Hr Hck Hn [? ? ? ?]].
  split_and!; [|split; [|done|done]|done|done].
  - split; try done. cbn. by rewrite Hsk.
  - split; [|done]. by eapply (net_ok_bufs (netif (ip s))).
Qed.

(** An acknowledgement that is out of the range of what is unacknowledged. *)
Definition ack_ignored (g : TCPSocketState) (ack : Z) : Prop :=
  seq_lt (send_unacked g) ack && seq_le ack (send_next_seq g) = false.

(** The number after the last that was sent: it acknowledges a SYN or a FIN. *)
Lemma ack_beyond g ack :
  ack = u32_wrapping_add (send_next_seq g) 1 → seq_le ack (send_next_seq g) = false.
Proof.
  intros ->. unfold seq_le. rewrite negb_false_iff, seq_gt_spec. fold (wrapping_sub u32_size
    (u32_wrapping_add (send_next_seq g) 1) (send_next_seq g)).
  rewrite wrapping_sub_add by done. lia.
Qed.

Lemma ack_beyond_ignored g ack : ack = u32_wrapping_add (send_next_seq g) 1 → ack_ignored g ack.
Proof. intros E. unfold ack_ignored. by rewrite (ack_beyond g ack E), andb_false_r. Qed.

Lemma window_updated_acked g seq ack w : acked g (window_updated g seq ack w).
Proof.
  unfold window_updated. destruct (updates_window g seq ack); [|apply acked_refl].
  exists (retransmit_queue g), (retransmit_timer_id g), (send_unacked g), w, seq, ack. by destruct g.
Qed.

Lemma ack_phase_runs s k h g ack seq w :
  socket_wf g → is_u32 ack → in_flight g ∨ ack_ignored g ack →
  ip_ok (ip s) (nfrags (retransmit_queue g) + k) →
  runs (g' ← process_ack g ack; update_window h g' seq ack w) s (λ g' s',
    acked g g' ∧ locked_step s s' [] ∧ ip_ok (ip s') (nfrags (retransmit_queue g') + k) ∧
    socket_wf g' ∧ (in_flight g → in_flight g') ∧
    (seq_le ack (send_next_seq g) = false → g' = g)).
Proof.
  intros Hwf Hack Hor Hok. destruct (seq_lt (send_unacked g) ack && seq_le ack (send_next_seq g)) eqn:E.
  - destruct Hor as [Hfl|Hig]; [|unfold ack_ignored in Hig; congruence].
    call handle_ack_runs; [done..|]. intros g' s' (Ha & Hl & Hip & Hwf' & Hfl' & _).
    split_and!; try done. intros E'. rewrite E', andb_false_r in E. done.
  - apply runs_bind. unfold process_ack. rewrite E. run.
    call update_window_runs; [exact Hok|]. intros g' s' (-> & Hl & Hip & _).
    assert (retransmit_queue (window_updated g seq ack w) = retransmit_queue g ∧
      (in_flight g → in_flight (window_updated g seq ack w))) as [Hq Hfl].
    { unfold window_updated. by destruct (updates_window g seq ack). }
    split_and!; [apply window_updated_acked|done|by rewrite Hq|by apply window_updated_wf|done|].
    intros E'. unfold window_updated, updates_window. by rewrite E', andb_false_r.
Qed.

(** A segment without data that is no reset: the acknowledgement, then the
    transition. *)
Lemma input_socket_control_runs s k h g b hd opts Q :
  tcp_ok s (nfrags b + k) → sockets s !! h = Some g → buf_ok b → contents b = [] →
  is_u32 (h_ack_num hd) → has_flag (h_flags hd) FLAG_RST = false →
  (has_flag (h_flags hd) FLAG_ACK = true → is_established g = true →
   in_flight g ∨ ack_ignored g (h_ack_num hd)) →
  (∀ g1 s1, after_ack g g1 (h_ack_num hd) opts → socket_wf g1 → locked_step s s1 [] →
    ip_ok (ip s1) (socket_frags g1 + others s (nfrags b + k) g) →
    runs (state_transition h g1 (h_flags hd) (h_seq_num hd) (h_ack_num hd) (h_window hd)) s1
      (λ g' s2, ∃ frames, socket_wf g' ∧ locked_step s s2 frames ∧
        ip_ok (ip s2) (socket_frags g' + others s (nfrags b + k) g) ∧
        ∀ s', socket_step s s' h g' frames → tcp_ok s' k → notified s' = notified s2 →
          timers s' = timers s2 → Q tt s')) →
  runs (input_socket h b hd opts) s Q.
Proof.
  intros Hok Hg Hb Hc Hack HR Hest Hk. destruct (locked_ok _ _ _ _ Hok Hg) as [Hwf Hip].
  unfold input_socket. eapply lock_runs; [exact Hg|]. apply runs_bind.
  call segment_arrives_runs. intros g0 s0 (m & t & -> & -> & Hl0 & Hm).
  set (g0 := g <| send_mss := m |> <| response_timer_id := -1 |>) in *.
  assert (socket_wf g0) as Hwf0 by (by destruct Hwf).
  rewrite HR, (proj2 (is_empty_spec b Hb) Hc). cbn [negb]. run.
  change (is_established g0) with (is_established g).
  apply (runs_mono _ _ (λ g1 s1, after_ack g g1 (h_ack_num hd) opts ∧ socket_wf g1 ∧ locked_step s s1 [] ∧
    ip_ok (ip s1) (socket_frags g1 + others s (nfrags b + k) g))).
  - destruct (has_flag (h_flags hd) FLAG_ACK && is_established g) eqn:EA.
    + apply andb_true_iff in EA as [HA E]. call (ack_phase_runs (s <| timers := t |>) (receive_frags g + others s (nfrags b + k) g) h g0);
        [done|done|by apply Hest| |].
      * by replace (nfrags _ + _) with (socket_frags g + others s (nfrags b + k) g)
          by (unfold socket_frags, receive_frags; cbn; lia).
      * intros g1 s1 (Ha & Hl1 & Hip1 & Hwf1 & Hfl1 & Hs1). split_and!; try done.
        -- exists m. split_and!; [done|done|done|]. intros [?|?]; [congruence|by apply Hs1].
        -- exact (locked_trans _ _ _ _ _ Hl0 Hl1).
        -- destruct Ha as (? & ? & ? & ? & ? & ? & E1).
           by replace (socket_frags g1 + _) with (nfrags (retransmit_queue g1) +
             (receive_frags g + others s (nfrags b + k) g))
             by (rewrite E1; unfold socket_frags, receive_frags; cbn; lia).
    + run. split_and!; try done. exists m. split_and!; [done|apply acked_refl|done|done].
  - intros g1 s1 (Ha & Hwf1 & Hl1 & Hip1). apply runs_bind.
    eapply runs_mono; [by apply Hk|]. cbv beta. intros g' s2 (frames & Hwf' & Hl2 & Hip2 & HQ).
    call (finish_runs s s2 k h g g' b frames); try done.
    intros [] s' (Hss & Hok' & Hn & Ht). by apply HQ.
Qed.

(** ** The handshake *)

(** A socket through which no data has passed yet. *)
Definition unused (g : TCPSocketState) : Prop :=
  contents (receive_queue g) = [] ∧ contents (retransmit_queue g) = [] ∧
  out_of_order (reassembler g) = [].

Lemma receiving_start stream next g :
  contents (receive_queue g) = [] → out_of_order (reassembler g) = [] →
  get_next_expect (reassembler g) = next mod u32_size → receiving stream next next g.
Proof.
  intros Hq Ho Hn. split; [|by rewrite Hq|rewrite Hq; change (zlen (@nil Z)) with 0; lia].
  split; [done|]. by rewrite Ho.
Qed.

Lemma in_flight_start g :
  contents (retransmit_queue g) = [] → send_unacked g = send_next_seq g → in_flight g.
Proof.
  intros Hq Hu. split; rewrite Hq; [|done]. rewrite Hu. unfold wrapping_sub. by rewrite Z.sub_diag.
Qed.

(** What the end of a handshake makes of a socket, besides what an open
    connection always is. *)
Record opened (g g' : TCPSocketState) (opts : TCPHeaderOptions) : Prop := {
  opened_ip : remote_ip g' = remote_ip g;
  opened_ports : remote_port g' = remote_port g ∧ local_port g' = local_port g;
  opened_seq : send_next_seq g' = u32_wrapping_add (send_next_seq g) 1;
  opened_mss : send_mss g' = agreed_mss g opts;
  opened_acks : num_delayed_acks g' = num_delayed_acks g;
  opened_unused : unused g';
  opened_next : state g = SynSent ∨ receive_next_seq g = get_next_expect (reassembler g) →
    receive_next_seq g' = get_next_expect (reassembler g');
}.

(** The answer to this side's SYN opens the connection; it is acknowledged and
    the thread that waits is woken. *)
Lemma handshake_client_runs s k h g b hd opts stream next :
  tcp_ok s (nfrags b + k) → sockets s !! h = Some g → state g = SynSent → unused g →
  buf_ok b → contents b = [] →
  has_flag (h_flags hd) FLAG_ACK = true → has_flag (h_flags hd) FLAG_RST = false →
  h_ack_num hd = u32_wrapping_add (send_next_seq g) 1 →
  u32_wrapping_add (h_seq_num hd) 1 = next mod u32_size →
  runs (input_socket h b hd opts) s (λ _ s', ∃ g' f, socket_step s s' h g' [f] ∧ tcp_ok s' k ∧
    open_connection stream next next g' ∧
    is_frame (netif (ip s)) (send_params g' FLAG_ACK) [] f ∧
    send_unacked g' = h_ack_num hd ∧ send_window g' = h_window hd ∧ h ∈ notified s' ∧ opened g g' opts).
Proof.
  intros Hok Hg Hst (Hq & Hr & Ho) Hb Hc HA HR Hack Hseq.
  assert (is_u32 (h_ack_num hd)) as Hau by (rewrite Hack; apply wrapping_add_range; lia).
  assert (is_established g = false) as Hest.
  { unfold is_established. rewrite bool_decide_eq_true_2; [done|]. rewrite Hst. by right; left. }
  apply (input_socket_control_runs s k h g); try done; [congruence|].
  intros g1 s1 (m & Hm & _ & _ & Hg1) Hwf1 Hl1 Hip1. rewrite Hg1 in * by (by left). clear Hg1 g1.
  set (g1 := g <| send_mss := m |> <| response_timer_id := -1 |>) in *.
  unfold state_transition. change (state g1) with (state g). rewrite Hst, HA.
  change (set_field send_next_seq _ _) with
    (syn_answered g1 (h_seq_num hd) (h_ack_num hd) (h_window hd)).
  set (g2 := syn_answered _ _ _ _). assert (socket_wf g2) as Hwf2 by (by apply syn_answered_wf).
  apply (request_runs s1 (socket_frags g1 + others s (nfrags b + k) g)); [done|by apply can_send_established|done| |done|].
  { rewrite (step_clock _ _ _ Hl1). apply Hok. }
  intros tid f s2 _ Hl2 Hf Hip2 Hn2 _. unfold notify_all. run. exists [f].
  split_and!; [by apply response_timer_wf| |exact Hip2|].
  - exact (locked_trans _ _ _ _ _ Hl1 (locked_trans _ _ _ _ _ Hl2 (locked_notify s2 h))).
  - intros s' Hss Hok' Hn' _. exists (g2 <| response_timer_id := tid |>), f.
    split_and!; try done.
    + split_and!; [done| |].
      * apply in_flight_start; [done|]. unfold g2. cbn. by rewrite Hack.
      * by apply receiving_start.
    + eapply is_frame_sent; [apply Hl1|exact Hf].
    + rewrite Hn'. set_solver.
Qed.

(** The last segment of the handshake opens the connection on the passive
    side. *)
Lemma handshake_server_runs s k h g b hd opts stream next :
  tcp_ok s (nfrags b + k) → sockets s !! h = Some g → state g = SynReceived → unused g →
  buf_ok b → contents b = [] →
  has_flag (h_flags hd) FLAG_ACK = true → has_flag (h_flags hd) FLAG_RST = false →
  h_ack_num hd = u32_wrapping_add (send_next_seq g) 1 →
  get_next_expect (reassembler g) = next mod u32_size →
  runs (input_socket h b hd opts) s (λ _ s', ∃ g', socket_step s s' h g' [] ∧ tcp_ok s' k ∧
    open_connection stream next next g' ∧ send_unacked g' = h_ack_num hd ∧
    send_window g' = send_window g ∧ opened g g' opts).
Proof.
  intros Hok Hg Hst (Hq & Hr & Ho) Hb Hc HA HR Hack Hnx.
  assert (is_u32 (h_ack_num hd)) as Hau by (rewrite Hack; apply wrapping_add_range; lia).
  pose proof (ack_beyond g _ Hack) as Hle.
  apply (input_socket_control_runs s k h g); try done.
  { intros _ _. right. unfold ack_ignored. by rewrite Hle, andb_false_r. }
  intros g1 s1 (m & Hm & _ & _ & Hg1) Hwf1 Hl1 Hip1. rewrite Hg1 in * by (by right). clear Hg1 g1.
  set (g1 := g <| send_mss := m |> <| response_timer_id := -1 |>) in *.
  unfold state_transition. change (state g1) with (state g). rewrite Hst, HA. run.
  exists []. split_and!; [|exact Hl1|exact Hip1|].
  - destruct Hwf1 as [? ? ? ? (? & ? & ?)]. split; try done.
    split_and!; [apply wrapping_add_range; lia|done|done].
  - intros s' Hss Hok' _ _. eexists. split_and!; try done.
    + split_and!; [done| |by apply receiving_start].
      apply in_flight_start; [done|]. cbn. by rewrite Hack.
    + split; try done. intros [?|?]; [congruence|done].
Qed.

Lemma tcp_ok_packet s n k : tcp_ok s (n + k) → ip_ok (ip s) (n + (sockets_frags (sockets s) + k)).
Proof.
  intros [[Hnet Hid] _ _]. split; [|done]. destruct Hnet as [Hp ? ?]. split; [|done..].
  eapply pool_ok_ext; [exact Hp|]. lia.
Qed.

Lemma tcp_ok_bufs s k n (q : BufState) :
  tcp_ok s k → pool_ok q (n + sockets_frags (sockets s)) → tcp_ok (update q s) n.
Proof.
  intros [[Hnet Hid] Hs Hclk] Hq. split; [|done|done]. split; [|done].
  eapply (net_ok_bufs (netif (ip s))); [done|]. change (sockets (update q s)) with (sockets s).
  eapply pool_ok_ext; [exact Hq|]. lia.
Qed.

(** ** Resets *)

(** A reset closes the connection and wakes every thread that waits on it. *)
Lemma input_socket_reset_runs s k h g b hd opts :
  tcp_ok s (nfrags b + k) → sockets s !! h = Some g → buf_ok b →
  has_flag (h_flags hd) FLAG_RST = true →
  runs (input_socket h b hd opts) s (λ _ s', ∃ g', socket_step s s' h g' [] ∧ tcp_ok s' k ∧
    state g' = Closed ∧ receive_queue g' = receive_queue g ∧ notified s' = notified s ++ [h]).
Proof.
  intros Hok Hg Hb HR. destruct (locked_ok _ _ _ _ Hok Hg) as [Hwf Hip].
  unfold input_socket. eapply lock_runs; [exact Hg|]. apply runs_bind.
  call segment_arrives_runs. intros g0 s0 (m & t & -> & -> & Hl0 & _). rewrite HR.
  set (g0 := g <| send_mss := m |> <| response_timer_id := -1 |>).
  assert (socket_wf (set_state Closed g0)) as Hwf0 by (by destruct Hwf).
  set (s0 := s <| timers := t |>) in *.
  unfold unlock, notify_all. run. set (s1 := put_back s0 h (set_state Closed g0)).
  pose proof (unlocked_ok s s0 (nfrags b + k) (nfrags b + k) h g (set_state Closed g0)
    Hok Hg eq_refl (step_clock _ _ _ Hl0) Hwf0 Hip) as Hok1.
  change (tcp_ok s1 (nfrags b + k)) in Hok1. pose proof (tcp_ok_packet _ _ _ Hok1) as [Hnet _].
  call drop_buffer_runs; [done|apply Hnet|]. intros _ p Hp.
  exists (set_state Closed g0). split_and!; [split; try done; apply sent_nil| |done..].
  destruct (tcp_ok_bufs s1 _ k p Hok1); [eapply pool_ok_ext; [exact Hp|]; lia|]. by split.
Qed.

(** ** From the wire *)

(** A valid segment reaches the connection it is for, or opens one. *)
Lemma tcp_input_dispatch_runs s k b src p opts payload Q :
  segment_buffer s b src p opts payload → tcp_ok s (nfrags b + k) →
  (∀ b' s1, buf_ok b' → contents b' = payload → tcp_ok s1 (nfrags b' + k) → locked_step s s1 [] →
    notified s1 = notified s → timers s1 = timers s →
    let o := {| max_segment_size := last_mss 0 opts |} in
    runs (match PORT_MAP s !! (src, source_port p, dest_port p) with
          | None => input_no_socket b' src (header_of p) o
          | Some h => input_socket h b' (header_of p) o
          end) s1 Q) →
  runs (tcp_input b src) s Q.
Proof.
  intros Hseg Hok Hk.
  apply (tcp_input_runs s (sockets_frags (sockets s) + k) b src p opts payload);
    [done|by apply tcp_ok_packet|].
  intros b' q Hb' Hc' Hq. apply Hk; [done|done| |apply locked_bufs|done|done].
  eapply tcp_ok_bufs; [exact Hok|]. eapply pool_ok_ext; [exact Hq|]. lia.
Qed.

(** A segment with data, for an open connection. *)
Lemma tcp_input_data_runs s k b src p opts payload h g stream start next off :
  segment_buffer s b src p opts payload → tcp_ok s (nfrags b + k) →
  PORT_MAP s !! (src, source_port p, dest_port p) = Some h → sockets s !! h = Some g →
  open_connection stream start next g → 0 ≤ num_delayed_acks g < 0x7fffffff →
  zlen (contents (receive_queue g)) < 0x7fffffff →
  payload ≠ [] → at_offset stream off payload → seq_num p = off mod u32_size →
  next - 2147483648 < off → off + zlen payload < next + 2147483648 →
  has_flag (flags p) FLAG_ACK = true → has_flag (flags p) FLAG_RST = false →
  has_flag (flags p) FLAG_FIN = false →
  runs (tcp_input b src) s (λ _ s', ∃ b' g' next' frames,
    socket_step s s' h g' frames ∧ tcp_ok s' k ∧ contents b' = payload ∧
    data_received stream start next next' off b' (ack_num p) g g' ∧
    (off = next → h ∈ notified s')).
Proof.
  intros Hseg Hok Hpm Hg (Hst & Hfl & Hrec) Hn Hlen Hne Hat Hseq Hlo Hhi HA HR HF.
  apply (tcp_input_dispatch_runs s k b src p opts payload); [done|done|].
  intros b' s1 Hb' Hc' Hok1 Hl1 _ _. cbv zeta. rewrite Hpm.
  call (input_socket_data_runs s1 k h g b' (header_of p) _ stream start next off); try done;
    rewrite ?Hc'; try done.
  { by rewrite (step_sockets _ _ _ Hl1). } { apply (seg_params _ _ _ _ _ _ Hseg). }
  intros _ s' (s2 & g' & next' & frames & -> & Hok' & Hl2 & Hdr & Hnot).
  pose proof (locked_trans _ _ _ _ _ Hl1 Hl2) as Hl.
  exists b', g', next', frames. split_and!; try done.
  destruct Hl as [? Hs ? ? ? ?]. split; try done. unfold put_back. cbn. by rewrite Hs.
Qed.

End Segments.
