(* ===== verification/TcpListen.v ===== *)
(** * tcp.rs: listening, accepting and closing

    Specifications of the segments that reach no connection, and of
    tcp_listen, tcp_accept, tcp_close and the end of TIME-WAIT. *)

From S2P Require Import Prelude Util Buf BufSpec Checksum Timer Netif Ip Reassembler TcpOptions Tcp TcpSpec TcpData TcpConn TcpControl TcpOpen TcpSegments.
From stdpp Require Import gmap.
Local Open Scope Z_scope.

Section Listen.
Context `{!Tun, !TunOk, !Random, !RandomOk}.

(** * Segments for no connection *)

Lemma drop_packet_ok s k b :
  tcp_ok s (nfrags b + k) → buf_ok b →
  runs (zoom (drop_buffer b)) s (λ _ s', ∃ p : BufState, s' = update p s ∧ tcp_ok s' k).
Proof.
  intros Hok Hb. pose proof (tcp_ok_packet _ _ _ Hok) as [Hnet _]. run.
  call drop_buffer_runs; [done|apply Hnet|]. intros _ p Hp. exists p. split; [done|].
  eapply tcp_ok_bufs; [exact Hok|]. eapply pool_ok_ext; [exact Hp|]. lia.
Qed.

(** A SYN for a listening port makes a new socket, answers it with a SYN of
    its own, and hands the socket to the listener. *)
Lemma input_listen_runs s k b src hd opts lh lg :
  tcp_ok s (nfrags b + k) → buf_ok b → IPAddr_ok src →
  is_u16 (h_source_port hd) → is_u16 (h_dest_port hd) → is_u32 (h_seq_num hd) →
  PORT_MAP s !! (IPAddr_new, 0, h_dest_port hd) = Some lh → has_flag (h_flags hd) FLAG_SYN = true →
  sockets s !! lh = Some lg → state lg = Listen →
  let h := length (sockets s) in
  let g := accepted_socket src (h_source_port hd) (h_dest_port hd) (random_u32 (random_drawn s))
    (h_seq_num hd) (h_ack_num hd) (h_window hd) (max_segment_size opts) in
  runs (input_no_socket b src hd opts) s (λ _ s', tcp_ok s' k ∧ ∃ timer_id f,
    sockets s' = <[lh := lg <| socket_queue ::= λ q, q ++ [h] |>]>
      (sockets s ++ [g <| response_timer_id := timer_id |>]) ∧
    PORT_MAP s' = <[(src, h_source_port hd, h_dest_port hd) := h]> (PORT_MAP s) ∧
    notified s' = notified s ++ [lh] ∧ sent (netif (ip s)) (netif (ip s')) [f] ∧
    is_frame (netif (ip s)) (send_params g (Z.lor FLAG_SYN FLAG_ACK)) [] f ∧
    pending_last s' RESPONSE_TIMEOUT (ResponseTimeout h) timer_id).
Proof.
  intros Hok Hb Hsrc Hsp Hdp Hseq Hpm HS Hlg Hst h g.
  unfold input_no_socket. run. rewrite Hpm, HS. apply runs_bind.
  call (handle_new_connection_runs s (nfrags b + k) lh lg); [done..|].
  intros h' s1 (-> & Hok1 & tid & f & Hs & Hp & Hn & Hsent & Hf & Hpend).
  unfold port_map_insert. run. set (s2 := set_field PORT_MAP _ s1).
  assert (tcp_ok s2 (nfrags b + k)) as Hok2 by (destruct Hok1; by split).
  pose proof (tcp_ok_packet _ _ _ Hok2) as [Hnet _].
  call drop_buffer_runs; [done|apply Hnet|]. intros _ p Hpp. split.
  - eapply tcp_ok_bufs; [exact Hok2|]. eapply pool_ok_ext; [exact Hpp|]. lia.
  - exists tid, f. split_and!; try done.
    + unfold s2. cbn. by rewrite Hp.
    + by destruct Hsent; split.
Qed.

(** ** The segments of a handshake, from the IP layer *)

Lemma tcp_input_syn_runs s k b src p opts lh lg :
  segment_buffer s b src p opts [] → tcp_ok s (nfrags b + k) →
  PORT_MAP s !! (src, source_port p, dest_port p) = None →
  PORT_MAP s !! (IPAddr_new, 0, dest_port p) = Some lh → sockets s !! lh = Some lg →
  state lg = Listen → has_flag (flags p) FLAG_SYN = true →
  let h := length (sockets s) in
  let g := accepted_socket src (source_port p) (dest_port p) (random_u32 (random_drawn s))
    (seq_num p) (ack_num p) (window p) (last_mss 0 opts) in
  runs (tcp_input b src) s (λ _ s', tcp_ok s' k ∧ ∃ timer_id f,
    sockets s' = <[lh := lg <| socket_queue ::= λ q, q ++ [h] |>]>
      (sockets s ++ [g <| response_timer_id := timer_id |>]) ∧
    PORT_MAP s' = <[(src, source_port p, dest_port p) := h]> (PORT_MAP s) ∧
    lh ∈ notified s' ∧ sent (netif (ip s)) (netif (ip s')) [f] ∧
    is_frame (netif (ip s)) (send_params g (Z.lor FLAG_SYN FLAG_ACK)) [] f ∧
    pending_last s' RESPONSE_TIMEOUT (ResponseTimeout h) timer_id).
Proof.
  intros Hseg Hok Hpm Hlis Hlg Hst HS h g.
  destruct (seg_params _ _ _ _ _ _ Hseg) as (Hp & Hsrc & _).
  apply (tcp_input_dispatch_runs s k b src p opts []); [done|done|].
  intros b' s1 Hb' Hc' Hok1 [Hp1 Hs1 Hr1 _ _ Hn1] Hnot _. cbv zeta. rewrite Hpm.
  call (input_listen_runs s1 k b' src (header_of p) _ lh lg); try done;
    [by destruct Hp..|by rewrite Hp1|by rewrite Hs1|].
  intros _ s' (Hok' & tid & f & Hs & Hpm' & Hn & Hsent & Hf & Hpend). split; [done|]. exists tid, f.
  rewrite Hs1, Hr1 in *. split_and!; [exact Hs|by rewrite Hpm', Hp1|rewrite Hn; set_solver| | |exact Hpend].
  - exact (sent_trans _ _ _ _ _ Hn1 Hsent).
  - eapply is_frame_sent; [exact Hn1|exact Hf].
Qed.

Lemma tcp_input_synack_runs s k b src p opts h g stream next :
  segment_buffer s b src p opts [] → tcp_ok s (nfrags b + k) →
  PORT_MAP s !! (src, source_port p, dest_port p) = Some h → sockets s !! h = Some g →
  state g = SynSent → unused g →
  has_flag (flags p) FLAG_ACK = true → has_flag (flags p) FLAG_RST = false →
  ack_num p = u32_wrapping_add (send_next_seq g) 1 → u32_wrapping_add (seq_num p) 1 = next mod u32_size →
  runs (tcp_input b src) s (λ _ s', tcp_ok s' k ∧ ∃ g' f, socket_step s s' h g' [f] ∧
    open_connection stream next next g' ∧
    is_frame (netif (ip s)) (send_params g' FLAG_ACK) [] f ∧
    send_unacked g' = ack_num p ∧ send_window g' = window p ∧ h ∈ notified s' ∧ opened g g' {| max_segment_size := last_mss 0 opts |}).
Proof.
  intros Hseg Hok Hpm Hg Hst Hun HA HR Hack Hseq.
  apply (tcp_input_dispatch_runs s k b src p opts []); [done|done|].
  intros b' s1 Hb' Hc' Hok1 Hl1 _ _. cbv zeta. rewrite Hpm.
  call (handshake_client_runs s1 k h g b' (header_of p) _ stream next); try done.
  { by rewrite (step_sockets _ _ _ Hl1). }
  intros _ s' (g' & f & Hss & Hok' & Ho & Hf & Hu & Hw & Hn & Ho2). split; [done|]. exists g', f.
  split_and!; try done; [by eapply socket_step_after|]. eapply is_frame_sent; [apply Hl1|exact Hf].
Qed.

Lemma tcp_input_ack_runs s k b src p opts h g stream next :
  segment_buffer s b src p opts [] → tcp_ok s (nfrags b + k) →
  PORT_MAP s !! (src, source_port p, dest_port p) = Some h → sockets s !! h = Some g →
  state g = SynReceived → unused g →
  has_flag (flags p) FLAG_ACK = true → has_flag (flags p) FLAG_RST = false →
  ack_num p = u32_wrapping_add (send_next_seq g) 1 →
  get_next_expect (reassembler g) = next mod u32_size →
  runs (tcp_input b src) s (λ _ s', tcp_ok s' k ∧ ∃ g', socket_step s s' h g' [] ∧
    open_connection stream next next g' ∧ send_unacked g' = ack_num p ∧
    send_window g' = send_window g ∧
    opened g g' {| max_segment_size := last_mss 0 opts |}).
Proof.
  intros Hseg Hok Hpm Hg Hst Hun HA HR Hack Hseq.
  apply (tcp_input_dispatch_runs s k b src p opts []); [done|done|].
  intros b' s1 Hb' Hc' Hok1 Hl1 _ _. cbv zeta. rewrite Hpm.
  call (handshake_server_runs s1 k h g b' (header_of p) _ stream next); try done.
  { by rewrite (step_sockets _ _ _ Hl1). }
  intros _ s' (g' & Hss & Hok' & Ho & Hu & Hw & Ho2). split; [done|]. exists g'.
  split_and!; try done. by eapply socket_step_after.
Qed.

(** The reset that answers a segment for no connection. *)
Definition reset_params (src : IPAddr) (hd : TCPHeader) (ack : Z) : TCPSendParams := {|
  source_port := h_dest_port hd; dest_ip := src; dest_port := h_source_port hd; seq_num := 1;
  ack_num := ack; flags := Z.lor FLAG_RST FLAG_ACK; window := 0; options := [] |}.

Definition refused (s : TcpState) (hd : TCPHeader) : Prop :=
  PORT_MAP s !! (IPAddr_new, 0, h_dest_port hd) = None ∨ has_flag (h_flags hd) FLAG_SYN = false.

Lemma refused_branch {A} s hd (m : SocketReference → A) n :
  refused s hd →
  match PORT_MAP s !! (IPAddr_new, 0, h_dest_port hd), has_flag (h_flags hd) FLAG_SYN with
  | Some lh, true => m lh
  | _, _ => n
  end = n.
Proof. intros [->| ->]; [done|]. by destruct (PORT_MAP s !! _). Qed.

(** The acknowledgement number of the reset does not wrap around. *)
Lemma input_refused_overflow s b src hd opts :
  refused s hd → h_seq_num hd = 0xffffffff → input_no_socket b src hd opts s = Panic.
Proof.
  intros Href Hseq. unfold input_no_socket. rewrite fetches_bind. rewrite refused_branch by done.
  apply bind_Panic, bind_Panic, lift_Panic. by rewrite Hseq.
Qed.

Lemma input_refused_runs s k b src hd opts :
  tcp_ok s (nfrags b + k) → buf_ok b → IPAddr_ok src →
  is_u16 (h_source_port hd) → is_u16 (h_dest_port hd) → is_u32 (h_seq_num hd) →
  refused s hd → h_seq_num hd + 1 < u32_size →
  runs (input_no_socket b src hd opts) s (λ _ s', tcp_ok s' k ∧ locked_step s s'
    [tcp_frame (ip s) (reset_params src hd (h_seq_num hd + 1)) []]).
Proof.
  intros Hok Hb Hsrc Hsp Hdp [Hseq1 _] Href Hseq. unfold input_no_socket. run.
  apply (runs_mono _ _ (λ _ s', tcp_ok s' (nfrags b + k) ∧ locked_step s s'
    [tcp_frame (ip s) (reset_params src hd (h_seq_num hd + 1)) []])).
  - match goal with |- runs ?m _ _ => assert (m = (ack ← lift (u32_add (h_seq_num hd) 1);
      zoom (tcp_output NetBuffer_new (reset_params src hd ack)))) as -> by (by apply refused_branch) end.
    run. call (tcp_output_runs _ (sockets_frags (sockets s) + (nfrags b + k)));
      [exact buf_ok_new|constructor|done|done| | |].
    + split; cbn; try done; [unfold in_range; lia|split_and!; [constructor|done|done]].
    + apply Hok.
    + intros _ i [Hs Hi]. destruct Hok as [_ ? ?]. by split; split.
  - intros _ s1 [Hok1 Hl1]. call drop_packet_ok; [done|done|]. intros _ s2 (p & -> & Hok2).
    split; [done|]. rewrite <-(app_nil_r [_]).
    exact (locked_trans _ _ _ _ _ Hl1 (locked_bufs s1 p)).
Qed.

(** ** The segments that end a connection, from the IP layer *)

Lemma tcp_input_refused_runs s k b src p opts payload :
  segment_buffer s b src p opts payload → tcp_ok s (nfrags b + k) →
  PORT_MAP s !! (src, source_port p, dest_port p) = None → refused s (header_of p) →
  seq_num p < 0xffffffff →
  runs (tcp_input b src) s (λ _ s', tcp_ok s' k ∧ ∃ f, locked_step s s' [f] ∧
    is_frame (netif (ip s)) (reset_params src (header_of p) (seq_num p + 1)) [] f).
Proof.
  intros Hseg Hok Hpm Href Hseq. destruct (seg_params _ _ _ _ _ _ Hseg) as (Hp & Hsrc & _).
  apply (tcp_input_dispatch_runs s k b src p opts payload); [done|done|].
  intros b' s1 Hb' Hc' Hok1 Hl1 _ _. cbv zeta. rewrite Hpm.
  call (input_refused_runs s1 k b' src (header_of p));
    [done|done|done|exact (p_source p Hp)|exact (p_dest p Hp)|exact (p_seq p Hp)| | |].
  { unfold refused. by rewrite (step_ports _ _ _ Hl1). }
  { change (seq_num p + 1 < u32_size). lia. }
  intros _ s' [Hok' Hl]. split; [done|]. eexists. split; [exact (locked_trans _ _ _ _ _ Hl1 Hl)|].
  eapply is_frame_sent; [apply Hl1|]. by eapply (tcp_frame_is_frame (ip s1)), tcp_ok_packet.
Qed.

Lemma tcp_input_reset_runs s k b src p opts payload h g :
  segment_buffer s b src p opts payload → tcp_ok s (nfrags b + k) →
  PORT_MAP s !! (src, source_port p, dest_port p) = Some h → sockets s !! h = Some g →
  has_flag (flags p) FLAG_RST = true →
  runs (tcp_input b src) s (λ _ s', tcp_ok s' k ∧ ∃ g', socket_step s s' h g' [] ∧
    state g' = Closed ∧ receive_queue g' = receive_queue g ∧ h ∈ notified s').
Proof.
  intros Hseg Hok Hpm Hg HR.
  apply (tcp_input_dispatch_runs s k b src p opts payload); [done|done|].
  intros b' s1 Hb' Hc' Hok1 Hl1 _ _. cbv zeta. rewrite Hpm.
  call (input_socket_reset_runs s1 k h g); [done|by rewrite (step_sockets _ _ _ Hl1)|done|done|].
  intros _ s' (g' & Hss & Hok' & Hst & Hq & Hn). split; [done|]. exists g'.
  split_and!; [by eapply socket_step_after|done|done|]. rewrite Hn. set_solver.
Qed.

(** The FIN of the peer ends what it sends. *)
Lemma tcp_input_fin_runs s k b src p opts h g :
  segment_buffer s b src p opts [] → tcp_ok s (nfrags b + k) →
  PORT_MAP s !! (src, source_port p, dest_port p) = Some h → sockets s !! h = Some g →
  state g = Established → in_flight g →
  has_flag (flags p) FLAG_FIN = true → has_flag (flags p) FLAG_RST = false →
  runs (tcp_input b src) s (λ _ s', tcp_ok s' k ∧ h ∈ notified s' ∧ ∃ g1,
    after_ack g g1 (ack_num p) {| max_segment_size := last_mss 0 opts |} ∧
    socket_step s s' h (set_state CloseWait g1) []).
Proof.
  intros Hseg Hok Hpm Hg Hst Hfl HF HR.
  apply (tcp_input_dispatch_runs s k b src p opts []); [done|done|].
  intros b' s1 Hb' Hc' Hok1 Hl1 _ _. cbv zeta. rewrite Hpm.
  apply (input_socket_control_runs s1 k h g); try done; [|apply (seg_params _ _ _ _ _ _ Hseg)|by left|].
  { by rewrite (step_sockets _ _ _ Hl1). }
  intros g1 s2 Haft Hwf1 Hl2 Hip2. unfold state_transition.
  rewrite (proj2 (after_ack_same _ _ _ _ Haft)), Hst.
  change (has_flag (h_flags (header_of p)) FLAG_FIN) with (has_flag (flags p) FLAG_FIN). rewrite HF.
  unfold notify_all. run. exists [].
  split_and!; [by apply set_state_wf|exact (locked_trans _ _ _ _ _ Hl2 (locked_notify s2 h))|exact Hip2|].
  intros s' Hss Hok' Hn _. split; [done|]. split; [rewrite Hn; set_solver|].
  exists g1. split; [done|]. by eapply socket_step_after.
Qed.

(** A FIN that acknowledges this side's: nothing more is sent, and the
    connection waits for the end of TIME-WAIT. *)
Lemma tcp_input_fin_ack_runs s k b src p opts h g :
  segment_buffer s b src p opts [] → tcp_ok s (nfrags b + k) →
  PORT_MAP s !! (src, source_port p, dest_port p) = Some h → sockets s !! h = Some g →
  state g = FinWait1 → ack_num p = u32_wrapping_add (send_next_seq g) 1 →
  has_flag (flags p) FLAG_ACK = true → has_flag (flags p) FLAG_FIN = true →
  has_flag (flags p) FLAG_RST = false →
  let m := agreed_mss g {| max_segment_size := last_mss 0 opts |} in
  runs (tcp_input b src) s (λ _ s', tcp_ok s' k ∧
    socket_step s s' h (set_state TimeWait (g <| send_mss := m |> <| response_timer_id := -1 |>)) [] ∧
    ∃ timer_id, pending_last s' TIME_WAIT_TIMEOUT (TimeWaitTimeout h) timer_id).
Proof.
  intros Hseg Hok Hpm Hg Hst Hack HA HF HR m.
  apply (tcp_input_dispatch_runs s k b src p opts []); [done|done|].
  intros b' s1 Hb' Hc' Hok1 Hl1 _ _. cbv zeta. rewrite Hpm.
  apply (input_socket_control_runs s1 k h g); try done; [|apply (seg_params _ _ _ _ _ _ Hseg)| |].
  { by rewrite (step_sockets _ _ _ Hl1). }
  { intros _ _. right. by apply ack_beyond_ignored. }
  intros g1 s2 (m' & -> & _ & _ & Hg1) Hwf1 Hl2 Hip2.
  rewrite Hg1 in * by (right; by apply ack_beyond). clear Hg1 g1. fold m in Hwf1, Hip2 |- *.
  set (g1 := g <| send_mss := m |> <| response_timer_id := -1 |>) in *.
  unfold state_transition. change (state g1) with (state g). rewrite Hst.
  change (has_flag (h_flags (header_of p))) with (has_flag (flags p)). rewrite HA, HF.
  change (h_ack_num (header_of p)) with (ack_num p). change (send_next_seq g1) with (send_next_seq g).
  rewrite (proj2 (Z.eqb_eq _ _) Hack). cbn [andb].
  apply runs_bind. call set_tcp_timer_runs; [rewrite (step_clock _ _ _ Hl2); apply Hok1|done|].
  intros i s3 (Hi & t & -> & Hl3 & Hp). run. exists [].
  split_and!; [by apply set_state_wf|exact (locked_trans _ _ _ _ _ Hl2 Hl3)|exact Hip2|].
  intros s' Hss Hok' _ Ht. split; [done|]. split; [by eapply socket_step_after|].
  exists i. eexists. rewrite Ht. cbn. rewrite Hp. do 4 f_equal. symmetry. apply (step_clock _ _ _ Hl3).
Qed.

(** * tcp_listen and tcp_accept *)

Definition listening_socket (port iss : Z) : TCPSocketState :=
  set_state Listen (fresh_socket IPAddr_new 0 port iss).

Lemma tcp_listen_runs s k port :
  tcp_ok s k → is_u16 port →
  runs (tcp_listen port) s (λ r s', tcp_ok s' k ∧
    sockets s' = sockets s ++ [listening_socket port (random_u32 (random_drawn s))] ∧
    match PORT_MAP s !! (IPAddr_new, 0, port) with
    | Some _ => r = None ∧ PORT_MAP s' = PORT_MAP s
    | None => r = Some (length (sockets s)) ∧
        PORT_MAP s' = <[(IPAddr_new, 0, port) := length (sockets s)]> (PORT_MAP s)
    end).
Proof.
  intros Hok Hp. unfold tcp_listen. apply runs_bind. eapply runs_eq; [apply TCPSocketState_new_eq|].
  apply runs_bind. eapply runs_eq; [apply new_socket_eq|]. run.
  set (g := set_state Listen _). set (s1 := set_field sockets _ _).
  assert (tcp_ok s1 k) as Hok1.
  { assert (socket_wf g) as Hg.
    { apply set_state_wf, fresh_socket_wf; [exact IPAddr_new_ok|done|done|apply random_u32_ok]. }
    destruct (new_socket_ok s k g Hok Hg eq_refl). by split. }
  change (PORT_MAP s1) with (PORT_MAP s).
  destruct (PORT_MAP s !! _) as [h|] eqn:E.
  - run. by split_and!.
  - unfold port_map_insert. run. destruct Hok1. by split_and!.
Qed.

(** Connections are accepted in the order they were made. *)
Lemma tcp_accept_eq s h g :
  sockets s !! h = Some g →
  tcp_accept h s = match socket_queue g with
    | [] => Ok (None, s)
    | new :: rest => Ok (Some new, put_back s h (g <| socket_queue := rest |>))
    end.
Proof.
  intros Hg. unfold tcp_accept. rewrite (bind_Ok _ _ _ g s) by (by apply lock_eq).
  by destruct (socket_queue g).
Qed.

(** * tcp_close *)

(** The state in which closing leaves a connection. *)
Definition close_state (st : TCPState) : TCPState :=
  match st with
  | Established => FinWait1
  | CloseWait => LastAck
  | Listen => Closed
  | _ => st
  end.

Lemma fin_sent_runs s k h g st :
  tcp_ok s k → sockets s !! h = Some g → can_send g →
  runs (send_packet g NetBuffer_new (Z.lor FLAG_FIN FLAG_ACK);; g' ← set_response_timer g h;
        unlock h (set_state st g')) s (λ _ s', tcp_ok s' k ∧ ∃ f timer_id,
    sockets s' = <[h := set_state st (g <| response_timer_id := timer_id |>)]> (sockets s) ∧
    sent (netif (ip s)) (netif (ip s')) [f] ∧ PORT_MAP s' = PORT_MAP s ∧
    is_frame (netif (ip s)) (send_params g (Z.lor FLAG_FIN FLAG_ACK)) [] f ∧
    pending_last s' RESPONSE_TIMEOUT (ResponseTimeout h) timer_id).
Proof.
  intros Hok Hg Hcs. destruct (locked_ok _ _ _ _ Hok Hg) as [Hwf Hip].
  apply (request_runs s (socket_frags g + others s k g)); try done; [apply Hok|].
  intros tid f s' _ Hl Hf Hip' _ Hp. unfold unlock. run. split.
  - eapply (unlocked_ok s s' k k h g); [done|done|apply Hl|apply Hl| |exact Hip'].
    by apply set_state_wf, response_timer_wf.
  - exists f, tid. split_and!; try done; [|apply Hl|apply Hl]. cbn. by rewrite (step_sockets _ _ _ Hl).
Qed.

(** A connection that is closed on this side. *)
Lemma close_fin_runs s k h g :
  tcp_ok s k → sockets s !! h = Some g → can_send g → state g = Established ∨ state g = CloseWait →
  runs (tcp_close h) s (λ _ s', tcp_ok s' k ∧ ∃ f timer_id,
    sockets s' = <[h := set_state (close_state (state g)) (g <| response_timer_id := timer_id |>)]> (sockets s) ∧
    sent (netif (ip s)) (netif (ip s')) [f] ∧ PORT_MAP s' = PORT_MAP s ∧
    is_frame (netif (ip s)) (send_params g (Z.lor FLAG_FIN FLAG_ACK)) [] f ∧
    pending_last s' RESPONSE_TIMEOUT (ResponseTimeout h) timer_id).
Proof.
  intros Hok Hg Hcs Hst. unfold tcp_close. eapply lock_runs; [exact Hg|].
  destruct Hst as [-> | ->]; by apply fin_sent_runs.
Qed.

Lemma tcp_close_runs s k h g :
  tcp_ok s k → sockets s !! h = Some g → can_send g →
  runs (tcp_close h) s (λ _ s', tcp_ok s' k ∧ ∃ g' frames, sockets s' = <[h := g']> (sockets s) ∧
    sent (netif (ip s)) (netif (ip s')) frames ∧ state g' = close_state (state g) ∧
    same_queues g g' ∧
    PORT_MAP s' = (if decide (state g = Listen)
      then delete (IPAddr_new, 0, local_port g) (PORT_MAP s) else PORT_MAP s) ∧
    if decide (state g = Established ∨ state g = CloseWait)
    then ∃ f timer_id, frames = [f] ∧
      is_frame (netif (ip s)) (send_params g (Z.lor FLAG_FIN FLAG_ACK)) [] f ∧
      pending_last s' RESPONSE_TIMEOUT (ResponseTimeout h) timer_id
    else frames = []).
Proof.
  intros Hok Hg Hcs. destruct (locked_ok _ _ _ _ Hok Hg) as [Hwf Hip].
  unfold tcp_close. eapply lock_runs; [exact Hg|].
  assert (∀ st, state g = Established ∨ state g = CloseWait → st = close_state (state g) →
    runs (send_packet g NetBuffer_new (Z.lor FLAG_FIN FLAG_ACK);; g' ← set_response_timer g h;
          unlock h (set_state st g')) s (λ _ s', tcp_ok s' k ∧ ∃ g' f timer_id,
      sockets s' = <[h := g']> (sockets s) ∧ sent (netif (ip s)) (netif (ip s')) [f] ∧
      state g' = close_state (state g) ∧ same_queues g g' ∧ PORT_MAP s' = PORT_MAP s ∧
      is_frame (netif (ip s)) (send_params g (Z.lor FLAG_FIN FLAG_ACK)) [] f ∧
      pending_last s' RESPONSE_TIMEOUT (ResponseTimeout h) timer_id)) as Hfin.
  { intros st _ ->. call fin_sent_runs; [done..|].
    intros _ s' (Hok' & f & tid & Hs & Hn & Hp & Hf & Hpend). split; [done|]. eexists _, f, tid.
    by split_and!. }
  assert (state g ≠ Listen → state g ≠ Established → state g ≠ CloseWait →
    runs (mret tt) s (λ _ s', tcp_ok s' k ∧ ∃ g' frames, sockets s' = <[h := g']> (sockets s) ∧
    sent (netif (ip s)) (netif (ip s')) frames ∧ state g' = close_state (state g) ∧
    same_queues g g' ∧ PORT_MAP s' = PORT_MAP s ∧ frames = [])) as Hnop.
  { intros. run. split; [done|]. exists g, []. rewrite list_insert_id by done.
    split_and!; try done; [apply sent_refl|by destruct (state g)]. }
  destruct (state g) eqn:Hst; try (eapply runs_mono; [apply Hnop; congruence|]; cbv beta;
    intros _ s' (Hok' & g' & frames & Hs & Hn & Hst' & Hq & Hp & ->); split; [done|];
    exists g', []; rewrite !decide_False by naive_solver; by split_and!).
  - eapply runs_mono; [by apply Hfin; [left|]|]; cbv beta.
    intros _ s' (Hok' & g' & f & tid & Hs & Hn & Hst' & Hq & Hp & Hf & Hpend). split; [done|].
    exists g', [f]. rewrite decide_False, decide_True by (done || by left). split_and!; try done.
    by exists f, tid.
  - eapply runs_mono; [by apply Hfin; [right|]|]; cbv beta.
    intros _ s' (Hok' & g' & f & tid & Hs & Hn & Hst' & Hq & Hp & Hf & Hpend). split; [done|].
    exists g', [f]. rewrite decide_False, decide_True by (done || by right). split_and!; try done.
    by exists f, tid.
  - unfold unlock, port_map_remove. run. split.
    + destruct (unlocked_ok s s k k h g (set_state Closed g) Hok Hg eq_refl eq_refl) as [? ? ?];
        [by apply set_state_wf|exact Hip|by split].
    + exists (set_state Closed g), []. rewrite decide_True, decide_False by naive_solver.
      split_and!; try done. apply sent_refl.
Qed.

(** * The end of TIME-WAIT *)

Lemma time_wait_timeout_runs s k h g :
  tcp_ok s k → sockets s !! h = Some g →
  runs (time_wait_timeout h) s (λ _ s', tcp_ok s' k ∧
    sockets s' = <[h := set_state Closed g]> (sockets s) ∧
    PORT_MAP s' = delete (remote_ip g, remote_port g, local_port g) (PORT_MAP s) ∧
    sent (netif (ip s)) (netif (ip s')) []).
Proof.
  intros Hok Hg. destruct (locked_ok _ _ _ _ Hok Hg) as [Hwf Hip].
  unfold time_wait_timeout. eapply lock_runs; [exact Hg|]. unfold unlock, port_map_remove. run.
  destruct (unlocked_ok s s k k h g (set_state Closed g) Hok Hg eq_refl eq_refl) as [? ? ?];
    [by apply set_state_wf|exact Hip|].
  split; [by split|]. split_and!; [done..|apply sent_refl].
Qed.

End Listen.
