(* ===== verification/TcpTransition.v ===== *)
(** * tcp.rs: what any segment does to the state of its connection

    A valid segment takes its connection from one state to the next whether it
    carries data or not, and whether it is a reset or not. *)

From S2P Require Import Prelude Util Buf BufSpec Checksum Timer Netif Ip Reassembler TcpOptions Tcp TcpSpec TcpData TcpConn TcpControl TcpOpen TcpSegments TcpListen.
From stdpp Require Import gmap.
Local Open Scope Z_scope.

(** The data of a segment is a part of what the peer sends, near the octet
    expected next: within half the sequence space, and where the number of a FIN
    may be acknowledged, before the sequence numbers start over. *)
Definition acceptable (g : TCPSocketState) (seq : Z) (payload : list Z) : Prop :=
  payload = [] ∨ ∃ stream start next off,
    receiving stream start next g ∧ at_offset stream off payload ∧ seq = off mod u32_size ∧
    next - 2147483648 < off ∧ off + zlen payload < next + 2147483648 ∧
    zlen (contents (receive_queue g)) < 0x7fffffff ∧
    (state g = Established → 0 ≤ num_delayed_acks g < 0x7fffffff) ∧
    (acks_peer_fin (state g) = true → next mod u32_size + 2147483648 < u32_size).

Lemma acceptable_arrived g m t seq payload :
  acceptable g seq payload → acceptable (g <| send_mss := m |> <| response_timer_id := t |>) seq payload.
Proof.
  intros [?|(stream & start & next & off & [? ? ?] & H)]; [by left|right].
  by exists stream, start, next, off.
Qed.

(** An acknowledgement of the peer's FIN would not overflow. *)
Definition fin_room (g : TCPSocketState) : Prop :=
  acks_peer_fin (state g) = true → get_next_expect (reassembler g) + 1 < u32_size.

Lemma mod_advance n n' :
  n mod u32_size + 2147483648 < u32_size → n ≤ n' < n + 2147483648 → n' mod u32_size + 1 < u32_size.
Proof.
  intros Hn Hb. pose proof (Z.div_mod n u32_size ltac:(lia)). pose proof (Z.mod_pos_bound n u32_size ltac:(lia)).
  replace n' with ((n mod u32_size + (n' - n)) + (n / u32_size) * u32_size) by lia.
  rewrite Z_mod_plus_full, Z.mod_small; lia.
Qed.

Lemma received_refl g : received g g.
Proof.
  exists (receive_next_seq g), (reassembler g), (receive_queue g), (num_delayed_acks g),
    (delayed_ack_timer_id g). by destruct g.
Qed.

Lemma received_acked_state g g1 g2 :
  received g g1 → acked g1 g2 →
  state g2 = state g ∧ send_next_seq g2 = send_next_seq g ∧ receive_queue g2 = receive_queue g1 ∧
  reassembler g2 = reassembler g1.
Proof. intros (? & ? & ? & ? & ? & ->) (? & ? & ? & ? & ? & ? & ->). done. Qed.

Section Transition.
Context `{!Tun, !TunOk, !Random, !RandomOk}.

(** ** Received data, in any state *)

Lemma acknowledge_other_runs s k h g fl :
  socket_wf g → state g ≠ Established → can_send g → ip_ok (ip s) k →
  runs (acknowledge_data h g fl) s (λ g' s', ∃ n t frames,
    g' = g <| num_delayed_acks := n |> <| delayed_ack_timer_id := t |> ∧
    locked_step s s' frames ∧ ip_ok (ip s') k).
Proof.
  intros Hwf Hst Hcs Hok. unfold acknowledge_data, is_state. rewrite bool_decide_eq_false_2 by done.
  apply runs_bind. call (cancel_unset_runs s _ _ (delayed_ack_timer_id g)).
  intros g1 s1 (t & -> & Hl1 & Hg1).
  assert (g1 = g <| num_delayed_acks := num_delayed_acks g |> <| delayed_ack_timer_id := -1 |>) as ->.
  { subst g1. destruct (Z.eqb_spec (delayed_ack_timer_id g) (-1)) as [Ht|Ht]; [rewrite <-Ht|]; by destruct g. }
  apply runs_bind. call send_empty_runs; [by destruct Hwf|done|done|exact Hok|].
  intros _ s2 (i & -> & Hi & Hl2). run. eexists _, _, _.
  split_and!; [done|exact (locked_trans _ _ _ _ _ Hl1 Hl2)|done].
Qed.

Lemma acknowledge_any_runs s k h g fl :
  socket_wf g → (state g = Established → 0 ≤ num_delayed_acks g < 0x7fffffff) → fin_room g →
  0 ≤ current_time_ms (timers s) < 9223372036854775808 → ip_ok (ip s) k →
  runs (acknowledge_data h g fl) s (λ g' s', ∃ n t frames,
    g' = g <| num_delayed_acks := n |> <| delayed_ack_timer_id := t |> ∧
    locked_step s s' frames ∧ ip_ok (ip s') k).
Proof.
  intros Hwf Hn Hroom Hclk Hok. destruct (decide (state g = Established)) as [Hst|Hst].
  - call acknowledge_data_runs; [done|done|by apply Hn|done|done|].
    intros g' s' (n & t & frames & -> & Hl & Hip & _). by exists n, t, frames.
  - apply acknowledge_other_runs; try done. by apply can_send_room.
Qed.

Lemma receive_any_runs s k h g b seq fl :
  socket_wf g → acceptable g seq (contents b) → contents b ≠ [] → buf_ok b →
  0 ≤ current_time_ms (timers s) < 9223372036854775808 → ip_ok (ip s) (nfrags b + (receive_frags g + k)) →
  runs (receive_data h g b seq fl) s (λ g' s', received g g' ∧ socket_wf g' ∧ fin_room g' ∧
    contents (receive_queue g) `prefix_of` contents (receive_queue g') ∧
    ∃ frames, locked_step s s' frames ∧ ip_ok (ip s') (receive_frags g' + k)).
Proof.
  intros Hwf [?|(stream & start & next & off & Hrec & Hat & -> & Hlo & Hhi & Hlen & Hn & Hroom)] Hne Hb Hclk Hok;
    [done|].
  apply (receive_queue_runs s k h g b fl stream start next off); try done.
  intros next' g2 s2 [Hrcv Hwf2 [Hra2 Hq2 Hn2] _ Hbnd _ Hna _ Hl Hip2].
  assert (state g2 = state g) as Hst by (by destruct Hrcv as (? & ? & ? & ? & ? & ->)).
  assert (fin_room g2) as Hroom2.
  { intros E. rewrite Hst in E. unfold get_next_expect. destruct Hra2 as [-> _].
    by apply (mod_advance next); [apply Hroom|]. }
  call (acknowledge_any_runs s2 (receive_frags g2 + k) h g2); try done.
  { by rewrite Hna, Hst. } { by rewrite (step_clock _ _ _ Hl). }
  intros g' s' (n & t & frames & -> & Hl' & Hip'). split_and!; try done.
  - destruct Hrcv as (rn & ra & rq & n' & t' & E). exists rn, ra, rq, n, t. by rewrite E.
  - by destruct Hwf2.
  - destruct Hrec as [_ Hq Hnx]. apply (at_offset_prefix stream start); [done|done|].
    change (zlen (contents (receive_queue g)) ≤ zlen (contents (receive_queue g2))). lia.
  - exists frames. split; [exact (locked_trans _ _ _ _ _ Hl Hl')|done].
Qed.

(** ** A whole segment *)

(** The packet is dropped at the end unless its fragments are in a queue. *)
Lemma release_runs s0 s k h g g' b frames :
  let kb := if is_empty b then nfrags b else 0 in
  tcp_ok s0 (nfrags b + k) → sockets s0 !! h = Some g → locked_step s0 s frames → socket_wf g' →
  buf_ok b → ip_ok (ip s) (socket_frags g' + (kb + others s0 k g)) →
  runs (unlock h g';; if is_empty b then zoom (drop_buffer b) else mret tt) s (λ _ s',
    socket_step s0 s' h g' frames ∧ tcp_ok s' k ∧ timers s' = timers s).
Proof.
  intros kb Hok Hg Hl Hwf Hb Hip. unfold kb in Hip. destruct (is_empty b).
  - call (finish_runs s0 s k h g g' b frames); try done.
    { unfold others in *. by replace (_ - _ + (nfrags b + k)) with
        (nfrags b + (sockets_frags (sockets s0) - socket_frags g + k)) by lia. }
    intros _ s' (Hss & Hok' & _ & Ht). by split_and!.
  - unfold unlock. run. destruct Hl as [Hpm Hsk Hr Hck Hn Hsent]. split_and!; [|..|done].
    + split; try done. cbn. by rewrite Hsk.
    + by apply (unlocked_ok s0 s (nfrags b + k) k h g g').
Qed.

Lemma input_socket_any_runs s k h g b hd opts :
  tcp_ok s (nfrags b + k) → sockets s !! h = Some g → buf_ok b → acceptable g (h_seq_num hd) (contents b) →
  is_u32 (h_ack_num hd) → has_flag (h_flags hd) FLAG_RST = false → fin_room g →
  (has_flag (h_flags hd) FLAG_ACK = true → is_established g = true →
   in_flight g ∨ ack_ignored g (h_ack_num hd)) →
  let st' := next_state (state g) (has_flag (h_flags hd) FLAG_ACK) (has_flag (h_flags hd) FLAG_FIN)
    (h_ack_num hd =? u32_wrapping_add (send_next_seq g) 1) in
  runs (input_socket h b hd opts) s (λ _ s', tcp_ok s' k ∧ ∃ g' frames, socket_step s s' h g' frames ∧
    state g' = st' ∧ contents (receive_queue g) `prefix_of` contents (receive_queue g') ∧
    (contents b = [] → contents (receive_queue g') = contents (receive_queue g)) ∧
    (state g ≠ TimeWait → st' = TimeWait → ∃ timer_id,
       pending_last s' TIME_WAIT_TIMEOUT (TimeWaitTimeout h) timer_id)).
Proof.
  intros Hok Hg Hb Hacc Hack HR Hroom Hest st'. destruct (locked_ok _ _ _ _ Hok Hg) as [Hwf Hip].
  pose proof (tcp_clock _ _ Hok) as Hclk.
  unfold input_socket. eapply lock_runs; [exact Hg|]. apply runs_bind.
  call segment_arrives_runs. intros g0 s0 (m & t & -> & -> & Hl0 & _). rewrite HR.
  set (g0 := g <| send_mss := m |> <| response_timer_id := -1 |>) in *.
  set (s0 := s <| timers := t |>) in *.
  assert (0 ≤ current_time_ms (timers s0) < 9223372036854775808) as Hclk0 by (by rewrite (step_clock _ _ _ Hl0)).
  assert (socket_wf g0) as Hwf0 by (by destruct Hwf).
  set (kb := if is_empty b then nfrags b else 0). set (kr := nfrags (retransmit_queue g) + (kb + others s k g)).
  apply runs_bind. apply (runs_mono _ _ (λ g1 s1, received g0 g1 ∧ socket_wf g1 ∧ fin_room g1 ∧
    contents (receive_queue g0) `prefix_of` contents (receive_queue g1) ∧
    (contents b = [] → contents (receive_queue g1) = contents (receive_queue g0)) ∧
    ∃ frames, locked_step s0 s1 frames ∧ ip_ok (ip s1) (receive_frags g1 + kr))).
  { assert (socket_frags g + others s (nfrags b + k) g = nfrags b + (receive_frags g0 +
      (nfrags (retransmit_queue g) + others s k g))) as Hk
      by (unfold others, socket_frags, receive_frags; cbn; lia). rewrite Hk in Hip.
    destruct (is_empty b) eqn:Eb; cbn [negb]; unfold kr, kb.
    - run. split_and!; try done; [apply received_refl|]. exists []. split; [apply locked_refl|].
      by replace (receive_frags g0 + _) with (nfrags b + (receive_frags g0 +
        (nfrags (retransmit_queue g) + others s k g))) by lia.
    - assert (contents b ≠ []) as Hne by (intros E; by rewrite (proj2 (is_empty_spec b Hb) E) in Eb).
      rewrite Z.add_0_l. call (receive_any_runs s0 (nfrags (retransmit_queue g) + others s k g) h g0); try done.
      { by apply acceptable_arrived. }
      intros g1 s1 (? & ? & ? & ? & ?). by split_and!. }
  intros g1 s1 (Hrcv & Hwf1 & Hroom1 & Hpre & Hsame & frames1 & Hl1 & Hip1).
  assert (is_established g1 = is_established g ∧ retransmit_queue g1 = retransmit_queue g) as [He1 Hr1]
    by (by destruct Hrcv as (? & ? & ? & ? & ? & ->)).
  assert ((in_flight g ∨ ack_ignored g (h_ack_num hd)) → in_flight g1 ∨ ack_ignored g1 (h_ack_num hd)) as Hfl
    by (by destruct Hrcv as (? & ? & ? & ? & ? & ->)).
  rewrite He1. apply runs_bind.
  set (ka := kb + others s k g). apply (runs_mono _ _ (λ g2 s2, acked g1 g2 ∧ socket_wf g2 ∧
    locked_step s1 s2 [] ∧ ip_ok (ip s2) (socket_frags g2 + ka))).
  { assert (receive_frags g1 + kr = nfrags (retransmit_queue g1) + (receive_frags g1 + ka)) as Hk
      by (unfold kr, ka; rewrite Hr1; lia). rewrite Hk in Hip1.
    assert (∀ g2, acked g1 g2 → nfrags (retransmit_queue g2) + (receive_frags g1 + ka) = socket_frags g2 + ka) as Hf.
    { intros g2 (? & ? & ? & ? & ? & ? & ->). unfold socket_frags, receive_frags. cbn. lia. }
    destruct (has_flag (h_flags hd) FLAG_ACK && is_established g) eqn:EA.
    - apply andb_true_iff in EA as [HA E]. call (ack_phase_runs s1 (receive_frags g1 + ka) h g1); try done; [by apply Hfl, Hest|].
      intros g2 s2 (Ha & Hl2 & Hip2 & Hwf2 & _). by rewrite (Hf g2 Ha) in Hip2.
    - run. rewrite (Hf g1 (acked_refl g1)) in Hip1. split_and!; try done; [apply acked_refl|apply locked_refl]. }
  intros g2 s2 (Ha & Hwf2 & Hl2 & Hip2).
  destruct (received_acked_state _ _ _ Hrcv Ha) as (Hst2 & Hsn2 & Hq2 & Hra2).
  change (state g0) with (state g) in Hst2. change (send_next_seq g0) with (send_next_seq g) in Hsn2.
  apply runs_bind. pose proof (locked_trans _ _ _ _ _ Hl0 (locked_trans _ _ _ _ _ Hl1 Hl2)) as Hl.
  call (state_transition_runs s2 (socket_frags g2 + ka) h g2); try done.
  { intros E. rewrite Hra2. apply Hroom1. rewrite <-E, Hst2.
    by destruct Hrcv as (? & ? & ? & ? & ? & ->). }
  { by rewrite (step_clock _ _ _ Hl). }
  rewrite Hst2, Hsn2. fold st'.
  intros g' s3 (frames & Hst' & Hwf' & (Hq1 & Hq3 & Hq4) & Hl3 & Hip3 & _ & Htw).
  call (release_runs s s3 k h g g' b); try done; [exact (locked_trans _ _ _ _ _ Hl Hl3)| |].
  { by replace (socket_frags g') with (socket_frags g2) by (unfold socket_frags; by rewrite Hq1, Hq3, Hq4). }
  intros _ s' (Hss & Hok' & Ht). split; [done|]. exists g', (([] ++ frames1 ++ []) ++ frames).
  rewrite Hq1, Hq2. split_and!; try done.
  intros Hne E. rewrite Hst2 in Htw. destruct (Htw Hne E) as [tid Hp]. exists tid.
  unfold pending_last in *. by rewrite Ht.
Qed.

End Transition.
