(* ===== verification/StackSpec.v ===== *)
(** * lib.rs: what a turn of the receive thread does

    A frame that another host sent comes out of the device, and reaches the
    protocol it is for without its IP header. *)

From S2P Require Import Prelude Util Buf BufSpec Checksum Timer Netif Ip Icmp.
From S2P Require Udp.
From S2P Require Import Reassembler Arrival TcpOptions Tcp Stack TcpSpec TcpConn TcpSegments.
From stdpp Require Import gmap.
#[local] Existing Instance Udp.eta_UDPSocketState.
Local Open Scope Z_scope.

(** The statics of udp.rs and tcp.rs. *)
Abbreviation udp_part s := (@view StackState Udp.UdpState stack_udp s).
Abbreviation tcp_part s := (@view StackState TcpState stack_tcp s).

Section Receive.
Context `{!Tun, !TunOk, !Random, !RandomOk}.

(** The next frame the device delivers. *)
Definition next_frame (s : IpState) (frame : list Z) : Prop :=
  (tun_recv (frames_received (netif s)) MRU).2 = frame.

(** One frame has been read between [i] and [j], and nothing else happened. *)
Record frame_read (i j : IpState) : Prop := {
  read_wire : wire (netif j) = wire (netif i);
  read_v4 : LOCAL_IPV4 (netif j) = LOCAL_IPV4 (netif i);
  read_v6 : LOCAL_IPV6 (netif j) = LOCAL_IPV6 (netif i);
  read_count : frames_received (netif j) = S (frames_received (netif i));
  read_id : NEXT_PACKET_ID j = NEXT_PACKET_ID i;
}.

Lemma frame_read_bufs i j (p : BufState) : frame_read i j → frame_read i (update p j).
Proof. by intros []. Qed.

(** From [s] to [s'] one frame was read and the frames [l] were written; of the
    rest of the state only the fragment pool, the counters and the packet id of
    the next frame may differ. *)
Record answered (s s' : StackState) (l : list (list Z)) : Prop := {
  answered_rest : s' = s <| Stack.ip := Stack.ip s' |>;
  answered_wire : wire (netif (Stack.ip s')) = wire (netif (Stack.ip s)) ++ l;
  answered_v4 : LOCAL_IPV4 (netif (Stack.ip s')) = LOCAL_IPV4 (netif (Stack.ip s));
  answered_v6 : LOCAL_IPV6 (netif (Stack.ip s')) = LOCAL_IPV6 (netif (Stack.ip s));
  answered_count : frames_received (netif (Stack.ip s')) = S (frames_received (netif (Stack.ip s)));
}.

Lemma frame_answered s j j' l :
  frame_read (Stack.ip s) j → sent (netif j) (netif j') l → answered s (s <| Stack.ip := j' |>) l.
Proof. intros [] []. split; cbn; congruence || done. Qed.

(** The packet [b] that carries [payload]: the first fragment holds all of its
    headers. *)
Record packet (b : NetBuffer) (payload : list Z) : Prop := {
  packet_buf : buf_ok b ∧ even_layout b;
  packet_contents : contents b = payload;
  packet_header : ∃ n, (400 ≤ n)%nat ∧ header b = Ok (take n payload);
  packet_length : zlen payload ≤ MRU;
}.

Lemma packet_header_app b hd rest :
  packet b (hd ++ rest) → zlen hd ≤ 400 → ∃ r, header b = Ok (hd ++ r).
Proof.
  intros [_ _ (n & Hn & Hh) _] Hl. eexists. rewrite Hh. rewrite take_app_ge by (unfold zlen in *; lia).
  done.
Qed.

Lemma ip_header_range s k len proto dst :
  ip_ok s k → IPAddr_ok dst → 20 ≤ zlen (ip_header s len proto dst) ≤ 40.
Proof.
  intros [[_ [H4 Hv4] [H6 Hv6]] _] Hd. unfold ip_header. destruct dst.
  - rewrite zlen_ipv4_header by done. lia.
  - rewrite zlen_ipv6_header by done. lia.
Qed.

Lemma packet_receive_runs s k s0 k0 proto dst payload Q :
  ip_ok (Stack.ip s) k → ip_ok s0 k0 → IPAddr_ok dst → is_u8 proto → payload ≠ [] →
  next_frame (Stack.ip s) (ip_header s0 (zlen payload) proto dst ++ payload) →
  (∀ b i, packet b payload → ip_ok i (nfrags b + k) → frame_read (Stack.ip s) i →
    runs (ip_input_common b proto (local_addr (netif s0) dst)) (s <| Stack.ip := i |>) Q) →
  runs packet_receive_step s Q.
Proof.
  intros [Hnet Hid] Hok0 Hdst Hpr Hne Hframe Hk. unfold packet_receive_step. run.
  call recv_packet_runs; [exact Hnet|].
  intros b n (Hb & He & Hc & Hh & [Hpos Hmru] & _ & Hw & Hf & H4 & H6 & Hn).
  unfold next_frame in Hframe. change (view s) with (netif (Stack.ip s)) in Hc, Hf. rewrite Hframe in Hc.
  set (hdr := ip_header s0 (zlen payload) proto dst) in *.
  assert (20 ≤ zlen hdr ≤ 40) as Hhdr by (by eapply ip_header_range).
  rewrite Hc in Hh, Hmru. rewrite take_app_ge in Hh by (unfold zlen in *; lia).
  set (m := (512 - length hdr)%nat) in *.
  assert (400 ≤ m)%nat by (unfold m, zlen in *; lia).
  rewrite <-(take_drop m payload), app_assoc in Hc.
  eapply (ip_input_of_output _ k b s0 k0 proto dst (take m payload) (drop m payload));
    rewrite ?take_drop; try done.
  { apply Hn. }
  intros b' p Hb' Hc' Hh' He' Hnf Hp. rewrite take_drop in Hc'.
  set (i := (Stack.ip s) <| netif := n <| bufs := p |> |>).
  assert (local_addr (netif s0) dst =
    (if is_v4 dst then LOCAL_IPV4 (netif s0) else LOCAL_IPV6 (netif s0))) as <- by (by destruct dst).
  apply (Hk b' i).
  - destruct (decide (take m payload = [])) as [E|E].
    { exfalso. apply Hne. destruct payload; [done|]. destruct m; [lia|done]. }
    split; [by auto|done| |].
    + exists m. auto.
    + rewrite zlen_app in Hmru. lia.
  - split; [|exact Hid]. exact (net_ok_bufs n p (nfrags b + k) _ Hn Hp).
  - done.
Qed.

(** * The state of the whole stack *)


(** Each protocol's invariant; between two operations every fragment in use is
    in a queue of a socket. *)
Record stack_ok (s : StackState) : Prop := {
  stack_udp_ok : Udp.udp_ok (udp_part s) (sockets_frags (Stack.tcp_sockets s));
  stack_tcp_ok : tcp_ok (tcp_part s) (Udp.queued (Stack.udp_sockets s));
}.

Definition stack_frags (s : StackState) : Z :=
  sockets_frags (Stack.tcp_sockets s) + Udp.queued (Stack.udp_sockets s).

Lemma stack_ok_ip s : stack_ok s → ip_ok (Stack.ip s) (stack_frags s).
Proof. intros [_ [Hn _ _]]. exact Hn. Qed.

(** What the protocols that have no sockets change. *)
Lemma stack_ok_update s i : stack_ok s → ip_ok i (stack_frags s) → stack_ok (s <| Stack.ip := i |>).
Proof.
  intros [[_ ? ?] [_ ? ?]] Hi. split; split; try done.
  change (ip_ok i (Udp.queued (Stack.udp_sockets s) + sockets_frags (Stack.tcp_sockets s))).
  by rewrite Z.add_comm.
Qed.

Lemma stack_ok_udp s i u :
  stack_ok s → Udp.udp_ok u (sockets_frags (Stack.tcp_sockets s)) → stack_ok (@update _ _ stack_udp u (s <| Stack.ip := i |>)).
Proof.
  intros [_ [_ ? ?]] [Hi ? ?]. split; [by split|]. split; try done.
  change (ip_ok (Udp.ip u) (sockets_frags (Stack.tcp_sockets s) + Udp.queued (Udp.sockets u))).
  by rewrite Z.add_comm.
Qed.

Lemma stack_ok_tcp s i t :
  stack_ok s → tcp_ok t (Udp.queued (Stack.udp_sockets s)) → stack_ok (@update _ _ stack_tcp t (s <| Stack.ip := i |>)).
Proof.
  intros [[_ ? ?] _] [Hi ? ?]. split; [|by split]. split; try done.
  change (ip_ok (Tcp.ip t) (Udp.queued (Stack.udp_sockets s) + sockets_frags (Tcp.sockets t))).
  by rewrite Z.add_comm.
Qed.

(** A packet in flight belongs to the invariants of both protocols. *)
Lemma packet_tcp_ok s i b :
  stack_ok s → ip_ok i (nfrags b + stack_frags s) →
  tcp_ok (tcp_part (s <| Stack.ip := i |>)) (nfrags b + Udp.queued (Stack.udp_sockets s)).
Proof.
  intros [_ [_ ? ?]] Hi. split; try done.
  change (ip_ok i (sockets_frags (Stack.tcp_sockets s) + (nfrags b + Udp.queued (Stack.udp_sockets s)))).
  unfold stack_frags in Hi. by replace (sockets_frags _ + _) with (nfrags b + (sockets_frags (Stack.tcp_sockets s) + Udp.queued (Stack.udp_sockets s))) by lia.
Qed.

Lemma packet_udp_ok s i b :
  stack_ok s → ip_ok i (nfrags b + stack_frags s) →
  Udp.udp_ok (udp_part (s <| Stack.ip := i |>)) (nfrags b + sockets_frags (Stack.tcp_sockets s)).
Proof.
  intros [[_ ? ?] _] Hi. split; try done.
  change (ip_ok i (Udp.queued (Stack.udp_sockets s) + (nfrags b + sockets_frags (Stack.tcp_sockets s)))).
  unfold stack_frags in Hi. by replace (Udp.queued _ + _) with (nfrags b + (sockets_frags (Stack.tcp_sockets s) + Udp.queued (Stack.udp_sockets s))) by lia.
Qed.

(** * The protocols *)

Lemma local_addr_sent n n' l a : sent n n' l → local_addr n' a = local_addr n a.
Proof. intros []. by destruct a. Qed.

Lemma local_addr_read i j a : frame_read i j → local_addr (netif j) a = local_addr (netif i) a.
Proof. intros []. by destruct a. Qed.

(** A segment from another host reaches tcp_input as the packet it was sent as. *)
Lemma tcp_segment_received s s0 k0 p opts payload id Q :
  let i0 := {| netif := s0; NEXT_PACKET_ID := id |} in
  let src := local_addr s0 (dest_ip p) in
  stack_ok s → ip_ok i0 k0 → params_ok p → bytes_ok payload →
  options p = encode_options opts → Forall option_ok opts →
  local_addr (netif (Stack.ip s)) src = dest_ip p →
  20 + zlen (options p) + zlen payload ≤ MRU →
  next_frame (Stack.ip s) (tcp_frame i0 p payload) →
  (∀ b i, let t := tcp_part (s <| Stack.ip := i |>) in
    frame_read (Stack.ip s) i →
    segment_buffer t b src p opts payload → tcp_ok t (nfrags b + Udp.queued (Stack.udp_sockets s)) →
    runs (tcp_input b src) t (λ a t', Q a (@update _ _ stack_tcp t' (s <| Stack.ip := i |>)))) →
  runs packet_receive_step s Q.
Proof.
  intros i0 src Hs Hi0 Hp Hpl Ho Hopts Haddr Hmru Hframe Hk.
  pose proof (zlen_nonneg payload). pose proof (zlen_nonneg (options p)).
  unfold next_frame, tcp_frame in Hframe. fold src in Hframe.
  rewrite truncate_id in Hframe by (unfold in_range; lia).
  set (seg := tcp_segment _ p payload) in Hframe.
  assert (zlen seg = 20 + zlen (options p) + zlen payload) as Hz.
  { unfold seg, tcp_segment. rewrite zlen_app, zlen_tcp_header. lia. }
  apply (packet_receive_runs s (stack_frags s) i0 k0 PROTO_TCP (dest_ip p) seg);
    [by apply stack_ok_ip|done|by destruct Hp|done|intros E; rewrite E in Hz; change (zlen (@nil Z)) with 0 in Hz; lia| |].
  { unfold next_frame. by rewrite Hz. }
  intros b i Hb Hi Hread. unfold ip_input_common. cbn. apply runs_zoom. apply Hk; [done| |by apply packet_tcp_ok].
  assert (local_addr (netif i) src = dest_ip p) as Haddr' by (by rewrite (local_addr_read _ _ _ Hread)).
  split; try done.
  - apply Hb.
  - change (netif (Tcp.ip (tcp_part (s <| Stack.ip := i |>)))) with (netif i). rewrite Haddr'. apply Hb.
  - destruct (packet_header_app b (tcp_header p _) payload Hb) as (r & Hr); [|by eexists _, r].
    rewrite zlen_tcp_header. destruct Hp as [? ? ? ? ? ? (? & ? & ?) ?]. lia.
  - split_and!; [done| |done].
    destruct (local_addr_ok _ _ (dest_ip p) Hi0) as [Ha _]. exact Ha.
  - exists []. rewrite app_nil_r. split_and!; [done|by left|done].
  - rewrite (packet_contents _ _ Hb), Hz. lia.
Qed.

(** A datagram from another host for an open port joins the queue of its socket. *)
Lemma datagram_received s i0 k0 dst sp dp data h stb :
  let src := local_addr (netif i0) dst in
  stack_ok s → ip_ok i0 k0 → IPAddr_ok dst → is_u16 sp → is_u16 dp → bytes_ok data →
  8 + zlen data ≤ MRU → udp_port_map s !! dp = Some h → Stack.udp_sockets s !! h = Some stb →
  next_frame (Stack.ip s) (Udp.udp_frame i0 dst sp dp data) →
  runs packet_receive_step s (λ _ s', ∃ u b, s' = @update _ _ stack_udp u s ∧
    Udp.udp_ok u (sockets_frags (Stack.tcp_sockets s)) ∧ Udp.PORT_MAP u = udp_port_map s ∧
    wire (netif (Udp.ip u)) = wire (netif (Stack.ip s)) ∧
    LOCAL_IPV4 (netif (Udp.ip u)) = LOCAL_IPV4 (netif (Stack.ip s)) ∧
    LOCAL_IPV6 (netif (Udp.ip u)) = LOCAL_IPV6 (netif (Stack.ip s)) ∧ contents b = data ∧
    Udp.sockets u = <[h := stb <| Udp.receive_queue ::= λ q, q ++ [(src, sp, b)] |>]> (Stack.udp_sockets s)).
Proof.
  intros src Hs Hi0 Hdst Hsp Hdp Hb Hlen Hpm Hstb Hframe. unfold Udp.udp_frame in Hframe.
  pose proof (zlen_nonneg data). set (dgram := Udp.udp_datagram _ _ _ _ data) in Hframe.
  assert (∀ x c, zlen (Udp.udp_datagram x sp dp c data) = 8 + zlen data) as Hz
    by (intros; unfold Udp.udp_datagram, Udp.udp_header, be16; zlen_solve).
  pose proof (Hz _ _ : zlen dgram = _) as Hzd.
  apply (packet_receive_runs s (stack_frags s) i0 k0 PROTO_UDP dst dgram);
    [by apply stack_ok_ip|done|done|done| | |].
  { intros E. rewrite E in Hzd. change (zlen (@nil Z)) with 0 in Hzd. lia. }
  { by rewrite Hzd. }
  intros b i Hpk Hi Hread. fold src.
  change (ip_input_common b PROTO_UDP src) with (zoom (Udp.udp_input b src) : ST StackState unit).
  apply runs_zoom. destruct (packet_header_app b _ data Hpk ltac:(done)) as (r & Hr).
  destruct (local_addr_ok _ _ dst Hi0) as [Hsrc _].
  call (Udp.udp_input_runs (udp_part (s <| Stack.ip := i |>)) (sockets_frags (Stack.tcp_sockets s)) b src
    sp dp); [apply Hpk|apply Hpk|exact Hr|by rewrite (packet_contents _ _ Hpk), Hzd|done|done|done|by apply packet_udp_ok|].
  change (Udp.PORT_MAP (udp_part (s <| Stack.ip := i |>))) with (udp_port_map s). rewrite Hpm.
  intros _ u (Hu & Hpu & [Hw H4 H6 _] & st & b' & Hst & Hcb & Hus & _). rewrite app_nil_r in Hw.
  change (Stack.udp_sockets s !! h = Some st) in Hst. assert (st = stb) as -> by congruence.
  exists u, b'. split_and!; try done; [etrans; [exact Hw|]|etrans; [exact H4|]|etrans; [exact H6|]]; apply Hread.
Qed.

End Receive.
