(* ===== verification/Transfer.v ===== *)
(** * Two hosts: the segments of one reach the other

    What one host's tcp_write puts on the wire, and another host's receive
    thread makes of it, whatever the order in which the frames arrive and
    however often each of them does. *)

From S2P Require Import Prelude Util Buf BufSpec Checksum Timer Netif Ip.
From S2P Require Udp.
From S2P Require Import Reassembler Arrival TcpOptions Tcp Stack TcpSpec TcpData TcpConn TcpSegments StackSpec.
From stdpp Require Import gmap.
Local Open Scope Z_scope.

(** The segments that carry [chunks] one after the other from [off] on. *)
Fixpoint cut (off : Z) (chunks : list (list Z)) : list segment :=
  match chunks with
  | [] => []
  | c :: chunks => (off, c) :: cut (off + zlen c) chunks
  end.

Lemma cut_consecutive stream off chunks :
  at_offset stream off (concat chunks) → Forall (λ c, 0 < zlen c) chunks →
  consecutive stream off (cut off chunks) (off + zlen (concat chunks)).
Proof.
  intros Hat Hc. revert off Hat. induction Hc as [|c chunks Hc Hcs IH]; intros off Hat; cbn.
  { rewrite (@zlen_nil Z). lia. }
  change (concat (c :: chunks)) with (c ++ concat chunks) in *.
  pose proof (zlen_nonneg (concat chunks)).
  destruct (at_offset_split _ _ _ (zlen c) Hat ltac:(rewrite zlen_app; lia)) as [H1 H2].
  replace (Z.to_nat (zlen c)) with (length c) in * by (unfold zlen; lia).
  rewrite take_app_length in H1. rewrite drop_app_length in H2.
  split_and!; [done|by intros ->|done|]. rewrite zlen_app, Z.add_assoc. by apply IH.
Qed.

Lemma cut_Forall (P : list Z → Prop) off chunks :
  Forall P chunks → Forall (λ x, P x.2) (cut off chunks).
Proof. intros H. revert off. induction H; intros off; by constructor. Qed.

Lemma segments_sent_lookup n g off chunks frames i x :
  segments_sent n g (off mod u32_size) chunks frames → cut off chunks !! i = Some x →
  ∃ f, frames !! i = Some f ∧ frame_carries n g (x.1 mod u32_size) x.2 f.
Proof.
  revert off frames i. induction chunks as [|c chunks IH]; intros off [|f frames] i Hs Hi; try done.
  destruct Hs as [Hf Hs]. destruct i as [|i]; simplify_eq/=; [by exists f|].
  eapply IH; [|done]. unfold wrapping_add in Hs. by rewrite Zplus_mod_idemp_l in Hs.
Qed.

Lemma cut_length n g off chunks frames :
  segments_sent n g off chunks frames → ∀ o, length (cut o chunks) = length frames.
Proof.
  revert off frames. induction chunks as [|c chunks IH]; intros off [|f frames] Hs o; try done.
  destruct Hs as [_ Hs]. cbn. f_equal. by eapply IH.
Qed.

(** Frames in the order of arrival, and the segments they carry. *)
Lemma reorder (P : segment → list Z → Prop) segs frames order fs :
  (∀ i x, segs !! i = Some x → ∃ f, frames !! i = Some f ∧ P x f) →
  length segs = length frames → Forall2 (λ i f, frames !! i = Some f) order fs →
  ∃ xs, Forall2 P xs fs ∧ xs ⊆ segs ∧ ∀ i x, i ∈ order → segs !! i = Some x → x ∈ xs.
Proof.
  intros HP Hlen Hfs. induction Hfs as [|i f order fs Hi Hfs (xs & Hxs & Hsub & Hall)].
  { exists []. split; [constructor|]. split; [by intros x Hx%elem_of_nil|by intros i x Hi%elem_of_nil]. }
  destruct (segs !! i) as [x|] eqn:Hx.
  2: { apply lookup_ge_None in Hx. apply lookup_lt_Some in Hi. lia. }
  destruct (HP i x Hx) as (f' & Hf' & Hp). simplify_eq. exists (x :: xs). split_and!.
  - by constructor.
  - intros y [->|Hy]%elem_of_cons; [by eapply list_elem_of_lookup_2|by apply Hsub].
  - intros j y [->|Hj]%elem_of_cons Hjy; [simplify_eq; by left|right; by eapply Hall].
Qed.

Section Transfer.
Context `{!Tun, !TunOk, !Random, !RandomOk}.

(** The stack [s] has an open connection, the socket [h], to the socket [ga] of
    a host with the interface [n]. *)
Record receiver (s : StackState) (n : NetState) (ga : TCPSocketState) (h : SocketReference)
    (gb : TCPSocketState) (stream : Z → Z) (start next : Z) : Prop := {
  rc_ok : stack_ok s;
  rc_addr : local_addr (netif (Stack.ip s)) (local_addr n (remote_ip ga)) = remote_ip ga;
  rc_port : tcp_port_map s !! (local_addr n (remote_ip ga), local_port ga, remote_port ga) = Some h;
  rc_socket : Stack.tcp_sockets s !! h = Some gb;
  rc_open : open_connection stream start next gb;
  rc_acks : 0 ≤ num_delayed_acks gb < 0x7fffffff;
}.

(** What the sender's side has to satisfy for its frames to be valid. *)
Record sender (n : NetState) (ga : TCPSocketState) (k : Z) : Prop := {
  sd_net : net_ok n k;
  sd_socket : socket_wf ga ∧ can_send ga;
}.

(** One frame arrives. *)
Lemma frame_received_runs s n ga k h gb stream start next off payload f :
  sender n ga k → receiver s n ga h gb stream start next →
  frame_carries n ga (off mod u32_size) payload f → next_frame (Stack.ip s) f →
  payload ≠ [] → bytes_ok payload → at_offset stream off payload → 20 + zlen payload ≤ MRU →
  next - 2147483648 < off → off + zlen payload < next + 2147483648 → next - start < 0x7fffffff →
  runs packet_receive_step s (λ _ s', ∃ b' gb' next', receiver s' n ga h gb' stream start next' ∧
    frames_received (netif (Stack.ip s')) = S (frames_received (netif (Stack.ip s))) ∧
    contents b' = payload ∧ next ≤ next' < next + 2147483648 ∧
    reassembled off b' next next' (out_of_order (reassembler gb)) (out_of_order (reassembler gb'))).
Proof.
  intros [Hn [Hwf Hcs]] [Hok Haddr Hport Hsock Hopen Hacks] (id & Hid & ->) Hf Hne Hb Hat Hlen Hlo Hhi Hsmall.
  set (p := send_params (ga <| send_next_seq := off mod u32_size |>) (Z.lor FLAG_ACK FLAG_PSH)) in *.
  assert (params_ok p) as Hp.
  { apply send_params_ok; [|done|done]. destruct Hwf as [? ? ? ? (? & ? & ?)]. split; try done.
    split_and!; [apply Z.mod_pos_bound; lia|done|done]. }
  apply (tcp_segment_received s n k p [] payload id); try done.
  intros b i t Hread Hseg Htok.
  destruct Hopen as (? & ? & Hrec).
  assert (zlen (contents (receive_queue gb)) = next - start) as Hz by (destruct Hrec; lia).
  call (tcp_input_data_runs t (Udp.queued (Stack.udp_sockets s)) b _ p [] payload h gb stream start next off);
    try done; [by rewrite Hz|].
  intros _ t' (b' & gb' & next' & frames & [Hs1 Hp1 _ Hn1] & Hok' & Hc & [Hopen' _ Hbnd Hre Hacks' _ _ _] & _).
  exists b', gb', next'. split_and!; try done; try apply Hbnd.
  - split; try done.
    + by apply stack_ok_tcp.
    + change (local_addr (netif (Tcp.ip t')) (local_addr n (remote_ip ga)) = remote_ip ga).
      by rewrite (local_addr_sent _ _ _ _ Hn1), (local_addr_read _ _ _ Hread : local_addr (netif (Tcp.ip t)) _ = _).
    + change (PORT_MAP t' !! (local_addr n (remote_ip ga), local_port ga, remote_port ga) = Some h).
      by rewrite Hp1.
    + change (sockets t' !! h = Some gb'). rewrite Hs1. apply list_lookup_insert_eq.
      by eapply lookup_lt_Some.
  - change (frames_received (netif (Tcp.ip t')) = S (frames_received (netif (Stack.ip s)))).
    rewrite (sent_received _ _ _ Hn1). apply Hread.
Qed.

(** The frames the device delivers next are [fs], one after the other. *)
Definition next_frames (i : IpState) (fs : list (list Z)) : Prop :=
  ∀ j f, fs !! j = Some f → (tun_recv (frames_received (netif i) + j) MRU).2 = f.

Lemma next_frames_cons i f fs : next_frames i (f :: fs) → next_frame i f.
Proof. intros Hf. unfold next_frame. rewrite <-(Hf O f eq_refl). by rewrite Nat.add_0_r. Qed.

Lemma next_frames_tail i i' f fs :
  next_frames i (f :: fs) → frames_received (netif i') = S (frames_received (netif i)) →
  next_frames i' fs.
Proof.
  intros Hf Hr j f' Hj. rewrite Hr, <-(Hf (S j) f' Hj). f_equal. f_equal. lia.
Qed.

(** Any number of frames, each with one of the segments [segs]. *)
Lemma frames_received_runs n ga k h stream start first last segs xs :
  sender n ga k → consecutive stream first segs last → start ≤ first → last - start < 0x7fffffff →
  Forall (λ x, bytes_ok x.2 ∧ 20 + zlen x.2 ≤ MRU) segs → ∀ s gb next arrived fs,
  receiver s n ga h gb stream start next →
  arrival first segs arrived next (out_of_order (reassembler gb)) →
  xs ⊆ segs → Forall2 (λ x f, frame_carries n ga (x.1 mod u32_size) x.2 f) xs fs →
  next_frames (Stack.ip s) fs →
  runs (packet_receive_thread (length fs)) s (λ _ s', ∃ gb' next',
    receiver s' n ga h gb' stream start next' ∧
    arrival first segs (rev xs ++ arrived) next' (out_of_order (reassembler gb'))).
Proof.
  intros Hsd Hsegs Hstart Hlast Hmru. induction xs as [|[off p] xs IH];
    intros s gb next arrived fs Hrc Harr Hxs Hcar Hfs.
  { apply Forall2_nil_inv_l in Hcar as ->. cbn. run. by exists gb, next. }
  apply Forall2_cons_inv_l in Hcar as (f & fs' & Hf & Hcar & ->). cbn [length packet_receive_thread].
  assert ((off, p) ∈ segs) as Hin by (apply Hxs; by left).
  destruct (consecutive_at _ _ _ _ _ _ Hsegs Hin) as (Hlo & Hhi & Hne & Hat).
  rewrite Forall_forall in Hmru. destruct (Hmru _ Hin) as [Hb Hl]. cbn in Hb, Hl.
  pose proof (arrival_bounds stream first last segs Hsegs _ _ _ Harr) as Hbnd.
  pose proof (zlen_nonneg p). apply runs_bind.
  call (frame_received_runs s n ga k h gb stream start next off p f); try done; [|lia..|].
  { by eapply next_frames_cons. }
  intros _ s' (b' & gb' & next' & Hrc' & Hfr & Hc & Hn & Hre).
  pose proof (arrival_step stream first last segs Hsegs ltac:(lia) _ _ _ _ _ _ _ _ Harr Hin Hc Hn Hre) as Harr'.
  assert (xs ⊆ segs) as Hxs' by (intros x Hx; apply Hxs; by right).
  call (IH s' gb' next' _ fs' Hrc' Harr' Hxs' Hcar (next_frames_tail _ _ _ _ Hfs Hfr)).
  intros _ s2 (gb2 & next2 & ? & ?). exists gb2, next2. cbn [rev].
  by rewrite <-app_assoc.
Qed.

End Transfer.

(** The octets that tcp_write has to send fit into the window. *)
Definition fits (g : TCPSocketState) (data : list Z) : Prop :=
  zlen (contents (retransmit_queue g)) + zlen data ≤ send_window g < 2147483648.

(** Then it does not wait. *)
Lemma fits_open g g' data o :
  in_flight g → written g g' → fits g data → 0 ≤ o < zlen data → 1 ≤ send_mss g →
  send_next_seq g' = u32_wrapping_add (send_next_seq g) o → ¬ window_closed g' data o.
Proof.
  intros [Hf _] (sq & q & t & ->) [Hfit Hw] Ho Hm Hs. unfold window_closed. cbn in Hs |- *.
  rewrite Hs, seq_gt_spec. unfold wrapping_sub, wrapping_add in *.
  pose proof (zlen_nonneg (contents (retransmit_queue g))).
  set (m := Z.min (zlen data - o) (send_mss g)). set (w := send_window g) in *.
  set (f := zlen (contents (retransmit_queue g))) in *.
  rewrite Zplus_mod_idemp_l, <-Zminus_mod. assert (0 ≤ w - f - o - m < 2147483648) by lia.
  replace (send_next_seq g + o + m - (send_unacked g + w)) with
    ((send_next_seq g - send_unacked g) + (o + m - w)) by lia.
  rewrite <-Zplus_mod_idemp_l, Hf.
  destruct (decide (w - f - o - m = 0)) as [E|E].
  - replace (f + (o + m - w)) with 0 by lia. rewrite Z.mod_0_l; lia.
  - rewrite <-(Z_mod_plus_full _ 1), Z.mod_small; lia.
Qed.

(** What tcp_write puts on the wire, at the host where it arrives. *)
Lemma write_transfer_runs (TA TB : Tun) (RB : Random) `{!@TunOk TA, !@TunOk TB} a k ha ga data s h gb stream start next :
  tcp_ok a k → sockets a !! ha = Some ga → state ga ≠ Closed → can_send ga → in_flight ga →
  bytes_ok data → 1 ≤ send_mss ga ≤ 1960 →
  zlen (contents (retransmit_queue ga)) + zlen data < 2147483648 →
  receiver s (netif (Tcp.ip a)) ga h gb stream start next →
  out_of_order (reassembler gb) = [] → send_next_seq ga = next mod u32_size →
  at_offset stream next data → next - start + zlen data < 0x7fffffff →
  runs (@tcp_write TA false ha data 0) a (λ r a', tcp_ok a' k ∧ ∃ n frames, 0 ≤ n ≤ zlen data ∧
    sent (netif (Tcp.ip a)) (netif (Tcp.ip a')) frames ∧
    (r = Wrote (zlen data) ∧ n = zlen data ∨ r = WaitWindow n ∧ n < zlen data ∧ ¬ fits ga data) ∧
    ∀ order fs, (∀ i, i ∈ order ↔ (i < length frames)%nat) →
      Forall2 (λ i f, frames !! i = Some f) order fs → @next_frames TB (Stack.ip s) fs →
      runs (@packet_receive_thread TB RB (length fs)) s (λ _ s', stack_ok s' ∧ ∃ gb',
        Stack.tcp_sockets s' !! h = Some gb' ∧ state gb' = Established ∧
        contents (receive_queue gb') = contents (receive_queue gb) ++ take (Z.to_nat n) data)).
Proof.
  intros Hok Hga Hst Hcs Hfl Hb Hmss Hsz Hrc Hooo Hseq Hat Hsmall.
  pose proof (zlen_nonneg data). pose proof (zlen_nonneg (contents (retransmit_queue ga))).
  call (@tcp_write_runs TA _ false a k ha ga data 0); try done; try lia.
  intros r a' (a1 & ga' & -> & Hok' & Hwr & _ & (chunks & frames & n & Hn & Hcat & Hch & Hl & Hsent & _ & Hsn & _ & Hr)).
  apply segmented_sizes in Hch.
  rewrite Z.sub_0_r in Hsn. split; [exact Hok'|]. exists n, frames. split; [lia|]. split; [apply Hl|]. split.
  { destruct r; [left|right]; destruct_and! Hr; subst; [by rewrite as_i32_small by lia|]. split_and!; [done|done|].
    intros Hfit. by eapply (fits_open ga ga'); try done; lia. }
  intros order fs Hord Hfs Hdev.
  assert (sub data 0 n = take (Z.to_nat n) data) as Hsub by (unfold sub; by rewrite Z.sub_0_r).
  rewrite Hsub in Hcat. set (sent_data := take (Z.to_nat n) data) in *.
  destruct (at_offset_split _ _ _ n Hat ltac:(lia)) as [Hats _]. fold sent_data in Hats.
  assert (zlen sent_data = n) as Hzs by (unfold sent_data; rewrite zlen_take; lia).
  assert (Forall (λ c, 0 < zlen c) chunks) as Hpos by (eapply Forall_impl; [exact Hch|]; by intros c [? _]).
  pose proof (cut_consecutive stream next chunks ltac:(by rewrite Hcat) Hpos) as Hsegs.
  rewrite Hcat, Hzs in Hsegs. rewrite Hseq in Hsent.
  destruct (reorder (λ x f, frame_carries (netif (Tcp.ip a)) ga (x.1 mod u32_size) x.2 f)
    (cut next chunks) frames order fs) as (xs & Hxs & Hsub' & Hall); [|by eapply cut_length|done|].
  { intros i x Hx. by eapply segments_sent_lookup. }
  destruct (locked_ok _ _ _ _ Hok Hga) as [Hwf _].
  pose proof Hrc as [_ _ _ _ (_ & _ & [_ Hq Hqn]) _].
  pose proof (zlen_nonneg (contents (receive_queue gb))).
  call (@frames_received_runs TB _ RB (netif (Tcp.ip a)) ga (sockets_frags (sockets a) + k) h stream start next
    (next + n) (cut next chunks) xs); try done; try lia.
  { split; [apply (tcp_net _ _ Hok)|done]. }
  { apply (cut_Forall (λ c, bytes_ok c ∧ 20 + zlen c ≤ MRU)). apply Forall_and. split.
    - apply Forall_concat. rewrite Hcat. by apply bytes_ok_take.
    - eapply Forall_impl; [exact Hch|]. cbn. lia. }
  { rewrite Hooo. apply arrival_start. }
  intros _ s' (gb' & next' & Hrc' & Harr). rewrite app_nil_r in Harr.
  apply (arrival_complete stream next (next + n) (cut next chunks)) in Harr; [|done|].
  2: { intros x Hx. apply list_elem_of_In. rewrite <-in_rev. apply list_elem_of_In. apply list_elem_of_lookup_1 in Hx as [i Hi].
       apply (Hall i); [|done]. apply Hord. rewrite <-(cut_length _ _ _ _ _ Hsent next).
       by eapply lookup_lt_Some. }
  subst next'. destruct Hrc' as [Hok2 _ _ Hs2 (Hst2 & _ & [_ Hq2 Hqn2]) _].
  split; [done|]. exists gb'. split_and!; [done|done|].
  apply (at_offset_eq stream start); [done| |rewrite zlen_app; lia].
  apply at_offset_app; [done|]. by rewrite <-Hqn.
Qed.
