(* ===== verification/Connect.v ===== *)
(** * Two hosts: the handshake

    The three segments that open a connection, as one host's receive thread
    finds them on the wire of the other. *)

From S2P Require Import Prelude Util Buf BufSpec Checksum Timer Netif Ip.
From S2P Require Udp.
From S2P Require Import Reassembler TcpOptions Tcp Stack TcpSpec TcpData TcpConn TcpOpen TcpSegments TcpListen StackSpec Transfer.
From stdpp Require Import gmap.
Local Open Scope Z_scope.

(** ** Turns of the receive thread *)

(** A turn reads one frame, sends [frames] and keeps the host's addresses. *)
Record turned (s s' : StackState) (frames : list (list Z)) : Prop := {
  turned_wire : wire (netif (Stack.ip s')) = wire (netif (Stack.ip s)) ++ frames;
  turned_addr : ∀ a, local_addr (netif (Stack.ip s')) a = local_addr (netif (Stack.ip s)) a;
  turned_read : frames_received (netif (Stack.ip s')) = S (frames_received (netif (Stack.ip s)));
}.

Lemma turned_tcp s i t frames :
  frame_read (Stack.ip s) i → sent (netif i) (netif (Tcp.ip t)) frames →
  turned s (@update _ _ stack_tcp t (s <| Stack.ip := i |>)) frames.
Proof.
  intros Hr Hs. pose proof Hr as [Hw _ _ Hf _]. pose proof Hs as [Hw' _ _ Hf']. split.
  - etrans; [exact Hw'|]. by rewrite Hw.
  - intros a. etrans; [exact (local_addr_sent _ _ _ a Hs)|exact (local_addr_read _ _ a Hr)].
  - etrans; [exact Hf'|exact Hf].
Qed.

(** A frame only depends on the addresses of its host. *)
Lemma is_frame_read i j p payload f : frame_read i j → is_frame (netif j) p payload f → is_frame (netif i) p payload f.
Proof. intros [_ H4 H6 _ _] (id & Hid & ->). exists id. split; [done|]. by apply tcp_frame_ext. Qed.

Section Handshake.
Context `{!Tun, !TunOk, !Random, !RandomOk}.

(** A segment [p] without data from a host with the interface [n]. *)
Lemma segment_received s n k p opts f Q :
  let src := local_addr n (dest_ip p) in
  stack_ok s → net_ok n k → params_ok p →
  options p = encode_options opts → Forall option_ok opts →
  local_addr (netif (Stack.ip s)) src = dest_ip p →
  is_frame n p [] f → next_frame (Stack.ip s) f →
  (∀ b i, let t := tcp_part (s <| Stack.ip := i |>) in
    frame_read (Stack.ip s) i →
    segment_buffer t b src p opts [] → tcp_ok t (nfrags b + Udp.queued (Stack.udp_sockets s)) →
    runs (tcp_input b src) t (λ a t', Q a (@update _ _ stack_tcp t' (s <| Stack.ip := i |>)))) →
  runs packet_receive_step s Q.
Proof.
  intros src Hs Hn Hp Ho Hopts Haddr (id & Hid & ->) Hf Hk.
  apply (tcp_segment_received s n k p opts [] id); try done; [constructor|].
  destruct (p_options _ Hp) as (_ & _ & ?). change (zlen []) with 0. lia.
Qed.

(** One that the socket [gs] sends with the flags [fl]. *)
Lemma control_received s n k gs fl opts f Q :
  let p := send_params gs fl in let src := local_addr n (remote_ip gs) in
  stack_ok s → sender n gs k → is_u8 fl →
  options p = encode_options opts → Forall option_ok opts →
  local_addr (netif (Stack.ip s)) src = remote_ip gs →
  is_frame n p [] f → next_frame (Stack.ip s) f →
  (∀ b i, let t := tcp_part (s <| Stack.ip := i |>) in
    frame_read (Stack.ip s) i →
    segment_buffer t b src p opts [] → tcp_ok t (nfrags b + Udp.queued (Stack.udp_sockets s)) →
    runs (tcp_input b src) t (λ a t', Q a (@update _ _ stack_tcp t' (s <| Stack.ip := i |>)))) →
  runs packet_receive_step s Q.
Proof.
  intros p src Hs [Hn [Hwf Hcs]] Hfl. exact (segment_received s n k p opts f Q Hs Hn (send_params_ok gs fl Hwf Hcs Hfl)).
Qed.

Definition offered : list tcp_option := [MaxSegmentSize 1500].

Lemma offered_ok : Forall option_ok offered.
Proof. constructor; [by split|constructor]. Qed.

(** The SYN reaches a listening socket. *)
Lemma syn_received_runs s n k ga lh lg f :
  let src := local_addr n (remote_ip ga) in let p := send_params ga FLAG_SYN in
  stack_ok s → sender n ga k → local_addr (netif (Stack.ip s)) src = remote_ip ga →
  tcp_port_map s !! (src, local_port ga, remote_port ga) = None →
  tcp_port_map s !! (IPAddr_new, 0, remote_port ga) = Some lh →
  Stack.tcp_sockets s !! lh = Some lg → state lg = Listen →
  is_frame n p [] f → next_frame (Stack.ip s) f →
  let h := length (Stack.tcp_sockets s) in
  let g := accepted_socket src (local_port ga) (remote_port ga) (random_u32 (Stack.random_drawn s))
    (send_next_seq ga) (ack_num p) (window p) 1500 in
  runs packet_receive_step s (λ _ s', stack_ok s' ∧ ∃ timer_id f', turned s s' [f'] ∧
    Stack.tcp_sockets s' = <[lh := lg <| socket_queue ::= λ q, q ++ [h] |>]>
      (Stack.tcp_sockets s ++ [g <| response_timer_id := timer_id |>]) ∧
    tcp_port_map s' = <[(src, local_port ga, remote_port ga) := h]> (tcp_port_map s) ∧
    lh ∈ tcp_notified s' ∧
    is_frame (netif (Stack.ip s)) (send_params g (Z.lor FLAG_SYN FLAG_ACK)) [] f').
Proof.
  intros src p Hs Hsd Haddr Hpm Hlis Hlg Hst Hfr Hf h g.
  apply (control_received s n k ga FLAG_SYN offered f); [exact Hs|exact Hsd|by split|reflexivity|apply offered_ok|exact Haddr|exact Hfr|exact Hf|].
  intros b i t Hread Hseg Hok.
  call (tcp_input_syn_runs t (Udp.queued (Stack.udp_sockets s)) b src p offered lh lg);
    [exact Hseg|exact Hok|exact Hpm|exact Hlis|exact Hlg|exact Hst|reflexivity|].
  intros _ t' (Hok' & tid & f' & Hsk & Hp & Hn & Hsent & Hf' & _).
  split; [by apply stack_ok_tcp|]. exists tid, f'.
  split; [by apply turned_tcp|]. split; [exact Hsk|]. split; [exact Hp|]. split; [exact Hn|].
  eapply is_frame_read; [exact Hread|exact Hf'].
Qed.

(** An open connection through which nothing has passed yet is open whatever
    the stream of the peer is going to be. *)
Lemma open_any_stream stream stream' next g :
  unused g → open_connection stream next next g → open_connection stream' next next g.
Proof.
  intros (Hq & _ & Ho) (Hst & Hfl & [[Hn _] _ _]). split_and!; [done..|]. by apply receiving_start.
Qed.

(** The SYN of the peer that acknowledges ours. *)
Lemma synack_received_runs s n k gb ha ga next f :
  let src := local_addr n (remote_ip gb) in let p := send_params gb (Z.lor FLAG_SYN FLAG_ACK) in
  stack_ok s → sender n gb k → local_addr (netif (Stack.ip s)) src = remote_ip gb →
  tcp_port_map s !! (src, local_port gb, remote_port gb) = Some ha →
  Stack.tcp_sockets s !! ha = Some ga → state ga = SynSent → unused ga →
  ack_num p = u32_wrapping_add (send_next_seq ga) 1 → u32_wrapping_add (send_next_seq gb) 1 = next mod u32_size →
  is_frame n p [] f → next_frame (Stack.ip s) f →
  runs packet_receive_step s (λ _ s', stack_ok s' ∧ ∃ ga' f', turned s s' [f'] ∧
    Stack.tcp_sockets s' = <[ha := ga']> (Stack.tcp_sockets s) ∧ tcp_port_map s' = tcp_port_map s ∧
    opened ga ga' {| max_segment_size := 1500 |} ∧ (∀ stream, open_connection stream next next ga') ∧
    send_window ga' = window p ∧ ha ∈ tcp_notified s' ∧
    is_frame (netif (Stack.ip s)) (send_params ga' FLAG_ACK) [] f').
Proof.
  intros src p Hs Hsd Haddr Hpm Hga Hst Hun Hack Hseq Hfr Hf.
  apply (control_received s n k gb (Z.lor FLAG_SYN FLAG_ACK) offered f);
    [exact Hs|exact Hsd|by split|reflexivity|apply offered_ok|exact Haddr|exact Hfr|exact Hf|].
  intros b i t Hread Hseg Hok.
  call (tcp_input_synack_runs t (Udp.queued (Stack.udp_sockets s)) b src p offered ha ga (λ off, off) next);
    [exact Hseg|exact Hok|exact Hpm|exact Hga|exact Hst|exact Hun|reflexivity|reflexivity|exact Hack|exact Hseq|].
  intros _ t' (Hok' & ga' & f' & [Hsk Hp _ Hsent] & Ho & Hf' & _ & Hw & Hn & Hop).
  split; [by apply stack_ok_tcp|]. exists ga', f'.
  split; [by apply turned_tcp|]. split; [exact Hsk|]. split; [exact Hp|]. split; [exact Hop|].
  split; [intros stream; eapply open_any_stream; [apply Hop|exact Ho]|].
  split; [exact Hw|]. split; [exact Hn|]. eapply is_frame_read; [exact Hread|exact Hf'].
Qed.

(** The acknowledgement that ends the handshake. *)
Lemma ack_received_runs s n k ga hb gb next f :
  let src := local_addr n (remote_ip ga) in let p := send_params ga FLAG_ACK in
  stack_ok s → sender n ga k → local_addr (netif (Stack.ip s)) src = remote_ip ga →
  tcp_port_map s !! (src, local_port ga, remote_port ga) = Some hb →
  Stack.tcp_sockets s !! hb = Some gb → state gb = SynReceived → unused gb →
  ack_num p = u32_wrapping_add (send_next_seq gb) 1 → get_next_expect (reassembler gb) = next mod u32_size →
  is_frame n p [] f → next_frame (Stack.ip s) f →
  runs packet_receive_step s (λ _ s', stack_ok s' ∧ ∃ gb', turned s s' [] ∧
    Stack.tcp_sockets s' = <[hb := gb']> (Stack.tcp_sockets s) ∧ tcp_port_map s' = tcp_port_map s ∧
    opened gb gb' {| max_segment_size := 0 |} ∧ (∀ stream, open_connection stream next next gb') ∧
    send_window gb' = send_window gb).
Proof.
  intros src p Hs Hsd Haddr Hpm Hgb Hst Hun Hack Hnx Hfr Hf.
  apply (control_received s n k ga FLAG_ACK [] f); [exact Hs|exact Hsd|by split|reflexivity|constructor|exact Haddr|exact Hfr|exact Hf|].
  intros b i t Hread Hseg Hok.
  call (tcp_input_ack_runs t (Udp.queued (Stack.udp_sockets s)) b src p [] hb gb (λ off, off) next);
    [exact Hseg|exact Hok|exact Hpm|exact Hgb|exact Hst|exact Hun|reflexivity|reflexivity|exact Hack|exact Hnx|].
  intros _ t' (Hok' & gb' & [Hsk Hp _ Hsent] & Ho & _ & Hw & Hop).
  split; [by apply stack_ok_tcp|]. exists gb'.
  split; [by apply turned_tcp|]. split; [exact Hsk|]. split; [exact Hp|]. split; [exact Hop|].
  split; [intros stream; eapply open_any_stream; [apply Hop|exact Ho]|exact Hw].
Qed.

End Handshake.

(** * Both ends of a connection *)

(** What the socket [ga] of the host [a] sends is for the socket [gb] of the
    host [b], both are open, and the next octet has the number [next]. *)
Record leads_to (a b : StackState) (ha hb : SocketReference) (ga gb : TCPSocketState) (next : Z) : Prop := {
  lt_receiver : ∀ stream, receiver b (netif (Stack.ip a)) ga hb gb stream next next;
  lt_socket : Stack.tcp_sockets a !! ha = Some ga;
  lt_open : state ga = Established ∧ can_send ga ∧ in_flight ga;
  lt_unused : unused ga;
  lt_seq : send_next_seq ga = next mod u32_size;
  lt_mss : send_mss ga = 1500;
  lt_window : send_window ga = 0xffff;
}.

Lemma accepted_socket_can_send src sp dp iss seq ack w mss :
  can_send (accepted_socket src sp dp iss seq ack w mss).
Proof.
  pose proof (wrapping_add_range u32_size seq 1 ltac:(lia)) as [_ ?].
  change (u32_wrapping_add seq 1 + 0 < u32_size). lia.
Qed.

Lemma stack_socket_wf s h g : stack_ok s → Stack.tcp_sockets s !! h = Some g → socket_wf g.
Proof. intros [_ Ht] Hg. by destruct (locked_ok _ _ _ _ Ht Hg). Qed.

Lemma stack_net s : stack_ok s → net_ok (netif (Stack.ip s)) (stack_frags s).
Proof. intros Hs. by destruct (stack_ok_ip s Hs). Qed.

(** tcp_open on a host. *)
Lemma stack_open_runs `{!Tun, !TunOk, !Random, !RandomOk} fuel n s a rp :
  let lp := ephemeral_port (Stack.random_drawn s + n) in
  let g := opening_socket a rp lp (random_u32 (S (Stack.random_drawn s + n))) in
  stack_ok s → IPAddr_ok a → is_u16 rp → (n < fuel)%nat →
  (∀ m, (m < n)%nat → is_Some (tcp_port_map s !! (a, rp, ephemeral_port (Stack.random_drawn s + m)))) →
  tcp_port_map s !! (a, rp, lp) = None →
  runs (zoom (tcp_open fuel a rp)) s (λ h s', stack_ok s' ∧ ∃ timer_id f,
    Stack.tcp_sockets s' !! h = Some (g <| response_timer_id := timer_id |>) ∧
    tcp_port_map s' = <[(a, rp, lp) := h]> (tcp_port_map s) ∧
    sent (netif (Stack.ip s)) (netif (Stack.ip s')) [f] ∧
    is_frame (netif (Stack.ip s)) (send_params g FLAG_SYN) [] f ∧
    socket_wf g).
Proof.
  intros lp g Hs Ha Hrp Hn Hused Hfree. pose proof Hs as [_ Ht]. apply runs_zoom.
  call (tcp_open_runs fuel n (tcp_part s) (Udp.queued (Stack.udp_sockets s)) a rp);
    [exact Ht|exact Ha|exact Hrp|exact Hn|exact Hused|exact Hfree|].
  intros h t (-> & Hok & tid & f & Hsk & Hp & Hsent & Hf & _).
  split; [exact (stack_ok_tcp s (Stack.ip s) t Hs Hok)|]. exists tid, f.
  split; [change (Tcp.sockets t !! length (Stack.tcp_sockets s) = Some (g <| response_timer_id := tid |>));
    rewrite Hsk; by apply list_lookup_middle|].
  split; [exact Hp|]. split; [exact Hsent|]. split; [exact Hf|].
  apply set_state_wf, fresh_socket_wf; [done|done| |apply random_u32_ok].
  pose proof (ephemeral_port_range (Stack.random_drawn s + n)). unfold lp, in_range. lia.
Qed.

(** The two ends fit together: [ga] as the handshake left it on the host [a],
    [gb] on the host [b]. *)
Lemma leads_to_opened (a b : StackState) ha hb ga ga1 gb opts na :
  stack_ok b → Stack.tcp_sockets a !! ha = Some ga → Stack.tcp_sockets b !! hb = Some gb →
  socket_wf ga →
  local_addr (netif (Stack.ip b)) (local_addr (netif (Stack.ip a)) (remote_ip ga)) = remote_ip ga →
  tcp_port_map b !! (local_addr (netif (Stack.ip a)) (remote_ip ga), local_port ga, remote_port ga) = Some hb →
  (∀ stream, open_connection stream na na gb) → num_delayed_acks gb = 0 →
  state ga = Established → in_flight ga → opened ga1 ga opts →
  u32_wrapping_add (send_next_seq ga1) 1 = na mod u32_size → agreed_mss ga1 opts = 1500 → send_window ga = 0xffff →
  leads_to a b ha hb ga gb na.
Proof.
  intros Hb Hga Hgb Hwf Haddr Hpm Hopen Hacks Hst Hfl [_ _ Hseq Hmss _ Hun] Hna Hm Hw. split; try done.
  - intros stream. split; [done..|]. by rewrite Hacks.
  - split; [done|]. split; [by apply can_send_established|done].
  - congruence.
  - congruence.
Qed.

Lemma open_next stream start next g :
  open_connection stream start next g → get_next_expect (reassembler g) = next mod u32_size.
Proof. by intros (_ & _ & [[Hn _] _ _]). Qed.

Lemma ack_num_open stream start next g fl :
  open_connection stream start next g → ack_num (send_params g fl) = next mod u32_size.
Proof.
  intros (Hst & _ & [[Hn _] _ _]). unfold send_params, acks_fin, is_state. cbn [ack_num]. rewrite Hst.
  rewrite !bool_decide_eq_false_2 by done. cbn. rewrite Z.add_0_r. exact Hn.
Qed.

(** The sockets [ga] of the host [a] and [gb] of the host [b] belong to one
    connection. *)
Record peers (a b : StackState) (ha hb : SocketReference) (ga gb : TCPSocketState) : Prop := {
  peers_sockets : Stack.tcp_sockets a !! ha = Some ga ∧ Stack.tcp_sockets b !! hb = Some gb;
  peers_address : remote_ip gb = local_addr (netif (Stack.ip a)) (remote_ip ga) ∧
    remote_ip ga = local_addr (netif (Stack.ip b)) (remote_ip gb);
  peers_ports : remote_port gb = local_port ga ∧ remote_port ga = local_port gb;
  peers_maps : tcp_port_map a !! (remote_ip ga, remote_port ga, local_port ga) = Some ha ∧
    tcp_port_map b !! (remote_ip gb, remote_port gb, local_port gb) = Some hb;
}.

Lemma peers_sym a b ha hb ga gb : peers a b ha hb ga gb → peers b a hb ha gb ga.
Proof. by intros [[] [] [] []]. Qed.

(** What the host [a'] keeps of [a], and the socket [g'] of [g], for them to
    stay what they are to the peer. *)
Record same_end (a a' : StackState) (h : SocketReference) (g g' : TCPSocketState) : Prop := {
  same_sockets : Stack.tcp_sockets a' = <[h := g']> (Stack.tcp_sockets a);
  same_address : ∀ x, local_addr (netif (Stack.ip a')) x = local_addr (netif (Stack.ip a)) x;
  same_map : tcp_port_map a' = tcp_port_map a;
  same_names : remote_ip g' = remote_ip g ∧ remote_port g' = remote_port g ∧ local_port g' = local_port g;
}.

Lemma same_end_socket a a' h g g' :
  Stack.tcp_sockets a !! h = Some g → same_end a a' h g g' → Stack.tcp_sockets a' !! h = Some g'.
Proof. intros Hg [-> _ _ _]. apply list_lookup_insert_eq. by eapply lookup_lt_Some. Qed.

Lemma peers_same_end a b a' ha hb ga gb ga' :
  peers a b ha hb ga gb → same_end a a' ha ga ga' → peers a' b ha hb ga' gb.
Proof.
  intros [[Hga Hgb] [Hipb Hipa] [Hrb Hra] [Hma Hmb]] Hs. pose proof (same_end_socket _ _ _ _ _ Hga Hs) as Hga'.
  destruct Hs as [_ Had Hm (Hi & Hr & Hl)].
  split; [done|by rewrite Had, Hi|by rewrite Hr, Hl|by rewrite Hm, Hi, Hr, Hl].
Qed.

(** The next octet that [g'] expects is the next that [g] sends. *)
Definition expects (g g' : TCPSocketState) : Prop :=
  get_next_expect (reassembler g') = send_next_seq g ∧ receive_next_seq g' = send_next_seq g.

(** Both ends of a connection are open, and nothing is on its way. *)
Record synchronised (a b : StackState) (ha hb : SocketReference) (ga gb : TCPSocketState) : Prop := {
  sync_peers : peers a b ha hb ga gb;
  sync_open : (state ga = Established ∧ in_flight ga) ∧ (state gb = Established ∧ in_flight gb);
  sync_numbers : expects ga gb ∧ expects gb ga;
}.

(** A SYN and its answer are on their way: the socket [ga] of the host [a] has
    sent the one, the socket [gb] of the host [b] the other.  [n] is the
    interface of [b] when it sent the answer. *)
Record half_open (n : NetState) (a b : StackState) (ha hb : SocketReference) (ga gb : TCPSocketState) : Prop := {
  half_stacks : stack_ok a ∧ stack_ok b;
  half_peers : peers a b ha hb ga gb;
  half_states : state ga = SynSent ∧ state gb = SynReceived;
  half_unused : unused ga ∧ unused gb;
  half_address : ∀ x, local_addr (netif (Stack.ip b)) x = local_addr n x;
  half_numbers : get_next_expect (reassembler gb) = u32_wrapping_add (send_next_seq ga) 1 ∧
    receive_next_seq gb = get_next_expect (reassembler gb);
  half_delayed : num_delayed_acks ga = 0 ∧ num_delayed_acks gb = 0;
  half_windows : send_window gb = 0xffff ∧ NetBuffer_len (receive_queue gb) = 0 ∧ send_mss gb = 1500;
}.

(** The rest of the handshake: the answer reaches [a], whose acknowledgement
    reaches [b]. *)
Lemma handshake_completes `(TA : Tun, TB : Tun, RA : Random, RB : Random, !@TunOk TA, !@TunOk TB, !@RandomOk RA, !@RandomOk RB)
    n k a b ha hb ga gb synack :
  half_open n a b ha hb ga gb → net_ok n k →
  is_frame n (send_params gb (Z.lor FLAG_SYN FLAG_ACK)) [] synack → @next_frame TA (Stack.ip a) synack →
  runs (@packet_receive_step TA RA) a (λ _ a2, stack_ok a2 ∧ ∃ ack, turned a a2 [ack] ∧ ha ∈ tcp_notified a2 ∧
    runs (zoom (tcp_open_wake ha)) a2 (λ r _, r = Connected) ∧
    (@next_frame TB (Stack.ip b) ack → runs (@packet_receive_step TB RB) b (λ _ b2, stack_ok b2 ∧ turned b b2 [] ∧
      ∃ ga' gb' na nb, leads_to a2 b2 ha hb ga' gb' na ∧ leads_to b2 a2 hb ha gb' ga' nb ∧
        synchronised a2 b2 ha hb ga' gb' ∧ Stack.tcp_sockets b2 = <[hb := gb']> (Stack.tcp_sockets b)))).
Proof.
  intros [[Ha Hb] Hpeers [Hsta Hstb] [Hua Hub] Hadb [Hnx Hrn] [Hnda Hndb] (Hwb & Hq & Hmss)] Hn Hfr Hnext.
  pose proof Hpeers as [[Hga Hgb] [Hipb Hback] [Hrpb Hlpb] [Hma Hmb]]. rewrite Hadb in Hback.
  symmetry in Hback, Hlpb.
  set (na := send_next_seq ga + 1). set (nb := send_next_seq gb + 1).
  assert (acks_fin gb = false) as Hfin by (unfold acks_fin, is_state; by rewrite Hstb).
  assert (can_send gb) as Hcs.
  { unfold can_send. rewrite Hfin, Hnx. pose proof (wrapping_add_range u32_size (send_next_seq ga) 1 ltac:(lia)) as [_ ?].
    change (u32_wrapping_add (send_next_seq ga) 1 + 0 < u32_size). lia. }
  assert (sender n gb k) as Hsd by (split; [done|split; [exact (stack_socket_wf _ _ _ Hb Hgb)|done]]).
  call (@synack_received_runs TA _ RA _ a n k gb ha ga nb synack Ha Hsd);
    [by rewrite Hback|by rewrite Hback, Hrpb, Hlpb|exact Hga|done|done| |done|exact Hfr|exact Hnext|].
  { cbn [ack_num send_params]. by rewrite Hfin, Z.add_0_r. }
  intros _ a2 (Ha2 & ga' & ack & Hta & Hska & Hpa & [Hipa [Hrpa Hlpa] Hsqa Hmsa Hnda' Hua' Hrna] & Hca & Hwa & Hnota & Hack).
  pose proof (Hca (λ off, off)) as (Hsta' & Hfla & _).
  assert (Stack.tcp_sockets a2 !! ha = Some ga') as Hga'
    by (rewrite Hska; apply list_lookup_insert_eq; by eapply lookup_lt_Some).
  split; [exact Ha2|]. exists ack. split; [exact Hta|]. split; [exact Hnota|].
  split. { apply runs_zoom. eapply lock_runs; [exact Hga'|]. unfold is_state. by rewrite Hsta'. }
  intros Hnext3.
  assert (send_window ga' = 0xffff) as Hwa' by (rewrite Hwa; cbn [window send_params]; by rewrite Hq).
  assert (∀ x, local_addr (netif (Stack.ip a2)) x = local_addr (netif (Stack.ip a)) x) as Hada
    by exact (turned_addr _ _ _ Hta).
  (* the acknowledgement *)
  assert (sender (netif (Stack.ip a)) ga' (stack_frags a)) as Hsd2.
  { split; [by apply stack_net|]. pose proof (stack_socket_wf _ _ _ Ha2 Hga'). split; [done|by apply can_send_established]. }
  call (@ack_received_runs TB _ RB b _ _ ga' hb gb na ack Hb Hsd2);
    [by rewrite Hipa, <-Hipb, Hadb|by rewrite Hipa, <-Hipb, Hlpa, Hrpa, <-Hrpb, <-Hlpb|exact Hgb|done|done
    |exact (ack_num_open _ _ _ _ _ (Hca (λ x, x)))|exact Hnx|exact Hack|exact Hnext3|].
  intros _ b2 (Hb2 & gb' & Htb & Hskb & Hpb & Hopb & Hcb & Hwb').
  assert (Stack.tcp_sockets b2 !! hb = Some gb') as Hgb'
    by (rewrite Hskb; apply list_lookup_insert_eq; by eapply lookup_lt_Some).
  pose proof Hopb as [Hipb' [Hrpb' Hlpb'] Hsqb _ Hndb' Hub' Hrnb]. pose proof (Hcb (λ x, x)) as (Hstb' & Hflb & _).
  assert (∀ x, local_addr (netif (Stack.ip b2)) x = local_addr n x) as Hadb2
    by (intros x; by rewrite (turned_addr _ _ _ Htb)).
  split; [exact Hb2|]. split; [exact Htb|]. exists ga', gb', na, nb.
  split; [|split; [|split; [|exact Hskb]]].
  - apply (leads_to_opened a2 b2 ha hb ga' ga gb' {| max_segment_size := 1500 |} na); try done.
    + exact (stack_socket_wf _ _ _ Ha2 Hga').
    + by rewrite Hada, Hadb2, Hipa, <-Hipb.
    + by rewrite Hada, Hipa, Hlpa, Hrpa, Hpb, <-Hipb, <-Hrpb, <-Hlpb.
    + by rewrite Hndb'.
  - apply (leads_to_opened b2 a2 hb ha gb' gb ga' {| max_segment_size := 0 |} nb); try done.
    + exact (stack_socket_wf _ _ _ Hb2 Hgb').
    + by rewrite Hada, Hadb2, Hipb', Hback, <-Hipb.
    + by rewrite Hadb2, Hipb', Hback, Hlpb', Hrpb', Hpa, Hrpb, Hlpb.
    + by rewrite Hnda'.
    + by rewrite Hwb'.
  - assert (same_end a a2 ha ga ga') as Hea by (by split).
    assert (same_end b b2 hb gb gb') as Heb by (split; [done|exact (turned_addr _ _ _ Htb)|done|done]).
    split; [|done|].
    + eapply peers_same_end; [|exact Hea]. apply peers_sym. eapply peers_same_end; [|exact Heb]. by apply peers_sym.
    + pose proof (open_next _ _ _ _ (Hca (λ x, x))) as Hna. pose proof (open_next _ _ _ _ (Hcb (λ x, x))) as Hnb.
      split; split; rewrite ?Hrna, ?Hrnb, ?Hna, ?Hnb, ?Hsqa, ?Hsqb by auto; done.
Qed.
