(* ===== verification/Teardown.v ===== *)
(** * Two hosts: the end of a connection

    The segments and timers that close a connection, at the two hosts. *)

From S2P Require Import Prelude Util Buf BufSpec Checksum Timer Netif Ip.
From S2P Require Udp.
From S2P Require Import Reassembler TcpOptions Tcp Stack TcpSpec TcpData TcpConn TcpControl TcpOpen TcpSegments TcpListen.
From S2P Require Import StackSpec Transfer Connect.
From stdpp Require Import gmap.
Local Open Scope Z_scope.

(** ** Operations of TCP, on the whole host *)

Lemma same_end_tcp s t h g g' frames :
  Tcp.sockets t = <[h := g']> (Stack.tcp_sockets s) → PORT_MAP t = tcp_port_map s →
  sent (netif (Stack.ip s)) (netif (Tcp.ip t)) frames →
  remote_ip g' = remote_ip g ∧ remote_port g' = remote_port g ∧ local_port g' = local_port g →
  same_end s (@update _ _ stack_tcp t s) h g g'.
Proof. intros Hs Hp Hn Hg. split; [done| |done|done]. intros x. exact (local_addr_sent _ _ _ x Hn). Qed.

Lemma same_end_turn s i t h g g' frames :
  frame_read (Stack.ip s) i → socket_step (tcp_part (s <| Stack.ip := i |>)) t h g' frames →
  remote_ip g' = remote_ip g ∧ remote_port g' = remote_port g ∧ local_port g' = local_port g →
  same_end s (@update _ _ stack_tcp t (s <| Stack.ip := i |>)) h g g'.
Proof.
  intros Hr [Hs Hp _ Hn] Hg. split; [done| |done|done].
  intros x. etrans; [exact (local_addr_sent _ _ _ x Hn)|exact (local_addr_read _ _ x Hr)].
Qed.

(** The numbers of the next octets stay what they are. *)
Definition same_next (g g' : TCPSocketState) : Prop :=
  send_next_seq g' = send_next_seq g ∧ receive_next_seq g' = receive_next_seq g ∧
  get_next_expect (reassembler g') = get_next_expect (reassembler g).

Lemma same_queues_trans g g1 g2 : same_queues g g1 → same_queues g1 g2 → same_queues g g2.
Proof. intros (? & ? & ?) (? & ? & ?). split_and!; congruence. Qed.

(** The application has closed its side, or its timer has run: the socket [g]
    has become [g'], which waits for an answer in the state [st]; [f] has been
    sent with the flags [fl]. *)
Record requested (s s' : StackState) (h : SocketReference) (g g' : TCPSocketState) (st : TCPState)
    (fl : Z) (f : list Z) : Prop := {
  req_ok : stack_ok s';
  req_end : same_end s s' h g g';
  req_state : state g' = st ∧ request_retry_count g' < MAX_RETRIES;
  req_next : same_next g g';
  req_queues : same_queues g g';
  req_frame : is_frame (netif (Stack.ip s)) (send_params g fl) [] f;
  req_sent : sent (netif (Stack.ip s)) (netif (Stack.ip s')) [f];
}.

Section Ends.
Context `{!Tun, !TunOk, !Random, !RandomOk}.

Lemma stack_close_runs s h g :
  stack_ok s → Stack.tcp_sockets s !! h = Some g → can_send g → state g = Established ∨ state g = CloseWait →
  runs (zoom (tcp_close h)) s (λ _ s', ∃ g' f,
    requested s s' h g g' (close_state (state g)) (Z.lor FLAG_FIN FLAG_ACK) f).
Proof.
  intros Hs Hg Hcs Hst. apply runs_zoom.
  call (close_fin_runs (tcp_part s) (Udp.queued (Stack.udp_sockets s)) h g); [apply Hs|exact Hg|done|done|].
  intros _ t (Hok & f & tid & Hsk & Hn & Hp & Hf & _).
  exists (set_state (close_state (state g)) (g <| response_timer_id := tid |>)), f.
  split; [| |by split|done|done|exact Hf|exact Hn].
  - by apply (stack_ok_tcp s (Stack.ip s)).
  - by eapply same_end_tcp.
Qed.

(** The response timer of a socket in LAST-ACK. *)
Lemma stack_last_ack_timeout_runs s h g :
  stack_ok s → Stack.tcp_sockets s !! h = Some g → state g = LastAck → request_retry_count g < MAX_RETRIES →
  runs (zoom (response_timeout h)) s (λ _ s', ∃ g' f, requested s s' h g g' LastAck FLAG_FIN f).
Proof.
  intros Hs Hg Hst Hr. apply runs_zoom. pose proof (stack_socket_wf _ _ _ Hs Hg) as Hwf.
  call (response_timeout_runs (tcp_part s) (Udp.queued (Stack.udp_sockets s)) h g);
    [apply Hs|exact Hg|done| | |].
  { unfold unexpected_timeout. rewrite Hst. naive_solver. }
  { unfold can_send, acks_fin, is_state. rewrite Hst. cbn. rewrite Z.add_0_r. apply Hwf. }
  rewrite Hst. intros _ t (s1 & tid & frames & -> & Hok & Hl & _ & (f & -> & Hf)).
  exists (g <| response_timer_id := tid |>), f.
  split; [by apply (stack_ok_tcp s (Stack.ip s))| |by split|done|done|exact Hf|apply Hl].
  eapply same_end_tcp; [|apply Hl|apply Hl|done]. cbn. by rewrite (step_sockets _ _ _ Hl).
Qed.

(** The timer of TIME-WAIT. *)
Lemma stack_time_wait_runs s h g :
  stack_ok s → Stack.tcp_sockets s !! h = Some g →
  runs (zoom (time_wait_timeout h)) s (λ _ s', stack_ok s' ∧
    Stack.tcp_sockets s' = <[h := set_state Closed g]> (Stack.tcp_sockets s) ∧
    tcp_port_map s' = delete (remote_ip g, remote_port g, local_port g) (tcp_port_map s) ∧
    sent (netif (Stack.ip s)) (netif (Stack.ip s')) []).
Proof.
  intros Hs Hg. apply runs_zoom.
  call (time_wait_timeout_runs (tcp_part s) (Udp.queued (Stack.udp_sockets s)) h g); [apply Hs|exact Hg|].
  intros _ t (Hok & Hsk & Hp & Hn). split; [by apply (stack_ok_tcp s (Stack.ip s))|by split_and!].
Qed.

(** ** Segments on their way

    [ga] sends them when its host is [a]; when they arrive, the host of the
    peer is [b]. *)

Lemma peers_sender a b ha hb ga gb :
  stack_ok a → peers a b ha hb ga gb → can_send ga → sender (netif (Stack.ip a)) ga (stack_frags a).
Proof. intros Ha [[Hga _] _ _ _] Hcs. split; [by apply stack_net|]. split; [by eapply stack_socket_wf|done]. Qed.

(** A FIN ends an open connection for the reader. *)
Lemma fin_received_runs a b ha hb ga gb f :
  stack_ok a → stack_ok b → peers a b ha hb ga gb → can_send ga → state gb = Established → in_flight gb →
  is_frame (netif (Stack.ip a)) (send_params ga (Z.lor FLAG_FIN FLAG_ACK)) [] f → next_frame (Stack.ip b) f →
  runs packet_receive_step b (λ _ b', stack_ok b' ∧ turned b b' [] ∧ hb ∈ tcp_notified b' ∧ ∃ gb',
    same_end b b' hb gb gb' ∧ state gb' = CloseWait ∧ same_next gb gb' ∧ receive_queue gb' = receive_queue gb).
Proof.
  intros Ha Hb Hp Hcs Hst Hfl Hfr Hf. pose proof Hp as [[Hga Hgb] [Hib Hia] [Hrb Hra] [_ Hm]].
  apply (control_received b (netif (Stack.ip a)) (stack_frags a) ga (Z.lor FLAG_FIN FLAG_ACK) [] f);
    [done|by eapply peers_sender|by split|done|constructor|by rewrite <-Hib|exact Hfr|exact Hf|].
  intros j i t Hread Hseg Hok.
  call (tcp_input_fin_runs t (Udp.queued (Stack.udp_sockets b)) j _ _ [] hb gb);
    [exact Hseg|exact Hok| |exact Hgb|done|done|done|done|].
  { change (tcp_port_map b !! (local_addr (netif (Stack.ip a)) (remote_ip ga), local_port ga, remote_port ga) = Some hb).
    by rewrite <-Hib, <-Hrb, Hra. }
  intros _ t' (Hok' & Hn & g1 & Haft & Hss). destruct (after_ack_same _ _ _ _ Haft) as [(Hid & Hr & Hs & Hre & Hq) _].
  split; [by apply stack_ok_tcp|]. split; [by apply turned_tcp; [|apply Hss]|]. split; [exact Hn|].
  exists (set_state CloseWait g1). split; [by eapply same_end_turn|]. split; [done|].
  split; [|done]. split; [done|]. split; [done|]. change (get_next_expect (reassembler g1) = get_next_expect (reassembler gb)).
  by rewrite Hre.
Qed.

(** A FIN that acknowledges ours. *)
Lemma fin_ack_received_runs a b ha hb ga gb f :
  stack_ok a → stack_ok b → peers a b ha hb ga gb → can_send ga → state gb = FinWait1 →
  ack_num (send_params ga (Z.lor FLAG_FIN FLAG_ACK)) = u32_wrapping_add (send_next_seq gb) 1 →
  is_frame (netif (Stack.ip a)) (send_params ga (Z.lor FLAG_FIN FLAG_ACK)) [] f → next_frame (Stack.ip b) f →
  runs packet_receive_step b (λ _ b', stack_ok b' ∧ turned b b' [] ∧
    (∃ timer_id, pending_last (tcp_part b') TIME_WAIT_TIMEOUT (TimeWaitTimeout hb) timer_id) ∧ ∃ gb',
    same_end b b' hb gb gb' ∧ state gb' = TimeWait ∧ same_next gb gb' ∧ same_queues gb gb').
Proof.
  intros Ha Hb Hp Hcs Hst Hack Hfr Hf. pose proof Hp as [[Hga Hgb] [Hib Hia] [Hrb Hra] [_ Hm]].
  apply (control_received b (netif (Stack.ip a)) (stack_frags a) ga (Z.lor FLAG_FIN FLAG_ACK) [] f);
    [done|by eapply peers_sender|by split|done|constructor|by rewrite <-Hib|exact Hfr|exact Hf|].
  intros j i t Hread Hseg Hok.
  call (tcp_input_fin_ack_runs t (Udp.queued (Stack.udp_sockets b)) j _ _ [] hb gb);
    [exact Hseg|exact Hok| |exact Hgb|done|exact Hack|done|done|done|].
  { change (tcp_port_map b !! (local_addr (netif (Stack.ip a)) (remote_ip ga), local_port ga, remote_port ga) = Some hb).
    by rewrite <-Hib, <-Hrb, Hra. }
  intros _ t' (Hok' & Hss & Hpend). split; [by apply stack_ok_tcp|]. split; [by apply turned_tcp; [|apply Hss]|].
  split; [exact Hpend|]. eexists. split; [by eapply same_end_turn|by split_and!].
Qed.

(** A FIN for a connection that the host does not know any more: the reset that
    answers it goes to the sender [gb]. *)
Lemma fin_refused_runs a b hb gb f :
  let src := local_addr (netif (Stack.ip b)) (remote_ip gb) in
  stack_ok a → stack_ok b → Stack.tcp_sockets b !! hb = Some gb → state gb = LastAck →
  local_addr (netif (Stack.ip a)) src = remote_ip gb →
  tcp_port_map a !! (src, local_port gb, remote_port gb) = None → send_next_seq gb < 0xffffffff →
  is_frame (netif (Stack.ip b)) (send_params gb FLAG_FIN) [] f → next_frame (Stack.ip a) f →
  runs packet_receive_step a (λ _ a', stack_ok a' ∧ ∃ rst, turned a a' [rst] ∧
    Stack.tcp_sockets a' = Stack.tcp_sockets a ∧ tcp_port_map a' = tcp_port_map a ∧
    is_frame (netif (Stack.ip a)) (reset_params src (header_of (send_params gb FLAG_FIN)) (send_next_seq gb + 1)) [] rst).
Proof.
  intros src Ha Hb Hgb Hst Haddr Hm Hseq Hfr Hf. pose proof (stack_socket_wf _ _ _ Hb Hgb) as Hwf.
  assert (can_send gb) as Hcs.
  { unfold can_send, acks_fin, is_state. rewrite Hst. cbn. rewrite Z.add_0_r. apply Hwf. }
  apply (control_received a (netif (Stack.ip b)) (stack_frags b) gb FLAG_FIN [] f);
    [done|by split; [apply stack_net|split]|by split|done|constructor|exact Haddr|exact Hfr|exact Hf|].
  intros j i t Hread Hseg Hok.
  call (tcp_input_refused_runs t (Udp.queued (Stack.udp_sockets a)) j src (send_params gb FLAG_FIN) [] []);
    [exact Hseg|exact Hok|exact Hm|by right|exact Hseq|].
  intros _ t' (Hok' & rst & Hl & Hrst). split; [by apply stack_ok_tcp|]. exists rst.
  split; [by apply turned_tcp; [|apply Hl]|]. split; [apply Hl|]. split; [apply Hl|].
  eapply is_frame_read; [exact Hread|exact Hrst].
Qed.

(** The reset closes the connection. *)
Lemma reset_received_runs a b p hb gb rst :
  let src := local_addr (netif (Stack.ip a)) (dest_ip p) in
  stack_ok a → stack_ok b → Stack.tcp_sockets b !! hb = Some gb → params_ok p → options p = [] →
  has_flag (flags p) FLAG_RST = true → local_addr (netif (Stack.ip b)) src = dest_ip p →
  tcp_port_map b !! (src, source_port p, dest_port p) = Some hb →
  is_frame (netif (Stack.ip a)) p [] rst → next_frame (Stack.ip b) rst →
  runs packet_receive_step b (λ _ b', stack_ok b' ∧ turned b b' [] ∧ hb ∈ tcp_notified b' ∧
    tcp_port_map b' = tcp_port_map b ∧ ∃ gb',
    Stack.tcp_sockets b' = <[hb := gb']> (Stack.tcp_sockets b) ∧ state gb' = Closed ∧
    receive_queue gb' = receive_queue gb).
Proof.
  intros src Ha Hb Hgb Hp Ho HR Haddr Hm Hfr Hf.
  apply (segment_received b (netif (Stack.ip a)) (stack_frags a) p [] rst);
    [done|by apply stack_net|done|by rewrite Ho|constructor|exact Haddr|exact Hfr|exact Hf|].
  intros j i t Hread Hseg Hok.
  call (tcp_input_reset_runs t (Udp.queued (Stack.udp_sockets b)) j src p [] [] hb gb);
    [exact Hseg|exact Hok|exact Hm|exact Hgb|exact HR|].
  intros _ t' (Hok' & g' & Hss & Hst & Hq & Hn). split; [by apply stack_ok_tcp|].
  split; [by apply turned_tcp; [|apply Hss]|]. split; [exact Hn|]. split; [apply Hss|]. exists g'. split; [apply Hss|by split].
Qed.

End Ends.

(** The reset of [fin_refused_runs] as a segment. *)
Lemma reset_params_ok src hd ack :
  IPAddr_ok src → is_u16 (h_source_port hd) → is_u16 (h_dest_port hd) → is_u32 ack → params_ok (reset_params src hd ack).
Proof. intros. split; try done. split_and!; [constructor|done|done]. Qed.

(** The host [a] forgets the connection, on which [b] still waits for an
    answer to its FIN.  The FIN is repeated, and now refused; the refusal
    closes the socket of [b]. *)
Lemma forgotten_runs `(TA : Tun, TB : Tun, RA : Random, RB : Random, !@TunOk TA, !@TunOk TB, !@RandomOk RB)
    a b ha hb ga gb :
  stack_ok a → stack_ok b → peers a b ha hb ga gb → state gb = LastAck →
  request_retry_count gb < MAX_RETRIES → send_next_seq gb + 1 < u32_size →
  runs (zoom (time_wait_timeout ha)) a (λ _ a1, stack_ok a1 ∧
    Stack.tcp_sockets a1 = <[ha := set_state Closed ga]> (Stack.tcp_sockets a) ∧
    tcp_port_map a1 = delete (remote_ip ga, remote_port ga, local_port ga) (tcp_port_map a) ∧
    runs (zoom (@response_timeout TB hb)) b (λ _ b1, ∃ gb1 fin, requested b b1 hb gb gb1 LastAck FLAG_FIN fin ∧
      (@next_frame TA (Stack.ip a1) fin → runs (@packet_receive_step TA RA) a1 (λ _ a2, stack_ok a2 ∧ ∃ rst,
        turned a1 a2 [rst] ∧
        (@next_frame TB (Stack.ip b1) rst → runs (@packet_receive_step TB RB) b1 (λ _ b2, stack_ok b2 ∧
          turned b1 b2 [] ∧ hb ∈ tcp_notified b2 ∧ tcp_port_map b2 = tcp_port_map b ∧
          ∃ gb2, Stack.tcp_sockets b2 !! hb = Some gb2 ∧
          state gb2 = Closed ∧ receive_queue gb2 = receive_queue gb)))))).
Proof.
  intros Ha Hb Hp Hst Hr Hseq. pose proof Hp as [[Hga Hgb] [Hib Hia] [Hrb Hra] [_ Hmb]].
  call (stack_time_wait_runs a ha ga Ha Hga). intros _ a1 (Ha1 & Hska & Hpa & Hsa).
  split; [done|]. split; [done|]. split; [done|].
  call (@stack_last_ack_timeout_runs TB _ b hb gb Hb Hgb Hst Hr).
  intros _ b1 (gb1 & fin & Hreq). exists gb1, fin. split; [done|].
  destruct Hreq as [Hb1 Hend _ _ [Hq _] Hfr Hsb]. intros Hnext.
  pose proof (same_end_socket _ _ _ _ _ Hgb Hend) as Hgb1.
  assert (local_addr (netif (Stack.ip a1)) (remote_ip ga) = remote_ip gb) as Hlocal
    by (by rewrite (local_addr_sent _ _ _ _ Hsa)).
  call (@fin_refused_runs TA _ RA a1 b hb gb fin Ha1 Hb Hgb Hst); [| |lia|exact Hfr|exact Hnext|].
  { by rewrite <-Hia. }
  { rewrite Hpa, <-Hia, <-Hra, Hrb. apply lookup_delete_eq. }
  rewrite <-Hia. intros _ a2 (Ha2 & rst & Hta & _ & _ & Hrst). split; [done|]. exists rst. split; [done|].
  intros Hnext2. destruct Hend as [Hskb Hadb Hmb' _].
  pose proof (stack_socket_wf _ _ _ Hb Hgb) as [_ _ _ _ (Hs1 & _ & _)].
  call (@reset_received_runs TB _ RB _ a1 b1
    (reset_params (remote_ip ga) (header_of (send_params gb FLAG_FIN)) (send_next_seq gb + 1)) hb gb1 rst Ha1 Hb1 Hgb1);
    [|done|done| | |exact Hrst|exact Hnext2|].
  { destruct (stack_socket_wf _ _ _ Ha Hga) as [_ _ _ (? & _) _].
    destruct (stack_socket_wf _ _ _ Hb Hgb) as [_ _ _ (_ & ? & ?) ([? _] & _)].
    apply reset_params_ok; [done..|]. unfold is_u32, in_range. lia. }
  { change (local_addr (netif (Stack.ip b1)) (local_addr (netif (Stack.ip a1)) (remote_ip ga)) = remote_ip ga).
    by rewrite Hadb, Hlocal. }
  { change (tcp_port_map b1 !! (local_addr (netif (Stack.ip a1)) (remote_ip ga), remote_port gb, local_port gb) = Some hb).
    by rewrite Hlocal, Hmb'. }
  intros _ b2 (Hb2 & Htb & Hn & Hpb2 & gb2 & Hskb2 & Hst2 & Hq2). split; [done|]. split; [done|]. split; [done|].
  split; [by rewrite Hpb2|].
  exists gb2. split; [|split; [done|by rewrite Hq2]].
  rewrite Hskb2. apply list_lookup_insert_eq. by eapply lookup_lt_Some.
Qed.
