(* ===== verification/BufKeeps.v ===== *)
(** * What no run of the buffer operations can break

    For any arguments, a buffer operation that returns keeps buffers
    well-formed and the ledger of fragments balanced. *)

From S2P Require Import Prelude Util Buf BufSpec.
Local Open Scope Z_scope.

(** * Writing headers *)

(** The function keeps the length of the slice, and its elements octets. *)
Definition writes (f : list Z → outcome (list Z)) : Prop :=
  ∀ l l', bytes_ok l → f l = Ok l' → zlen l' = zlen l ∧ bytes_ok l'.

Lemma writes_ret : writes Ok.
Proof. intros l l' Hl E. by injection E as <-. Qed.

Lemma writes_bind f g : writes f → writes g → writes (λ l, f l ≫= g).
Proof.
  intros Hf Hg l l' Hl (l1 & E1 & E2)%outcome_bind_Ok.
  destruct (Hf _ _ Hl E1) as [H1 Hb1]. destruct (Hg _ _ Hb1 E2) as [H2 ?]. by rewrite H2.
Qed.

Lemma store_writes i v : is_u8 v → writes (λ l, store l i v).
Proof.
  intros Hv l l' Hl. unfold store. destruct (_ && _); [|done]. intros E. injection E as <-.
  split; [apply zlen_insert|]. by apply Forall_insert.
Qed.

Lemma with_slice_writes a b f : writes f → writes (λ l, with_slice l a b f).
Proof.
  intros Hf l l' Hl. unfold with_slice, slice.
  destruct ((0 <=? a) && (a <=? b) && (b <=? zlen l)) eqn:Hab; [|done].
  rewrite !andb_true_iff, !Z.leb_le in Hab. destruct Hab as [[? ?] ?].
  intros (l1 & E1 & E2)%outcome_bind_Ok. injection E1 as <-. apply outcome_bind_Ok in E2 as (l2 & E2 & E3).
  injection E3 as <-. destruct (Hf _ _ ltac:(by apply bytes_ok_sub) E2) as [Hz Hb].
  rewrite zlen_sub in Hz by lia. split; [apply zlen_overwrite; lia|by apply bytes_ok_overwrite].
Qed.

Lemma set_be16_writes v : writes (set_be16 v).
Proof.
  apply (writes_bind _ (λ l, store l 1 _)); apply store_writes; rewrite land_255; apply Z.mod_pos_bound; lia.
Qed.

Lemma set_be32_writes v : writes (set_be32 v).
Proof.
  apply (writes_bind (λ l, store l 0 _)); [|apply (writes_bind (λ l, store l 1 _)); [|apply (writes_bind (λ l, store l 2 _) (λ l, store l 3 _))]];
    apply store_writes; rewrite land_255; apply Z.mod_pos_bound; lia.
Qed.

Lemma copy_from_slice_writes src : bytes_ok src → writes (λ l, copy_from_slice l src).
Proof.
  intros Hs l l' _. unfold copy_from_slice. destruct (Z.eqb_spec (zlen l) (zlen src)); [|done].
  intros E. by injection E as <-.
Qed.

Lemma IPAddr_copy_to_writes a : IPAddr_ok a → writes (IPAddr_copy_to a).
Proof. intros Ha. destruct a; destruct Ha; by apply copy_from_slice_writes. Qed.

(** A step that reads something else from the slice. *)
Lemma writes_read {A} (o : list Z → outcome A) g : (∀ x, writes (g x)) → writes (λ l, o l ≫= λ x, g x l).
Proof. intros Hg l l' Hl (x & _ & E)%outcome_bind_Ok. by eapply Hg. Qed.

Ltac solve_writes :=
  repeat lazymatch goal with
  | |- writes (set_be16 _) => apply set_be16_writes
  | |- writes (set_be32 _) => apply set_be32_writes
  | |- writes (IPAddr_copy_to _) => apply IPAddr_copy_to_writes; done
  | |- writes (λ l, set_be16 _ l) => apply set_be16_writes
  | |- writes (λ l, set_be32 _ l) => apply set_be32_writes
  | |- writes (λ l, store l _ _) => apply store_writes; first [done|by split]
  | |- writes (λ l, with_slice l _ _ _) => apply with_slice_writes
  | |- writes (λ l, copy_from_slice l _) => apply copy_from_slice_writes; done
  | |- writes (λ l, @mbind _ _ (list Z) (list Z) _ (store l _ _)) => apply writes_bind
  | |- writes (λ l, store l _ _ ≫= _) => apply writes_bind
  | |- writes (λ l, with_slice l _ _ _ ≫= _) => apply writes_bind
  | |- writes (λ l, _ ≫= _) => apply writes_read; intros ?
  | |- writes (λ l, if _ then _ else _) => case_match
  | |- writes Ok => apply writes_ret
  | |- writes (λ l, Ok l) => apply writes_ret
  end.

Lemma header_mut_keeps b f b' :
  buf_ok b → writes f → header_mut b f = Ok b' →
  buf_ok b' ∧ nfrags b' = nfrags b ∧ zlen (contents b') = zlen (contents b).
Proof.
  intros Hb Hf E. destruct (fragments b) as [|fr next] eqn:Efr.
  { unfold header_mut in E. by rewrite Efr in E. }
  pose proof Hb as [Hfr _]. rewrite Efr, Forall_cons_iff in Hfr. destruct Hfr as [Hfr _].
  pose proof (header_cons fr next b Efr Hfr) as Hh.
  assert (contents b = frag_bytes fr ++ chain_bytes next) as Hc by (unfold contents; by rewrite Efr).
  assert (∃ h', f (frag_bytes fr) = Ok h') as (h' & Eh).
  { unfold header_mut, with_slice in E. rewrite Efr in E.
    apply outcome_bind_Ok in E as (d & E & _). rewrite slice_frag in E by done.
    apply outcome_bind_Ok in E as (h & E1 & E2). injection E1 as <-.
    apply outcome_bind_Ok in E2 as (h' & E2 & _). by exists h'. }
  destruct (Hf _ _ ltac:(by apply frag_bytes_ok) Eh) as [Hz Hbo].
  destruct (header_mut_spec b _ h' _ f Hb Hh Hc Eh Hz Hbo) as (b2 & E2 & ? & Hc2 & _ & ? & _).
  rewrite E in E2. injection E2 as ->. split_and!; [done|done|]. by rewrite Hc2, Hc, !zlen_app, Hz.
Qed.

(** * Buffers *)

Lemma usize_add_Ok a b c : usize_add a b = Ok c → a + b < usize_size.
Proof. unfold checked_add. destruct (Z.ltb_spec (a + b) usize_size); [done|by intros]. Qed.

Lemma keeps_True {S A} (m : ST S A) s (Q : A → S → Prop) : (∀ a s', Q a s') → keeps m s Q.
Proof. intros H a s' _. apply H. Qed.

(** What holds whenever the run returns may be assumed. *)
Lemma keeps_suppose {S A} (m : ST S A) s (P : Prop) (Q : A → S → Prop) :
  keeps m s (λ _ _, P) → (P → keeps m s Q) → keeps m s Q.
Proof. intros HP HQ a s' E. exact (HQ (HP a s' E) a s' E). Qed.

Lemma alloc_header_fits size b s :
  buf_ok b → keeps (alloc_header size b) s (λ _ _, zlen (contents b) + size < usize_size).
Proof.
  intros [_ Hl]. unfold alloc_header. keep. apply keeps_True. intros [|f next] s'; keep.
  rewrite <-Hl. by eapply usize_add_Ok.
Qed.

Lemma alloc_header_keeps s k size b :
  buf_ok b → 0 < size ≤ FRAGMENT_SIZE → pool_ok s (nfrags b + k) →
  keeps (alloc_header size b) s (λ b' s', buf_ok b' ∧ pool_ok s' (nfrags b' + k)).
Proof.
  intros Hb Hsz Hp. eapply keeps_suppose; [by apply alloc_header_fits|]. intros Hfit.
  apply keeps_runs. call alloc_header_runs; [done..|]. by intros b' s' (? & _ & _ & _ & _ & ?).
Qed.

Lemma trim_head_keeps s k size b :
  buf_ok b → 0 ≤ size → pool_ok s (nfrags b + k) →
  keeps (trim_head size b) s (λ b' s', buf_ok b' ∧ contents b' = drop (Z.to_nat size) (contents b) ∧
    pool_ok s' (nfrags b' + k)).
Proof.
  intros Hb Hsz Hp. destruct (decide (size ≤ zlen (contents b))).
  - apply keeps_runs. call trim_head_runs; [done..|]. by intros b' s' (? & ? & _ & _ & ?).
  - apply keeps_Panic, trim_head_too_much. rewrite buf_ok_len by done. lia.
Qed.

Lemma append_from_slice_fits src b s :
  buf_ok b → keeps (append_from_slice src b) s (λ _ _, zlen (contents b) + zlen src < usize_size ∨ src = []).
Proof.
  intros [_ Hl]. unfold append_from_slice. destruct (Z.eqb_spec (zlen src) 0).
  { keep. right. by apply zlen_0_nil. }
  keep. apply keeps_True. intros [pre last] s'. keep. apply keeps_True. intros frags s2. keep.
  left. rewrite <-Hl. by eapply usize_add_Ok.
Qed.

Lemma append_from_slice_keeps s k src b :
  buf_ok b → bytes_ok src → pool_ok s (nfrags b + k) →
  keeps (append_from_slice src b) s (λ b' s', buf_ok b' ∧ contents b' = contents b ++ src ∧
    pool_ok s' (nfrags b' + k)).
Proof.
  intros Hb Hs Hp. eapply keeps_suppose; [by apply append_from_slice_fits|]. intros [Hfit| ->].
  - apply keeps_runs. call append_from_slice_runs; [done..|]. by intros b' s' (? & ? & _ & ?).
  - apply (keeps_ret b). by rewrite app_nil_r.
Qed.

Lemma append_buffer_keeps other b b' :
  buf_ok b → buf_ok other → append_buffer other b = Ok b' →
  buf_ok b' ∧ contents b' = contents b ++ contents other ∧ nfrags b' = nfrags b + nfrags other.
Proof.
  intros Hb Ho E. assert (zlen (contents b) + zlen (contents other) < usize_size) as Hfit.
  { unfold append_buffer in E. apply outcome_bind_Ok in E as (len & E & _).
    destruct Hb as [_ <-], Ho as [_ <-]. by eapply usize_add_Ok. }
  destruct (append_buffer_spec other b Hb Ho Hfit) as (b2 & E2 & ? & ? & ?).
  rewrite E in E2. by injection E2 as ->.
Qed.

Lemma append_from_iter_keeps fuel s k frags n b :
  Forall frag_ok frags → 0 ≤ n → buf_ok b → pool_ok s (nfrags b + k) →
  keeps (append_from_iter fuel {| current_frag := frags; remaining := n |} b) s (λ b' s',
    buf_ok b' ∧ pool_ok s' (nfrags b' + k)).
Proof.
  revert s frags n b. induction fuel as [|fuel IH]; intros s frags n b Hf Hn Hb Hp; cbn [append_from_iter].
  { keep. }
  destruct Hf as [|f next Hf Hnext]; [rewrite next_nil; keep; injection E as <-; by keep|].
  destruct (decide (n = 0)) as [->|Hne]; [rewrite next_zero; keep; injection E as <-; by keep|].
  rewrite next_cons by (done || lia). keep. injection E as <-. keep.
  follow append_from_slice_keeps; [done|by apply bytes_ok_take, frag_bytes_ok|done|].
  intros b' s' (Hb' & _ & Hp'). apply IH; [done| |done|done].
  lia.
Qed.

Lemma append_from_buffer_keeps s k other n b :
  buf_ok other → 0 ≤ n → buf_ok b → pool_ok s (nfrags b + k) →
  keeps (append_from_buffer other n b) s (λ b' s', buf_ok b' ∧ pool_ok s' (nfrags b' + k)).
Proof. intros [Ho _] ???. by apply append_from_iter_keeps. Qed.

Lemma drop_buffer_keeps s k b :
  buf_ok b → pool_ok s (nfrags b + k) → keeps (drop_buffer b) s (λ _ s', pool_ok s' k).
Proof. intros. apply keeps_runs. by call drop_buffer_runs. Qed.

(** Copying out ends with an assertion about the count. *)
Lemma copy_to_slice_got b dest n d : buf_ok b → copy_to_slice b dest = Ok (n, d) → 0 ≤ n.
Proof.
  intros [_ Hl]. unfold copy_to_slice. intros ([[it copied] d'] & _ & E)%outcome_bind_Ok.
  apply outcome_bind_Ok in E as (u & E1 & E). apply outcome_bind_Ok in E as ([o it'] & _ & E).
  apply outcome_bind_Ok in E as (u' & _ & E). injection E as <- <-. unfold rust_assert in E1.
  destruct (_ || _) eqn:Hor; [|done]. apply orb_true_iff in Hor. rewrite !Z.eqb_eq in Hor.
  pose proof (zlen_nonneg (contents b)). pose proof (zlen_nonneg dest). lia.
Qed.
