(* ===== verification/NetKeeps.v ===== *)
(** * What no run of the network layers can break

    Whatever a packet holds, the operations of netif.rs, ip.rs, icmp.rs and
    udp.rs that return keep their invariants and account for every fragment. *)

From S2P Require Import Prelude Util Buf BufSpec Checksum Netif Ip Icmp BufKeeps.
From S2P Require Udp.
From stdpp Require Import gmap.
Local Open Scope Z_scope.

Lemma ip_ok_bufs s k k' (p : BufState) : ip_ok s k → pool_ok p k' → ip_ok (update p s) k'.
Proof. intros [[? ? ?] ?] Hp. by split; [split|]. Qed.

Lemma ip_ok_ext s k k' : ip_ok s k → k = k' → ip_ok s k'.
Proof. by intros ? <-. Qed.

Section Output.
Context `{!Tun}.

Lemma send_packet_keeps s k b :
  buf_ok b → net_ok s (nfrags b + k) → keeps (send_packet b) s (λ _ s', net_ok s' k).
Proof.
  intros Hb [Hp H4 H6]. unfold send_packet. keep. destruct a as [iovec n]. keep.
  destruct (_ <=? 0); keep. follow (drop_buffer_keeps _ k); [done| |].
  { by apply pool_ok_packets_sent. }
  intros _ p Hp'. by split.
Qed.

Lemma ip_output_keeps s k b proto dst :
  buf_ok b → is_u8 proto → IPAddr_ok dst → ip_ok s (nfrags b + k) →
  keeps (ip_output b proto dst) s (λ _ s', ip_ok s' k).
Proof.
  intros Hb Hpr Hd Hok. pose proof Hok as [[Hp [H4 _] [H6 _]] Hid].
  unfold ip_output. destruct dst as [d|d]; unfold ip_output_v4, ip_output_v6, get_ipaddr; keep.
  - follow alloc_header_keeps; [done|lia|exact Hp|]. intros b' p [Hb' Hp']. keep.
    apply header_mut_keeps in E as (Hb2 & Hn2 & _); [|done|].
    2: { unfold write_ipv4_header. solve_writes. }
    follow send_packet_keeps; [done|rewrite Hn2; by eapply (ip_ok_bufs s)|].
    intros _ n Hn. split; [done|]. cbn. apply wrapping_add_range. lia.
  - follow alloc_header_keeps; [done|lia|exact Hp|]. intros b' p [Hb' Hp']. keep.
    apply header_mut_keeps in E as (Hb2 & Hn2 & _); [|done|].
    2: { unfold write_ipv6_header. solve_writes. }
    follow send_packet_keeps; [done|rewrite Hn2; by eapply (ip_ok_bufs s)|].
    by intros _ n Hn.
Qed.
Lemma checksum_keeps (sum : Z) b f b' :
  buf_ok b → header_mut b (λ h, with_slice h f (f + 2) (set_be16 sum)) = Ok b' →
  buf_ok b' ∧ nfrags b' = nfrags b ∧ zlen (contents b') = zlen (contents b).
Proof. intros Hb. apply header_mut_keeps; [done|]. solve_writes. Qed.

(** ** ICMP *)

Lemma icmp_output_v4_keeps s k b ty dst :
  buf_ok b → is_u8 ty → IPAddr_ok dst → ip_ok s (nfrags b + k) →
  keeps (icmp_output_v4 b ty dst) s (λ _ s', ip_ok s' k).
Proof.
  intros Hb Hty Hd Hok. unfold icmp_output_v4. keep.
  follow alloc_header_keeps; [done|lia|apply Hok|]. intros b1 p [Hb1 Hp1]. keep.
  apply header_mut_keeps in E as (Hb2 & Hn2 & _); [|done|by solve_writes].
  apply (checksum_keeps _ _ 2) in E1 as (Hb3 & Hn3 & _); [|done].
  apply ip_output_keeps; [done|done|done|]. rewrite Hn3, Hn2. exact (ip_ok_bufs s _ _ p Hok Hp1).
Qed.

Lemma icmp_output_v6_keeps s k b ty dst :
  buf_ok b → is_u8 ty → IPAddr_ok dst → ip_ok s (nfrags b + k) →
  keeps (icmp_output_v6 b ty dst) s (λ _ s', ip_ok s' k).
Proof.
  intros Hb Hty Hd Hok. unfold icmp_output_v6, get_ipaddr. keep.
  follow alloc_header_keeps; [done|lia|apply Hok|]. intros b1 p [Hb1 Hp1]. keep.
  apply header_mut_keeps in E as (Hb2 & Hn2 & _); [|done|by solve_writes].
  apply (checksum_keeps _ _ 2) in E2 as (Hb3 & Hn3 & _); [|done].
  apply ip_output_keeps; [done|done|done|]. rewrite Hn3, Hn2. exact (ip_ok_bufs s _ _ p Hok Hp1).
Qed.

(** Dropping a packet in hand. *)
Lemma drop_packet_keeps s k b :
  buf_ok b → ip_ok s (nfrags b + k) → keeps (zoom (drop_buffer b)) s (λ _ s', ip_ok s' k).
Proof.
  intros Hb Hok. keep. follow (drop_buffer_keeps _ k); [done|apply Hok|].
  intros _ p Hp. by eapply ip_ok_bufs.
Qed.

Lemma echo_keeps (out : NetBuffer → ST IpState unit) s k b :
  (∀ s k r, buf_ok r → ip_ok s (nfrags r + k) → keeps (out r) s (λ _ s', ip_ok s' k)) →
  buf_ok b → ip_ok s (nfrags b + k) →
  keeps (response ← zoom (append_from_buffer b usize_max NetBuffer_new); out response;;
         zoom (drop_buffer b)) s (λ _ s', ip_ok s' k).
Proof.
  intros Hout Hb Hok. keep. follow (append_from_buffer_keeps _ (nfrags b + k)); [done|lia|apply buf_ok_new| |].
  { eapply pool_ok_ext; [apply Hok|]. change (nfrags NetBuffer_new) with 0. lia. }
  intros r p [Hr Hp]. keep. follow (Hout _ (nfrags b + k)); [done|by eapply ip_ok_bufs|].
  intros _ s' Hok'. by apply (drop_packet_keeps s').
Qed.

Lemma icmp_input_v4_keeps s k b src :
  buf_ok b → IPAddr_ok src → ip_ok s (nfrags b + k) →
  keeps (icmp_input_v4 b src) s (λ _ s', ip_ok s' k).
Proof.
  intros Hb Hsrc Hok. unfold icmp_input_v4. keep. case_match; [by apply drop_packet_keeps|]. keep.
  follow trim_head_keeps; [done|lia|apply Hok|]. intros b' p (Hb' & _ & Hp).
  assert (ip_ok (update p s) (nfrags b' + k)) by (by eapply ip_ok_bufs).
  case_match; [|by apply (drop_packet_keeps (update p s))].
  apply (echo_keeps (λ r, icmp_output_v4 r ICMPV4_ECHO_REPLY src) (update p s)); [|done|done].
  intros. by apply icmp_output_v4_keeps.
Qed.

Lemma icmp_input_v6_keeps s k b src :
  buf_ok b → IPAddr_ok src → ip_ok s (nfrags b + k) →
  keeps (icmp_input_v6 b src) s (λ _ s', ip_ok s' k).
Proof.
  intros Hb Hsrc Hok. unfold icmp_input_v6, get_ipaddr. keep. rewrite update_view.
  case_match; [by apply drop_packet_keeps|]. keep.
  follow trim_head_keeps; [done|lia|apply Hok|]. intros b' p (Hb' & _ & Hp).
  assert (ip_ok (update p s) (nfrags b' + k)) by (by eapply ip_ok_bufs).
  case_match; [|by apply (drop_packet_keeps (update p s))].
  apply (echo_keeps (λ r, icmp_output_v6 r ICMPV6_ECHO_REPLY src) (update p s)); [|done|done].
  intros. by apply icmp_output_v6_keeps.
Qed.

End Output.

(** * IP input *)

Lemma slice_bytes l a b l' : bytes_ok l → slice l a b = Ok l' → bytes_ok l'.
Proof. intros Hl. unfold slice. case_match; [|done]. intros E. injection E as <-. by apply bytes_ok_sub. Qed.

Lemma index_byte l i v : bytes_ok l → index l i = Ok v → is_u8 v.
Proof.
  intros Hl. unfold index. destruct (_ && _); [|done].
  destruct (l !! Z.to_nat i) eqn:Hi; [|done]. intros E. injection E as <-. by eapply Forall_lookup_1.
Qed.

Lemma header_bytes b l : buf_ok b → header b = Ok l → bytes_ok l.
Proof.
  intros [Hb _]. unfold header. destruct (fragments b) as [|f next]; [done|].
  rewrite Forall_cons_iff in Hb. destruct Hb as [Hf _]. rewrite slice_frag by done.
  intros E. injection E as <-. by apply frag_bytes_ok.
Qed.

Lemma IPAddr_new_from_keeps l a : bytes_ok l → IPAddr_new_from l = Ok a → IPAddr_ok a.
Proof.
  intros Hl. unfold IPAddr_new_from, IPAddr_new_v4, IPAddr_new_v6.
  destruct (Z.eqb_spec (zlen l) 4) as [E4|]; [intros E; by injection E as <-|].
  destruct (Z.eqb_spec (zlen l) 16) as [E16|]; [intros E; by injection E as <-|done].
Qed.

Lemma get_be16_u16 l v : bytes_ok l → get_be16 l = Ok v → is_u16 v.
Proof.
  intros Hl (b0 & E0 & (b1 & E1 & E2)%outcome_bind_Ok)%outcome_bind_Ok.
  injection E2 as <-. apply index_byte in E0, E1; try done. rewrite lor_shiftl_add by done.
  change (2 ^ 8) with 256. unfold in_range in *. lia.
Qed.

Section Input.
Context {S : Type} `{!Lens S BufState, !Transport S}.

(** [I n s]: the invariant of [s] holds, and the packets in hand have [n]
    fragments. *)
Context (I : Z → S → Prop).
Context (I_pool : ∀ n s, I n s → ∃ m, pool_ok (view s) (n + m) ∧
  ∀ n' p, pool_ok p (n' + m) → I n' (update p s)).

Definition accepts (handler : NetBuffer → IPAddr → ST S unit) : Prop :=
  ∀ b src s, buf_ok b → zlen (contents b) ≤ MRU → IPAddr_ok src → I (nfrags b) s →
    keeps (handler b src) s (λ _ s', I 0 s').

Context (Hicmp4 : accepts transport_icmp_v4) (Hicmp6 : accepts transport_icmp_v6)
        (Htcp : accepts transport_tcp) (Hudp : accepts transport_udp).

Lemma drop_keeps b s : buf_ok b → I (nfrags b) s → keeps (zoom (drop_buffer b)) s (λ _ s', I 0 s').
Proof.
  intros Hb Hs. destruct (I_pool _ _ Hs) as (m & Hp & Hm). keep.
  follow (drop_buffer_keeps _ m); [done|done|]. intros _ p Hp'. by apply Hm.
Qed.

Lemma ip_input_common_keeps proto : accepts (λ b src, ip_input_common b proto src).
Proof.
  intros b src s Hb Hl Hsrc Hs. unfold ip_input_common.
  repeat (case_match; [by auto|]). by apply drop_keeps.
Qed.

Lemma strip_keeps n b s proto src :
  buf_ok b → zlen (contents b) ≤ MRU → IPAddr_ok src → 0 ≤ n → I (nfrags b) s →
  keeps (trim_head n b) (view s) (λ packet p,
    keeps (ip_input_common packet proto src) (update p s) (λ _ s', I 0 s')).
Proof.
  intros Hb Hl Hsrc Hn Hs. destruct (I_pool _ _ Hs) as (m & Hp & Hm).
  follow (trim_head_keeps _ m); [done|done|done|]. intros b' p (Hb' & Hc & Hp').
  apply ip_input_common_keeps; [done| |done|by apply Hm].
  rewrite Hc, zlen_drop. pose proof (zlen_nonneg (contents b)). lia.
Qed.

Lemma ip_input_keeps b s :
  buf_ok b → zlen (contents b) ≤ MRU → I (nfrags b) s → keeps (ip_input b) s (λ _ s', I 0 s').
Proof.
  intros Hb Hl Hs. unfold ip_input. keep. case_match; [|case_match].
  - unfold ip_input_v4. keep. pose proof (header_bytes _ _ Hb E1) as Hbo.
    case_match; [by apply drop_keeps|]. keep. case_match; [by apply drop_keeps|]. keep.
    apply strip_keeps; [done|done| |  |done].
    + eapply IPAddr_new_from_keeps; [|done]. by eapply slice_bytes.
    + apply Z.mul_nonneg_nonneg; [|lia]. apply Z.land_nonneg. by right.
  - unfold ip_input_v6. keep. pose proof (header_bytes _ _ Hb E1) as Hbo.
    apply strip_keeps; [done|done| |lia|done].
    eapply IPAddr_new_from_keeps; [|done]. by eapply slice_bytes.
  - by apply drop_keeps.
Qed.

End Input.

(** * UDP *)

Section UDP.
Context `{!Tun}.
Import Udp.

Lemma udp_ok_ip s k k' i : udp_ok s k → ip_ok i (queued (sockets s) + k') → udp_ok (s <| ip := i |>) k'.
Proof. intros [_ ? ?] Hi. by split. Qed.

Lemma udp_output_keeps s k b dst sp dp :
  buf_ok b → IPAddr_ok dst → udp_ok s (nfrags b + k) →
  keeps (udp_output b dst sp dp) s (λ _ s', udp_ok s' k ∧ sockets s' = sockets s).
Proof.
  intros Hb Hd Hok. pose proof Hok as [Hip _ _]. unfold udp_output. keep.
  follow (alloc_header_keeps _ (queued (sockets s) + k)); [done|lia| |].
  { eapply pool_ok_ext; [apply Hip|]. lia. }
  intros b1 p [Hb1 Hp1]. keep. apply header_mut_keeps in E as (Hb2 & Hn2 & _); [|done|by solve_writes].
  apply (checksum_keeps _ _ 6) in E2 as (Hb3 & Hn3 & _); [|done].
  follow (ip_output_keeps _ (queued (sockets s) + k)); [done|done|done| |].
  { rewrite Hn3, Hn2. exact (ip_ok_bufs (ip s) _ _ p Hip Hp1). }
  intros _ i Hi. split; [|done]. by eapply (udp_ok_ip s).
Qed.

Lemma udp_send_keeps s k h dst dp data :
  bytes_ok data → IPAddr_ok dst → udp_ok s k →
  keeps (udp_send h dst dp data) s (λ _ s', udp_ok s' k).
Proof.
  intros Hb Hd Hok. pose proof Hok as [Hip _ _]. unfold udp_send, lock. keep.
  follow (append_from_slice_keeps _ (queued (sockets s) + k)); [apply buf_ok_new|done| |].
  { eapply pool_ok_ext; [apply Hip|]. change (nfrags NetBuffer_new) with 0. lia. }
  intros b p (Hbb & _ & Hp). follow (udp_output_keeps _ k); [done|done| |by intros ?? [? _]].
  eapply (udp_ok_ip s _ _ (update p (ip s))); [done|].
  eapply ip_ok_bufs; [done|]. eapply pool_ok_ext; [exact Hp|]. lia.
Qed.

Lemma udp_input_keeps s k b src :
  buf_ok b → zlen (contents b) ≤ MRU → IPAddr_ok src → udp_ok s (nfrags b + k) →
  keeps (udp_input b src) s (λ _ s', udp_ok s' k).
Proof.
  intros Hb Hl Hsrc Hok. pose proof Hok as [Hip Hs Hpm]. unfold udp_input. keep.
  pose proof (header_bytes _ _ Hb E) as Hbo.
  assert (is_u16 a1) as Hsp by (eapply get_be16_u16; [by eapply slice_bytes; [|exact E0]|done]).
  follow (trim_head_keeps _ (queued (sockets s) + k)); [done|lia| |].
  { eapply pool_ok_ext; [apply Hip|]. lia. }
  intros b' p (Hb' & Hc & Hp). keep. set (s1 := update p s).
  assert (zlen (contents b') ≤ MRU) as Hl'.
  { rewrite Hc, zlen_drop. pose proof (zlen_nonneg (contents b)). lia. }
  assert (udp_ok s1 (nfrags b' + k)) as Hok1.
  { apply (udp_ok_ip s _ _ (update p (ip s)) Hok). eapply ip_ok_bufs; [done|].
    eapply pool_ok_ext; [exact Hp|]. lia. }
  destruct (PORT_MAP s1 !! a3) as [h|] eqn:Hpm1.
  - unfold lock, put. keep. rename a4 into st. apply unwrap_Ok in E4.
    pose proof (udp_sockets _ _ Hok1) as Hsk. destruct (Forall_lookup_1 _ _ _ _ Hsk E4) as [_ Hq].
    apply (udp_ok_put s1 _ k h st (receive_queue st ++ [(src, a1, b')]) (ip s1) _ Hok1 E4).
    + apply Forall_app. split; [done|]. by constructor.
    + rewrite (queued_insert _ _ st) by done. cbn [receive_queue set_field]. rewrite queue_frags_app.
      change (queue_frags [(src, a1, b')]) with (nfrags b' + 0). destruct Hok1 as [Hi _ _].
      by replace (queued (sockets s1) - _ + _ + k) with (queued (sockets s1) + (nfrags b' + k)) by lia.
  - keep. follow (drop_buffer_keeps _ (queued (sockets s) + k)); [done| |].
    { eapply pool_ok_ext; [exact Hp|]. lia. }
    intros _ p2 Hp2. apply (udp_ok_ip s _ _ (update p2 (update p (ip s))) Hok).
    by apply (ip_ok_bufs (update p (ip s)) (nfrags b' + (queued (sockets s) + k))); [eapply ip_ok_bufs|].
Qed.

Lemma udp_recv_keeps s k h data : udp_ok s k → keeps (udp_recv h data) s (λ _ s', udp_ok s' k).
Proof.
  intros Hok. destruct (sockets s !! h) as [st|] eqn:Hl.
  - apply keeps_runs. destruct (receive_queue st) as [|[[src sp] b] rest] eqn:Hq.
    + call udp_recv_wait; [done|done|]. by intros r s' [_ ->].
    + call (udp_recv_runs s k h st data src sp b rest); [done|done|done|]. by intros r s' (_ & ? & _).
  - apply keeps_Panic. unfold udp_recv. apply bind_Panic. unfold lock, mbind, st_bind, fetch, lift.
    by rewrite Hl.
Qed.

Lemma udp_open_keeps s k p : udp_ok s k → is_u16 p → keeps (udp_open p) s (λ _ s', udp_ok s' k).
Proof. intros. apply keeps_runs. call udp_open_runs; [done|done|]. by intros r s' [? _]. Qed.

End UDP.
