(* ===== verification/TcpKeeps.v ===== *)
(** * What no run of tcp.rs can break

    The invariant of the sockets and of the references to them: every fragment
    is accounted for, the port map leads to a socket with the key it is listed
    under, and timers and accept queues name sockets that exist.  The operations
    on a locked socket keep it, whatever a segment holds. *)

From S2P Require Import Prelude Util Buf BufSpec Checksum Timer Netif Ip Reassembler TcpOptions Tcp.
From S2P Require Import TcpSpec TcpData BufKeeps NetKeeps.
From stdpp Require Import gmap.
Local Open Scope Z_scope.

#[local] Arguments ooo_frags _ : simpl never.
#[local] Arguments sockets_frags _ : simpl never.

(** * The invariant *)

Definition endpoints (g : TCPSocketState) : SocketKey := (remote_ip g, remote_port g, local_port g).

Definition timer_socket (a : TimerAction) : SocketReference :=
  match a with
  | Retransmit h | DelayedAck h | ResponseTimeout h | TimeWaitTimeout h => h
  end.

(** The timeout is a [u64] and the id a positive [i32]. *)
Definition timer_typed (t : Timer TimerAction) : Prop :=
  0 ≤ absolute_timeout_ms t < u64_size ∧ 0 ≤ id t < 2147483648.

(** A timer that has its closure, and whose closure has its socket. *)
Definition timer_ok (n : nat) (t : Timer TimerAction) : Prop :=
  (∃ a, closure t = Some a ∧ (timer_socket a < n)%nat) ∧ timer_typed t.

Definition timers_good (n : nat) (t : TimerState TimerAction) : Prop :=
  is_u32 (NEXT_TIMER_ID t) ∧ Forall (timer_ok n) (PENDING_TIMERS t).

(** The id of a timer, or -1. *)
Definition timer_ref (i : Z) : Prop := -1 ≤ i < 2147483648.

(** The numbers of a socket, besides those of [socket_wf], have their types. *)
Definition numbers_typed (g : TCPSocketState) : Prop :=
  (is_u16 (send_mss g) ∧ is_u32 (receive_next_seq g) ∧ is_u32 (num_delayed_acks g)) ∧
  (is_u32 (send_window g) ∧ is_u32 (send_last_win_seq g) ∧ is_u32 (send_last_win_ack g)) ∧
  (timer_ref (delayed_ack_timer_id g) ∧ timer_ref (retransmit_timer_id g) ∧
   timer_ref (response_timer_id g)) ∧
  is_u32 (request_retry_count g) ∧ Forall (λ e, is_u32 e.1) (out_of_order (reassembler g)).

Definition socket_refs (n : nat) (g : TCPSocketState) : Prop :=
  Forall (λ h, h < n)%nat (socket_queue g) ∧ numbers_typed g.

Record tcp_inv (k : Z) (s : TcpState) : Prop := {
  inv_ok : tcp_ok s k;
  inv_ports : ∀ key h, PORT_MAP s !! key = Some h → endpoints <$> sockets s !! h = Some key;
  inv_timers : timers_good (length (sockets s)) (timers s);
  inv_sockets : Forall (socket_refs (length (sockets s))) (sockets s);
}.

(** A function that holds the lock of socket [h] and has changed it to [g]:
    putting [g] back would make the state good. *)
Record held (h : nat) (key : SocketKey) (k : Z) (g : TCPSocketState) (s : TcpState) : Prop := {
  held_index : (h < length (sockets s))%nat;
  held_key : endpoints g = key;
  held_inv : tcp_inv k (s <| sockets ::= λ l, <[h:=g]> l |>);
}.

Section Held.
Context (h : nat) (key : SocketKey).
Implicit Types (g : TCPSocketState) (s : TcpState).

Lemma held_lock k g s : tcp_inv k s → sockets s !! h = Some g → held h (endpoints g) k g s.
Proof.
  intros Hs Hg. split; [by eapply lookup_lt_Some|done|]. destruct s. cbn in *.
  unfold set_field. cbn. by rewrite list_insert_id.
Qed.

Lemma held_wf k g s : held h key k g s → socket_wf g ∧ socket_refs (length (sockets s)) g.
Proof.
  intros [Hh _ [[_ Hwf _] _ _ Hr]]. cbn in Hwf, Hr. rewrite length_insert in Hr.
  assert (<[h:=g]> (sockets s) !! h = Some g) as Hl by (by apply list_lookup_insert_eq).
  split; by eapply Forall_lookup_1.
Qed.

Lemma held_clock k g s : held h key k g s → 0 ≤ current_time_ms (timers s) < 9223372036854775808.
Proof. intros [_ _ [[_ _ Hc] _ _ _]]. exact Hc. Qed.

(** Exchanging fragments between the socket, the pool and the function. *)
Lemma held_change k g s :
  held h key k g s → ∃ r, ip_ok (ip s) (socket_frags g + (r + k)) ∧
    ∀ i g' k', socket_wf g' → endpoints g' = key → socket_refs (length (sockets s)) g' →
      ip_ok i (socket_frags g' + (r + k')) → held h key k' g' (s <| ip := i |>).
Proof.
  intros [Hh Hk [[Hi Hwf Hc] Hp Ht Hr]]. cbn in *.
  assert (<[h:=g]> (sockets s) !! h = Some g) as Hl by (by apply list_lookup_insert_eq).
  exists (sockets_frags (<[h:=g]> (sockets s)) - socket_frags g).
  split; [by replace (socket_frags g + _) with (sockets_frags (<[h:=g]> (sockets s)) + k) by lia|].
  intros i g' k' Hwf' Hk' Hr' Hi'. split; [done|done|]. cbn. split; [split|..]; cbn; rewrite ?length_insert in *.
  - change (ip_ok i (sockets_frags (<[h:=g']> (sockets s)) + k')).
    rewrite <-(list_insert_insert_eq (sockets s) h g' g), (sockets_frags_insert _ _ _ _ Hl).
    by replace (_ - socket_frags g + socket_frags g' + k') with
      (socket_frags g' + (sockets_frags (<[h:=g]> (sockets s)) - socket_frags g + k')) by lia.
  - rewrite <-(list_insert_insert_eq (sockets s) h g' g). by apply Forall_insert.
  - done.
  - intros key' h' Hk2. specialize (Hp key' h' Hk2). destruct (decide (h = h')) as [<-|].
    + rewrite list_lookup_insert_eq in Hp |- * by done. cbn in *. congruence.
    + by rewrite list_lookup_insert_ne in Hp |- *.
  - done.
  - rewrite <-(list_insert_insert_eq (sockets s) h g' g). by apply Forall_insert.
Qed.

Lemma held_guard k g g' s :
  held h key k g s → socket_wf g' → endpoints g' = endpoints g → socket_queue g' = socket_queue g →
  numbers_typed g' → socket_frags g' = socket_frags g → held h key k g' s.
Proof.
  intros Hh Hwf He Hq Hm Hf. destruct (held_change _ _ _ Hh) as (r & Hi & H).
  destruct (held_wf _ _ _ Hh) as [_ [Hr _]]. pose proof (held_key _ _ _ _ _ Hh) as Hk.
  assert (held h key k g' (s <| ip := ip s |>)) as Hg.
  { apply H; [done|congruence|by split; [rewrite Hq|]|by rewrite Hf]. }
  by destruct s.
Qed.

Lemma held_timers k g s t :
  held h key k g s → current_time_ms t = current_time_ms (timers s) →
  timers_good (length (sockets s)) t → held h key k g (s <| timers := t |>).
Proof.
  intros [Hh Hk [[Hi Hwf Hc] Hp Ht Hr]] Hct Hpt. split; [done|done|]. cbn in *.
  split; [split|..]; cbn; rewrite ?length_insert in *; [done|done|by rewrite Hct|done..].
Qed.

Lemma held_pending k g s :
  held h key k g s → timers_good (length (sockets s)) (timers s).
Proof. intros [_ _ [_ _ Ht _]]. cbn in Ht. by rewrite length_insert in Ht. Qed.

Lemma held_unlock k g s : held h key k g s → tcp_inv k (s <| sockets ::= λ l, <[h:=g]> l |>).
Proof. by intros []. Qed.

Lemma held_same k g s : held h key k g s → sockets s !! h = Some g → tcp_inv k s.
Proof. intros [_ _ Hs] Hg. destruct s. unfold set_field in Hs. cbn in *. by rewrite list_insert_id in Hs. Qed.

Lemma held_notify k g s l : held h key k g s → held h key k g (s <| notified := l |>).
Proof. intros [Hh Hk [[? ? ?] ? ? ?]]. split; [done|done|]. by split; [split|..]. Qed.

End Held.

Lemma timer_ref_none : timer_ref (-1).
Proof. done. Qed.

Lemma timer_ref_id i : 0 ≤ i < 2147483648 → timer_ref i.
Proof. unfold timer_ref. lia. Qed.

Lemma checked_add_range size a b c :
  in_range size a → 0 ≤ b → checked_add size a b = Ok c → in_range size c.
Proof.
  unfold checked_add, in_range. intros [? _] ? E. destruct (Z.ltb_spec (a + b) size); [|done].
  injection E as <-. lia.
Qed.

Lemma wrapping_max_range a b : is_u32 a → is_u32 b → is_u32 (wrapping_max a b).
Proof. unfold wrapping_max. by case_match. Qed.

Lemma u16_u32 x : is_u16 x → is_u32 x.
Proof. unfold in_range. lia. Qed.

Create HintDb numbers.
#[export] Hint Resolve timer_ref_none timer_ref_id u16_u32 : numbers.

(** The types of a socket's numbers after a change, from those before it. *)
Ltac number_types H :=
  destruct H as ((? & ? & ?) & (? & ? & ?) & (? & ? & ?) & ? & ?); unfold numbers_typed; cbn;
  split_and?; try done; auto with numbers.

(** The change of a field that the invariant does not look at. *)
Ltac same_guard :=
  lazymatch goal with
  | H : held _ _ _ _ ?s |- held _ _ _ _ ?s =>
      let Hwf := fresh in let Hq := fresh in
      pose proof (held_wf _ _ _ _ _ H) as [Hwf [_ Hq]];
      apply (held_guard _ _ _ _ _ _ H);
      [destruct Hwf; first [by split | split; cbn; tauto | idtac]|try done|try done|try done; number_types Hq|try done]
  end.

(** * The reassembler *)

Lemma advance_u32 seq b : is_u32 (advance seq b).
Proof. apply wrapping_add_range. lia. Qed.

(** A segment that is kept, with its sequence number. *)
Definition segment_kept (e : Z * NetBuffer) : Prop := is_u32 e.1 ∧ buf_ok e.2.

Lemma reassemble_loop_keeps fuel s k seq i r b :
  Forall segment_kept (out_of_order r) → is_u32 (next_sequence r) → buf_ok b →
  pool_ok s (nfrags b + (ooo_frags (out_of_order r) + k)) →
  keeps (reassemble_loop fuel seq i r b) s (λ p s',
    Forall segment_kept (out_of_order p.1) ∧ is_u32 (next_sequence p.1) ∧ buf_ok p.2 ∧
    pool_ok s' (nfrags p.2 + (ooo_frags (out_of_order p.1) + k))).
Proof.
  revert s i r b. induction fuel as [|fuel IH]; intros s i r b Hooo Hnx Hb Hp; cbn [reassemble_loop].
  { keep. }
  destruct (out_of_order r !! i) as [[q p]|] eqn:Hi; [|by keep].
  pose proof (ooo_frags_delete _ _ _ Hi) as Hf. cbn [snd] in Hf.
  pose proof (Forall_lookup_1 _ _ _ _ Hooo Hi) as [_ Hpb]. cbn in Hpb.
  assert (Forall segment_kept (delete i (out_of_order r))) by (by apply Forall_delete).
  case_match; [|case_match].
  - keep. follow (drop_buffer_keeps _ (nfrags b + (ooo_frags (delete i (out_of_order r)) + k))); [done| |].
    { eapply pool_ok_ext; [exact Hp|]. lia. }
    intros _ s1 Hp1. by apply IH.
  - keep. destruct (append_buffer_keeps p b a Hb Hpb E) as (Ha & _ & Hn).
    apply IH; [done|apply advance_u32|done|]. eapply pool_ok_ext; [exact Hp|].
    cbn. unfold set_field. cbn. lia.
  - by apply IH.
Qed.

Lemma add_packet_keeps s k b seq r :
  Forall segment_kept (out_of_order r) → is_u32 (next_sequence r) → buf_ok b → is_u32 seq →
  pool_ok s (nfrags b + (ooo_frags (out_of_order r) + k)) →
  keeps (add_packet b seq r) s (λ p s',
    Forall segment_kept (out_of_order p.1) ∧ is_u32 (next_sequence p.1) ∧
    (∀ b', p.2 = Some b' → buf_ok b') ∧
    pool_ok s' (from_option nfrags 0 p.2 + (ooo_frags (out_of_order p.1) + k))).
Proof.
  intros Hooo Hnx Hb Hseq Hp. unfold add_packet. case_match.
  - keep. follow reassemble_loop_keeps; [done|apply advance_u32|done|exact Hp|].
    intros [r' b'] s' (? & ? & ? & ?). keep. split_and!; [done|done| |done]. intros b2 [= <-]. done.
  - keep. cbn. split_and!; [|done|done|].
    + apply Forall_app. split; [done|]. by constructor.
    + unfold set_field. cbn. rewrite ooo_frags_app. eapply pool_ok_ext; [exact Hp|]. change (ooo_frags [(seq, b)]) with (nfrags b + 0). lia.
Qed.

(** * Operations on a locked socket *)

Section Guard.
Context `{!Tun, !Random}.

Lemma tcp_output_keeps s k b p :
  buf_ok b → bytes_ok (options p) → zlen (options p) ≤ 40 → is_u8 (flags p) → IPAddr_ok (dest_ip p) →
  ip_ok s (nfrags b + k) → keeps (tcp_output b p) s (λ _ s', ip_ok s' k).
Proof.
  intros Hb Ho Hol Hf Hd Hok. pose proof Hok as [[Hp _ _] _]. pose proof (zlen_nonneg (options p)).
  unfold tcp_output, get_ipaddr. keep. follow alloc_header_keeps; [done|lia|exact Hp|].
  intros b1 p1 [Hb1 Hp1]. keep. apply header_mut_keeps in E0 as (Hb2 & Hn2 & _); [|done|].
  2: { unfold write_tcp_header. solve_writes. apply store_writes, truncate_range; lia. }
  apply (checksum_keeps _ _ 16) in E3 as (Hb3 & Hn3 & _); [|done].
  apply ip_output_keeps; [done|done|done|]. rewrite Hn3, Hn2. exact (ip_ok_bufs s _ _ p1 Hok Hp1).
Qed.

Lemma cancel_pending_keeps h key k g s i :
  held h key k g s → keeps (cancel_pending i) s (λ _ s', held h key k g s').
Proof.
  intros Hh. unfold cancel_pending. keep. apply keeps_runs. call cancel_timer_runs.
  pose proof (held_pending _ _ _ _ _ Hh) as Hp.
  intros [] t Ht; keep; apply held_timers; try done.
  - by destruct Ht as (? & _ & _ & ->).
  - destruct Hp as [Hn Hp], Ht as (? & _ & Hl & Et). change (view s) with (timers s) in *. rewrite Hl in Hp.
    apply Forall_cons_iff in Hp as [_ ?]. split; [by rewrite Et|done].
  - by destruct Ht as [_ ->].
  - by destruct Ht as [_ ->].
Qed.

Lemma set_timer_keeps h key k g s timeout a :
  held h key k g s → 0 ≤ timeout < u32_size → timer_socket a = h →
  keeps (zoom (set_timer timeout a)) s (λ i s', held h key k g s' ∧ 0 ≤ i < 2147483648).
Proof.
  intros Hh Ht Ha. pose proof (held_clock _ _ _ _ _ Hh). apply keeps_zoom, keeps_runs.
  change (view s) with (timers s). call set_timer_runs; [lia|]. intros i t (Hi & _ & ->). split; [|done].
  apply held_timers; [done|done|]. destruct (held_pending _ _ _ _ _ Hh) as [? ?].
  split; [apply wrapping_add_range; lia|]. apply Forall_app. split; [done|].
  constructor; [|done]. split; [|by split; cbn; lia]. exists a. split; [done|].
  rewrite Ha. by destruct Hh.
Qed.

Lemma set_response_timer_keeps h key k g s :
  held h key k g s → keeps (set_response_timer g h) s (λ g' s',
    held h key k g' s' ∧ ∃ t, timer_ref t ∧ g' = g <| response_timer_id := t |>).
Proof.
  intros Hh. unfold set_response_timer. keep.
  eapply (keeps_mono _ _ (λ _ s', held h key k g s')).
  { case_match; [by apply cancel_pending_keeps|by keep]. }
  intros _ s1 Hh1. apply keeps_bind. follow set_timer_keeps; [exact Hh1|lia|done|].
  intros i s2 [Hh2 Hi]. keep. split; [same_guard|]. exists i. auto with numbers.
Qed.

Lemma socket_send_keeps h key k g s b fl :
  held h key (nfrags b + k) g s → buf_ok b → is_u8 fl →
  keeps (send_packet g b fl) s (λ _ s', held h key k g s').
Proof.
  intros Hh Hb Hf. destruct (held_wf _ _ _ _ _ Hh) as [[_ _ _ (? & _) _] _].
  pose proof (held_change _ _ _ _ _ Hh) as (r & Hi & Hput). unfold send_packet. keep.
  follow (tcp_output_keeps _ (socket_frags g + (r + k))); [done| | |done|done| |].
  - cbn. by destruct (has_flag fl FLAG_SYN); bytes_solve.
  - cbn. by destruct (has_flag fl FLAG_SYN).
  - by replace (nfrags b + _) with (socket_frags g + (r + (nfrags b + k))) by lia.
  - intros _ i Hi'. apply held_wf in Hh as Hw. apply Hput; [apply Hw|by destruct Hh|apply Hw|done].
Qed.

Lemma send_empty_keeps h key k g s fl :
  held h key k g s → is_u8 fl → keeps (send_packet g NetBuffer_new fl) s (λ _ s', held h key k g s').
Proof. intros Hh Hf. apply socket_send_keeps; [done|apply buf_ok_new|done]. Qed.

(** A request, and the timer that repeats it. *)
Lemma request_keeps h key k g s fl :
  held h key k g s → is_u8 fl →
  keeps (send_packet g NetBuffer_new fl;; set_response_timer g h) s (λ g' s',
    held h key k g' s' ∧ ∃ t, timer_ref t ∧ g' = g <| response_timer_id := t |>).
Proof.
  intros Hh Hf. apply keeps_bind. follow send_empty_keeps; [done|done|].
  intros _ s1 Hh1. by apply set_response_timer_keeps.
Qed.

(** ** Received data *)

Lemma queue_data_keeps h key k g s got :
  (∀ b, got = Some b → buf_ok b) → held h key (from_option nfrags 0 got + k) g s →
  keeps (queue_data h g got) s (λ g' s', held h key k g' s').
Proof.
  intros Hb Hh. destruct got as [b|]; cbn in *; unfold notify_all; keep; [|done].
  destruct (held_wf _ _ _ _ _ Hh) as [Hwf Hr]. pose proof Hwf as [Hrq ? ? ? ?].
  destruct (append_buffer_keeps b _ a Hrq (Hb b eq_refl) E) as (Ha & _ & Hn).
  destruct (held_change _ _ _ _ _ Hh) as (r & Hi & Hput). apply held_notify.
  assert (held h key k (g <| receive_queue := a |>) (s <| ip := ip s |>)) as Hg.
  { apply Hput; [by split|by destruct Hh|done|]. unfold socket_frags in *. cbn. rewrite Hn.
    by replace (nfrags (receive_queue g) + _ + _ + _ + _) with
      (nfrags (receive_queue g) + nfrags (retransmit_queue g) +
       ooo_frags (out_of_order (reassembler g)) + (r + (nfrags b + k))) by lia. }
  by destruct s.
Qed.

Lemma stop_delayed_ack_keeps h key k g s :
  held h key k g s →
  keeps (if negb (delayed_ack_timer_id g =? -1)
         then cancel_pending (delayed_ack_timer_id g);; mret (g <| delayed_ack_timer_id := -1 |>)
         else mret g) s (λ g' s', held h key k g' s').
Proof.
  intros Hh. case_match; [|by keep]. keep. follow cancel_pending_keeps; [exact Hh|].
  intros _ s1 Hh1. keep. same_guard.
Qed.

Lemma acknowledge_data_keeps h key k g s fl :
  held h key k g s → keeps (acknowledge_data h g fl) s (λ g' s', held h key k g' s').
Proof.
  intros Hh. unfold acknowledge_data. case_match; keep.
  - destruct (held_wf _ _ _ _ _ Hh) as [_ [_ ((_ & _ & Hacks) & _)]].
    assert (is_u32 a) by (by apply (checked_add_range _ _ _ _ Hacks Z.le_0_1 E)). case_match; [|case_match].
    + keep. follow stop_delayed_ack_keeps; [same_guard|]. intros g' s' Hg. keep.
      follow send_empty_keeps; [done|done|]. intros _ s2 ?. by keep.
    + apply keeps_bind. follow set_timer_keeps; [same_guard|lia|done|]. intros i s2 [Hh2 ?]. keep. same_guard.
    + keep. same_guard.
  - follow stop_delayed_ack_keeps; [done|]. intros g' s' Hg. keep.
    follow send_empty_keeps; [done|done|]. intros _ s2 ?. by keep.
Qed.

Lemma receive_data_keeps h key k g s b seq fl :
  held h key (nfrags b + k) g s → buf_ok b → is_u32 seq →
  keeps (receive_data h g b seq fl) s (λ g' s', held h key k g' s').
Proof.
  intros Hh Hb Hseq. destruct (held_wf _ _ _ _ _ Hh) as [Hwf Hr].
  pose proof Hwf as [? ? Hooo ? (? & ? & Hnx)]. pose proof Hr as [Hsq ((? & ? & ?) & ? & ? & ? & Hos)].
  destruct (held_change _ _ _ _ _ Hh) as (r & Hi & Hput). unfold receive_data. keep.
  set (rest := nfrags (receive_queue g) + nfrags (retransmit_queue g) + (r + k)).
  follow (add_packet_keeps _ rest); [by apply Forall_and|done|done|done| |].
  { eapply pool_ok_ext; [apply Hi|]. unfold socket_frags, rest. cbn. lia. }
  intros [reasm got] p (Ho' & Hn' & Hgot & Hp). keep. cbn [fst snd] in *.
  follow (queue_data_keeps h key k); [done| |].
  - apply Forall_and in Ho' as [? ?].
    apply Hput; [by split|by destruct Hh| |].
    { split; [done|]. unfold numbers_typed. cbn. split_and!; try done; try tauto.
      apply wrapping_max_range; [done|]. apply wrapping_add_range. lia. }
    eapply ip_ok_bufs; [exact Hi|].
    eapply pool_ok_ext; [exact Hp|]. unfold socket_frags, rest. cbn. lia.
  - intros g' s' Hg. by apply acknowledge_data_keeps.
Qed.

(** ** Acknowledgements, the window and the state *)

Lemma process_ack_keeps h key k g s ack :
  held h key k g s → is_u32 ack → keeps (process_ack g ack) s (λ g' s', held h key k g' s').
Proof.
  intros Hh Hack. unfold process_ack. case_match; [|by keep].
  destruct (held_wf _ _ _ _ _ Hh) as [Hwf Hr]. pose proof Hwf as [? Hrt ? ? (? & ? & ?)].
  destruct (held_change _ _ _ _ _ Hh) as (r & Hi & Hput). keep.
  set (rest := nfrags (receive_queue g) + ooo_frags (out_of_order (reassembler g)) + (r + k)).
  follow (trim_head_keeps _ rest); [done|apply Z.mod_pos_bound; lia| |].
  { eapply pool_ok_ext; [apply Hi|]. unfold socket_frags, rest. lia. }
  intros q p (Hq & _ & Hp). keep.
  assert (held h key k (g <| retransmit_queue := q |>) (update p s)) as Hh1.
  { apply (Hput (update p (ip s))); [by split|by destruct Hh|done|].
    eapply ip_ok_bufs; [exact Hi|]. eapply pool_ok_ext; [exact Hp|]. unfold socket_frags, rest. cbn. lia. }
  eapply (keeps_mono _ _ (λ g' s', held h key k g' s')).
  - case_match; [|by keep]. keep. follow cancel_pending_keeps; [exact Hh1|].
    intros _ s2 Hh2. keep. same_guard.
  - intros g' s' Hh'. keep. same_guard.
Qed.

Lemma update_window_keeps h key k g s seq ack win :
  held h key k g s → is_u32 seq → is_u32 ack → is_u16 win →
  keeps (update_window h g seq ack win) s (λ g' s', held h key k g' s').
Proof.
  intros Hh ? ? ?. unfold update_window, notify_all. case_match; keep; [|done].
  apply (held_notify _ _ _ _ _ (notified s ++ [h])) in Hh. same_guard.
Qed.

Lemma segment_arrives_keeps h key k g s o :
  held h key k g s → is_u16 (max_segment_size o) →
  keeps (segment_arrives g o) s (λ g' s', held h key k g' s').
Proof.
  intros Hh Ho. unfold segment_arrives.
  set (g1 := if negb (max_segment_size o =? 0) then g <| send_mss := max_segment_size o |> else g).
  assert (held h key k g1 s) as Hh1 by (unfold g1; case_match; [same_guard|done]).
  case_match; [|by keep]. keep. follow cancel_pending_keeps; [exact Hh1|].
  intros _ s2 Hh2. keep. same_guard.
Qed.

Lemma enter_time_wait_keeps h key k g s :
  held h key k g s →
  keeps (zoom (set_timer TIME_WAIT_TIMEOUT (TimeWaitTimeout h));; mret (set_state TimeWait g)) s
    (λ g' s', held h key k g' s').
Proof.
  intros Hh. apply keeps_bind. follow set_timer_keeps; [exact Hh|lia|done|].
  intros _ s2 [Hh2 _]. keep. same_guard.
Qed.

Lemma state_transition_keeps h key k g s fl seq ack win :
  held h key k g s → is_u32 seq → is_u32 ack → is_u16 win →
  keeps (state_transition h g fl seq ack win) s (λ g' s', held h key k g' s').
Proof.
  intros Hh Hseq Hack Hwin. pose proof (held_wf _ _ _ _ _ Hh) as [[? ? ? ? (? & ? & ?)] _].
  assert (∀ a b, is_u32 (u32_wrapping_add a b)) by (intros; apply wrapping_add_range; lia).
  unfold state_transition. destruct (state g); try by keep.
  - case_match; [|by keep]. unfold notify_all. keep.
    follow send_empty_keeps; [same_guard; split; cbn; intuition|done|]. intros _ s1 Hh1. keep.
    follow set_response_timer_keeps; [exact Hh1|]. intros g' s2 [Hh2 _]. keep. by apply held_notify.
  - case_match; unfold notify_all; keep; [|done].
    apply (held_notify _ _ _ _ _ (notified s ++ [h])) in Hh. same_guard.
  - keep. case_match; [same_guard|done].
  - case_match; [by apply enter_time_wait_keeps|]. case_match.
    + follow (request_keeps h key k); [same_guard|done|]. by intros g' s' [? _].
    + keep. case_match; [same_guard|done].
  - case_match; [|by keep]. keep. follow send_empty_keeps; [done|done|]. intros _ s1 Hh1. keep.
    follow set_response_timer_keeps; [exact Hh1|]. intros g' s2 [Hh2 _]. by apply enter_time_wait_keeps.
  - case_match; [by apply enter_time_wait_keeps|by keep].
  - keep. case_match; keep; [|done]. same_guard. split; cbn; intuition.
Qed.

(** ** Sending *)

Lemma resend_request_keeps h key k g s :
  held h key k g s → keeps (resend_request g h) s (λ g' s', held h key k g' s').
Proof.
  intros Hh. unfold resend_request.
  destruct (state g); try (by keep); follow request_keeps; try done; by intros ?? [? _].
Qed.

Lemma write_segment_keeps h key k g s data :
  held h key k g s → bytes_ok data →
  keeps (write_segment h g data) s (λ g' s', held h key k g' s').
Proof.
  intros Hh Hd. unfold write_segment. keep.
  destruct (held_change _ _ _ _ _ Hh) as (r & Hi & Hput). destruct (held_wf _ _ _ _ _ Hh).
  follow (append_from_slice_keeps _ (socket_frags g + (r + k))); [apply buf_ok_new|done|apply Hi|].
  intros b p (Hb & _ & Hp). apply keeps_bind. follow (socket_send_keeps h key k); [|done|done|].
  { apply (Hput (update p (ip s))); [done|by destruct Hh|done|]. eapply ip_ok_bufs; [exact Hi|].
    eapply pool_ok_ext; [exact Hp|]. lia. }
  intros _ s1 Hh1. keep. clear Hi Hput Hp p r.
  set (g1 := g <| send_next_seq ::= _ |>).
  assert (held h key k g1 s1) as Hh2.
  { same_guard. split; cbn; intuition. apply wrapping_add_range; lia. }
  destruct (held_wf _ _ _ _ _ Hh2) as [Hwf2 Hr2]. pose proof Hwf2 as [? Hrt ? ? ?].
  destruct (held_change _ _ _ _ _ Hh2) as (r & Hi & Hput).
  set (rest := nfrags (receive_queue g) + ooo_frags (out_of_order (reassembler g)) + (r + k)).
  follow (append_from_slice_keeps _ rest); [exact Hrt|done| |].
  { eapply pool_ok_ext; [apply Hi|]. unfold socket_frags, rest. cbn. lia. }
  intros q p' (Hq & _ & Hp').
  assert (held h key k (g1 <| retransmit_queue := q |>) (update p' s1)) as Hh3.
  { apply (Hput (update p' (ip s1))); [by split|by destruct Hh2|done|].
    eapply ip_ok_bufs; [exact Hi|]. eapply pool_ok_ext; [exact Hp'|]. unfold socket_frags, rest. cbn. lia. }
  case_match; [|by keep]. apply keeps_bind. follow set_timer_keeps; [exact Hh3|lia|done|].
  intros tid s4 [Hh4 ?]. keep. same_guard.
Qed.

Lemma write_loop_keeps fuel h key k g s data offset :
  held h key k g s → bytes_ok data →
  keeps (write_loop fuel h g data offset) s (λ r s', held h key k r.1 s').
Proof.
  revert g s offset. induction fuel as [|fuel IH]; intros g s offset Hh Hd; cbn [write_loop]; [keep|].
  case_match; [|by keep]. case_match; [by keep|]. keep.
  follow write_segment_keeps; [exact Hh|by eapply slice_bytes|]. intros g' s' Hh'. by apply IH.
Qed.

End Guard.
