(* ===== verification/TimerRound.v ===== *)
(** * The timers of tcp.rs in a round of the timer thread

    What each of the four closures does to the timers and to the other sockets,
    and when it returns: they add timers that have not expired, and cancel none
    but those they have just made. *)

From S2P Require Import Prelude Util Buf BufSpec Checksum Timer Netif Ip Reassembler Tcp.
From S2P Require Import TcpSpec TcpData TcpControl TcpKeeps.
From stdpp Require Import gmap.
Local Open Scope Z_scope.

Abbreviation timer_ids := (map (@id TimerAction)).

(** * Good rounds *)

(** The closure of the timer returns: its socket can send what it sends, and the
    response timer is the socket's own and not left over from a state in which
    its expiry is an error. *)
Definition fireable (l : list TCPSocketState) (t : Timer TimerAction) : Prop :=
  ∃ a g, closure t = Some a ∧ l !! timer_socket a = Some g ∧ can_send g ∧
  match a with
  | Retransmit _ => 0 ≤ send_mss g ≤ 2560 ∧ zlen (contents (retransmit_queue g)) < usize_size
  | ResponseTimeout _ => response_timer_id g = id t ∧ ¬ unexpected_timeout (state g)
  | DelayedAck _ | TimeWaitTimeout _ => True
  end.

(** A state in which the closures of all timers return, with enough ids left:
    a closure takes at most two. *)
Record round_ok (s : TcpState) (k : Z) : Prop := {
  round_tcp : tcp_ok s k;
  round_list : timers_ok (timers s);
  round_ids : NEXT_TIMER_ID (timers s) +
    2 * Z.of_nat (expired_count (current_time_ms (timers s)) (PENDING_TIMERS (timers s))) ≤ 2147483648;
  round_timers : Forall (fireable (sockets s)) (PENDING_TIMERS (timers s));
}.

(** * Single timers *)

Lemma set_timer_fresh (s : TimerState TimerAction) timeout c :
  timers_ok s → NEXT_TIMER_ID s < 2147483648 → current_time_ms s + timeout < u64_size →
  runs (set_timer timeout c) s (λ i s', i = NEXT_TIMER_ID s ∧ timers_ok s' ∧
    NEXT_TIMER_ID s' = NEXT_TIMER_ID s + 1 ∧ current_time_ms s' = current_time_ms s ∧
    PENDING_TIMERS s' = PENDING_TIMERS s ++
      [{| absolute_timeout_ms := current_time_ms s + timeout; closure := Some c; id := i |}]).
Proof.
  intros Hok Hn Ht. eapply runs_mono.
  { apply runs_and; [by apply set_timer_ok|by apply set_timer_runs]. }
  cbv beta. intros i s' [[Hok' Hi] (_ & _ & ->)]. split_and!; try done.
  pose proof (timers_next _ Hok). apply Z.mod_small. cbn. lia.
Qed.

Lemma cancel_absent (s : TimerState TimerAction) i :
  i ∉ timer_ids (PENDING_TIMERS s) → runs (cancel_timer i) s (λ _ s', s' = s).
Proof. intros Hi. unfold cancel_timer. run. apply find_timer_None in Hi. rewrite Hi. by run. Qed.

Lemma find_timer_app (l : list (Timer TimerAction)) t i :
  i ∉ timer_ids l → id t = i → find_timer (l ++ [t]) i = Some (length l).
Proof.
  intros Hi <-. induction l as [|u l IH]; cbn; [by rewrite Z.eqb_refl|].
  apply not_elem_of_cons in Hi as [Hu Hi]. by rewrite (proj2 (Z.eqb_neq _ _)), IH by done.
Qed.

Lemma cancel_last (s : TimerState TimerAction) l t i :
  PENDING_TIMERS s = l ++ [t] → i ∉ timer_ids l → id t = i →
  runs (cancel_timer i) s (λ _ s', s' = s <| PENDING_TIMERS := l |>).
Proof.
  intros Hl Hi Ht. unfold cancel_timer. run. rewrite Hl, find_timer_app by done. run.
  by rewrite swap_remove_last.
Qed.

Lemma timers_ok_init_of (s : TimerState TimerAction) l t :
  timers_ok s → PENDING_TIMERS s = l ++ [t] → timers_ok (s <| PENDING_TIMERS := l |>).
Proof.
  intros Hok Hl. apply timers_ok_sub; [done|]. exists t. rewrite Hl.
  apply Permutation_sym, Permutation_cons_append.
Qed.

(** * The response timer *)

Section Closures.
Context `{!Tun, !Random}.

(** The list is [l] and, perhaps, the timer [rid], which is not one of [l]. *)
Definition pending_with (t : TimerState TimerAction) (l : list (Timer TimerAction)) (rid : Z) : Prop :=
  rid ∉ timer_ids l ∧
  (PENDING_TIMERS t = l ∨ ∃ u, PENDING_TIMERS t = l ++ [u] ∧ id u = rid).

(** [t'] is [t] with other timers, all good, and at most [n] ids later. *)
Record timers_after (t t' : TimerState TimerAction) (n : Z) : Prop := {
  after_ok : timers_ok t';
  after_clock : current_time_ms t' = current_time_ms t;
  after_next : NEXT_TIMER_ID t ≤ NEXT_TIMER_ID t' ≤ NEXT_TIMER_ID t + n;
}.

Definition response_timer (t : TimerState TimerAction) (h : nat) (i : Z) : Timer TimerAction :=
  {| absolute_timeout_ms := current_time_ms t + RESPONSE_TIMEOUT;
     closure := Some (ResponseTimeout h); id := i |}.

Lemma timers_after_trans t1 t2 t3 n m :
  timers_after t1 t2 n → timers_after t2 t3 m → timers_after t1 t3 (n + m).
Proof. intros [? ? ?] [? ? ?]. split; [done|congruence|lia]. Qed.

Lemma cancel_response_runs s g l :
  timers_ok (timers s) → pending_with (timers s) l (response_timer_id g) →
  runs (if negb (response_timer_id g =? -1) then cancel_pending (response_timer_id g) else mret tt) s
    (λ _ s', ∃ t, s' = s <| timers := t |> ∧ timers_after (timers s) t 0 ∧ PENDING_TIMERS t = l).
Proof.
  intros Hok [Hi Hl]. pose proof (timers_next _ Hok).
  assert (PENDING_TIMERS (timers s) = l → ∃ t, s = s <| timers := t |> ∧
    timers_after (timers s) t 0 ∧ PENDING_TIMERS t = l) as Hsame.
  { intros Hp. exists (timers s). split; [by destruct s|]. split; [split; [done|done|lia]|done]. }
  destruct (Z.eqb_spec (response_timer_id g) (-1)) as [E|E]; cbn [negb].
  - run. apply Hsame. destruct Hl as [?|(u & Hl & Hu)]; [done|]. exfalso.
    pose proof (timers_ids _ Hok) as Hids. rewrite Hl in Hids.
    apply Forall_app in Hids as [_ Hids]. apply Forall_cons_iff in Hids as [? _]. lia.
  - unfold cancel_pending. run. destruct Hl as [Hl|(u & Hl & Hu)].
    + call cancel_absent; [cbn; by rewrite Hl|]. intros _ t ->. run.
      replace (update (timers s) s) with s by (by destruct s). by apply Hsame.
    + call cancel_last; [done..|]. intros _ t ->. run. eexists. split; [done|].
      split; [|done]. split; [by eapply timers_ok_init_of|done|cbn; lia].
Qed.

Lemma set_response_timer_fresh s g h l :
  timers_ok (timers s) → NEXT_TIMER_ID (timers s) < 2147483648 →
  0 ≤ current_time_ms (timers s) < 9223372036854775808 →
  pending_with (timers s) l (response_timer_id g) →
  runs (set_response_timer g h) s (λ g' s', ∃ i t,
    g' = g <| response_timer_id := i |> ∧ s' = s <| timers := t |> ∧ timers_after (timers s) t 1 ∧
    PENDING_TIMERS t = l ++ [response_timer (timers s) h i]).
Proof.
  intros Hok Hn Hc Hl. unfold set_response_timer. apply runs_bind.
  call cancel_response_runs; [done|done|]. intros _ s1 (t1 & -> & [Hok1 Hc1 Hn1] & Hl1). run.
  call set_timer_fresh; [done|cbn; lia|cbn; lia|]. intros i t2 (-> & Hok2 & Hn2 & Hc2 & Hl2). run.
  change (view _) with t1 in *.
  eexists _, t2. split_and!; [done|done|split; [done|congruence|lia]|].
  unfold response_timer. by rewrite Hl2, Hl1, Hc1.
Qed.

(** * What the closures do *)

(** The closure of a timer of the socket [h], [g] when it is locked and [g'] when
    it is unlocked, has changed no other socket, and has added the timers [new]
    to the list and changed nothing else of it. *)
Record ran (s s' : TcpState) (h : nat) (g g' : TCPSocketState)
    (new : list (Timer TimerAction)) : Prop := {
  ran_sockets : sockets s' = <[h:=g']> (sockets s);
  ran_timers : timers_after (timers s) (timers s') 2;
  ran_pending : PENDING_TIMERS (timers s') = PENDING_TIMERS (timers s) ++ new;
  ran_kept : send_mss g' = send_mss g ∧ retransmit_queue g' = retransmit_queue g ∧
             reassembler g' = reassembler g ∧ receive_next_seq g' = receive_next_seq g ∧
             (state g' = state g ∨ state g' = Closed);
  ran_new : Forall (λ t, expired (current_time_ms (timers s)) t = false) new;
}.

Lemma timers_after_refl t n : timers_ok t → 0 ≤ n → timers_after t t n.
Proof. intros. split; [done|done|lia]. Qed.

(** The closure that only looks. *)
Lemma ran_same s h g : sockets s !! h = Some g → timers_ok (timers s) → ran s s h g g [].
Proof.
  intros Hg Hok. split; [by rewrite list_insert_id|by apply timers_after_refl|by rewrite app_nil_r| |done].
  split_and!; try done. by left.
Qed.

(** Sending uses only the layer below. *)
Lemma send_packet_ip g b fl s :
  keeps (send_packet g b fl) s (λ _ s', ∃ i, s' = s <| ip := i |>).
Proof. unfold send_packet. keep. intros ? i _. by exists i. Qed.

Lemma retransmit_ran s h g :
  sockets s !! h = Some g → timers_ok (timers s) → NEXT_TIMER_ID (timers s) + 2 ≤ 2147483648 →
  0 ≤ current_time_ms (timers s) < 9223372036854775808 →
  keeps (retransmit h) s (λ _ s', ∃ g' new, ran s s' h g g' new ∧
    response_timer_id g' = response_timer_id g ∧
    Forall (λ t, closure t = Some (Retransmit h)) new).
Proof.
  intros Hg Hok Hn Hc. unfold retransmit. apply keeps_bind, keeps_runs.
  eapply runs_eq; [by apply lock_eq|]. cbv beta. case_match.
  { keep. exists g, []. by split; [apply ran_same|]. }
  keep. case_match.
  2: { keep. exists g, []. split; [|done]. by destruct (ran_same s h g Hg Hok). }
  apply keeps_bind, keeps_zoom. intros a b _. apply keeps_bind.
  follow send_packet_ip. intros _ s2 [i ->]. apply keeps_bind, keeps_zoom, keeps_runs.
  call set_timer_fresh; [done|cbn; lia|cbn; lia|]. intros j t (-> & Hok' & Hn' & Hc' & Hp').
  cbn in *. unfold unlock. keep. eexists _, _. split.
  - split; [reflexivity|split; [done|done|cbn; lia]|exact Hp'|by split_and!; try left|].
    constructor; [|done]. apply Z.leb_gt. cbn. lia.
  - split; [done|by constructor].
Qed.

Lemma delayed_ack_ran s h g :
  sockets s !! h = Some g → timers_ok (timers s) →
  keeps (delayed_ack h) s (λ _ s', ∃ g', ran s s' h g g' [] ∧
    response_timer_id g' = response_timer_id g).
Proof.
  intros Hg Hok. unfold delayed_ack. apply keeps_bind, keeps_runs.
  eapply runs_eq; [by apply lock_eq|]. cbv beta. case_match.
  { keep. exists g. split; [by apply ran_same|done]. }
  apply keeps_bind. follow send_packet_ip. intros _ s2 [i ->]. unfold unlock. keep.
  exists (g <| delayed_ack_timer_id := -1 |> <| num_delayed_acks := 0 |>). split; [|done].
  split; [done|by apply timers_after_refl|by rewrite app_nil_r| |done].
  split_and!; try done. by left.
Qed.

Lemma time_wait_timeout_ran s h g :
  sockets s !! h = Some g → timers_ok (timers s) →
  keeps (time_wait_timeout h) s (λ _ s', ∃ g', ran s s' h g g' [] ∧
    response_timer_id g' = response_timer_id g).
Proof.
  intros Hg Hok. unfold time_wait_timeout, unlock, port_map_remove. apply keeps_bind, keeps_runs.
  eapply runs_eq; [by apply lock_eq|]. cbv beta. keep.
  exists (set_state Closed g). split; [|done].
  split; [done|by apply timers_after_refl|by rewrite app_nil_r| |done].
  split_and!; try done. by right.
Qed.

Lemma pending_with_absent t rid :
  rid ∉ timer_ids (PENDING_TIMERS t) → pending_with t (PENDING_TIMERS t) rid.
Proof. intros. split; [done|by left]. Qed.

Lemma pending_with_last t l rid :
  timers_ok t → PENDING_TIMERS t = l ++ [rid] → pending_with t l (id rid).
Proof.
  intros Hok Hl. split; [|eauto]. pose proof (timers_nodup _ Hok) as Hnd.
  rewrite Hl, map_app in Hnd. apply NoDup_app in Hnd as (_ & Hd & _).
  intros Hin. apply (Hd _ Hin). by apply list_elem_of_singleton.
Qed.

(** After the request is repeated the list has at most the socket's new response
    timer besides the old list. *)
Lemma resend_request_ran s h g :
  timers_ok (timers s) → NEXT_TIMER_ID (timers s) < 2147483648 →
  0 ≤ current_time_ms (timers s) < 9223372036854775808 →
  response_timer_id g ∉ timer_ids (PENDING_TIMERS (timers s)) →
  keeps (resend_request g h) s (λ g' s', ∃ i j t,
    g' = g <| response_timer_id := i |> ∧ s' = s <| ip := j |> <| timers := t |> ∧
    timers_after (timers s) t 1 ∧ pending_with t (PENDING_TIMERS (timers s)) i).
Proof.
  intros Hok Hn Hc Hr.
  assert (keeps (mret g) s (λ g' s', ∃ i j t,
    g' = g <| response_timer_id := i |> ∧ s' = s <| ip := j |> <| timers := t |> ∧
    timers_after (timers s) t 1 ∧ pending_with t (PENDING_TIMERS (timers s)) i)) as Hquiet.
  { keep. exists (response_timer_id g), (ip s), (timers s).
    split_and!; [by destruct g|by destruct s|by apply timers_after_refl|by apply pending_with_absent]. }
  assert (∀ fl, keeps (send_packet g NetBuffer_new fl;; set_response_timer g h) s (λ g' s', ∃ i j t,
    g' = g <| response_timer_id := i |> ∧ s' = s <| ip := j |> <| timers := t |> ∧
    timers_after (timers s) t 1 ∧ pending_with t (PENDING_TIMERS (timers s)) i)) as Hreq.
  { intros fl. apply keeps_bind. follow send_packet_ip. intros _ s1 [j ->]. apply keeps_runs.
    call (set_response_timer_fresh _ g h (PENDING_TIMERS (timers s)));
      [done..|by apply pending_with_absent|].
    intros g' s' (i & t & -> & -> & Ht & Hp). exists i, j, t. split_and!; try done.
    by apply (pending_with_last _ _ _ (after_ok _ _ _ Ht) Hp). }
  unfold resend_request. destruct (state g); (apply Hquiet || apply Hreq || by keep).
Qed.

Lemma response_timeout_ran s h g :
  sockets s !! h = Some g → timers_ok (timers s) → NEXT_TIMER_ID (timers s) + 2 ≤ 2147483648 →
  0 ≤ current_time_ms (timers s) < 9223372036854775808 →
  response_timer_id g ∉ timer_ids (PENDING_TIMERS (timers s)) →
  keeps (response_timeout h) s (λ _ s', ∃ g' new, ran s s' h g g' new ∧
    Forall (λ t, closure t = Some (ResponseTimeout h) ∧ id t = response_timer_id g' ∧
                 state g' = state g) new).
Proof.
  intros Hg Hok Hn Hc Hr. unfold response_timeout. apply keeps_bind, keeps_runs.
  eapply runs_eq; [by apply lock_eq|]. cbv beta. unfold unlock, notify_all. case_match.
  { keep. exists (set_state Closed g), []. split; [|done].
    split; [done|by apply timers_after_refl|by rewrite app_nil_r| |done].
    split_and!; try done. by right. }
  apply keeps_bind. follow resend_request_ran; [done|lia|done|done|].
  intros g1 s1 (i & j & t & -> & -> & Ht & Hl). apply keeps_bind, keeps_runs.
  call (set_response_timer_fresh _ _ h (PENDING_TIMERS (timers s))); cbn;
    [apply Ht|destruct Ht; lia|by rewrite (after_clock _ _ _ Ht)|done|].
  intros g2 s2 (i2 & t2 & -> & -> & Ht2 & Hp). keep. cbn in *.
  eexists _, _. split.
  - split; [reflexivity|exact (timers_after_trans _ _ _ _ _ Ht Ht2)|exact Hp|by split_and!; try left|].
    constructor; [|done]. apply Z.leb_gt. cbn. rewrite (after_clock _ _ _ Ht). lia.
  - by constructor.
Qed.

End Closures.

(** * The closures return *)

Section Returns.
Context `{!Tun, !TunOk, !Random}.

Lemma closed_put_back s k h g :
  tcp_ok s k → sockets s !! h = Some g → tcp_ok (put_back s h (set_state Closed g)) k.
Proof.
  intros Hok Hg. destruct (locked_ok _ _ _ _ Hok Hg) as [Hwf Hip].
  eapply (unlocked_ok s s k k h g); [done|done|done|done|by apply set_state_wf|exact Hip].
Qed.

Lemma retransmit_returns s k h g :
  tcp_ok s k → sockets s !! h = Some g → can_send g → 0 ≤ send_mss g ≤ 2560 →
  zlen (contents (retransmit_queue g)) < usize_size →
  runs (retransmit h) s (λ _ s', tcp_ok s' k).
Proof.
  intros Hok Hg Hcs Hm Hl. destruct (decide (state g = Closed)) as [E|E].
  - unfold retransmit. eapply lock_runs; [done|]. unfold is_state.
    rewrite bool_decide_eq_true_2 by done. by run.
  - destruct (decide (contents (retransmit_queue g) = [])) as [E2|E2].
    + unfold retransmit. eapply lock_runs; [done|]. unfold is_state.
      rewrite bool_decide_eq_false_2 by done. run.
      destruct (locked_ok _ _ _ _ Hok Hg) as [[_ Hrt _ _ _] _].
      rewrite (proj2 (is_empty_spec _ Hrt)) by done.
      cbn [negb]. run. destruct Hok as [[[Hp ? ?] ?] ? ?]. split; [split; [split|]|..]; try done.
      by apply pool_ok_retransmitted.
    + call retransmit_runs; [done..|]. by intros _ s' (? & ? & _ & ? & _).
Qed.

Lemma delayed_ack_returns s k h g :
  tcp_ok s k → sockets s !! h = Some g → can_send g → runs (delayed_ack h) s (λ _ s', tcp_ok s' k).
Proof.
  intros Hok Hg Hcs. destruct (locked_ok _ _ _ _ Hok Hg) as [Hwf Hip].
  unfold delayed_ack. eapply lock_runs; [done|]. case_match; [by run|].
  apply runs_bind. call send_empty_runs; [done..|exact Hip|]. intros _ s1 (i & -> & Hi & Hl).
  unfold unlock. run. eapply (unlocked_ok s (s <| ip := i |>) k k h g); try done.
  by destruct Hwf.
Qed.

Lemma response_timeout_returns s k h g :
  tcp_ok s k → sockets s !! h = Some g → can_send g → ¬ unexpected_timeout (state g) →
  runs (response_timeout h) s (λ _ s', tcp_ok s' k).
Proof.
  intros Hok Hg Hcs Hst. destruct (decide (request_retry_count g < MAX_RETRIES)) as [Hr|Hr].
  - call response_timeout_runs; [done..|]. by intros _ s' (? & ? & ? & _ & ? & _).
  - unfold response_timeout. eapply lock_runs; [done|]. rewrite (proj2 (Z.leb_le _ _)) by lia.
    unfold unlock, notify_all. run. by destruct (closed_put_back s k h g Hok Hg).
Qed.

Lemma time_wait_timeout_returns s k h g :
  tcp_ok s k → sockets s !! h = Some g → runs (time_wait_timeout h) s (λ _ s', tcp_ok s' k).
Proof.
  intros Hok Hg. unfold time_wait_timeout. eapply lock_runs; [done|]. unfold unlock, port_map_remove.
  run. by destruct (closed_put_back s k h g Hok Hg).
Qed.

(** ** Together *)

Lemma run_timer_returns s k t a :
  tcp_ok s k → closure t = Some a → fireable (sockets s) t → runs (run_timer a) s (λ _ s', tcp_ok s' k).
Proof.
  intros Hok Ha (a' & g & Ha' & Hg & Hcs & Hf). rewrite Ha in Ha'. injection Ha' as <-.
  destruct a; cbn in *.
  - destruct Hf. by eapply retransmit_returns.
  - by eapply delayed_ack_returns.
  - destruct Hf. by eapply response_timeout_returns.
  - by eapply time_wait_timeout_returns.
Qed.

(** The closure [a] of a socket, [g'] afterwards, adds only timers for itself. *)
Definition again (a : TimerAction) (g g' : TCPSocketState) (u : Timer TimerAction) : Prop :=
  closure u = Some a ∧
  match a with
  | ResponseTimeout _ => id u = response_timer_id g' ∧ state g' = state g
  | _ => True
  end.

Lemma run_timer_ran s t a g :
  closure t = Some a → fireable (sockets s) t → sockets s !! timer_socket a = Some g →
  timers_ok (timers s) → NEXT_TIMER_ID (timers s) + 2 ≤ 2147483648 →
  0 ≤ current_time_ms (timers s) < 9223372036854775808 →
  id t ∉ timer_ids (PENDING_TIMERS (timers s)) →
  keeps (run_timer a) s (λ _ s', ∃ g' new, ran s s' (timer_socket a) g g' new ∧
    (response_timer_id g' = response_timer_id g ∨ a = ResponseTimeout (timer_socket a)) ∧
    Forall (again a g g') new).
Proof.
  intros Ha (a' & g0 & Ha' & Hg' & _ & Hf) Hg Hok Hn Hc Hid. rewrite Ha in Ha'. injection Ha' as <-.
  rewrite Hg in Hg'. injection Hg' as <-. destruct a; cbn in *.
  - follow retransmit_ran; [done..|]. intros _ s' (g' & new & ? & ? & Hnew). exists g', new.
    split_and!; [done|by left|]. eapply Forall_impl; [exact Hnew|]. by split.
  - follow delayed_ack_ran; [done..|]. intros _ s' (g' & ? & ?). exists g', []. eauto.
  - destruct Hf as [Hr Hst]. follow response_timeout_ran; [done|done|done|done|by rewrite Hr|].
    intros _ s' (g' & new & ? & Hnew). exists g', new. split_and!; [done|by right|].
    eapply Forall_impl; [exact Hnew|]. by intros u (? & ? & ?).
  - follow time_wait_timeout_ran; [done..|]. intros _ s' (g' & ? & ?). exists g', []. eauto.
Qed.

Lemma ran_can_send s s' h g g' new : socket_wf g → can_send g → ran s s' h g g' new → can_send g'.
Proof.
  intros [_ _ _ _ (_ & _ & Hx)] Hcs [_ _ _ (_ & _ & Hr & Hn & Hst) _].
  unfold can_send in *. rewrite Hr. destruct Hst as [E|E].
  - assert (acks_fin g' = acks_fin g) as -> by (unfold acks_fin, is_state; by rewrite E, Hr, Hn). done.
  - assert (acks_fin g' = false) as -> by (unfold acks_fin, is_state; by rewrite E).
    unfold in_range in Hx. lia.
Qed.

(** The other timers fire as before: of the response timer, a socket has one. *)
Lemma ran_fireable s s' h g g' new u :
  socket_wf g → sockets s !! h = Some g → ran s s' h g g' new → fireable (sockets s) u →
  (closure u = Some (ResponseTimeout h) → response_timer_id g' = response_timer_id g) →
  fireable (sockets s') u.
Proof.
  intros Hwf Hg Hran (a & ga & Ha & Hga & Hcs & Hf) Hresp. exists a.
  destruct (decide (timer_socket a = h)) as [E|E].
  - rewrite E in Hga. simplify_eq. exists g'. pose proof (ran_can_send _ _ _ _ _ _ Hwf Hcs Hran).
    destruct Hran as [Hs _ _ (Hm & Hq & _ & _ & Hst) _].
    split; [done|]. split; [rewrite Hs; apply list_lookup_insert_eq; by eapply lookup_lt_Some|].
    split; [done|]. destruct a; cbn in *; [by rewrite Hm, Hq|done| |done].
    rewrite Hresp by done. destruct Hf as [? Hu]. split; [done|].
    destruct Hst as [->| ->]; [done|]. unfold unexpected_timeout. naive_solver.
  - exists ga. split; [done|]. split; [|done]. rewrite (ran_sockets _ _ _ _ _ _ Hran).
    by rewrite list_lookup_insert_ne by congruence.
Qed.

Lemma again_fireable s s' t a g g' new u :
  socket_wf g → sockets s !! timer_socket a = Some g → ran s s' (timer_socket a) g g' new →
  closure t = Some a → fireable (sockets s) t → again a g g' u → fireable (sockets s') u.
Proof.
  intros Hwf Hg Hran Ha (a' & g0 & Ha' & Hg0 & Hcs & Hf) [Hu Hag].
  rewrite Ha in Ha'. injection Ha' as <-. rewrite Hg in Hg0. injection Hg0 as <-. exists a, g'. pose proof (ran_can_send _ _ _ _ _ _ Hwf Hcs Hran).
  destruct Hran as [Hs _ _ (Hm & Hq & _ & _ & Hst) _].
  split; [done|]. split; [rewrite Hs; apply list_lookup_insert_eq; by eapply lookup_lt_Some|].
  split; [done|]. destruct a; cbn in *; [by rewrite Hm, Hq|done| |done].
  destruct Hag as [-> ->]. by destruct Hf.
Qed.

(** * The round *)

Lemma runs_keeps {S A} (m : ST S A) s (P Q : A → S → Prop) :
  runs m s P → keeps m s Q → runs m s (λ a s', P a s' ∧ Q a s').
Proof.
  intros Hp Hq. apply runs_Ok in Hp as (a & s' & E & Hp). eapply runs_eq; [exact E|].
  by split; [|apply Hq].
Qed.

Lemma expired_count_app now (l new : list (Timer TimerAction)) :
  Forall (λ t, expired now t = false) new → expired_count now (l ++ new) = expired_count now l.
Proof.
  intros Hnew. unfold expired_count. rewrite filter_app.
  assert (filter (expired now) new = []) as ->; [|by rewrite app_nil_r].
  induction Hnew as [|u new Hu _ IH]; [done|]. rewrite filter_cons_False; [done|].
  rewrite Hu. by intros [].
Qed.

(** Taking a timer out leaves the others as good, and its own id unused. *)
Lemma round_taken s k i t :
  round_ok s k → PENDING_TIMERS (timers s) !! i = Some t →
  expired (current_time_ms (timers s)) t = true →
  let s1 := update ((view s) <| PENDING_TIMERS := delete i (PENDING_TIMERS (view s)) |>) s in
  tcp_ok s1 k ∧ timers_ok (timers s1) ∧ id t ∉ timer_ids (PENDING_TIMERS (timers s1)) ∧
  fireable (sockets s1) t ∧ Forall (fireable (sockets s1)) (PENDING_TIMERS (timers s1)) ∧
  NEXT_TIMER_ID (timers s1) + 2 + 2 * Z.of_nat
    (expired_count (current_time_ms (timers s)) (PENDING_TIMERS (timers s1))) ≤ 2147483648.
Proof.
  intros [Hok Hl Hid Hf] Hi He s1. pose proof (expired_count_delete _ _ _ _ Hi He) as Hc.
  pose proof (delete_Permutation _ _ _ Hi) as Hp.
  assert (timers_ok (timers s1)) as Hl1 by (eapply timers_ok_sub; [exact Hl|by exists t]).
  split_and!; [by destruct Hok|done| | | |].
  - pose proof (timers_nodup _ Hl) as Hnd. pose proof (Permutation_map (@id TimerAction) Hp) as Hp'.
    rewrite Hp' in Hnd. by apply NoDup_cons in Hnd as [? _].
  - by eapply (Forall_lookup_1 _ _ _ _ Hf).
  - by apply Forall_delete.
  - change (NEXT_TIMER_ID (timers s) + 2 + 2 * Z.of_nat (expired_count (current_time_ms (timers s))
      (delete i (PENDING_TIMERS (timers s)))) ≤ 2147483648). lia.
Qed.

(** What the closure of a socket's timer, [t], leaves when it returns. *)
Lemma ran_round s s' k t a g g' new :
  tcp_ok s k → closure t = Some a → sockets s !! timer_socket a = Some g →
  fireable (sockets s) t → id t ∉ timer_ids (PENDING_TIMERS (timers s)) →
  Forall (fireable (sockets s)) (PENDING_TIMERS (timers s)) →
  ran s s' (timer_socket a) g g' new →
  (response_timer_id g' = response_timer_id g ∨ a = ResponseTimeout (timer_socket a)) →
  Forall (again a g g') new → Forall (fireable (sockets s')) (PENDING_TIMERS (timers s')).
Proof.
  intros Hok Ha Hg Ht Hid Hf Hran Hr Hnew.
  pose proof (proj1 (locked_ok _ _ _ _ Hok Hg)) as Hwf.
  rewrite (ran_pending _ _ _ _ _ _ Hran). apply Forall_app. split.
  - rewrite Forall_forall in Hf |- *. intros u Hu. eapply ran_fireable; [done..|by apply Hf|].
    intros Hcu. destruct Hr as [?|Hr]; [done|]. exfalso. apply Hid.
    destruct (Hf u Hu) as (a1 & g1 & Ha1 & Hg1 & _ & Hm1). rewrite Hcu in Ha1. injection Ha1 as <-.
    destruct Ht as (a2 & g2 & Ha2 & Hg2 & _ & Hm2). rewrite Ha in Ha2. injection Ha2 as <-.
    rewrite Hr in Hm2. cbn in Hg1. simplify_eq. destruct Hm1 as [Hm1 _], Hm2 as [Hm2 _].
    rewrite <-Hm2, Hm1. by apply list_elem_of_fmap_2.
  - eapply Forall_impl; [exact Hnew|]. intros u. by apply (again_fireable s s' t a g g' new u).
Qed.

Lemma round_step s k i t :
  round_ok s k → PENDING_TIMERS (timers s) !! i = Some t →
  expired (current_time_ms (timers s)) t = true →
  ∃ a, closure t = Some a ∧
  runs (run_timer a)
    (update ((view s) <| PENDING_TIMERS := delete i (PENDING_TIMERS (view s)) |>) s) (λ _ s',
    (round_ok s' k ∧ current_time_ms (timers s') = current_time_ms (timers s)) ∧
    ∃ new, PENDING_TIMERS (timers s') = delete i (PENDING_TIMERS (timers s)) ++ new ∧
           Forall (λ t, expired (current_time_ms (timers s)) t = false) new).
Proof.
  intros Hs Hi He. pose proof (round_taken s k i t Hs Hi He) as (Hok & Hl & Hid & Ht & Hf & Hn).
  pose proof Ht as (a & g & Ha & Hg & _). exists a. split; [done|].
  set (s1 := update _ s) in *.
  eapply runs_mono; [apply runs_keeps; [by eapply run_timer_returns|eapply run_timer_ran; try done]|].
  { lia. } { apply Hok. }
  cbv beta. intros _ s' [Hok' (g' & new & Hran & Hr & Hag)].
  pose proof (ran_round s1 s' k t a g g' new Hok Ha Hg Ht Hid Hf Hran Hr Hag) as Hf'.
  destruct Hran as [_ [Hl' Hc' Hn'] Hp _ Hnew]. split; [split; [split|]|]; try done.
  - rewrite Hp, Hc', expired_count_app by done. change (current_time_ms (timers s1)) with (current_time_ms (timers s)). lia.
  - by exists new.
Qed.

End Returns.
