(* ===== verification/TcpInv.v ===== *)
(** * tcp.rs keeps its invariant

    Every call an application makes, every segment, whatever it holds, and every
    timer leaves the sockets, the port map and the timers in a good state, with
    every fragment accounted for. *)

From S2P Require Import Prelude Util Buf BufSpec Checksum Timer Netif Ip Reassembler TcpOptions Tcp.
From S2P Require Import TcpSpec TcpData BufKeeps NetKeeps TcpKeeps.
From stdpp Require Import gmap.
Local Open Scope Z_scope.

(** * What a segment can say *)

Lemma get_be32_u32 l v : bytes_ok l → get_be32 l = Ok v → is_u32 v.
Proof.
  intros Hl E. destruct l as [|b0 [|b1 [|b2 [|b3 l]]]]; try discriminate E.
  unfold bytes_ok in Hl. rewrite !Forall_cons_iff in Hl. destruct_and! Hl.
  rewrite get_be32_cons in E by done. injection E as <-. unfold in_range in *. lia.
Qed.

Record header_ok (h : TCPHeader) : Prop := {
  header_ports : is_u16 (h_source_port h) ∧ is_u16 (h_dest_port h);
  header_seqs : is_u32 (h_seq_num h) ∧ is_u32 (h_ack_num h) ∧ is_u16 (h_window h);
  header_size : 0 ≤ h_header_length h;
}.

Lemma decode_header_keeps l h : bytes_ok l → decode_header l = Ok h → header_ok h.
Proof.
  intros Hl E. unfold decode_header in E.
  repeat match goal with E : _ ≫= _ = Ok _ |- _ => apply outcome_bind_Ok in E as (? & ? & E) end.
  injection E as <-. split; cbn.
  - split; (eapply get_be16_u16; [|eassumption]; by eapply slice_bytes).
  - split_and!; [..|eapply get_be16_u16; [|eassumption]; by eapply slice_bytes];
      (eapply get_be32_u32; [|eassumption]; by eapply slice_bytes).
  - apply Z.mul_nonneg_nonneg; [|lia]. apply Z.shiftr_nonneg.
    match goal with E : index l 12 = Ok _ |- _ => by apply index_byte in E as [? _] end.
Qed.

Lemma parse_loop_keeps fuel l i o o' :
  bytes_ok l → is_u16 (max_segment_size o) → parse_loop fuel l i o = Ok o' → is_u16 (max_segment_size o').
Proof.
  intros Hl. revert i o. induction fuel as [|fuel IH]; intros i o Ho E; cbn [parse_loop] in E; [done|].
  case_match; [|by injection E as <-]. apply outcome_bind_Ok in E as (ty & _ & E).
  case_match; [by injection E as <-|]. case_match; [by eapply IH|].
  apply outcome_bind_Ok in E as (n & _ & E). apply outcome_bind_Ok in E as (o1 & E1 & E).
  eapply IH; [|exact E]. case_match; [|by injection E1 as <-].
  apply outcome_bind_Ok in E1 as (f & Ef & E1). apply outcome_bind_Ok in E1 as (mss & Em & E1).
  injection E1 as <-. eapply get_be16_u16; [|exact Em]. by eapply slice_bytes.
Qed.

(** * Whole operations *)

Lemma lock_held {A} h k s (m : TCPSocketState → ST TcpState A) Q :
  tcp_inv k s →
  (∀ g, sockets s !! h = Some g → held h (endpoints g) k g s → keeps (m g) s Q) →
  keeps (lock h ≫= m) s Q.
Proof.
  intros Hs Hm. unfold lock. keep. apply unwrap_Ok in E. apply Hm; [done|]. by apply held_lock.
Qed.

Lemma inv_notify k s l : tcp_inv k s → tcp_inv k (s <| notified := l |>).
Proof. intros [[? ? ?] ? ? ?]. by split; [split|..]. Qed.

Lemma inv_random k s n : tcp_inv k s → tcp_inv k (s <| random_drawn := n |>).
Proof. intros [[? ? ?] ? ? ?]. by split; [split|..]. Qed.

Lemma inv_port_insert k s key h :
  tcp_inv k s → endpoints <$> sockets s !! h = Some key →
  tcp_inv k (s <| PORT_MAP ::= λ m, <[key := h]> m |>).
Proof.
  intros [[? ? ?] Hp ? ?] Hh. split; [by split| |done|done].
  intros key' h' Hl. change (<[key := h]> (PORT_MAP s) !! key' = Some h') in Hl.
  apply lookup_insert_Some in Hl as [[<- <-]|[_ Hl]]; [done|by apply Hp].
Qed.

Lemma inv_port_remove k s key : tcp_inv k s → tcp_inv k (s <| PORT_MAP ::= delete key |>).
Proof.
  intros [[? ? ?] Hp ? ?]. split; [by split| |done|done].
  intros key' h' Hl. change (delete key (PORT_MAP s) !! key' = Some h') in Hl.
  apply lookup_delete_Some in Hl as [_ Hl]. by apply Hp.
Qed.

Lemma timer_ok_mono n m t : (n ≤ m)%nat → timer_ok n t → timer_ok m t.
Proof. intros ? [(a & ? & ?) ?]. split; [|done]. exists a. split; [done|lia]. Qed.

Lemma fresh_numbers a rp lp iss : numbers_typed (fresh_socket a rp lp iss).
Proof. split_and!; try done; try constructor. Qed.

Lemma socket_refs_mono n m g : (n ≤ m)%nat → socket_refs n g → socket_refs m g.
Proof. intros ? [? ?]. split; [|done]. eapply Forall_impl; [done|]. cbn. lia. Qed.

Lemma inv_new_socket k s g :
  tcp_inv k s → socket_wf g → socket_frags g = 0 → socket_refs (length (sockets s)) g →
  tcp_inv k (s <| sockets := sockets s ++ [g] |>).
Proof.
  intros [Hok Hp Ht Hr] Hwf Hf Hg. split; [by apply new_socket_ok|..]; cbn.
  - intros key h Hl. specialize (Hp key h Hl). destruct (sockets s !! h) as [g'|] eqn:E; [|done].
    by rewrite (lookup_app_l_Some _ _ _ _ E).
  - destruct Ht as [? Ht]. split; [done|]. eapply Forall_impl; [exact Ht|]. intros t. apply timer_ok_mono. rewrite length_app. lia.
  - apply Forall_app. split; [|constructor; [|done]].
    + eapply Forall_impl; [exact Hr|]. intros g'. apply socket_refs_mono. rewrite length_app. lia.
    + eapply socket_refs_mono; [|exact Hg]. rewrite length_app. lia.
Qed.

Section Operations.
Context `{!Tun, !Random}.

Lemma drop_packet_inv k s b :
  buf_ok b → tcp_inv (nfrags b + k) s → keeps (zoom (drop_buffer b)) s (λ _ s', tcp_inv k s').
Proof.
  intros Hb Hs. keep. pose proof Hs as [[[[Hp _ _] _] _ _] _ _ _].
  follow (drop_buffer_keeps _ (sockets_frags (sockets s) + k)); [done| |].
  { eapply pool_ok_ext; [exact Hp|]. lia. }
  intros _ p Hp'. destruct Hs as [[Hi ? ?] ? ? ?]. split; [split|..]; try done.
  by eapply ip_ok_bufs.
Qed.

(** ** Timers *)

Lemma retransmit_keeps h k s : tcp_inv k s → keeps (retransmit h) s (λ _ s', tcp_inv k s').
Proof.
  intros Hs. unfold retransmit. apply (lock_held _ k); [done|]. intros g Hg Hh.
  case_match; [by keep|]. keep. cbv beta.
  set (s1 := update _ s). assert (held h (endpoints g) k g s1) as Hh1.
  { destruct (held_change _ _ _ _ _ Hh) as (r & Hi & Hput). destruct (held_wf _ _ _ _ _ Hh).
    apply (Hput (update _ (ip s))); try done. eapply ip_ok_bufs; [exact Hi|].
    apply pool_ok_retransmitted, Hi. }
  assert (sockets s1 !! h = Some g) as Hg1 by done. clearbody s1.
  case_match; [|by keep; apply (held_same _ _ _ _ _ Hh1)].
  destruct (held_change _ _ _ _ _ Hh1) as (r & Hi & Hput). destruct (held_wf _ _ _ _ _ Hh1) as [Hwf Hr].
  keep. follow (append_from_buffer_keeps _ (socket_frags g + (r + k)));
    [by destruct Hwf|by destruct Hr as [_ [[[] _] _]]|apply buf_ok_new|apply Hi|].
  intros b p [Hb Hp]. apply keeps_bind. follow (socket_send_keeps h (endpoints g) k); [|done|done|].
  { apply (Hput (update p (ip s1))); [done|done|done|]. eapply ip_ok_bufs; [exact Hi|].
    eapply pool_ok_ext; [exact Hp|]. lia. }
  intros _ s2 Hh2. apply keeps_bind. follow set_timer_keeps; [exact Hh2|lia|done|].
  intros i s3 [Hh3 ?]. unfold unlock. keep. apply (held_unlock _ (endpoints g)). same_guard.
Qed.

Lemma delayed_ack_keeps h k s : tcp_inv k s → keeps (delayed_ack h) s (λ _ s', tcp_inv k s').
Proof.
  intros Hs. unfold delayed_ack, unlock. apply (lock_held _ k); [done|]. intros g _ Hh.
  case_match; [by keep|]. keep. follow send_empty_keeps; [done|done|]. intros _ s1 Hh1. keep.
  apply (held_unlock _ (endpoints g)). same_guard.
Qed.

Lemma response_timeout_keeps h k s : tcp_inv k s → keeps (response_timeout h) s (λ _ s', tcp_inv k s').
Proof.
  intros Hs. unfold response_timeout, unlock, notify_all. apply (lock_held _ k); [done|]. intros g _ Hh.
  case_match; keep.
  - apply inv_notify, (held_unlock _ (endpoints g)). same_guard.
  - follow resend_request_keeps; [exact Hh|]. intros g1 s1 Hh1. keep.
    follow set_response_timer_keeps; [exact Hh1|]. intros g2 s2 [Hh2 _]. keep.
    by apply (held_unlock _ (endpoints g)).
Qed.

Lemma time_wait_timeout_keeps h k s : tcp_inv k s → keeps (time_wait_timeout h) s (λ _ s', tcp_inv k s').
Proof.
  intros Hs. unfold time_wait_timeout, unlock, port_map_remove. apply (lock_held _ k); [done|].
  intros g _ Hh. keep. apply inv_port_remove, (held_unlock _ (endpoints g)). same_guard.
Qed.

Lemma run_timer_keeps a k s : tcp_inv k s → keeps (run_timer a) s (λ _ s', tcp_inv k s').
Proof.
  destruct a; [apply retransmit_keeps|apply delayed_ack_keeps|apply response_timeout_keeps|
               apply time_wait_timeout_keeps].
Qed.

(** ** The interface to applications *)

Context `{!RandomOk}.

Lemma find_ephemeral_port_keeps fuel k s a rp :
  tcp_inv k s → keeps (find_ephemeral_port fuel a rp) s (λ lp s', tcp_inv k s' ∧ is_u16 lp).
Proof.
  revert s. induction fuel as [|fuel IH]; intros s Hs; cbn [find_ephemeral_port]; keep.
  apply (inv_random _ _ (S (random_drawn s))) in Hs. case_match; [by apply IH|].
  keep. split; [done|]. pose proof (Z.mod_pos_bound (random_u16 (random_drawn s)) 16383 ltac:(lia)).
  unfold in_range. change (65535 - 49152) with 16383. lia.
Qed.

(** A new socket in the table. *)
Lemma new_socket_keeps {A} k s a rp lp (f : TCPSocketState → TCPSocketState)
    (m : SocketReference → ST TcpState A) Q :
  tcp_inv k s → IPAddr_ok a → is_u16 rp → is_u16 lp →
  (f = set_state Listen ∨ f = λ g, g) →
  (∀ s', tcp_inv k s' → endpoints <$> sockets s' !! length (sockets s) = Some (a, rp, lp) →
     keeps (m (length (sockets s))) s' Q) →
  keeps (st ← TCPSocketState_new a rp lp; new_socket (f st) ≫= m) s Q.
Proof.
  intros Hs Ha Hrp Hlp Hf Hm. unfold TCPSocketState_new, new_socket. keep.
  change {| remote_ip := _ |} with (fresh_socket a rp lp (random_u32 (random_drawn s))).
  set (g := f _). assert (socket_wf g ∧ socket_frags g = 0 ∧ socket_refs (length (sockets s)) g ∧
    endpoints g = (a, rp, lp)) as (Hwf & Hz & Hr & He).
  { pose proof (fresh_socket_wf a rp lp _ Ha Hrp Hlp (random_u32_ok (random_drawn s))).
    unfold g. destruct Hf as [-> | ->]; (split_and!; [|done|split; [constructor|apply (fresh_numbers a rp lp)]|done]); [by apply set_state_wf|done]. }
  apply Hm.
  - apply (inv_new_socket k (s <| random_drawn := S (random_drawn s) |>)); try done. by apply inv_random.
  - change (endpoints <$> (sockets s ++ [g]) !! length (sockets s) = Some (a, rp, lp)).
    rewrite list_lookup_middle by done. cbn. by rewrite He.
Qed.

Lemma tcp_open_keeps fuel k s a rp :
  tcp_inv k s → IPAddr_ok a → is_u16 rp → keeps (tcp_open fuel a rp) s (λ _ s', tcp_inv k s').
Proof.
  intros Hs Ha Hrp. unfold tcp_open. apply keeps_bind. follow find_ephemeral_port_keeps; [exact Hs|].
  intros lp s1 [Hs1 Hlp]. apply (new_socket_keeps k _ a rp lp (λ g, g)); [done..|by right|].
  intros s2 Hs2 He. unfold port_map_insert, unlock. apply keeps_bind, keeps_modify.
  apply (inv_port_insert _ _ (a, rp, lp) (length (sockets s1))) in Hs2; [|done].
  apply (lock_held _ k); [done|]. intros g _ Hh. apply keeps_bind.
  follow send_empty_keeps; [same_guard|done|]. intros _ s3 Hh3. keep.
  follow set_response_timer_keeps; [exact Hh3|]. intros g' s4 [Hh4 _]. keep.
  by apply (held_unlock _ (endpoints g)).
Qed.

Lemma tcp_listen_keeps k s port :
  tcp_inv k s → is_u16 port → keeps (tcp_listen port) s (λ _ s', tcp_inv k s').
Proof.
  intros Hs Hp. unfold tcp_listen.
  apply (new_socket_keeps k _ IPAddr_new 0 port (set_state Listen)); [done|apply IPAddr_new_ok|done|done|by left|].
  intros s2 Hs2 He. unfold port_map_insert. keep. case_match; keep; [done|]. by apply inv_port_insert.
Qed.

Lemma fin_keeps h key k g s st :
  held h key k g s →
  keeps (send_packet g NetBuffer_new (Z.lor FLAG_FIN FLAG_ACK);; g ← set_response_timer g h;
         unlock h (set_state st g)) s (λ _ s', tcp_inv k s').
Proof.
  intros Hh. unfold unlock. apply keeps_bind. follow send_empty_keeps; [exact Hh|done|].
  intros _ s1 Hh1. apply keeps_bind. follow set_response_timer_keeps; [exact Hh1|].
  intros g' s2 [Hh2 _]. keep. apply (held_unlock _ key). same_guard.
Qed.

Lemma tcp_close_keeps h k s : tcp_inv k s → keeps (tcp_close h) s (λ _ s', tcp_inv k s').
Proof.
  intros Hs. unfold tcp_close. apply (lock_held _ k); [done|]. intros g _ Hh.
  destruct (state g); try (by keep); try (by eapply fin_keeps).
  unfold unlock, port_map_remove. keep. apply inv_port_remove, (held_unlock _ (endpoints g)). same_guard.
Qed.

Lemma tcp_read_keeps h k s data : tcp_inv k s → keeps (tcp_read h data) s (λ _ s', tcp_inv k s').
Proof.
  intros Hs. unfold tcp_read. apply (lock_held _ k); [done|]. intros g _ Hh.
  case_match; [by keep|]. case_match; [|by keep].
  destruct (held_wf _ _ _ _ _ Hh) as [Hwf Hr]. pose proof Hwf as [Hq ? ? ? ?].
  destruct (held_change _ _ _ _ _ Hh) as (r & Hi & Hput). keep. destruct a as [got d].
  apply copy_to_slice_got in E; [|done].
  set (rest := nfrags (retransmit_queue g) + ooo_frags (out_of_order (reassembler g)) + (r + k)).
  keep. follow (trim_head_keeps _ rest); [done|done| |].
  { eapply pool_ok_ext; [apply Hi|]. unfold socket_frags, rest. lia. }
  intros q p (Hq' & _ & Hp). unfold unlock. keep. apply (held_unlock _ (endpoints g)).
  apply (Hput (update p (ip s))); [by split|done|done|]. eapply ip_ok_bufs; [exact Hi|].
  eapply pool_ok_ext; [exact Hp|]. unfold socket_frags, rest. cbn. lia.
Qed.

Lemma tcp_write_keeps woken h k s data offset :
  tcp_inv k s → bytes_ok data → keeps (tcp_write woken h data offset) s (λ _ s', tcp_inv k s').
Proof.
  intros Hs Hd. unfold tcp_write, unlock. apply (lock_held _ k); [done|]. intros g _ Hh.
  case_match; [by keep|]. apply keeps_bind. follow write_loop_keeps; [exact Hh|done|].
  intros [g' r] s1 Hh1. keep. by apply (held_unlock _ (endpoints g)).
Qed.

Lemma tcp_accept_keeps h k s : tcp_inv k s → keeps (tcp_accept h) s (λ _ s', tcp_inv k s').
Proof.
  intros Hs. unfold tcp_accept, unlock. apply (lock_held _ k); [done|]. intros g _ Hh.
  destruct (socket_queue g) as [|h' rest] eqn:Eq; keep; [done|].
  destruct (held_change _ _ _ _ _ Hh) as (r & Hi & Hput). destruct (held_wf _ _ _ _ _ Hh) as [Hwf [Hq Hm]].
  rewrite Eq in Hq. apply Forall_cons_iff in Hq as [_ Hq].
  assert (held h (endpoints g) k (g <| socket_queue := rest |>) (s <| ip := ip s |>)) as Hh'.
  { apply Hput; [destruct Hwf; by split|done|by split|done]. }
  apply (held_unlock _ (endpoints g)). by destruct s.
Qed.

(** ** Segments that arrive *)

Lemma handle_new_connection_keeps l k s a sp dp seq ack win mss :
  tcp_inv k s → IPAddr_ok a → is_u16 sp → is_u16 dp → is_u32 seq → is_u32 ack → is_u16 win →
  is_u16 mss → keeps (handle_new_connection l a sp dp seq ack win mss) s (λ r s',
    tcp_inv k s' ∧ endpoints <$> sockets s' !! r = Some (a, sp, dp)).
Proof.
  intros Hs Ha Hsp Hdp Hseq Hack Hwin Hmss. unfold handle_new_connection.
  apply (new_socket_keeps k _ a sp dp (λ g, g)); [done..|by right|].
  intros s1 Hs1 He. apply (lock_held _ k); [done|]. intros g Hg Hh.
  rewrite Hg in He. cbn in He. injection He as He1 He2 He3. set (n := length (sockets s)) in *.
  assert (∀ x y, is_u32 (u32_wrapping_add x y)) as Hw by (intros; apply wrapping_add_range; lia).
  assert (endpoints g = (a, sp, dp)) as He by (unfold endpoints; congruence). rewrite He in Hh.
  keep. set (g1 := _ <| reassembler ::= _ |>). assert (held n (a, sp, dp) k g1 s1) as Hh1.
  { subst a sp dp. same_guard. split; cbn; intuition. }
  follow send_empty_keeps; [exact Hh1|done|]. intros _ s2 Hh2. keep.
  follow (set_response_timer_keeps n (a, sp, dp) k); [same_guard|].
  intros g2 s3 [Hh3 _]. unfold unlock, notify_all. apply keeps_bind, keeps_modify.
  set (s4 := s3 <| sockets ::= _ |>).
  assert (endpoints <$> sockets s4 !! n = Some (a, sp, dp)) as He4.
  { change (endpoints <$> <[n:=g2]> (sockets s3) !! n = Some (a, sp, dp)).
    destruct Hh3 as [? Hk _]. rewrite list_lookup_insert_eq by done. cbn. by rewrite Hk. }
  assert (tcp_inv k s4) as Hs4 by (by apply (held_unlock _ (a, sp, dp))). clearbody s4.
  assert (n < length (sockets s4))%nat as Hn.
  { apply lookup_lt_is_Some. by destruct (sockets s4 !! n). }
  apply (lock_held _ k); [done|]. intros gl Hgl Hhl. keep. split.
  - apply inv_notify, (held_unlock _ (endpoints gl)).
    destruct (held_change _ _ _ _ _ Hhl) as (r & Hi & Hput).
    destruct (held_wf _ _ _ _ _ Hhl) as [Hwf [Hq Hm]].
    assert (held l (endpoints gl) k (gl <| socket_queue ::= λ q, q ++ [n] |>) (s4 <| ip := ip s4 |>)) as Hhl'.
    { apply Hput; [destruct Hwf; by split|done| |done]. split; [|done].
      apply Forall_app. split; [done|]. by constructor. }
    by destruct s4.
  - change (endpoints <$> <[l := gl <| socket_queue ::= λ q, q ++ [n] |>]> (sockets s4) !! n = Some (a, sp, dp)).
    destruct (decide (l = n)) as [->|]; [|by rewrite list_lookup_insert_ne].
    rewrite list_lookup_insert_eq by done. rewrite Hgl in He4. exact He4.
Qed.


Lemma input_no_socket_keeps k s b a h o :
  tcp_inv (nfrags b + k) s → buf_ok b → IPAddr_ok a → header_ok h → is_u16 (max_segment_size o) →
  keeps (input_no_socket b a h o) s (λ _ s', tcp_inv k s').
Proof.
  intros Hs Hb Ha [[Hsp Hdp] (Hseq & Hack & Hwin) _] Ho. unfold input_no_socket. keep.
  eapply (keeps_mono _ _ (λ _ s', tcp_inv (nfrags b + k) s')); [|by intros _ s1 Hs1; apply drop_packet_inv].
  assert (keeps (ack ← lift (u32_add (h_seq_num h) 1);
       zoom (tcp_output NetBuffer_new {|
         source_port := h_dest_port h; dest_ip := a; dest_port := h_source_port h; seq_num := 1;
         ack_num := ack; flags := Z.lor FLAG_RST FLAG_ACK; window := 0; options := [] |})) s
    (λ _ s', tcp_inv (nfrags b + k) s')) as Hreset.
  { keep. pose proof Hs as [[Hi ? ?] ? ? ?].
    follow (tcp_output_keeps _ (sockets_frags (sockets s) + (nfrags b + k))); [apply buf_ok_new|bytes_solve|done|done|done|exact Hi|].
    intros _ i Hi'. by split; [split|..]. }
  case_match; [case_match|]; [|exact Hreset..]. keep.
  follow handle_new_connection_keeps; [exact Hs|done..|]. intros r s1 [Hs1 He]. unfold port_map_insert. keep.
  by apply inv_port_insert.
Qed.

Lemma input_socket_keeps k s h b hd o :
  tcp_inv (nfrags b + k) s → buf_ok b → header_ok hd → is_u16 (max_segment_size o) →
  keeps (input_socket h b hd o) s (λ _ s', tcp_inv k s').
Proof.
  intros Hs Hb [_ (Hseq & Hack & Hwin) _] Ho. unfold input_socket, unlock, notify_all.
  apply (lock_held _ (nfrags b + k)); [done|]. intros g _ Hh. apply keeps_bind.
  follow segment_arrives_keeps; [exact Hh|done|]. intros g1 s1 Hh1. case_match.
  - apply keeps_bind, keeps_modify, keeps_bind, keeps_modify, drop_packet_inv; [done|].
    apply inv_notify, (held_unlock _ (endpoints g)). same_guard.
  - keep. set (k' := if is_empty b then nfrags b + k else k).
    eapply (keeps_mono _ _ (λ g' s', held h (endpoints g) k' g' s')).
    { unfold k'. destruct (is_empty b); cbn; [by keep|]. by apply receive_data_keeps. }
    intros g2 s2 Hh2. keep. eapply (keeps_mono _ _ (λ g' s', held h (endpoints g) k' g' s')).
    { case_match; [|by keep]. keep. follow process_ack_keeps; [exact Hh2|done|].
      intros g3 s3 Hh3. by apply update_window_keeps. }
    intros g3 s3 Hh3. keep. follow state_transition_keeps; [exact Hh3|done..|].
    intros g4 s4 Hh4. apply keeps_bind, keeps_modify. apply held_unlock in Hh4. unfold k' in Hh4.
    destruct (is_empty b); [by apply drop_packet_inv|by keep].
Qed.

Lemma tcp_input_keeps k s b a :
  tcp_inv (nfrags b + k) s → buf_ok b → IPAddr_ok a →
  keeps (tcp_input b a) s (λ _ s', tcp_inv k s').
Proof.
  intros Hs Hb Ha. unfold tcp_input, validate_checksum, get_ipaddr. keep.
  rewrite !update_view. clear E E0. destruct (negb _); [by apply drop_packet_inv|]. keep.
  pose proof (header_bytes _ _ Hb E) as Hbo. pose proof (decode_header_keeps _ _ Hbo E0) as Hh.
  assert (is_u16 (max_segment_size a6)) as Ho.
  { refine (parse_loop_keeps _ _ _ {| max_segment_size := 0 |} _ (slice_bytes _ _ _ _ Hbo E2) _ E3). done. }
  pose proof Hs as [[Hi ? ?] ? ? ?].
  follow (trim_head_keeps _ (sockets_frags (sockets s) + k)); [done|by destruct Hh| |].
  { eapply pool_ok_ext; [apply Hi|]. lia. }
  intros b' p (Hb' & _ & Hp). keep. set (s1 := update p s). assert (tcp_inv (nfrags b' + k) s1) as Hs1.
  { split; [split|..]; try done. apply (ip_ok_bufs (ip s) _ _ p Hi).
    eapply pool_ok_ext; [exact Hp|]. change (sockets s1) with (sockets s). lia. }
  case_match; [by apply input_socket_keeps|by apply input_no_socket_keeps].
Qed.

End Operations.
