(* ===== verification/Reach.v ===== *)
(** * lib.rs: what the whole program can do

    The program as a transition system: its threads, its applications and the
    clock take turns, with any arguments, in any order, for as long as none of
    them panics.  The invariant of the stack holds in every state that can be
    reached. *)

From S2P Require Import Prelude Util Buf BufSpec Timer Netif Ip Icmp.
From S2P Require Udp.
From S2P Require Import Tcp Stack TcpSpec StackSpec NetKeeps TcpKeeps TcpInv.
From stdpp Require Import gmap.
#[local] Existing Instance Tcp.tcp_timers.
Local Open Scope Z_scope.

(** * Steps *)

(** What a thread does until it waits or is done.  A waiting call is repeated
    (or, for tcp_write, continued) when the thread was woken. *)
Inductive turn : Type :=
| ReceivePacket
| RunTimers (fuel : nat)
| ClockTick (now : Z)
| UdpOpen (port : Z)
| UdpRecv (socket : nat) (data : list Z)
| UdpSend (socket : nat) (dest_addr : IPAddr) (dest_port : Z) (data : list Z)
| TcpOpen (fuel : nat) (remote_ip : IPAddr) (remote_port : Z)
| TcpOpenWake (socket : nat)
| TcpClose (socket : nat)
| TcpRead (socket : nat) (data : list Z)
| TcpWrite (woken : bool) (socket : nat) (data : list Z) (offset : Z)
| TcpListen (port : Z)
| TcpAccept (socket : nat).

(** The arguments have their types. *)
Definition turn_ok (now : Z) (t : turn) : Prop :=
  match t with
  | ClockTick later => now ≤ later < 9223372036854775808
  | UdpOpen port | TcpListen port => is_u16 port
  | UdpSend _ dest_addr dest_port data => IPAddr_ok dest_addr ∧ is_u16 dest_port ∧ bytes_ok data
  | TcpOpen _ remote_ip remote_port => IPAddr_ok remote_ip ∧ is_u16 remote_port
  | TcpWrite _ _ data _ => bytes_ok data
  | _ => True
  end.

Section Steps.
Context `{!Tun, !Random}.

Definition ignore {A} (m : ST StackState A) : ST StackState unit := m;; mret tt.

Definition perform (t : turn) : ST StackState unit :=
  match t with
  | ReceivePacket => packet_receive_step
  | RunTimers fuel => timer_step fuel
  | ClockTick now => modify (λ s, s <| Stack.tcp_timers ::= λ t, t <| current_time_ms := now |> |>)
  | UdpOpen port => ignore (zoom (Udp.udp_open port))
  | UdpRecv h data => ignore (zoom (Udp.udp_recv h data))
  | UdpSend h addr port data => zoom (Udp.udp_send h addr port data)
  | TcpOpen fuel a port => ignore (zoom (tcp_open fuel a port))
  | TcpOpenWake h => ignore (zoom (tcp_open_wake h))
  | TcpClose h => zoom (tcp_close h)
  | TcpRead h data => ignore (zoom (tcp_read h data))
  | TcpWrite woken h data offset => ignore (zoom (tcp_write woken h data offset))
  | TcpListen port => ignore (zoom (tcp_listen port))
  | TcpAccept h => ignore (zoom (tcp_accept h))
  end.

Inductive stack_step (s s' : StackState) : Prop :=
| stack_turn t : turn_ok (current_time_ms (Stack.tcp_timers s)) t → perform t s = Ok (tt, s') → stack_step s s'.

(** A state the program can be in. *)
Definition reachable (s : StackState) : Prop :=
  ∃ now s0, 0 ≤ now < 9223372036854775808 ∧ init_netstack (StackState_init now) = Ok (tt, s0) ∧
    rtc stack_step s0 s.

(** The program started at the time [now], and then some turns. *)
Fixpoint perform_all (l : list turn) : ST StackState unit :=
  match l with
  | [] => mret tt
  | t :: l => perform t;; perform_all l
  end.

Definition boot (now : Z) (l : list turn) : outcome (unit * StackState) :=
  (init_netstack;; perform_all l) (StackState_init now).

Lemma perform_all_steps l s s' :
  Forall (λ t, ∀ now, turn_ok now t) l → perform_all l s = Ok (tt, s') → rtc stack_step s s'.
Proof.
  intros Hl. revert s. induction Hl as [|t l Ht _ IH]; intros s E; cbn [perform_all] in E.
  { injection E as <-. constructor. }
  unfold mbind, st_bind in E. destruct (perform t s) as [[[] s1]| | |] eqn:Et; try done.
  eapply rtc_l; [by econstructor|]. by apply IH.
Qed.

Lemma boot_reachable now l s :
  0 ≤ now < 9223372036854775808 → Forall (λ t, ∀ now, turn_ok now t) l →
  boot now l = Ok (tt, s) → reachable s.
Proof.
  intros Hnow Hl E. unfold boot, mbind, st_bind in E.
  destruct (init_netstack (StackState_init now)) as [[[] s0]| | |] eqn:E0; try done.
  exists now, s0. split; [done|]. split; [done|]. by eapply perform_all_steps.
Qed.

(** * The invariant *)

Record stack_inv (s : StackState) : Prop := {
  inv_udp : Udp.udp_ok (udp_part s) (sockets_frags (Stack.tcp_sockets s));
  inv_tcp : tcp_inv (Udp.queued (Stack.udp_sockets s)) (tcp_part s);
}.

Lemma stack_inv_ok s : stack_inv s → stack_ok s.
Proof. intros [? [? _ _ _]]. by split. Qed.

(** A packet of [n] fragments is in hand. *)
Definition receiving (n : Z) (s : StackState) : Prop :=
  Udp.udp_ok (udp_part s) (n + sockets_frags (Stack.tcp_sockets s)) ∧
  tcp_inv (n + Udp.queued (Stack.udp_sockets s)) (tcp_part s).

Lemma receiving_none s : receiving 0 s ↔ stack_inv s.
Proof. split; [by intros []|intros []]; by split. Qed.

Lemma stack_inv_udp n s u :
  receiving n s → Udp.udp_ok u (sockets_frags (Stack.tcp_sockets s)) →
  stack_inv (@update _ _ stack_udp u s).
Proof.
  intros [_ [[_ ? ?] ? ? ?]] [Hi ? ?]. split; [by split|]. split; [split|..]; try done.
  change (ip_ok (Udp.ip u) (sockets_frags (Stack.tcp_sockets s) + Udp.queued (Udp.sockets u))).
  by rewrite Z.add_comm.
Qed.

Lemma stack_inv_tcp n s t :
  receiving n s → tcp_inv (Udp.queued (Stack.udp_sockets s)) t → stack_inv (@update _ _ stack_tcp t s).
Proof.
  intros [[_ ? ?] _] [[Hi ? ?] ? ? ?]. split; [|by split]. split; try done.
  change (ip_ok (Tcp.ip t) (Udp.queued (Stack.udp_sockets s) + sockets_frags (Tcp.sockets t))).
  by rewrite Z.add_comm.
Qed.

Lemma udp_turn {A} (m : ST Udp.UdpState A) s :
  stack_inv s → (∀ u k, Udp.udp_ok u k → keeps m u (λ _ u', Udp.udp_ok u' k)) →
  keeps (zoom m) s (λ _ s', stack_inv s').
Proof.
  intros Hs Hm. apply keeps_zoom. follow Hm; [apply Hs|]. intros a u Hu.
  by apply (stack_inv_udp 0); [apply receiving_none|].
Qed.

Lemma tcp_turn {A} (m : ST TcpState A) s :
  stack_inv s → (∀ k t, tcp_inv k t → keeps m t (λ _ t', tcp_inv k t')) →
  keeps (zoom m) s (λ _ s', stack_inv s').
Proof.
  intros Hs Hm. apply keeps_zoom. follow Hm; [apply Hs|]. intros a t Ht.
  by apply (stack_inv_tcp 0); [apply receiving_none|].
Qed.

Lemma ignore_keeps {A} (m : ST StackState A) s Q :
  keeps m s (λ _ s', Q s') → keeps (ignore m) s (λ _ s', Q s').
Proof. intros Hm. unfold ignore. apply keeps_bind. follow Hm. intros a s' Hs'. by keep. Qed.

(** ** The receive thread *)

Lemma receiving_ip n s : receiving n s → ip_ok (Stack.ip s) (n + stack_frags s).
Proof.
  intros [[Hi _ _] _]. unfold stack_frags. eapply ip_ok_ext; [exact Hi|].
  change (Udp.sockets (udp_part s)) with (Stack.udp_sockets s). lia.
Qed.

Lemma receiving_update n n' s i :
  receiving n s → ip_ok i (n' + stack_frags s) → receiving n' (s <| Stack.ip := i |>).
Proof.
  intros [[_ ? ?] [[_ ? ?] ? ? ?]] Hi. unfold stack_frags in Hi.
  split; split; try done; [|split; try done]; (eapply ip_ok_ext; [exact Hi|]).
  - change (n' + (sockets_frags (Stack.tcp_sockets s) + Udp.queued (Stack.udp_sockets s)) =
      Udp.queued (Stack.udp_sockets s) + (n' + sockets_frags (Stack.tcp_sockets s))). lia.
  - change (n' + (sockets_frags (Stack.tcp_sockets s) + Udp.queued (Stack.udp_sockets s)) =
      sockets_frags (Stack.tcp_sockets s) + (n' + Udp.queued (Stack.udp_sockets s))). lia.
Qed.

Lemma receiving_pool n s :
  receiving n s → ∃ m, pool_ok (view s) (n + m) ∧
    ∀ n' p, pool_ok p (n' + m) → receiving n' (@update _ _ stack_bufs p s).
Proof.
  intros Hs. pose proof (receiving_ip _ _ Hs) as Hi. exists (stack_frags s).
  split; [apply Hi|]. intros n' p Hp. apply (receiving_update _ _ _ _ Hs).
  by eapply ip_ok_bufs.
Qed.

Lemma icmp_accepts (m : NetBuffer → IPAddr → ST IpState unit) :
  (∀ s k b src, buf_ok b → IPAddr_ok src → ip_ok s (nfrags b + k) →
     keeps (m b src) s (λ _ s', ip_ok s' k)) →
  accepts receiving (λ b src, zoom (m b src)).
Proof.
  intros Hm b src s Hb _ Hsrc Hs. apply keeps_zoom.
  follow Hm; [done|done|by apply receiving_ip|]. intros _ i Hi. by eapply receiving_update.
Qed.

Context `{!TunOk, !RandomOk}.

Lemma tcp_accepts : accepts receiving (λ b src, zoom (tcp_input b src)).
Proof.
  intros b src s Hb _ Hsrc Hs. apply keeps_zoom. follow tcp_input_keeps; [apply Hs|done|done|].
  intros _ t Ht. by eapply receiving_none, stack_inv_tcp.
Qed.

Lemma udp_accepts : accepts receiving (λ b src, zoom (Udp.udp_input b src)).
Proof.
  intros b src s Hb Hl Hsrc Hs. apply keeps_zoom. follow udp_input_keeps; [done|done|done|apply Hs|].
  intros _ t Ht. by eapply receiving_none, stack_inv_udp.
Qed.

Lemma receive_turn s : stack_inv s → keeps packet_receive_step s (λ _ s', stack_inv s').
Proof.
  intros Hs. unfold packet_receive_step. apply keeps_bind, keeps_zoom, keeps_runs.
  apply receiving_none in Hs. pose proof (receiving_ip _ _ Hs) as [Hn Hid].
  call recv_packet_runs; [exact Hn|].
  intros b n (Hb & _ & _ & _ & [_ Hl] & _ & _ & _ & _ & _ & Hn').
  eapply keeps_mono.
  - apply (ip_input_keeps receiving receiving_pool); [| | |apply udp_accepts|done|done|].
    + apply (icmp_accepts icmp_input_v4). intros. by apply icmp_input_v4_keeps.
    + apply (icmp_accepts icmp_input_v6). intros. by apply icmp_input_v6_keeps.
    + apply tcp_accepts.
    + apply (receiving_update 0 (nfrags b) s ((Stack.ip s) <| netif := n |>)); [done|]. by split.
  - cbv beta. intros _ s'. apply receiving_none.
Qed.

(** ** All turns *)

Lemma timer_turn fuel s : stack_inv s → keeps (timer_step fuel) s (λ _ s', stack_inv s').
Proof.
  intros Hs. unfold timer_step. apply tcp_turn; [done|]. intros k t Ht. unfold tick. keep.
  apply (tick_loop_keeps _ (tcp_inv k)); [|by intros; apply run_timer_keeps|done].
  clear. intros s i [[? ? ?] ? [? Ht] ?]. split; [by split|done| |done].
  split; [done|]. by apply Forall_delete.
Qed.

Lemma clock_turn s now :
  stack_inv s → current_time_ms (Stack.tcp_timers s) ≤ now < 9223372036854775808 →
  stack_inv (s <| Stack.tcp_timers ::= λ t, t <| current_time_ms := now |> |>).
Proof.
  intros [[? ? ?] [[? ? [? _]] ? ? ?]] Hnow. split; [by split|]. split; [split|..]; try done.
  cbn in *. lia.
Qed.

Lemma turn_keeps t s :
  stack_inv s → turn_ok (current_time_ms (Stack.tcp_timers s)) t →
  keeps (perform t) s (λ _ s', stack_inv s').
Proof.
  intros Hs Ht. destruct t; cbn [perform]; try apply ignore_keeps;
    first [by apply receive_turn | by apply timer_turn | apply udp_turn; [done|]; intros u k Hu
          | apply tcp_turn; [done|]; intros k u Hu | idtac].
  - apply keeps_modify. by apply clock_turn.
  - by apply udp_open_keeps.
  - by apply udp_recv_keeps.
  - destruct Ht as (? & ? & ?). by apply udp_send_keeps.
  - destruct Ht. by apply tcp_open_keeps.
  - unfold tcp_open_wake. apply (lock_held _ k); [done|]. intros g _ _. by keep.
  - by apply tcp_close_keeps.
  - by apply tcp_read_keeps.
  - by apply tcp_write_keeps.
  - by apply tcp_listen_keeps.
  - by apply tcp_accept_keeps.
Qed.

Lemma init_inv now s :
  0 ≤ now < 9223372036854775808 → init_netstack (StackState_init now) = Ok (tt, s) → stack_inv s.
Proof.
  intros Hnow E. unfold init_netstack in E.
  assert (keeps (zoom init) (StackState_init now) (λ _ s', stack_inv s')) as Hk; [|exact (Hk tt s E)].
  apply keeps_zoom, keeps_runs. call init_runs_init. intros _ n Hn.
  assert (ip_ok {| netif := n; NEXT_PACKET_ID := 0 |} 0) by done.
  by split; split.
Qed.

Lemma step_inv s s' : stack_inv s → stack_step s s' → stack_inv s'.
Proof. intros Hs [t Ht E]. by eapply turn_keeps. Qed.

Lemma reachable_inv s : reachable s → stack_inv s.
Proof.
  intros (now & s0 & Hnow & E & Hr). apply init_inv in E; [|done].
  induction Hr as [|s s1 s2 Hstep _ IH]; [done|]. apply IH. by eapply step_inv.
Qed.

End Steps.
