(* ===== verification/LockOrder.v ===== *)
(** * Threads and mutexes

    A small language of what an operation does to the mutexes of the program,
    the threads that run it, and a discipline under which no threads can block
    each other for ever: each thread takes the mutexes in the order of their
    rank, gives them back in the opposite order, and waits on a condition
    variable only while it holds no other mutex than the one it waits with. *)

From S2P Require Import Prelude.
From stdpp Require Import relations list.

Section LockOrder.
Context {mutex : Type} `{!EqDecision mutex} (rank : mutex → nat).

(** ** The language *)

Inductive locking : Type :=
| Skip
| Acquire (l : mutex)
| Release (l : mutex)
| Await (l : mutex)
| Asleep (l : mutex)
| Seq (p q : locking)
| Either (p q : locking)
| Many (p : locking).

(** What a thread still has to do, and the mutexes it holds, the last one it
    took first.  A thread without anything to do is between two operations. *)
Record thread : Type := {
  todo : list locking;
  held : list mutex;
}.

(** One step of a thread on its own; [Some l] if it takes [l], which has to be
    free for it. *)
Inductive thread_step : thread → option mutex → thread → Prop :=
| step_skip k h : thread_step {| todo := Skip :: k; held := h |} None {| todo := k; held := h |}
| step_acquire l k h :
    thread_step {| todo := Acquire l :: k; held := h |} (Some l) {| todo := k; held := l :: h |}
| step_release l k h :
    thread_step {| todo := Release l :: k; held := l :: h |} None {| todo := k; held := h |}
| step_await l k h :
    thread_step {| todo := Await l :: k; held := l :: h |} None {| todo := Asleep l :: k; held := h |}
| step_seq p q k h :
    thread_step {| todo := Seq p q :: k; held := h |} None {| todo := p :: q :: k; held := h |}
| step_left p q k h :
    thread_step {| todo := Either p q :: k; held := h |} None {| todo := p :: k; held := h |}
| step_right p q k h :
    thread_step {| todo := Either p q :: k; held := h |} None {| todo := q :: k; held := h |}
| step_again p k h :
    thread_step {| todo := Many p :: k; held := h |} None {| todo := p :: Many p :: k; held := h |}
| step_enough p k h :
    thread_step {| todo := Many p :: k; held := h |} None {| todo := k; held := h |}.

(** No thread holds [l]; the mutexes cannot be taken twice, not even by the
    thread that holds them. *)
Definition free (ts : list thread) (l : mutex) : Prop := ∀ i t, ts !! i = Some t → l ∉ held t.

Definition enabled (ts : list thread) (need : option mutex) : Prop :=
  match need with Some l => free ts l | None => True end.

Section System.
(** What a thread may begin when it has nothing to do. *)
Context (operation : locking → Prop).

Inductive system_step (ts : list thread) : list thread → Prop :=
| system_thread i t need t' :
    ts !! i = Some t → thread_step t need t' → enabled ts need → system_step ts (<[i := t']> ts)
| system_begin i p :
    ts !! i = Some {| todo := []; held := [] |} → operation p →
    system_step ts (<[i := {| todo := [p]; held := [] |}]> ts)
| system_woken i l k h :
    ts !! i = Some {| todo := Asleep l :: k; held := h |} →
    system_step ts (<[i := {| todo := Acquire l :: k; held := h |}]> ts).

(** The program runs with any number of threads. *)
Definition running (ts : list thread) : Prop :=
  ∃ n, rtc system_step (replicate n {| todo := []; held := [] |}) ts.
End System.

(** A thread in the middle of an operation that does not wait for a condition. *)
Definition busy (t : thread) : Prop :=
  match todo t with [] | Asleep _ :: _ => False | _ => True end.

Definition can_step (ts : list thread) (i : nat) : Prop :=
  ∃ t need t', ts !! i = Some t ∧ thread_step t need t' ∧ enabled ts need.

(** The thread [i] waits for a mutex that the thread [j] holds. *)
Definition waits_for (ts : list thread) (i j : nat) : Prop :=
  ∃ l k h t, ts !! i = Some {| todo := Acquire l :: k; held := h |} ∧ ts !! j = Some t ∧ l ∈ held t.

(** ** The discipline *)

Definition above (l : mutex) (h : list mutex) : Prop := Forall (λ k, rank k < rank l)%nat h.

(** [disciplined h p h']: a thread that holds [h] may do [p], after which it
    holds [h']. *)
Inductive disciplined : list mutex → locking → list mutex → Prop :=
| disc_skip h : disciplined h Skip h
| disc_acquire l h : above l h → disciplined h (Acquire l) (l :: h)
| disc_release l h : disciplined (l :: h) (Release l) h
| disc_await l : disciplined [l] (Await l) [l]
| disc_asleep l : disciplined [] (Asleep l) [l]
| disc_seq h h1 h2 p q : disciplined h p h1 → disciplined h1 q h2 → disciplined h (Seq p q) h2
| disc_either h h' p q : disciplined h p h' → disciplined h q h' → disciplined h (Either p q) h'
| disc_many h p : disciplined h p h → disciplined h (Many p) h.

Inductive disciplined_all : list mutex → list locking → Prop :=
| disc_done : disciplined_all [] []
| disc_next h h' p k : disciplined h p h' → disciplined_all h' k → disciplined_all h (p :: k).

(** What a thread holds is sorted by rank. *)
Inductive sorted_locks : list mutex → Prop :=
| sorted_nil : sorted_locks []
| sorted_cons l h : above l h → sorted_locks h → sorted_locks (l :: h).

Record thread_ok (t : thread) : Prop := {
  ok_todo : disciplined_all (held t) (todo t);
  ok_sorted : sorted_locks (held t);
}.

(** Every thread keeps the discipline, and no two hold the same mutex. *)
Record system_ok (ts : list thread) : Prop := {
  sys_threads : Forall thread_ok ts;
  sys_exclusive : ∀ i j t u l, ts !! i = Some t → ts !! j = Some u → l ∈ held t → l ∈ held u → i = j;
}.

(** ** The discipline is kept *)

Lemma thread_step_ok t need t' : thread_ok t → thread_step t need t' → thread_ok t'.
Proof.
  intros [Hd Hs] Hst. destruct Hst; cbn [todo held] in *; inversion_clear Hd as [|? ? ? ? Hp Hk];
    inversion Hp; subst; split; cbn [todo held]; try done; repeat (done || econstructor).
  all: by inversion Hs.
Qed.

Lemma thread_step_held t need t' l :
  thread_step t need t' → l ∈ held t' → l ∈ held t ∨ need = Some l.
Proof. intros []; cbn [held]; set_solver. Qed.

Lemma woken_ok l k h : thread_ok {| todo := Asleep l :: k; held := h |} → thread_ok {| todo := Acquire l :: k; held := h |}.
Proof.
  intros [Hd Hs]. split; [|done]. cbn [todo held] in *. inversion_clear Hd as [|? ? ? ? Hp Hk].
  inversion Hp; subst. econstructor; [|done]. constructor. constructor.
Qed.

(** A thread changes and takes at most the free mutex [need]. *)
Lemma system_ok_insert ts i t need t' :
  system_ok ts → ts !! i = Some t → thread_ok t' → enabled ts need →
  (∀ l, l ∈ held t' → l ∈ held t ∨ need = Some l) → system_ok (<[i := t']> ts).
Proof.
  intros [Hts Hex] Hi Ht' Hen Hheld. split; [by apply Forall_insert|].
  assert (∀ j u l, i ≠ j → ts !! j = Some u → l ∈ held u → l ∈ held t' → False) as Hne.
  { intros j u l Hij Hj Hu [Hl|Hl]%Hheld; [by eapply Hij, Hex|]. rewrite Hl in Hen. by eapply Hen. }
  intros j1 j2 u1 u2 l H1 H2 Hl1 Hl2.
  apply list_lookup_insert_Some in H1 as [(<- & -> & _)|[H1 ?]], H2 as [(<- & -> & _)|[H2 ?]]; [done| | |by eapply Hex].
  - exfalso. by eapply (Hne j2 u2 l).
  - exfalso. by eapply (Hne j1 u1 l).
Qed.

Section Safety.
Context (operation : locking → Prop) (Hops : ∀ p, operation p → disciplined [] p []).

Lemma system_step_ok ts ts' : system_ok ts → system_step operation ts ts' → system_ok ts'.
Proof.
  intros Hok [i t need t' Hi Hst Hen|i p Hi Hp|i l k h Hi].
  - eapply system_ok_insert; [done|done| |done|by intros l; apply thread_step_held].
    eapply thread_step_ok; [|done]. by eapply Forall_lookup_1, Hi; apply Hok.
  - eapply (system_ok_insert _ _ _ None); [done|done| |done|by left].
    split; [|constructor]. econstructor; [by apply Hops|constructor].
  - eapply (system_ok_insert _ _ _ None); [done|done| |done|by left].
    apply woken_ok. by eapply Forall_lookup_1, Hi; apply Hok.
Qed.

Lemma running_ok ts : running operation ts → system_ok ts.
Proof.
  intros [n Hr]. apply (rtc_ind_r system_ok (replicate n {| todo := []; held := [] |})) in Hr; [done| |].
  - split; [apply Forall_replicate; split; constructor|].
    intros i j t u l [-> _]%lookup_replicate [-> _]%lookup_replicate Hl. by apply elem_of_nil in Hl.
  - intros ts1 ts2 _ Hst Hok. by eapply system_step_ok.
Qed.
End Safety.

(** ** Nobody is blocked for ever *)

(** A thread that has something to do can do it, or waits for a mutex above all
    it holds. *)
Lemma busy_step t :
  thread_ok t → busy t →
  (∃ t', thread_step t None t') ∨
  (∃ l k, t = {| todo := Acquire l :: k; held := held t |} ∧ above l (held t)).
Proof.
  intros [Hd _] Hb. destruct t as [[|p k] h]; cbn [todo held busy] in *; [done|].
  inversion_clear Hd as [|? ? ? ? Hp Hk]. destruct Hp; try (left; eexists; by constructor).
  - right. by exists l, k.
  - done.
Qed.

Lemma holder_busy t l : thread_ok t → l ∈ held t → busy t.
Proof.
  intros [Hd _] Hl. destruct t as [[|p k] h]; unfold busy; cbn [todo held] in *.
  - inversion Hd; subst. by apply elem_of_nil in Hl.
  - inversion_clear Hd as [|? ? ? ? Hp Hk]. destruct p; try done. inversion Hp; subst. by apply elem_of_nil in Hl.
Qed.

Lemma free_or_held ts l : free ts l ∨ ∃ i t, ts !! i = Some t ∧ l ∈ held t.
Proof.
  destruct (decide (Exists (λ t, l ∈ held t) ts)) as [He|He].
  - apply Exists_exists in He as (t & Ht & Hl). apply list_elem_of_lookup in Ht as [i Hi]. eauto.
  - left. intros i t Hi Hl. apply He, Exists_exists. exists t. split; [by eapply list_elem_of_lookup_2|done].
Qed.

(** Whoever has something to do can go on, or waits for somebody who, in turn,
    can go on or waits for somebody, and so on up to one who can. *)
Lemma no_deadlock ts bound i t :
  (∀ l, rank l < bound)%nat → system_ok ts → ts !! i = Some t → busy t →
  ∃ j, rtc (waits_for ts) i j ∧ can_step ts j.
Proof.
  intros Hbound [Hts _].
  assert (∀ n i t, ts !! i = Some t → busy t →
    (∀ l k h, t = {| todo := Acquire l :: k; held := h |} → bound - rank l ≤ n)%nat →
    ∃ j, rtc (waits_for ts) i j ∧ can_step ts j) as Hchain; [|intros Hi Hb; by eapply (Hchain bound); [..|lia]].
  clear i t. induction n as [|n IH]; intros i t Hi Hb Hn; pose proof (Forall_lookup_1 _ _ _ _ Hts Hi) as Ht;
    destruct (busy_step t Ht Hb) as [[t' Hst]|(l & k & Et & Hl)];
    try (exists i; split; [done|by exists t, None, t']); specialize (Hn _ _ _ Et); specialize (Hbound l); [lia|].
  destruct (free_or_held ts l) as [Hf|(j & u & Hj & Hlu)].
  { exists i. split; [done|]. exists t, (Some l). rewrite Et in *. eexists. split; [done|]. by split; [constructor|]. }
  destruct (IH j u Hj) as (j' & Hrtc & Hstep).
  - eapply holder_busy; [by eapply Forall_lookup_1|done].
  - intros l' k' h' ->. pose proof (Forall_lookup_1 _ _ _ _ Hts Hj) as Hu.
    destruct (busy_step _ Hu I) as [[? Hst]|(l2 & k2 & E & Hab)]; [by inversion Hst|].
    injection E as <- <-. pose proof (proj1 (Forall_forall _ _) Hab l Hlu) as Hlt. cbn in Hlt. lia.
  - exists j'. split; [|done]. eapply rtc_l; [|done]. exists l, k, (held t), u. by rewrite <-Et.
Qed.

End LockOrder.

Arguments Skip {mutex}.
Arguments locking : clear implicits.
Arguments thread : clear implicits.
