(* ===== verification/Locks.v ===== *)
(** * The mutexes of the program

    Which mutexes every function takes, gives back and waits with, in the order
    of the code: the skeletons of the functions of buf.rs, timer.rs, ip.rs,
    icmp.rs, udp.rs and tcp.rs, as programs of LockOrder.  A branch that depends
    on data is a choice, a loop runs any number of times.  Sockets are given by
    their index; that a variable goes out of scope, which drops a guard, a
    buffer or a reference, is written out where it happens. *)

From S2P Require Import Prelude LockOrder.
From S2P Require Tcp.
From stdpp Require Import list.

(** The mutexes: the fragment pool, the list of timers, the two port maps and
    one for each socket. *)
Inductive mutex : Type :=
| FRAGMENT_POOL
| PENDING_TIMERS
| TCP_PORT_MAP
| TCPSocket (socket_ref : nat)
| UDP_PORT_MAP
| UDPSocket (socket_ref : nat).

#[export] Instance mutex_eq_dec : EqDecision mutex.
Proof. solve_decision. Defined.

(** The order in which they are taken. *)
Definition rank (l : mutex) : nat :=
  match l with
  | TCP_PORT_MAP | UDP_PORT_MAP => 0
  | TCPSocket _ | UDPSocket _ => 1
  | PENDING_TIMERS => 2
  | FRAGMENT_POOL => 3
  end.

Declare Scope locking_scope.
Delimit Scope locking_scope with locking.
Infix "▷" := Seq (at level 92, right associativity) : locking_scope.
Infix "⊕" := Either (at level 93, right associativity) : locking_scope.
Local Open Scope locking_scope.

Abbreviation locking := (LockOrder.locking mutex).

Definition sometimes (p : locking) : locking := Skip ⊕ p.

(** ** buf.rs *)

(** A block with a guard of the pool. *)
Definition with_pool : locking := Acquire FRAGMENT_POOL ▷ Release FRAGMENT_POOL.

Definition drop_buffer_locks : locking := with_pool.
Definition new_prealloc_locks : locking := with_pool.
Definition alloc_header_locks : locking := sometimes with_pool.
Definition trim_head_locks : locking := with_pool.
Definition trim_tail_locks : locking := with_pool ⊕ with_pool.
Definition append_from_slice_locks : locking := sometimes with_pool.
Definition append_from_buffer_locks : locking := Many append_from_slice_locks.
Definition append_buffer_locks : locking := drop_buffer_locks.

(** A reference to a TCP socket goes out of scope.  If it is the last one, the
    buffers of the socket are dropped, and those of the sockets in its queue. *)
Definition drop_socket_locks : locking := Many drop_buffer_locks.

(** ** timer.rs *)

Definition set_timer_locks : locking := Acquire PENDING_TIMERS ▷ Release PENDING_TIMERS.

(** The timer that is removed is dropped with its closure, which holds a
    reference to a socket. *)
Definition cancel_timer_locks : locking :=
  Acquire PENDING_TIMERS ▷ sometimes drop_socket_locks ▷ Release PENDING_TIMERS.

(** ** netif.rs and ip.rs *)

Definition recv_packet_locks : locking := new_prealloc_locks ▷ trim_tail_locks.
Definition send_packet_locks : locking := drop_buffer_locks.
Definition ip_output_v4_locks : locking := alloc_header_locks ▷ send_packet_locks.
Definition ip_output_v6_locks : locking := alloc_header_locks ▷ send_packet_locks.
Definition ip_output_locks : locking := ip_output_v4_locks ⊕ ip_output_v6_locks.

(** ** icmp.rs *)

Definition icmp_output_v4_locks : locking := alloc_header_locks ▷ ip_output_locks.
Definition icmp_output_v6_locks : locking := alloc_header_locks ▷ ip_output_locks.
Definition icmp_input_v4_locks : locking :=
  drop_buffer_locks ⊕
  (trim_head_locks ▷ sometimes (append_from_buffer_locks ▷ icmp_output_v4_locks) ▷ drop_buffer_locks).
Definition icmp_input_v6_locks : locking :=
  drop_buffer_locks ⊕
  (trim_head_locks ▷ sometimes (append_from_buffer_locks ▷ icmp_output_v6_locks) ▷ drop_buffer_locks).

(** ** udp.rs *)

Definition udp_open_locks : locking := Acquire UDP_PORT_MAP ▷ Release UDP_PORT_MAP.
Definition udp_recv_locks (socket_ref : nat) : locking :=
  Acquire (UDPSocket socket_ref) ▷ Many (Await (UDPSocket socket_ref)) ▷
  drop_buffer_locks ▷ Release (UDPSocket socket_ref).
Definition udp_output_locks : locking := alloc_header_locks ▷ ip_output_locks.
Definition udp_send_locks (socket_ref : nat) : locking :=
  Acquire (UDPSocket socket_ref) ▷ append_from_slice_locks ▷ udp_output_locks ▷
  Release (UDPSocket socket_ref).
Definition udp_input_locks (socket : nat) : locking :=
  trim_head_locks ▷ Acquire UDP_PORT_MAP ▷
  ((Release UDP_PORT_MAP ▷ drop_buffer_locks) ⊕
   (Acquire (UDPSocket socket) ▷ Release (UDPSocket socket) ▷ Release UDP_PORT_MAP)).

(** ** tcp.rs: what the others use *)

Definition tcp_output_locks : locking := alloc_header_locks ▷ ip_output_locks.
Definition tcp_send_packet_locks : locking := tcp_output_locks.
Definition set_response_timer_locks : locking := sometimes cancel_timer_locks ▷ set_timer_locks.
Definition add_packet_locks : locking := Many (sometimes (drop_buffer_locks ⊕ append_buffer_locks)).

(** ** tcp.rs: the calls of applications *)

Definition tcp_open_locks (socket_ref : nat) : locking :=
  Acquire TCP_PORT_MAP ▷ Release TCP_PORT_MAP ▷
  Acquire (TCPSocket socket_ref) ▷ tcp_send_packet_locks ▷ set_response_timer_locks ▷
  Many (Await (TCPSocket socket_ref)) ▷ Release (TCPSocket socket_ref) ▷ sometimes drop_socket_locks.

Definition tcp_close_locks (socket_ref : nat) : locking :=
  Acquire (TCPSocket socket_ref) ▷
  ((Release (TCPSocket socket_ref) ▷ Acquire TCP_PORT_MAP ▷ drop_socket_locks ▷ Release TCP_PORT_MAP) ⊕
   (tcp_send_packet_locks ▷ set_response_timer_locks ▷ Release (TCPSocket socket_ref)) ⊕
   (tcp_send_packet_locks ▷ set_response_timer_locks ▷ Release (TCPSocket socket_ref)) ⊕
   Release (TCPSocket socket_ref)).

Definition tcp_read_locks (socket_ref : nat) : locking :=
  Acquire (TCPSocket socket_ref) ▷ Many (Await (TCPSocket socket_ref)) ▷
  sometimes trim_head_locks ▷ Release (TCPSocket socket_ref).

Definition write_segment_locks : locking :=
  append_from_slice_locks ▷ tcp_send_packet_locks ▷ append_from_slice_locks ▷ sometimes set_timer_locks.

Definition tcp_write_locks (socket_ref : nat) : locking :=
  Acquire (TCPSocket socket_ref) ▷ Many (Await (TCPSocket socket_ref) ⊕ write_segment_locks) ▷
  Release (TCPSocket socket_ref).

Definition tcp_listen_locks (socket_ref : nat) : locking :=
  Acquire (TCPSocket socket_ref) ▷ Release (TCPSocket socket_ref) ▷
  Acquire TCP_PORT_MAP ▷ Release TCP_PORT_MAP ▷ sometimes drop_socket_locks.

Definition tcp_accept_locks (socket_ref : nat) : locking :=
  Acquire (TCPSocket socket_ref) ▷ Many (Await (TCPSocket socket_ref)) ▷ Release (TCPSocket socket_ref).

(** ** tcp.rs: timers *)

Definition retransmit_locks (socket_ref : nat) : locking :=
  Acquire (TCPSocket socket_ref) ▷
  sometimes (append_from_buffer_locks ▷ tcp_send_packet_locks ▷ set_timer_locks) ▷
  Release (TCPSocket socket_ref) ▷ drop_socket_locks.

Definition delayed_ack_locks (socket_ref : nat) : locking :=
  Acquire (TCPSocket socket_ref) ▷ sometimes tcp_send_packet_locks ▷
  Release (TCPSocket socket_ref) ▷ drop_socket_locks.

Definition response_timeout_locks (socket_ref : nat) : locking :=
  Acquire (TCPSocket socket_ref) ▷
  sometimes (sometimes (tcp_send_packet_locks ▷ set_response_timer_locks) ▷ set_response_timer_locks) ▷
  Release (TCPSocket socket_ref) ▷ drop_socket_locks.

Definition time_wait_timeout_locks (socket_ref : nat) : locking :=
  Acquire (TCPSocket socket_ref) ▷ Release (TCPSocket socket_ref) ▷
  Acquire TCP_PORT_MAP ▷ drop_socket_locks ▷ Release TCP_PORT_MAP ▷ drop_socket_locks.

Definition run_timer_locks (action : Tcp.TimerAction) : locking :=
  match action with
  | Tcp.Retransmit socket_ref => retransmit_locks socket_ref
  | Tcp.DelayedAck socket_ref => delayed_ack_locks socket_ref
  | Tcp.ResponseTimeout socket_ref => response_timeout_locks socket_ref
  | Tcp.TimeWaitTimeout socket_ref => time_wait_timeout_locks socket_ref
  end.

(** A turn of the timer thread that runs [actions], without the list while one
    of them runs. *)
Definition tick_locks (actions : list Tcp.TimerAction) : locking :=
  Acquire PENDING_TIMERS ▷
  foldr (λ action rest, Release PENDING_TIMERS ▷ run_timer_locks action ▷ Acquire PENDING_TIMERS ▷ rest)
    (Release PENDING_TIMERS) actions.

(** ** tcp.rs: a segment *)

Definition handle_new_connection_locks (listen_socket_ref new_socket_ref : nat) : locking :=
  Acquire (TCPSocket new_socket_ref) ▷ tcp_send_packet_locks ▷ set_response_timer_locks ▷
  Release (TCPSocket new_socket_ref) ▷
  Acquire (TCPSocket listen_socket_ref) ▷ Release (TCPSocket listen_socket_ref).

Definition receive_data_locks : locking :=
  add_packet_locks ▷ sometimes append_buffer_locks ▷
  ((sometimes cancel_timer_locks ▷ tcp_send_packet_locks) ⊕ set_timer_locks ⊕ Skip ⊕
   (sometimes cancel_timer_locks ▷ tcp_send_packet_locks)).

Definition process_ack_locks : locking := trim_head_locks ▷ sometimes cancel_timer_locks.

Definition state_transition_locks : locking :=
  (tcp_send_packet_locks ▷ set_response_timer_locks) ⊕
  set_timer_locks ⊕
  (tcp_send_packet_locks ▷ set_response_timer_locks ▷ set_timer_locks) ⊕
  Skip.

(** The segment is for the socket [socket_ref]. *)
Definition input_socket_locks (socket_ref : nat) : locking :=
  Acquire (TCPSocket socket_ref) ▷ sometimes cancel_timer_locks ▷
  sometimes (sometimes receive_data_locks ▷ sometimes process_ack_locks ▷ state_transition_locks) ▷
  Release (TCPSocket socket_ref).

Definition tcp_input_locks (socket_ref listen_socket new_socket : nat) : locking :=
  drop_buffer_locks ⊕
  (trim_head_locks ▷ Acquire TCP_PORT_MAP ▷
   ((tcp_output_locks ▷ Release TCP_PORT_MAP ▷ drop_buffer_locks) ⊕
    (handle_new_connection_locks listen_socket new_socket ▷ Release TCP_PORT_MAP ▷ drop_buffer_locks) ⊕
    (input_socket_locks socket_ref ▷ Release TCP_PORT_MAP ▷ sometimes drop_buffer_locks))).

(** ** The receive thread *)

Definition ip_input_common_locks (socket_ref listen_socket new_socket udp_socket : nat) : locking :=
  icmp_input_v4_locks ⊕ icmp_input_v6_locks ⊕ tcp_input_locks socket_ref listen_socket new_socket ⊕
  udp_input_locks udp_socket ⊕ drop_buffer_locks.

Definition ip_input_locks (socket_ref listen_socket new_socket udp_socket : nat) : locking :=
  let common := ip_input_common_locks socket_ref listen_socket new_socket udp_socket in
  (drop_buffer_locks ⊕ drop_buffer_locks ⊕ (trim_head_locks ▷ common)) ⊕
  (trim_head_locks ▷ common) ⊕
  drop_buffer_locks.

Definition packet_receive_locks (socket_ref listen_socket new_socket udp_socket : nat) : locking :=
  recv_packet_locks ▷ ip_input_locks socket_ref listen_socket new_socket udp_socket.

(** ** Everything a thread may do *)

Inductive call : Type :=
| ReceivePacket (socket_ref listen_socket new_socket udp_socket : nat)
| RunTimers (actions : list Tcp.TimerAction)
| UdpOpen
| UdpRecv (socket_ref : nat)
| UdpSend (socket_ref : nat)
| TcpOpen (socket_ref : nat)
| TcpClose (socket_ref : nat)
| TcpRead (socket_ref : nat)
| TcpWrite (socket_ref : nat)
| TcpListen (socket_ref : nat)
| TcpAccept (socket_ref : nat)
| DropSocket.

Definition call_locks (c : call) : locking :=
  match c with
  | ReceivePacket s l n u => packet_receive_locks s l n u
  | RunTimers actions => tick_locks actions
  | UdpOpen => udp_open_locks
  | UdpRecv s => udp_recv_locks s
  | UdpSend s => udp_send_locks s
  | TcpOpen s => tcp_open_locks s
  | TcpClose s => tcp_close_locks s
  | TcpRead s => tcp_read_locks s
  | TcpWrite s => tcp_write_locks s
  | TcpListen s => tcp_listen_locks s
  | TcpAccept s => tcp_accept_locks s
  | DropSocket => drop_socket_locks
  end.
