(* ===== verification/Apps.v ===== *)
(** * The test applications (src/src/test_apps)

    Each application is a thread that calls the stack.  Its state says which
    call it makes next; one step makes the call, and when the call waits the
    state stays the same, so that the next step repeats it.  Waiting for a key
    and sleeping only let time pass; what is printed about sockets is left out,
    and what is printed of received data is kept.  The text of a connection
    (tcp.rs, Display) is here too. *)

From S2P Require Import Prelude Util Text Buf Netif Ip.
From S2P Require Udp.
From S2P Require Import Tcp Stack.
From stdpp Require Import strings pretty.
Local Open Scope Z_scope.

(** * The text of a connection *)

Definition TCPSocketState_fmt (self : TCPSocketState) : outcome string :=
  ip ← IPAddr_fmt (remote_ip self);
  Ok ("localhost:" +:+ pretty (local_port self) +:+ " " +:+ ip +:+ ":" +:+ pretty (remote_port self)).

Section Apps.
Context `{!Tun, !Random}.

(** [x as usize] of an [i32]. *)
Definition as_usize (x : Z) : Z := truncate usize_size x.

(** [&data[..n as usize]] *)
Definition received_data (data : list Z) (n : Z) : outcome (list Z) := slice data 0 (as_usize n).

Definition report : ST StackState unit :=
  m ← fetches (λ s, METRICS (bufs (netif (Stack.ip s))));
  lift (print_metrics m);;
  mret tt.

(** * udp_echo.rs *)

(** [None]: the port is in use and the program ends. *)
Definition udp_echo_open : ST StackState (option nat) :=
  init_netstack;; zoom (Udp.udp_open 8000).

(** A datagram is received and sent back; [false]: none is there yet. *)
Definition udp_echo_reply (socket : nat) : ST StackState bool :=
  r ← zoom (Udp.udp_recv socket (zeros 1500));
  match r with
  | None => mret false
  | Some (received, data, source_addr, source_port) =>
      payload ← lift (received_data data received);
      zoom (Udp.udp_send socket source_addr source_port payload);;
      mret true
  end.

(** One turn of the loop. *)
Definition udp_echo_turn (socket : nat) : ST StackState unit :=
  replied ← udp_echo_reply socket;
  if replied : bool then report else mret tt.

(** * web_server.rs *)

Definition RESPONSE : list Z :=
  let crlf := [13; 10] in
  as_bytes "HTTP/1.0 200 OK" ++ crlf ++ as_bytes "Content-Type: text/html" ++ crlf ++ crlf ++
  as_bytes "<html><body><h1>Hello, world!</h1></body></html>".

Inductive server_state : Type :=
| Accepting
| ReadingRequest (socket : nat)
| Responding (socket : nat) (woken : bool) (offset : Z).

(** [None]: the port is in use and the program ends. *)
Definition web_server_open : ST StackState (option nat) :=
  init_netstack;; zoom (tcp_listen 8080).

Definition web_server_step (listen_sock : nat) (st : server_state) : ST StackState server_state :=
  match st with
  | Accepting =>
      result ← zoom (tcp_accept listen_sock);
      mret (match result with Some socket => ReadingRequest socket | None => Accepting end)
  | ReadingRequest socket =>
      r ← zoom (tcp_read socket (zeros 1500));
      match r with
      | None => mret st
      | Some (received, data) =>
          if received <? 0 then mret Accepting
          else
            request ← lift (received_data data received);
            if from_utf8_ok request then mret (Responding socket false 0) else mret Accepting
      end
  | Responding socket woken offset =>
      r ← zoom (tcp_write woken socket RESPONSE offset);
      match r with
      | WaitWindow offset => mret (Responding socket true offset)
      | Wrote _ => zoom (tcp_close socket);; mret Accepting
      end
  end.

(** * Connecting, in tcp_bulk_upload.rs and tcp_bulk_download.rs *)

Definition peer_address (ipv6 : bool) : outcome IPAddr :=
  if ipv6 then IPAddr_new_from [0xfe; 0x80; 0; 0; 0; 0; 0; 0; 0; 0; 0; 0; 0; 0; 0; 0x1]
  else IPAddr_new_from [10; 0; 0; 1].

(** init_netstack and tcp_open up to its wait. *)
Definition connect (fuel : nat) (ipv6 : bool) : ST StackState nat :=
  init_netstack;;
  addr ← lift (peer_address ipv6);
  zoom (tcp_open fuel addr 3000).

(** * tcp_bulk_upload.rs *)

Definition upload_ipv6 (args : list string) : bool :=
  match args with _ :: arg :: _ => String.eqb arg "6v" | _ => false end.

(** The text at the index [i]. *)
Definition upload_byte (i : Z) : Z :=
  let line_length := 74 in
  let pattern_length := 95 in
  let line_num := i / line_length in
  let line_offset := i mod line_length in
  let start_char := line_num mod pattern_length in
  if line_offset =? line_length - 2 then 13
  else if line_offset =? line_length - 1 then 10
  else truncate u8_size ((start_char + line_offset) mod pattern_length + 32).

Definition UPLOAD_LENGTH : Z := 0x100000.
Definition upload_data : list Z := map upload_byte (seqZ 0 UPLOAD_LENGTH).

Inductive upload_state : Type :=
| UploadConnecting (socket : nat)
| Uploading (socket : nat) (woken : bool) (offset : Z)
| UploadClosing (socket : nat)
| UploadReporting
| UploadDone.

Definition upload_start (fuel : nat) (args : list string) : ST StackState upload_state :=
  socket ← connect fuel (upload_ipv6 args);
  mret (UploadConnecting socket).

Definition upload_step (st : upload_state) : ST StackState upload_state :=
  match st with
  | UploadConnecting socket =>
      r ← zoom (tcp_open_wake socket);
      mret (match r with
            | Connected => Uploading socket false 0
            | ConnectionFailed => UploadDone
            | StillWaiting => st
            end)
  | Uploading socket woken offset =>
      r ← zoom (tcp_write woken socket upload_data offset);
      mret (match r with
            | WaitWindow offset => Uploading socket true offset
            | Wrote _ => UploadClosing socket
            end)
  | UploadClosing socket => zoom (tcp_close socket);; mret UploadReporting
  | UploadReporting => report;; mret UploadDone
  | UploadDone => mret UploadDone
  end.

(** * tcp_bulk_download.rs *)

Definition download_ipv6 (args : list string) : bool :=
  match args with _ :: arg :: _ => String.eqb arg "v6" | _ => false end.

Definition REQUEST_BYTES : list Z :=
  let crlf := [13; 10] in as_bytes "GET / HTTP/1.0" ++ crlf ++ crlf.

Inductive download_state : Type :=
| DownloadConnecting (socket : nat)
| Requesting (socket : nat) (woken : bool) (offset : Z)
| Downloading (socket : nat) (turns : nat)
| DownloadClosing (socket : nat)
| DownloadReporting
| DownloadDone.

Definition download_start (fuel : nat) (args : list string) : ST StackState download_state :=
  socket ← connect fuel (download_ipv6 args);
  mret (DownloadConnecting socket).

(** The next state, and the text that is printed. *)
Definition download_step (st : download_state) : ST StackState (download_state * list Z) :=
  match st with
  | DownloadConnecting socket =>
      r ← zoom (tcp_open_wake socket);
      mret (match r with
            | Connected => Requesting socket false 0
            | ConnectionFailed => DownloadDone
            | StillWaiting => st
            end, [])
  | Requesting socket woken offset =>
      r ← zoom (tcp_write woken socket REQUEST_BYTES offset);
      mret (match r with
            | WaitWindow offset => Requesting socket true offset
            | Wrote _ => Downloading socket 25
            end, [])
  | Downloading socket O => mret (DownloadClosing socket, [])
  | Downloading socket (S turns) =>
      r ← zoom (tcp_read socket (zeros 1500));
      match r with
      | None => mret (st, [])
      | Some (received, data) =>
          if received <? 0 then mret (DownloadClosing socket, [])
          else if 0 <? received then
            text ← lift (received_data data received);
            lift (rust_assert (from_utf8_ok text));;
            mret (Downloading socket turns, text)
          else mret (Downloading socket turns, [])
      end
  | DownloadClosing socket => zoom (tcp_close socket);; mret (DownloadReporting, [])
  | DownloadReporting => report;; mret (DownloadDone, [])
  | DownloadDone => mret (DownloadDone, [])
  end.

End Apps.
