(* ===== verification/BufProps.v ===== *)
(** * Properties of packet buffers

    A buffer implements a string of bytes: the operations of buf.rs are those
    of the abstract type below, every fragment is accounted for, and the
    operations that are outside the contract stop the program. *)

From S2P Require Import Prelude Util Buf BufSpec.
Local Open Scope Z_scope.

(** * The abstract type *)

Inductive buf_op : Type :=
| AppendSlice (src : list Z)
| AllocHeader (size : Z)
| TrimHead (size : Z)
| TrimTail (size : Z).

(** What an operation does to the bytes. *)
Definition bytes_op (o : buf_op) (l : list Z) : list Z :=
  match o with
  | AppendSlice src => l ++ src
  | AllocHeader size => zeros size ++ l
  | TrimHead size => drop (Z.to_nat size) l
  | TrimTail size => take (Z.to_nat (zlen l - size)) l
  end.

(** The contract: what a caller must ensure. *)
Definition op_allowed (o : buf_op) (l : list Z) : Prop :=
  match o with
  | AppendSlice src => bytes_ok src ∧ zlen l + zlen src < usize_size
  | AllocHeader size => 0 < size ≤ FRAGMENT_SIZE ∧ zlen l + size < usize_size
  | TrimHead size | TrimTail size => 0 ≤ size ≤ zlen l
  end.

Definition run_op (o : buf_op) (b : NetBuffer) : ST BufState NetBuffer :=
  match o with
  | AppendSlice src => append_from_slice src b
  | AllocHeader size => alloc_header size b
  | TrimHead size => trim_head size b
  | TrimTail size => trim_tail size b
  end.

Fixpoint run_ops (ops : list buf_op) (b : NetBuffer) : ST BufState NetBuffer :=
  match ops with
  | [] => mret b
  | o :: ops => b ← run_op o b; run_ops ops b
  end.

Fixpoint ops_allowed (ops : list buf_op) (l : list Z) : Prop :=
  match ops with
  | [] => True
  | o :: ops => op_allowed o l ∧ ops_allowed ops (bytes_op o l)
  end.

(** The bytes after a sequence of operations. *)
Definition bytes_ops (ops : list buf_op) (l : list Z) : list Z :=
  foldl (λ l o, bytes_op o l) l ops.

Lemma run_op_runs o s k b :
  buf_ok b → op_allowed o (contents b) → pool_ok s (nfrags b + k) →
  runs (run_op o b) s (λ b' s', buf_ok b' ∧ contents b' = bytes_op o (contents b) ∧
    pool_ok s' (nfrags b' + k)).
Proof.
  intros Hb Ho Hp. destruct o; simpl in Ho |- *.
  - call append_from_slice_runs; [done|apply Ho..|done|]. by intros b' s' (? & ? & _ & ?).
  - call alloc_header_runs; [done|apply Ho..|done|]. by intros b' s' (? & ? & _ & _ & _ & ?).
  - call trim_head_runs; [done|done|done|]. by intros b' s' (? & ? & _ & _ & ?).
  - call trim_tail_runs; [done|done|done|]. by intros b' s' (? & ? & _ & _ & _ & ?).
Qed.

Lemma run_ops_runs ops s k b :
  buf_ok b → ops_allowed ops (contents b) → pool_ok s (nfrags b + k) →
  runs (run_ops ops b) s (λ b' s', buf_ok b' ∧ contents b' = bytes_ops ops (contents b) ∧
    pool_ok s' (nfrags b' + k)).
Proof.
  revert s b. induction ops as [|o ops IH]; intros s b Hb Ho Hp; simpl; run; [done|].
  destruct Ho as [Ho Hos]. call run_op_runs; [done|done|done|].
  intros b' s' (Hb' & Hc & Hp'). rewrite <-Hc in Hos. call IH; [done|done|done|].
  intros b2 s2 (? & Hc2 & ?). split_and!; try done. by rewrite Hc2, Hc.
Qed.

(** A pool that nothing has been allocated from. *)
Definition pool_init : BufState := FragmentPool_new METRICS_new.

Lemma pool_ok_init : pool_ok pool_init 0.
Proof. split; [constructor|by exists 0|by exists 0|by repeat split]. Qed.

(** A buffer made of a slice, with the pool it was made from. *)
Definition sample (src : list Z) : outcome (NetBuffer * BufState) :=
  append_from_slice src NetBuffer_new pool_init.

(** * Properties *)

(** C30: a buffer refines a string of bytes.  Any sequence of allowed appends,
    header allocations and trims runs without a panic; the buffer passes the
    consistency check and holds exactly the bytes the abstract operations give;
    each of its fragments is accounted for. *)
Theorem buffer_refines_bytes ops s k b :
  buf_ok b → ops_allowed ops (contents b) → pool_ok s (nfrags b + k) →
  runs (run_ops ops b) s (λ b' s', validate_buffer b' = true ∧
    contents b' = bytes_ops ops (contents b) ∧ NetBuffer_len b' = zlen (bytes_ops ops (contents b)) ∧
    pool_ok s' (nfrags b' + k)).
Proof.
  intros Hb Ho Hp. call run_ops_runs; [done|done|done|]. intros b' s' (Hb' & Hc & Hp').
  split_and!; [by apply buf_ok_validate|done|by rewrite buf_ok_len, Hc|done].
Qed.

Lemma buffer_refines_bytes_witness :
  runs (run_ops [AppendSlice [1; 2; 3]; AllocHeader 2; TrimHead 1; TrimTail 2] NetBuffer_new) pool_init
    (λ b' s', validate_buffer b' = true ∧ contents b' = [0; 1] ∧ NetBuffer_len b' = 2 ∧
      pool_ok s' (nfrags b' + 0)).
Proof.
  apply (buffer_refines_bytes [AppendSlice [1; 2; 3]; AllocHeader 2; TrimHead 1; TrimTail 2]
    pool_init 0 NetBuffer_new buf_ok_new); [|exact pool_ok_init].
  simpl. split_and!; try done; bytes_solve.
Defined.

(** C31: no leaks.  After any allowed use, dropping the buffer returns every
    fragment: the pool owns all of them again and, since the counters are
    modulo 2^32, exactly as many were freed as were allocated. *)
Theorem buffer_no_leak ops s b :
  buf_ok b → ops_allowed ops (contents b) → pool_ok s (nfrags b) →
  runs (b' ← run_ops ops b; drop_buffer b') s (λ _ s',
    buffers_allocated (METRICS s') = buffers_freed (METRICS s') ∧
    congr (buffers_created (METRICS s')) (zlen (free_list s'))).
Proof.
  intros Hb Ho Hp. run. call (run_ops_runs ops s 0); [done|done|by rewrite Z.add_0_r|].
  intros b' s' (Hb' & _ & Hp'). call drop_buffer_runs; [done|done|].
  intros _ s2 [_ [q Hq] Hcr (Ha & Hf & _)]. split; [|exact Hcr].
  unfold in_range in Ha, Hf. lia.
Qed.

Lemma buffer_no_leak_witness :
  runs (b' ← run_ops [AppendSlice [1; 2; 3]; AllocHeader 2] NetBuffer_new; drop_buffer b') pool_init
    (λ _ s', buffers_allocated (METRICS s') = buffers_freed (METRICS s') ∧
      congr (buffers_created (METRICS s')) (zlen (free_list s'))).
Proof.
  apply (buffer_no_leak [AppendSlice [1; 2; 3]; AllocHeader 2] pool_init NetBuffer_new buf_ok_new);
    [|exact pool_ok_init]. simpl. split_and!; try done; bytes_solve.
Defined.

(** An operation outside the contract panics: a header larger than a
    fragment, and a trim of more than the buffer holds. *)
Theorem buffer_misuse_panics s size b :
  (FRAGMENT_SIZE < size → alloc_header size b s = Panic) ∧
  (NetBuffer_len b < size → trim_head size b s = Panic ∧ trim_tail size b s = Panic).
Proof.
  split; [apply alloc_header_too_large|].
  split; [by apply trim_head_too_much|by apply trim_tail_too_much].
Qed.

(** Copying out.  [copy_to_slice] stores the first bytes of the buffer, as
    many as there is room for, leaves the rest of the slice alone and returns
    the number stored. *)
Theorem copy_to_slice_correct b dest :
  buf_ok b → zlen (contents b) ≤ usize_max →
  let n := Z.min (zlen dest) (zlen (contents b)) in
  copy_to_slice b dest = Ok (n, take (Z.to_nat n) (contents b) ++ drop (Z.to_nat n) dest).
Proof. apply copy_to_slice_spec. Qed.

Lemma copy_to_slice_correct_witness :
  ∃ b s, sample [7; 8; 9] = Ok (b, s) ∧ copy_to_slice b [0; 0] = Ok (2, [7; 8]).
Proof.
  do 2 eexists. split; [vm_compute; reflexivity|].
  apply copy_to_slice_correct; [|by vm_compute].
  split; [|by vm_compute]. constructor; [|constructor].
  split; [|by vm_compute]. split; [by vm_compute|]. apply (bool_decide_unpack _). by vm_compute.
Defined.

Lemma buffer_misuse_panics_witness :
  alloc_header 513 NetBuffer_new pool_init = Panic ∧ trim_head 1 NetBuffer_new pool_init = Panic.
Proof.
  split.
  - by apply (proj1 (buffer_misuse_panics pool_init 513 NetBuffer_new)).
  - by apply (proj2 (buffer_misuse_panics pool_init 1 NetBuffer_new)).
Defined.

(** Iteration.  The iterator over the first [n] bytes ends; the slices it
    yields are not empty and their concatenation is those bytes. *)
Theorem iter_correct b n :
  buf_ok b → 0 ≤ n →
  ∃ sls, slices (iter b n) = Ok sls ∧ concat sls = take (Z.to_nat n) (contents b) ∧
    Forall (λ sl, sl ≠ []) sls.
Proof. intros [Hf _] Hn. apply collect_spec; [done|done|cbn; lia]. Qed.

Lemma iter_correct_witness :
  ∃ sls, slices (iter NetBuffer_new 3) = Ok sls ∧ concat sls = [] ∧ Forall (λ sl, sl ≠ []) sls.
Proof. apply (iter_correct NetBuffer_new 3); [exact buf_ok_new|done]. Defined.

(** Copying between buffers.  [append_from_buffer] appends the first [n]
    bytes of another buffer by value, allocating what it needs. *)
Theorem append_from_buffer_correct s k other n b :
  buf_ok other → 0 ≤ n → buf_ok b →
  zlen (contents b) + zlen (contents other) < usize_size → pool_ok s (nfrags b + k) →
  runs (append_from_buffer other n b) s (λ b' s', validate_buffer b' = true ∧
    contents b' = contents b ++ take (Z.to_nat n) (contents other) ∧ pool_ok s' (nfrags b' + k)).
Proof.
  intros. call append_from_buffer_runs; try done. intros b' s' (? & ? & _ & ?).
  split_and!; [by apply buf_ok_validate|done|done].
Qed.

Lemma append_from_buffer_correct_witness :
  runs (append_from_buffer NetBuffer_new 5 NetBuffer_new) pool_init (λ b' s',
    validate_buffer b' = true ∧ contents b' = [] ∧ pool_ok s' (nfrags b' + 0)).
Proof.
  by apply (append_from_buffer_correct pool_init 0 NetBuffer_new 5 NetBuffer_new);
    [exact buf_ok_new| |exact buf_ok_new| |exact pool_ok_init].
Defined.

(** Joining two buffers.  [append_buffer] moves the fragments of the other
    buffer to the end: no byte is copied and no fragment allocated or lost. *)
Theorem append_buffer_correct other b :
  buf_ok b → buf_ok other → zlen (contents b) + zlen (contents other) < usize_size →
  ∃ b', append_buffer other b = Ok b' ∧ validate_buffer b' = true ∧
    contents b' = contents b ++ contents other ∧ nfrags b' = nfrags b + nfrags other.
Proof.
  intros Hb Ho Hlen. destruct (append_buffer_spec other b Hb Ho Hlen) as (b' & ? & ? & ? & ?).
  exists b'. split_and!; auto using buf_ok_validate.
Qed.

Lemma append_buffer_correct_witness :
  ∃ b', append_buffer NetBuffer_new NetBuffer_new = Ok b' ∧ validate_buffer b' = true ∧
    contents b' = [] ∧ nfrags b' = 0.
Proof. by apply (append_buffer_correct NetBuffer_new NetBuffer_new buf_ok_new buf_ok_new). Defined.

(** Preallocation.  [new_prealloc] makes a valid buffer of the given
    length out of the least number of fragments. *)
Theorem new_prealloc_correct s k n :
  0 ≤ n → pool_ok s k →
  runs (new_prealloc n) s (λ b s', validate_buffer b = true ∧ NetBuffer_len b = n ∧
    zlen (contents b) = n ∧ nfrags b = (n + 511) / FRAGMENT_SIZE ∧ pool_ok s' (nfrags b + k)).
Proof.
  intros. call new_prealloc_runs; try done. intros b s' (? & ? & ? & _ & ?).
  split_and!; [by apply buf_ok_validate|by rewrite buf_ok_len|done|done|done].
Qed.

Lemma new_prealloc_correct_witness :
  runs (new_prealloc 2048) pool_init (λ b s', validate_buffer b = true ∧ NetBuffer_len b = 2048 ∧
    zlen (contents b) = 2048 ∧ nfrags b = 4 ∧ pool_ok s' (nfrags b + 0)).
Proof. by apply (new_prealloc_correct pool_init 0 2048); [|exact pool_ok_init]. Defined.

(** The bytes of a preallocated buffer are those the fragments had before. *)
Lemma new_prealloc_keeps_old_bytes :
  ∃ b s, (old ← append_from_slice [1; 2; 3] NetBuffer_new; drop_buffer old;; new_prealloc 3) pool_init
    = Ok (b, s) ∧ contents b = [1; 2; 3].
Proof. do 2 eexists. split; [vm_compute; reflexivity|by vm_compute]. Qed.

(** The metrics report.  With [n] fragments in use it prints their memory as
    long as the counter of allocations has not wrapped around past that of
    frees; then the subtraction overflows and the report panics, although the
    counters still agree on [n]. *)
Theorem print_metrics_correct s n :
  pool_ok s n → 0 ≤ n < u32_size → buffers_created (METRICS s) * FRAGMENT_SIZE < u32_size →
  n * FRAGMENT_SIZE < u32_size →
  let m := METRICS s in
  print_metrics m =
    (if buffers_freed m <=? buffers_allocated m
     then Ok [packets_received m; packets_sent m; packets_retransmitted m; buffers_allocated m;
              buffers_freed m; buffers_created m; n / 2; buffers_created m / 2]
     else Panic).
Proof.
  intros [_ [q Hq] _ (Ha & Hf & _)] Hn Hc Hm m. fold m in Hq, Ha, Hf, Hc. unfold in_range in *.
  unfold print_metrics, checked_sub. destruct (Z.leb_spec (buffers_freed m) (buffers_allocated m)); [|done].
  assert (buffers_allocated m - buffers_freed m = n) as -> by nia. cbn [mbind outcome_bind].
  unfold buffer_count_to_memory. rewrite !(proj2 (Z.ltb_lt _ _)) by lia. cbn [mbind outcome_bind].
  change 1024 with (2 * 512). by rewrite !Z.div_mul_cancel_r by lia.
Qed.

Lemma print_metrics_correct_witness :
  print_metrics (METRICS_new <| buffers_allocated := 3 |> <| buffers_freed := 1 |> <| buffers_created := 16 |>) =
    Ok [0; 0; 0; 3; 1; 16; 1; 8] ∧
  print_metrics (METRICS_new <| buffers_allocated := 1 |> <| buffers_freed := 4294967295 |>
    <| buffers_created := 16 |>) = Panic.
Proof.
  assert (∀ a f, is_u32 a → is_u32 f → congr (a - f) 2 → pool_ok {| free_list := replicate 14 BufferFragment_new;
    METRICS := METRICS_new <| buffers_allocated := a |> <| buffers_freed := f |> <| buffers_created := 16 |> |} 2) as Hok.
  { intros a f Ha Hf Hc. split; [|exact Hc|by exists 0|by split_and!].
    apply Forall_replicate. split; [done|]. apply Forall_replicate. by split. }
  split.
  - apply (print_metrics_correct _ 2 (Hok 3 1 ltac:(by split) ltac:(by split) ltac:(by exists 0))); done.
  - apply (print_metrics_correct _ 2 (Hok 1 4294967295 ltac:(by split) ltac:(by split) ltac:(by exists (-1)))); done.
Defined.
