(* ===== verification/UtilProps.v ===== *)
(** * Properties of util.rs: byte order, sequence numbers, checksums *)

From S2P Require Import Prelude Util Buf BufSpec Checksum.
Local Open Scope Z_scope.

(** Byte order.  Storing an integer in network order and loading it again
    gives the integer back, whatever the slice held and whatever follows. *)
Theorem be_roundtrip v w a b c d l :
  is_u16 v → is_u32 w →
  (sl ← set_be16 v (a :: b :: l); get_be16 sl) = Ok v ∧
  (sl ← set_be32 w (a :: b :: c :: d :: l); get_be32 sl) = Ok w.
Proof.
  intros Hv Hw. rewrite set_be16_cons, set_be32_cons by done. cbn [mbind outcome_bind].
  by rewrite get_be16_be16, get_be32_be32.
Qed.

Lemma be_roundtrip_witness :
  (sl ← set_be16 0x1234 [0; 0; 9]; get_be16 sl) = Ok 0x1234 ∧
  (sl ← set_be32 0xdeadbeef [0; 0; 0; 0; 9]; get_be32 sl) = Ok 0xdeadbeef.
Proof.
  split; [apply (be_roundtrip 0x1234 0 0 0 0 0 [9])|apply (be_roundtrip 0 0xdeadbeef 0 0 0 0 [9])];
    by split.
Defined.

(** C38: sequence numbers.  Within a window of less than 2^31 after a base, the
    comparisons order wrapped sequence numbers as their distances from the
    base, and [wrapping_max] is the later of two. *)
Theorem seq_window base d e :
  0 ≤ d < 2147483648 → 0 ≤ e < 2147483648 →
  let a := u32_wrapping_add base d in
  let b := u32_wrapping_add base e in
  seq_gt a b = (e <? d) ∧ seq_lt a b = (d <? e) ∧ seq_le a b = (d <=? e) ∧ seq_ge a b = (e <=? d) ∧
  wrapping_max a b = u32_wrapping_add base (Z.max d e).
Proof.
  intros Hd He a b.
  assert (∀ x y, 0 ≤ x < 2147483648 → 0 ≤ y < 2147483648 →
    seq_gt (u32_wrapping_add base x) (u32_wrapping_add base y) = (y <? x)) as Hgt.
  { intros x y Hx Hy. apply eq_true_iff_eq. rewrite seq_gt_spec, Z.ltb_lt. unfold wrapping_add.
    rewrite <-Zminus_mod. replace (base + x - (base + y)) with (x - y) by lia.
    destruct (decide (y <= x)).
    - rewrite Z.mod_small by lia. lia.
    - rewrite <-(Z.mod_add _ 1), Z.mod_small by lia. lia. }
  unfold seq_lt, seq_le, seq_ge, wrapping_max, a, b. rewrite !Hgt by done.
  rewrite <-!Z.leb_antisym. split_and!; try done.
  destruct (Z.ltb_spec e d); f_equal; lia.
Qed.

Lemma seq_window_witness :
  seq_gt 5 4294967290 = true ∧ wrapping_max 5 4294967290 = 5.
Proof.
  destruct (seq_window 4294967290 11 0 ltac:(lia) ltac:(lia)) as (H & _ & _ & _ & H').
  split; [exact H|exact H'].
Defined.

(** Half the space apart, each of two numbers is not after the other: both
    [seq_le] and [seq_ge] hold although the numbers differ. *)
Lemma seq_antipodal a :
  let b := u32_wrapping_add a 2147483648 in
  seq_gt a b = false ∧ seq_gt b a = false ∧ seq_le a b = true ∧ seq_ge a b = true.
Proof.
  intros b. assert (seq_gt a b = false ∧ seq_gt b a = false) as [H1 H2].
  { split; apply not_true_iff_false; rewrite seq_gt_spec; unfold b, wrapping_add;
      rewrite ?Zminus_mod_idemp_r, ?Zminus_mod_idemp_l.
    - replace (a - (a + 2147483648)) with (-2147483648) by lia. vm_compute. by intros [].
    - replace (a + 2147483648 - a) with 2147483648 by lia. vm_compute. by intros []. }
  unfold seq_le, seq_ge. by rewrite H1, H2.
Qed.

(** C36: the Internet checksum.  On non-empty slices of up to 131068
    octets, the loop of RFC 1071 neither overflows nor fails: it computes the
    one's complement sum of the 16-bit words, and one sum can be continued
    with another. *)
Theorem ones_comp_correct c l k :
  is_u16 c → bytes_ok l → bytes_ok k → l ≠ [] → k ≠ [] → zlen l + zlen k ≤ 131068 →
  compute_ones_comp c l = Ok (ones_fold (c + word_sum l)) ∧
  (Z.Even (zlen l) → (sum ← compute_ones_comp c l; compute_ones_comp sum k) =
                       compute_ones_comp c (l ++ k)).
Proof.
  intros Hc Hl Hk Hnl Hnk Hz. pose proof (zlen_nonneg l). pose proof (zlen_nonneg k).
  pose proof (word_sum_bounds _ Hl). pose proof (word_sum_bounds _ Hk).
  rewrite (compute_ones_comp_spec c l) by (done || lia).
  rewrite (compute_ones_comp_spec c (l ++ k));
    [|by destruct l|by apply bytes_ok_app|done|rewrite zlen_app; lia].
  unfold in_range in Hc.
  split; [done|]. intros He. cbn [mbind outcome_bind].
  rewrite compute_ones_comp_spec by (done || lia || apply ones_fold_range; lia).
  rewrite ones_fold_add, word_sum_app by (done || lia). do 2 f_equal. lia.
Qed.

Lemma ones_comp_correct_witness :
  compute_ones_comp 0 [0xff; 0xff; 0; 2] = Ok 2 ∧
  (sum ← compute_ones_comp 0 [0xff; 0xff]; compute_ones_comp sum [0; 2]) = Ok 2.
Proof.
  destruct (ones_comp_correct 0 [0xff; 0xff] [0; 2]) as [_ H];
    [by split|bytes_solve|bytes_solve|done|done|by vm_compute|].
  rewrite H by (by exists 1). split; reflexivity.
Defined.

(** C37: the checksum of a packet.  Summing a buffer fragment by fragment gives
    the sum of its bytes, when no fragment but the last has an odd length. *)
Theorem buffer_checksum_correct b c :
  buf_ok b → even_layout b → contents b ≠ [] → is_u16 c → zlen (contents b) ≤ 65536 →
  compute_buffer_ones_comp c b = compute_ones_comp c (contents b).
Proof.
  intros Hb He Hne Hc Hlen. rewrite compute_buffer_ones_comp_spec by (done || lia).
  rewrite compute_ones_comp_spec; [done|done|by apply contents_ok|done|lia].
Qed.

(** A buffer of two fragments: the lengths given, and what they hold. *)
Definition two_fragments (l k : list Z) : NetBuffer :=
  let frag l := {| range_start := 0; range_end := zlen l; data := l ++ zeros (512 - zlen l) |} in
  {| fragments := [frag l; frag k]; buf_length := zlen l + zlen k |}.

Lemma two_fragments_ok l k :
  bytes_ok l → bytes_ok k → 0 < zlen l ≤ 512 → 0 < zlen k ≤ 512 →
  buf_ok (two_fragments l k) ∧ contents (two_fragments l k) = l ++ k.
Proof.
  intros Hl Hk Hzl Hzk.
  assert (∀ l, 0 < zlen l ≤ 512 → sub (l ++ zeros (512 - zlen l)) 0 (zlen l) = l) as Hsub.
  { intros x Hx. unfold sub. rewrite Z.sub_0_r. cbn [Z.to_nat drop].
    apply take_app_length'. unfold zlen in *. lia. }
  assert (∀ l, bytes_ok l → 0 < zlen l ≤ 512 →
    frag_ok {| range_start := 0; range_end := zlen l; data := l ++ zeros (512 - zlen l) |}) as Hf.
  { intros x Hx Hzx. split; [|cbn; lia]. split; cbn.
    - rewrite zlen_app, zlen_zeros; lia.
    - apply bytes_ok_app. split; [done|apply bytes_ok_zeros]. }
  assert (contents (two_fragments l k) = l ++ k) as Hc.
  { unfold contents, two_fragments. cbn [fragments]. rewrite !chain_bytes_cons.
    unfold frag_bytes. cbn [data range_start range_end]. rewrite !Hsub by done.
    change (chain_bytes []) with (@nil Z). by rewrite app_nil_r. }
  split; [|done]. split; [by repeat constructor; apply Hf|]. rewrite Hc. by rewrite zlen_app.
Qed.

Lemma buffer_checksum_correct_witness :
  compute_buffer_ones_comp 0 (two_fragments [1; 2] [3; 4; 5]) = Ok (0x0102 + 0x0304 + 0x0500).
Proof.
  destruct (two_fragments_ok [1; 2] [3; 4; 5]) as [Hb Hc]; [bytes_solve|bytes_solve|by split|by split|].
  rewrite (buffer_checksum_correct _ 0 Hb); [by rewrite Hc|by split; [exists 1|]|by rewrite Hc|by split|].
  rewrite Hc. by vm_compute.
Defined.

(** A fragment of odd length that is not the last: the next byte is summed as
    the high half of a word of its own, and the sum is wrong. *)
Lemma buffer_checksum_odd_fragment :
  compute_buffer_ones_comp 0 (two_fragments [1] [2]) = Ok 0x0300 ∧
  compute_ones_comp 0 (contents (two_fragments [1] [2])) = Ok 0x0102.
Proof. by split; vm_compute. Qed.

(** An empty slice: [slice.len() - 1] overflows. *)
Lemma ones_comp_empty c : compute_ones_comp c [] = Panic.
Proof. apply compute_ones_comp_nil. Qed.

(** The pseudo header.  For two addresses of the same version the sum is
    that of the addresses, the length and the protocol laid out as RFC 793 and
    RFC 2460 say; for an IPv4 source with an IPv6 destination the copy panics. *)
Theorem pseudo_header_correct src dst len proto :
  IPAddr_ok src → IPAddr_ok dst → is_u8 proto →
  (is_v4 src = is_v4 dst →
   compute_pseudo_header_checksum src dst len proto =
     compute_ones_comp 0 (pseudo_header_bytes src dst len proto)) ∧
  (is_v4 src = true → is_v4 dst = false →
   compute_pseudo_header_checksum src dst len proto = Panic).
Proof.
  intros Hs Hd Hp. split; [|intros; by apply compute_pseudo_header_checksum_mixed].
  intros Hv. rewrite compute_pseudo_header_checksum_spec by done.
  assert (zlen (pseudo_header_bytes src dst len proto) ≤ 40 ∧
          0 < zlen (pseudo_header_bytes src dst len proto)) as [? ?].
  { unfold pseudo_header_bytes. rewrite !zlen_app, !zlen_octets by done.
    rewrite Hv. destruct dst; simpl; unfold be16, be32; zlen_simpl; lia. }
  rewrite compute_ones_comp_spec; [done| |by apply pseudo_header_bytes_ok|by split|lia].
  intros E. rewrite E in *. change (zlen (@nil Z)) with 0 in *. lia.
Qed.

Lemma pseudo_header_correct_witness :
  compute_pseudo_header_checksum (V4 [10; 0; 0; 1]) (V4 [10; 0; 0; 2]) 20 6 = Ok 0x141d ∧
  compute_pseudo_header_checksum (V4 [10; 0; 0; 1]) (V6 (zeros 16)) 20 6 = Panic.
Proof.
  assert (∀ a, IPAddr_ok (V4 [10; 0; 0; a]) ↔ is_u8 a) as Ha.
  { intros a. unfold IPAddr_ok. split; [|intros; split; [done|bytes_solve]].
    intros [_ H]. bytes_solve. by rewrite !Forall_cons_iff in H; destruct_and! H. }
  split.
  - rewrite (proj1 (pseudo_header_correct (V4 [10; 0; 0; 1]) (V4 [10; 0; 0; 2]) 20 6
      ltac:(by apply Ha) ltac:(by apply Ha) ltac:(by split))); done.
  - apply (proj2 (pseudo_header_correct (V4 [10; 0; 0; 1]) (V6 (zeros 16)) 20 6
      ltac:(by apply Ha) ltac:(split; [done|apply bytes_ok_zeros]) ltac:(by split))); done.
Defined.
