(* ===== verification/TextProps.v ===== *)
(** * Properties of text: the printed form of an address says which it is

    [parse_addr] reads back what Display writes.  (An IPv6 address is eight
    groups of four hexadecimal digits between colons; a group of zeros is
    printed as nothing.) *)

From S2P Require Import Prelude Util Text.
From stdpp Require Import strings.
Local Open Scope Z_scope.

(** * Reading an address *)

Definition colon : Ascii.ascii := Ascii.ascii_of_nat 58.
Definition dot : Ascii.ascii := Ascii.ascii_of_nat 46.

(** [s] cut at every [c]. *)
Fixpoint split_on (c : Ascii.ascii) (s : string) : list string :=
  match s with
  | "" => [""]
  | String a s =>
      if Ascii.eqb a c then "" :: split_on c s
      else match split_on c s with
           | w :: ws => String a w :: ws
           | [] => [String a ""]
           end
  end%string.

Fixpoint free_of (c : Ascii.ascii) (s : string) : bool :=
  match s with
  | "" => true
  | String a s => negb (Ascii.eqb a c) && free_of c s
  end%string.

(** The octet that is printed as [s]. *)
Definition octet_of (print : Z → string) (s : string) : option Z :=
  find (λ n, String.eqb (print n) s) (seqZ 0 256).

Definition parse_group (s : string) : option (list Z) :=
  match s with
  | "" => Some [0; 0]
  | String a (String b s) =>
      hi ← octet_of hex_byte (String a (String b "")); lo ← octet_of hex_byte s; Some [hi; lo]
  | _ => None
  end%string.

Fixpoint collect {A : Type} (l : list (option A)) : option (list A) :=
  match l with
  | [] => Some []
  | o :: l => a ← o; rest ← collect l; Some (a :: rest)
  end.

Definition parse_addr (s : string) : option IPAddr :=
  match split_on colon s with
  | [s] => V4 <$> collect (map (octet_of dec_byte) (split_on dot s))
  | groups => (λ l, V6 (concat l)) <$> collect (map parse_group groups)
  end.

(** * Lemmas *)

Lemma split_on_free c s : free_of c s = true → split_on c s = [s].
Proof.
  induction s as [|a s IH]; cbn -[Ascii.eqb]; [done|]. intros [Ha Hs]%andb_true_iff.
  apply negb_true_iff in Ha. by rewrite Ha, IH.
Qed.

Lemma split_on_app c s t : free_of c s = true → split_on c (s +:+ String c t) = s :: split_on c t.
Proof.
  induction s as [|a s IH].
  - intros _. change (split_on c ("" +:+ String c t)) with (split_on c (String c t)).
    cbn -[Ascii.eqb]. by rewrite Ascii.eqb_refl.
  - change (String a s +:+ String c t) with (String a (s +:+ String c t)). cbn -[Ascii.eqb].
    intros [Ha Hs]%andb_true_iff. apply negb_true_iff in Ha. by rewrite Ha, IH.
Qed.

Lemma free_of_app c s t : free_of c (s +:+ t) = free_of c s && free_of c t.
Proof.
  induction s as [|a s IH]; [done|]. change (String a s +:+ t) with (String a (s +:+ t)).
  cbn -[Ascii.eqb]. by rewrite IH, andb_assoc.
Qed.

(** A fact about every octet. *)
Lemma all_octets (p : Z → bool) : forallb p (seqZ 0 256) = true → ∀ n, is_u8 n → p n = true.
Proof.
  intros H n Hn. rewrite forallb_forall in H. apply H, list_elem_of_In, elem_of_seqZ.
  unfold in_range in Hn. lia.
Qed.

Lemma octet_of_dec n : is_u8 n → octet_of dec_byte (dec_byte n) = Some n.
Proof.
  intros Hn. pose proof (all_octets (λ n, bool_decide (octet_of dec_byte (dec_byte n) = Some n))
    ltac:(by vm_compute) n Hn) as H. by apply bool_decide_eq_true in H.
Qed.

Lemma octet_of_hex n : is_u8 n → octet_of hex_byte (hex_byte n) = Some n.
Proof.
  intros Hn. pose proof (all_octets (λ n, bool_decide (octet_of hex_byte (hex_byte n) = Some n))
    ltac:(by vm_compute) n Hn) as H. by apply bool_decide_eq_true in H.
Qed.

Lemma octet_text_free n : is_u8 n →
  free_of colon (dec_byte n) = true ∧ free_of dot (dec_byte n) = true ∧ free_of colon (hex_byte n) = true.
Proof.
  intros Hn. pose proof (all_octets (λ n, free_of colon (dec_byte n) && free_of dot (dec_byte n) &&
    free_of colon (hex_byte n)) ltac:(by vm_compute) n Hn) as H. cbn beta in H.
  rewrite !andb_true_iff in H. tauto.
Qed.

Lemma append_empty s : s +:+ "" = s.
Proof. induction s as [|a s IH]; [done|exact (f_equal _ IH)]. Qed.

(** The text of a group. *)
Definition group_text (hi lo : Z) : string :=
  if bool_decide ([hi; lo] = [0; 0]) then "" else hex_byte hi +:+ hex_byte lo.

Lemma parse_group_text hi lo : is_u8 hi → is_u8 lo → parse_group (group_text hi lo) = Some [hi; lo].
Proof.
  intros Hh Hl. unfold group_text. case_bool_decide as E; [by injection E as -> ->|].
  change (parse_group _) with
    (hi ← octet_of hex_byte (hex_byte hi); lo ← octet_of hex_byte (hex_byte lo); Some [hi; lo]).
  by rewrite !octet_of_hex.
Qed.

Lemma group_text_free hi lo : is_u8 hi → is_u8 lo → free_of colon (group_text hi lo) = true.
Proof.
  intros Hh Hl. unfold group_text. case_bool_decide; [done|]. rewrite free_of_app.
  destruct (octet_text_free hi Hh) as (_ & _ & ->). by destruct (octet_text_free lo Hl) as (_ & _ & ->).
Qed.

Lemma fmt_v4 a b c d :
  IPAddr_fmt (V4 [a; b; c; d]) =
    Ok (dec_byte a +:+ String dot (dec_byte b +:+ String dot (dec_byte c +:+ String dot (dec_byte d)))).
Proof. done. Qed.

Lemma fmt_v6 a0 a1 a2 a3 a4 a5 a6 a7 b0 b1 b2 b3 b4 b5 b6 b7 :
  IPAddr_fmt (V6 [a0; b0; a1; b1; a2; b2; a3; b3; a4; b4; a5; b5; a6; b6; a7; b7]) =
    Ok (group_text a0 b0 +:+ String colon (group_text a1 b1 +:+ String colon (group_text a2 b2 +:+ String colon
       (group_text a3 b3 +:+ String colon (group_text a4 b4 +:+ String colon (group_text a5 b5 +:+ String colon
       (group_text a6 b6 +:+ String colon (group_text a7 b7 +:+ "")))))))).
Proof. done. Qed.

Lemma parse_v4 a b c d :
  is_u8 a → is_u8 b → is_u8 c → is_u8 d →
  parse_addr (dec_byte a +:+ String dot (dec_byte b +:+ String dot (dec_byte c +:+ String dot (dec_byte d)))) =
    Some (V4 [a; b; c; d]).
Proof.
  intros Ha Hb Hc Hd.
  destruct (octet_text_free a Ha) as (Ca & Da & _), (octet_text_free b Hb) as (Cb & Db & _),
    (octet_text_free c Hc) as (Cc & Dc & _), (octet_text_free d Hd) as (Cd & Dd & _).
  unfold parse_addr. rewrite split_on_free.
  - rewrite !split_on_app, split_on_free by done. cbn [map]. by rewrite !octet_of_dec.
  - rewrite free_of_app, Ca. change (free_of colon (String dot ?s)) with (free_of colon s).
    rewrite free_of_app, Cb. change (free_of colon (String dot ?s)) with (free_of colon s).
    by rewrite free_of_app, Cc.
Qed.

Lemma parse_v6 a0 a1 a2 a3 a4 a5 a6 a7 b0 b1 b2 b3 b4 b5 b6 b7 :
  is_u8 a0 → is_u8 a1 → is_u8 a2 → is_u8 a3 → is_u8 a4 → is_u8 a5 → is_u8 a6 → is_u8 a7 →
  is_u8 b0 → is_u8 b1 → is_u8 b2 → is_u8 b3 → is_u8 b4 → is_u8 b5 → is_u8 b6 → is_u8 b7 →
  parse_addr (group_text a0 b0 +:+ String colon (group_text a1 b1 +:+ String colon (group_text a2 b2 +:+ String colon
       (group_text a3 b3 +:+ String colon (group_text a4 b4 +:+ String colon (group_text a5 b5 +:+ String colon
       (group_text a6 b6 +:+ String colon (group_text a7 b7 +:+ "")))))))) =
    Some (V6 [a0; b0; a1; b1; a2; b2; a3; b3; a4; b4; a5; b5; a6; b6; a7; b7]).
Proof.
  intros. unfold parse_addr.
  assert (free_of colon (group_text a7 b7 +:+ "") = true) as Hlast by (rewrite free_of_app; by rewrite group_text_free).
  rewrite !split_on_app by (by apply group_text_free). rewrite (split_on_free _ _ Hlast). cbn [map].
  rewrite !parse_group_text by done.
  by rewrite append_empty, parse_group_text.
Qed.

(** C39: an address is printed, and what is printed is the text of no other
    address. *)
Theorem address_text a : IPAddr_ok a → ∃ s, IPAddr_fmt a = Ok s ∧ parse_addr s = Some a.
Proof.
  destruct a as [l|l]; intros [Hl Hb]; unfold zlen, bytes_ok in *.
  - destruct l as [|a [|b [|c [|d [|]]]]]; cbn in Hl; try lia.
    rewrite !Forall_cons_iff in Hb. destruct_and!. rewrite fmt_v4. eexists. split; [done|].
    by apply parse_v4.
  - do 17 (destruct l as [|? l]; cbn in Hl; try lia).
    rewrite !Forall_cons_iff in Hb. destruct_and!. rewrite fmt_v6. eexists. split; [done|].
    by apply parse_v6.
Qed.

Lemma address_text_witness : ∃ s, IPAddr_fmt (V4 [10; 0; 0; 2]) = Ok s ∧ parse_addr s = Some (V4 [10; 0; 0; 2]).
Proof. apply (address_text (V4 [10; 0; 0; 2])). split; [done|bytes_solve]. Defined.
