(* ===== verification/TestHost.v ===== *)
(** * A concrete host, for the examples

    A network interface, addresses, buffers and states on which the theorems
    are applied. *)

From S2P Require Import Prelude Util Buf BufSpec Netif Ip Timer Reassembler Tcp TcpSpec BufProps.
From S2P Require Udp.
From stdpp Require Import gmap.
Local Open Scope Z_scope.

(** Writes always succeed; every packet received is the four octets 1 2 3 4. *)
#[export] Instance test_tun : Tun := {|
  tun_send _ vecs := 1 + zlen (concat vecs);
  tun_recv _ len := (Z.min len 4, take (Z.to_nat (Z.min len 4)) [1; 2; 3; 4]);
|}.

#[export] Instance test_tun_ok : TunOk.
Proof.
  split.
  - intros history vecs. cbn. pose proof (zlen_nonneg (concat vecs)). lia.
  - intros n len Hlen. cbn. split_and!; [lia|lia| |apply bytes_ok_take; bytes_solve].
    rewrite zlen_take. change (zlen [1; 2; 3; 4]) with 4. lia.
Qed.

Definition test_v4 : IPAddr := V4 [10; 0; 0; 2].
Definition test_v6 : IPAddr := V6 [0xfe; 0x80; 0; 0; 0; 0; 0; 0; 0; 0; 0; 0; 0; 0; 0; 2].
Definition peer_v4 : IPAddr := V4 [10; 0; 0; 1].
Definition peer_v6 : IPAddr := V6 [0xfe; 0x80; 0; 0; 0; 0; 0; 0; 0; 0; 0; 0; 0; 0; 0; 1].

Definition test_net : NetState :=
  {| bufs := pool_init; LOCAL_IPV4 := test_v4; LOCAL_IPV6 := test_v6; wire := [];
     frames_received := 0 |}.
Definition test_ip : IpState := {| netif := test_net; NEXT_PACKET_ID := 5 |}.

Lemma test_addrs_ok :
  IPAddr_ok test_v4 ∧ IPAddr_ok test_v6 ∧ IPAddr_ok peer_v4 ∧ IPAddr_ok peer_v6.
Proof. split_and!; (split; [done|bytes_solve]). Qed.

Lemma test_net_ok : net_ok test_net 0.
Proof. destruct test_addrs_ok as (? & ? & _ & _). split; [exact pool_ok_init|by split..]. Qed.

Lemma test_ip_ok : ip_ok test_ip 0.
Proof. split; [exact test_net_ok|by split]. Qed.

(** A buffer of one fragment, not yet counted by any pool. *)
Definition one_fragment (l : list Z) : NetBuffer :=
  {| fragments := [{| range_start := 0; range_end := zlen l; data := l ++ zeros (512 - zlen l) |}];
     buf_length := zlen l |}.

Lemma one_fragment_ok l :
  bytes_ok l → 0 < zlen l ≤ 512 →
  buf_ok (one_fragment l) ∧ contents (one_fragment l) = l ∧ header (one_fragment l) = Ok (l ++ []).
Proof.
  intros Hl Hz.
  assert (sub (l ++ zeros (512 - zlen l)) 0 (zlen l) = l) as Hsub.
  { unfold sub. rewrite Z.sub_0_r. cbn [Z.to_nat drop]. apply take_app_length'. unfold zlen. lia. }
  assert (frag_ok {| range_start := 0; range_end := zlen l; data := l ++ zeros (512 - zlen l) |}) as Hf.
  { split; [|cbn; lia]. split; cbn; [rewrite zlen_app, zlen_zeros; lia|].
    apply bytes_ok_app. split; [done|apply bytes_ok_zeros]. }
  assert (contents (one_fragment l) = l) as Hc.
  { unfold contents, one_fragment. cbn [fragments]. rewrite chain_bytes_cons. unfold frag_bytes.
    cbn [data range_start range_end]. rewrite Hsub. apply app_nil_r. }
  split; [|split; [done|]].
  - split; [by constructor|]. by rewrite Hc.
  - rewrite (header_cons _ [] (one_fragment l) eq_refl Hf). unfold frag_bytes. cbn.
    by rewrite Hsub, app_nil_r.
Qed.

(** A pool from which [n] fragments have been taken. *)
Definition pool_taken (n : Z) : BufState :=
  {| free_list := []; METRICS := METRICS_new <| buffers_created := n |> <| buffers_allocated := n |> |}.

Lemma pool_taken_ok n : is_u32 n → pool_ok (pool_taken n) n.
Proof.
  intros Hn. split; cbn; [by apply Forall_nil|exists 0; unfold PerfCounter_new; lia| |by split_and!].
  exists 0. change (zlen (@nil BufferFragment)) with 0. lia.
Qed.

Definition taken_ip (n : Z) : IpState :=
  test_ip <| netif := test_net <| bufs := pool_taken n |> |>.

Lemma taken_ip_ok n : is_u32 n → ip_ok (taken_ip n) n.
Proof.
  intros Hn. split; [|by split]. destruct test_addrs_ok as (? & ? & _ & _).
  split; [by apply pool_taken_ok|by split..].
Qed.

(** * A connection *)

#[export] Instance test_random : Random := {| random_u16 _ := 7; random_u32 _ := 1000 |}.

#[export] Instance test_random_ok : RandomOk.
Proof. by split. Qed.

(** A connection to port 80 of the peer, whose next octet has the number 500;
    this side's next octet has the number 1001. *)
Definition test_socket (st : TCPState) (window : Z) (queue : NetBuffer) : TCPSocketState := {|
  remote_ip := peer_v4; remote_port := 80; local_port := 49159; state := st;
  receive_next_seq := 500; receive_queue := NetBuffer_new;
  reassembler := {| next_sequence := 500; out_of_order := [] |};
  delayed_ack_timer_id := -1; num_delayed_acks := 0;
  send_unacked := u32_wrapping_sub 1001 (zlen (contents queue)); send_next_seq := 1001;
  send_window := window; send_last_win_seq := 499; send_last_win_ack := 1001; send_mss := 536;
  retransmit_queue := queue; retransmit_timer_id := -1; response_timer_id := -1;
  request_retry_count := 0; socket_queue := []; |}.

Definition test_tcp (n : Z) (g : TCPSocketState) : TcpState := {|
  Tcp.ip := taken_ip n; PORT_MAP := {[ (peer_v4, 80, 49159) := 0%nat ]}; sockets := [g];
  timers := TimerState_init 0; notified := []; random_drawn := O |}.

Lemma test_socket_wf st w q : buf_ok q → socket_wf (test_socket st w q).
Proof.
  intros Hq. destruct test_addrs_ok as (_ & _ & ? & _).
  split; try exact buf_ok_new; try done. split_and!; [done|apply wrapping_sub_range; lia|done].
Qed.

Lemma test_tcp_ok n g k :
  is_u32 n → socket_wf g → socket_frags g + k = n → tcp_ok (test_tcp n g) k.
Proof.
  intros Hn Hg Hk. split; [|by constructor|done]. change (sockets_frags (sockets _)) with (socket_frags g + 0).
  rewrite Z.add_0_r, Hk. by apply taken_ip_ok.
Qed.

(** The peer's side: its interface has the peer's address. *)
Definition peer_ip (n : Z) : IpState :=
  (taken_ip n) <| netif := (netif (taken_ip n)) <| LOCAL_IPV4 := peer_v4 |> |>.

Lemma peer_ip_ok n : is_u32 n → ip_ok (peer_ip n) n.
Proof.
  intros Hn. destruct (taken_ip_ok n Hn) as [[? _ ?] ?]. destruct test_addrs_ok as (_ & _ & ? & _).
  by split; [split|].
Qed.

(** A UDP socket for port 8000. *)
Definition test_udp (i : IpState) : Udp.UdpState :=
  {| Udp.ip := i; Udp.PORT_MAP := {[ 8000 := 0%nat ]}; Udp.sockets := [Udp.UDPSocketState_new 8000]; Udp.notified := [] |}.

Lemma test_udp_ok i k : ip_ok i k → Udp.udp_ok (test_udp i) k.
Proof.
  intros Hi. split; cbn.
  - exact Hi.
  - constructor; [|constructor]. split; [by split|constructor].
  - intros p h. destruct (decide (p = 8000)) as [->|Hne].
    + rewrite lookup_singleton_eq. destruct h as [|[|h]]; cbn; naive_solver.
    + rewrite lookup_singleton_ne by done. destruct h as [|[|h]]; cbn; naive_solver.
Qed.

(** The peer's side of the connection, which expects the octet 1001, and its
    stack, with a UDP socket for port 8000. *)
Definition peer_socket : TCPSocketState := {|
  remote_ip := test_v4; remote_port := 49159; local_port := 80; state := Established;
  receive_next_seq := 1001; receive_queue := NetBuffer_new;
  reassembler := {| next_sequence := 1001; out_of_order := [] |};
  delayed_ack_timer_id := -1; num_delayed_acks := 0; send_unacked := 500; send_next_seq := 500;
  send_window := 4096; send_last_win_seq := 1000; send_last_win_ack := 500; send_mss := 536;
  retransmit_queue := NetBuffer_new; retransmit_timer_id := -1; response_timer_id := -1;
  request_retry_count := 0; socket_queue := []; |}.

Lemma peer_socket_wf : socket_wf peer_socket.
Proof. destruct test_addrs_ok as (? & _). by split; try exact buf_ok_new. Qed.

(** A device that delivers [frames], one after the other. *)
Definition replay (frames : list (list Z)) : Tun := {|
  tun_send _ vecs := 1 + zlen (concat vecs);
  tun_recv n len := let f := take (Z.to_nat len) (nth n frames [0]) in (zlen f, f);
|}.

Lemma replay_ok frames :
  Forall (λ f, f ≠ [] ∧ bytes_ok f) frames → @TunOk (replay frames).
Proof.
  intros Hf. split.
  - intros history vecs. cbn. pose proof (zlen_nonneg (concat vecs)). lia.
  - intros n len Hlen. cbn. set (f := nth n frames [0]).
    assert (f ≠ [] ∧ bytes_ok f) as [Hne Hb].
    { unfold f. destruct (nth_in_or_default n frames [0]) as [Hin| ->]; [|split; [done|bytes_solve]].
      rewrite Forall_forall in Hf. by apply Hf, list_elem_of_In. }
    assert (0 < zlen f) by (destruct f; [done|zlen_solve]).
    split_and!; [rewrite zlen_take; lia|rewrite zlen_take; lia|done|by apply bytes_ok_take].
Qed.
