(* ===== verification/TestStack.v ===== *)
(** * Concrete hosts, for the examples of two hosts

    A host without sockets, and what runs on concrete hosts send. *)

From S2P Require Import Prelude Util Buf BufSpec Checksum Timer Netif Ip.
From S2P Require Udp.
From S2P Require Import Reassembler TcpOptions Tcp Stack TcpSpec StackSpec TestHost.
From stdpp Require Import gmap.
Local Open Scope Z_scope.

(** A host without sockets. *)
Definition idle_host : StackState := {|
  Stack.ip := taken_ip 0; udp_port_map := ∅; Stack.udp_sockets := []; udp_notified := [];
  tcp_port_map := ∅; Stack.tcp_sockets := []; Stack.tcp_timers := TimerState_init 0;
  tcp_notified := []; Stack.random_drawn := O |}.

Lemma host_ok i m l :
  ip_ok i 0 → Forall socket_wf l → sockets_frags l = 0 →
  stack_ok (idle_host <| Stack.ip := i |> <| tcp_port_map := m |> <| Stack.tcp_sockets := l |>).
Proof.
  intros Hi Hl Hf. rewrite <-Hf in Hi. split.
  - split; [exact Hi|constructor|]. intros p h. cbn. by rewrite lookup_empty.
  - split; [|exact Hl|done]. change (ip_ok i (sockets_frags l + 0)). by rewrite Z.add_0_r.
Qed.

(** What a run sends, and how many frames it reads. *)
Definition traffic {A} (m : ST StackState A) (s : StackState) : option (list (list Z) * nat) :=
  match m s with
  | Ok (_, s') => Some (wire (netif (Stack.ip s')), frames_received (netif (Stack.ip s')))
  | _ => None
  end.

Lemma traffic_result {A} (m : ST StackState A) s a s' fs n :
  traffic m s = Some (fs, n) → m s = Ok (a, s') →
  wire (netif (Stack.ip s')) = fs ∧ frames_received (netif (Stack.ip s')) = n.
Proof. unfold traffic. intros H E. rewrite E in H. by injection H. Qed.

(** The last frame that a run sends. *)
Definition last_sent {A} (m : ST StackState A) (s : StackState) : list Z :=
  match traffic m s with Some (fs, _) => List.last fs [] | None => [] end.

Lemma bind_result {A B} (m : ST StackState A) (f : A → ST StackState B) s a s1 b s2 :
  m s = Ok (a, s1) → f a s1 = Ok (b, s2) → (m ≫= f) s = Ok (b, s2).
Proof. intros H1 H2. unfold mbind, st_bind. by rewrite H1. Qed.

Lemma runs_traced {A} (m : ST StackState A) s (Q Q' : A → StackState → Prop) :
  runs m s Q → (∀ a s', m s = Ok (a, s') → Q a s' → Q' a s') → runs m s Q'.
Proof. intros H HQ. apply runs_Ok in H as (a & s' & E & H). apply runs_Ok. eauto. Qed.

Abbreviation turn T := (@packet_receive_step T test_random).
