(* ===== verification/TimerProps.v ===== *)
(** * Properties of timer.rs, alone and with the timers of tcp.rs *)

From S2P Require Import Prelude Util Buf BufSpec Timer Netif Ip Tcp TcpSpec TcpControl TimerRound TestHost.
Local Open Scope Z_scope.

(** Setting a timer.  Until 2^31 timers have been made, [set_timer] returns
    a positive id that no pending timer has, appends a timer that expires the
    given time from now, and keeps ids distinct. *)
Theorem set_timer_correct {C} (s : TimerState C) timeout c :
  timers_ok s → NEXT_TIMER_ID s < 2147483648 → current_time_ms s + timeout < u64_size →
  runs (set_timer timeout c) s (λ timer_id s', timers_ok s' ∧
    0 < timer_id < 2147483648 ∧ timer_id ∉ map (@id C) (PENDING_TIMERS s) ∧
    PENDING_TIMERS s' = PENDING_TIMERS s ++
      [{| absolute_timeout_ms := current_time_ms s + timeout; closure := Some c; id := timer_id |}]).
Proof.
  intros Hok Hn Ht. eapply runs_mono.
  { apply runs_and; [by apply set_timer_ok|by apply set_timer_runs]. }
  cbv beta. intros i s' [[Hok' Hid] (_ & _ & ->)]. pose proof (timers_next _ Hok).
  split_and!; [done|lia|lia| |done].
  intros Hin. apply list_elem_of_fmap in Hin as (t & Heq & Hin).
  pose proof (timers_ids _ Hok) as Hids. rewrite Forall_forall in Hids.
  specialize (Hids t Hin). lia.
Qed.

Lemma set_timer_correct_witness :
  runs (set_timer 100 7) (TimerState_init (C := Z) 1000) (λ timer_id s', timers_ok s' ∧
    0 < timer_id < 2147483648 ∧ timer_id ∉ [] ∧
    PENDING_TIMERS s' = [{| absolute_timeout_ms := 1100; closure := Some 7; id := timer_id |}]).
Proof. apply (set_timer_correct (TimerState_init 1000) 100 7); [apply timers_ok_init|done|done]. Defined.

(** The id counter runs through all 32-bit values, so that an id can be 0: ids
    are not always positive. *)
Lemma set_timer_id_zero {C} (s : TimerState C) timeout c :
  NEXT_TIMER_ID s = 2147483648 → current_time_ms s + timeout < u64_size →
  runs (set_timer timeout c) s (λ timer_id _, timer_id = 0).
Proof. intros Hn Ht. call set_timer_runs; [done|]. intros i s' (_ & -> & _). by rewrite Hn. Qed.

(** Cancelling.  [cancel_timer] answers whether a timer with the id was
    pending; it removes that timer and no other, although it may reorder the
    list. *)
Theorem cancel_timer_correct {C} (s : TimerState C) timer_id :
  timers_ok s →
  runs (cancel_timer timer_id) s (λ b s', timers_ok s' ∧
    b = bool_decide (timer_id ∈ map (@id C) (PENDING_TIMERS s)) ∧
    if b then ∃ t, id t = timer_id ∧ PENDING_TIMERS s ≡ₚ t :: PENDING_TIMERS s' ∧
                   timer_id ∉ map (@id C) (PENDING_TIMERS s')
    else s' = s).
Proof.
  intros Hok. eapply runs_mono.
  { apply runs_and; [by apply cancel_timer_ok|apply cancel_timer_runs]. }
  cbv beta. intros b s' [(Hok' & Hb & Hn) H]. split; [done|]. split; [done|]. destruct b.
  - destruct H as (t & ? & ? & _). eauto.
  - apply H.
Qed.

(** Two timers with ids 1 and 2. *)
Definition two_timers : TimerState Z := {|
  PENDING_TIMERS := [{| absolute_timeout_ms := 10; closure := Some 7; id := 1 |};
                     {| absolute_timeout_ms := 20; closure := Some 8; id := 2 |}];
  NEXT_TIMER_ID := 3;
  current_time_ms := 15;
|}.

Lemma two_timers_ok : timers_ok two_timers.
Proof.
  split; cbn; [|repeat constructor; cbn; lia|repeat constructor; cbn; eauto|lia].
  apply (bool_decide_unpack _). by vm_compute.
Qed.

Lemma cancel_timer_correct_witness :
  runs (cancel_timer 1) two_timers (λ b s', timers_ok s' ∧
    b = bool_decide (1 ∈ [1; 2]) ∧
    if b then ∃ t, id t = 1 ∧ PENDING_TIMERS two_timers ≡ₚ t :: PENDING_TIMERS s' ∧
                   1 ∉ map (@id Z) (PENDING_TIMERS s')
    else s' = two_timers).
Proof. apply (cancel_timer_correct two_timers 1 two_timers_ok). Defined.

(** C34: a round of the timer thread, with the closures of tcp.rs.  In a state in
    which the closures of the pending timers return (their sockets can send, no
    response timer is left over from a state in which its expiry is an error,
    and enough ids are left), the round ends.  It has run the closure of every
    timer that was expired, each once and in the order of the list, each after
    its timer was taken out of the list, and no other closure.  The timers that
    had not expired are still pending, in their order, followed by those the
    closures set, of which none has expired; and the state is as good as it was. *)
Theorem tick_correct `{!Tun, !TunOk, !Random} s k :
  round_ok s k →
  let now := current_time_ms (timers s) in
  ∃ n, ∀ fuel, (n ≤ fuel)%nat → runs (tick run_timer fuel) s (λ _ s', ∃ new,
    round_ok s' k ∧ fired run_timer (filter (expired now) (PENDING_TIMERS (timers s))) s s' ∧
    PENDING_TIMERS (timers s') =
      filter (λ t, expired now t = false) (PENDING_TIMERS (timers s)) ++ new ∧
    Forall (λ t, expired now t = false) new).
Proof.
  intros Hs now.
  destruct (tick_loop_runs run_timer now
    (λ s', round_ok s' k ∧ current_time_ms (timers s') = now)) with
    (rest := PENDING_TIMERS (timers s)) (s := s) (kept := @nil (Timer TimerAction))
    (extra := @nil (Timer TimerAction)) as [n Hn];
    [|done|by rewrite app_nil_r|done|].
  - intros s1 i t [Hs1 Hc] Hi He. rewrite <-Hc in He |- *.
    exact (round_step s1 k i t Hs1 Hi He).
  - exists n. intros fuel Hf. unfold tick. run. eapply runs_mono; [by apply Hn|]. cbv beta.
    intros _ s' (new & [Hs' _] & Hfi & Hp & Hnf). by exists new.
Qed.

(** A socket that waits for the acknowledgement of three octets and its FIN, at
    a time when its retransmission and its response timer have expired and a
    delayed acknowledgement has not. *)
Definition waiting_socket : TCPSocketState :=
  (test_socket LastAck 4096 (one_fragment [7; 8; 9])) <| response_timer_id := 2 |>.

Definition timer_at (time : Z) (a : TimerAction) (i : Z) : Timer TimerAction :=
  {| absolute_timeout_ms := time; closure := Some a; id := i |}.

Definition waiting_tcp : TcpState := (test_tcp 1 waiting_socket) <| timers := {|
  PENDING_TIMERS := [timer_at 10 (Retransmit 0) 1; timer_at 90 (DelayedAck 0) 3;
                     timer_at 40 (ResponseTimeout 0) 2];
  NEXT_TIMER_ID := 4;
  current_time_ms := 50;
|} |>.

Lemma waiting_tcp_ok : round_ok waiting_tcp 0.
Proof.
  destruct (one_fragment_ok [7; 8; 9]) as (Hb & Hc & _); [bytes_solve|by split|].
  assert (tcp_ok (test_tcp 1 waiting_socket) 0) as [? ? ?].
  { apply test_tcp_ok; [by split|by apply response_timer_wf, test_socket_wf|done]. }
  split; [by split| |by vm_compute|].
  - split; cbn; [|repeat constructor; cbn; lia|repeat constructor; cbn; eauto|lia].
    apply (bool_decide_unpack _). by vm_compute.
  - assert (can_send waiting_socket) by (by vm_compute).
    repeat constructor; (eexists _, waiting_socket; split_and!; [done|done|done|]); cbn; [|done|].
    + rewrite Hc. by split.
    + split; [done|]. unfold unexpected_timeout. naive_solver.
Qed.

Lemma tick_correct_witness :
  ∃ n, ∀ fuel, (n ≤ fuel)%nat → runs (tick run_timer fuel) waiting_tcp (λ _ s', ∃ new,
    round_ok s' 0 ∧
    fired run_timer [timer_at 10 (Retransmit 0) 1; timer_at 40 (ResponseTimeout 0) 2] waiting_tcp s' ∧
    PENDING_TIMERS (timers s') = [timer_at 90 (DelayedAck 0) 3] ++ new ∧
    Forall (λ t, expired 50 t = false) new).
Proof. exact (tick_correct waiting_tcp 0 waiting_tcp_ok). Defined.

(** C35: the scan ends.  If the closures keep an invariant under which each of
    them returns and leaves no more expired timers than there were, one round
    of the timer thread terminates, whatever else closures set or cancel.  The
    closures of tcp.rs meet the condition in the states of [round_ok]. *)
Theorem tick_terminates {C T} `{!Lens T (TimerState C)} (run : C → ST T unit) (I : T → Prop) s :
  let now := current_time_ms (view s) in
  (∀ t s i, I s → PENDING_TIMERS (view s) !! i = Some t → expired now t = true →
    ∃ c, closure t = Some c ∧
    runs (run c) (update ((view s) <| PENDING_TIMERS := delete i (PENDING_TIMERS (view s)) |>) s)
      (λ _ s', I s' ∧ (expired_count now (PENDING_TIMERS (view s')) ≤
                       expired_count now (delete i (PENDING_TIMERS (view s))))%nat)) →
  I s → ∃ n, ∀ fuel, (n ≤ fuel)%nat → runs (tick run fuel) s (λ _ s', I s').
Proof.
  intros now Hrun HI. destruct (tick_loop_terminates run now I Hrun s 0 HI) as [n Hn].
  exists n. intros fuel Hf. unfold tick. run. by apply Hn.
Qed.

Lemma tick_terminates_witness :
  ∃ n, ∀ fuel, (n ≤ fuel)%nat → runs (tick run_timer fuel) waiting_tcp (λ _ s',
    round_ok s' 0 ∧ current_time_ms (timers s') = 50).
Proof.
  apply (tick_terminates run_timer (λ s, round_ok s 0 ∧ current_time_ms (timers s) = 50) waiting_tcp).
  - intros t s i [Hs Hc] Hi He. change (current_time_ms (view waiting_tcp)) with 50 in *.
    rewrite <-Hc in He |- *. destruct (round_step s 0 i t Hs Hi He) as (a & Ha & Hr).
    exists a. split; [done|]. eapply runs_mono; [exact Hr|]. cbv beta.
    intros _ s' [Hs' (new & Hp & Hnew)]. split; [done|]. change (view s') with (timers s').
    by rewrite Hp, expired_count_app.
  - split; [exact waiting_tcp_ok|done].
Defined.
