(* ===== verification/NetProps.v ===== *)
(** * Properties of netif.rs, ip.rs, icmp.rs and udp.rs *)

From S2P Require Import Prelude Util Buf BufSpec Checksum Netif Ip Icmp Udp BufProps TestHost.
From stdpp Require Import gmap.
Local Open Scope Z_scope.

(** * The interface *)

(** Sending.  A packet of at most eight fragments goes out as one frame
    with exactly its bytes, and its fragments return to the pool; a failed
    write ends the process; a packet of more fragments overruns the array of
    vectors and panics. *)
Theorem send_packet_correct `{!Tun} s k b :
  buf_ok b → zlen (contents b) ≤ usize_max →
  (TunOk → nfrags b ≤ MAX_VECS → net_ok s (nfrags b + k) →
   runs (send_packet b) s (λ _ s', sent s s' [contents b] ∧ net_ok s' k)) ∧
  (nfrags b ≤ MAX_VECS → tun_send (wire s) (map frag_bytes (fragments b)) ≤ 0 →
   send_packet b s = Exit) ∧
  (MAX_VECS < nfrags b → send_packet b s = Panic).
Proof.
  intros Hb Hl. split_and!; intros.
  - by apply send_packet_runs.
  - by apply send_packet_Exit.
  - by apply send_packet_too_many.
Qed.

Lemma send_packet_correct_witness :
  runs (send_packet (one_fragment [1; 2; 3])) (test_net <| bufs := pool_taken 1 |>) (λ _ s',
    sent (test_net <| bufs := pool_taken 1 |>) s' [[1; 2; 3]] ∧ net_ok s' 0).
Proof.
  destruct (one_fragment_ok [1; 2; 3]) as (Hb & Hc & _); [bytes_solve|by split|].
  destruct (send_packet_correct (test_net <| bufs := pool_taken 1 |>) 0 (one_fragment [1; 2; 3]) Hb)
    as [H _]; [by vm_compute|].
  rewrite Hc in H. apply H; [exact test_tun_ok|by vm_compute|].
  apply (taken_ip_ok 1). by split.
Defined.

(** Receiving.  The packet read holds exactly the octets the interface
    delivered, in the order of the fragments, cut to their number; no word
    straddles its fragments. *)
Theorem recv_packet_correct `{!Tun, !TunOk} s k :
  net_ok s k →
  runs recv_packet s (λ b s', validate_buffer b = true ∧ even_layout b ∧
    contents b = (tun_recv (frames_received s) MRU).2 ∧
    frames_received s' = S (frames_received s) ∧ wire s' = wire s ∧ net_ok s' (nfrags b + k)).
Proof.
  intros Hs. call recv_packet_runs; [done|]. intros b s' (Hb & ? & ? & _ & _ & _ & ? & ? & _ & _ & ?).
  split_and!; auto using buf_ok_validate.
Qed.

Lemma recv_packet_correct_witness :
  runs recv_packet test_net (λ b s', validate_buffer b = true ∧ even_layout b ∧
    contents b = [1; 2; 3; 4] ∧ frames_received s' = 1%nat ∧ wire s' = [] ∧
    net_ok s' (nfrags b + 0)).
Proof.
  assert ((tun_recv (frames_received test_net) MRU).2 = [1; 2; 3; 4]) as <- by (by vm_compute).
  apply (recv_packet_correct test_net 0 test_net_ok).
Defined.

(** * The Internet Protocol *)

(** C33: IP output.  The frame written is the header followed by the payload;
    an IPv4 header carries the sender's address, the next packet id and a
    checksum that the check of the receiver accepts. *)
Theorem ip_output_correct `{!Tun, !TunOk} s k b proto dst :
  buf_ok b → zlen (contents b) + 40 < usize_size → nfrags b < MAX_VECS → is_u8 proto →
  IPAddr_ok dst → ip_ok s (nfrags b + k) →
  runs (ip_output b proto dst) s (λ _ s',
    sent (netif s) (netif s') [ip_header s (zlen (contents b)) proto dst ++ contents b] ∧
    (is_v4 dst = true → compute_checksum (ip_header s (zlen (contents b)) proto dst) = Ok 0 ∧
       NEXT_PACKET_ID s' = wrapping_add u16_size (NEXT_PACKET_ID s) 1) ∧
    ip_ok s' k).
Proof.
  intros Hb Hl Hn Hp Hd Hok. call ip_output_runs; try done.
  intros _ s' (Hsent & Hid & Hok'). split; [done|]. split; [|done]. intros Hv.
  rewrite Hv in Hid. split; [|done]. destruct dst as [d|d]; [|done]. unfold ip_header.
  destruct Hok as [[_ [? ?] _] ?]. apply ipv4_header_checks; try done. by apply truncate_range.
Qed.

Lemma ip_output_correct_witness :
  runs (ip_output (one_fragment [1; 2; 3]) 17 peer_v4) (taken_ip 1) (λ _ s',
    wire (netif s') = [ip_header (taken_ip 1) (zlen [1; 2; 3]) 17 peer_v4 ++ [1; 2; 3]] ∧
    ip_ok s' 0).
Proof.
  destruct (one_fragment_ok [1; 2; 3]) as (Hb & Hc & _); [bytes_solve|by split|].
  eapply runs_mono.
  { apply (ip_output_correct (taken_ip 1) 0 (one_fragment [1; 2; 3]) 17 peer_v4 Hb);
      [by rewrite Hc|done|by split|by apply test_addrs_ok|by apply (taken_ip_ok 1)]. }
  cbv beta. rewrite Hc. intros _ s' ([Hw _ _ _] & _ & Hok). split; [exact Hw|exact Hok].
Defined.

(** C32: IP input undoes IP output.  A frame that another host's [ip_output]
    wrote, in one buffer whose first fragment holds its header, is handed to
    the protocol it was sent for, with that host's address and without the
    header. *)
Theorem ip_roundtrip {S} `{!Lens S BufState, !Transport S} s k b s0 k0 proto dst h' rest Q :
  let hdr := ip_header s0 (zlen (h' ++ rest)) proto dst in
  ip_ok s0 k0 → IPAddr_ok dst → is_u8 proto →
  buf_ok b → header b = Ok (hdr ++ h') → contents b = (hdr ++ h') ++ rest →
  pool_ok (view s) (nfrags b + k) →
  delivers b k h' rest s (λ b', ip_input_common b' proto
    (if is_v4 dst then LOCAL_IPV4 (netif s0) else LOCAL_IPV6 (netif s0))) Q →
  runs (ip_input b) s Q.
Proof. apply ip_input_of_output. Qed.

(** A host whose transport protocols drop every packet. *)
#[local] Instance drop_transport : Transport BufState := {|
  transport_icmp_v4 b _ := drop_buffer b;
  transport_icmp_v6 b _ := drop_buffer b;
  transport_tcp b _ := drop_buffer b;
  transport_udp b _ := drop_buffer b;
|}.

Definition sample_frame : list Z := ip_header test_ip 3 17 peer_v4 ++ [1; 2; 3].

Lemma ip_roundtrip_witness :
  runs (ip_input (one_fragment sample_frame)) (pool_taken 1) (λ _ s', pool_ok s' 0).
Proof.
  destruct (one_fragment_ok sample_frame) as (Hb & Hc & Hh).
  { apply (bool_decide_unpack _). by vm_compute. }
  { by split; vm_compute. }
  apply (ip_roundtrip (pool_taken 1) 0 (one_fragment sample_frame) test_ip 0 17 peer_v4 [1; 2; 3] []).
  - exact test_ip_ok.
  - apply test_addrs_ok.
  - by split.
  - exact Hb.
  - rewrite Hh. by rewrite app_nil_r.
  - rewrite Hc. by rewrite app_nil_r.
  - apply (pool_taken_ok 1). by split.
  - intros b' p Hb' _ _ _ _ Hp. change (runs (drop_buffer b') p (λ _ s', pool_ok s' 0)).
    by call drop_buffer_runs.
Defined.

(** Packets that are dropped.  An IPv4 packet whose header sum is wrong, or
    that is a fragment of a larger one, is freed and nothing else happens. *)
Theorem ip_input_drops {S} `{!Lens S BufState, !Transport S} s k b ihl tos total id frag more h' c :
  let hdr := [0x40 + ihl; tos] ++ be16 total ++ be16 id ++ be16 frag ++ more in
  buf_ok b → header b = Ok (hdr ++ h') → 0 ≤ ihl < 16 → zlen hdr = ihl * 4 → is_u16 frag →
  compute_checksum hdr = Ok c → c ≠ 0 ∨ Z.land frag 0x3fff ≠ 0 →
  pool_ok (view s) (nfrags b + k) →
  runs (ip_input b) s (λ _ s', pool_change s k s').
Proof.
  intros hdr Hb Hh Hihl Hz Hf Hck Hbad Hp. destruct (decide (c = 0)) as [->|Hc].
  - destruct Hbad as [Hbad|Hbad]; [done|]. by eapply ip_input_v4_fragment.
  - by eapply (ip_input_v4_bad_checksum s k b ihl _ h' c).
Qed.

(** The header of [sample_frame] with a wrong total length. *)
Lemma ip_input_drops_witness :
  let hdr := [0x45; 0] ++ be16 99 ++ be16 5 ++ be16 0 ++ [64; 17; 0; 0; 10; 0; 0; 2; 10; 0; 0; 1] in
  runs (ip_input (one_fragment hdr)) (pool_taken 1) (λ _ s', pool_change (pool_taken 1) 0 s').
Proof.
  intros hdr. destruct (one_fragment_ok hdr) as (Hb & _ & Hh).
  { apply (bool_decide_unpack _). by vm_compute. }
  { by split; vm_compute. }
  eapply (ip_input_drops (pool_taken 1) 0 (one_fragment hdr) 5 0 99 5 0
    [64; 17; 0; 0; 10; 0; 0; 2; 10; 0; 0; 1] []); [exact Hb|exact Hh|done|done|by split| | |].
  - vm_compute. reflexivity.
  - left. done.
  - apply (pool_taken_ok 1). by split.
Defined.

(** The header length is trusted.  An IPv4 packet whose header length field
    is 0, or is more than its first fragment holds, stops the program. *)
Theorem ip_input_bad_length {S} `{!Lens S BufState, !Transport S} (s : S) b ihl hdr :
  header b = Ok (0x40 + ihl :: hdr) → 0 ≤ ihl < 16 →
  ihl = 0 ∨ zlen (0x40 + ihl :: hdr) < ihl * 4 → ip_input b s = Panic.
Proof. apply ip_input_v4_bad_ihl. Qed.

Lemma ip_input_bad_length_witness :
  ip_input (one_fragment [0x40; 0; 0]) (pool_taken 1) = Panic ∧
  ip_input (one_fragment [0x45; 0; 0]) (pool_taken 1) = Panic.
Proof.
  split.
  - apply (ip_input_bad_length (pool_taken 1) (one_fragment [0x40; 0; 0]) 0 [0; 0]); [done|done|by left].
  - apply (ip_input_bad_length (pool_taken 1) (one_fragment [0x45; 0; 0]) 5 [0; 0]); [done|done|by right].
Defined.

(** * ICMP *)

(** Ping.  An ICMPv4 message whose sum is right and that is an echo request
    is answered with one frame: an echo reply with the same data and a correct
    checksum, to the sender.  Any other message is dropped.  In each case all
    fragments return to the pool. *)
Theorem icmp_v4_echo `{!Tun, !TunOk} s k b src ty code c0 c1 payload r :
  let valid := ones_fold (word_sum (contents b)) =? 0xffff in
  buf_ok b → even_layout b → contents b = [ty; code; c0; c1] ++ payload →
  header b = Ok ([ty; code; c0; c1] ++ r) → zlen (contents b) ≤ MRU → IPAddr_ok src →
  ip_ok s (nfrags b + k) →
  runs (icmp_input_v4 b src) s (λ _ s', ip_ok s' k ∧
    if valid && (ty =? ICMPV4_ECHO_REQUEST)
    then ∃ reply, sent (netif s) (netif s')
           [ip_header s (4 + zlen payload) PROTO_ICMPV4 src ++ reply] ∧
         reply = icmp_message 0 ICMPV4_ECHO_REPLY payload ∧ ones_fold (0 + word_sum reply) = 0xffff
    else sent (netif s) (netif s') []).
Proof.
  intros valid Hb He Hc Hh Hlen Hsrc Hok. pose proof (contents_ok b Hb) as Hbo. rewrite Hc in Hbo.
  apply bytes_ok_app in Hbo as [_ Hpo].
  call icmp_input_v4_runs; try done. fold valid. intros _ s' [Hsent Hok']. split; [done|].
  destruct (valid && _); [|done]. eexists. split; [exact Hsent|]. split; [done|].
  by apply icmp_message_checks.
Qed.

Definition ping_v4 : list Z := [8; 0; 0xf4; 0xfc; 1; 2; 2; 1].

Lemma icmp_v4_echo_witness :
  runs (icmp_input_v4 (one_fragment ping_v4) peer_v4) (taken_ip 1) (λ _ s',
    ip_ok s' 0 ∧ ∃ hdr, wire (netif s') = [hdr ++ [0; 0; 0xfc; 0xfc; 1; 2; 2; 1]]).
Proof.
  destruct (one_fragment_ok ping_v4) as (Hb & Hc & Hh); [|by split; vm_compute|].
  { apply (bool_decide_unpack _). by vm_compute. }
  eapply runs_mono.
  { apply (icmp_v4_echo (taken_ip 1) 0 (one_fragment ping_v4) peer_v4 8 0 0xf4 0xfc [1; 2; 2; 1]
      [1; 2; 2; 1] Hb I Hc Hh); [by vm_compute|by apply test_addrs_ok|by apply (taken_ip_ok 1)]. }
  cbv beta. intros _ s' [Hok H].
  assert ((ones_fold (word_sum (contents (one_fragment ping_v4))) =? 0xffff) = true) as E
    by (rewrite Hc; by vm_compute).
  rewrite E in H. destruct H as (reply & [Hw _ _ _] & -> & _). split; [exact Hok|].
  eexists. rewrite Hw. cbn [wire netif taken_ip test_ip test_net app set_field]. do 2 f_equal.
Defined.

(** Ping over IPv6.  The same, with the pseudo header in both sums. *)
Theorem icmp_v6_echo `{!Tun, !TunOk} s k b src ty code c0 c1 payload r :
  let me := LOCAL_IPV6 (netif s) in
  let valid := ones_fold (icmpv6_sum src me (zlen (contents b)) + word_sum (contents b)) =? 0xffff in
  buf_ok b → even_layout b → contents b = [ty; code; c0; c1] ++ payload →
  header b = Ok ([ty; code; c0; c1] ++ r) → zlen (contents b) ≤ MRU → IPAddr_ok src →
  is_v4 src = false → ip_ok s (nfrags b + k) →
  runs (icmp_input_v6 b src) s (λ _ s', ip_ok s' k ∧
    if valid && (ty =? ICMPV6_ECHO_REQUEST)
    then ∃ reply, sent (netif s) (netif s')
           [ip_header s (4 + zlen payload) PROTO_ICMPV6 src ++ reply] ∧
         reply = icmp_message (icmpv6_sum me src (4 + zlen payload)) ICMPV6_ECHO_REPLY payload ∧
         ones_fold (icmpv6_sum me src (4 + zlen payload) + word_sum reply) = 0xffff
    else sent (netif s) (netif s') []).
Proof.
  intros me valid Hb He Hc Hh Hlen Hsrc Hv Hok. pose proof (contents_ok b Hb) as Hbo. rewrite Hc in Hbo.
  apply bytes_ok_app in Hbo as [_ Hpo].
  call icmp_input_v6_runs; try done. fold me. fold valid. intros _ s' [Hsent Hok']. split; [done|].
  destruct (valid && _); [|done]. eexists. split; [exact Hsent|]. split; [done|].
  apply icmp_message_checks; try done. unfold icmpv6_sum.
  apply ones_fold_range, word_sum_bounds, pseudo_header_bytes_ok; try done.
  by destruct Hok as [[_ _ []] _].
Qed.

Definition ping_v6 : list Z := icmp_message (icmpv6_sum peer_v6 test_v6 8) 128 [1; 2; 2; 1].

Lemma icmp_v6_echo_witness :
  runs (icmp_input_v6 (one_fragment ping_v6) peer_v6) (taken_ip 1) (λ _ s',
    ip_ok s' 0 ∧ ∃ hdr c, wire (netif s') = [hdr ++ [129; 0] ++ be16 c ++ [1; 2; 2; 1]]).
Proof.
  destruct (one_fragment_ok ping_v6) as (Hb & Hc & Hh); [|by split; vm_compute|].
  { apply (bool_decide_unpack _). by vm_compute. }
  eapply runs_mono.
  { eapply (icmp_v6_echo (taken_ip 1) 0 (one_fragment ping_v6) peer_v6 128 0 _ _ [1; 2; 2; 1]
      _ Hb I Hc Hh); [by rewrite Hc; vm_compute|by apply test_addrs_ok|done|by apply (taken_ip_ok 1)]. }
  cbv beta. intros _ s' [Hok H]. rewrite Hc in H.
  assert ((ones_fold (icmpv6_sum peer_v6 (LOCAL_IPV6 (netif (taken_ip 1))) (zlen ping_v6) +
    word_sum ping_v6) =? 0xffff) = true) as E by (by vm_compute).
  rewrite E in H. destruct H as (reply & [Hw _ _ _] & -> & _). split; [exact Hok|].
  do 2 eexists. rewrite Hw. unfold icmp_message. reflexivity.
Defined.

(** The version of the source is not checked.  An ICMPv6 message that
    arrives in an IPv4 packet stops the program, whatever it holds. *)
Theorem icmp_v6_in_v4_panics `{!Tun} s k b src :
  ip_ok s k → IPAddr_ok src → is_v4 src = true → icmp_input_v6 b src s = Panic.
Proof. apply icmp_input_v6_from_v4. Qed.

Lemma icmp_v6_in_v4_panics_witness :
  icmp_input_v6 (one_fragment ping_v6) peer_v4 (taken_ip 1) = Panic.
Proof.
  apply (icmp_v6_in_v4_panics (taken_ip 1) 1 (one_fragment ping_v6) peer_v4);
    [by apply taken_ip_ok|by apply test_addrs_ok|done].
Defined.

(** * UDP *)

(** Opening a port.  A free port gets a new socket with an empty queue; a
    port in use is refused and nothing changes.  The port map stays one-to-one. *)
Theorem udp_open_correct s k p :
  udp_ok s k → is_u16 p →
  runs (udp_open p) s (λ r s', udp_ok s' k ∧
    match r with
    | Some h => PORT_MAP s !! p = None ∧ PORT_MAP s' !! p = Some h ∧
        sockets s' !! h = Some (UDPSocketState_new p) ∧
        (∀ h', (h' < h)%nat → sockets s' !! h' = sockets s !! h')
    | None => is_Some (PORT_MAP s !! p) ∧ s' = s
    end).
Proof.
  intros Hok Hp. call udp_open_runs; [done|done|]. intros [h|] s' [Hok' H]; [|done].
  destruct H as (Hl & -> & ->). split; [done|]. cbn. split_and!; [done| | |].
  - apply lookup_insert_eq.
  - by apply list_lookup_middle.
  - intros h' Hlt. by apply lookup_app_l.
Qed.

Definition udp_init (i : IpState) : UdpState :=
  {| ip := i; PORT_MAP := ∅; sockets := []; notified := [] |}.

Lemma udp_init_ok i k : ip_ok i k → udp_ok (udp_init i) k.
Proof.
  intros Hi. split; [done|constructor|]. intros p h. cbn.
  rewrite lookup_empty. split; done.
Qed.

Lemma udp_open_correct_witness :
  runs (udp_open 8000) (udp_init test_ip) (λ r s', ∃ h, r = Some h ∧
    sockets s' !! h = Some (UDPSocketState_new 8000)).
Proof.
  eapply runs_mono.
  { apply (udp_open_correct (udp_init test_ip) 0 8000); [apply udp_init_ok, test_ip_ok|by split]. }
  cbv beta. intros [h|] s' [_ H]; [|by destruct H as [[] _]].
  exists h. split; [done|]. by destruct H as (_ & _ & H & _).
Defined.

(** Sending a datagram.  The frame is an IP header and a UDP datagram with
    the data, the ports, the length and a checksum that is right together with
    the pseudo header; the data may have up to 3072 octets, and no fragment is
    lost. *)
Theorem udp_send_correct `{!Tun, !TunOk} s k h st dst dp data :
  let c := udp_sum (local_addr (netif (ip s)) dst) dst (8 + zlen data) in
  let dgram := udp_datagram c (port st) dp (8 + zlen data) data in
  udp_ok s k → sockets s !! h = Some st → is_u16 dp → IPAddr_ok dst → bytes_ok data →
  zlen data ≤ 3072 →
  runs (udp_send h dst dp data) s (λ _ s', udp_ok s' k ∧
    sent (netif (ip s)) (netif (ip s')) [ip_header (ip s) (8 + zlen data) PROTO_UDP dst ++ dgram] ∧
    ones_fold (c + word_sum dgram) = 0xffff ∧ sockets s' = sockets s).
Proof.
  intros c dgram Hok Hl Hdp Hd Hb Hlen. call udp_send_runs; try done.
  intros _ s' (Hok' & Hsent & Hs & _). split; [done|].
  assert (truncate u16_size (8 + zlen data) = 8 + zlen data) as Htr.
  { apply truncate_id. pose proof (zlen_nonneg data). unfold in_range. lia. }
  unfold udp_frame in Hsent. rewrite Htr in Hsent. split; [done|]. split; [|done].
  pose proof Hok as [[[_ [H4 _] [H6 _]] _] Hsock _].
  pose proof (Forall_lookup_1 _ _ _ _ Hsock Hl) as [Hport _].
  apply udp_datagram_checks; try done.
  - apply ones_fold_range, word_sum_bounds, pseudo_header_bytes_ok; try done. by destruct dst.
  - rewrite <-Htr. by apply truncate_range.
Qed.

Lemma udp_send_correct_witness :
  runs (udp_send 0 peer_v4 9000 [1; 2; 3]) (test_udp test_ip) (λ _ s', udp_ok s' 0 ∧
    ∃ hdr ck, wire (netif (ip s')) = [hdr ++ udp_header 8000 9000 11 ck ++ [1; 2; 3]]).
Proof.
  eapply runs_mono.
  { apply (udp_send_correct (test_udp test_ip) 0 0 (UDPSocketState_new 8000) peer_v4 9000 [1; 2; 3]);
      [apply test_udp_ok, test_ip_ok|done|by split|by apply test_addrs_ok|bytes_solve|done]. }
  cbv beta. intros _ s' (Hok & [Hw _ _ _] & _). split; [exact Hok|].
  do 2 eexists. rewrite Hw. unfold udp_datagram. reflexivity.
Defined.

(** Delivery.  A datagram for an open port whose queue is empty is queued,
    the socket is notified, and the receiver then gets the data (as much as its
    slice holds), its length, and the sender's address and port; the rest of
    the slice is unchanged and every fragment returns to the pool. *)
Theorem udp_delivery `{!Tun} s k b src sp dp len ck data r h st dest :
  buf_ok b → contents b = udp_header sp dp len ck ++ data →
  header b = Ok (udp_header sp dp len ck ++ r) → zlen (contents b) ≤ MRU →
  is_u16 sp → is_u16 dp → IPAddr_ok src → udp_ok s (nfrags b + k) →
  PORT_MAP s !! dp = Some h → sockets s !! h = Some st → receive_queue st = [] →
  let n := Z.min (zlen data) (zlen dest) in
  runs (udp_input b src;; udp_recv h dest) s (λ o s',
    o = Some (n, take (Z.to_nat n) data ++ drop (Z.to_nat n) dest, src, sp) ∧
    udp_ok s' k ∧ sockets s' = sockets s ∧ notified s' = notified s ++ [h]).
Proof.
  intros Hb Hc Hh Hlen Hsp Hdp Hsrc Hok Hpm Hl Hq n. run.
  call (udp_input_runs s k); try done. rewrite Hpm.
  intros _ s1 (Hok1 & _ & _ & st' & b' & Hl' & Hcb & Hs1 & Hn1). simplify_eq.
  assert (h < length (sockets s))%nat as Hlt by (by eapply lookup_lt_Some).
  call (udp_recv_runs s1 k h (st <| receive_queue ::= λ q, q ++ [(src, sp, b')] |>)); [done| | |].
  { rewrite Hs1. by apply list_lookup_insert_eq. }
  { cbn. by rewrite Hq. }
  intros o s2 (Ho & Hok2 & Hs2 & _ & Hn2 & _). split_and!; [done|done| |congruence].
  rewrite Hs2, Hs1, list_insert_insert_eq. apply list_insert_id. rewrite Hl.
  destruct st as [q p]. cbn in Hq |- *. by rewrite Hq.
Qed.

Lemma udp_delivery_witness :
  let b := one_fragment (udp_header 9000 8000 11 0 ++ [7; 8; 9]) in
  runs (udp_input b peer_v4;; udp_recv 0 [0; 0]) (test_udp (taken_ip 1)) (λ o s',
    o = Some (2, [7; 8], peer_v4, 9000) ∧ udp_ok s' 0).
Proof.
  intros b. destruct (one_fragment_ok (udp_header 9000 8000 11 0 ++ [7; 8; 9])) as (Hb & Hc & Hh);
    [|by split; vm_compute|].
  { apply (bool_decide_unpack _). by vm_compute. }
  eapply runs_mono.
  { eapply (udp_delivery (test_udp (taken_ip 1)) 0 b peer_v4 9000 8000 11 0 [7; 8; 9] [7; 8; 9] 0
      (UDPSocketState_new 8000) [0; 0] Hb Hc);
      [by unfold b; rewrite Hh, app_nil_r|unfold b; rewrite Hc; by vm_compute|by split|by split|
       by apply test_addrs_ok|by apply test_udp_ok, (taken_ip_ok 1)|done|done|done]. }
  cbv beta. intros o s' (Ho & Hok & _). split; [exact Ho|exact Hok].
Defined.
