(* ===== verification/TcpProps.v ===== *)
(** * Properties of tcp.rs: the flow of data

    From the octets an application writes to the segments on the wire, and
    from the segments received to the octets an application reads. *)

From S2P Require Import Prelude Util Buf BufSpec Checksum Timer Netif Ip Reassembler TcpOptions Tcp TcpSpec TcpData TcpConn TcpControl TcpOpen TcpSegments BufProps TestHost.
From stdpp Require Import gmap.
Local Open Scope Z_scope.

(** * Receiving *)

(** C14: delivery.  A valid segment for an open connection that carries octets
    of the peer's stream, in order or not, within half the sequence space of
    the next octet expected, leaves the connection open: its receive queue
    holds the stream without gap or repetition up to a new position, which is
    at least the end of the segment when the segment was the next one and is
    unchanged otherwise; readers are woken; and exactly the octets that the
    segment newly acknowledges leave the retransmission queue. *)
Theorem tcp_data_delivery `{!Tun, !TunOk, !Random, !RandomOk}
    s k b src p opts payload h g stream start next off :
  segment_buffer s b src p opts payload → tcp_ok s (nfrags b + k) →
  PORT_MAP s !! (src, source_port p, dest_port p) = Some h → sockets s !! h = Some g →
  open_connection stream start next g → 0 ≤ num_delayed_acks g < 0x7fffffff →
  zlen (contents (receive_queue g)) < 0x7fffffff →
  payload ≠ [] → at_offset stream off payload → seq_num p = off mod u32_size →
  next - 2147483648 < off → off + zlen payload < next + 2147483648 →
  has_flag (flags p) FLAG_ACK = true → has_flag (flags p) FLAG_RST = false →
  has_flag (flags p) FLAG_FIN = false →
  runs (tcp_input b src) s (λ _ s', ∃ g' next' frames,
    socket_step s s' h g' frames ∧ tcp_ok s' k ∧ open_connection stream start next' g' ∧
    (if decide (off = next) then off + zlen payload ≤ next' ∧ h ∈ notified s' else next' = next) ∧
    contents (retransmit_queue g') =
      drop (Z.to_nat (newly_acked g (ack_num p))) (contents (retransmit_queue g)) ∧
    send_unacked g' = u32_wrapping_add (send_unacked g) (newly_acked g (ack_num p))).
Proof.
  intros. call (tcp_input_data_runs s k b src p opts payload h g stream start next off); try done.
  intros _ s' (b' & g' & next' & frames & Hss & Hok' & Hc & [? Hnext ? ? ? ? ? ?] & Hnot).
  rewrite Hc in Hnext. exists g', next', frames. split_and!; try done.
  destruct (decide (off = next)); [split; [done|by apply Hnot]|done].
Qed.

(** The segment of the examples: three octets, numbered from 500. *)
Definition test_segment (fl : Z) (payload : list Z) : TCPSendParams := {|
  source_port := 80; dest_ip := test_v4; dest_port := 49159; seq_num := 500; ack_num := 1001;
  flags := fl; window := 4096; options := [] |}.

Definition test_packet (fl : Z) (payload : list Z) : list Z :=
  tcp_segment (tcp_sum peer_v4 test_v4 (20 + zlen payload)) (test_segment fl payload) payload.

Lemma test_segment_ok fl payload : is_u8 fl → params_ok (test_segment fl payload).
Proof.
  intros Hf. destruct test_addrs_ok as (? & _ & _ & _).
  split; try done. split_and!; [by constructor|done|done].
Qed.

Lemma test_packet_buffer s fl payload :
  LOCAL_IPV4 (netif (Tcp.ip s)) = test_v4 → is_u8 fl → bytes_ok payload → zlen payload ≤ 400 →
  segment_buffer s (one_fragment (test_packet fl payload)) peer_v4 (test_segment fl payload) [] payload.
Proof.
  intros Hv4 Hf Hp Hl. pose proof (test_segment_ok fl payload Hf) as Hps.
  destruct test_addrs_ok as (? & ? & ? & _).
  assert (zlen (test_packet fl payload) = 20 + zlen payload) as Hz.
  { unfold test_packet, tcp_segment. rewrite zlen_app, zlen_tcp_header.
    change (zlen (options _)) with 0. lia. }
  assert (is_u16 (tcp_sum peer_v4 test_v4 (20 + zlen payload))) as Hs by (by apply tcp_sum_range).
  pose proof (zlen_nonneg payload).
  destruct (one_fragment_ok (test_packet fl payload)) as (Hb & Hc & Hh).
  { apply bytes_ok_app. split; [|done]. apply tcp_header_bytes_ok; [done|].
    apply tcp_checksum_range; [apply Hs|done|done]. }
  { lia. }
  split; [split; [done|by constructor]| | |done| |rewrite Hc; lia].
  - rewrite Hc. unfold test_packet, local_addr. cbn. by rewrite Hv4.
  - eexists _, payload. rewrite Hh, app_nil_r. done.
  - exists []. split_and!; [done|by left|constructor].
Qed.

Lemma test_socket_open stream w q :
  zlen (contents q) ≤ 1001 → open_connection stream 500 500 (test_socket Established w q).
Proof.
  intros Hq. pose proof (zlen_nonneg (contents q)).
  split_and!; [done| |by split; [split; [done|constructor]|done|done]].
  split; [|cbn; lia]. change (u32_wrapping_sub 1001 (u32_wrapping_sub 1001 (zlen (contents q))) = zlen (contents q)).
  unfold wrapping_sub. rewrite Zminus_mod_idemp_r. rewrite Z.mod_small; lia.
Qed.

Lemma tcp_data_delivery_witness :
  runs (tcp_input (one_fragment (test_packet 24 [7; 8; 9])) peer_v4)
    (test_tcp 1 (test_socket Established 4096 NetBuffer_new)) (λ _ s', ∃ g' next' frames,
    socket_step (test_tcp 1 (test_socket Established 4096 NetBuffer_new)) s' 0%nat g' frames ∧
    tcp_ok s' 0 ∧ open_connection (λ off, off - 493) 500 next' g' ∧
    (503 ≤ next' ∧ 0%nat ∈ notified s')).
Proof.
  set (g := test_socket Established 4096 NetBuffer_new). set (s := test_tcp 1 g).
  assert (segment_buffer s (one_fragment (test_packet 24 [7; 8; 9])) peer_v4 (test_segment 24 [7; 8; 9])
    [] [7; 8; 9]) as Hseg by (apply test_packet_buffer; [done|by split|bytes_solve|done]).
  assert (open_connection (λ off, off - 493) 500 500 g) as Ho by (by apply test_socket_open).
  eapply runs_mono.
  - apply (tcp_data_delivery s 0 _ peer_v4 (test_segment 24 [7; 8; 9]) [] [7; 8; 9] 0%nat g
      (λ off, off - 493) 500 500 500 Hseg); try done.
    + apply test_tcp_ok; [by split|apply test_socket_wf, buf_ok_new|done].
  - intros [] s' (g' & next' & frames & H1 & H2 & H3 & H4 & _). by exists g', next', frames.
Defined.

(** C15: reassembly.  Given a segment of the peer's stream, the reassembler
    passes on the part of the stream from the next octet expected to the end
    of what it now has without a gap, or nothing if the segment is not the
    next one; what it keeps lies in the stream and no segment it keeps
    continues what it has passed on.  A segment that starts at or after the
    octet expected before is kept or has been passed on whole; one that was
    stored and starts before it may be dropped, even if it reaches further. *)
Theorem reassembler_correct stream next s k r b off :
  reassembler_ok stream next r → buf_ok b → at_offset stream off (contents b) →
  next - 2147483648 < off → off + zlen (contents b) < next + 2147483648 →
  pool_ok s (nfrags b + ooo_frags (out_of_order r) + k) →
  runs (add_packet b (off mod u32_size) r) s (λ p s', ∃ next',
    reassembler_ok stream next' p.1 ∧ next ≤ next' < next + 2147483648 ∧
    reassembled off b next next' (out_of_order r) (out_of_order p.1) ∧
    match p.2 with
    | Some b' => off = next ∧ buf_ok b' ∧ at_offset stream next (contents b') ∧
        next' = next + zlen (contents b') ∧
        zlen (contents b) ≤ zlen (contents b') ∧
        Forall (λ e, e.1 ≠ next' mod u32_size) (out_of_order p.1) ∧
        pool_ok s' (nfrags b' + ooo_frags (out_of_order p.1) + k)
    | None => off ≠ next ∧ next' = next ∧
        out_of_order p.1 = out_of_order r ++ [(off mod u32_size, b)] ∧
        pool_ok s' (ooo_frags (out_of_order p.1) + k)
    end).
Proof. apply add_packet_runs. Qed.

(** The segment at 102 is kept, then passed on with the one at 100. *)
Definition test_reassembler : TCPReassembler :=
  {| next_sequence := 100; out_of_order := [(102, one_fragment [102; 103])] |}.

Lemma reassembler_correct_witness :
  runs (add_packet (one_fragment [100; 101]) (100 mod u32_size) test_reassembler) (pool_taken 2)
    (λ p s', ∃ next', reassembler_ok (λ off, off) next' p.1 ∧ 102 ≤ next') ∧
  match add_packet (one_fragment [100; 101]) 100 test_reassembler (pool_taken 2) with
  | Ok (r, got, _) => option_map contents got = Some [100; 101; 102; 103] ∧
      next_sequence r = 104 ∧ out_of_order r = []
  | _ => False
  end.
Proof.
  destruct (one_fragment_ok [100; 101]) as (Hb & Hc & _); [bytes_solve|by split|].
  destruct (one_fragment_ok [102; 103]) as (Hb2 & Hc2 & _); [bytes_solve|by split|].
  split; [|vm_compute; by split_and!].
  eapply runs_mono.
  - apply (reassembler_correct (λ off, off) 100 (pool_taken 2) 0 test_reassembler
      (one_fragment [100; 101]) 100); [| done|by rewrite Hc|lia|by rewrite Hc|by apply pool_taken_ok].
    split; [done|]. constructor; [|constructor]. split; [done|]. exists 102.
    cbn [fst snd]. split_and!; [done|by rewrite Hc2|lia|by rewrite Hc2].
  - intros p s' (next' & Hr & Hn & _ & Hp). exists next'. split; [done|].
    destruct p.2 as [b'|]; [|by destruct Hp].
    destruct Hp as (_ & _ & _ & -> & Hl & _). rewrite Hc in Hl. change (zlen [100; 101]) with 2 in Hl. lia.
Defined.

(** C16: reading.  tcp_read hands out the received octets first in, first out:
    as many as fit, and what it has handed out leaves the queue.  With nothing
    to read it changes nothing, and waits in ESTABLISHED but returns -1 in every
    other state: also in SYN-RECEIVED, before the handshake is over, and in
    FIN-WAIT-1 and FIN-WAIT-2, where this side has closed but the peer may still
    send.  (The comments of tcp_read and tcp_close say that only a closed socket
    gives a negative number, and that a socket can be read after tcp_close.) *)
Theorem tcp_read_fifo `{!Tun, !TunOk, !Random} s k h g data stream start next :
  tcp_ok s k → sockets s !! h = Some g → receiving stream start next g →
  next - start < 2147483648 →
  (start < next → let n := Z.min (zlen data) (next - start) in
   runs (tcp_read h data) s (λ r s', ∃ out g', r = Some (n, out ++ drop (Z.to_nat n) data) ∧
     zlen out = n ∧ at_offset stream start out ∧ receiving stream (start + n) next g' ∧
     sockets s' = <[h := g']> (sockets s) ∧ PORT_MAP s' = PORT_MAP s ∧ tcp_ok s' k)) ∧
  (start = next → state g = Established → tcp_read h data s = Ok (None, s)) ∧
  (start = next → state g ≠ Established → tcp_read h data s = Ok (Some (-1, data), s)).
Proof.
  intros Hok Hg [Hra Hrq Hnx] Hsmall. pose proof (zlen_nonneg (contents (receive_queue g))).
  pose proof (zlen_nonneg data). destruct (locked_ok _ _ _ _ Hok Hg) as [Hwf _].
  split.
  - intros Hlt n. call tcp_read_runs; [done|done| |lia|].
    { intros E. rewrite E in Hnx. change (zlen []) with 0 in Hnx. lia. }
    intros r s' (p & q & -> & Hok' & -> & Hq).
    assert (zlen (contents (receive_queue g)) = next - start) as Hz by lia.
    rewrite Hz in Hq |- *. fold n in Hq |- *.
    destruct (at_offset_split _ _ _ n Hrq) as [Hout Hrest]; [lia|].
    exists (take (Z.to_nat n) (contents (receive_queue g))), (g <| receive_queue := q |>).
    split_and!; [|rewrite zlen_take; lia|exact Hout| |done|done|done].
    + rewrite as_i32_small by lia. done.
    + split; [done|by rewrite <-Hq in Hrest|]. cbn. rewrite Hq, zlen_drop. lia.
  - assert (start = next → is_empty (receive_queue g) = true) as He.
    { intros ->. apply is_empty_spec; [apply Hwf|]. apply zlen_0_nil. lia. }
    unfold tcp_read. split; intros E Hst; rewrite (bind_Ok _ _ _ g s) by (by apply lock_eq);
      rewrite (He E); unfold is_state.
    + by rewrite bool_decide_eq_true_2.
    + by rewrite bool_decide_eq_false_2.
Qed.

(** A connection with three octets to read. *)
Definition reading_socket : TCPSocketState :=
  (test_socket Established 4096 NetBuffer_new) <| receive_queue := one_fragment [7; 8; 9] |>
    <| reassembler := {| next_sequence := 503; out_of_order := [] |} |>.

Lemma reading_socket_ok :
  socket_wf reading_socket ∧ receiving (λ off, off - 493) 500 503 reading_socket.
Proof.
  destruct (one_fragment_ok [7; 8; 9]) as (Hb & Hc & _); [bytes_solve|by split|].
  destruct (test_socket_wf Established 4096 NetBuffer_new buf_ok_new) as [? ? ? ? (? & ? & ?)].
  split; [by split|]. split; [|unfold reading_socket; cbn; by rewrite Hc..].
  by split; [|constructor].
Qed.

Lemma tcp_read_fifo_witness :
  runs (tcp_read 0 [0; 0]) (test_tcp 1 reading_socket) (λ r s', ∃ out g', r = Some (2, out ++ []) ∧
    zlen out = 2 ∧ at_offset (λ off, off - 493) 500 out ∧
    receiving (λ off, off - 493) 502 503 g' ∧ sockets s' = [g'] ∧ tcp_ok s' 0).
Proof.
  destruct reading_socket_ok as [Hwf Hrec].
  destruct (tcp_read_fifo (test_tcp 1 reading_socket) 0 0 reading_socket [0; 0] (λ off, off - 493)
    500 503) as [H _]; [|done|done|done|].
  { by apply test_tcp_ok. }
  eapply runs_mono; [by apply H|]. intros r s' (out & g' & H1 & H2 & H3 & H4 & H5 & _ & H6).
  by exists out, g'.
Defined.

(** * Sending *)

(** C17: writing.  tcp_write on an open connection sends the data from [offset]
    on in order, with consecutive sequence numbers from SND.NXT on, in segments
    as long as the segment size and the rest of the data allow ([wrote]); each
    segment it sends ends inside the peer's window, SND.UNA + SND.WND
    ([segmented]), and it stops either when all data is sent or when the next
    segment would end outside; it keeps exactly the octets it has sent for
    retransmission, with a timer running.  On a closed connection it does
    nothing. *)
Theorem tcp_write_correct `{!Tun, !TunOk, !Random} woken s k h g data offset :
  sockets s !! h = Some g →
  (tcp_ok s k → state g ≠ Closed → can_send g → in_flight g → bytes_ok data →
   1 ≤ send_mss g ≤ 2560 → 0 ≤ offset ≤ zlen data → zlen data < 2147483648 →
   zlen (contents (retransmit_queue g)) + (zlen data - offset) < 2147483648 →
   runs (tcp_write woken h data offset) s (λ r s', ∃ s1 g', s' = put_back s1 h g' ∧
     tcp_ok s' k ∧ written g g' ∧ in_flight g' ∧ wrote s s1 g g' data offset r)) ∧
  (state g = Closed →
   tcp_write woken h data offset s = Ok (Wrote (if woken then as_i32 offset else -1), s)).
Proof. intros Hg. split; intros; [by apply tcp_write_runs|by eapply tcp_write_closed]. Qed.

(** A connection with segments of two octets and a window of five. *)
Definition writing_socket : TCPSocketState :=
  (test_socket Established 5 NetBuffer_new) <| send_mss := 2 |>.

Lemma tcp_write_correct_witness :
  runs (tcp_write false 0 [1; 2; 3; 4; 5; 6; 7] 0) (test_tcp 0 writing_socket) (λ r s', tcp_ok s' 0 ∧
    ∃ s1 g', wrote (test_tcp 0 writing_socket) s1 writing_socket g' [1; 2; 3; 4; 5; 6; 7] 0 r) ∧
  match tcp_write false 0 [1; 2; 3; 4; 5; 6; 7] 0 (test_tcp 0 writing_socket) with
  | Ok (r, s') => r = WaitWindow 4 ∧
      map (λ f, (sub f 24 28, drop 40 f)) (wire (netif (Tcp.ip s'))) =
        [([0; 0; 3; 233], [1; 2]); ([0; 0; 3; 235], [3; 4])]
  | _ => False
  end.
Proof.
  split; [|by vm_compute].
  assert (bytes_ok [1; 2; 3; 4; 5; 6; 7]) as Hb by bytes_solve.
  destruct (test_socket_wf Established 5 NetBuffer_new buf_ok_new).
  destruct (test_socket_open (λ off, off) 5 NetBuffer_new) as (_ & Hfl & _); [by vm_compute|].
  assert (tcp_ok (test_tcp 0 writing_socket) 0) as Hok.
  { apply test_tcp_ok; [by split|by split|done]. }
  destruct (tcp_write_correct false (test_tcp 0 writing_socket) 0 0 writing_socket
    [1; 2; 3; 4; 5; 6; 7] 0 eq_refl) as [H _].
  eapply runs_mono.
  - apply H; [exact Hok|done|by vm_compute|exact Hfl|exact Hb|by split|by split|by vm_compute..].
  - intros r s' (s1 & g' & _ & Hok' & _ & _ & Hw). split; [done|]. by exists s1, g'.
Defined.

(** C19: acknowledgements.  process_ack removes from the retransmission queue
    exactly the octets between SND.UNA and the acknowledgement number, which
    becomes SND.UNA, and nothing for a number outside (SND.UNA, SND.NXT]; so
    the queue always holds the octets in flight, SND.NXT - SND.UNA of them;
    and when nothing is left the retransmission timer is cleared. *)
Theorem process_ack_correct `{!Tun, !Random} s k g ack :
  socket_wf g → in_flight g → is_u32 ack → ip_ok (Tcp.ip s) (nfrags (retransmit_queue g) + k) →
  runs (process_ack g ack) s (λ g' s', locked_step s s' [] ∧
    ip_ok (Tcp.ip s') (nfrags (retransmit_queue g') + k) ∧ socket_wf g' ∧ in_flight g' ∧
    contents (retransmit_queue g') =
      drop (Z.to_nat (newly_acked g ack)) (contents (retransmit_queue g)) ∧
    send_unacked g' = u32_wrapping_add (send_unacked g) (newly_acked g ack) ∧
    (∃ q timer_id una, g' = g <| retransmit_queue := q |> <| retransmit_timer_id := timer_id |>
                              <| send_unacked := una |>) ∧
    (0 < newly_acked g ack → contents (retransmit_queue g') = [] → retransmit_timer_id g' = -1)).
Proof. apply process_ack_runs. Qed.

(** Three octets in flight, of which an acknowledgement of 1000 covers two. *)
Definition unacked_socket : TCPSocketState :=
  test_socket Established 4096 (one_fragment [7; 8; 9]).

Lemma unacked_socket_ok : socket_wf unacked_socket ∧ in_flight unacked_socket ∧
  contents (retransmit_queue unacked_socket) = [7; 8; 9].
Proof.
  destruct (one_fragment_ok [7; 8; 9]) as (Hb & Hc & _); [bytes_solve|by split|].
  split_and!; [by apply test_socket_wf| |exact Hc].
  by destruct (test_socket_open (λ off, off) 4096 (one_fragment [7; 8; 9])) as (_ & ? & _).
Qed.

Lemma process_ack_correct_witness :
  runs (process_ack unacked_socket 1000) (test_tcp 1 unacked_socket) (λ g' _,
    in_flight g' ∧ contents (retransmit_queue g') = [9] ∧ send_unacked g' = 1000).
Proof.
  destruct unacked_socket_ok as (Hwf & Hfl & Hc).
  eapply runs_mono.
  - apply (process_ack_correct (test_tcp 1 unacked_socket) 0 unacked_socket 1000 Hwf Hfl); [by split|].
    by apply (taken_ip_ok 1).
  - intros g' s' (_ & _ & _ & Hfl' & Hq & Hu & _). split_and!; [done|by rewrite Hq, Hc|by rewrite Hu].
Defined.

(** C21: retransmission.  When its timer runs out, the socket sends the first
    octets of its retransmission queue, at most one segment size, keeps the
    queue and starts the timer again.  The segment carries SND.NXT as its
    sequence number, not SND.UNA, the number of the first octet it holds: with
    octets in flight the two differ. *)
Theorem retransmit_correct `{!Tun, !TunOk, !Random} s k h g :
  tcp_ok s k → sockets s !! h = Some g → state g ≠ Closed → can_send g → in_flight g →
  contents (retransmit_queue g) ≠ [] → 0 ≤ send_mss g ≤ 2560 →
  let p := send_params g (Z.lor FLAG_ACK FLAG_PSH) in
  runs (retransmit h) s (λ _ s', ∃ s1 timer_id, tcp_ok s' k ∧
    s' = put_back s1 h (g <| retransmit_timer_id := timer_id |>) ∧
    locked_step s s1 [tcp_frame (Tcp.ip s) p
      (take (Z.to_nat (send_mss g)) (contents (retransmit_queue g)))] ∧
    PENDING_TIMERS (timers s1) = PENDING_TIMERS (timers s) ++
      [{| absolute_timeout_ms := current_time_ms (timers s) + RETRANSMIT_INTERVAL;
          closure := Some (Retransmit h); id := timer_id |}]) ∧
  seq_num p = u32_wrapping_add (send_unacked g) (zlen (contents (retransmit_queue g))) ∧
  seq_num p ≠ send_unacked g.
Proof.
  intros Hok Hg Hst Hcs [Hf Hlen] Hne Hmss p.
  destruct (locked_ok _ _ _ _ Hok Hg) as [[? ? ? ? (Hn & Hu & _)] _].
  assert (0 < zlen (contents (retransmit_queue g))) as Hpos.
  { pose proof (zlen_nonneg (contents (retransmit_queue g))).
    destruct (decide (zlen (contents (retransmit_queue g)) = 0)) as [E|]; [|lia].
    by apply zlen_0_nil in E. }
  split_and!.
  - call retransmit_runs; try done; [lia|].
    intros _ s' (s1 & tid & _ & Hok' & Hs & Hl & Hp). by exists s1, tid.
  - rewrite <-Hf. symmetry. by apply wrapping_add_sub.
  - cbn. intros E. rewrite E in Hf. unfold wrapping_sub in Hf. rewrite Z.sub_diag in Hf.
    change (0 mod u32_size) with 0 in Hf. lia.
Qed.

Lemma retransmit_correct_witness :
  runs (retransmit 0) (test_tcp 1 unacked_socket) (λ _ s', tcp_ok s' 0) ∧
  seq_num (send_params unacked_socket (Z.lor FLAG_ACK FLAG_PSH)) ≠ 998.
Proof.
  destruct unacked_socket_ok as (Hwf & Hfl & Hc).
  destruct (retransmit_correct (test_tcp 1 unacked_socket) 0 0 unacked_socket) as (H & _ & Hs);
    [by apply test_tcp_ok|done|done|by vm_compute|exact Hfl|by rewrite Hc|by split|].
  split; [|exact Hs]. eapply runs_mono; [exact H|]. intros [] s' (s1 & tid & Hok' & _). exact Hok'.
Defined.

(** * Segments on the wire *)

(** Round trip.  tcp_output writes one frame, an IP header and a segment;
    a host that has the segment's destination address and receives it from the
    sender's finds its checksum right, reads back every field of the header, and
    reads back the options that were encoded. *)
Theorem tcp_header_roundtrip `{!Tun, !TunOk} s0 k0 b0 p opts s k b ck r :
  buf_ok b0 → even_layout b0 → zlen (contents b0) ≤ 65000 → nfrags b0 + 2 ≤ MAX_VECS →
  params_ok p → ip_ok s0 (nfrags b0 + k0) →
  options p = encode_options opts → Forall option_ok opts →
  let src := local_addr (netif s0) (dest_ip p) in
  let seg := tcp_segment (tcp_sum src (dest_ip p) (20 + zlen (options p) + zlen (contents b0)))
               p (contents b0) in
  runs (tcp_output b0 p) s0 (λ _ s0', ∃ hdr, sent (netif s0) (netif s0') [hdr ++ seg] ∧ ip_ok s0' k0) ∧
  (ip_ok s k → local_addr (netif s) src = dest_ip p → buf_ok b → even_layout b →
   contents b = seg → header b = Ok (tcp_header p ck ++ r) →
   runs (validate_checksum b src) s (λ v s', v = true ∧ s' = s) ∧
   decode_header (tcp_header p ck ++ r) = Ok (header_of p) ∧
   (o ← slice (tcp_header p ck ++ r) TCP_HEADER_LEN (h_header_length (header_of p)); parse_options o) =
     Ok {| max_segment_size := last_mss 0 opts |}).
Proof.
  intros Hb0 He0 Hlen Hn Hp Hok0 Ho Hoo src seg.
  pose proof (zlen_nonneg (options p)). pose proof (zlen_nonneg (contents b0)).
  destruct (p_options p Hp) as (_ & _ & Hol). split.
  - call tcp_output_runs; [done..|]. intros _ s0' [Hs Hok']. eexists. split; [|done].
    unfold tcp_frame in Hs. rewrite truncate_id in Hs by (unfold in_range; lia). exact Hs.
  - intros Hok Hloc Hb He Hc Hh. destruct (local_addr_ok s0 _ (dest_ip p) Hok0) as [Hsrc Hv].
    fold src in Hsrc, Hv.
    assert (zlen (contents b) = 20 + zlen (options p) + zlen (contents b0)) as Hz.
    { rewrite Hc. unfold seg, tcp_segment. rewrite zlen_app, zlen_tcp_header. lia. }
    split_and!.
    + call validate_checksum_runs; [done|done|lia|done|exact Hok|].
      intros v s' [-> ->]. split; [|done]. rewrite Hz, Hloc, Hc. unfold seg.
      rewrite tcp_segment_checks; [done| |done|by apply contents_ok].
      apply tcp_sum_range; [done|apply (p_ip p Hp)|done].
    + by apply decode_header_spec.
    + change (h_header_length (header_of p)) with (20 + zlen (options p)).
      destruct (tcp_header_options p ck) as (fixed & Hf & ->). rewrite <-app_assoc.
      rewrite slice_split by lia. cbn [mbind outcome_bind].
      rewrite Ho, <-(app_nil_r (encode_options opts)). apply parse_options_encoded; [done|by left].
Qed.

(** The SYN the peer opens a connection with. *)
Definition test_syn : TCPSendParams := {|
  source_port := 80; dest_ip := test_v4; dest_port := 49159; seq_num := 499; ack_num := 0;
  flags := FLAG_SYN; window := 4096; options := encode_options [MaxSegmentSize 1460] |}.

Lemma test_syn_ok : params_ok test_syn.
Proof.
  destruct test_addrs_ok as (? & _ & _ & _). split; try done. split_and!; [bytes_solve|done|done].
Qed.

Definition test_syn_bytes : list Z := tcp_segment (tcp_sum peer_v4 test_v4 24) test_syn [].

Lemma tcp_header_roundtrip_witness :
  runs (tcp_output NetBuffer_new test_syn) (peer_ip 0) (λ _ s', ∃ hdr,
    sent (netif (peer_ip 0)) (netif s') [hdr ++ test_syn_bytes] ∧ ip_ok s' 0) ∧
  runs (validate_checksum (one_fragment test_syn_bytes) peer_v4) (taken_ip 1) (λ v s',
    v = true ∧ s' = taken_ip 1) ∧
  ∃ ck, test_syn_bytes = tcp_header test_syn ck ∧
    decode_header (tcp_header test_syn ck ++ []) = Ok (header_of test_syn).
Proof.
  pose proof test_syn_ok as Hp.
  assert (bytes_ok test_syn_bytes) as Hbo by (by vm_compute; bytes_solve).
  destruct (one_fragment_ok test_syn_bytes Hbo) as (Hb & Hc & Hh); [by split|].
  set (ck := tcp_checksum (tcp_sum peer_v4 test_v4 24) test_syn []).
  assert (test_syn_bytes = tcp_header test_syn ck) as Hs.
  { unfold test_syn_bytes, tcp_segment. apply app_nil_r. }
  assert (ip_ok (peer_ip 0) 0) as Hok0 by (by apply peer_ip_ok).
  assert (ip_ok (taken_ip 1) 1) as Hok by (by apply taken_ip_ok).
  rewrite Hs, <-(app_nil_r (tcp_header test_syn ck)) in Hh. rewrite app_nil_r in Hh at 2.
  destruct (tcp_header_roundtrip (peer_ip 0) 0 NetBuffer_new test_syn [MaxSegmentSize 1460]
    (taken_ip 1) 1 (one_fragment test_syn_bytes) ck []) as [H1 H2];
    [exact buf_ok_new|constructor|by vm_compute|by vm_compute|exact Hp|exact Hok0|done|constructor; [by split|constructor]|].
  split; [exact H1|]. clear H1.
  destruct (H2 Hok eq_refl Hb) as (H3 & H4 & _); [by constructor|exact Hc|exact Hh|].
  split; [exact H3|]. exists ck. split; [exact Hs|exact H4].
Defined.

(** Corrupted segments.  A segment whose one's complement sum with the
    pseudo header is not 0xffff is dropped: no socket, no port, no timer
    changes, nothing is sent, and its fragments return to the pool. *)
Theorem tcp_input_bad_checksum `{!Tun, !Random} s k b src :
  tcp_ok s (nfrags b + k) → buf_ok b → even_layout b → zlen (contents b) ≤ 65536 → IPAddr_ok src →
  ones_fold (tcp_sum src (local_addr (netif (Tcp.ip s)) src) (zlen (contents b)) +
             word_sum (contents b)) ≠ 0xffff →
  runs (tcp_input b src) s (λ _ s', tcp_ok s' k ∧ ∃ p : BufState, s' = update p s).
Proof.
  intros Hok Hb He Hlen Hsrc Hbad. unfold tcp_input. apply runs_bind, runs_zoom.
  call validate_checksum_runs; [done|done|done|done|apply (tcp_net _ _ Hok)|].
  intros v i [-> ->]. rewrite update_view, (proj2 (Z.eqb_neq _ _)) by done. cbn [negb]. run.
  pose proof (tcp_ok_packet _ _ _ Hok) as [Hnet _].
  call drop_buffer_runs; [done|apply Hnet|]. intros _ p Hp. split; [|by exists p].
  eapply tcp_ok_bufs; [exact Hok|]. eapply pool_ok_ext; [exact Hp|]. lia.
Qed.

Lemma tcp_input_bad_checksum_witness :
  let s := test_tcp 1 (test_socket Established 4096 NetBuffer_new) in
  runs (tcp_input (one_fragment (replicate 20 1)) peer_v4) s (λ _ s',
    tcp_ok s' 0 ∧ ∃ p : BufState, s' = update p s).
Proof.
  intros s. destruct (one_fragment_ok (replicate 20 1)) as (Hb & Hc & _); [bytes_solve|by split|].
  destruct test_addrs_ok as (_ & _ & Ha & _).
  apply (tcp_input_bad_checksum s 0 (one_fragment (replicate 20 1)) peer_v4);
    [|exact Hb|by constructor|by rewrite Hc|exact Ha|by rewrite Hc; vm_compute].
  apply test_tcp_ok; [by split|apply test_socket_wf, buf_ok_new|done].
Defined.

(** C28: options.  parse_options reads back the maximum segment size from any
    sequence of well-formed options, whatever else is between and whatever
    follows the end-of-list octet; the last one counts. *)
Theorem parse_options_correct opts pad :
  Forall option_ok opts → padding_ok pad →
  parse_options (encode_options opts ++ pad) = Ok {| max_segment_size := last_mss 0 opts |}.
Proof. apply parse_options_encoded. Qed.

Lemma parse_options_correct_witness :
  parse_options ([1] ++ [3; 3; 7] ++ [2; 4; 5; 180] ++ [0; 9; 9]) = Ok {| max_segment_size := 1460 |}.
Proof.
  apply (parse_options_correct [Nop; OtherOption 3 [7]; MaxSegmentSize 1460] [0; 9; 9]).
  - do 3 (constructor; [by split|]). constructor.
  - right. by eexists.
Defined.

(** C29: an option whose length octet is 0 is read for ever: however many turns
    the loop is given, it does not end. *)
Theorem parse_options_zero_length fuel pre kind rest m :
  2 < kind →
  parse_loop fuel (encode_options pre ++ kind :: 0 :: rest) (zlen (encode_options pre))
    {| max_segment_size := m |} = OutOfFuel.
Proof. apply parse_loop_diverges. Qed.

Lemma parse_options_zero_length_witness :
  parse_loop 1000 (encode_options [Nop] ++ [8; 0; 0]) 1 {| max_segment_size := 0 |} = OutOfFuel.
Proof. by apply (parse_options_zero_length 1000 [Nop] 8 [0] 0). Defined.

(** A peer that announces a segment size of 0 stops tcp_write for ever: with
    room in the window its loop sends empty segments, holding the lock of the
    socket, and does not end however many turns it is given. *)
Theorem tcp_write_zero_mss `{!Tun, !TunOk} fuel s k h g data offset :
  tcp_ok s k → sockets s !! h = Some g → can_send g → in_flight g → send_mss g = 0 →
  0 ≤ offset < zlen data →
  seq_gt (send_next_seq g) (u32_wrapping_add (send_unacked g) (send_window g)) = false →
  write_loop fuel h g data offset s = OutOfFuel.
Proof.
  intros Hok Hg Hcs Hfl Hmss Ho Hwin. destruct (locked_ok _ _ _ _ Hok Hg) as [Hwf Hip].
  apply (write_loop_stuck fuel s (nfrags (receive_queue g) + ooo_frags (out_of_order (reassembler g)) +
    others s k g)); try done; [apply Hok|].
  unfold socket_frags in Hip. by replace (nfrags (retransmit_queue g) + _) with
    (nfrags (receive_queue g) + nfrags (retransmit_queue g) + ooo_frags (out_of_order (reassembler g)) +
     others s k g) by lia.
Qed.

Definition stuck_socket : TCPSocketState :=
  (test_socket Established 5 NetBuffer_new) <| send_mss := 0 |>.

Lemma tcp_write_zero_mss_witness : write_loop 1000 0 stuck_socket [1; 2; 3] 0 (test_tcp 0 stuck_socket) = OutOfFuel.
Proof.
  destruct (test_socket_wf Established 5 NetBuffer_new buf_ok_new).
  destruct (test_socket_open (λ off, off) 5 NetBuffer_new) as (_ & Hfl & _); [by vm_compute|].
  assert (tcp_ok (test_tcp 0 stuck_socket) 0) as Hok.
  { apply test_tcp_ok; [by split|by split|done]. }
  assert (can_send stuck_socket) as Hcs by (by vm_compute).
  assert (0 ≤ 0 < zlen [1; 2; 3]) as Ho by (by split).
  assert (seq_gt (send_next_seq stuck_socket) (u32_wrapping_add (send_unacked stuck_socket)
    (send_window stuck_socket)) = false) as Hw by (by vm_compute).
  exact (tcp_write_zero_mss 1000 (test_tcp 0 stuck_socket) 0 0 stuck_socket [1; 2; 3] 0 Hok eq_refl Hcs Hfl eq_refl Ho Hw).
Defined.
