(* ===== verification/TcpConnProps.v ===== *)
(** * Properties of tcp.rs: connections

    How connections are opened and closed, and what the segments and timers
    that do it change. *)

From S2P Require Import Prelude Util Buf BufSpec Checksum Timer Netif Ip Reassembler TcpOptions Tcp TcpSpec TcpData TcpConn TcpControl TcpOpen TcpSegments TcpListen TcpTransition BufProps TestHost TcpProps.
From stdpp Require Import gmap.
Local Open Scope Z_scope.

(** * The state machine *)

(** C18: transitions.  A valid segment, with or without data, moves its
    connection exactly as [segment_state] says: a reset closes it, and any other
    segment leaves it where it is or takes it along an edge of the connection
    state diagram of RFC 9293.  What was received before stays in the queue,
    what is added follows it, and a segment without data adds nothing; entering
    TIME-WAIT starts its timer.  (Data has to be a part of the peer's stream near
    the octet expected next, an acknowledgement that is in range has to find the
    octets it covers in the retransmission queue, and there has to be a sequence
    number to acknowledge a FIN with.) *)
Theorem segment_transition `{!Tun, !TunOk, !Random, !RandomOk} s k b src p opts payload h g :
  let rst := has_flag (flags p) FLAG_RST in
  segment_buffer s b src p opts payload → tcp_ok s (nfrags b + k) →
  PORT_MAP s !! (src, source_port p, dest_port p) = Some h → sockets s !! h = Some g →
  (rst = false → acceptable g (seq_num p) payload ∧ fin_room g ∧
     (has_flag (flags p) FLAG_ACK = true → is_established g = true →
      in_flight g ∨ ack_ignored g (ack_num p))) →
  let st' := segment_state (state g) rst (has_flag (flags p) FLAG_ACK) (has_flag (flags p) FLAG_FIN)
    (ack_num p =? u32_wrapping_add (send_next_seq g) 1) in
  (st' = state g ∨ segment_edge rst (state g) st') ∧
  runs (tcp_input b src) s (λ _ s', tcp_ok s' k ∧ ∃ g' frames, socket_step s s' h g' frames ∧
    state g' = st' ∧ contents (receive_queue g) `prefix_of` contents (receive_queue g') ∧
    (payload = [] → contents (receive_queue g') = contents (receive_queue g)) ∧
    (state g ≠ TimeWait → st' = TimeWait → ∃ timer_id,
       pending_last s' TIME_WAIT_TIMEOUT (TimeWaitTimeout h) timer_id)).
Proof.
  intros rst Hseg Hok Hpm Hg Hvalid st'. split; [apply segment_state_edge|].
  destruct (has_flag (flags p) FLAG_RST) eqn:HR; subst rst.
  - call (tcp_input_reset_runs s k b src p opts payload h g); try done.
    intros _ s' (Hok' & g' & Hss & Hst & Hq & _). split; [done|]. exists g', []. rewrite Hq. by split_and!.
  - destruct (Hvalid eq_refl) as (Hacc & Hroom & Hin).
    apply (tcp_input_dispatch_runs s k b src p opts payload); [done|done|].
    intros b' s1 Hb' Hc' Hok1 Hl1 _ _. cbv zeta. rewrite Hpm.
    call (input_socket_any_runs s1 k h g b' (header_of p)); try done.
    { by rewrite (step_sockets _ _ _ Hl1). } { by rewrite Hc'. } { apply (seg_params _ _ _ _ _ _ Hseg). }
    intros _ s' (Hok' & g' & frames & Hss & Hst & Hpre & Hsame & Htw). split; [done|].
    exists g', frames. rewrite Hc' in Hsame. split_and!; try done. by eapply socket_step_after.
Qed.

(** The peer's last octets, and its FIN with them. *)
Lemma segment_transition_witness :
  runs (tcp_input (one_fragment (test_packet 17 [7; 8; 9])) peer_v4)
    (test_tcp 1 (test_socket Established 4096 NetBuffer_new)) (λ _ s', tcp_ok s' 0 ∧
    ∃ g' frames, socket_step (test_tcp 1 (test_socket Established 4096 NetBuffer_new)) s' 0%nat g' frames ∧
      state g' = CloseWait).
Proof.
  set (g := test_socket Established 4096 NetBuffer_new). set (s := test_tcp 1 g).
  assert (segment_buffer s (one_fragment (test_packet 17 [7; 8; 9])) peer_v4 (test_segment 17 [7; 8; 9]) []
    [7; 8; 9]) as Hseg by (apply test_packet_buffer; [done|by split|bytes_solve|done]).
  assert (tcp_ok s 1) as Hok by (apply test_tcp_ok; [by split|apply test_socket_wf, buf_ok_new|done]).
  destruct (test_socket_open (λ off, off - 493) 4096 NetBuffer_new) as (_ & Hfl & Hrec); [by vm_compute|].
  assert (acceptable g 500 [7; 8; 9]) as Hacc.
  { right. exists (λ off, off - 493), 500, 500, 500. split; [exact Hrec|]. by split_and!. }
  destruct (segment_transition s 0 _ peer_v4 (test_segment 17 [7; 8; 9]) [] [7; 8; 9] 0%nat g Hseg Hok)
    as [_ H]; [done|done|intros _; split_and!; [exact Hacc|done|by left]|].
  eapply runs_mono; [exact H|]. intros [] s' (Hok' & g' & frames & Hss & Hst & _).
  split; [exact Hok'|]. exists g', frames. by split.
Defined.

(** C23: resets.  A valid segment with the RST flag closes the connection and
    wakes the threads that wait on it; what was received stays readable. *)
Theorem reset_closes `{!Tun, !TunOk, !Random, !RandomOk} s k b src p opts payload h g :
  segment_buffer s b src p opts payload → tcp_ok s (nfrags b + k) →
  PORT_MAP s !! (src, source_port p, dest_port p) = Some h → sockets s !! h = Some g →
  has_flag (flags p) FLAG_RST = true →
  runs (tcp_input b src) s (λ _ s', tcp_ok s' k ∧ ∃ g', socket_step s s' h g' [] ∧
    state g' = Closed ∧ receive_queue g' = receive_queue g ∧ h ∈ notified s').
Proof. apply tcp_input_reset_runs. Qed.

Lemma reset_closes_witness :
  runs (tcp_input (one_fragment (test_packet 4 [])) peer_v4) (test_tcp 2 reading_socket)
    (λ _ s', tcp_ok s' 0 ∧ ∃ g', state g' = Closed ∧ contents (receive_queue g') = [7; 8; 9]).
Proof.
  assert (segment_buffer (test_tcp 2 reading_socket) (one_fragment (test_packet 4 [])) peer_v4
    (test_segment 4 []) [] []) as Hseg by (apply test_packet_buffer; [done|by split|constructor|done]).
  destruct reading_socket_ok as [Hwf _].
  assert (tcp_ok (test_tcp 2 reading_socket) (nfrags (one_fragment (test_packet 4 [])) + 0)) as Hok
    by (by apply test_tcp_ok).
  destruct (one_fragment_ok [7; 8; 9]) as (_ & Hc & _); [bytes_solve|by split|].
  eapply runs_mono; [exact (reset_closes (test_tcp 2 reading_socket) 0 _ peer_v4 _ [] [] 0%nat
    reading_socket Hseg Hok eq_refl eq_refl eq_refl)|].
  intros [] s' (Hok' & g' & _ & Hst & Hq & _). split; [exact Hok'|]. exists g'.
  split; [exact Hst|]. rewrite Hq. exact Hc.
Defined.

(** * Opening *)

(** C22: active open.  tcp_open takes the first free ephemeral port, between
    49152 and 65534, makes a socket for it in SYN-SENT with the random initial
    sequence number, registers it, sends one SYN and starts the response
    timer; all other sockets and ports stay as they are. *)
Theorem tcp_open_correct `{!Tun, !TunOk, !Random, !RandomOk} fuel n s k a rp :
  tcp_ok s k → IPAddr_ok a → is_u16 rp → (n < fuel)%nat →
  (∀ m, (m < n)%nat → is_Some (PORT_MAP s !! (a, rp, ephemeral_port (random_drawn s + m)))) →
  PORT_MAP s !! (a, rp, ephemeral_port (random_drawn s + n)) = None →
  let lp := ephemeral_port (random_drawn s + n) in
  let g := opening_socket a rp lp (random_u32 (S (random_drawn s + n))) in
  EPHEMERAL_PORT_BASE ≤ lp < 0xffff ∧
  runs (tcp_open fuel a rp) s (λ h s', h = length (sockets s) ∧ tcp_ok s' k ∧
    ∃ timer_id f, sockets s' = sockets s ++ [g <| response_timer_id := timer_id |>] ∧
      PORT_MAP s' = <[(a, rp, lp) := h]> (PORT_MAP s) ∧
      sent (netif (Tcp.ip s)) (netif (Tcp.ip s')) [f] ∧
      is_frame (netif (Tcp.ip s)) (send_params g FLAG_SYN) [] f ∧
      pending_last s' RESPONSE_TIMEOUT (ResponseTimeout h) timer_id).
Proof. intros. split; [apply ephemeral_port_range|by apply tcp_open_runs]. Qed.

Definition empty_tcp : TcpState := {|
  Tcp.ip := taken_ip 0; PORT_MAP := ∅; sockets := []; timers := TimerState_init 0;
  notified := []; random_drawn := O |}.

Lemma empty_tcp_ok : tcp_ok empty_tcp 0.
Proof. split; [by apply (taken_ip_ok 0)|constructor|done]. Qed.

Lemma tcp_open_correct_witness :
  runs (tcp_open 1 peer_v4 80) empty_tcp (λ h s', h = 0%nat ∧ tcp_ok s' 0 ∧
    ∃ g, sockets s' = [g] ∧ state g = SynSent ∧ PORT_MAP s' = {[ (peer_v4, 80, 49159) := 0%nat ]}).
Proof.
  destruct test_addrs_ok as (_ & _ & Ha & _).
  assert (is_u16 80) as H80 by by split.
  destruct (tcp_open_correct 1 0 empty_tcp 0 peer_v4 80 empty_tcp_ok Ha H80) as [_ H];
    [lia|intros m Hm; lia|done|].
  eapply runs_mono; [exact H|]. intros h s' (-> & Hok & tid & f & Hs & Hp & _).
  split; [done|]. split; [exact Hok|]. eexists. split; [exact Hs|]. split; [done|exact Hp].
Defined.

(** The handshake, active side.  The peer's SYN that acknowledges ours
    opens the connection at the peer's sequence number, with nothing in
    flight and the peer's window; it is acknowledged at once and the thread
    that waits in tcp_open is woken. *)
Theorem handshake_client `{!Tun, !TunOk, !Random, !RandomOk} s k b src p opts h g stream next :
  segment_buffer s b src p opts [] → tcp_ok s (nfrags b + k) →
  PORT_MAP s !! (src, source_port p, dest_port p) = Some h → sockets s !! h = Some g →
  state g = SynSent → unused g →
  has_flag (flags p) FLAG_ACK = true → has_flag (flags p) FLAG_RST = false →
  ack_num p = u32_wrapping_add (send_next_seq g) 1 → u32_wrapping_add (seq_num p) 1 = next mod u32_size →
  runs (tcp_input b src) s (λ _ s', tcp_ok s' k ∧ ∃ g' f, socket_step s s' h g' [f] ∧
    open_connection stream next next g' ∧
    is_frame (netif (Tcp.ip s)) (send_params g' FLAG_ACK) [] f ∧
    send_unacked g' = ack_num p ∧ send_window g' = window p ∧ h ∈ notified s').
Proof.
  intros Hseg Hok Hpm Hg Hst Hun HA HR Hack Hseq.
  eapply runs_mono; [by eapply tcp_input_synack_runs|].
  intros _ s' (Hok' & g' & f & Hss & Ho & Hf & Hu & Hw & Hn & _). split; [done|]. by exists g', f.
Qed.

(** The peer's answer to a SYN with the number 1000. *)
Definition syn_sent_socket : TCPSocketState := opening_socket peer_v4 80 49159 1000.

Lemma handshake_client_witness :
  runs (tcp_input (one_fragment (test_packet 18 [])) peer_v4) (test_tcp 1 syn_sent_socket) (λ _ s',
    tcp_ok s' 0 ∧ ∃ g' f, socket_step (test_tcp 1 syn_sent_socket) s' 0%nat g' [f] ∧
      open_connection (λ off, off) 501 501 g' ∧ send_window g' = 4096).
Proof.
  set (s := test_tcp 1 syn_sent_socket).
  assert (segment_buffer s (one_fragment (test_packet 18 [])) peer_v4 (test_segment 18 []) [] []) as Hseg
    by (apply test_packet_buffer; [done|by split|constructor|done]).
  destruct test_addrs_ok as (_ & _ & Ha & _).
  assert (tcp_ok s 1) as Hok.
  { apply test_tcp_ok; [by split| |done]. by apply set_state_wf, fresh_socket_wf. }
  eapply runs_mono; [exact (handshake_client s 0 _ peer_v4 _ [] 0%nat syn_sent_socket (λ off, off) 501
    Hseg Hok eq_refl eq_refl eq_refl (conj eq_refl (conj eq_refl eq_refl)) eq_refl eq_refl eq_refl eq_refl)|].
  intros [] s' (Hok' & g' & f & Hss & Ho & _ & _ & Hw & _). split; [exact Hok'|]. by exists g', f.
Defined.

(** Passive open.  A SYN for a listening port makes a socket in
    SYN-RECEIVED that expects the number after the SYN's, registers it for the
    peer, answers with a SYN and an acknowledgement, starts its response timer
    and hands the socket to the listener, which is woken. *)
Theorem passive_open `{!Tun, !TunOk, !Random, !RandomOk} s k b src p opts lh lg :
  segment_buffer s b src p opts [] → tcp_ok s (nfrags b + k) →
  PORT_MAP s !! (src, source_port p, dest_port p) = None →
  PORT_MAP s !! (IPAddr_new, 0, dest_port p) = Some lh → sockets s !! lh = Some lg →
  state lg = Listen → has_flag (flags p) FLAG_SYN = true →
  let h := length (sockets s) in
  let g := accepted_socket src (source_port p) (dest_port p) (random_u32 (random_drawn s))
    (seq_num p) (ack_num p) (window p) (last_mss 0 opts) in
  runs (tcp_input b src) s (λ _ s', tcp_ok s' k ∧ ∃ timer_id f,
    sockets s' = <[lh := lg <| socket_queue ::= λ q, q ++ [h] |>]>
      (sockets s ++ [g <| response_timer_id := timer_id |>]) ∧
    PORT_MAP s' = <[(src, source_port p, dest_port p) := h]> (PORT_MAP s) ∧
    lh ∈ notified s' ∧ sent (netif (Tcp.ip s)) (netif (Tcp.ip s')) [f] ∧
    is_frame (netif (Tcp.ip s)) (send_params g (Z.lor FLAG_SYN FLAG_ACK)) [] f ∧
    pending_last s' RESPONSE_TIMEOUT (ResponseTimeout h) timer_id).
Proof. apply tcp_input_syn_runs. Qed.

Definition listening_tcp : TcpState :=
  (test_tcp 1 (listening_socket 49159 0)) <| PORT_MAP := {[ (IPAddr_new, 0, 49159) := 0%nat ]} |>.

Lemma listening_tcp_ok : tcp_ok listening_tcp 1.
Proof.
  assert (socket_wf (listening_socket 49159 0)) as Hwf
    by (apply set_state_wf, fresh_socket_wf; [exact IPAddr_new_ok|done..]).
  destruct (test_tcp_ok 1 (listening_socket 49159 0) 1) as [? ? ?]; [by split|done|done|]. by split.
Qed.

Lemma test_syn_buffer :
  segment_buffer listening_tcp (one_fragment test_syn_bytes) peer_v4 test_syn [MaxSegmentSize 1460] [].
Proof.
  assert (bytes_ok test_syn_bytes) as Hbo by (by vm_compute; bytes_solve).
  destruct (one_fragment_ok test_syn_bytes Hbo) as (Hb & Hc & Hh); [by split|].
  destruct test_addrs_ok as (_ & _ & Ha & _). pose proof test_syn_ok as Hp.
  split; [split; [done|by constructor]|exact Hc| |split_and!; [done|done|constructor]| |by rewrite Hc].
  - eexists _, []. rewrite Hh. reflexivity.
  - exists []. split_and!; [done|by left|]. constructor; [by split|constructor].
Qed.

Lemma passive_open_witness :
  runs (tcp_input (one_fragment test_syn_bytes) peer_v4) listening_tcp (λ _ s', tcp_ok s' 0 ∧
    ∃ lg g, sockets s' = [lg; g] ∧ socket_queue lg = [1%nat] ∧ state g = SynReceived ∧
      send_mss g = 1460).
Proof.
  pose proof test_syn_buffer as Hseg.
  assert (tcp_ok listening_tcp (nfrags (one_fragment test_syn_bytes) + 0)) as Hok
    by exact listening_tcp_ok.
  assert (PORT_MAP listening_tcp !! (peer_v4, source_port test_syn, dest_port test_syn) = None) as Hp1
    by (by vm_compute).
  assert (PORT_MAP listening_tcp !! (IPAddr_new, 0, dest_port test_syn) = Some 0%nat) as Hp2
    by (by vm_compute).
  pose proof (passive_open listening_tcp 0 _ peer_v4 test_syn _ 0%nat (listening_socket 49159 0)
    Hseg Hok Hp1 Hp2 eq_refl eq_refl eq_refl) as H. cbv zeta in H. eapply runs_mono; [exact H|].
  intros [] s' (Hok' & tid & f & Hs & _). split; [exact Hok'|]. eexists _, _.
  split; [exact Hs|by split_and!].
Defined.

(** The handshake, passive side.  The acknowledgement of our SYN opens
    the accepted connection at the peer's sequence number, with nothing in
    flight; nothing is sent. *)
Theorem handshake_server `{!Tun, !TunOk, !Random, !RandomOk} s k b src p opts h g stream next :
  segment_buffer s b src p opts [] → tcp_ok s (nfrags b + k) →
  PORT_MAP s !! (src, source_port p, dest_port p) = Some h → sockets s !! h = Some g →
  state g = SynReceived → unused g →
  has_flag (flags p) FLAG_ACK = true → has_flag (flags p) FLAG_RST = false →
  ack_num p = u32_wrapping_add (send_next_seq g) 1 →
  get_next_expect (reassembler g) = next mod u32_size →
  runs (tcp_input b src) s (λ _ s', tcp_ok s' k ∧ ∃ g', socket_step s s' h g' [] ∧
    open_connection stream next next g' ∧ send_unacked g' = ack_num p ∧
    send_window g' = send_window g).
Proof.
  intros Hseg Hok Hpm Hg Hst Hun HA HR Hack Hseq.
  eapply runs_mono; [by eapply tcp_input_ack_runs|].
  intros _ s' (Hok' & g' & Hss & Ho & Hu & Hw & _). split; [done|]. by exists g'.
Qed.

Definition syn_received_socket : TCPSocketState :=
  accepted_socket peer_v4 80 49159 1000 499 0 4096 536.

Lemma syn_received_socket_wf : socket_wf syn_received_socket.
Proof. destruct test_addrs_ok as (_ & _ & Ha & _). by apply accepted_socket_wf. Qed.

Lemma handshake_server_witness :
  runs (tcp_input (one_fragment (test_packet 16 [])) peer_v4) (test_tcp 1 syn_received_socket) (λ _ s',
    tcp_ok s' 0 ∧ ∃ g', socket_step (test_tcp 1 syn_received_socket) s' 0%nat g' [] ∧
      open_connection (λ off, off) 500 500 g').
Proof.
  set (s := test_tcp 1 syn_received_socket).
  assert (segment_buffer s (one_fragment (test_packet 16 [])) peer_v4 (test_segment 16 []) [] []) as Hseg
    by (apply test_packet_buffer; [done|by split|constructor|done]).
  assert (tcp_ok s 1) as Hok
    by (apply test_tcp_ok; [by split|exact syn_received_socket_wf|done]).
  eapply runs_mono; [exact (handshake_server s 0 _ peer_v4 _ [] 0%nat syn_received_socket (λ off, off)
    500 Hseg Hok eq_refl eq_refl eq_refl (conj eq_refl (conj eq_refl eq_refl)) eq_refl eq_refl eq_refl
    eq_refl)|].
  intros [] s' (Hok' & g' & Hss & Ho & _). split; [exact Hok'|]. by exists g'.
Defined.

(** C24: refusal.  A segment for no connection that no listener takes is
    answered with one reset that acknowledges the number after the segment's,
    and changes no socket and no port.  That number is computed with a checked
    addition: for the highest sequence number the receive thread panics. *)
Theorem segment_refused `{!Tun, !TunOk, !Random, !RandomOk} s k b src p opts payload :
  segment_buffer s b src p opts payload → tcp_ok s (nfrags b + k) →
  PORT_MAP s !! (src, source_port p, dest_port p) = None → refused s (header_of p) →
  (seq_num p < 0xffffffff →
   runs (tcp_input b src) s (λ _ s', tcp_ok s' k ∧ ∃ f, locked_step s s' [f] ∧
     is_frame (netif (Tcp.ip s)) (reset_params src (header_of p) (seq_num p + 1)) [] f)) ∧
  (seq_num p = 0xffffffff → ∀ b' o, input_no_socket b' src (header_of p) o s = Panic).
Proof.
  intros Hseg Hok Hpm Href. split; [intros; by apply (tcp_input_refused_runs s k b src p opts payload)|].
  intros Hseq b' o. by apply input_refused_overflow.
Qed.

Lemma segment_refused_witness :
  runs (tcp_input (one_fragment (test_packet 16 [])) peer_v4) listening_tcp (λ _ s', tcp_ok s' 0 ∧
    ∃ f, locked_step listening_tcp s' [f]).
Proof.
  assert (segment_buffer listening_tcp (one_fragment (test_packet 16 [])) peer_v4 (test_segment 16 []) []
    []) as Hseg by (apply test_packet_buffer; [done|by split|constructor|done]).
  pose proof listening_tcp_ok as Hok.
  destruct (segment_refused listening_tcp 0 _ peer_v4 _ [] [] Hseg Hok) as [H _]; [done|by right|].
  eapply runs_mono; [apply H; by vm_compute|]. intros [] s' (Hok' & f & Hl & _).
  split; [exact Hok'|by exists f].
Defined.

(** * Timers *)

(** C27: the response timer.  While the retry count is below its limit, the
    timer repeats the request of the state (a SYN, a FIN or an
    acknowledgement; none when the connection is open or closed), starts
    itself again, and changes nothing else: it never counts the retry, so the
    limit is not reached by it. *)
Theorem response_timeout_correct `{!Tun, !TunOk, !Random} s k h g :
  tcp_ok s k → sockets s !! h = Some g → request_retry_count g < MAX_RETRIES →
  ¬ unexpected_timeout (state g) → can_send g →
  runs (response_timeout h) s (λ _ s', ∃ s1 g' frames,
    s' = put_back s1 h g' ∧ tcp_ok s' k ∧ locked_step s s1 frames ∧
    state g' = state g ∧ request_retry_count g' = request_retry_count g ∧
    pending_last s1 RESPONSE_TIMEOUT (ResponseTimeout h) (response_timer_id g') ∧
    match response_flags (state g) with
    | Some fl => ∃ f, frames = [f] ∧ is_frame (netif (Tcp.ip s)) (send_params g fl) [] f
    | None => frames = []
    end).
Proof.
  intros. call response_timeout_runs; [done..|].
  intros _ s' (s1 & tid & frames & -> & Hok & Hl & Hp & Hf).
  by exists s1, (g <| response_timer_id := tid |>), frames.
Qed.

Lemma response_timeout_correct_witness :
  runs (response_timeout 0) (test_tcp 0 syn_sent_socket) (λ _ s', tcp_ok s' 0 ∧
    ∃ s1 f, locked_step (test_tcp 0 syn_sent_socket) s1 [f]).
Proof.
  destruct test_addrs_ok as (_ & _ & Ha & _).
  assert (tcp_ok (test_tcp 0 syn_sent_socket) 0) as Hok.
  { apply test_tcp_ok; [by split| |done]. by apply set_state_wf, fresh_socket_wf. }
  assert (¬ unexpected_timeout (state syn_sent_socket)) as Hst by (by intros [?|[?|[?|?]]]).
  eapply runs_mono; [exact (response_timeout_correct (test_tcp 0 syn_sent_socket) 0 0%nat
    syn_sent_socket Hok eq_refl eq_refl Hst eq_refl)|].
  intros [] s' (s1 & g' & frames & _ & Hok' & Hl & _ & _ & _ & Hf).
  split; [exact Hok'|]. destruct Hf as (f & -> & _). by exists s1, f.
Defined.

(** A lost handshake.  A SYN for a listening port starts a response timer
    for a socket in SYN-RECEIVED; if it runs out before the handshake is
    completed, the timer thread panics. *)
Theorem syn_received_timeout_panics `{!Tun, !TunOk, !Random, !RandomOk} s k lh lg src sp dp seq ack w mss :
  tcp_ok s k → sockets s !! lh = Some lg → state lg = Listen →
  IPAddr_ok src → is_u16 sp → is_u16 dp → is_u32 seq →
  runs (handle_new_connection lh src sp dp seq ack w mss) s (λ h s',
    (∃ timer_id, pending_last s' RESPONSE_TIMEOUT (ResponseTimeout h) timer_id) ∧
    run_timer (ResponseTimeout h) s' = Panic).
Proof.
  intros Hok Hlg Hst Hsrc Hsp Hdp Hseq. call (handle_new_connection_runs s k lh lg); [done..|].
  intros h s' (-> & _ & tid & f & Hs & _ & _ & _ & _ & Hp). split; [by eexists|].
  assert (length (sockets s) ≠ lh) as Hne.
  { intros E. by rewrite <-E, (proj2 (lookup_ge_None (sockets s) _)) in Hlg. }
  eapply response_timeout_panics.
  - rewrite Hs, list_lookup_insert_ne by done. by apply list_lookup_middle.
  - done.
  - by left.
Qed.

Lemma syn_received_timeout_panics_witness :
  runs (handle_new_connection 0 peer_v4 80 49159 499 0 4096 536) listening_tcp (λ h s',
    (∃ timer_id, pending_last s' RESPONSE_TIMEOUT (ResponseTimeout h) timer_id) ∧
    run_timer (ResponseTimeout h) s' = Panic).
Proof.
  destruct test_addrs_ok as (_ & _ & Ha & _).
  assert (is_u16 80 ∧ is_u16 49159 ∧ is_u32 499) as (H1 & H2 & H3) by by split_and!.
  exact (syn_received_timeout_panics listening_tcp 1 0%nat (listening_socket 49159 0) peer_v4 80 49159
    499 0 4096 536 listening_tcp_ok eq_refl eq_refl Ha H1 H2 H3).
Defined.

(** A FIN in FIN-WAIT-2.  It starts a response timer, which nothing stops, and
    the later one of TIME-WAIT; when the first runs out the timer thread
    panics. *)
Theorem fin_wait_2_timeout_panics `{!Tun, !TunOk, !Random, !RandomOk} s k b src p opts h g :
  segment_buffer s b src p opts [] → tcp_ok s (nfrags b + k) →
  PORT_MAP s !! (src, source_port p, dest_port p) = Some h → sockets s !! h = Some g → state g = FinWait2 →
  has_flag (flags p) FLAG_RST = false → has_flag (flags p) FLAG_FIN = true →
  get_next_expect (reassembler g) + 1 < u32_size → in_flight g →
  runs (tcp_input b src) s (λ _ s', (∃ l t1 t2, let now := current_time_ms (timers s') in
    PENDING_TIMERS (timers s') = l ++
      [{| absolute_timeout_ms := now + RESPONSE_TIMEOUT; closure := Some (ResponseTimeout h); id := t1 |};
       {| absolute_timeout_ms := now + TIME_WAIT_TIMEOUT; closure := Some (TimeWaitTimeout h); id := t2 |}]) ∧
    run_timer (ResponseTimeout h) s' = Panic).
Proof.
  intros Hseg Hok Hpm Hg Hst HR HF Hnx Hfl.
  apply (tcp_input_dispatch_runs s k b src p opts []); [done|done|].
  intros b' s1 Hb' Hc' Hok1 Hl1 _ _. cbv zeta. rewrite Hpm.
  assert (sockets s1 !! h = Some g) as Hg1 by (by rewrite (step_sockets _ _ _ Hl1)).
  apply (input_socket_control_runs s1 k h g); try done; [apply (seg_params _ _ _ _ _ _ Hseg)|by left|].
  intros g1 s2 Haft Hwf1 Hl2 Hip2. destruct (after_ack_same _ _ _ _ Haft) as [(_ & _ & _ & Hra & _) Hst1].
  unfold state_transition. rewrite Hst1, Hst.
  change (has_flag (h_flags (header_of p)) FLAG_FIN) with (has_flag (flags p) FLAG_FIN). rewrite HF.
  pose proof (step_clock _ _ _ Hl2) as Hck. pose proof (tcp_clock _ _ Hok1) as Hclk.
  apply (request_runs s2 (socket_frags g1 + others s1 (nfrags b' + k) g));
    [done|apply can_send_next; by rewrite Hra|done|by rewrite Hck|done|].
  intros t1 f s3 _ Hl3 _ Hip3 _ [l Hp]. apply runs_bind. call set_tcp_timer_runs; [by rewrite (step_clock _ _ _ Hl3), Hck|done|].
  intros t2 s4 (_ & t & -> & Hl4 & Hp2). run. exists [f].
  split; [by apply set_state_wf, response_timer_wf|].
  split; [exact (locked_trans _ _ _ _ _ Hl2 (locked_trans _ _ _ _ _ Hl3 Hl4))|]. split; [exact Hip3|].
  intros s' Hss Hok' _ Ht. pose proof (step_clock _ _ _ Hl4) as Hck4. cbn in Ht, Hck4. split.
  - exists l, t1, t2. cbv zeta. by rewrite Ht, Hp2, Hp, Hck4, <-app_assoc.
  - eapply response_timeout_panics.
    + rewrite (ss_sockets _ _ _ _ _ Hss). apply list_lookup_insert_eq. by eapply lookup_lt_Some.
    + done.
    + by right; right; left.
Qed.

Lemma fin_wait_2_timeout_panics_witness :
  runs (tcp_input (one_fragment (test_packet 17 [])) peer_v4) (test_tcp 1 (test_socket FinWait2 4096 NetBuffer_new))
    (λ _ s', run_timer (ResponseTimeout 0) s' = Panic).
Proof.
  set (g := test_socket FinWait2 4096 NetBuffer_new). set (s := test_tcp 1 g).
  assert (segment_buffer s (one_fragment (test_packet 17 [])) peer_v4 (test_segment 17 []) [] []) as Hseg
    by (apply test_packet_buffer; [done|by split|constructor|done]).
  assert (tcp_ok s 1) as Hok by (apply test_tcp_ok; [by split|apply test_socket_wf, buf_ok_new|done]).
  assert (in_flight g) as Hfl by (by split).
  eapply runs_mono; [exact (fin_wait_2_timeout_panics s 0 _ peer_v4 _ [] 0%nat g Hseg Hok eq_refl eq_refl
    eq_refl eq_refl eq_refl eq_refl Hfl)|]. by intros [] s' [_ H].
Defined.

(** The acknowledgement of a FIN does not wrap around. *)
Theorem fin_ack_overflow `{!Tun, !Random} g packet fl s :
  acks_fin g = true → get_next_expect (reassembler g) = 0xffffffff → send_packet g packet fl s = Panic.
Proof.
  intros Ha Hn. unfold send_packet. destruct (checked_sub _ _) as [w| | |] eqn:E.
  - rewrite (bind_Ok _ _ _ w s) by done. apply bind_Panic, lift_Panic. by rewrite Ha, Hn.
  - by apply bind_Panic.
  - unfold checked_sub in E. by destruct (_ <=? _) in E.
  - unfold checked_sub in E. by destruct (_ <=? _) in E.
Qed.

Lemma fin_ack_overflow_witness :
  send_packet ((test_socket FinWait1 4096 NetBuffer_new) <| receive_next_seq := 0xffffffff |>
    <| reassembler := {| next_sequence := 0xffffffff; out_of_order := [] |} |>) NetBuffer_new FLAG_ACK empty_tcp = Panic.
Proof. apply fin_ack_overflow; reflexivity. Defined.

(** An acknowledgement of more than was sent to be acknowledged. *)
Lemma process_ack_overrun `{!Tun, !Random} guard ack s :
  seq_lt (send_unacked guard) ack = true → seq_le ack (send_next_seq guard) = true →
  NetBuffer_len (retransmit_queue guard) < u32_wrapping_sub ack (send_unacked guard) →
  process_ack guard ack s = Panic.
Proof.
  intros H1 H2 Hl. unfold process_ack. rewrite H1, H2. cbn [andb]. cbv zeta. apply bind_Panic.
  unfold zoom, trim_head. rewrite (bind_Panic (lift _)); [done|]. apply lift_Panic, rust_assert_false.
  by apply Z.leb_gt.
Qed.

(** A forged acknowledgement.  A connection in SYN-RECEIVED takes the peer's
    sequence number for the oldest one of its own that is not acknowledged: an
    acknowledgement between the two, which no handshake sends, makes the receive
    thread panic. *)
Theorem syn_received_bad_ack_panics `{!Tun, !TunOk, !Random, !RandomOk} s k lh lg src sp dp seq ack w mss :
  tcp_ok s k → sockets s !! lh = Some lg → state lg = Listen →
  IPAddr_ok src → is_u16 sp → is_u16 dp → is_u32 seq →
  runs (handle_new_connection lh src sp dp seq ack w mss) s (λ h s', ∀ packet hdr opts,
    is_empty packet = true → has_flag (h_flags hdr) FLAG_RST = false → has_flag (h_flags hdr) FLAG_ACK = true →
    seq_lt seq (h_ack_num hdr) = true → seq_le (h_ack_num hdr) (random_u32 (random_drawn s)) = true →
    input_socket h packet hdr opts s' = Panic).
Proof.
  intros Hok Hlg Hst Hsrc Hsp Hdp Hseq. call (handle_new_connection_runs s k lh lg); [done..|].
  intros h s' (-> & _ & tid & f & Hs & _ & _ & _ & _ & _) packet hdr opts He Hrst Hack Hlt Hle.
  set (g := accepted_socket _ _ _ _ _ _ _ _) in *.
  assert (sockets s' !! length (sockets s) = Some (g <| response_timer_id := tid |>)) as Hg.
  { rewrite Hs, list_lookup_insert_ne; [by apply list_lookup_middle|].
    intros ->. by rewrite (proj2 (lookup_ge_None (sockets s) _)) in Hlg. }
  unfold input_socket. rewrite (bind_Ok _ _ s' (g <| response_timer_id := tid |>) s').
  2: { unfold lock. by rewrite (bind_Ok _ _ s' (sockets s') s') by done; rewrite Hg. }
  pose proof (segment_arrives_runs s' (g <| response_timer_id := tid |>) opts) as Hr.
  apply runs_Ok in Hr as (g1 & s1 & E & m & t & -> & -> & _ & _). rewrite (bind_Ok _ _ _ _ _ E).
  rewrite Hrst, He. cbn [negb]. rewrite (bind_Ok _ _ _ _ _ eq_refl).
  rewrite Hack. apply bind_Panic. cbn [andb]. apply bind_Panic, process_ack_overrun; [exact Hlt|exact Hle|].
  apply seq_gt_spec in Hlt. change (0 < (h_ack_num hdr - seq) mod u32_size). lia.
Qed.

Lemma syn_received_bad_ack_panics_witness :
  runs (handle_new_connection 0 peer_v4 80 49159 499 0 4096 536) listening_tcp (λ h s',
    input_socket h NetBuffer_new {| h_source_port := 80; h_dest_port := 49159; h_seq_num := 500;
      h_ack_num := 700; h_header_length := 20; h_window := 4096; h_flags := FLAG_ACK |}
      {| max_segment_size := 0 |} s' = Panic).
Proof.
  destruct test_addrs_ok as (_ & _ & Ha & _).
  assert (is_u16 80 ∧ is_u16 49159 ∧ is_u32 499) as (H1 & H2 & H3) by by split_and!.
  eapply runs_mono; [exact (syn_received_bad_ack_panics listening_tcp 1 0%nat (listening_socket 49159 0)
    peer_v4 80 49159 499 0 4096 536 listening_tcp_ok eq_refl eq_refl Ha H1 H2 H3)|].
  intros h s' H. apply H; by vm_compute.
Defined.

(** * Closing, listening, accepting *)

(** C25: closing.  tcp_close sends one FIN from ESTABLISHED and CLOSE-WAIT,
    moving on to FIN-WAIT-1 and LAST-ACK with the response timer started;
    it releases the port of a listening socket; in every other state it does
    nothing.  What was received and what is unacknowledged is kept. *)
Theorem tcp_close_correct `{!Tun, !TunOk, !Random} s k h g :
  tcp_ok s k → sockets s !! h = Some g → can_send g →
  runs (tcp_close h) s (λ _ s', tcp_ok s' k ∧ ∃ g' frames, sockets s' = <[h := g']> (sockets s) ∧
    sent (netif (Tcp.ip s)) (netif (Tcp.ip s')) frames ∧ state g' = close_state (state g) ∧
    same_queues g g' ∧
    PORT_MAP s' = (if decide (state g = Listen)
      then delete (IPAddr_new, 0, local_port g) (PORT_MAP s) else PORT_MAP s) ∧
    if decide (state g = Established ∨ state g = CloseWait)
    then ∃ f timer_id, frames = [f] ∧
      is_frame (netif (Tcp.ip s)) (send_params g (Z.lor FLAG_FIN FLAG_ACK)) [] f ∧
      pending_last s' RESPONSE_TIMEOUT (ResponseTimeout h) timer_id
    else frames = []).
Proof. apply tcp_close_runs. Qed.

Lemma tcp_close_correct_witness :
  runs (tcp_close 0) (test_tcp 1 reading_socket) (λ _ s', tcp_ok s' 0 ∧
    ∃ g', sockets s' = [g'] ∧ state g' = FinWait1 ∧ contents (receive_queue g') = [7; 8; 9]).
Proof.
  destruct reading_socket_ok as [Hwf _].
  assert (tcp_ok (test_tcp 1 reading_socket) 0) as Hok by (by apply test_tcp_ok).
  destruct (one_fragment_ok [7; 8; 9]) as (_ & Hc & _); [bytes_solve|by split|].
  eapply runs_mono; [exact (tcp_close_correct (test_tcp 1 reading_socket) 0 0%nat reading_socket Hok
    eq_refl eq_refl)|].
  intros [] s' (Hok' & g' & frames & Hs & _ & Hst & (Hq & _) & _). split; [exact Hok'|]. exists g'.
  split; [exact Hs|]. split; [exact Hst|]. rewrite Hq. exact Hc.
Defined.

(** C26: listening and accepting.  tcp_listen registers a listening socket for
    a free port and refuses a port in use; tcp_accept hands out the
    connections made for a listener, each once and in the order they were
    made, and waits when there is none. *)
Theorem tcp_listen_accept `{!Tun, !TunOk, !Random, !RandomOk} s k port :
  tcp_ok s k → is_u16 port →
  runs (tcp_listen port) s (λ r s', tcp_ok s' k ∧
    sockets s' = sockets s ++ [listening_socket port (random_u32 (random_drawn s))] ∧
    match PORT_MAP s !! (IPAddr_new, 0, port) with
    | Some _ => r = None ∧ PORT_MAP s' = PORT_MAP s
    | None => r = Some (length (sockets s)) ∧
        PORT_MAP s' = <[(IPAddr_new, 0, port) := length (sockets s)]> (PORT_MAP s)
    end) ∧
  ∀ h g, sockets s !! h = Some g →
    tcp_accept h s = match socket_queue g with
      | [] => Ok (None, s)
      | new :: rest => Ok (Some new, put_back s h (g <| socket_queue := rest |>))
      end.
Proof. intros. split; [by apply tcp_listen_runs|]. intros. by apply tcp_accept_eq. Qed.

Lemma tcp_listen_accept_witness :
  runs (tcp_listen 80) empty_tcp (λ r s', r = Some 0%nat ∧ tcp_ok s' 0) ∧
  runs (tcp_listen 49159) listening_tcp (λ r s', r = None ∧ tcp_ok s' 1).
Proof.
  assert (is_u16 80 ∧ is_u16 49159) as (H1 & H2) by by split.
  assert (PORT_MAP listening_tcp !! (IPAddr_new, 0, 49159) = Some 0%nat) as Hp by (by vm_compute).
  destruct (tcp_listen_accept empty_tcp 0 80 empty_tcp_ok H1) as [Ha _].
  destruct (tcp_listen_accept listening_tcp 1 49159 listening_tcp_ok H2) as [Hb _]. rewrite Hp in Hb.
  split.
  - eapply runs_mono; [exact Ha|]. intros r s' (Hok & _ & Hr & _). by split.
  - eapply runs_mono; [exact Hb|]. intros r s' (Hok & _ & Hr & _). by split.
Defined.
