(* ===== verification/StackProps.v ===== *)
(** * Properties of the whole stack

    What applications on two hosts see of each other, through every layer:
    sockets, protocols, IP, packet buffers and the device. *)

From S2P Require Import Prelude Util Buf BufSpec Checksum Timer Netif Ip Icmp.
From S2P Require Udp TcpProps.
From S2P Require Import Reassembler Arrival TcpOptions Tcp Stack TcpSpec TcpData TcpConn TcpSegments.
From S2P Require Import StackSpec Transfer BufProps NetKeeps TcpKeeps TcpInv Reach TestHost.
From stdpp Require Import gmap.
#[local] Existing Instance Udp.eta_UDPSocketState.
Local Open Scope Z_scope.

(** * TCP *)

(** C1: reliable delivery.  The frames that tcp_write puts on the wire for the
    first [n] octets of [data] may reach the peer's receive thread in any
    order, each at least once: when they have, the peer's receive queue has
    grown by exactly those octets, in order. *)
Theorem tcp_transfer `{!Tun, !TunOk, !Random, !RandomOk} a k ha ga data s h gb stream start next :
  tcp_ok a k → sockets a !! ha = Some ga → state ga ≠ Closed → can_send ga → in_flight ga →
  bytes_ok data → 1 ≤ send_mss ga ≤ 1960 →
  zlen (contents (retransmit_queue ga)) + zlen data < 2147483648 →
  receiver s (netif (Tcp.ip a)) ga h gb stream start next →
  out_of_order (reassembler gb) = [] → send_next_seq ga = next mod u32_size →
  at_offset stream next data → next - start + zlen data < 0x7fffffff →
  runs (tcp_write false ha data 0) a (λ r a', ∃ n frames, 0 ≤ n ≤ zlen data ∧
    sent (netif (Tcp.ip a)) (netif (Tcp.ip a')) frames ∧
    (r = Wrote (zlen data) ∧ n = zlen data ∨ r = WaitWindow n ∧ n < zlen data) ∧
    ∀ order fs, (∀ i, i ∈ order ↔ (i < length frames)%nat) →
      Forall2 (λ i f, frames !! i = Some f) order fs → next_frames (Stack.ip s) fs →
      runs (packet_receive_thread (length fs)) s (λ _ s', stack_ok s' ∧ ∃ gb',
        Stack.tcp_sockets s' !! h = Some gb' ∧ state gb' = Established ∧
        contents (receive_queue gb') = contents (receive_queue gb) ++ take (Z.to_nat n) data)).
Proof.
  intros Hok Hga Hst Hcs Hfl Hb Hmss Hsz Hrc Hooo Hseq Hat Hsmall.
  call (write_transfer_runs _ _ _ a k ha ga data s h gb stream start next); try done.
  intros r a' (_ & n & frames & Hn & Hsent & Hr & Hdel). exists n, frames.
  split; [done|]. split; [done|]. split; [tauto|done].
Qed.

(** Two concrete hosts: the peer of the examples, and one that writes three
    octets in segments of two; the second segment overtakes the first and
    arrives again. *)
Definition peer_stack : StackState := {|
  Stack.ip := peer_ip 0; udp_port_map := {[ 8000 := 0%nat ]};
  Stack.udp_sockets := [Udp.UDPSocketState_new 8000]; udp_notified := [];
  tcp_port_map := {[ (test_v4, 49159, 80) := 0%nat ]}; Stack.tcp_sockets := [peer_socket];
  Stack.tcp_timers := TimerState_init 0; tcp_notified := []; random_drawn := O |}.

Lemma peer_stack_ok : stack_ok peer_stack.
Proof.
  pose proof (peer_ip_ok 0 ltac:(by split)) as Hip. split.
  - exact (test_udp_ok (peer_ip 0) 0 Hip).
  - split; [exact Hip| |done]. constructor; [apply peer_socket_wf|constructor].
Qed.

Definition writing_socket : TCPSocketState := (test_socket Established 4096 NetBuffer_new) <| send_mss := 2 |>.
Definition writer : TcpState := test_tcp 0 writing_socket.

Definition writer_frames : list (list Z) :=
  match @tcp_write test_tun false 0 [7; 8; 9] 0 writer with
  | Ok (_, a') => wire (netif (Tcp.ip a'))
  | _ => []
  end.

Definition arriving_frames : list (list Z) := map (λ i, nth i writer_frames []) [1; 0; 1]%nat.

Lemma peer_receives :
  receiver peer_stack (netif (Tcp.ip writer)) writing_socket 0 peer_socket (λ off, off - 994) 1001 1001.
Proof.
  split; [apply peer_stack_ok|done..| |done].
  split; [done|]. split; [by split|]. split; [split; [done|constructor]|done|done].
Qed.

Lemma writer_ok : tcp_ok writer 0.
Proof.
  apply test_tcp_ok; [by split| |done].
  by destruct (test_socket_wf Established 4096 NetBuffer_new buf_ok_new).
Qed.

Lemma writer_ready :
  sockets writer !! 0%nat = Some writing_socket ∧ state writing_socket ≠ Closed ∧
  can_send writing_socket ∧ in_flight writing_socket ∧ bytes_ok [7; 8; 9] ∧
  1 ≤ send_mss writing_socket ≤ 1960 ∧
  zlen (contents (retransmit_queue writing_socket)) + zlen [7; 8; 9] < 2147483648.
Proof.
  split; [done|]. split; [done|]. split; [done|]. split; [split; [reflexivity|by vm_compute]|].
  split; [bytes_solve|]. split; [by split|done].
Qed.

Lemma peer_ready :
  out_of_order (reassembler peer_socket) = [] ∧ send_next_seq writing_socket = 1001 mod u32_size ∧
  at_offset (λ off, off - 994) 1001 [7; 8; 9] ∧ 1001 - 1001 + zlen [7; 8; 9] < 0x7fffffff.
Proof. by split_and!. Qed.

Lemma writer_sends : ∃ a',
  @tcp_write (replay arriving_frames) false 0 [7; 8; 9] 0 writer = Ok (Wrote 3, a') ∧
  wire (netif (Tcp.ip a')) = writer_frames.
Proof. eexists. split; vm_compute; reflexivity. Qed.

Lemma replay_delivers frames i :
  frames_received (netif i) = O → Forall (λ f, zlen f ≤ MRU) frames → @next_frames (replay frames) i frames.
Proof.
  intros Hi Hf j f Hj. rewrite Hi. cbn. rewrite (nth_lookup_Some _ _ _ _ Hj).
  apply take_ge. pose proof (Forall_lookup_1 _ _ _ _ Hf Hj). unfold zlen in *. lia.
Qed.

Lemma arriving_all i : i ∈ [1; 0; 1]%nat ↔ (i < length writer_frames)%nat.
Proof.
  assert (length writer_frames = 2%nat) as -> by (by vm_compute).
  rewrite !elem_of_cons, elem_of_nil. lia.
Qed.

Lemma arriving_order : Forall2 (λ i f, writer_frames !! i = Some f) [1; 0; 1]%nat arriving_frames.
Proof. unfold arriving_frames. set (w := writer_frames). vm_compute in w. subst w. by repeat constructor. Qed.

Lemma arriving_next : @next_frames (replay arriving_frames) (Stack.ip peer_stack) arriving_frames.
Proof. apply replay_delivers; [reflexivity|]. apply (bool_decide_unpack _). by vm_compute. Qed.

Lemma arriving_device : @TunOk (replay arriving_frames).
Proof. apply replay_ok. apply (bool_decide_unpack _). by vm_compute. Qed.

Lemma tcp_transfer_witness :
  runs (@packet_receive_thread (replay arriving_frames) test_random 3) peer_stack (λ _ s',
    stack_ok s' ∧ ∃ g', Stack.tcp_sockets s' !! 0%nat = Some g' ∧ state g' = Established ∧
      contents (receive_queue g') = [7; 8; 9]).
Proof.
  pose proof writer_ready as (H0 & H1 & Hcs & H2 & H3 & H4 & H5).
  pose proof peer_ready as (H6 & H7 & H8 & H9).
  pose proof (@tcp_transfer (replay arriving_frames) arriving_device test_random test_random_ok writer 0
    0%nat writing_socket [7; 8; 9] peer_stack 0%nat peer_socket (λ off, off - 994) 1001 1001
    writer_ok H0 H1 Hcs H2 H3 H4 H5 peer_receives H6 H7 H8 H9) as H.
  destruct writer_sends as (a' & Hw & Hwire). apply (runs_result _ _ _ _ _ H) in Hw.
  destruct Hw as (n & frames & _ & Hsent & Hn & Hdel).
  assert (frames = writer_frames) as ->.
  { rewrite <-Hwire. symmetry. exact (sent_wire _ _ _ Hsent). }
  assert (n = 3) as ->.
  { destruct Hn as [[_ Hn]|[E _]]; [exact Hn|]. discriminate E. }
  apply (Hdel [1; 0; 1]%nat arriving_frames).
  - exact arriving_all.
  - exact arriving_order.
  - exact arriving_next.
Defined.

(** C20: round trip.  tcp_output writes one frame.  The receive thread of the
    host it is addressed to accepts that frame, and gives the payload, the header
    with every field as it was sent, and the segment size of the options to the
    connection the segment is for, or to input_no_socket if there is none: what
    these do with them is what the turn of the thread does. *)
Theorem tcp_segment_roundtrip `{!Tun, !TunOk, !Random, !RandomOk} s0 k0 b0 p opts :
  buf_ok b0 → even_layout b0 → nfrags b0 + 2 ≤ MAX_VECS → params_ok p → ip_ok s0 (nfrags b0 + k0) →
  options p = encode_options opts → Forall option_ok opts →
  20 + zlen (options p) + zlen (contents b0) ≤ MRU →
  let src := local_addr (netif s0) (dest_ip p) in
  let o := {| max_segment_size := last_mss 0 opts |} in
  runs (tcp_output b0 p) s0 (λ _ s0', ip_ok s0' k0 ∧ ∃ f, sent (netif s0) (netif s0') [f] ∧
    ∀ s Q, let k := Udp.queued (Stack.udp_sockets s) in
      stack_ok s → local_addr (netif (Stack.ip s)) src = dest_ip p → next_frame (Stack.ip s) f →
      (∀ b t, buf_ok b → contents b = contents b0 → tcp_ok t (nfrags b + k) →
         wire (netif (Tcp.ip t)) = wire (netif (Stack.ip s)) →
         PORT_MAP t = tcp_port_map s → sockets t = Stack.tcp_sockets s →
         timers t = Stack.tcp_timers s → notified t = tcp_notified s →
         runs (match tcp_port_map s !! (src, source_port p, dest_port p) with
               | None => input_no_socket b src (header_of p) o
               | Some h => input_socket h b (header_of p) o
               end) t Q) →
      runs packet_receive_step s (λ _ s', s' = @update _ _ stack_tcp (tcp_part s') s ∧ Q tt (tcp_part s'))).
Proof.
  intros Hb0 He0 Hn Hp Hok0 Ho Hoo Hmru src o.
  pose proof (zlen_nonneg (options p)). pose proof (zlen_nonneg (contents b0)).
  call tcp_output_runs; [done|done|lia|done..|].
  intros _ s0' [Hsent Hok']. split; [done|]. eexists. split; [exact Hsent|].
  intros s Q k Hs Haddr Hframe Hk.
  assert ({| netif := netif s0; NEXT_PACKET_ID := NEXT_PACKET_ID s0 |} = s0) as E by (by destruct s0).
  apply (tcp_segment_received s (netif s0) (nfrags b0 + k0) p opts (contents b0) (NEXT_PACKET_ID s0));
    rewrite ?E; try done; [by apply contents_ok|].
  intros b i t Hread Hseg Hokt. apply (tcp_input_dispatch_runs t k b src p opts (contents b0)); [done|done|].
  intros b' t1 Hb' Hc' Hok1 Hl1 Hnt Htm. cbv zeta.
  change (PORT_MAP t) with (tcp_port_map s) in *. fold o.
  eapply runs_mono; [apply (Hk b' t1); try done; [|by rewrite (step_ports _ _ _ Hl1)|by rewrite (step_sockets _ _ _ Hl1)]|].
  - destruct Hl1 as [_ _ _ _ _ [Hw _ _ _]]. rewrite Hw, app_nil_r. apply Hread.
  - intros [] t' HQ. cbv beta. rewrite view_update. by split.
Qed.

(** A reset, from the host of the examples to its peer. *)
Definition test_reset : TCPSendParams := {|
  source_port := 49159; dest_ip := peer_v4; dest_port := 80; seq_num := 1001; ack_num := 500;
  flags := FLAG_RST; window := 0; options := [] |}.

Lemma test_reset_ok : params_ok test_reset.
Proof. destruct test_addrs_ok as (_ & _ & ? & _). split; try done. by (split_and!; [constructor|done|done]). Qed.

Definition reset_frame : list Z := tcp_frame test_ip test_reset [].

Lemma tcp_segment_roundtrip_witness :
  runs (@packet_receive_step (replay [reset_frame]) test_random) peer_stack (λ _ s',
    ∃ g', Stack.tcp_sockets s' = [g'] ∧ state g' = Closed).
Proof.
  assert (@TunOk (replay [reset_frame])) as Hdev.
  { apply replay_ok. apply (bool_decide_unpack _). by vm_compute. }
  assert (nfrags NetBuffer_new + 2 ≤ MAX_VECS) as Hn by done.
  assert (20 + zlen (options test_reset) + zlen (contents NetBuffer_new) ≤ MRU) as Hm by done.
  pose proof (@tcp_segment_roundtrip (replay [reset_frame]) Hdev test_random test_random_ok test_ip 0
    NetBuffer_new test_reset [] buf_ok_new ltac:(constructor) Hn test_reset_ok test_ip_ok eq_refl
    ltac:(constructor) Hm) as H.
  assert (∃ a', @tcp_output (replay [reset_frame]) NetBuffer_new test_reset test_ip = Ok (tt, a') ∧
    wire (netif a') = [reset_frame]) as (a' & Hw & Hwire) by (eexists; split; vm_compute; reflexivity).
  apply (runs_result _ _ _ _ _ H) in Hw. destruct Hw as (_ & f & Hsent & Hdel).
  assert (f = reset_frame) as ->.
  { pose proof (sent_wire _ _ _ Hsent) as E. rewrite Hwire in E. by injection E. }
  assert (@next_frame (replay [reset_frame]) (Stack.ip peer_stack) reset_frame) as Hf by (by vm_compute).
  eapply runs_mono.
  - apply (Hdel peer_stack (λ _ t, ∃ g', Tcp.sockets t = [g'] ∧ state g' = Closed) peer_stack_ok eq_refl Hf).
    intros b t Hb _ Ht _ _ Hs _ _.
    eapply runs_mono; [eapply (input_socket_reset_runs t _ 0%nat peer_socket b);
      [exact Ht|by rewrite Hs|exact Hb|done]|].
    intros [] t' (g' & [Hss _ _ _] & _ & Hst & _). exists g'. rewrite Hss, Hs. by split.
  - intros [] s' [_ Hg]. exact Hg.
Defined.

(** * ICMP *)

Definition icmp_protocol (a : IPAddr) : Z := if is_v4 a then PROTO_ICMPV4 else PROTO_ICMPV6.

Definition echo_request (src dst : IPAddr) (data : list Z) : list Z :=
  if is_v4 dst then icmp_message 0 ICMPV4_ECHO_REQUEST data
  else icmp_message (icmpv6_sum src dst (4 + zlen data)) ICMPV6_ECHO_REQUEST data.

Definition echo_reply (src dst : IPAddr) (data : list Z) : list Z :=
  if is_v4 dst then icmp_message 0 ICMPV4_ECHO_REPLY data
  else icmp_message (icmpv6_sum src dst (4 + zlen data)) ICMPV6_ECHO_REPLY data.

Lemma ip_header_read `{!Tun} i j len proto a :
  frame_read i j → ip_header j len proto a = ip_header i len proto a.
Proof. intros [_ H4 H6 _ Hid]. unfold ip_header. by rewrite H4, H6, Hid. Qed.

Lemma packet_icmp b c ty data :
  packet b (icmp_message c ty data) →
  ∃ c0 c1 r, icmp_message c ty data = [ty; 0; c0; c1] ++ data ∧ header b = Ok ([ty; 0; c0; c1] ++ r).
Proof.
  intros Hpk. unfold icmp_message, be16 in *. eexists _, _. set (x := Z.lxor _ _) in *.
  destruct (packet_header_app b [ty; 0; x / 256; x mod 256] data Hpk) as (r & Hr); [done|].
  by exists r.
Qed.

(** C5: ping.  An echo request that another host sends to one of this host's
    addresses, over IPv4 or IPv6, is answered with one frame, the echo reply
    with the same data, addressed to that host.  The rest of the state stays as
    it was, but for the fragment pool, the counters and the packet id of the
    next frame: no socket, port, timer or address changes, no thread is woken,
    and no fragment stays in use. *)
Theorem ping `{!Tun, !TunOk, !Random} s i0 k0 dst data :
  let src := local_addr (netif i0) dst in
  stack_ok s → ip_ok i0 k0 → IPAddr_ok dst → local_addr (netif (Stack.ip s)) src = dst →
  bytes_ok data → 4 + zlen data ≤ MRU →
  next_frame (Stack.ip s)
    (ip_header i0 (4 + zlen data) (icmp_protocol dst) dst ++ echo_request src dst data) →
  runs packet_receive_step s (λ _ s', stack_ok s' ∧ answered s s'
    [ip_header (Stack.ip s) (4 + zlen data) (icmp_protocol dst) src ++ echo_reply dst src data]).
Proof.
  intros src Hs Hi0 Hdst Haddr Hb Hlen Hframe.
  destruct (local_addr_ok _ _ dst Hi0) as [Hsrc Hv]. fold src in Hsrc, Hv.
  assert (∀ c ty, zlen (icmp_message c ty data) = 4 + zlen data) as Hz
    by (intros; unfold icmp_message, be16; zlen_solve).
  assert (zlen (echo_request src dst data) = 4 + zlen data) as Hzr
    by (unfold echo_request; destruct (is_v4 dst); apply Hz).
  pose proof (zlen_nonneg data).
  apply (packet_receive_runs s (stack_frags s) i0 k0 (icmp_protocol dst) dst (echo_request src dst data));
    [by apply stack_ok_ip|done|done|by unfold icmp_protocol; destruct (is_v4 dst)| | |].
  { intros E. rewrite E in Hzr. change (zlen (@nil Z)) with 0 in Hzr. lia. }
  { by rewrite Hzr. }
  intros b i Hpk Hi Hread. unfold icmp_protocol, echo_request, echo_reply in *. fold src.
  rewrite <-Hv. set (len := 4 + zlen data) in *. destruct (is_v4 dst) eqn:Hvd.
  - change (ip_input_common b PROTO_ICMPV4 src) with (zoom (icmp_input_v4 b src) : ST StackState unit).
    apply runs_zoom. destruct (packet_icmp _ _ _ _ Hpk) as (c0 & c1 & r & E & Hh).
    call (icmp_input_v4_runs i (stack_frags s) b src ICMPV4_ECHO_REQUEST 0 c0 c1 data r);
      [apply Hpk|apply Hpk| |done| |done|done|]; rewrite ?(packet_contents _ _ Hpk); [done|lia|].
    rewrite <-(Z.add_0_l (word_sum _)), icmp_message_checks by done.
    intros _ j [Hsent Hj]. split; [by apply (stack_ok_update s j)|].
    rewrite (ip_header_read _ _ _ _ _ Hread) in Hsent. by apply (frame_answered s i j).
  - change (ip_input_common b PROTO_ICMPV6 src) with (zoom (icmp_input_v6 b src) : ST StackState unit).
    apply runs_zoom. destruct (packet_icmp _ _ _ _ Hpk) as (c0 & c1 & r & E & Hh).
    assert (LOCAL_IPV6 (netif i) = dst) as Hl6.
    { rewrite <-(local_addr_read _ _ src Hread) in Haddr. by destruct src. }
    assert (is_u16 (icmpv6_sum src dst len)) as Hsum.
    { apply ones_fold_range, word_sum_bounds, pseudo_header_bytes_ok; done. }
    call (icmp_input_v6_runs i (stack_frags s) b src ICMPV6_ECHO_REQUEST 0 c0 c1 data r);
      [apply Hpk|apply Hpk| |done| |done|done|done|]; rewrite ?(packet_contents _ _ Hpk); [done|lia|].
    rewrite Hl6, Hzr, icmp_message_checks by (done || apply Hsum).
    intros _ j [Hsent Hj]. split; [by apply (stack_ok_update s j)|].
    rewrite (ip_header_read _ _ _ _ _ Hread) in Hsent. by apply (frame_answered s i j).
Qed.

Definition ping_frame : list Z :=
  ip_header test_ip 9 PROTO_ICMPV4 peer_v4 ++ echo_request test_v4 peer_v4 [1; 2; 3; 4; 5].

Lemma ping_device : @TunOk (replay [ping_frame]).
Proof. apply replay_ok. apply (bool_decide_unpack _). by vm_compute. Qed.

Lemma ping_next : @next_frame (replay [ping_frame]) (Stack.ip peer_stack) ping_frame.
Proof. by vm_compute. Qed.

Lemma ping_witness :
  runs (@packet_receive_step (replay [ping_frame]) test_random) peer_stack (λ _ s', stack_ok s' ∧
    wire (netif (Stack.ip s')) =
      [ip_header (peer_ip 0) 9 PROTO_ICMPV4 test_v4 ++ echo_reply peer_v4 test_v4 [1; 2; 3; 4; 5]]).
Proof.
  assert (IPAddr_ok peer_v4) as Ha by (by apply test_addrs_ok).
  assert (bytes_ok [1; 2; 3; 4; 5]) as Hb by bytes_solve.
  assert (4 + zlen [1; 2; 3; 4; 5] ≤ MRU) as Hl by done.
  pose proof (@ping (replay [ping_frame]) ping_device test_random peer_stack test_ip 0 peer_v4
    [1; 2; 3; 4; 5] peer_stack_ok test_ip_ok Ha eq_refl Hb Hl ping_next) as H.
  eapply runs_mono; [exact H|]. intros _ s' (Hok & [_ Hw _ _ _]). split; [exact Hok|exact Hw].
Defined.

(** * What nobody wants *)








(** * UDP *)

(** C8: datagrams.  What udp_send on one host puts on the wire, udp_recv on the
    host that receives it hands out: the data, cut to the reader's buffer, with
    the sender's address and port. *)
Theorem udp_transfer `{!Tun, !TunOk, !Random} a k ha sta dst dp data s h stb dest :
  let src := local_addr (netif (Udp.ip a)) dst in
  let n := Z.min (zlen data) (zlen dest) in
  Udp.udp_ok a k → Udp.sockets a !! ha = Some sta → is_u16 dp → IPAddr_ok dst →
  bytes_ok data → 8 + zlen data ≤ MRU → stack_ok s →
  udp_port_map s !! dp = Some h → Stack.udp_sockets s !! h = Some stb → Udp.receive_queue stb = [] →
  runs (Udp.udp_send ha dst dp data) a (λ _ a', ∃ f,
    sent (netif (Udp.ip a)) (netif (Udp.ip a')) [f] ∧
    (next_frame (Stack.ip s) f →
     runs (packet_receive_step;; zoom (Udp.udp_recv h dest)) s (λ o s',
       o = Some (n, take (Z.to_nat n) data ++ drop (Z.to_nat n) dest, src, Udp.port sta) ∧
       stack_ok s' ∧ Stack.udp_sockets s' = Stack.udp_sockets s ∧
       Stack.tcp_sockets s' = Stack.tcp_sockets s))).
Proof.
  intros src n Ha Hsta Hdp Hdst Hb Hlen Hs Hpm Hstb Hq.
  call Udp.udp_send_runs; try done; [lia|]. intros _ a' (_ & Hsent & _). eexists. split; [exact Hsent|].
  intros Hframe. destruct (Forall_lookup_1 _ _ _ _ (Udp.udp_sockets _ _ Ha) Hsta) as [Hport _].
  pose proof Ha as [Hia _ _]. apply runs_bind.
  call (datagram_received s (Udp.ip a) (Udp.queued (Udp.sockets a) + k) dst (Udp.port sta) dp data h stb);
    try done.
  intros _ s1 (u & b & -> & Hu & _ & _ & _ & _ & Hcb & Hus). fold src in Hus.
  apply runs_zoom. rewrite view_update. call (Udp.udp_recv_runs u (sockets_frags (Stack.tcp_sockets s)) h
    (stb <| Udp.receive_queue ::= λ q, q ++ [(src, Udp.port sta, b)] |>)); [done| | |].
  { rewrite Hus. apply list_lookup_insert_eq. by eapply lookup_lt_Some. }
  { cbn. by rewrite Hq. }
  intros o u' (Ho & Hu' & Hus' & _). rewrite Hcb in Ho.
  split_and!; [done| | |done].
  - by apply (stack_ok_udp s (Stack.ip s) u').
  - change (Udp.sockets u' = Stack.udp_sockets s). rewrite Hus', Hus, list_insert_insert_eq.
    apply list_insert_id. change (Stack.udp_sockets s !! h = Some (stb <| Udp.receive_queue := [] |>)).
    rewrite Hstb. destruct stb as [q p]. cbn in Hq |- *. by rewrite Hq.
Qed.

Definition datagram_frame : list Z := Udp.udp_frame test_ip peer_v4 8000 8000 [1; 2; 3].

Lemma datagram_device : @TunOk (replay [datagram_frame]).
Proof. apply replay_ok. apply (bool_decide_unpack _). by vm_compute. Qed.

Lemma datagram_next : @next_frame (replay [datagram_frame]) (Stack.ip peer_stack) datagram_frame.
Proof. by vm_compute. Qed.

Lemma datagram_sent : ∃ a',
  @Udp.udp_send (replay [datagram_frame]) 0 peer_v4 8000 [1; 2; 3] (test_udp test_ip) = Ok (tt, a') ∧
  wire (netif (Udp.ip a')) = [datagram_frame].
Proof. eexists. split; vm_compute; reflexivity. Qed.

Lemma udp_transfer_witness :
  runs (@packet_receive_step (replay [datagram_frame]) test_random;; zoom (Udp.udp_recv 0 [0; 0]))
    peer_stack (λ o s', o = Some (2, [1; 2], test_v4, 8000) ∧ stack_ok s').
Proof.
  assert (IPAddr_ok peer_v4) as Ha by (by apply test_addrs_ok).
  assert (bytes_ok [1; 2; 3]) as Hb by bytes_solve.
  assert (8 + zlen [1; 2; 3] ≤ MRU) as Hl by done.
  assert (is_u16 8000) as Hp by (by split).
  pose proof (@udp_transfer (replay [datagram_frame]) datagram_device test_random (test_udp test_ip) 0 0%nat
    (Udp.UDPSocketState_new 8000) peer_v4 8000 [1; 2; 3] peer_stack 0%nat (Udp.UDPSocketState_new 8000)
    [0; 0] (test_udp_ok test_ip 0 test_ip_ok) eq_refl Hp Ha Hb Hl peer_stack_ok eq_refl eq_refl eq_refl) as H.
  destruct datagram_sent as (a' & Hw & Hwire). apply (runs_result _ _ _ _ _ H) in Hw.
  destruct Hw as (f & Hsent & Hdel).
  assert (f = datagram_frame) as ->.
  { pose proof (sent_wire _ _ _ Hsent) as E. rewrite Hwire in E. by injection E. }
  eapply runs_mono; [exact (Hdel datagram_next)|]. intros o s' (Ho & Hok & _). split; [exact Ho|exact Hok].
Defined.

(** * Safety *)

(** C6: safety.  In every state the program can reach, whatever frames arrive
    and whatever the applications call, each fragment that was taken from the
    pool is in a queue of a socket, so nothing leaks; the port maps lead to the
    sockets with the addresses and ports they are listed under, so a segment
    reaches its own connection only; and every pending timer and every entry of
    an accept queue names a socket that exists. *)
Theorem stack_safety `{!Tun, !TunOk, !Random, !RandomOk} s :
  reachable s →
  let m := METRICS (bufs (netif (Stack.ip s))) in
  stack_ok s ∧ congr (buffers_allocated m - buffers_freed m) (stack_frags s) ∧
  (∀ p h, udp_port_map s !! p = Some h ↔ Udp.port <$> Stack.udp_sockets s !! h = Some p) ∧
  (∀ key h, tcp_port_map s !! key = Some h → endpoints <$> Stack.tcp_sockets s !! h = Some key) ∧
  (∀ t, t ∈ PENDING_TIMERS (Stack.tcp_timers s) → ∃ a, closure t = Some a ∧
     is_Some (Stack.tcp_sockets s !! timer_socket a)) ∧
  (∀ g h, g ∈ Stack.tcp_sockets s → h ∈ socket_queue g → is_Some (Stack.tcp_sockets s !! h)).
Proof.
  intros Hr m. apply reachable_inv in Hr. pose proof (stack_inv_ok s Hr) as Hok.
  pose proof Hr as [[_ _ Hu] [_ Hp Ht Hq]]. split_and!; [done| |exact Hu|exact Hp| |].
  - by destruct (stack_ok_ip s Hok) as [[[_ ? _ _] _ _] _].
  - intros t Hin. destruct Ht as [_ Ht]. rewrite Forall_forall in Ht. destruct (Ht t Hin) as [(a & Ha & Hlt) _].
    exists a. split; [done|]. by apply lookup_lt_is_Some.
  - intros g h Hg Hh. rewrite Forall_forall in Hq. destruct (Hq g Hg) as [Hqs _].
    rewrite Forall_forall in Hqs. apply lookup_lt_is_Some. by apply Hqs.
Qed.

(** A server for both protocols and a client connect, a frame of garbage
    arrives, and the retransmission timer runs. *)
Definition safety_turns : list turn :=
  [UdpOpen 8000; TcpListen 80; TcpOpen 1 peer_v4 7; ReceivePacket; UdpSend 0 peer_v4 53 [1; 2; 3];
   RunTimers 5; TcpClose 0].

Lemma safety_turns_ok : Forall (λ t, ∀ now, turn_ok now t) safety_turns.
Proof.
  destruct test_addrs_ok as (_ & _ & ? & _).
  repeat constructor; try done; intros; split_and?; try done; bytes_solve.
Qed.

Definition two_sockets (o : outcome (unit * StackState)) : bool :=
  match o with Ok (_, s) => Nat.eqb (length (Stack.tcp_sockets s)) 2 | _ => false end.

Lemma safety_boot : ∃ s, boot 0 safety_turns = Ok (tt, s) ∧ length (Stack.tcp_sockets s) = 2%nat.
Proof.
  assert (two_sockets (boot 0 safety_turns) = true) as H by (by vm_compute). unfold two_sockets in H.
  destruct (boot 0 safety_turns) as [[[] s]| | |]; try done. exists s. split; [done|]. by apply Nat.eqb_eq.
Qed.

Lemma stack_safety_witness : ∃ s, reachable s ∧ length (Stack.tcp_sockets s) = 2%nat ∧ stack_ok s.
Proof.
  assert (0 ≤ 0 < 9223372036854775808) as H0 by lia.
  destruct safety_boot as (s & E & Hl). apply (boot_reachable 0 safety_turns s H0 safety_turns_ok) in E.
  exists s. exact (conj E (conj Hl (proj1 (stack_safety s E)))).
Defined.

(** ** Machine types *)

(** A buffer of octets whose length field is true. *)
Definition buffer_typed (b : NetBuffer) : Prop := bytes_ok (contents b) ∧ NetBuffer_len b = zlen (contents b).

(** Every field of a socket: ports, sequence numbers, windows, counters, the ids
    of its timers and what its queues hold. *)
Definition tcp_socket_typed (g : TCPSocketState) : Prop :=
  (IPAddr_ok (remote_ip g) ∧ is_u16 (remote_port g) ∧ is_u16 (local_port g)) ∧
  (is_u32 (receive_next_seq g) ∧ is_u32 (get_next_expect (reassembler g)) ∧ is_u32 (num_delayed_acks g)) ∧
  (is_u32 (send_unacked g) ∧ is_u32 (send_next_seq g) ∧ is_u32 (send_window g) ∧
   is_u32 (send_last_win_seq g) ∧ is_u32 (send_last_win_ack g) ∧ is_u16 (send_mss g)) ∧
  (timer_ref (delayed_ack_timer_id g) ∧ timer_ref (retransmit_timer_id g) ∧
   timer_ref (response_timer_id g)) ∧ is_u32 (request_retry_count g) ∧
  buffer_typed (receive_queue g) ∧ buffer_typed (retransmit_queue g) ∧
  Forall (λ e, is_u32 e.1 ∧ buffer_typed e.2) (out_of_order (reassembler g)).

Definition udp_socket_typed (u : Udp.UDPSocketState) : Prop :=
  is_u16 (Udp.port u) ∧
  Forall (λ e, IPAddr_ok e.1.1 ∧ is_u16 e.1.2 ∧ buffer_typed e.2) (Udp.receive_queue u).

Lemma buf_ok_typed b : buf_ok b → buffer_typed b.
Proof. intros Hb. split; [by apply contents_ok|by apply buf_ok_len]. Qed.

Lemma socket_typed m g : socket_wf g → socket_refs m g → tcp_socket_typed g.
Proof.
  intros [? ? Hooo (? & ? & ?) (? & ? & ?)] [_ ((? & ? & ?) & (? & ? & ?) & (? & ? & ?) & ? & Hseq)].
  unfold tcp_socket_typed. split_and!; try done; try by apply buf_ok_typed.
  apply Forall_and. split; [done|]. eapply Forall_impl; [exact Hooo|]. intros e. apply buf_ok_typed.
Qed.

(** C7: types.  The model computes with unbounded integers and lists; in every
    state the program can reach every number of it has the type of the code:
    octets are below 256; ports, segment sizes and the packet id have 16 bits;
    sequence numbers, windows, retry and acknowledgement counts, the timer
    counter and the performance counters have 32; the ids of timers are in the
    positive half of 32 signed bits, or -1 where a socket has no timer, and
    their times have 64; addresses have 4 or 16 octets, and buffers are as long
    as their length field says. *)
Theorem stack_types `{!Tun, !TunOk, !Random, !RandomOk} s :
  reachable s →
  let n := netif (Stack.ip s) in
  Forall tcp_socket_typed (Stack.tcp_sockets s) ∧ Forall udp_socket_typed (Stack.udp_sockets s) ∧
  (is_u32 (NEXT_TIMER_ID (Stack.tcp_timers s)) ∧ Forall timer_typed (PENDING_TIMERS (Stack.tcp_timers s)) ∧
   0 ≤ current_time_ms (Stack.tcp_timers s) < u64_size) ∧
  (IPAddr_ok (LOCAL_IPV4 n) ∧ is_v4 (LOCAL_IPV4 n) = true) ∧
  (IPAddr_ok (LOCAL_IPV6 n) ∧ is_v4 (LOCAL_IPV6 n) = false) ∧
  is_u16 (NEXT_PACKET_ID (Stack.ip s)) ∧ metrics_ok (METRICS (bufs n)).
Proof.
  intros Hr n. apply reachable_inv in Hr.
  pose proof (stack_ok_ip s (stack_inv_ok s Hr)) as [[Hp H4 H6] Hid].
  pose proof Hr as [[_ Hu _] [[_ Ht Hc] _ [Hn Hpt] Hq]].
  split; [|split; [|split; [split_and!|split_and!]]]; try done; try apply H4; try apply H6; try apply Hp.
  - rewrite !Forall_forall in *. intros g Hg. eapply socket_typed; [by apply Ht|by apply Hq].
  - rewrite !Forall_forall in *. intros u Hin. destruct (Hu u Hin) as [? He]. split; [done|].
    eapply Forall_impl; [exact He|]. intros e (? & ? & ? & _). split_and!; try done. by apply buf_ok_typed.
  - eapply Forall_impl; [exact Hpt|]. by intros t [_ ?].
  - apply Hc.
  - cbn in Hc. lia.
Qed.

Lemma stack_types_witness : ∃ s, reachable s ∧ length (Stack.tcp_sockets s) = 2%nat ∧
  Forall tcp_socket_typed (Stack.tcp_sockets s).
Proof.
  assert (0 ≤ 0 < 9223372036854775808) as H0 by lia.
  destruct safety_boot as (s & E & Hl). apply (boot_reachable 0 safety_turns s H0 safety_turns_ok) in E.
  exists s. exact (conj E (conj Hl (proj1 (stack_types s E)))).
Defined.
