(* ===== verification/ConnectProps.v ===== *)
(** * Opening a connection between two hosts *)

From S2P Require Import Prelude Util Buf BufSpec Checksum Timer Netif Ip.
From S2P Require Udp.
From S2P Require Import Reassembler TcpOptions Tcp Stack TcpSpec TcpData TcpConn TcpOpen TcpSegments TcpListen.
From S2P Require Import StackSpec Transfer Connect TestHost TestStack.
From stdpp Require Import gmap.
Local Open Scope Z_scope.

(** C2: the three-way handshake of two hosts.  tcp_open on one of them sends a
    SYN; when the receive thread of the other, where a socket listens, gets it,
    it answers; the answer opens the socket of the first, which acknowledges
    it; and the acknowledgement opens the socket of the second.  Then both
    sockets lead to each other, tcp_open returns and tcp_accept hands out the
    connection. *)
Theorem tcp_connect (TA TB : Tun) (RA RB : Random) fuel n a b dst port lh lg :
  let src := local_addr (netif (Stack.ip a)) dst in
  let lp := @ephemeral_port RA (Stack.random_drawn a + n) in
  @TunOk TA → @TunOk TB → @RandomOk RA → @RandomOk RB →
  stack_ok a → stack_ok b → IPAddr_ok dst → is_u16 port → local_addr (netif (Stack.ip b)) src = dst →
  (n < fuel)%nat →
  (∀ m, (m < n)%nat → is_Some (tcp_port_map a !! (dst, port, @ephemeral_port RA (Stack.random_drawn a + m)))) →
  tcp_port_map a !! (dst, port, lp) = None → tcp_port_map b !! (src, lp, port) = None →
  tcp_port_map b !! (IPAddr_new, 0, port) = Some lh → Stack.tcp_sockets b !! lh = Some lg → state lg = Listen →
  runs (zoom (@tcp_open TA RA fuel dst port)) a (λ ha a1, stack_ok a1 ∧ ∃ syn,
    wire (netif (Stack.ip a1)) = wire (netif (Stack.ip a)) ++ [syn] ∧
    (@next_frame TB (Stack.ip b) syn → runs (@packet_receive_step TB RB) b (λ _ b1, stack_ok b1 ∧ ∃ synack,
      turned b b1 [synack] ∧
      (@next_frame TA (Stack.ip a1) synack → runs (@packet_receive_step TA RA) a1 (λ _ a2, stack_ok a2 ∧ ∃ ack,
        turned a1 a2 [ack] ∧ ha ∈ tcp_notified a2 ∧
        runs (zoom (tcp_open_wake ha)) a2 (λ r _, r = Connected) ∧
        (@next_frame TB (Stack.ip b1) ack → runs (@packet_receive_step TB RB) b1 (λ _ b2, stack_ok b2 ∧
          turned b1 b2 [] ∧ lh ∈ tcp_notified b1 ∧ ∃ ga hb gb lg' na nb,
          leads_to a2 b2 ha hb ga gb na ∧ leads_to b2 a2 hb ha gb ga nb ∧
          synchronised a2 b2 ha hb ga gb ∧
          Stack.tcp_sockets b2 !! lh = Some lg' ∧ socket_queue lg' = socket_queue lg ++ [hb]))))))).
Proof.
  intros src lp HTA HTB HRA HRB Ha Hb Hdst Hport Haddr Hn Hused Hfree Hbfree Hlis Hlg Hst.
  call (@stack_open_runs TA HTA RA HRA fuel n a dst port); try done.
  intros ha a1 (Ha1 & tid & syn & Hga1 & Hpa1 & Hsent & Hsyn & Hwf).
  set (ga0 := opening_socket _ _ _ _) in *. set (ga1 := ga0 <| response_timer_id := tid |>) in *.
  assert (∀ x, local_addr (netif (Stack.ip a1)) x = local_addr (netif (Stack.ip a)) x) as Hada1
    by (intros x; exact (local_addr_sent _ _ _ x Hsent)).
  split; [exact Ha1|]. exists syn. split; [apply (sent_wire _ _ _ Hsent)|]. intros Hnext1.
  (* the SYN *)
  assert (sender (netif (Stack.ip a)) ga0 (stack_frags a)) as Hsd0 by (split; [by apply stack_net|by split]).
  call (@syn_received_runs TB HTB RB HRB b _ _ ga0 lh lg syn Hb Hsd0 Haddr Hbfree Hlis Hlg Hst Hsyn Hnext1).
  intros _ b1 (Hb1 & tidb & synack & Htb1 & Hskb1 & Hpb1 & Hnotb & Hsynack).
  set (gb0 := accepted_socket _ _ _ _ _ _ _ _) in *. set (gb1 := gb0 <| response_timer_id := tidb |>) in *.
  set (hb := length (Stack.tcp_sockets b)) in *.
  assert (lh ≠ hb) as Hne. { apply lookup_lt_Some in Hlg. unfold hb. lia. }
  assert (Stack.tcp_sockets b1 !! hb = Some gb1) as Hgb1
    by (rewrite Hskb1, list_lookup_insert_ne by done; by apply list_lookup_middle).
  split; [exact Hb1|]. exists synack. split; [exact Htb1|]. intros Hnext2.
  eapply runs_mono.
  { eapply (@handshake_completes TA TB RA RB HTA HTB HRA HRB (netif (Stack.ip b)) (stack_frags b) a1 b1 ha hb ga1 gb1);
      [|by apply stack_net|exact Hsynack|exact Hnext2].
    split; [done| |done|done|exact (turned_addr _ _ _ Htb1)|done|done|done]. split; [done| |done|].
    - split; [symmetry; apply Hada1|]. rewrite (turned_addr _ _ _ Htb1). by symmetry.
    - split; [rewrite Hpa1|rewrite Hpb1]; apply lookup_insert_eq. }
  intros _ a2 (Ha2 & ack & Hta2 & Hnota & Hwake & Hlast).
  split; [exact Ha2|]. exists ack. split; [exact Hta2|]. split; [exact Hnota|]. split; [exact Hwake|].
  intros Hnext3. call (Hlast Hnext3). intros _ b2 (Hb2 & Htb2 & ga & gb & na & nb & Hla & Hlb & Hsync & Hskb).
  split; [exact Hb2|]. split; [exact Htb2|]. split; [exact Hnotb|].
  exists ga, hb, gb, (lg <| socket_queue ::= λ q, q ++ [hb] |>), na, nb.
  split; [exact Hla|]. split; [exact Hlb|]. split; [exact Hsync|]. split; [|done].
  rewrite Hskb, list_lookup_insert_ne by done. rewrite Hskb1.
  apply list_lookup_insert_eq. rewrite length_app. apply lookup_lt_Some in Hlg. cbn. lia.
Qed.

(** A host without sockets opens a connection to port 80 of another, where a
    socket listens.  Each device delivers what the other host sends. *)
Abbreviation client := idle_host.

Definition listener : TCPSocketState := set_state Listen (fresh_socket IPAddr_new 0 80 7).

Definition server : StackState := client <| Stack.ip := peer_ip 0 |>
  <| tcp_port_map := {[ (IPAddr_new, 0, 80) := 0%nat ]} |> <| Stack.tcp_sockets := [listener] |>.

Lemma client_ok : stack_ok client.
Proof. exact (host_ok (taken_ip 0) ∅ [] (taken_ip_ok 0 ltac:(by split)) (Forall_nil_2 _) eq_refl). Qed.

Lemma listener_wf : socket_wf listener.
Proof. apply set_state_wf, fresh_socket_wf; [apply IPAddr_new_ok|by split..]. Qed.

Lemma server_ok : stack_ok server.
Proof. apply host_ok; [by apply peer_ip_ok|by constructor; [apply listener_wf|]|done]. Qed.

Definition opening (T : Tun) : ST StackState SocketReference := zoom (@tcp_open T test_random 1 peer_v4 80).

Definition syn_frame : list Z := Eval vm_compute in last_sent (opening test_tun) client.
Definition synack_frame : list Z := Eval vm_compute in last_sent (turn (replay [syn_frame])) server.
Definition ack_frame : list Z := Eval vm_compute in
  last_sent (opening test_tun;; turn (replay [synack_frame])) client.

Definition client_device : Tun := replay [synack_frame].
Definition server_device : Tun := replay [syn_frame; ack_frame].

Lemma devices_ok : @TunOk client_device ∧ @TunOk server_device.
Proof. split; apply replay_ok; apply (bool_decide_unpack _); by vm_compute. Qed.

Lemma handshake_traffic :
  traffic (opening client_device) client = Some ([syn_frame], O) ∧
  traffic (turn server_device) server = Some ([synack_frame], 1%nat) ∧
  traffic (opening client_device;; turn client_device) client = Some ([syn_frame; ack_frame], 1%nat).
Proof. split_and!; by vm_compute. Qed.

Lemma tcp_connect_witness : ∃ ha a1 b1 a2 b2,
  opening client_device client = Ok (ha, a1) ∧
  turn server_device server = Ok (tt, b1) ∧ turn client_device a1 = Ok (tt, a2) ∧
  turn server_device b1 = Ok (tt, b2) ∧ ∃ ga hb gb na nb,
  leads_to a2 b2 ha hb ga gb na ∧ leads_to b2 a2 hb ha gb ga nb.
Proof.
  destruct devices_ok as [HA HB]. destruct handshake_traffic as (T1 & T2 & T3).
  destruct test_addrs_ok as (_ & _ & Hp & _).
  assert (is_u16 80) as H80 by (by split).
  pose proof (@tcp_connect client_device server_device test_random test_random 1 0 client server peer_v4 80
    0%nat listener HA HB test_random_ok test_random_ok client_ok server_ok Hp H80 eq_refl (Nat.lt_0_1)) as H.
  specialize (H (λ m Hm, False_ind _ (Nat.nlt_0_r m Hm)) eq_refl eq_refl eq_refl eq_refl eq_refl).
  destruct (proj1 (runs_Ok _ _ _) H) as (ha & a1 & E1 & _ & syn & Hw1 & H1).
  change (opening client_device client = Ok (ha, a1)) in E1.
  destruct (traffic_result _ _ _ _ _ _ T1 E1) as [W1 N1]. rewrite W1 in Hw1. injection Hw1 as <-.
  destruct (proj1 (runs_Ok _ _ _) (H1 eq_refl)) as ([] & b1 & E2 & _ & synack & Htb & H2).
  destruct (traffic_result _ _ _ _ _ _ T2 E2) as [W2 N2].
  pose proof (turned_wire _ _ _ Htb) as Hw2. rewrite W2 in Hw2. injection Hw2 as <-.
  assert (@next_frame client_device (Stack.ip a1) synack_frame) as F2 by (unfold next_frame; by rewrite N1).
  destruct (proj1 (runs_Ok _ _ _) (H2 F2)) as ([] & a2 & E3 & _ & ack & Hta & _ & _ & H3).
  destruct (traffic_result _ _ _ _ _ _ T3 (bind_result _ (λ _, turn client_device) _ _ _ _ _ E1 E3)) as [W3 _].
  pose proof (turned_wire _ _ _ Hta) as Hw3. rewrite W3, W1 in Hw3. injection Hw3 as <-.
  assert (@next_frame server_device (Stack.ip b1) ack_frame) as F3 by (unfold next_frame; by rewrite N2).
  destruct (proj1 (runs_Ok _ _ _) (H3 F3)) as ([] & b2 & E4 & _ & _ & _ & ga & hb & gb & lg & na & nb & L1 & L2 & _).
  exists ha, a1, b1, a2, b2. split; [exact E1|]. split; [exact E2|]. split; [exact E3|]. split; [exact E4|].
  exists ga, hb, gb, na, nb. split; [exact L1|exact L2].
Defined.
