(* ===== verification/MessageProps.v ===== *)
(** * The first message through a connection *)

From S2P Require Import Prelude Util Buf BufSpec Checksum Timer Netif Ip.
From S2P Require Udp.
From S2P Require Import Reassembler Arrival TcpOptions Tcp Stack TcpSpec TcpData TcpConn TcpOpen TcpSegments.
From S2P Require Import StackSpec Transfer Connect TestHost TestStack.
From stdpp Require Import gmap.
Local Open Scope Z_scope.

(** The stream that begins with [data]. *)
Definition stream_of (next : Z) (data : list Z) (off : Z) : Z := nth (Z.to_nat (off - next)) data 0.

Lemma stream_of_at next data : at_offset (stream_of next data) next data.
Proof.
  unfold at_offset. apply list_eq. intros i. rewrite list_lookup_fmap.
  destruct (decide (i < length data)%nat) as [Hi|Hi].
  - rewrite lookup_seqZ_lt by (unfold zlen; lia). cbn. unfold stream_of.
    replace (Z.to_nat (next + Z.of_nat i - next)) with i by lia.
    destruct (lookup_lt_is_Some_2 data i Hi) as [x Hx]. rewrite Hx. symmetry. f_equal. by apply nth_lookup_Some.
  - rewrite (proj2 (lookup_ge_None data i)) by lia. rewrite lookup_seqZ_ge; [done|unfold zlen; lia].
Qed.

(** C3: the first message.  When the sockets of two hosts lead to each other, as
    they do after the handshake, tcp_write on one host accepts any data that
    fits into the window without waiting; and when its frames have reached the
    receive thread of the other host, in any order and each at least once,
    tcp_read there hands out the data, as far as the caller's buffer goes. *)
Theorem first_message (TA TB : Tun) (RB : Random) a b ha hb ga gb next data dest :
  @TunOk TA → @TunOk TB → stack_ok a → leads_to a b ha hb ga gb next → unused gb →
  bytes_ok data → 0 < zlen data ≤ 0xffff →
  runs (zoom (@tcp_write TA false ha data 0)) a (λ r a', r = Wrote (zlen data) ∧ stack_ok a' ∧ ∃ frames,
    sent (netif (Stack.ip a)) (netif (Stack.ip a')) frames ∧
    ∀ order fs, (∀ i, i ∈ order ↔ (i < length frames)%nat) →
      Forall2 (λ i f, frames !! i = Some f) order fs → @next_frames TB (Stack.ip b) fs →
      runs (@packet_receive_thread TB RB (length fs);; zoom (tcp_read hb dest)) b (λ o b', stack_ok b' ∧
        let n := Z.min (zlen dest) (zlen data) in
        o = Some (n, take (Z.to_nat n) data ++ drop (Z.to_nat n) dest))).
Proof.
  intros HTA HTB Ha [Hrc Hga (Hst & Hcs & Hfl) (_ & Hrq & _) Hseq Hmss Hwin] (Hq & _ & Hooo) Hb Hlen.
  pose proof (Hrc (stream_of next data)) as Hrc'. apply runs_zoom.
  call (write_transfer_runs TA TB RB (tcp_part a) (Udp.queued (Stack.udp_sockets a)) ha ga data b hb gb
    (stream_of next data) next next); [apply Ha|exact Hga|by rewrite Hst|exact Hcs|exact Hfl|exact Hb|lia| |exact Hrc'|exact Hooo
    |exact Hseq|apply stream_of_at|lia|].
  { rewrite Hrq. change (zlen (@nil Z)) with 0. lia. }
  intros r a' (Hok & n & frames & Hn & Hsent & Hr & Hdel).
  assert (fits ga data) as Hfit by (unfold fits; rewrite Hrq, Hwin; change (zlen (@nil Z)) with 0; lia).
  destruct Hr as [[-> ->]|(_ & _ & Hr)]; [|by destruct Hr].
  split; [done|]. split; [exact (stack_ok_tcp a (Stack.ip a) a' Ha Hok)|]. exists frames. split; [exact Hsent|].
  intros order fs Hord Hfs Hnext. apply runs_bind. call (Hdel order fs Hord Hfs Hnext).
  intros _ b1 (Hb1 & gb1 & Hgb1 & _ & Hq1). rewrite Hq, app_nil_l in Hq1. unfold zlen in Hq1 at 1.
  rewrite Nat2Z.id, firstn_all in Hq1. apply runs_zoom.
  call (tcp_read_runs (tcp_part b1) (Udp.queued (Stack.udp_sockets b1)) hb gb1 dest); [apply Hb1|exact Hgb1| | |].
  { rewrite Hq1. intros E. rewrite E in Hlen. change (zlen (@nil Z)) with 0 in Hlen. lia. }
  { rewrite Hq1. change (zlen data ≤ 18446744073709551615). lia. }
  intros o t (p & q & -> & Hok' & Ho & _). split; [by apply (stack_ok_tcp b1 (Stack.ip b1))|].
  pose proof (zlen_nonneg dest). cbv zeta in Ho. rewrite Hq1 in Ho.
  by rewrite as_i32_small in Ho by lia.
Qed.

(** One host sends five octets to another, which has a buffer for four.  The
    frame arrives twice. *)
Definition talking_socket : TCPSocketState := (test_socket Established 0xffff NetBuffer_new) <| send_mss := 1500 |>.
Definition talking_host : StackState := idle_host
  <| Stack.ip := taken_ip 0 |> <| tcp_port_map := {[ (peer_v4, 80, 49159) := 0%nat ]} |>
  <| Stack.tcp_sockets := [talking_socket] |>.
Definition listening_host : StackState := idle_host
  <| Stack.ip := peer_ip 0 |> <| tcp_port_map := {[ (test_v4, 49159, 80) := 0%nat ]} |>
  <| Stack.tcp_sockets := [peer_socket] |>.

Definition say (T : Tun) : ST StackState write_result := zoom (@tcp_write T false 0 [1; 2; 3; 4; 5] 0).
Definition said_frame : list Z := Eval vm_compute in last_sent (say test_tun) talking_host.
Definition hearing_device : Tun := replay [said_frame; said_frame].

Lemma said : traffic (say test_tun) talking_host = Some ([said_frame], O).
Proof. by vm_compute. Qed.

Lemma hearing_device_ok : @TunOk hearing_device.
Proof. apply replay_ok. apply (bool_decide_unpack _). by vm_compute. Qed.

Lemma hearing_next : @next_frames hearing_device (Stack.ip listening_host) [said_frame; said_frame].
Proof. intros [|[|j]] f Hj; [by injection Hj as <-..|done]. Qed.

Lemma talking_host_ok : stack_ok talking_host.
Proof.
  apply host_ok; [by apply taken_ip_ok| |done]. constructor; [|constructor].
  by destruct (test_socket_wf Established 0xffff NetBuffer_new buf_ok_new).
Qed.

Lemma talking_leads : leads_to talking_host listening_host 0 0 talking_socket peer_socket 1001.
Proof.
  assert (stack_ok listening_host) as Hok.
  { apply host_ok; [by apply peer_ip_ok| |done]. constructor; [apply peer_socket_wf|constructor]. }
  split; try done.
Qed.

Lemma first_message_witness :
  runs (say test_tun) talking_host (λ r a', r = Wrote 5 ∧ stack_ok a' ∧
    runs (@packet_receive_thread hearing_device test_random 2;; zoom (tcp_read 0 [0; 0; 0; 0])) listening_host
      (λ o _, o = Some (4, [1; 2; 3; 4]))).
Proof.
  assert (bytes_ok [1; 2; 3; 4; 5]) as Hb by bytes_solve.
  assert (0 < zlen [1; 2; 3; 4; 5] ≤ 0xffff) as Hl by done.
  pose proof (@first_message test_tun hearing_device test_random talking_host listening_host 0%nat 0%nat talking_socket
    peer_socket 1001 [1; 2; 3; 4; 5] [0; 0; 0; 0] test_tun_ok hearing_device_ok talking_host_ok talking_leads
    (conj eq_refl (conj eq_refl eq_refl)) Hb Hl) as H.
  apply (runs_traced _ _ _ _ H). clear H. intros r a' E (Hr & Hok & frames & Hsent & Hdel).
  destruct (traffic_result _ _ _ _ _ _ said E) as [Hw _].
  pose proof (sent_wire _ _ _ Hsent : _ = [] ++ frames) as Hf. rewrite Hw in Hf. cbn [app] in Hf. subst frames.
  split; [exact Hr|]. split; [exact Hok|].
  assert (∀ i, i ∈ [0; 0]%nat ↔ (i < length [said_frame])%nat) as Hord.
  { intros i. rewrite !elem_of_cons, elem_of_nil. cbn. lia. }
  assert (Forall2 (λ i f, [said_frame] !! i = Some f) [0; 0]%nat [said_frame; said_frame]) as Hfs by (by repeat constructor).
  eapply runs_mono; [exact (Hdel [0; 0]%nat [said_frame; said_frame] Hord Hfs hearing_next)|].
  intros o b' [_ Ho]. exact Ho.
Defined.
