(* ===== verification/TeardownProps.v ===== *)
(** * Closing a connection between two hosts *)

From S2P Require Import Prelude Util Buf BufSpec Checksum Timer Netif Ip.
From S2P Require Udp.
From S2P Require Import Reassembler TcpOptions Tcp Stack TcpSpec TcpData TcpConn TcpControl TcpOpen TcpSegments TcpListen.
From S2P Require Import StackSpec Transfer Connect Teardown TestHost TestStack.
From stdpp Require Import gmap.
Local Open Scope Z_scope.

(** C4: the end of a connection between two hosts.  tcp_close on one sends a
    FIN, which wakes the readers of the other; the FIN of tcp_close there
    acknowledges it and brings the first host to TIME-WAIT, with everything in
    its retransmission queue still there.  That FIN is not acknowledged: when
    TIME-WAIT is over and the first host has forgotten the connection, the
    response timer of the second repeats it, the first host refuses it, and
    the refusal closes the socket of the second, whose port stays registered.
    Nobody loses what is in a receive queue. *)
Theorem tcp_teardown (TA TB : Tun) (RA RB : Random) a b ha hb ga gb :
  @TunOk TA → @TunOk TB → @RandomOk RB →
  stack_ok a → stack_ok b → synchronised a b ha hb ga gb →
  send_next_seq ga + 1 < u32_size → send_next_seq gb + 1 < u32_size →
  runs (zoom (@tcp_close TA ha)) a (λ _ a1, ∃ ga1 fin,
    requested a a1 ha ga ga1 FinWait1 (Z.lor FLAG_FIN FLAG_ACK) fin ∧
    (@next_frame TB (Stack.ip b) fin → runs (@packet_receive_step TB RB) b (λ _ b1, stack_ok b1 ∧
      turned b b1 [] ∧ hb ∈ tcp_notified b1 ∧ ∃ gb1, same_end b b1 hb gb gb1 ∧ state gb1 = CloseWait ∧
      receive_queue gb1 = receive_queue gb ∧
      runs (zoom (@tcp_close TB hb)) b1 (λ _ b2, ∃ gb2 fin2,
        requested b1 b2 hb gb1 gb2 LastAck (Z.lor FLAG_FIN FLAG_ACK) fin2 ∧
        (@next_frame TA (Stack.ip a1) fin2 → runs (@packet_receive_step TA RA) a1 (λ _ a2, stack_ok a2 ∧
          turned a1 a2 [] ∧ (∃ timer_id, pending_last (tcp_part a2) TIME_WAIT_TIMEOUT (TimeWaitTimeout ha) timer_id) ∧
          ∃ ga2, same_end a1 a2 ha ga1 ga2 ∧ state ga2 = TimeWait ∧ same_queues ga ga2 ∧
          runs (zoom (time_wait_timeout ha)) a2 (λ _ a3, stack_ok a3 ∧
            Stack.tcp_sockets a3 = <[ha := set_state Closed ga2]> (Stack.tcp_sockets a2) ∧
            tcp_port_map a3 = delete (remote_ip ga, remote_port ga, local_port ga) (tcp_port_map a) ∧
            runs (zoom (@response_timeout TB hb)) b2 (λ _ b3, ∃ gb3 fin3,
              requested b2 b3 hb gb2 gb3 LastAck FLAG_FIN fin3 ∧
              (@next_frame TA (Stack.ip a3) fin3 → runs (@packet_receive_step TA RA) a3 (λ _ a4, stack_ok a4 ∧ ∃ rst,
                turned a3 a4 [rst] ∧
                (@next_frame TB (Stack.ip b3) rst → runs (@packet_receive_step TB RB) b3 (λ _ b4, stack_ok b4 ∧
                  turned b3 b4 [] ∧ hb ∈ tcp_notified b4 ∧ tcp_port_map b4 = tcp_port_map b ∧ ∃ gb4, Stack.tcp_sockets b4 !! hb = Some gb4 ∧
                  state gb4 = Closed ∧ receive_queue gb4 = receive_queue gb)))))))))))).
Proof.
  intros HTA HTB HRB Ha Hb [Hp [[Hsta Hfla] [Hstb Hflb]] [[Hnb Hrb] [Hna Hra]]] Hsa Hsb.
  pose proof Hp as [[Hga Hgb] _ _ _].
  assert (can_send ga) as Hcsa by (apply can_send_established; [exact (stack_socket_wf _ _ _ Ha Hga)|done]).
  (* the FIN of this side *)
  call (@stack_close_runs TA _ a ha ga Ha Hga Hcsa); [by left|]. rewrite Hsta.
  intros _ a1 (ga1 & fin & Hreqa). exists ga1, fin. split; [done|]. intros Hnext.
  destruct Hreqa as [Ha1 Hea [Hsta1 _] (Hsn1 & Hrn1 & Hgn1) Hqa Hfin _].
  call (@fin_received_runs TB _ RB _ a b ha hb ga gb fin); [done..|].
  intros _ b1 (Hb1 & Htb1 & Hn1 & gb1 & Heb & Hstb1 & (Hsnb & Hrnb & Hgnb) & Hqb).
  split; [done|]. split; [done|]. split; [done|]. exists gb1. split; [done|]. split; [done|]. split; [done|].
  (* the FIN of the other *)
  assert (peers a1 b1 ha hb ga1 gb1) as Hp1
    by (eapply peers_same_end, Hea; apply peers_sym; eapply peers_same_end, Heb; by apply peers_sym).
  pose proof Hp1 as [[Hga1 Hgb1] _ _ _].
  assert (acks_fin gb1 = true) as Hfinb.
  { unfold acks_fin, is_state. rewrite Hstb1, Hrnb, Hgnb, Hrb, Hnb. cbn. apply Z.eqb_refl. }
  assert (can_send gb1) as Hcsb by (unfold can_send; rewrite Hfinb, Hgnb, Hnb; done).
  call (@stack_close_runs TB _ b1 hb gb1 Hb1 Hgb1 Hcsb); [by right|]. rewrite Hstb1.
  intros _ b2 (gb2 & fin2 & Hreqb). exists gb2, fin2. split; [done|]. intros Hnext2.
  destruct Hreqb as [Hb2 Heb2 [Hstb2 Hrc2] (Hsnb2 & _) (Hqb2 & _) Hfin2 _].
  call (@fin_ack_received_runs TA _ RA b1 a1 hb ha gb1 ga1 fin2); try done; [by apply peers_sym| |].
  { change (get_next_expect (reassembler gb1) + (if acks_fin gb1 then 1 else 0) = u32_wrapping_add (send_next_seq ga1) 1).
    rewrite Hfinb, Hgnb, Hnb, Hsn1. symmetry. apply Z.mod_small.
    destruct (stack_socket_wf _ _ _ Ha Hga) as [_ _ _ _ ([? _] & _)]. lia. }
  intros _ a2 (Ha2 & Hta2 & Htid & ga2 & Hea2 & Hsta2 & _ & Hqa2).
  split; [done|]. split; [done|]. split; [done|]. exists ga2. split; [done|]. split; [done|].
  split; [exact (same_queues_trans _ _ _ Hqa Hqa2)|].
  (* the end of TIME-WAIT *)
  assert (peers a2 b2 ha hb ga2 gb2) as Hp2
    by (eapply peers_same_end, Hea2; apply peers_sym; eapply peers_same_end, Heb2; by apply peers_sym).
  eapply runs_mono; [apply (@forgotten_runs TA TB RA RB _ _ _ a2 b2 ha hb ga2 gb2); try done|].
  { by rewrite Hsnb2, Hsnb. }
  intros _ a3 (Ha3 & Hska & Hpa & Hrest). split; [done|]. split; [done|].
  split. { rewrite Hpa, (same_map _ _ _ _ _ Hea2), (same_map _ _ _ _ _ Hea).
    by destruct (same_names _ _ _ _ _ Hea2) as (-> & -> & ->), (same_names _ _ _ _ _ Hea) as (-> & -> & ->). }
  rewrite Hqb2, Hqb, (same_map _ _ _ _ _ Heb2), (same_map _ _ _ _ _ Heb) in Hrest. exact Hrest.
Qed.

(** Two hosts with one connection between them, which both sides close.  Each
    device delivers what the other host sends. *)
Definition first_socket : TCPSocketState := test_socket Established 4096 NetBuffer_new.
Definition first_host : StackState := idle_host
  <| Stack.ip := taken_ip 0 |> <| tcp_port_map := {[ (peer_v4, 80, 49159) := 0%nat ]} |>
  <| Stack.tcp_sockets := [first_socket] |>.
Definition second_host : StackState := idle_host
  <| Stack.ip := peer_ip 0 |> <| tcp_port_map := {[ (test_v4, 49159, 80) := 0%nat ]} |>
  <| Stack.tcp_sockets := [peer_socket] |>.

Lemma hosts_ok : stack_ok first_host ∧ stack_ok second_host.
Proof.
  split; apply host_ok; [by apply taken_ip_ok| |done|by apply peer_ip_ok| |done].
  - constructor; [apply test_socket_wf, buf_ok_new|constructor].
  - constructor; [apply peer_socket_wf|constructor].
Qed.

Lemma hosts_synchronised : synchronised first_host second_host 0 0 first_socket peer_socket.
Proof. split; [by split; split|by split; split|by split; split]. Qed.

Definition close_of (T : Tun) : ST StackState unit := zoom (@tcp_close T 0).
Definition forget : ST StackState unit := zoom (time_wait_timeout 0).
Definition repeat_of (T : Tun) : ST StackState unit := zoom (@response_timeout T 0).

Definition fin_frame : list Z := Eval vm_compute in last_sent (close_of test_tun) first_host.
Definition fin_ack_frame : list Z := Eval vm_compute in
  last_sent (turn (replay [fin_frame]);; close_of test_tun) second_host.
Definition fin_again_frame : list Z := Eval vm_compute in
  last_sent (turn (replay [fin_frame]);; close_of test_tun;; repeat_of test_tun) second_host.
Definition rst_frame : list Z := Eval vm_compute in
  last_sent (let D := replay [fin_ack_frame; fin_again_frame] in
             close_of D;; turn D;; forget;; turn D) first_host.

Definition first_device : Tun := replay [fin_ack_frame; fin_again_frame].
Definition second_device : Tun := replay [fin_frame; rst_frame].

Lemma end_devices_ok : @TunOk first_device ∧ @TunOk second_device.
Proof. split; apply replay_ok; apply (bool_decide_unpack _); by vm_compute. Qed.

Lemma end_traffic :
  traffic (close_of first_device) first_host = Some ([fin_frame], O) ∧
  traffic (turn second_device;; close_of second_device) second_host = Some ([fin_ack_frame], 1%nat) ∧
  traffic (close_of first_device;; turn first_device;; forget) first_host = Some ([fin_frame], 1%nat) ∧
  traffic (turn second_device;; close_of second_device;; repeat_of second_device) second_host =
    Some ([fin_ack_frame; fin_again_frame], 1%nat) ∧
  traffic (close_of first_device;; turn first_device;; forget;; turn first_device) first_host =
    Some ([fin_frame; rst_frame], 2%nat).
Proof. split_and!; by vm_compute. Qed.

Lemma requested_frame s s' h g g' st fl f fs f' n :
  requested s s' h g g' st fl f → wire (netif (Stack.ip s)) = fs →
  wire (netif (Stack.ip s')) = fs ++ [f'] ∧ frames_received (netif (Stack.ip s')) = n → f = f'.
Proof. intros [_ _ _ _ _ _ Hs] Hw [Hw' _]. rewrite (sent_wire _ _ _ Hs), Hw in Hw'. by simplify_list_eq. Qed.

Lemma tcp_teardown_witness :
  runs (close_of first_device) first_host (λ _ a1, runs (turn second_device) second_host (λ _ b1,
  runs (close_of second_device) b1 (λ _ b2, runs (turn first_device) a1 (λ _ a2,
  runs forget a2 (λ _ a3, tcp_port_map a3 = ∅ ∧ runs (repeat_of second_device) b2 (λ _ b3,
  runs (turn first_device) a3 (λ _ a4, runs (turn second_device) b3 (λ _ b4,
    ∃ gb, Stack.tcp_sockets b4 !! 0%nat = Some gb ∧ state gb = Closed)))))))).
Proof.
  destruct end_devices_ok as [HA HB]. destruct hosts_ok as [H1 H2].
  destruct end_traffic as (T1 & T2 & T3 & T4 & T5).
  pose proof (@tcp_teardown first_device second_device test_random test_random first_host second_host 0%nat 0%nat
    first_socket peer_socket HA HB test_random_ok H1 H2 hosts_synchronised eq_refl eq_refl) as H.
  apply (runs_traced _ _ _ _ H). clear H. intros [] a1 E1 (ga1 & fin & Hreq1 & H).
  pose proof (traffic_result _ _ _ _ _ _ T1 E1) as W1.
  rewrite (requested_frame _ _ _ _ _ _ _ _ [] _ _ Hreq1 eq_refl W1) in H. clear fin Hreq1.
  apply (runs_traced _ _ _ _ (H eq_refl)). clear H. intros [] b1 E2 (_ & Htb & _ & gb1 & _ & _ & _ & H).
  pose proof (turned_wire _ _ _ Htb : wire (netif (Stack.ip b1)) = []) as W2.
  apply (runs_traced _ _ _ _ H). clear H. intros [] b2 E3 (gb2 & fin2 & Hreq2 & H).
  pose proof (traffic_result _ _ _ _ _ _ T2 (bind_result _ (λ _, close_of second_device) _ _ _ _ _ E2 E3)) as W3.
  rewrite (requested_frame _ _ _ _ _ _ _ _ [] _ _ Hreq2 W2 W3) in H. clear fin2 Hreq2.
  assert (@next_frame first_device (Stack.ip a1) fin_ack_frame) as F1 by (unfold next_frame; by rewrite (proj2 W1)).
  apply (runs_traced _ _ _ _ (H F1)). clear H. intros [] a2 E4 (_ & Hta & _ & ga2 & _ & _ & _ & H).
  apply (runs_traced _ _ _ _ H). clear H. intros [] a3 E5 (_ & _ & Hpa & H).
  split. { rewrite Hpa. by vm_compute. }
  pose proof (traffic_result _ _ _ _ _ _ T3 (bind_result _ (λ _, turn first_device;; forget) _ _ _ _ _ E1
    (bind_result _ (λ _, forget) _ _ _ _ _ E4 E5))) as W4.
  apply (runs_traced _ _ _ _ H). clear H. intros [] b3 E6 (gb3 & fin3 & Hreq3 & H).
  pose proof (traffic_result _ _ _ _ _ _ T4 (bind_result _ (λ _, close_of second_device;; repeat_of second_device)
    _ _ _ _ _ E2 (bind_result _ (λ _, repeat_of second_device) _ _ _ _ _ E3 E6))) as W5.
  rewrite (requested_frame _ _ _ _ _ _ _ _ [fin_ack_frame] _ _ Hreq3 (proj1 W3) W5) in H. clear fin3 Hreq3.
  assert (@next_frame first_device (Stack.ip a3) fin_again_frame) as F2 by (unfold next_frame; by rewrite (proj2 W4)).
  apply (runs_traced _ _ _ _ (H F2)). clear H. intros [] a4 E7 (_ & rst & Hta2 & H).
  pose proof (traffic_result _ _ _ _ _ _ T5 (bind_result _ (λ _, turn first_device;; forget;; turn first_device)
    _ _ _ _ _ E1 (bind_result _ (λ _, forget;; turn first_device) _ _ _ _ _ E4
    (bind_result _ (λ _, turn first_device) _ _ _ _ _ E5 E7)))) as [W6 _].
  pose proof (turned_wire _ _ _ Hta2) as W7. rewrite W6, (proj1 W4) in W7. injection W7 as <-.
  assert (@next_frame second_device (Stack.ip b3) rst_frame) as F3 by (unfold next_frame; by rewrite (proj2 W5)).
  eapply runs_mono; [exact (H F3)|]. intros [] b4 (_ & _ & _ & _ & gb4 & Hg4 & Hst4 & _). exists gb4. exact (conj Hg4 Hst4).
Defined.
