(* ===== verification/LockProps.v ===== *)
(** * Properties of the mutexes *)

From S2P Require Import Prelude LockOrder Locks.
From S2P Require Tcp.
From stdpp Require Import relations list.
Local Open Scope locking_scope.

(** * Every function keeps the order *)

Create HintDb locks.

(** All that is held has a lower rank than [n]. *)
Definition under (n : nat) (h : list mutex) : Prop := Forall (λ l, rank l < n)%nat h.

Abbreviation keeps_order := (disciplined rank).

Lemma under_le n m h : under n h → (n ≤ m)%nat → under m h.
Proof. intros Hu Hle. eapply Forall_impl; [exact Hu|]. cbn. lia. Qed.

Lemma under_cons n l h : (rank l < n)%nat → under n h → under n (l :: h).
Proof. by constructor. Qed.

Ltac solve_under :=
  first [assumption | apply Forall_nil_2 | eapply under_le; [eassumption|cbn; lia]
        | apply under_cons; [cbn; lia|solve_under]].

Lemma sometimes_order h p : keeps_order h p h → keeps_order h (sometimes p) h.
Proof. intros Hp. apply disc_either; [constructor|done]. Qed.

(** One step of a proof that a function keeps the order. *)
Ltac order_step :=
  match goal with
  | |- above _ ?l ?h => change (under (rank l) h)
  | |- under _ _ => solve_under
  | |- disciplined _ _ (sometimes _) _ => apply sometimes_order
  | |- disciplined _ _ Skip _ => apply disc_skip
  | |- disciplined _ _ (Acquire _) _ => apply disc_acquire
  | |- disciplined _ _ (Release _) _ => apply disc_release
  | |- disciplined _ _ (Await _) _ => apply disc_await
  | |- disciplined _ _ (Seq _ _) _ => eapply disc_seq
  | |- disciplined _ _ (Either _ _) _ => eapply disc_either
  | |- disciplined _ _ (Many _) _ => apply disc_many
  | |- disciplined _ _ _ _ => solve [eauto with locks]
  end.
(** The functions that do no more than enter the pool once are unfolded. *)
Ltac order :=
  unfold drop_buffer_locks, new_prealloc_locks, alloc_header_locks, trim_head_locks, trim_tail_locks,
    append_from_slice_locks, append_buffer_locks, send_packet_locks;
  repeat order_step.

#[local] Hint Extern 1 (under _ _) => solve_under : locks.

Lemma with_pool_order h : under 3 h → keeps_order h with_pool h.
Proof. intros. unfold with_pool. order. Qed.
#[local] Hint Resolve with_pool_order : locks.

Lemma drop_socket_order h : under 3 h → keeps_order h drop_socket_locks h.
Proof. intros. unfold drop_socket_locks. order. Qed.
#[local] Hint Resolve drop_socket_order : locks.

Lemma append_from_buffer_order h : under 3 h → keeps_order h append_from_buffer_locks h.
Proof. intros. unfold append_from_buffer_locks. order. Qed.
#[local] Hint Resolve append_from_buffer_order : locks.

Lemma set_timer_order h : under 2 h → keeps_order h set_timer_locks h.
Proof. intros. unfold set_timer_locks. order. Qed.
#[local] Hint Resolve set_timer_order : locks.

Lemma cancel_timer_order h : under 2 h → keeps_order h cancel_timer_locks h.
Proof. intros. unfold cancel_timer_locks. order. Qed.
#[local] Hint Resolve cancel_timer_order : locks.

Lemma ip_output_order h : under 3 h → keeps_order h ip_output_locks h.
Proof. intros. unfold ip_output_locks, ip_output_v4_locks, ip_output_v6_locks. order. Qed.
#[local] Hint Resolve ip_output_order : locks.

(** What sends a segment, and what starts its timer. *)
Lemma tcp_output_order h : under 3 h → keeps_order h tcp_output_locks h.
Proof. intros. unfold tcp_output_locks. order. Qed.
#[local] Hint Resolve tcp_output_order : locks.

Lemma tcp_send_packet_order h : under 3 h → keeps_order h tcp_send_packet_locks h.
Proof. apply tcp_output_order. Qed.
#[local] Hint Resolve tcp_send_packet_order : locks.

Lemma set_response_timer_order h : under 2 h → keeps_order h set_response_timer_locks h.
Proof. intros. unfold set_response_timer_locks. order. Qed.
#[local] Hint Resolve set_response_timer_order : locks.

Lemma receive_data_order h : under 2 h → keeps_order h receive_data_locks h.
Proof. intros. unfold receive_data_locks, add_packet_locks. order. Qed.
#[local] Hint Resolve receive_data_order : locks.

Lemma state_transition_order h : under 2 h → keeps_order h state_transition_locks h.
Proof. intros. unfold state_transition_locks. order. Qed.
#[local] Hint Resolve state_transition_order : locks.

(** The functions that take a socket: they may be called with a port map. *)
Lemma input_socket_order h s : under 1 h → keeps_order h (input_socket_locks s) h.
Proof. intros. unfold input_socket_locks, process_ack_locks. order. Qed.
#[local] Hint Resolve input_socket_order : locks.

Lemma handle_new_connection_order h l n : under 1 h → keeps_order h (handle_new_connection_locks l n) h.
Proof. intros. unfold handle_new_connection_locks. order. Qed.
#[local] Hint Resolve handle_new_connection_order : locks.

(** ** What the threads do *)

Lemma tcp_input_order s l n : keeps_order [] (tcp_input_locks s l n) [].
Proof. unfold tcp_input_locks. order. Qed.
#[local] Hint Resolve tcp_input_order : locks.

Lemma udp_input_order u : keeps_order [] (udp_input_locks u) [].
Proof. unfold udp_input_locks. order. Qed.
#[local] Hint Resolve udp_input_order : locks.

Lemma packet_receive_order s l n u : keeps_order [] (packet_receive_locks s l n u) [].
Proof.
  unfold packet_receive_locks, recv_packet_locks, ip_input_locks, ip_input_common_locks, icmp_input_v4_locks,
    icmp_input_v6_locks, icmp_output_v4_locks, icmp_output_v6_locks. cbv zeta. order.
Qed.

Lemma run_timer_order action : keeps_order [] (run_timer_locks action) [].
Proof.
  destruct action; cbn [run_timer_locks];
    unfold retransmit_locks, delayed_ack_locks, response_timeout_locks, time_wait_timeout_locks; order.
Qed.
#[local] Hint Resolve run_timer_order : locks.

Lemma tick_order actions : keeps_order [] (tick_locks actions) [].
Proof.
  unfold tick_locks. order. induction actions as [|action actions IH]; cbn [foldr]; order.
Qed.

Lemma call_order c : keeps_order [] (call_locks c) [].
Proof.
  destruct c; cbn [call_locks]; try apply packet_receive_order; try apply tick_order;
    unfold udp_open_locks, udp_recv_locks, udp_send_locks, udp_output_locks, tcp_open_locks, tcp_close_locks,
      tcp_read_locks, tcp_write_locks, write_segment_locks, tcp_listen_locks, tcp_accept_locks; order.
Qed.

(** * No deadlock *)

(** The program: any number of threads, each of which makes any calls, one
    after the other. *)
Definition program (p : locking) : Prop := ∃ c, p = call_locks c.

(** C13: mutexes.  However many threads the program runs and however their
    steps interleave, no mutex is held by two of them, and no threads block
    each other for ever: every thread that is in the middle of a call and does
    not wait on a condition variable can go on, or waits for a mutex whose
    holder can go on or waits in turn, and so on up to a thread that can.  (A
    thread that waits on a condition variable holds no mutex.) *)
Theorem program_deadlock_free ts :
  running program ts →
  (∀ i j t u l, ts !! i = Some t → ts !! j = Some u → l ∈ held t → l ∈ held u → i = j) ∧
  (∀ i t l k, ts !! i = Some t → todo t = Asleep l :: k → held t = []) ∧
  (∀ i t, ts !! i = Some t → busy t → ∃ j, rtc (waits_for ts) i j ∧ can_step ts j).
Proof.
  intros Hr. apply (running_ok rank) in Hr as Hok; [|intros p [c ->]; apply call_order].
  pose proof Hok as [Hts Hex]. split; [exact Hex|]. split.
  - intros i t l k Hi Ht. apply (Forall_lookup_1 _ _ _ _ Hts) in Hi as [Hd _]. rewrite Ht in Hd.
    inversion Hd as [|? ? ? ? Hp]; subst. by inversion Hp.
  - intros i t. apply (no_deadlock rank ts 4); [by intros []; cbn; lia|exact Hok].
Qed.

(** A step of the thread [i]. *)
Ltac thread_goes i :=
  eapply rtc_l; [eapply (system_thread _ _ i); [reflexivity|constructor|]|];
    [try exact I; intros [|[|]] ? [= <-]; cbn; set_solver|cbn [insert list_insert]].
Ltac thread_begins i c :=
  eapply rtc_l; [eapply (system_begin _ _ i (call_locks c)); [reflexivity|by exists c]|cbn [insert list_insert call_locks]].

(** One thread closes a connection, and holds its socket; another wants to read
    from it. *)
Definition closing_thread : thread mutex := {|
  todo := [match tcp_close_locks 0 with Seq _ q => q | p => p end]; held := [TCPSocket 0] |}.
Definition reading_thread : thread mutex := {| todo := [Acquire (TCPSocket 0);
  match tcp_read_locks 0 with Seq _ q => q | p => p end]; held := [] |}.

Lemma contention : running program [closing_thread; reading_thread].
Proof.
  exists 2%nat. cbn [replicate]. thread_begins 0%nat (TcpClose 0). thread_begins 1%nat (TcpRead 0).
  unfold tcp_close_locks, tcp_read_locks. thread_goes 0%nat. thread_goes 0%nat. thread_goes 1%nat. constructor.
Qed.

Lemma program_deadlock_free_witness :
  ∃ j, rtc (waits_for [closing_thread; reading_thread]) 1 j ∧ can_step [closing_thread; reading_thread] j.
Proof.
  destruct (program_deadlock_free _ contention) as (_ & _ & H). exact (H 1%nat reading_thread eq_refl I).
Defined.

(** The guard that tcp_close drops before it takes the port map has to be
    dropped: if it were kept, tcp_close and the receive thread could block
    each other. *)
Definition close_with_guard (socket_ref : nat) : locking :=
  Acquire (TCPSocket socket_ref) ▷ Acquire TCP_PORT_MAP ▷ drop_socket_locks ▷ Release TCP_PORT_MAP ▷
  Release (TCPSocket socket_ref).

Lemma held_blocks (ts : list (thread mutex)) j l k h t i :
  ts !! j = Some {| todo := Acquire l :: k; held := h |} → ts !! i = Some t → l ∈ held t → ¬ can_step ts j.
Proof.
  intros Hj Hi Hl (t' & need & t'' & Ht' & Hst & Hen). rewrite Hj in Ht'. injection Ht' as <-.
  inversion Hst; subst. by eapply Hen.
Qed.

(** A step of the thread [i] into the second branch of a choice. *)
Ltac thread_right i :=
  eapply rtc_l; [eapply (system_thread _ _ i _ None); [reflexivity|apply step_right|exact I]|cbn [insert list_insert]].

Theorem close_with_guard_deadlocks :
  ∃ ts : list (thread mutex), running (λ p, p = close_with_guard 0 ∨ program p) ts ∧ length ts = 2%nat ∧
    Forall busy ts ∧ ∀ j, ¬ can_step ts j.
Proof.
  eexists. split.
  { exists 2%nat. cbn [replicate].
    eapply rtc_l; [eapply (system_begin _ _ 0 (close_with_guard 0)); [reflexivity|by left]|cbn [insert list_insert]].
    eapply rtc_l; [eapply (system_begin _ _ 1 (call_locks (ReceivePacket 0 0 0 0)));
      [reflexivity|right; by eexists]|cbn [insert list_insert call_locks]].
    (* a segment is read, its IP header removed and its checksum verified *)
    do 9 thread_goes 1%nat. thread_right 1%nat. do 5 thread_goes 1%nat. do 2 thread_right 1%nat.
    thread_goes 1%nat. thread_right 1%nat. do 5 thread_goes 1%nat.
    (* both threads take their first mutex *)
    do 3 thread_goes 0%nat. thread_goes 1%nat. do 2 thread_right 1%nat. do 2 thread_goes 1%nat.
    constructor. }
  split; [done|]. split; [by repeat constructor|]. intros [|[|j]].
  - eapply (held_blocks _ 0 _ _ _ _ 1); [reflexivity..|cbn; set_solver].
  - eapply (held_blocks _ 1 _ _ _ _ 0); [reflexivity..|cbn; set_solver].
  - intros (t & need & t' & Ht & _). done.
Qed.
