(* ===== verification/AppProps.v ===== *)
(** * Properties of the test applications

    What a peer sees of the echo server and of the web server, and what the
    bulk upload sends. *)

From S2P Require Import Prelude Util Text Buf BufSpec Checksum Timer Netif Ip Icmp.
From S2P Require Udp.
From S2P Require Import Reassembler TcpOptions Tcp Stack TcpSpec TcpData TcpControl TcpListen StackSpec.
From S2P Require Import TcpKeeps Apps BufProps TestHost StackProps.
From stdpp Require Import gmap.
#[local] Existing Instance Udp.eta_UDPSocketState.
Local Open Scope Z_scope.

Section Steps.
Context `{!Tun, !TunOk, !Random}.

Lemma zeros_length n : 0 ≤ n → zlen (zeros n) = n.
Proof. apply zlen_zeros. Qed.

Lemma received_data_Ok data rest n :
  n = zlen data → n < 2147483648 → received_data (data ++ rest) n = Ok data.
Proof.
  intros -> Hn. pose proof (zlen_nonneg data). unfold received_data, as_usize.
  rewrite truncate_id by (unfold in_range; lia).
  change (data ++ rest) with ([] ++ data ++ rest). by rewrite (slice_split [] data rest) by (zlen_simpl; lia).
Qed.

Lemma update_tcp_ok s t :
  stack_ok s → tcp_ok t (Udp.queued (Stack.udp_sockets s)) → stack_ok (@update _ _ stack_tcp t s).
Proof. apply (stack_ok_tcp s (Stack.ip s) t). Qed.

Lemma update_udp_ok s u :
  stack_ok s → Udp.udp_ok u (sockets_frags (Stack.tcp_sockets s)) → stack_ok (@update _ _ stack_udp u s).
Proof. apply (stack_ok_udp s (Stack.ip s) u). Qed.

(** Putting a socket back with other contents but the same fragments. *)
Lemma put_back_ok t k h g g' :
  tcp_ok t k → Tcp.sockets t !! h = Some g → socket_wf g' → socket_frags g' = socket_frags g →
  tcp_ok (put_back t h g') k.
Proof.
  intros Ht Hg Hwf Hf. apply (unlocked_ok t t k k h g g'); try done. rewrite Hf.
  by destruct (locked_ok _ _ _ _ Ht Hg).
Qed.

(** What one read into 1500 octets takes from a queue. *)
Lemma read_some t k h g :
  let text := take 1500 (contents (receive_queue g)) in
  tcp_ok t k → Tcp.sockets t !! h = Some g → contents (receive_queue g) ≠ [] →
  zlen (contents (receive_queue g)) ≤ usize_max →
  runs (tcp_read h (zeros 1500)) t (λ r t', ∃ p q data, t' = put_back (update (p : BufState) t) h (g <| receive_queue := q |>) ∧
    tcp_ok t' k ∧ contents q = drop 1500 (contents (receive_queue g)) ∧
    r = Some (zlen text, data) ∧ 0 < zlen text ∧ received_data data (zlen text) = Ok text).
Proof.
  intros text Ht Hg Hne Hl. call (tcp_read_runs t k h g (zeros 1500)); try done.
  intros r t' (p & q & -> & Hok & Hr & Hq).
  assert (zlen (zeros 1500) = 1500) as Hz by (by apply zlen_zeros). rewrite Hz in *. subst text.
  set (c := contents (receive_queue g)) in *. assert (0 < zlen c) as Hpos.
  { destruct c; [done|]. unfold zlen. cbn. lia. }
  assert (zlen (take 1500 c) = Z.min 1500 (zlen c)) as Hn by (unfold zlen; rewrite length_take; lia).
  rewrite as_i32_small, <-Hn in Hr by lia.
  assert (take (Z.to_nat (Z.min 1500 (zlen c))) c = take 1500 c) as Htk.
  { destruct (decide (zlen c ≤ 1500)); [by rewrite !take_ge by (unfold zlen in *; lia)|by rewrite Z.min_l by lia]. }
  assert (drop (Z.to_nat (Z.min 1500 (zlen c))) c = drop 1500 c) as Hdr.
  { destruct (decide (zlen c ≤ 1500)); [by rewrite !drop_ge by (unfold zlen in *; lia)|by rewrite Z.min_l by lia]. }
  rewrite Hdr in Hq. rewrite Hn, Htk in Hr. eexists p, q, _. split_and!; try done; [by rewrite Hn|lia|].
  apply received_data_Ok; lia.
Qed.

(** A whole request, read into the server's slice. *)
Lemma read_request t k h g :
  tcp_ok t k → Tcp.sockets t !! h = Some g → contents (receive_queue g) ≠ [] →
  zlen (contents (receive_queue g)) ≤ 1500 →
  runs (tcp_read h (zeros 1500)) t (λ r t', ∃ p q data n, t' = put_back (update (p : BufState) t) h (g <| receive_queue := q |>) ∧
    tcp_ok t' k ∧ contents q = [] ∧ r = Some (n, data) ∧ 0 ≤ n ∧
    received_data data n = Ok (contents (receive_queue g))).
Proof.
  intros Ht Hg Hne Hl. call (read_some t k h g); try done; [lia|].
  intros r t' (p & q & data & -> & Hok & Hq & -> & Hn & Hd).
  assert (length (contents (receive_queue g)) ≤ 1500)%nat by (unfold zlen in *; lia).
  rewrite take_ge in Hd, Hn by done. rewrite drop_ge in Hq by done.
  rewrite take_ge by done. eexists p, q, data, _. split_and!; try done. lia.
Qed.

End Steps.

(** * udp_echo *)

(** C10: the echo server.  A datagram that another host sends to the server's
    port is answered with one datagram from that port, with the same data (up
    to 1500 octets), to the address and port it came from; the socket and
    everything else is as before. *)
Theorem udp_echo_correct `{!Tun, !TunOk, !Random} s i0 k0 dst sp port data h stb :
  let src := local_addr (netif i0) dst in
  stack_ok s → ip_ok i0 k0 → IPAddr_ok dst → is_u16 sp → is_u16 port → bytes_ok data →
  8 + zlen data ≤ MRU → udp_port_map s !! port = Some h → Stack.udp_sockets s !! h = Some stb →
  Udp.receive_queue stb = [] → next_frame (Stack.ip s) (Udp.udp_frame i0 dst sp port data) →
  runs (packet_receive_step;; udp_echo_reply h) s (λ replied s', replied = true ∧ stack_ok s' ∧
    Stack.udp_sockets s' = Stack.udp_sockets s ∧ Stack.tcp_sockets s' = Stack.tcp_sockets s ∧
    ∃ i, LOCAL_IPV4 (netif i) = LOCAL_IPV4 (netif (Stack.ip s)) ∧
      LOCAL_IPV6 (netif i) = LOCAL_IPV6 (netif (Stack.ip s)) ∧
      wire (netif (Stack.ip s')) = wire (netif (Stack.ip s)) ++
        [Udp.udp_frame i src port sp (take 1500 data)]).
Proof.
  intros src Hs Hi0 Hdst Hsp Hport Hb Hlen Hpm Hstb Hq Hframe. apply runs_bind.
  call (datagram_received s i0 k0 dst sp port data h stb); try done.
  intros _ s1 (u & b & -> & Hu & Hpu & Hw & H4 & H6 & Hcb & Hus). fold src in Hus.
  destruct (local_addr_ok _ _ dst Hi0) as [Hsrc _]. fold src in Hsrc.
  assert (Udp.port stb = port) as Hpt.
  { destruct Hs as [[_ _ Hp] _]. apply Hp in Hpm. change (Udp.sockets (udp_part s)) with (Stack.udp_sockets s) in Hpm.
    rewrite Hstb in Hpm. by injection Hpm. }
  unfold udp_echo_reply. apply runs_bind, runs_zoom. rewrite view_update.
  call (Udp.udp_recv_runs u (sockets_frags (Stack.tcp_sockets s)) h
    (stb <| Udp.receive_queue ::= λ q, q ++ [(src, sp, b)] |>) (zeros 1500) src sp b []); [done| | |].
  { rewrite Hus. apply list_lookup_insert_eq. by eapply lookup_lt_Some. }
  { cbn. by rewrite Hq. }
  intros o u1 (-> & Hu1 & Hus1 & _ & _ & [Hw1 H41 H61 _]). rewrite Hcb in *.
  rewrite app_nil_r in Hw1. set (n := Z.min (zlen data) (zlen (zeros 1500))).
  pose proof (zlen_nonneg data). assert (zlen (zeros 1500) = 1500) as Hz by (by apply zlen_zeros).
  assert (take (Z.to_nat n) data = take 1500 data) as ->.
  { unfold n. rewrite Hz. destruct (decide (zlen data ≤ 1500)).
    - by rewrite !take_ge by (unfold zlen in *; lia).
    - by rewrite Z.min_r by lia. }
  assert (Udp.sockets u1 = Stack.udp_sockets s) as Hsame.
  { rewrite Hus1, Hus, list_insert_insert_eq. apply list_insert_id.
    rewrite Hstb. destruct stb as [q p]. cbn in Hq |- *. by rewrite Hq. }
  run. rewrite received_data_Ok.
  2: { rewrite zlen_take. unfold n. lia. } 2: { unfold n. lia. }
  run. rewrite view_update.
  call (Udp.udp_send_runs u1 (sockets_frags (Stack.tcp_sockets s)) h stb src sp (take 1500 data));
    [done|by rewrite Hsame|done|done|by apply bytes_ok_take|rewrite zlen_take; lia|].
  intros _ u2 (Hu2 & [Hw2 H42 H62 _] & Hus2 & _ & _). run.
  split; [done|]. split; [by apply (update_udp_ok s u2)|].
  split; [change (Udp.sockets u2 = Stack.udp_sockets s); congruence|]. split; [done|].
  exists (Udp.ip u1). split; [congruence|]. split; [congruence|].
  change (wire (netif (Udp.ip u2)) = wire (netif (Stack.ip s)) ++
    [Udp.udp_frame (Udp.ip u1) src port sp (take 1500 data)]).
  rewrite <-Hpt. congruence.
Qed.

Lemma udp_echo_correct_witness :
  runs (@packet_receive_step (replay [datagram_frame]) test_random;;
        @udp_echo_reply (replay [datagram_frame]) 0) peer_stack (λ replied s', replied = true ∧ stack_ok s' ∧
    ∃ i, wire (netif (Stack.ip s')) = [Udp.udp_frame i test_v4 8000 8000 [1; 2; 3]]).
Proof.
  assert (IPAddr_ok peer_v4) as Ha by (by apply test_addrs_ok).
  assert (bytes_ok [1; 2; 3]) as Hb by bytes_solve.
  assert (8 + zlen [1; 2; 3] ≤ MRU) as Hl by done.
  assert (is_u16 8000) as Hp by (by split).
  pose proof (@udp_echo_correct (replay [datagram_frame]) datagram_device test_random peer_stack test_ip 0
    peer_v4 8000 8000 [1; 2; 3] 0%nat (Udp.UDPSocketState_new 8000) peer_stack_ok test_ip_ok Ha Hp Hp Hb Hl
    eq_refl eq_refl eq_refl datagram_next) as H.
  eapply runs_mono; [exact H|]. intros r s' (Hr & Hok & _ & _ & i & _ & _ & Hw).
  split; [exact Hr|]. split; [exact Hok|]. exists i. exact Hw.
Defined.

(** * web_server *)

(** How a response that starts in [m] with the socket [g] stops in [m'], [frames]
    with [n] octets having been sent: done, with a FIN, or waiting. *)
Inductive responded (m m' : NetState) (h : nat) (g : TCPSocketState) :
    server_state → TCPSocketState → list (list Z) → Z → Prop :=
| responded_all gw fin g' frames :
    endpoints gw = endpoints g → send_next_seq gw = u32_wrapping_add (send_next_seq g) (zlen RESPONSE) →
    is_frame m (send_params gw (Z.lor FLAG_FIN FLAG_ACK)) [] fin → state g' = FinWait1 →
    sent m m' (frames ++ [fin]) → responded m m' h g Accepting g' frames (zlen RESPONSE)
| responded_part g' frames n :
    n < zlen RESPONSE → window_closed g' RESPONSE n → state g' = Established →
    sent m m' frames → responded m m' h g (Responding h true n) g' frames n.

Lemma responded_after m m1 m' h g g0 st g' frames n :
  sent m m1 [] → endpoints g0 = endpoints g → send_next_seq g0 = send_next_seq g →
  responded m1 m' h g0 st g' frames n → responded m m' h g st g' frames n.
Proof.
  intros Hs He Hn [gw fin g1 fs Hew Hsw Hf Hst Hse|g1 fs k Hk Hw Hst Hse].
  - apply (responded_all _ _ _ _ gw fin); [congruence|congruence| |done|].
    + by eapply is_frame_sent.
    + by eapply (sent_trans _ _ _ []).
  - apply responded_part; try done. by eapply (sent_trans _ _ _ []).
Qed.

Lemma response_bytes : bytes_ok RESPONSE.
Proof. unfold RESPONSE. rewrite !bytes_ok_app. split_and!; try apply as_bytes_ok; bytes_solve. Qed.

(** The response, on an open connection. *)
Lemma respond_runs `{!Tun, !TunOk, !Random} s l h g :
  stack_ok s → Stack.tcp_sockets s !! h = Some g → state g = Established → can_send g → in_flight g →
  1 ≤ send_mss g ≤ 2560 → zlen (contents (retransmit_queue g)) + zlen RESPONSE < 2147483648 →
  runs (web_server_step l (Responding h false 0)) s (λ st s', stack_ok s' ∧ ∃ g' chunks frames n,
    Stack.tcp_sockets s' !! h = Some g' ∧ receive_queue g' = receive_queue g ∧
    concat chunks = take (Z.to_nat n) RESPONSE ∧
    segments_sent (netif (Stack.ip s)) g (send_next_seq g) chunks frames ∧
    responded (netif (Stack.ip s)) (netif (Stack.ip s')) h g st g' frames n).
Proof.
  intros Hs Hg Hst Hcs Hfl Hmss Htot. pose proof Hs as [_ Ht]. set (k := Udp.queued _) in *.
  cbn [web_server_step]. apply runs_bind, runs_zoom.
  assert (0 ≤ 0 ≤ zlen RESPONSE) as Hoff by (split; [lia|apply zlen_nonneg]).
  call (tcp_write_runs false (tcp_part s) k h g RESPONSE 0); try done; [congruence|apply response_bytes|].
  intros r t (t1 & g1 & -> & Ht1 & Hw & Hfl1 & chunks & frames & n & Hn & Hc & _ & Hl & Hsg & _ & Hseq & _ & Hr).
  rewrite Z.sub_0_r in Hseq. unfold sub in Hc. rewrite Z.sub_0_r in Hc.
  set (t2 := put_back t1 h g1) in *.
  assert (Tcp.sockets t2 !! h = Some g1) as Hg1.
  { apply list_lookup_insert_eq. rewrite (step_sockets _ _ _ Hl). by eapply lookup_lt_Some. }
  pose proof (step_sent _ _ _ Hl) as Hsent. change (netif (Tcp.ip (tcp_part s))) with (netif (Stack.ip s)) in *.
  destruct (written_fields _ _ Hw) as [Hrq _]. destruct r as [res|o]; run.
  - destruct Hr as [-> _]. assert (state g1 = Established) as Hst1 by (by destruct Hw as (? & ? & ? & ->)).
    rewrite view_update. call (tcp_close_runs t2 k h g1); [done|done|by eapply written_can_send|].
    intros _ t3 (Ht3 & g3 & fs & Hs3 & Hsent3 & Hst3 & Hq3 & _ & Hfin). rewrite Hst1 in *.
    rewrite decide_True in Hfin by (by left). destruct Hfin as (fin & tid & -> & Hf & _). run.
    split; [by apply (update_tcp_ok s t3)|]. exists g3, chunks, frames, (zlen RESPONSE). split_and!.
    + change (Tcp.sockets t3 !! h = Some g3). rewrite Hs3. apply list_lookup_insert_eq.
      by eapply lookup_lt_Some.
    + destruct Hq3. congruence.
    + done.
    + done.
    + apply (responded_all _ _ _ _ g1 fin); [by destruct Hw as (? & ? & ? & ->)|done| |done|].
      * eapply is_frame_sent; [exact Hsent|]. exact Hf.
      * eapply sent_trans; [exact Hsent|exact Hsent3].
  - destruct Hr as (-> & Hlt & Hcl). split; [by apply (update_tcp_ok s t2)|].
    exists g1, chunks, frames, n. split_and!; try done.
    apply responded_part; try done. by destruct Hw as (? & ? & ? & ->).
Qed.

(** C9: the web server.  A connection that waits to be accepted and has sent a
    request (up to 1500 octets of UTF-8) is accepted, its request is read, and
    the response goes out in order, in segments that follow each other from the
    connection's SND.NXT on.  When all of it was sent a FIN follows and the
    server accepts again; when the peer's window is too small it waits for the
    window with the rest. *)
Theorem web_server_correct `{!Tun, !TunOk, !Random} s l gl h rest g :
  let request := contents (receive_queue g) in
  stack_ok s → Stack.tcp_sockets s !! l = Some gl → socket_queue gl = h :: rest → h ≠ l →
  Stack.tcp_sockets s !! h = Some g → state g = Established → can_send g → in_flight g →
  request ≠ [] → zlen request ≤ 1500 → from_utf8_ok request = true → 1 ≤ send_mss g ≤ 2560 →
  zlen (contents (retransmit_queue g)) + zlen RESPONSE < 2147483648 →
  runs (st ← web_server_step l Accepting; st ← web_server_step l st; web_server_step l st) s
    (λ st s', stack_ok s' ∧ ∃ q g' chunks frames n,
      Stack.tcp_sockets s' !! h = Some g' ∧ contents q = [] ∧ receive_queue g' = q ∧
      concat chunks = take (Z.to_nat n) RESPONSE ∧
      segments_sent (netif (Stack.ip s)) (g <| receive_queue := q |>) (send_next_seq g) chunks frames ∧
      responded (netif (Stack.ip s)) (netif (Stack.ip s')) h g st g' frames n).
Proof.
  intros request Hs Hgl Hq Hne Hg Hst Hcs Hfl Hreq Hrl Hutf Hmss Htot.
  pose proof Hs as [_ Ht]. set (k := Udp.queued (Stack.udp_sockets s)) in *.
  apply runs_bind. cbn [web_server_step]. apply runs_bind, runs_zoom.
  eapply runs_eq; [rewrite (tcp_accept_eq (tcp_part s) l gl Hgl), Hq; reflexivity|]. run.
  set (t1 := put_back _ l _). assert (tcp_ok t1 k) as Ht1.
  { apply (put_back_ok _ _ _ gl); [done|done| |done].
    destruct (locked_ok _ _ _ _ Ht Hgl) as [[] _]. by split. }
  assert (Tcp.sockets t1 !! h = Some g) as Hg1 by (by (rewrite <-Hg; by apply list_lookup_insert_ne)).
  apply runs_bind, runs_bind, runs_bind, runs_zoom. rewrite view_update.
  call (read_request t1 k h g); try done.
  intros r t2 (p & q & data & n & Et2 & Ht2 & Hqe & -> & Hn & Hdata). cbv beta iota.
  rewrite (proj2 (Z.ltb_ge _ _)) by done. run. rewrite Hdata. run. fold request. rewrite Hutf. run.
  set (g0 := g <| receive_queue := q |>) in *.
  assert (Tcp.sockets t2 !! h = Some g0) as Hg2.
  { rewrite Et2. apply list_lookup_insert_eq. by eapply (lookup_lt_Some (Tcp.sockets t1)). }
  set (s2 := update t2 (update t1 s)).
  call (respond_runs s2 l h g0); try done; [by apply update_tcp_ok, Ht2; apply update_tcp_ok|].
  intros st s' (Hs' & g' & chunks & frames & m & Hg' & Hq' & Hc & Hsg & Hres).
  assert (sent (netif (Stack.ip s)) (netif (Stack.ip s2)) []) as Hsent.
  { unfold s2. rewrite Et2. exact (sent_nil (netif (Stack.ip s)) p). }
  split; [done|]. exists q, g', chunks, frames, m. split_and!; try done.
  - eapply segments_sent_ext; [apply Hsent|apply Hsent|apply written_refl|done].
  - exact (responded_after _ _ _ h g g0 _ _ _ _ Hsent eq_refl eq_refl Hres).
Qed.

(** A listener with one connection to accept, which has sent a request. *)
Definition http_request : list Z := [71; 69; 84; 32; 47].
Definition server_listener : TCPSocketState :=
  (set_state Listen (fresh_socket IPAddr_new 0 8080 7)) <| socket_queue := [1%nat] |>.
Definition connection (q : list Z) : TCPSocketState :=
  (test_socket Established 4096 NetBuffer_new) <| receive_queue := one_fragment q |>.
Definition connected_stack (q : list Z) : StackState := {|
  Stack.ip := taken_ip 1; udp_port_map := ∅; Stack.udp_sockets := []; udp_notified := [];
  tcp_port_map := {[ (IPAddr_new, 0, 8080) := 0%nat; (peer_v4, 80, 49159) := 1%nat ]};
  Stack.tcp_sockets := [server_listener; connection q];
  Stack.tcp_timers := TimerState_init 0; tcp_notified := []; Stack.random_drawn := O |}.

Lemma connected_stack_ok q : bytes_ok q → 0 < zlen q ≤ 512 → stack_ok (connected_stack q).
Proof.
  intros Hq Hl. pose proof (taken_ip_ok 1 ltac:(by split)) as Hip.
  destruct (one_fragment_ok q) as (Hb & _ & _); [done..|]. split.
  - split; [exact Hip|constructor|]. intros p h. cbn. by rewrite lookup_empty.
  - split; [exact Hip| |done]. constructor; [|constructor; [|constructor]].
    + assert (socket_wf (set_state Listen (fresh_socket IPAddr_new 0 8080 7))) as [].
      { apply set_state_wf, fresh_socket_wf; [apply IPAddr_new_ok|by split..]. }
      by split.
    + destruct (test_socket_wf Established 4096 NetBuffer_new buf_ok_new). by split.
Qed.

Definition server_connection : TCPSocketState := connection http_request.
Definition server_stack : StackState := connected_stack http_request.

Lemma server_request_ok : buf_ok (one_fragment http_request) ∧ contents (one_fragment http_request) = http_request.
Proof.
  destruct (one_fragment_ok http_request) as (Hb & Hc & _); [|by split; vm_compute|by split].
  unfold http_request. bytes_solve.
Qed.

Lemma server_stack_ok : stack_ok server_stack.
Proof. apply connected_stack_ok; [unfold http_request; bytes_solve|by split; vm_compute]. Qed.

Lemma server_connection_in_flight : in_flight server_connection.
Proof. by split; vm_compute. Qed.

Lemma server_connection_can_send : can_send server_connection.
Proof. by vm_compute. Qed.

Lemma response_small : zlen (contents (retransmit_queue server_connection)) + zlen RESPONSE < 2147483648.
Proof. by vm_compute. Qed.

Lemma web_server_correct_witness :
  runs (st ← @web_server_step test_tun 0 Accepting; st ← @web_server_step test_tun 0 st;
        @web_server_step test_tun 0 st) server_stack (λ st s', stack_ok s' ∧ ∃ g' frames n,
    responded (netif (taken_ip 1)) (netif (Stack.ip s')) 1 server_connection st g' frames n).
Proof.
  destruct server_request_ok as [_ Hc].
  assert (contents (receive_queue server_connection) = http_request) as Hr by exact Hc.
  assert (http_request ≠ []) as Hne by discriminate.
  assert (zlen http_request ≤ 1500) as Hl by done.
  assert (from_utf8_ok http_request = true) as Hu by (by vm_compute).
  assert (1 ≤ 536 ≤ 2560) as Hmss by lia. assert (1 ≠ 0)%nat as Hn by lia.
  rewrite <-Hr in Hne, Hl, Hu.
  pose proof (@web_server_correct test_tun test_tun_ok test_random server_stack 0 server_listener 1%nat []
    server_connection server_stack_ok eq_refl eq_refl Hn eq_refl eq_refl server_connection_can_send
    server_connection_in_flight Hne Hl Hu Hmss response_small) as H.
  eapply runs_mono; [exact H|]. intros st s' (Hok & q & g' & chunks & frames & n & _ & _ & _ & _ & _ & Hres).
  split; [exact Hok|]. exists g', frames, n. exact Hres.
Defined.

(** * The bulk applications *)

(** The text: lines of 72 printable characters that end in CR LF, each line
    starting one character after the line before it. *)
Lemma upload_byte_text i :
  0 ≤ i → let o := i mod 74 in
  upload_byte i = (if o =? 72 then 13 else if o =? 73 then 10 else (i / 74 + o) mod 95 + 32).
Proof.
  intros Hi o. unfold upload_byte. fold o. change (74 - 2) with 72. change (74 - 1) with 73.
  case_match; [done|]. case_match; [done|]. rewrite Zplus_mod_idemp_l.
  apply truncate_id. pose proof (Z.mod_pos_bound (i / 74 + o) 95 ltac:(lia)). unfold in_range. lia.
Qed.

Lemma upload_data_ok : bytes_ok upload_data ∧ zlen upload_data = UPLOAD_LENGTH.
Proof.
  split.
  - unfold upload_data, bytes_ok. rewrite Forall_map, Forall_forall. intros i _. unfold upload_byte.
    case_match; [done|]. case_match; [done|]. apply truncate_range. lia.
  - unfold upload_data. rewrite zlen_map. unfold zlen. by rewrite length_seqZ.
Qed.

Lemma upload_data_sub n offset :
  0 ≤ offset ≤ n → n ≤ UPLOAD_LENGTH →
  sub upload_data offset n = map upload_byte (seqZ offset (n - offset)).
Proof.
  intros Ho Hn. unfold sub, upload_data. rewrite skipn_map, firstn_map. f_equal.
  replace UPLOAD_LENGTH with (offset + ((n - offset) + (UPLOAD_LENGTH - n))) by lia.
  rewrite seqZ_app, Z.add_0_l by lia. rewrite drop_app_length' by (rewrite length_seqZ; lia).
  rewrite seqZ_app by lia. by rewrite take_app_length' by (rewrite length_seqZ; lia).
Qed.

(** One turn of sending [data] from [offset] to [n] on the connection [g], which
    it leaves as [g']: the octets go out in segments that fit the peer's window,
    and if some are left the next segment does not fit. *)
Definition write_turn `{!Tun} (s s' : StackState) (h : nat) (g g' : TCPSocketState) (data : list Z)
    (offset n : Z) : Prop :=
  stack_ok s' ∧ ∃ chunks frames,
    Stack.tcp_sockets s' !! h = Some g' ∧ written g g' ∧ in_flight g' ∧ offset ≤ n ≤ zlen data ∧
    sent (netif (Stack.ip s)) (netif (Stack.ip s')) frames ∧
    segments_sent (netif (Stack.ip s)) g (send_next_seq g) chunks frames ∧
    segmented g (send_next_seq g) (zlen data - offset) chunks ∧
    concat chunks = sub data offset n ∧ send_next_seq g' = u32_wrapping_add (send_next_seq g) (n - offset) ∧
    (n < zlen data → window_closed g' data n).

(** Closing the connection [g]: a FIN goes out if it is open. *)
Definition close_turn `{!Tun} (s s' : StackState) (h : nat) (g : TCPSocketState) : Prop :=
  stack_ok s' ∧ ∃ g' frames,
    Stack.tcp_sockets s' = <[h := g']> (Stack.tcp_sockets s) ∧ state g' = close_state (state g) ∧
    same_queues g g' ∧ sent (netif (Stack.ip s)) (netif (Stack.ip s')) frames ∧
    if decide (state g = Established ∨ state g = CloseWait)
    then ∃ f, frames = [f] ∧
      is_frame (netif (Stack.ip s)) (send_params g (Z.lor FLAG_FIN FLAG_ACK)) [] f
    else frames = [].

Lemma close_turn_runs `{!Tun, !TunOk, !Random} s h g :
  stack_ok s → Stack.tcp_sockets s !! h = Some g → can_send g →
  runs (zoom (tcp_close h)) s (λ _ s', close_turn s s' h g).
Proof.
  intros Hs Hg Hcs. pose proof Hs as [_ Ht]. apply runs_zoom.
  call (tcp_close_runs (tcp_part s) (Udp.queued (Stack.udp_sockets s)) h g); try done.
  intros _ t (Ht' & g' & frames & Hst & Hsent & Hstate & Hq & _ & Hf).
  split; [by apply (update_tcp_ok s t)|]. exists g', frames. split_and!; try done.
  case_decide; [|done]. destruct Hf as (f & tid & ? & ? & _). by exists f.
Qed.

Lemma write_turn_runs `{!Tun, !TunOk, !Random} s h g woken data offset :
  stack_ok s → Stack.tcp_sockets s !! h = Some g → state g ≠ Closed → can_send g → in_flight g →
  1 ≤ send_mss g ≤ 2560 → bytes_ok data → 0 ≤ offset ≤ zlen data → zlen data < 2147483648 →
  zlen (contents (retransmit_queue g)) + (zlen data - offset) < 2147483648 →
  runs (zoom (tcp_write woken h data offset)) s (λ r s', ∃ n g', write_turn s s' h g g' data offset n ∧
    r = if n =? zlen data then Wrote (as_i32 n) else WaitWindow n).
Proof.
  intros Hs Hg Hst Hcs Hfl Hmss Hb Hoff Hd Htot. pose proof Hs as [_ Ht]. set (k := Udp.queued _) in *.
  apply runs_zoom.
  call (tcp_write_runs woken (tcp_part s) k h g data offset); try done.
  intros r t (t1 & g1 & -> & Ht1 & Hw & Hfl1 & chunks & frames & n & Hn & Hc & Hch & Hstep & Hsg & _ & Hseq & _ & Hr).
  exists n, g1. split.
  - split; [by apply (update_tcp_ok s (put_back t1 h g1))|]. exists chunks, frames. split_and!; try done; try lia.
    + apply list_lookup_insert_eq. rewrite (step_sockets _ _ _ Hstep). by eapply lookup_lt_Some.
    + apply (step_sent _ _ _ Hstep).
    + intros Hlt. destruct r as [|o]; [lia|]. by destruct Hr as (-> & _ & ?).
  - destruct r as [|o].
    + destruct Hr as [-> ->]. by rewrite Z.eqb_refl.
    + destruct Hr as (-> & Hlt & _). by rewrite (proj2 (Z.eqb_neq _ _)) by lia.
Qed.

(** C12: the download.  A turn of tcp_bulk_download takes up to 1500 octets from
    the queue of its connection and prints them if they are UTF-8.  If they are
    not, as when a character is split between two reads, the program panics. *)
Theorem download_correct `{!Tun, !TunOk, !Random} s h g turns :
  let text := take 1500 (contents (receive_queue g)) in
  stack_ok s → Stack.tcp_sockets s !! h = Some g → contents (receive_queue g) ≠ [] →
  zlen (contents (receive_queue g)) ≤ usize_max →
  if from_utf8_ok text then
    runs (download_step (Downloading h (S turns))) s (λ r s', stack_ok s' ∧
      r = (Downloading h turns, text) ∧ ∃ q,
      Stack.tcp_sockets s' = <[h := g <| receive_queue := q |>]> (Stack.tcp_sockets s) ∧
      contents q = drop 1500 (contents (receive_queue g)) ∧
      sent (netif (Stack.ip s)) (netif (Stack.ip s')) [])
  else download_step (Downloading h (S turns)) s = Panic.
Proof.
  intros text Hs Hg Hne Hl. pose proof Hs as [_ Ht]. set (k := Udp.queued (Stack.udp_sockets s)) in *.
  pose proof (read_some (tcp_part s) k h g Ht Hg Hne Hl) as Hr. fold text in Hr.
  apply runs_Ok in Hr as (r & t & E & p & q & data & -> & Hok & Hq & -> & Hn & Hd).
  cbn [download_step]. set (t := put_back _ h _) in *.
  assert (zoom (tcp_read h (zeros 1500)) s = Ok (Some (zlen text, data), update t s)) as Ez.
  { unfold zoom. change (view s) with (tcp_part s). by rewrite E. }
  destruct (from_utf8_ok text) eqn:Hu.
  - apply runs_bind. eapply runs_eq; [exact Ez|]. cbv beta iota.
    rewrite (proj2 (Z.ltb_ge _ _)), (proj2 (Z.ltb_lt _ _)) by lia.
    run. rewrite Hd. run. rewrite Hu. run. split; [by apply update_tcp_ok|]. split; [done|].
    exists q. split_and!; [done|done|]. exact (sent_nil (netif (Stack.ip s)) p).
  - rewrite (bind_Ok _ _ _ _ _ Ez). cbv beta iota.
    rewrite (proj2 (Z.ltb_ge _ _)), (proj2 (Z.ltb_lt _ _)) by lia.
    rewrite (bind_Ok _ _ _ text (update t s)) by (by apply lift_Ok).
    apply bind_Panic, lift_Panic. by rewrite Hu.
Qed.

(** é in two reads and in one. *)
Lemma download_correct_witness :
  @download_step test_tun (Downloading 1 25) (connected_stack [0xc3]) = Panic ∧
  runs (@download_step test_tun (Downloading 1 25)) (connected_stack [0xc3; 0xa9])
    (λ r s', r = (Downloading 1 24, [0xc3; 0xa9]) ∧ stack_ok s').
Proof.
  assert (bytes_ok [0xc3; 0xa9]) as Hb by bytes_solve. assert (bytes_ok [0xc3]) as Hb1 by bytes_solve.
  assert (0 < zlen [0xc3; 0xa9] ≤ 512) as Hl by (by split). assert (0 < zlen [0xc3] ≤ 512) as Hl1 by (by split).
  destruct (one_fragment_ok [0xc3; 0xa9]) as (_ & Hc & _); [done..|].
  destruct (one_fragment_ok [0xc3]) as (_ & Hc1 & _); [done..|].
  assert (contents (receive_queue (connection [0xc3; 0xa9])) = [0xc3; 0xa9]) as Hq by exact Hc.
  assert (contents (receive_queue (connection [0xc3])) = [0xc3]) as Hq1 by exact Hc1.
  split.
  - pose proof (@download_correct test_tun test_tun_ok test_random (connected_stack [0xc3]) 1%nat (connection [0xc3]) 24
      (connected_stack_ok _ Hb1 Hl1) eq_refl) as H.
    rewrite Hq1 in H. apply H; [discriminate|done].
  - pose proof (@download_correct test_tun test_tun_ok test_random (connected_stack [0xc3; 0xa9]) 1%nat (connection [0xc3; 0xa9]) 24
      (connected_stack_ok _ Hb Hl) eq_refl) as H.
    rewrite Hq in H. eapply runs_mono; [apply H; [discriminate|done]|].
    intros r s' (Hok & Hr & _). split; [exact Hr|exact Hok].
Defined.

(** C11: the upload.  Each turn of tcp_bulk_upload on its connection sends the
    pattern on from where it was, in order, in segments that fit the peer's
    window.  If the window stops it, the next segment does not fit and the
    upload waits to go on at that octet; when all of the pattern has been sent,
    and not before, the next turn closes the connection: a FIN follows the last
    octet and the report is all that is left. *)
Theorem upload_correct `{!Tun, !TunOk, !Random} s h g woken offset :
  stack_ok s → Stack.tcp_sockets s !! h = Some g → state g ≠ Closed → can_send g → in_flight g →
  1 ≤ send_mss g ≤ 2560 → 0 ≤ offset ≤ UPLOAD_LENGTH →
  zlen (contents (retransmit_queue g)) + (UPLOAD_LENGTH - offset) < 2147483648 →
  runs (upload_step (Uploading h woken offset)) s (λ st s', ∃ n g',
    write_turn s s' h g g' upload_data offset n ∧ n ≤ UPLOAD_LENGTH ∧
    sub upload_data offset n = map upload_byte (seqZ offset (n - offset)) ∧
    if n =? UPLOAD_LENGTH
    then runs (upload_step st) s' (λ st2 s2, st2 = UploadReporting ∧ close_turn s' s2 h g')
    else st = Uploading h true n).
Proof.
  intros Hs Hg Hst Hcs Hfl Hmss Hoff Htot.
  pose proof (λ n, upload_data_sub n offset) as Hsub. destruct upload_data_ok as [Hb Hl].
  cbn [upload_step]. revert Hb Hl Hsub. generalize upload_data as data. intros data Hb Hl Hsub.
  assert (UPLOAD_LENGTH < 2147483648) as Hlt by (unfold UPLOAD_LENGTH; lia). rewrite <-Hl in *.
  apply runs_bind. call (write_turn_runs s h g woken data offset); try done.
  intros r s' (n & g' & Hturn & ->). run. exists n, g'.
  pose proof Hturn as (Hs' & _ & _ & Hg' & Hw & _ & Hn & _).
  split; [exact Hturn|]. split; [lia|]. split; [apply Hsub; lia|].
  destruct (n =? zlen data); [|done]. apply runs_bind.
  call close_turn_runs; [done|done|by eapply written_can_send|]. intros _ s2 Hc. by run.
Qed.

Lemma server_connection_room : zlen (contents (retransmit_queue server_connection)) + (UPLOAD_LENGTH - 0) < 2147483648.
Proof. by vm_compute. Qed.

Lemma upload_start_in_range : 0 ≤ 0 ≤ UPLOAD_LENGTH.
Proof. by split. Qed.

Lemma upload_correct_witness :
  runs (@upload_step test_tun (Uploading 1 false 0)) server_stack (λ st s', stack_ok s').
Proof.
  assert (state server_connection ≠ Closed) as Hst by discriminate.
  assert (1 ≤ send_mss server_connection ≤ 2560) as Hmss by (by split).
  eapply runs_mono; [exact (@upload_correct test_tun test_tun_ok test_random server_stack 1%nat server_connection
    false 0 server_stack_ok eq_refl Hst server_connection_can_send server_connection_in_flight Hmss
    upload_start_in_range server_connection_room)|].
  intros st s' (n & g' & [Hok _] & _). exact Hok.
Defined.
