(* ===== verification/TestKit.v ===== *)
(** * What the unit tests of src/ are written with

    A unit test is a computation over the fragment pool that panics when an
    assertion fails.  [run_tests] runs tests one after the other on one pool,
    and panics if a test that returns leaves a fragment outside the pool: the check a
    comment in buf.rs says had to be given up because cargo runs tests in
    parallel. *)

From stdpp Require Export strings.
From S2P Require Import Prelude Util Buf BufSpec.
Local Open Scope Z_scope.

Abbreviation test := (ST BufState unit).

(** [assert!(b)] and [assert_eq!(a, b)]. *)
Definition check {S : Type} (b : bool) : ST S unit := lift (rust_assert b).
Definition check_eq {S A : Type} `{!EqDecision A} (a b : A) : ST S unit := check (bool_decide (a = b)).
Definition check_len (buf : NetBuffer) (n : Z) : test := check_eq (NetBuffer_len buf) n.
Definition check_valid (buf : NetBuffer) : test := check (validate_buffer buf).

(** [assert_eq!(l[i], v)] *)
Definition check_at {S : Type} (l : list Z) (i v : Z) : ST S unit :=
  x ← lift (index l i); check_eq x v.

(** [for i in 0..n { assert_eq!(l[i], f i) }] *)
Fixpoint check_each {S : Type} (l : list Z) (f : Z → Z) (indices : list Z) : ST S unit :=
  match indices with
  | [] => mret tt
  | i :: indices => check_at l i (f i);; check_each l f indices
  end.
Definition check_upto {S : Type} (l : list Z) (n : Z) (f : Z → Z) : ST S unit := check_each l f (seqZ 0 n).

(** [assert_eq!(l[a..b], e)] *)
Definition check_slice {S : Type} (l : list Z) (a b : Z) (e : list Z) : ST S unit :=
  x ← lift (slice l a b); check_eq x e.

(** [[v; n]] and the octets [i as u8] for [i] below [n]. *)
Definition rep (v n : Z) : list Z := replicate (Z.to_nat n) v.
Definition counting (n : Z) : list Z := map (truncate u8_size) (seqZ 0 n).

(** A new buffer with the octets [src]. *)
Definition buffer_from (src : list Z) : ST BufState NetBuffer := append_from_slice src NetBuffer_new.

(** [buf.copy_to_slice(&mut dest)] of a zeroed [dest] of [n] octets: the count
    and [dest]. *)
Definition copied (buf : NetBuffer) (n : Z) : ST BufState (Z * list Z) :=
  lift (copy_to_slice buf (zeros n)).

(** The buffers that a test still owns when it ends. *)
Fixpoint drop_all (bufs : list NetBuffer) : test :=
  match bufs with
  | [] => mret tt
  | buf :: bufs => drop_buffer buf;; drop_all bufs
  end.

(** A test, and one with [#[should_panic]]. *)
Inductive unit_test : Type :=
| Test (name : string) (body : test)
| ShouldPanic (name : string) (body : test).

(** All the fragments are in the pool. *)
Definition no_leak : test :=
  s ← fetch;
  check_eq (buffers_allocated (METRICS s)) (buffers_freed (METRICS s));;
  check_eq (zlen (free_list s)) (buffers_created (METRICS s)).

(** A test that should panic does so; what unwinding then does to the pool is
    not modelled, and the next test starts as if it had not run. *)
Fixpoint run_tests (tests : list unit_test) : test :=
  match tests with
  | [] => mret tt
  | Test _ body :: tests => body;; no_leak;; run_tests tests
  | ShouldPanic _ body :: tests => λ s,
      match body s with
      | Panic => run_tests tests s
      | _ => Panic
      end
  end.
