(* ===== verification/UtilTests.v ===== *)
(** * The unit tests of util.rs *)

From S2P Require Import Prelude Util Text Buf Checksum TestKit.
Local Open Scope Z_scope.

(** [assert_eq!(m, v)] of a call that may panic. *)
Definition check_call {A : Type} `{!EqDecision A} (m : outcome A) (v : A) : test :=
  x ← lift m; check_eq x v.

Definition test_compute_ones_comp : test :=
  check_call (compute_ones_comp 0 [0x00; 0x00]) 0;;
  check_call (compute_ones_comp 0 [0x00; 0x01]) 0x1;;
  check_call (compute_ones_comp 0 [0x00; 0xff]) 0xff;;
  check_call (compute_ones_comp 0 [0xff; 0x23; 0xef; 0x55]) 0xee79.

Definition test_compute_checksum : test :=
  check_call (compute_checksum [0x00; 0x00]) 0xffff;;
  check_call (compute_checksum [0x00; 0x01]) 0xfffe;;
  check_call (compute_checksum [0x00; 0xff]) 0xff00;;
  check_call (compute_checksum [0xff; 0x23; 0xef; 0x55]) 0x1186.

Definition test_compute_packet_ones_comp : test :=
  buffer ← buffer_from [0x12; 0x34];
  check_call (compute_buffer_ones_comp 0 buffer) 0x1234;;
  drop_all [buffer].

(** [for _ in 0..n { buffer.append_from_slice(src) }] *)
Fixpoint append_times (n : nat) (src : list Z) (buffer : NetBuffer) : ST BufState NetBuffer :=
  match n with
  | O => mret buffer
  | S n => buffer ← append_from_slice src buffer; append_times n src buffer
  end.

Definition test_compute_packet_ones_comp_multiple_fragments : test :=
  buffer ← append_times 512 [0x12; 0x34] NetBuffer_new;
  check_call (compute_buffer_ones_comp 0 buffer) 0x6824;;
  drop_all [buffer].

Definition test_compute_ones_comp_odd_length : test :=
  check_call (compute_ones_comp 0 [0x12; 0x34; 0x56]) 0x6834.

Definition test_get_be16 : test :=
  check_call (get_be16 [0x00; 0x00]) 0x0000;;
  check_call (get_be16 [0x35; 0xa5]) 0x35a5.

Definition test_get_be32 : test :=
  check_call (get_be32 [0xde; 0xad; 0xbe; 0xef]) 0xdeadbeef;;
  check_call (get_be32 [0x00; 0x00; 0x00; 0x01]) 0x00000001;;
  check_call (get_be32 [0x00; 0x00; 0x00; 0xff]) 0x000000ff;;
  check_call (get_be32 [0x00; 0x00; 0xff; 0x00]) 0x0000ff00;;
  check_call (get_be32 [0x00; 0xff; 0x00; 0x00]) 0x00ff0000;;
  check_call (get_be32 [0xff; 0x00; 0x00; 0x00]) 0xff000000.

(** A store into [buffer] and a check of what it holds then. *)
Definition check_store (m : list Z → outcome (list Z)) (buffer expected : list Z) : ST BufState (list Z) :=
  buffer ← lift (m buffer); check_eq buffer expected;; mret buffer.

Definition test_set_be16 : test :=
  buffer ← check_store (set_be16 0x0000) (zeros 2) [0x00; 0x00];
  buffer ← check_store (set_be16 0x0001) buffer [0x00; 0x01];
  buffer ← check_store (set_be16 0x00ff) buffer [0x00; 0xff];
  buffer ← check_store (set_be16 0x0100) buffer [0x01; 0x00];
  check_store (set_be16 0xffff) buffer [0xff; 0xff];;
  mret tt.

Definition test_set_be32 : test :=
  buffer ← check_store (set_be32 0x00000000) (zeros 4) [0x00; 0x00; 0x00; 0x00];
  buffer ← check_store (set_be32 0x00000001) buffer [0x00; 0x00; 0x00; 0x01];
  buffer ← check_store (set_be32 0x000000ff) buffer [0x00; 0x00; 0x00; 0xff];
  buffer ← check_store (set_be32 0x00000100) buffer [0x00; 0x00; 0x01; 0x00];
  buffer ← check_store (set_be32 0x0000ffff) buffer [0x00; 0x00; 0xff; 0xff];
  buffer ← check_store (set_be32 0x00010000) buffer [0x00; 0x01; 0x00; 0x00];
  buffer ← check_store (set_be32 0x00ffffff) buffer [0x00; 0xff; 0xff; 0xff];
  buffer ← check_store (set_be32 0x01000000) buffer [0x01; 0x00; 0x00; 0x00];
  check_store (set_be32 0xdeadbeef) buffer [0xde; 0xad; 0xbe; 0xef];;
  mret tt.

Definition test_ip_to_str_v4 : test :=
  ip ← lift (IPAddr_new_from [18; 52; 86; 120]);
  check_call (IPAddr_fmt ip) "18.52.86.120"%string.

Definition test_ip_to_str_v6 : test :=
  ip ← lift (IPAddr_new_from [0x20; 0x1; 0x0d; 0xb8; 0xac; 0x10; 0xfe; 0x01; 0; 0; 0; 0; 0; 0; 0; 0]);
  check_call (IPAddr_fmt ip) "2001:0db8:ac10:fe01::::"%string.

Definition test_copy_to : test :=
  ip ← lift (IPAddr_new_from [192; 168; 1; 1]);
  check_call (IPAddr_copy_to ip (zeros 4)) [192; 168; 1; 1].

Definition test_seq_compare : test :=
  check_eq (seq_gt 0x00000001 0x00000000) true;;
  check_eq (seq_gt 0x00000000 0x00000001) false;;
  check_eq (seq_gt 0x00001234 0x00001234) false;;
  check_eq (seq_gt 0x7fffffff 0x80000000) false;;
  check_eq (seq_gt 0x80000000 0x7fffffff) true;;
  check_eq (seq_gt 0xffffffff 0x00000000) false;;
  check_eq (seq_gt 0x00000000 0xffffffff) true;;
  check_eq (seq_ge 0x00000001 0x00000000) true;;
  check_eq (seq_ge 0x00000000 0x00000001) false;;
  check_eq (seq_ge 0x00001234 0x00001234) true;;
  check_eq (seq_ge 0x7fffffff 0x80000000) false;;
  check_eq (seq_ge 0x80000000 0x7fffffff) true;;
  check_eq (seq_ge 0xffffffff 0x00000000) false;;
  check_eq (seq_ge 0x00000000 0xffffffff) true;;
  check_eq (seq_lt 0x00000001 0x00000000) false;;
  check_eq (seq_lt 0x00000000 0x00000001) true;;
  check_eq (seq_lt 0x00001234 0x00001234) false;;
  check_eq (seq_lt 0x7fffffff 0x80000000) true;;
  check_eq (seq_lt 0x80000000 0x7fffffff) false;;
  check_eq (seq_lt 0xffffffff 0x00000000) true;;
  check_eq (seq_lt 0x00000000 0xffffffff) false;;
  check_eq (seq_le 0x00000001 0x00000000) false;;
  check_eq (seq_le 0x00000000 0x00000001) true;;
  check_eq (seq_le 0x00001234 0x00001234) true;;
  check_eq (seq_le 0x7fffffff 0x80000000) true;;
  check_eq (seq_le 0x80000000 0x7fffffff) false;;
  check_eq (seq_le 0xffffffff 0x00000000) true;;
  check_eq (seq_le 0x00000000 0xffffffff) false.

Definition test_compute_pseudo_header_checksum_v4 : test :=
  source_ip ← lift (IPAddr_new_from [192; 168; 1; 1]);
  dest_ip ← lift (IPAddr_new_from [192; 168; 1; 2]);
  check_call (compute_pseudo_header_checksum source_ip dest_ip 20 6) 0x836e.

Definition test_compute_pseudo_header_checksum_v6 : test :=
  source_ip ← lift (IPAddr_new_from
    [0x20; 0x01; 0x0d; 0xb8; 0xac; 0x10; 0xfe; 0x01; 0; 0; 0; 0; 0; 0; 0; 0]);
  dest_ip ← lift (IPAddr_new_from
    [0x20; 0x01; 0x0d; 0xb8; 0xac; 0x10; 0xfe; 0x02; 0; 0; 0; 0; 0; 0; 0; 0]);
  check_call (compute_pseudo_header_checksum source_ip dest_ip 20 6) 0xafb2.

Definition util_tests : list unit_test := [
  Test "test_compute_ones_comp" test_compute_ones_comp;
  Test "test_compute_checksum" test_compute_checksum;
  Test "test_compute_packet_ones_comp" test_compute_packet_ones_comp;
  Test "test_compute_packet_ones_comp_multiple_fragments" test_compute_packet_ones_comp_multiple_fragments;
  Test "test_compute_ones_comp_odd_length" test_compute_ones_comp_odd_length;
  Test "test_get_be16" test_get_be16;
  Test "test_get_be32" test_get_be32;
  Test "test_set_be16" test_set_be16;
  Test "test_set_be32" test_set_be32;
  Test "test_ip_to_str_v4" test_ip_to_str_v4;
  Test "test_ip_to_str_v6" test_ip_to_str_v6;
  Test "test_copy_to" test_copy_to;
  Test "test_seq_compare" test_seq_compare;
  Test "test_compute_pseudo_header_checksum_v4" test_compute_pseudo_header_checksum_v4;
  Test "test_compute_pseudo_header_checksum_v6" test_compute_pseudo_header_checksum_v6
].
