(* ===== verification/BufTests.v ===== *)
(** * The unit tests of buf.rs *)

From S2P Require Import Prelude Util Buf BufSpec TestKit.
Local Open Scope Z_scope.

(** ** New buffers *)

Definition test_new_prealloc : test :=
  buf ← new_prealloc 1000;
  check_len buf 1000;;
  check (negb (is_empty buf));;
  check_valid buf;;
  drop_all [buf].

Definition test_new_prealloc_zero : test :=
  buf ← new_prealloc 0;
  check_len buf 0;;
  check (is_empty buf);;
  check_valid buf;;
  drop_all [buf].

(** ** Iteration *)

(** [iter.next()] and what it returns. *)
Definition next_slice (it : BufferIterator) : ST BufState (list Z * BufferIterator) :=
  '(o, it) ← lift (BufferIterator_next it);
  sl ← lift (unwrap o);
  mret (sl, it).

(** [assert!(iter.next().is_none())] *)
Definition check_end (it : BufferIterator) : test :=
  '(o, it) ← lift (BufferIterator_next it);
  check (match o with None => true | Some _ => false end).

Definition test_iter1 : test :=
  buf ← append_from_slice (rep 1 512) NetBuffer_new;
  buf ← append_from_slice (rep 2 512) buf;
  buf ← append_from_slice (rep 3 512) buf;
  '(slice1, it) ← next_slice (Buf.iter buf 1500);
  check_eq (zlen slice1) 512;; check_at slice1 0 1;; check_at slice1 511 1;;
  '(slice2, it) ← next_slice it;
  check_eq (zlen slice2) 512;; check_at slice2 0 2;; check_at slice2 511 2;;
  '(slice3, it) ← next_slice it;
  check_eq (zlen slice3) 476;; check_at slice3 0 3;; check_at slice3 475 3;;
  check_end it;;
  drop_all [buf].

Definition test_iter2 : test :=
  buf ← append_from_slice (rep 1 512) NetBuffer_new;
  check_end (Buf.iter buf 0);;
  drop_all [buf].

Definition test_iter_empty : test :=
  let buf := NetBuffer_new in
  check_end (Buf.iter buf usize_max);;
  drop_all [buf].

(** ** Headers *)

Definition test_header : test :=
  buf ← append_from_slice (rep 1 512) NetBuffer_new;
  buf ← alloc_header 20 buf;
  header ← lift (header buf);
  check_eq (zlen header) 20;; check_at header 0 0;; check_at header 19 0;;
  drop_all [buf].

Definition test_header_empty : test :=
  let buf := NetBuffer_new in
  lift (header buf);;
  drop_all [buf].

(** [header[i] = a; header[j] = b] *)
Definition store2 (i a j b : Z) (header : list Z) : outcome (list Z) :=
  header ← store header i a; store header j b.

Definition test_header_mut : test :=
  buf ← append_from_slice (rep 1 512) NetBuffer_new;
  buf ← alloc_header 20 buf;
  buf ← lift (header_mut buf (store2 0 0xcc 19 0x55));
  '(_, dest) ← copied buf 512;
  check_at dest 0 0xcc;; check_at dest 19 0x55;; check_at dest 20 1;;
  drop_all [buf].

Definition test_header_mut_empty : test :=
  let buf := NetBuffer_new in
  buf ← lift (header_mut buf Ok);
  drop_all [buf].

Definition test_alloc_header : test :=
  buf ← append_from_slice (rep 1 100) NetBuffer_new;
  check_len buf 100;;
  check_valid buf;;
  buf ← alloc_header 20 buf;
  check_len buf 120;;
  check_valid buf;;
  buf ← lift (header_mut buf (store2 0 1 19 2));
  buf ← alloc_header 20 buf;
  check_len buf 140;;
  check_valid buf;;
  buf ← lift (header_mut buf (store2 0 3 19 4));
  header ← lift (header buf);
  check_at header 0 3;; check_at header 19 4;; check_at header 20 1;; check_at header 39 2;;
  drop_all [buf].

Definition test_alloc_header_empty : test :=
  let buf := NetBuffer_new in
  check (is_empty buf);;
  buf ← alloc_header 20 buf;
  check (negb (is_empty buf));;
  check_len buf 20;;
  check (negb (is_empty buf));;
  check_valid buf;;
  drop_all [buf].

Definition test_alloc_header_too_large : test :=
  let buf := NetBuffer_new in
  buf ← alloc_header 1000 buf;
  drop_all [buf].

(** ** Trimming *)

Definition test_trim_head1 : test :=
  buf ← append_from_slice (counting 512) NetBuffer_new;
  check_len buf 512;;
  buf ← trim_head 20 buf;
  check_len buf 492;;
  check_valid buf;;
  check (negb (is_empty buf));;
  '(_, dest) ← copied buf 512;
  check_upto dest 492 (λ i, truncate u8_size (i + 20));;
  drop_all [buf].

Definition test_trim_head2 : test :=
  buf ← append_from_slice (counting 512) NetBuffer_new;
  check_len buf 512;;
  buf ← alloc_header 20 buf;
  buf ← trim_head 40 buf;
  check_len buf 492;;
  check (negb (is_empty buf));;
  check_valid buf;;
  header ← lift (header buf);
  check_at header 0 20;; check_at header 5 25;;
  drop_all [buf].

Definition test_trim_head_entire_buffer : test :=
  buf ← append_from_slice [1; 2; 3; 4; 5] NetBuffer_new;
  check_len buf 5;;
  buf ← trim_head 5 buf;
  check_len buf 0;;
  check (is_empty buf);;
  check_valid buf;;
  drop_all [buf].

Definition test_trim_head_larger : test :=
  buf ← append_from_slice [1; 2; 3; 4; 5] NetBuffer_new;
  check_len buf 5;;
  buf ← trim_head 6 buf;
  drop_all [buf].

Definition test_trim_head_zero : test :=
  buf ← append_from_slice [1; 2; 3; 4; 5] NetBuffer_new;
  check_len buf 5;;
  buf ← trim_head 0 buf;
  check_len buf 5;;
  check (negb (is_empty buf));;
  check_valid buf;;
  drop_all [buf].

Definition test_trim_tail : test :=
  buf ← append_from_slice (counting 512) NetBuffer_new;
  check_len buf 512;;
  buf ← trim_tail 20 buf;
  check_len buf 492;;
  check_valid buf;;
  '(_, dest) ← copied buf 512;
  check_upto dest 492 (truncate u8_size);;
  drop_all [buf].

Definition test_trim_tail2 : test :=
  buf ← append_from_slice (rep 1 512) NetBuffer_new;
  check_len buf 512;;
  buf ← append_from_slice (rep 2 20) buf;
  check_len buf 532;;
  buf ← trim_tail 40 buf;
  check_len buf 492;;
  check_valid buf;;
  '(_, dest) ← copied buf 492;
  check_slice dest 0 492 (rep 1 492);;
  drop_all [buf].

Definition test_trim_entire_buffer : test :=
  buf ← append_from_slice [1; 2; 3; 4; 5] NetBuffer_new;
  check_len buf 5;;
  buf ← trim_tail 5 buf;
  check_len buf 0;;
  check (is_empty buf);;
  check_valid buf;;
  drop_all [buf].

Definition test_trim_tail_larger : test :=
  buf ← append_from_slice [1; 2; 3; 4; 5] NetBuffer_new;
  check_len buf 5;;
  buf ← trim_tail 6 buf;
  drop_all [buf].

Definition test_trim_tail_zero : test :=
  buf ← append_from_slice [1; 2; 3; 4; 5] NetBuffer_new;
  check_len buf 5;;
  buf ← trim_tail 0 buf;
  check_len buf 5;;
  check_valid buf;;
  drop_all [buf].

(** ** Appending slices *)

Definition test_append_from_slice : test :=
  buf ← append_from_slice [1; 2; 3; 4; 5] NetBuffer_new;
  check_len buf 5;;
  check_valid buf;;
  buf ← append_from_slice [6; 7; 8; 9; 10] buf;
  check_len buf 10;;
  check_valid buf;;
  buf ← append_from_slice [11; 12; 13; 14; 15] buf;
  check_len buf 15;;
  check_valid buf;;
  '(_, dest) ← copied buf 15;
  check_eq dest [1; 2; 3; 4; 5; 6; 7; 8; 9; 10; 11; 12; 13; 14; 15];;
  drop_all [buf].

Definition test_append_from_slice_zero : test :=
  buf ← append_from_slice [1; 2; 3; 4] NetBuffer_new;
  check_len buf 4;;
  buf ← append_from_slice [] buf;
  check_len buf 4;;
  check_valid buf;;
  drop_all [buf].

Definition test_grow_buffer : test :=
  let slice1 := rep 1 500 in
  buf ← append_from_slice (rep 1 500) NetBuffer_new;
  check_len buf 500;;
  let slice2 := rep 2 1500 in
  buf ← append_from_slice (rep 2 1500) buf;
  check_len buf 2000;;
  check_valid buf;;
  '(_, dest) ← copied buf 2000;
  check_slice dest 0 500 slice1;;
  check_slice dest 500 2000 slice2;;
  drop_all [buf].

(** [for _ in 0..n { ... buflist.push(buffer) }] *)
Fixpoint grow_list (n : nat) (buflist : list NetBuffer) : ST BufState (list NetBuffer) :=
  match n with
  | O => mret buflist
  | S n =>
      buffer ← append_from_slice (rep 1 512) NetBuffer_new;
      grow_list n (buflist ++ [buffer])
  end.

Definition test_grow_pool : test :=
  buflist ← grow_list 32 [];
  drop_all buflist.

(** ** Copying out *)

Definition test_copy_to_slice1 : test :=
  buf ← append_from_slice [1; 2; 3; 4; 5; 6; 7; 8; 9; 10; 11; 12; 13; 14; 15] NetBuffer_new;
  '(copied, dest) ← copied buf 20;
  check_eq dest [1; 2; 3; 4; 5; 6; 7; 8; 9; 10; 11; 12; 13; 14; 15; 0; 0; 0; 0; 0];;
  check_eq copied 15;;
  check_len buf 15;;
  drop_all [buf].

Definition test_copy_to_slice2 : test :=
  buf ← append_from_slice [1; 2; 3; 4; 5; 6; 7; 8; 9; 10; 11; 12; 13; 14; 15] NetBuffer_new;
  '(copied, dest) ← copied buf 10;
  check_eq dest [1; 2; 3; 4; 5; 6; 7; 8; 9; 10];;
  check_eq copied 10;;
  drop_all [buf].

Definition test_copy_empty_buffer_to_slice : test :=
  let buf := NetBuffer_new in
  '(copied, _) ← copied buf 10;
  check_eq copied 0;;
  drop_all [buf].

(** ** Appending buffers *)

(** A buffer of three fragments. *)
Definition three_fragments (a b c : Z) : ST BufState NetBuffer :=
  buf ← append_from_slice (rep a 512) NetBuffer_new;
  buf ← append_from_slice (rep b 512) buf;
  append_from_slice (rep c 512) buf.

Definition test_append_from_buffer : test :=
  buf1 ← three_fragments 1 2 3;
  check_len buf1 1536;;
  buf2 ← three_fragments 4 5 6;
  buf1 ← append_from_buffer buf2 1000 buf1;
  check_len buf1 2536;;
  check_valid buf1;;
  check_valid buf2;;
  '(_, dest) ← copied buf1 3000;
  check_slice dest 0 512 (rep 1 512);;
  check_slice dest 512 1024 (rep 2 512);;
  check_slice dest 1024 1536 (rep 3 512);;
  check_slice dest 1536 2048 (rep 4 512);;
  check_slice dest 2048 2536 (rep 5 488);;
  check_len buf1 2536;;
  drop_all [buf2; buf1].

Definition test_append_buffer1 : test :=
  buf1 ← three_fragments 1 2 3;
  check_len buf1 1536;;
  buf2 ← three_fragments 4 5 6;
  check_len buf1 1536;;
  buf1 ← lift (append_buffer buf2 buf1);
  check_len buf1 3072;;
  check_valid buf1;;
  '(_, dest) ← copied buf1 1536;
  check_slice dest 0 512 (rep 1 512);;
  check_slice dest 512 1024 (rep 2 512);;
  check_slice dest 1024 1536 (rep 3 512);;
  check_len buf1 3072;;
  drop_all [buf1].

Definition test_append_to_empty : test :=
  let buf1 := NetBuffer_new in
  buf2 ← append_from_slice (rep 1 512) NetBuffer_new;
  buf1 ← lift (append_buffer buf2 buf1);
  check_len buf1 512;;
  check_valid buf1;;
  '(_, dest) ← copied buf1 512;
  check_slice dest 0 512 (rep 1 512);;
  drop_all [buf1].

Definition test_append_empty_buffer : test :=
  buf1 ← append_from_slice [1; 2; 3; 4; 5] NetBuffer_new;
  check_len buf1 5;;
  let buf2 := NetBuffer_new in
  buf1 ← lift (append_buffer buf2 buf1);
  check_len buf1 5;;
  check_valid buf1;;
  '(_, dest) ← copied buf1 5;
  check_eq dest [1; 2; 3; 4; 5];;
  drop_all [buf1].

Definition test_append_empty_to_empty : test :=
  let buf1 := NetBuffer_new in
  let buf2 := NetBuffer_new in
  buf1 ← lift (append_buffer buf2 buf1);
  check_len buf1 0;;
  check_valid buf1;;
  drop_all [buf1].

(** ** Sequences of operations *)

Definition test_receive_flow : test :=
  buf ← append_from_slice (counting 512) NetBuffer_new;
  check_len buf 512;;
  x ← lift (header buf);
  check_at x 5 5;;
  buf ← trim_head 40 buf;
  check_len buf 472;;
  y ← lift (header buf);
  check_at y 0 40;;
  buf ← trim_head 20 buf;
  check_len buf 452;;
  check_valid buf;;
  receive_queue ← lift (append_buffer buf NetBuffer_new);
  check_len receive_queue 452;;
  check_valid receive_queue;;
  '(_, dest) ← copied receive_queue 452;
  check_upto dest 452 (λ i, truncate u8_size (i + 60));;
  receive_queue ← trim_head 452 receive_queue;
  check_len receive_queue 0;;
  check_valid receive_queue;;
  drop_all [receive_queue].

Definition test_transmit_flow : test :=
  buf ← append_from_slice (counting 512) NetBuffer_new;
  check_len buf 512;;
  buf ← alloc_header 40 buf;
  check_len buf 552;;
  buf ← lift (header_mut buf (store2 0 100 39 102));
  buf ← alloc_header 20 buf;
  check_len buf 572;;
  buf ← lift (header_mut buf (store2 0 103 19 104));
  check_valid buf;;
  '(_, out_data) ← copied buf 572;
  check_at out_data 0 103;;
  check_at out_data 19 104;;
  check_at out_data 20 100;;
  check_at out_data 59 102;;
  check_at out_data 60 0;;
  check_at out_data 67 7;;
  check_at out_data 570 254;;
  check_at out_data 571 255;;
  drop_all [buf].

Definition buf_tests : list unit_test := [
  Test "test_new_prealloc" test_new_prealloc;
  Test "test_new_prealloc_zero" test_new_prealloc_zero;
  Test "test_iter1" test_iter1;
  Test "test_iter2" test_iter2;
  Test "test_iter_empty" test_iter_empty;
  Test "test_header" test_header;
  ShouldPanic "test_header_empty" test_header_empty;
  Test "test_header_mut" test_header_mut;
  ShouldPanic "test_header_mut_empty" test_header_mut_empty;
  Test "test_alloc_header" test_alloc_header;
  Test "test_alloc_header_empty" test_alloc_header_empty;
  ShouldPanic "test_alloc_header_too_large" test_alloc_header_too_large;
  Test "test_trim_head1" test_trim_head1;
  Test "test_trim_head2" test_trim_head2;
  Test "test_trim_head_entire_buffer" test_trim_head_entire_buffer;
  ShouldPanic "test_trim_head_larger" test_trim_head_larger;
  Test "test_trim_head_zero" test_trim_head_zero;
  Test "test_trim_tail" test_trim_tail;
  Test "test_trim_tail2" test_trim_tail2;
  Test "test_trim_entire_buffer" test_trim_entire_buffer;
  ShouldPanic "test_trim_tail_larger" test_trim_tail_larger;
  Test "test_trim_tail_zero" test_trim_tail_zero;
  Test "test_append_from_slice" test_append_from_slice;
  Test "test_append_from_slice_zero" test_append_from_slice_zero;
  Test "test_grow_buffer" test_grow_buffer;
  Test "test_grow_pool" test_grow_pool;
  Test "test_copy_to_slice1" test_copy_to_slice1;
  Test "test_copy_to_slice2" test_copy_to_slice2;
  Test "test_copy_empty_buffer_to_slice" test_copy_empty_buffer_to_slice;
  Test "test_append_from_buffer" test_append_from_buffer;
  Test "test_append_buffer1" test_append_buffer1;
  Test "test_append_to_empty" test_append_to_empty;
  Test "test_append_empty_buffer" test_append_empty_buffer;
  Test "test_append_empty_to_empty" test_append_empty_to_empty;
  Test "test_receive_flow" test_receive_flow;
  Test "test_transmit_flow" test_transmit_flow
].
