(* ===== verification/TcpTests.v ===== *)
(** * The unit tests of tcp.rs, which are about the reassembler *)

From S2P Require Import Prelude Util Text Buf BufSpec Reassembler TestKit.
Local Open Scope Z_scope.

Definition check_next (reassembler : TCPReassembler) (n : Z) : test :=
  check_eq (get_next_expect reassembler) n.
Definition check_waiting (reassembler : TCPReassembler) (n : Z) : test :=
  check_eq (zlen (out_of_order reassembler)) n.
Definition is_some {A : Type} (o : option A) : bool := match o with Some _ => true | None => false end.
Definition is_none {A : Type} (o : option A) : bool := negb (is_some o).

(** The buffers of [Option<NetBuffer>] and of the reassembler, which the end of
    a test drops. *)
Definition owned (result : option NetBuffer) : list NetBuffer :=
  match result with Some packet => [packet] | None => [] end.
Definition drop_both (result : option NetBuffer) (reassembler : TCPReassembler) : test :=
  drop_all (owned result ++ map snd (out_of_order reassembler)).

(** The packet's length and contents. *)
Definition check_packet (result : option NetBuffer) (len : Z) : ST BufState (list Z) :=
  new_packet ← lift (unwrap result);
  check_len new_packet len;;
  '(_, data) ← copied new_packet len;
  mret data.

Definition test_reassemble_inorder : test :=
  let reassembler := set_next_expect 1234 TCPReassembler_new in
  packet ← buffer_from (as_bytes "hello");
  '(reassembler, result) ← add_packet packet 1234 reassembler;
  check (is_some result);;
  new_packet ← lift (unwrap result);
  check_next reassembler 1239;;
  check_len new_packet 5;;
  '(got, data) ← copied new_packet 5;
  check_eq got 5;;
  drop_both result reassembler.

Definition test_reassemble_ooo : test :=
  let reassembler := set_next_expect 1000 TCPReassembler_new in
  packet1 ← buffer_from (rep 1 100);
  packet2 ← buffer_from (rep 2 100);
  '(reassembler, result) ← add_packet packet2 1100 reassembler;
  check (is_none result);;
  check_next reassembler 1000;;
  '(reassembler, result) ← add_packet packet1 1000 reassembler;
  check (is_some result);;
  check_next reassembler 1200;;
  data ← check_packet result 200;
  check_at data 0 1;; check_at data 99 1;; check_at data 100 2;; check_at data 199 2;;
  drop_both result reassembler.

Definition test_reassemble_stale1 : test :=
  let reassembler := set_next_expect 1000 TCPReassembler_new in
  packet1 ← buffer_from (rep 1 100);
  '(reassembler, result) ← add_packet packet1 900 reassembler;
  check (is_none result);;
  check_next reassembler 1000;;
  packet2 ← buffer_from (rep 2 100);
  '(reassembler, result) ← add_packet packet2 1000 reassembler;
  check (is_some result);;
  check_next reassembler 1100;;
  check_waiting reassembler 0;;
  drop_both result reassembler.

Definition test_reassemble_stale2 : test :=
  let reassembler := set_next_expect 1000 TCPReassembler_new in
  packet1 ← buffer_from (rep 1 100);
  '(reassembler, result) ← add_packet packet1 1200 reassembler;
  check (is_none result);;
  check_next reassembler 1000;;
  packet2 ← buffer_from (rep 2 100);
  '(reassembler, result) ← add_packet packet2 900 reassembler;
  check (is_none result);;
  check_next reassembler 1000;;
  packet3 ← buffer_from (rep 3 100);
  '(reassembler, result) ← add_packet packet3 1000 reassembler;
  check (is_some result);;
  check_next reassembler 1100;;
  data ← check_packet result 100;
  check_at data 0 3;; check_at data 99 3;;
  check_waiting reassembler 1;;
  drop_both result reassembler.

Definition test_reassemble_wrap : test :=
  let reassembler := set_next_expect 0xffffff00 TCPReassembler_new in
  packet1 ← buffer_from (rep 1 0x100);
  '(reassembler, result) ← add_packet packet1 0xfffffe00 reassembler;
  check (is_none result);;
  packet2 ← buffer_from (rep 2 0x200);
  '(reassembler, result) ← add_packet packet2 0xffffff00 reassembler;
  check (is_some result);;
  check_next reassembler 0x100;;
  data ← check_packet result 0x200;
  check_at data 0 2;; check_at data 199 2;;
  check_waiting reassembler 0;;
  drop_both result reassembler.

Definition test_reassemble_reorder_wrap : test :=
  let reassembler := set_next_expect 0xfffffe00 TCPReassembler_new in
  packet1 ← buffer_from (rep 1 0x200);
  '(reassembler, result) ← add_packet packet1 0xffffff00 reassembler;
  check (is_none result);;
  packet2 ← buffer_from (rep 2 0x100);
  '(reassembler, result) ← add_packet packet2 0xfffffe00 reassembler;
  check (is_some result);;
  check_next reassembler 0x100;;
  drop_both result reassembler.

Definition test_reassemble_multiple : test :=
  let reassembler := set_next_expect 1000 TCPReassembler_new in
  packet1 ← buffer_from (rep 1 100);
  packet2 ← buffer_from (rep 2 100);
  packet3 ← buffer_from (rep 3 100);
  '(reassembler, result) ← add_packet packet2 1100 reassembler;
  check (is_none result);;
  check_next reassembler 1000;;
  '(reassembler, result) ← add_packet packet3 1200 reassembler;
  check (is_none result);;
  check_next reassembler 1000;;
  '(reassembler, result) ← add_packet packet1 1000 reassembler;
  check (is_some result);;
  check_next reassembler 1300;;
  data ← check_packet result 300;
  check_at data 0 1;; check_at data 99 1;; check_at data 100 2;; check_at data 199 2;;
  check_at data 200 3;; check_at data 299 3;;
  drop_both result reassembler.

Definition test_reassemble_overlap1 : test :=
  let reassembler := set_next_expect 1000 TCPReassembler_new in
  packet2 ← buffer_from (rep 2 100);
  '(reassembler, result) ← add_packet packet2 1100 reassembler;
  check (is_none result);;
  check_next reassembler 1000;;
  packet1_prime ← buffer_from (rep 3 150);
  '(reassembler, result) ← add_packet packet1_prime 1000 reassembler;
  check (is_some result);;
  check_next reassembler 1150;;
  data ← check_packet result 150;
  check_at data 0 3;; check_at data 99 3;; check_at data 100 3;; check_at data 149 3;;
  check_waiting reassembler 1;;
  drop_both result reassembler.

Definition test_reassemble_overlap2 : test :=
  let reassembler := set_next_expect 1000 TCPReassembler_new in
  packet3 ← buffer_from (rep 3 100);
  '(reassembler, result) ← add_packet packet3 1200 reassembler;
  check (is_none result);;
  check_next reassembler 1000;;
  packet2 ← buffer_from (rep 2 150);
  '(reassembler, result) ← add_packet packet2 1100 reassembler;
  check (is_none result);;
  check_next reassembler 1000;;
  packet1 ← buffer_from (rep 1 100);
  '(reassembler, result) ← add_packet packet1 1000 reassembler;
  check (is_some result);;
  check_next reassembler 1250;;
  data ← check_packet result 250;
  check_at data 0 1;; check_at data 99 1;; check_at data 100 2;; check_at data 249 2;;
  check_waiting reassembler 1;;
  drop_both result reassembler.

Definition tcp_tests : list unit_test := [
  Test "test_reassemble_inorder" test_reassemble_inorder;
  Test "test_reassemble_ooo" test_reassemble_ooo;
  Test "test_reassemble_stale1" test_reassemble_stale1;
  Test "test_reassemble_stale2" test_reassemble_stale2;
  Test "test_reassemble_wrap" test_reassemble_wrap;
  Test "test_reassemble_reorder_wrap" test_reassemble_reorder_wrap;
  Test "test_reassemble_multiple" test_reassemble_multiple;
  Test "test_reassemble_overlap1" test_reassemble_overlap1;
  Test "test_reassemble_overlap2" test_reassemble_overlap2
].
