(* ===== verification/TimerTests.v ===== *)
(** * The unit tests of timer.rs

    The closures of the tests set shared flags.  While a test sleeps the timer
    thread, which a test started, makes a round every 50 ms; [phase] is how far
    into such an interval of the test's own clock its rounds fall. *)

From S2P Require Import Prelude Timer TestKit.
Local Open Scope Z_scope.

(** An [Arc<Mutex<bool>>] that a closure sets: the index of the flag. *)
Record FlagState : Type := {
  flag_timers : TimerState nat;
  flags : list bool;
}.

#[export] Instance eta_FlagState : Eta FlagState := λ s, Build_FlagState (flag_timers s) (flags s).

#[export, program] Instance flag_state_timers : Lens FlagState (TimerState nat) := {|
  view := flag_timers;
  update t s := s <| flag_timers := t |>
|}.
Solve All Obligations with by intros []; intros.

(** [Arc::new(Mutex::new(false))]: the index of the new flag. *)
Definition new_flag : ST FlagState nat :=
  l ← fetches flags; modify (λ s, s <| flags := l ++ [false] |>);; mret (length l).

Definition run_flag (flag : nat) : ST FlagState unit := modify (λ s, s <| flags ::= λ l, <[flag := true]> l |>).
Definition check_flag (flag : nat) (b : bool) : ST FlagState unit :=
  l ← fetches flags; check_eq (l !! flag) (Some b).

Definition advance_clock (ms : Z) : ST FlagState unit :=
  modify (λ s, s <| flag_timers ::= λ t, t <| current_time_ms ::= Z.add ms |> |>).

(** One interval of the timer thread during a [sleep]. *)
Definition interval (phase : Z) : ST FlagState unit :=
  advance_clock phase;;
  n ← fetches (λ s, length (PENDING_TIMERS (flag_timers s)));
  tick run_flag (S n);;
  advance_clock (TIMER_INTERVAL - phase).

Fixpoint intervals (n : nat) (phase : Z) : ST FlagState unit :=
  match n with
  | O => mret tt
  | S n => interval phase;; intervals n phase
  end.

Definition sleep (phase ms : Z) : ST FlagState unit := intervals (Z.to_nat (ms / TIMER_INTERVAL)) phase.

Section Tests.
Variable phase : Z.

Definition test_set_timer : ST FlagState unit :=
  flag ← new_flag;
  zoom (set_timer 100 flag);;
  sleep phase 300;;
  check_flag flag true.

Definition test_cancel_timer : ST FlagState unit :=
  flag ← new_flag;
  timer_id ← zoom (set_timer 100 flag);
  cancelled ← zoom (cancel_timer timer_id);
  check_eq cancelled true;;
  sleep phase 300;;
  check_flag flag false.

Definition test_multiple_timers : ST FlagState unit :=
  flag1 ← new_flag;
  flag2 ← new_flag;
  zoom (set_timer 500 flag1);;
  zoom (set_timer 100 flag2);;
  sleep phase 300;;
  check_flag flag1 false;;
  check_flag flag2 true;;
  sleep phase 400;;
  check_flag flag1 true.

Definition timer_tests : ST FlagState unit :=
  test_set_timer;; test_cancel_timer;; test_multiple_timers.

End Tests.

Definition start_timer_thread (now : Z) : FlagState :=
  {| flag_timers := TimerState_init now; flags := [] |}.
