(* ===== verification/UnitTests.v ===== *)
(** * The program's unit tests pass *)

From S2P Require Import Prelude Util Buf BufSpec Timer TestKit UtilTests BufTests TcpTests TimerTests.
Local Open Scope Z_scope.

Definition unit_tests : list unit_test := util_tests ++ buf_tests ++ tcp_tests.

Definition is_ok {A : Type} (m : outcome A) : bool := match m with Ok _ => true | _ => false end.

Lemma is_ok_runs {S A} (m : ST S A) s : is_ok (m s) = true → runs m s (λ _ _, True).
Proof. unfold runs. by destruct (m s). Qed.

(** The timer thread's rounds may fall anywhere in the intervals of a sleep. *)
Lemma timer_tests_all_phases :
  forallb (λ phase, is_ok (timer_tests phase (start_timer_thread 1000000))) (seqZ 0 50) = true.
Proof. by vm_compute. Qed.

(** The unit tests of util.rs, buf.rs and tcp.rs, run one after another on one
    pool, and those of timer.rs, wherever the rounds of the timer thread fall:
    each test returns, or panics if it should.  After each test of util.rs, buf.rs
    and tcp.rs that returns every fragment is back in the pool; the pool is not
    looked at after a test that should panic, nor in the tests of timer.rs,
    which use no buffers. *)
Theorem unit_tests_pass :
  length unit_tests = 60%nat ∧
  runs (run_tests unit_tests) (FragmentPool_new METRICS_new) (λ _ s,
    buffers_allocated (METRICS s) = buffers_freed (METRICS s) ∧
    zlen (free_list s) = 32 ∧ buffers_created (METRICS s) = 32) ∧
  ∀ phase, 0 ≤ phase < TIMER_INTERVAL →
    runs (timer_tests phase) (start_timer_thread 1000000) (λ _ _, True).
Proof.
  split; [done|]. split; [by vm_compute|]. intros phase Hp. apply is_ok_runs.
  pose proof timer_tests_all_phases as H. rewrite forallb_forall in H.
  apply (H phase), list_elem_of_In, elem_of_seqZ. lia.
Qed.

Lemma unit_tests_pass_witness : runs (timer_tests 7) (start_timer_thread 1000000) (λ _ _, True).
Proof. apply unit_tests_pass. by split. Defined.
